(* ===== verification/_CoqProject ===== *)
-Q . S2P
Prelude.v
GoString.v
NetIP.v
GoText.v
NetParse.v
GoFlag.v
GoJson.v
GoJsonInv.v
JsonCodec.v
Packet.v
Proto.v
ExpireMap.v
Network.v
NetworkInv.v
Config.v
ConfigInv.v
ConfigFile.v
UserManager.v
UserInv.v
Gateway.v
GatewayInv.v
Punch.v
PunchInv.v
Dns.v
DnsInv.v
ExitNode.v
ExitNodeInv.v
DeviceList.v
DebugStore.v
DebugStoreInv.v
Debug.v
DebugInv.v
UmStore.v
UmStoreInv.v
UmFile.v
Migrations.v
MigrationsInv.v
Controller.v
GatewayFile.v
DeviceAuth.v
DeviceAuthInv.v
Registration.v
RegistrationInv.v
ControllerInv.v
ControllerUser.v
Onboarding.v
StreamHub.v
StreamHubInv.v
SessionWriter.v
Session.v
SessionInv.v
Admin.v
StoreQueries.v
AdminInv.v
ServerInv.v
AdminWire.v
AdminWireInv.v
AdminCli.v
CliOutput.v
AdminCliInv.v
CliOutputInv.v
Transport.v
Startup.v
StartupInv.v
