(* ===== verification/Prelude.v ===== *)
(** * sdl-control: a verification development

    sdl-control is the control plane of an overlay network.  Devices connect over
    QUIC, authenticate with a ticket and a key, register in a virtual network and
    are given an address, the list of their peers and grants for relay gateways;
    gateways report to it; an administrator manages users, devices, gateways and
    exit nodes.  The model follows the Go code under [src/] function by function:
    a struct is a [Record], a function or method the [Definition] of the same name,
    a handler a function from the state and the clock reading to the new state and
    its result, an [error] the [Err] of [result], and a Go map a [gmap].  Go visits a
    map in any order: whatever depends on it takes a [RangeOrder] and is proved for
    all of them.

    ** Parts and files

    - [Prelude] (this file): results and their notation, Go slices and clocks, map
      orders, tactics and hint databases, generic lemmas.
    - [GoString], [GoText], [NetIP], [NetParse], [GoFlag]: what the code uses of Go's
      [strings], [strconv], [sort], [net], [flag] and of [util/utils.go].  [GoJson],
      [GoJsonInv]: [encoding/json], from texts to trees and back.  [JsonCodec]: struct
      tags, with the law [transfers] between the type of the sender and that of the
      receiver.
    - [Packet] ([protocol/packet.go], [control_packet.go]): the wire header.
      [Proto]: the protobuf messages; their codec is the class [ProtoMessage].
    - [ExpireMap] ([control/expire_map.go]): the map with deadlines.
    - [Network], [NetworkInv] ([control/ip.go], [network.go]): client tables,
      address allocation, presence.
    - [Config], [ConfigInv] ([config/config.go]): validation and group resolution.
      [ConfigFile]: the JSON of the configuration, and the file that is shipped.
    - [UserManager], [UserInv] ([control/user.go]): users, enrolments, tickets,
      authenticated devices and their names.
    - [UmStore], [UmStoreInv] ([control/user_store_postgres.go], [user_store.go],
      [gateway_store.go]): the database store of the user manager, table by table and
      in a transaction, and the two file stores.  [UmFile] ([user_store.go],
      [user.go]): the JSON of the user manager's file.  [StoreQueries] ([store/postgres.go]):
      reading lists of rows.  [Migrations], [MigrationsInv]
      ([control/store/migrations.go]): schema migrations.
    - [Gateway], [GatewayInv] ([control/gateway.go]): reports, replay protection,
      approval, access grants.  [GatewayFile] ([gateway_store.go]): the JSON of the
      approvals.
    - [Punch], [PunchInv] ([control/punch.go]): client status, hole punching, pings.
    - [Dns], [DnsInv] ([control/dns.go], [dns_proxy.go]): profiles and snapshots.
    - [ExitNode], [ExitNodeInv] ([control/exit_node.go], [store/postgres.go]).
    - [DeviceList] ([control/device_list.go]): the administrator's list of devices.
    - [DebugStore], [DebugStoreInv] ([control/debug_store.go]): snapshots on disk, over
      a finite-map file system.  [Debug], [DebugInv] ([control/debug_collect.go],
      [debug_watch.go]): requests to devices, their answers and who waits for them.
    - [Controller], [DeviceAuth], [DeviceAuthInv], [Registration],
      [RegistrationInv] ([control/controller.go], [controller_user.go],
      [registration.go]): the state of the whole controller, the challenge and proof
      handlers, and the handlers that compose the components.  [ControllerInv]: every
      handler keeps the whole state well formed.  [ControllerUser]: the forwarding
      methods.  [Onboarding]: ticket, challenge, proof and registration in a row.
    - [StreamHub], [StreamHubInv] and [Session], [SessionInv] ([handlers/quic.go]): the
      registry of streams, and a control session: bytes to frames, the dispatch of
      every packet to its handler, answers and pushes.  [SessionWriter]: goroutines
      that write to one session, step by step under its mutex.
    - [Admin], [AdminInv] ([handlers/admin_api.go], [admin_http.go], [admin_unix.go],
      [admin_types.go]): the administrative actions and who may run them.
    - [ServerInv]: sessions, administration and registry as one transition system.
    - [AdminWire], [AdminWireInv] ([admin_types.go], [cmd/sdl-admin/main.go]): the
      struct tags of both sides of the administration socket.
    - [AdminCli], [CliOutput], [AdminCliInv], [CliOutputInv] ([cmd/sdl-admin/main.go]):
      the administration tool: its commands and flags, what it prints, and its run
      against the server's side of the socket.
    - [Transport] ([handlers/http3.go], [quic.go], [ws.go], [status.go], [admin_unix.go]):
      which requests and connections become sessions, and closing them.
    - [Startup], [StartupInv] ([main.go], [config/config.go], [control/controller.go]):
      from the environment, the files and the database to a server that listens.

    ** What the theorems show

    - The whole server: however sessions, frames and administrative requests
      interleave, its state stays well formed, and a frame for an address of a network
      reaches only a session that registered that address in that network.
    - Invariants of every reachable state: the user manager, the gateways, the
      client tables (a device has one address, an address one client), the waiters
      of debug requests.
    - Safety of the handlers: registration needs the device's key; a ticket and a
      challenge are used once; an accepted gateway report is not accepted again;
      a grant is for an approved gateway; a deleted or refused device loses its
      presence; lists and pushes stay within the network scope; an HTTP request
      changes something only with the token and POST; files for a device stay below
      the configured directory.
    - Start-up: a server listens only after its configuration, its database schema,
      its certificates and the token of its administration have been checked; after
      [migrate] the schema check passes; and a server started on what it stored before
      keeps every invariant above.
    - The administration tool sends only well-typed requests, can send all of them
      (writing one as a command line and parsing it gives it back), reaches the server
      only with a command line that parses, and then does what the request does; its
      tables line up and colours change no text, and what it prints as JSON reads back
      as the answer.  The tool and the server, which share no type, read each other's
      JSON lines as what was sent.
    - Functional behaviour: the least free address is chosen, departures, status
      reports, deadlines and pings do what they should, on error branches too.
    - Equivalence, refinement and round trips: the wildcard table decides the usual
      relation, the expiring map is a map with deadlines, memory and table of the
      exit nodes agree, the registry of streams is one map from routes to sessions, the
      database store is a variable with the last committed snapshot and a restart
      gives the manager back, packets decode to what was encoded, and a session
      handles the framed packets however the transport cuts the bytes.  Writes of several
      goroutines to a session leave the stream of writes one after the other.  The file
      of approved gateways and the file of the user manager are read back, from their
      JSON, at the next start.
    - Bounds: in a validated configuration the 32-bit address arithmetic does not
      wrap; a session buffers less than one frame of the greatest length.
    - Liveness: a device that holds a fresh ticket and its key gets through challenge,
      proof and registration and ends online at an address of its owner's network; the
      answer to a debug request reaches the administrator who asked.
    - Error theorems record behaviours the code has and should not have, such as the
      race on a ticket and the panic on a short key.

    ** Parameters and fuel

    Code that is not in the repository is a parameter: the protobuf codec, SHA-256,
    HMAC, Ed25519, Unicode tables, URL parsing, random bytes, the outcome of storage
    and of the network.  Loops of the code are folds or structural recursion; the
    two searches ([scan_free_ip], [uniqueDisplayNameLocked]) take as fuel the number
    of candidates that can be taken plus one, and are proved to find a result within
    it whenever one exists; the loop over the frames of a buffer ([serve_frames])
    takes the length of the buffer plus one, which is proved to be enough: every
    frame removes at least five bytes.  The JSON parser takes twice the length of the
    text plus one, which is enough ([parse_fuel]): more fuel changes nothing.  Integers keep their width where the code can
    wrap (addresses, epochs, ports, sequence numbers).  Each critical section is one
    step; functions with several are split where a theorem depends on it.  In [Session],
    [Admin] and [ServerInv] handling one packet or one administrative request is one
    step, whose clock readings, random bytes and outcomes of writing and saving are
    an environment given to it; the waits of debug requests are separate steps.

    ** Not modelled

    The TLS handshake, the certificate manager and the listening sockets
    ([handlers/http.go]); QUIC, HTTP/3 and WebSocket themselves, which [Transport] gives
    by their outcomes; the signal handler and the orderly shutdown; the driver of the
    database; the text of SQL, of times, of floating-point numbers and of JSON errors,
    and log output.  What the flag package prints
    about a bad flag is left out; the tool's own usage follows it. *)
From stdpp Require Export gmap strings list fin_maps pretty sorting.
From coqutil Require Export Datatypes.RecordSettersUsingExistingGetters.
From Stdlib Require Export ZArith Lia.
From Stdlib Require Export Strings.Byte.

#[global] Open Scope string_scope.
#[global] Open Scope list_scope.
#[global] Open Scope Z_scope.

(** ** Errors

    A Go function returning [(T, error)] becomes a function into [result T];
    the error is its [Error()] text, because [classifyRegistrationError] and
    the acknowledgements inspect that text. *)
Inductive result (A : Type) : Type :=
| Ok (a : A)
| Err (msg : string).
Arguments Ok {A} a.
Arguments Err {A} msg.

Declare Scope go_scope.
Delimit Scope go_scope with go.
#[global] Open Scope go_scope.

Definition rbind {A B} (r : result A) (k : A → result B) : result B :=
  match r with Ok a => k a | Err e => Err e end.

Notation "'let?' x := r 'in' k" := (rbind r (λ x, k))
  (at level 10, x binder, r at level 100, k at level 200) : go_scope.

Definition is_Ok {A} (r : result A) : Prop := ∃ a, r = Ok a.

Lemma rbind_Ok {A B} (r : result A) (k : A → result B) b :
  rbind r k = Ok b ↔ ∃ a, r = Ok a ∧ k a = Ok b.
Proof.
  destruct r; simpl; split; [by eauto|by intros (? & [= ->] & ?)|done|by intros (? & [=] & _)].
Qed.

(** ** Machine integers: the wrap-around of Go's unsigned types. *)
Definition u8 (z : Z) : Z := z mod 2 ^ 8.
Definition u16 (z : Z) : Z := z mod 2 ^ 16.
Definition u32 (z : Z) : Z := z mod 2 ^ 32.
Definition u64 (z : Z) : Z := z mod 2 ^ 64.

(** Bitwise complement of a [uint32]: [^x] in Go. *)
Definition not32 (z : Z) : Z := Z.lxor z (Z.ones 32).

(** ** Bytes *)
Definition b2z (b : byte) : Z := Z.of_N (Byte.to_N b).
Definition z2b (z : Z) : byte :=
  match Byte.of_N (Z.to_N (z mod 256)) with Some b => b | None => x00 end.

Lemma b2z_range b : 0 ≤ b2z b < 256.
Proof. unfold b2z. pose proof (Byte.to_N_bounded b). lia. Qed.

Lemma z2b_b2z b : z2b (b2z b) = b.
Proof. by destruct b. Qed.

Lemma b2z_z2b z : b2z (z2b z) = z mod 256.
Proof.
  unfold z2b. pose proof (Z.mod_pos_bound z 256 ltac:(lia)).
  destruct (Byte.of_N (Z.to_N (z mod 256))) as [b|] eqn:E.
  - apply Byte.to_of_N in E. unfold b2z. rewrite E. lia.
  - apply Byte.of_N_None_iff in E. lia.
Qed.

Lemma b2z_inj a b : b2z a = b2z b → a = b.
Proof. intros E. by rewrite <-(z2b_b2z a), E, z2b_b2z. Qed.

#[export] Instance byte_eq_dec : EqDecision byte := Byte.byte_eq_dec.

(** ** Ranging over a Go map

    The order in which [range] visits a map is unspecified, so it is an
    argument: any function that lists the bindings of a map in some order. *)
Record RangeOrder := {
  range_map : ∀ (K : Type) (E : EqDecision K) (C : Countable K) (A : Type), gmap K A → list (K * A);
  range_map_perm : ∀ K E C A (m : gmap K A), range_map K E C A m ≡ₚ map_to_list m
}.
Definition range (o : RangeOrder) `{Countable K} {A} (m : gmap K A) : list (K * A) :=
  range_map o K _ _ A m.

Lemma elem_of_range (o : RangeOrder) `{Countable K} {A} (m : gmap K A) k v :
  (k, v) ∈ range o m ↔ m !! k = Some v.
Proof. unfold range. by rewrite range_map_perm, elem_of_map_to_list. Qed.

Lemma range_NoDup_fst (o : RangeOrder) `{Countable K} {A} (m : gmap K A) :
  NoDup ((range o m).*1).
Proof. unfold range. rewrite range_map_perm. apply NoDup_fst_map_to_list. Qed.

(** Two concrete orders, for examples. *)
Definition ascending : RangeOrder :=
  {| range_map := λ K E C A m, map_to_list m; range_map_perm := λ K E C A m, reflexivity _ |}.
Definition descending : RangeOrder :=
  {| range_map := λ K E C A m, reverse (map_to_list m);
     range_map_perm := λ K E C A m, reverse_Permutation _ |}.

(** ** Search loops

    [for i := start; taken(i); i++]: the first index that is not taken.  [fuel]
    bounds the iterations; [first_free_pigeonhole] shows how much is enough. *)
Fixpoint first_free (fuel : nat) (taken : Z → bool) (i : Z) : Z :=
  match fuel with
  | O => i
  | S fuel' => if taken i then first_free fuel' taken (i + 1) else i
  end.

Lemma first_free_spec fuel taken i :
  i ≤ first_free fuel taken i ≤ i + Z.of_nat fuel
  ∧ (∀ j, i ≤ j < first_free fuel taken i → taken j = true)
  ∧ (taken (first_free fuel taken i) = true → first_free fuel taken i = i + Z.of_nat fuel).
Proof.
  revert i. induction fuel as [|fuel IH]; intros i; cbn [first_free].
  - split_and!; [lia..|intros; lia|intros; lia].
  - destruct (taken i) eqn:Hi.
    + destruct (IH (i + 1)) as (Hr & Hlt & Hlast). split_and!; [lia..| |].
      * intros j Hj. destruct (decide (j = i)) as [->|]; [done|]. apply Hlt. lia.
      * intros Ht. apply Hlast in Ht. lia.
    + split_and!; [lia..|intros; lia|congruence].
Qed.

Lemma pigeonhole {A} (f : nat → A) (l : list A) :
  (∀ i j, (i ≤ length l)%nat → (j ≤ length l)%nat → f i = f j → i = j) →
  ¬ (∀ i, (i ≤ length l)%nat → f i ∈ l).
Proof.
  intros Hinj Hall.
  assert (Hnd : NoDup (f <$> seq 0 (S (length l)))).
  { apply NoDup_fmap_2_strong; [|apply NoDup_seq].
    intros i j Hi%elem_of_seq Hj%elem_of_seq E. apply Hinj; [lia|lia|done]. }
  assert (Hsub : f <$> seq 0 (S (length l)) ⊆+ l).
  { apply NoDup_submseteq; [done|]. intros x (i & -> & Hi%elem_of_seq)%list_elem_of_fmap. apply Hall. lia. }
  apply submseteq_length in Hsub. rewrite length_fmap, length_seq in Hsub. lia.
Qed.

(** When a taken index is witnessed by an element of [l] and distinct indices
    have distinct witnesses, [length l] iterations find a free one. *)
Lemma first_free_pigeonhole {A} (key : Z → A) (l : list A) taken i :
  (∀ j, taken j = true → key j ∈ l) →
  (∀ j k, i ≤ j ≤ i + Z.of_nat (length l) → i ≤ k ≤ i + Z.of_nat (length l) → key j = key k → j = k) →
  taken (first_free (length l) taken i) = false.
Proof.
  intros Hkey Hinj. destruct (first_free_spec (length l) taken i) as (Hr & Hlt & Hlast).
  destruct (taken (first_free (length l) taken i)) eqn:E; [|done]. exfalso. specialize (Hlast eq_refl).
  apply (pigeonhole (λ n, key (i + Z.of_nat n)) l).
  - intros a b Ha Hb Hab. apply Hinj in Hab; lia.
  - intros a Ha. apply Hkey. destruct (decide (a = length l)) as [->|]; [by rewrite <-Hlast|].
    apply Hlt. lia.
Qed.

(** ** Automation *)
Create HintDb sdl discriminated.

(** Split the branch conditions of a translated function. *)
Ltac split_ifs :=
  repeat match goal with
  | H : context [match ?x with _ => _ end] |- _ => destruct x eqn:?; simplify_eq/=
  | |- context [match ?x with _ => _ end] => destruct x eqn:?; simplify_eq/=
  end.

(** Decide boolean connectives in hypotheses. *)
Ltac bool_prop :=
  repeat match goal with
  | H : _ && _ = true |- _ => apply andb_true_iff in H as [? ?]
  | H : _ || _ = false |- _ => apply orb_false_iff in H as [? ?]
  | H : negb _ = true |- _ => apply negb_true_iff in H
  | H : negb _ = false |- _ => apply negb_false_iff in H
  | H : bool_decide _ = true |- _ => apply bool_decide_eq_true in H
  | H : bool_decide _ = false |- _ => apply bool_decide_eq_false in H
  | H : (_ <? _) = true |- _ => apply Z.ltb_lt in H
  | H : (_ <? _) = false |- _ => apply Z.ltb_ge in H
  | H : (_ <=? _) = true |- _ => apply Z.leb_le in H
  | H : (_ <=? _) = false |- _ => apply Z.leb_gt in H
  | H : (_ =? _) = true |- _ => apply Z.eqb_eq in H
  | H : (_ =? _) = false |- _ => apply Z.eqb_neq in H
  end.
