(* ===== verification/GoString.v ===== *)
(** * The parts of Go's [strings] and [unicode/utf8] packages that the control
    plane uses.

    A Go string is a sequence of bytes; Rocq's [string] is a sequence of 8-bit
    characters, so the two coincide and [len] is [String.length].  [TrimSpace]
    removes Unicode white space, whose UTF-8 encodings are spelled out below;
    [EqualFold] compares decoded runes up to simple case folding, whose table
    (a data file of the Go distribution) is the class [UnicodeFold]. *)
From S2P Require Import Prelude.
From Stdlib Require Export Ascii.

Definition z_of_ascii (c : ascii) : Z := Z.of_N (N_of_ascii c).

(** [strings.HasPrefix], [HasSuffix], [Contains], [TrimSuffix], [TrimPrefix]. *)
Definition HasPrefix (s p : string) : bool := String.prefix p s.

Fixpoint HasSuffix (s suf : string) : bool :=
  bool_decide (s = suf) || match s with EmptyString => false | String _ t => HasSuffix t suf end.

Fixpoint Contains (s sub : string) : bool :=
  String.prefix sub s || match s with EmptyString => false | String _ t => Contains t sub end.

Fixpoint TrimSuffix (s suf : string) : string :=
  if bool_decide (s = suf) then "" else
  match s with EmptyString => "" | String c t => if HasSuffix t suf then String c (TrimSuffix t suf) else s end.

Definition TrimPrefix (s p : string) : string :=
  if HasPrefix s p then String.substring (String.length p) (String.length s - String.length p) s else s.

(** ** White space

    [unicode.IsSpace] on the UTF-8 encoding: one byte (tab to carriage return,
    space), two bytes (U+0085, U+00A0) or three bytes (U+1680, U+2000..U+200A,
    U+2028, U+2029, U+202F, U+205F, U+3000). *)
Definition space1 (a : ascii) : bool :=
  let n := z_of_ascii a in (n =? 32) || ((9 <=? n) && (n <=? 13)).
Definition space2 (a b : ascii) : bool :=
  let m := z_of_ascii a in let n := z_of_ascii b in (m =? 0xC2) && ((n =? 0x85) || (n =? 0xA0)).
Definition space3 (a b c : ascii) : bool :=
  let l := z_of_ascii a in let m := z_of_ascii b in let n := z_of_ascii c in
  ((l =? 0xE1) && (m =? 0x9A) && (n =? 0x80))
  || ((l =? 0xE2) && (m =? 0x80)
      && (((0x80 <=? n) && (n <=? 0x8A)) || (n =? 0xA8) || (n =? 0xA9) || (n =? 0xAF)))
  || ((l =? 0xE2) && (m =? 0x81) && (n =? 0x9F))
  || ((l =? 0xE3) && (m =? 0x80) && (n =? 0x80)).

(** Remove the leading white-space runes of a byte list; [dir] tells whether the
    list is in reading order or reversed (then a rune's bytes come last first). *)
Fixpoint trim_front (dir : bool) (l : list ascii) : list ascii :=
  match l with
  | [] => []
  | a :: l1 =>
      if space1 a then trim_front dir l1 else
      match l1 with
      | [] => l
      | b :: l2 =>
          if (if dir then space2 a b else space2 b a) then trim_front dir l2 else
          match l2 with
          | [] => l
          | c :: l3 => if (if dir then space3 a b c else space3 c b a) then trim_front dir l3 else l
          end
      end
  end.

Definition TrimSpace (s : string) : string :=
  String.string_of_list_ascii
    (reverse (trim_front false (reverse (trim_front true (String.list_ascii_of_string s))))).

(** ** Runes *)
Definition cont (b : ascii) : bool := let n := z_of_ascii b in (0x80 <=? n) && (n <=? 0xBF).
Definition within (b : ascii) (lo hi : Z) : bool := let n := z_of_ascii b in (lo <=? n) && (n <=? hi).
Definition low6 (b : ascii) : Z := Z.land (z_of_ascii b) 0x3F.
Definition runeError : Z := 0xFFFD.

(** [utf8.DecodeRune] on a non-empty byte list [a :: l1]: the rune and the number
    of bytes of [l1] it uses; an invalid encoding is U+FFFD and uses none. *)
Definition decode_rune (a : ascii) (l1 : list ascii) : Z * nat :=
  let n := z_of_ascii a in
  if n <? 0x80 then (n, 0%nat) else
  match l1 with
  | [] => (runeError, 0%nat)
  | b :: l2 =>
      if within a 0xC2 0xDF && cont b
      then (Z.lor (Z.shiftl (Z.land n 0x1F) 6) (low6 b), 1%nat) else
      match l2 with
      | [] => (runeError, 0%nat)
      | c :: l3 =>
          if within a 0xE0 0xEF
             && within b (if n =? 0xE0 then 0xA0 else 0x80) (if n =? 0xED then 0x9F else 0xBF)
             && cont c
          then (Z.lor (Z.shiftl (Z.land n 0x0F) 12) (Z.lor (Z.shiftl (low6 b) 6) (low6 c)), 2%nat)
          else
          match l3 with
          | [] => (runeError, 0%nat)
          | d :: _ =>
              if within a 0xF0 0xF4
                 && within b (if n =? 0xF0 then 0x90 else 0x80) (if n =? 0xF4 then 0x8F else 0xBF)
                 && cont c && cont d
              then (Z.lor (Z.shiftl (Z.land n 0x07) 18)
                      (Z.lor (Z.shiftl (low6 b) 12) (Z.lor (Z.shiftl (low6 c) 6) (low6 d))), 3%nat)
              else (runeError, 0%nat)
          end
      end
  end.

(** The runes of a byte list after [skip] bytes, in the order a [range] loop
    over the string yields them. *)
Fixpoint runes (skip : nat) (l : list ascii) : list Z :=
  match l, skip with
  | [], _ => []
  | _ :: l1, S k => runes k l1
  | a :: l1, O => (decode_rune a l1).1 :: runes (decode_rune a l1).2 l1
  end.

Definition string_runes (s : string) : list Z := runes 0 (String.list_ascii_of_string s).

(** Simple case folding: [fold_rune r] is the least rune of the orbit of [r]
    under [unicode.SimpleFold]; on ASCII that is the upper-case letter. *)
Class UnicodeFold := {
  fold_rune : Z → Z;
  fold_rune_ascii : ∀ r, 0 ≤ r < 128 →
    fold_rune r = if (97 <=? r) && (r <=? 122) then r - 32 else r
}.

Definition fold_key `{UnicodeFold} (s : string) : list Z := fold_rune <$> string_runes s.
Definition EqualFold `{UnicodeFold} (s t : string) : bool := bool_decide (fold_key s = fold_key t).

(** The folding restricted to ASCII: an instance to compute with. *)
Definition ascii_fold (r : Z) : Z := if (97 <=? r) && (r <=? 122) then r - 32 else r.
Definition AsciiFold : UnicodeFold := {| fold_rune := ascii_fold; fold_rune_ascii := λ r _, eq_refl |}.

(** ** Decimal numbers: [strconv.FormatUint(v, 10)] and [fmt]'s [%d]. *)
Definition dec (z : Z) : string := pretty z.


(** [fmt]'s [%q] in error texts: the double quote, the backslash and ASCII control
    characters are escaped; bytes above 127 are kept as they are. *)
Definition hex_digit (n : Z) : ascii :=
  ascii_of_N (Z.to_N (if n <? 10 then 48 + n else 87 + n)).

Definition quote_char (c : ascii) : string :=
  let n := z_of_ascii c in
  let esc (d : ascii) := String "\" (String d "") in
  if (n =? 34) || (n =? 92) then esc c
  else if n =? 7 then esc "a"%char else if n =? 8 then esc "b"%char else if n =? 12 then esc "f"%char
  else if n =? 10 then esc "n"%char else if n =? 13 then esc "r"%char else if n =? 9 then esc "t"%char
  else if n =? 11 then esc "v"%char
  else if (n <? 32) || (n =? 127)
  then String "\" (String "x" (String (hex_digit (n / 16)) (String (hex_digit (n mod 16)) "")))
  else String c "".

Definition dquote : string := String (ascii_of_nat 34) "".

Definition Quote (s : string) : string :=
  dquote +:+ foldr (λ c acc, quote_char c +:+ acc) "" (String.list_ascii_of_string s) +:+ dquote.

(** ** Lemmas: concatenation *)
Definition chars (s : string) : list ascii := String.list_ascii_of_string s.

Lemma chars_app s t : chars (s +:+ t) = chars s ++ chars t.
Proof. induction s; simpl; [done|]. by f_equal. Qed.

Lemma chars_inj s t : chars s = chars t → s = t.
Proof.
  unfold chars. intros E. by rewrite <-(String.string_of_list_ascii_of_string s), <-(String.string_of_list_ascii_of_string t), E.
Qed.

Lemma chars_of_list l : chars (String.string_of_list_ascii l) = l.
Proof. apply String.list_ascii_of_string_of_list_ascii. Qed.

Lemma string_app_assoc (a b c : string) : (a +:+ b) +:+ c = a +:+ b +:+ c.
Proof. apply chars_inj. by rewrite !chars_app, (assoc (++)). Qed.

Lemma string_app_nil_r (a : string) : a +:+ "" = a.
Proof. apply chars_inj. rewrite chars_app. apply app_nil_r. Qed.

Lemma string_app_inj_r (a b c : string) : a +:+ c = b +:+ c → a = b.
Proof.
  intros E%(f_equal chars). rewrite !chars_app in E. apply chars_inj. by simplify_list_eq.
Qed.

Lemma length_chars s : length (chars s) = String.length s.
Proof. induction s; simpl; auto. Qed.

(** A separator splits a string in one way when it does not occur before it. *)
Lemma list_sep_inj {A} (c : A) (x x' y y' : list A) :
  c ∉ x → c ∉ x' → x ++ c :: y = x' ++ c :: y' → x = x' ∧ y = y'.
Proof.
  revert x'. induction x as [|a x IH]; intros [|a' x'] Hx Hx' E; simplify_list_eq.
  - done.
  - by destruct Hx'; left.
  - by destruct Hx; left.
  - apply not_elem_of_cons in Hx as [_ Hx]. apply not_elem_of_cons in Hx' as [_ Hx'].
    by destruct (IH x' Hx Hx' ltac:(done)) as [-> ->].
Qed.

Lemma sep_inj_first (c : ascii) (x x' y y' : string) :
  c ∉ chars x → c ∉ chars x' →
  x +:+ String c y = x' +:+ String c y' → x = x' ∧ y = y'.
Proof.
  intros Hx Hx' E%(f_equal chars). rewrite !chars_app in E. simpl in E.
  apply list_sep_inj in E as [? ?]; [|done..]. split; by apply chars_inj.
Qed.

Lemma sep_inj_last (c : ascii) (x x' y y' : string) :
  c ∉ chars y → c ∉ chars y' →
  x +:+ String c y = x' +:+ String c y' → x = x' ∧ y = y'.
Proof.
  intros Hy Hy' E%(f_equal (λ s, reverse (chars s))). rewrite !chars_app in E. simpl in E.
  rewrite !reverse_app, !reverse_cons, <-!(assoc (++)) in E. simpl in E.
  apply list_sep_inj in E as [E1 E2]; [|by rewrite elem_of_reverse..].
  apply (inj reverse) in E1, E2. split; by apply chars_inj.
Qed.

(** ** Lemmas: prefixes and suffixes *)
Lemma HasPrefix_spec s p : HasPrefix s p = true ↔ ∃ t, s = p +:+ t.
Proof.
  unfold HasPrefix. revert s. induction p as [|c p IH]; intros s.
  { split; [by exists s|by destruct s]. }
  destruct s as [|d s]; [split; [done|by intros [? ?]]|].
  change (String.prefix (String c p) (String d s))
    with (if Ascii.ascii_dec c d then String.prefix p s else false).
  destruct (Ascii.ascii_dec c d) as [->|Hne].
  - rewrite IH. split; intros [t E]; exists t; [by rewrite E|by injection E].
  - split; [done|]. intros [t E]. by injection E.
Qed.

Lemma HasSuffix_spec s suf : HasSuffix s suf = true ↔ ∃ p, s = p +:+ suf.
Proof.
  induction s as [|c s IH]; simpl.
  - rewrite orb_false_r, bool_decide_eq_true. split; [intros <-; by exists ""|].
    intros [[|? ?] E]; done.
  - rewrite orb_true_iff, bool_decide_eq_true, IH. split.
    + intros [<-|[p ->]]; [by exists ""|by exists (String c p)].
    + intros [[|d p] E]; [by left|right; exists p; by injection E].
Qed.

Lemma TrimSuffix_app p suf : TrimSuffix (p +:+ suf) suf = p.
Proof.
  induction p as [|c p IH]; simpl.
  - unfold String.append. destruct suf; [done|]. cbn [TrimSuffix]. by rewrite bool_decide_eq_true_2.
  - rewrite bool_decide_eq_false_2.
    + rewrite (proj2 (HasSuffix_spec _ _)) by eauto. by rewrite IH.
    + intros E%(f_equal (λ s, length (chars s))). simpl in E. rewrite chars_app, length_app in E. lia.
Qed.

(** ** Lemmas: decimal numbers *)
Definition is_digit (c : ascii) : Prop := 48 ≤ z_of_ascii c ≤ 57.

Lemma pretty_N_go_digits x s : Forall is_digit (chars s) → Forall is_digit (chars (pretty_N_go x s)).
Proof.
  revert s. induction (N.lt_wf_0 x) as [x _ IH]; intros s Hs.
  destruct (decide (0 < x)%N) as [Hx|Hx].
  - rewrite pretty_N_go_step by done. apply IH; [by apply N.div_lt|].
    simpl. constructor; [|done].
    unfold pretty_N_char, is_digit. repeat case_match; vm_compute; split; congruence.
  - assert (x = 0)%N as -> by lia. by rewrite pretty_N_go_0.
Qed.

Lemma dec_digits z : 0 ≤ z → Forall is_digit (chars (dec z)).
Proof.
  intros Hz. unfold dec, pretty, pretty_Z. destruct z as [|p|p]; [|..|lia].
  - constructor; [|constructor]. vm_compute; split; congruence.
  - unfold pretty, pretty_positive, pretty, pretty_N. case_decide; [done|].
    by apply pretty_N_go_digits.
Qed.

Lemma dec_no_char (c : ascii) z : ¬ is_digit c → 0 ≤ z → c ∉ chars (dec z).
Proof. intros Hc Hz Hin. apply Hc. eapply Forall_forall, Hin. by apply dec_digits. Qed.

Lemma dec_inj x y : dec x = dec y → x = y.
Proof. apply (inj pretty). Qed.

Ltac not_digit := let H := fresh in intros H; vm_compute in H; destruct H; congruence.

(** ** Lemmas: white space *)

(** The list starts with a white-space rune (read in direction [dir]). *)
Definition starts_space (dir : bool) (l : list ascii) : bool :=
  match l with
  | [] => false
  | a :: l1 =>
      space1 a
      || match l1 with
         | [] => false
         | b :: l2 =>
             (if dir then space2 a b else space2 b a)
             || match l2 with
                | [] => false
                | c :: _ => if dir then space3 a b c else space3 c b a
                end
         end
  end.

Lemma trim_front_id dir l : starts_space dir l = false → trim_front dir l = l.
Proof. destruct l as [|a [|b [|c l]]]; simpl; intros; repeat case_match; bool_prop; congruence. Qed.

Lemma trim_front_spec dir l :
  starts_space dir (trim_front dir l) = false ∧ ∃ p, l = p ++ trim_front dir l.
Proof.
  remember (length l) as n eqn:Hn. revert l Hn.
  induction (lt_wf n) as [n _ IH]; intros l ->.
  destruct (starts_space dir l) eqn:Hs.
  2:{ rewrite trim_front_id by done. split; [done|by exists []]. }
  assert (∃ q r, q ≠ [] ∧ l = q ++ r ∧ trim_front dir l = trim_front dir r) as (q & r & Hq & Hl & ->).
  { destruct l as [|a l1]; [done|]. cbn [starts_space] in Hs.
    destruct (space1 a) eqn:H1; [exists [a], l1; simpl; by rewrite H1|].
    destruct l1 as [|b l2]; [done|]. simpl in Hs.
    destruct (if dir then space2 a b else space2 b a) eqn:H2;
      [exists [a; b], l2; simpl; by rewrite H1, H2|].
    destruct l2 as [|c l3]; [done|]. simpl in Hs.
    exists [a; b; c], l3; simpl; by rewrite H1, H2, Hs. }
  destruct (IH (length r)) with r as [H1 [p Hp]]; [|done|].
  { rewrite Hl, length_app. destruct q; simpl; [done|lia]. }
  split; [done|]. exists (q ++ p). by rewrite Hl, <-(assoc (++)), <-Hp.
Qed.

Lemma starts_space_app dir l k : starts_space dir l = true → starts_space dir (l ++ k) = true.
Proof.
  destruct l as [|a [|b [|c l]]]; cbn [starts_space app]; [done|..];
    destruct (space1 a); try done; try destruct (if dir then space2 a b else space2 b a); done.
Qed.

Lemma TrimSpace_idem s : TrimSpace (TrimSpace s) = TrimSpace s.
Proof.
  unfold TrimSpace at 1.
  assert (Hc : chars (TrimSpace s) = reverse (trim_front false (reverse (trim_front true (chars s))))).
  { apply chars_of_list. }
  fold (chars (TrimSpace s)). rewrite Hc. set (u := trim_front true (chars s)).
  destruct (trim_front_spec true (chars s)) as [Hu _]. fold u in Hu.
  destruct (trim_front_spec false (reverse u)) as [Hv [p Hp]].
  set (v := trim_front false (reverse u)) in *.
  assert (u = reverse v ++ reverse p) as Huv.
  { by rewrite <-reverse_app, <-Hp, reverse_involutive. }
  rewrite (trim_front_id true).
  - rewrite reverse_involutive, trim_front_id by done.
    apply chars_inj. by rewrite chars_of_list, Hc.
  - destruct (starts_space true (reverse v)) eqn:E; [|done].
    apply (starts_space_app _ _ (reverse p)) in E. congruence.
Qed.

(** Trimming only removes white space: other ASCII characters stay. *)
Lemma trim_front_keeps dir l c : space1 c = false → z_of_ascii c < 128 → c ∈ l → c ∈ trim_front dir l.
Proof.
  intros D1 Hc. assert (D2 : ∀ x, space2 c x = false ∧ space2 x c = false).
  { intros x. unfold space2. split; apply not_true_iff_false; intros Hs; bool_prop; [lia|].
    apply orb_true_iff in H0 as [?|?]; bool_prop; lia. }
  assert (D3 : ∀ x y, space3 c x y = false ∧ space3 x c y = false ∧ space3 x y c = false).
  { intros x y. unfold space3. split_and!; apply not_true_iff_false; intros Hs;
      repeat (apply orb_true_iff in Hs as [Hs|Hs]); bool_prop; try lia;
      repeat match goal with Ho : _ || _ = true |- _ => apply orb_true_iff in Ho as [Ho|Ho] end; bool_prop; lia. }
  induction l as [l IH] using (induction_ltof1 _ length). unfold ltof in IH. intros Hin.
  destruct l as [|a l1]; [done|]. cbn [trim_front].
  destruct (space1 a) eqn:E1.
  { apply IH; [simpl; lia|]. apply elem_of_cons in Hin as [<-|]; [congruence|done]. }
  destruct l1 as [|b l2]; [done|]. destruct (if dir then space2 a b else space2 b a) eqn:E2.
  { apply IH; [simpl; lia|]. rewrite !elem_of_cons in Hin. destruct Hin as [<-|[<-|?]]; [exfalso..|done].
    - destruct (D2 b), dir; congruence.
    - destruct (D2 a), dir; congruence. }
  destruct l2 as [|d l3]; [done|]. destruct (if dir then space3 a b d else space3 d b a) eqn:E3; [|done].
  apply IH; [simpl; lia|]. rewrite !elem_of_cons in Hin. destruct Hin as [<-|[<-|[<-|?]]]; [exfalso..|done].
  - destruct (D3 b d) as (? & ? & ?), (D3 d b) as (? & ? & ?), dir; congruence.
  - destruct (D3 a d) as (? & ? & ?), (D3 d a) as (? & ? & ?), dir; congruence.
  - destruct (D3 a b) as (? & ? & ?), (D3 b a) as (? & ? & ?), dir; congruence.
Qed.

Lemma TrimSpace_keeps s c : space1 c = false → z_of_ascii c < 128 → c ∈ chars s → c ∈ chars (TrimSpace s).
Proof.
  intros D1 Hc Hin. unfold TrimSpace. rewrite chars_of_list, elem_of_reverse.
  apply trim_front_keeps; [done..|]. rewrite elem_of_reverse. by apply trim_front_keeps.
Qed.

(** A string is its own trimming exactly when it has white space at neither end. *)
Lemma TrimSpace_fixed s :
  TrimSpace s = s ↔ starts_space true (chars s) = false ∧ starts_space false (reverse (chars s)) = false.
Proof.
  split.
  - intros E%(f_equal chars). unfold TrimSpace in E. rewrite chars_of_list in E. fold (chars s) in E.
    destruct (trim_front_spec true (chars s)) as [H1 [p Hp]].
    destruct (trim_front_spec false (reverse (trim_front true (chars s)))) as [H2 [q Hq]].
    set (u := trim_front true (chars s)) in *. set (v := trim_front false (reverse u)) in *.
    assert (Hl : length (chars s) = length v) by (by rewrite <-E, length_reverse).
    assert (Hl2 : length u = (length q + length v)%nat) by (rewrite <-length_reverse, Hq at 1; apply length_app).
    rewrite Hp, length_app in Hl. assert (p = []) as -> by (destruct p; simpl in *; [done|lia]).
    simpl in Hp. rewrite <-Hp in *. split; [done|]. by rewrite <-E, reverse_involutive.
  - intros [H1 H2]. unfold TrimSpace. fold (chars s). rewrite (trim_front_id true) by done.
    rewrite trim_front_id, reverse_involutive by done. apply String.string_of_list_ascii_of_string.
Qed.

Lemma digit_not_space c : is_digit c →
  space1 c = false ∧ (∀ a, space2 a c = false) ∧ (∀ a b, space3 a b c = false).
Proof.
  unfold is_digit, space1, space2, space3. intros Hc.
  assert (Hne : ∀ k, k < 48 ∨ 57 < k → (z_of_ascii c =? k) = false) by (intros; apply Z.eqb_neq; lia).
  assert (Hle : ∀ k, 57 < k → (k <=? z_of_ascii c) = false) by (intros; apply Z.leb_gt; lia).
  assert (Hle13 : (z_of_ascii c <=? 13) = false) by (apply Z.leb_gt; lia).
  repeat split; intros; rewrite ?Hne, ?Hle, ?Hle13 by lia; by rewrite ?andb_false_r.
Qed.

Lemma dec_nonempty z : chars (dec z) ≠ [].
Proof.
  intros E. assert (E2 : dec z = "") by (by apply chars_inj).
  assert (H : dec z = dec (z + 0)) by (f_equal; lia).
  destruct z as [|p|p]; [done| |done].
  apply (f_equal String.length) in E2. revert E2. unfold dec, pretty, pretty_Z, pretty, pretty_positive, pretty, pretty_N.
  case_decide; [done|]. intros E2. clear H.
  rewrite pretty_N_go_step in E2 by lia.
  assert (Hg : ∀ x s, (String.length s ≤ String.length (pretty_N_go x s))%nat).
  { intros x. induction (N.lt_wf_0 x) as [x _ IH]; intros s. destruct (decide (0 < x)%N) as [Hx|Hx].
    - rewrite pretty_N_go_step by done. etrans; [|apply IH; by apply N.div_lt]. simpl. lia.
    - assert (x = 0)%N as -> by lia. by rewrite pretty_N_go_0. }
  match type of E2 with String.length (pretty_N_go ?x ?s) = _ => pose proof (Hg x s) as Hx end.
  simpl in Hx. rewrite E2 in Hx. simpl in Hx. lia.
Qed.

(** Numbering a trimmed name keeps it trimmed. *)
Lemma TrimSpace_numbered base i :
  base ≠ "" → TrimSpace base = base → 0 ≤ i → TrimSpace (base +:+ "-" +:+ dec i) = base +:+ "-" +:+ dec i.
Proof.
  intros Hne [Hs _]%TrimSpace_fixed Hi. apply TrimSpace_fixed.
  change (base +:+ "-" +:+ dec i) with (base +:+ String "-" (dec i)). rewrite chars_app.
  change (chars (String "-" (dec i))) with ("-"%char :: chars (dec i)). split.
  - assert (Hd : ∀ a b, space2 a "-" = false ∧ space3 a "-" b = false ∧ space3 a b "-" = false).
    { intros a b. unfold space2, space3. rewrite ?andb_false_r. simpl. by rewrite ?andb_false_r. }
    destruct (chars base) as [|a [|b [|c l]]] eqn:E; [by destruct base|..]; cbn [starts_space app] in *.
    + destruct (Hd a a) as [-> _]. destruct (chars (dec i)) as [|c l] eqn:E2; [by rewrite orb_false_r in *|].
      destruct (Hd a c) as (_ & -> & _). by rewrite !orb_false_r in *.
    + destruct (Hd a b) as (_ & _ & ->). by rewrite !orb_false_r in *.
    + done.
  - rewrite reverse_app, reverse_cons.
    pose proof (dec_digits i Hi) as Hdig. apply Forall_reverse in Hdig.
    pose proof (dec_nonempty i) as Hnil.
    destruct (reverse (chars (dec i))) as [|c l] eqn:E.
    { exfalso. apply Hnil. rewrite <-(reverse_involutive (chars (dec i))), E. done. }
    apply Forall_cons in Hdig as [Hc _]. destruct (digit_not_space c Hc) as (H1 & H2 & H3).
    cbn [app starts_space]. rewrite H1.
    destruct (_ ++ _) as [|x [|y k]]; [done|by rewrite H2|by rewrite H2, H3].
Qed.

(** ** Lemmas: folding of an ASCII tail *)
Definition is_ascii7 (c : ascii) : Prop := z_of_ascii c < 128.

Lemma z_of_ascii_nonneg c : 0 ≤ z_of_ascii c.
Proof. unfold z_of_ascii. lia. Qed.

Lemma ascii7_not_cont c : is_ascii7 c → cont c = false.
Proof. unfold is_ascii7, cont. intros. apply andb_false_iff. left. apply Z.leb_gt. lia. Qed.

Lemma ascii7_not_within c lo hi : is_ascii7 c → 128 ≤ lo → within c lo hi = false.
Proof. unfold is_ascii7, within. intros. apply andb_false_iff. left. apply Z.leb_gt. lia. Qed.

Lemma runes_ascii l : Forall is_ascii7 l → runes 0 l = z_of_ascii <$> l.
Proof.
  induction 1 as [|c l Hc _ IH]; simpl; [done|].
  unfold decode_rune. rewrite (proj2 (Z.ltb_lt _ _)) by done. simpl. by rewrite IH.
Qed.

Lemma decode_rune_app a l c k :
  is_ascii7 c → decode_rune a (l ++ c :: k) = decode_rune a l.
Proof.
  intros Hc. unfold decode_rune. destruct (z_of_ascii a <? 128); [done|].
  pose proof (ascii7_not_cont c Hc) as Hnc.
  assert (Hnw : ∀ lo hi, 128 ≤ lo → within c lo hi = false) by (intros; by apply ascii7_not_within).
  destruct l as [|b [|d [|e l]]]; cbn [app]; rewrite ?Hnc, ?andb_false_r; try done.
  - destruct k as [|d [|e k]]; try done; rewrite !Hnw by (case_match; lia);
      by rewrite ?andb_false_r, ?andb_false_l.
  - destruct k as [|e k]; [done|]. by rewrite ?andb_false_r, ?andb_false_l.
Qed.

Lemma decode_rune_len a l : ((decode_rune a l).2 ≤ length l)%nat.
Proof.
  unfold decode_rune. destruct (z_of_ascii a <? 128); [simpl; lia|].
  destruct l as [|b [|d [|e l]]]; repeat case_match; simpl; lia.
Qed.

(** Decoding never joins bytes across an ASCII character. *)
Lemma runes_app_ascii skip l c k :
  is_ascii7 c → (skip ≤ length l)%nat → runes skip (l ++ c :: k) = runes skip l ++ runes 0 (c :: k).
Proof.
  intros Hc. revert skip. induction l as [|a l IH]; intros skip Hs.
  { destruct skip; [done|simpl in Hs; lia]. }
  destruct skip as [|skip]; simpl in Hs; cbn [runes app].
  - rewrite decode_rune_app by done. simpl. f_equal. apply IH, decode_rune_len.
  - apply IH. lia.
Qed.

Lemma string_runes_app (s : string) (c : ascii) (t : string) :
  is_ascii7 c → string_runes (s +:+ String c t) = string_runes s ++ string_runes (String c t).
Proof.
  intros Hc. unfold string_runes. fold (chars (s +:+ String c t)). rewrite chars_app.
  apply runes_app_ascii; [done|lia].
Qed.

Lemma fold_digits `{UnicodeFold} l : Forall is_digit l → fold_rune <$> (z_of_ascii <$> l) = z_of_ascii <$> l.
Proof.
  induction 1 as [|c l Hc _ IH]; [done|]. rewrite !fmap_cons, IH. f_equal.
  unfold is_digit in Hc. rewrite fold_rune_ascii by lia.
  by rewrite (proj2 (Z.leb_gt 97 (z_of_ascii c))) by lia.
Qed.

#[export] Instance z_of_ascii_inj : Inj (=) (=) z_of_ascii.
Proof.
  intros a b. unfold z_of_ascii. intros E%N2Z.inj. by rewrite <-(ascii_N_embedding a), E, ascii_N_embedding.
Qed.

(** The numbered names [base-1], [base-2], ... are pairwise different even up to case. *)
Lemma fold_key_numbered_inj `{UnicodeFold} (base : string) i j :
  0 ≤ i → 0 ≤ j →
  fold_key (base +:+ "-" +:+ dec i) = fold_key (base +:+ "-" +:+ dec j) → i = j.
Proof.
  intros Hi Hj. unfold fold_key.
  change ("-" +:+ dec i) with (String "-" (dec i)). change ("-" +:+ dec j) with (String "-" (dec j)).
  rewrite !string_runes_app by (vm_compute; done).
  assert (Hd : ∀ z, 0 ≤ z → string_runes (String "-" (dec z)) = 45 :: (z_of_ascii <$> chars (dec z))).
  { intros z Hz. unfold string_runes. fold (chars (String "-" (dec z))). rewrite runes_ascii; [done|].
    constructor; [vm_compute; done|]. eapply Forall_impl; [by apply dec_digits|].
    intros c Hc. unfold is_digit, is_ascii7 in *. lia. }
  rewrite !Hd by done. rewrite !fmap_app, !fmap_cons, !fold_digits by (by apply dec_digits).
  intros E. simplify_list_eq. apply dec_inj, chars_inj.
  done.
Qed.

Example trim_ex : TrimSpace (" " +:+ "a b" +:+ " ") = "a b".
Proof. reflexivity. Qed.
Example fold_ex : @EqualFold AsciiFold "Lap-Top" "lAP-tOP" = true.
Proof. reflexivity. Qed.
Example dec_ex : dec 4294967295 = "4294967295".
Proof. reflexivity. Qed.
