(* ===== verification/NetIP.v ===== *)
(** * IPv4 addresses: [util/utils.go] and what it uses of Go's [net] package.

    A [net.IP] and a [net.IPMask] are byte slices; the nil slice is the empty
    list.  A virtual address travels as a big-endian [uint32], a [Z] in
    [0, 2^32). *)
From S2P Require Import Prelude GoString.

(** ** [encoding/binary.BigEndian] *)
Definition be_get (l : list byte) : Z := foldl (λ acc b, acc * 256 + b2z b) 0 l.
Fixpoint be_put (n : nat) (z : Z) : list byte :=
  match n with O => [] | S k => z2b (z / 256 ^ Z.of_nat k) :: be_put k z end.

Lemma length_be_put n z : length (be_put n z) = n.
Proof. induction n; simpl; auto. Qed.

Lemma be_get_cons b l : be_get (b :: l) = b2z b * 256 ^ Z.of_nat (length l) + be_get l.
Proof.
  unfold be_get. simpl.
  assert (∀ acc l, foldl (λ acc b, acc * 256 + b2z b) acc l
                   = acc * 256 ^ Z.of_nat (length l) + foldl (λ acc b, acc * 256 + b2z b) 0 l) as H.
  { intros acc l'. revert acc. induction l' as [|c l' IH]; intros acc; cbn [foldl length].
    - lia.
    - rewrite IH, (IH (0 * 256 + b2z c)). rewrite Nat2Z.inj_succ, Z.pow_succ_r by lia. lia. }
  rewrite H. lia.
Qed.

Lemma be_get_range l : 0 ≤ be_get l < 256 ^ Z.of_nat (length l).
Proof.
  induction l as [|b l IH]; [done|]. rewrite be_get_cons. cbn [length].
  rewrite Nat2Z.inj_succ, Z.pow_succ_r by lia. pose proof (b2z_range b). nia.
Qed.

Lemma be_get_put n z : be_get (be_put n z) = z mod 256 ^ Z.of_nat n.
Proof.
  induction n as [|n IH]; cbn [be_put]; [by rewrite Z.mod_1_r|].
  rewrite be_get_cons, length_be_put, IH, b2z_z2b, Nat2Z.inj_succ, Z.pow_succ_r by lia.
  set (p := 256 ^ Z.of_nat n). assert (0 < p) by (unfold p; lia).
  rewrite (Z.mul_comm 256 p), Z.rem_mul_r by lia. lia.
Qed.

Lemma be_put_get l : be_put (length l) (be_get l) = l.
Proof.
  assert (∀ n z k, be_put n (z + k * 256 ^ Z.of_nat n) = be_put n z) as Hshift.
  { induction n as [|n IH]; intros z k; [done|]. cbn [be_put].
    rewrite Nat2Z.inj_succ, Z.pow_succ_r by lia.
    replace (z + k * (256 * 256 ^ Z.of_nat n)) with (z + (k * 256) * 256 ^ Z.of_nat n) by lia.
    rewrite IH. f_equal. rewrite Z.div_add by lia. apply b2z_inj. rewrite !b2z_z2b.
    by rewrite Z.mod_add. }
  induction l as [|b l IH]; [done|]. cbn [length be_put].
  rewrite be_get_cons, Z.add_comm, Hshift, IH. f_equal.
  rewrite Z.div_add, Z.div_small by (apply be_get_range || lia).
  rewrite Z.add_0_l. apply z2b_b2z.
Qed.

(** ** [net.IP] *)
Abbreviation IP := (list byte).

Definition v4InV6Prefix : IP := be_put 12 0xFFFF.

Definition To4 (ip : IP) : IP :=
  if bool_decide (length ip = 4%nat) then ip
  else if bool_decide (length ip = 16%nat) && bool_decide (take 12 ip = v4InV6Prefix)
  then drop 12 ip else [].

Definition To16 (ip : IP) : IP :=
  if bool_decide (length ip = 4%nat) then v4InV6Prefix ++ ip
  else if bool_decide (length ip = 16%nat) then ip else [].

(** [net.IPv4] builds the 16-byte form. *)
Definition IPv4 (a b c d : byte) : IP := v4InV6Prefix ++ [a; b; c; d].

(** [net.IP.Equal]: an IPv4 address and its IPv4-mapped IPv6 form are equal. *)
Definition IP_Equal (ip x : IP) : bool :=
  if bool_decide (length ip = length x) then bool_decide (ip = x)
  else if bool_decide (length ip = 4%nat) && bool_decide (length x = 16%nat)
  then bool_decide (take 12 x = v4InV6Prefix) && bool_decide (ip = drop 12 x)
  else if bool_decide (length ip = 16%nat) && bool_decide (length x = 4%nat)
  then bool_decide (take 12 ip = v4InV6Prefix) && bool_decide (drop 12 ip = x)
  else false.

(** ** [util/utils.go] *)
Definition IpToUint32 (ip : IP) : Z :=
  let ip4 := To4 ip in if bool_decide (ip4 = []) then 0 else be_get ip4.

Definition Uint32ToIP (v : Z) : IP := be_put 4 v.

Definition MaskToUint32 (mask : list byte) : Z :=
  if bool_decide (4 ≤ length mask)%nat then be_get (drop (length mask - 4) mask) else 0.

(** Dotted-decimal form: [net.IP.String] on an address with an IPv4 form. *)
Definition ip4_string (ip : IP) : string :=
  match ip with
  | [a; b; c; d] => dec (b2z a) +:+ "." +:+ dec (b2z b) +:+ "." +:+ dec (b2z c) +:+ "." +:+ dec (b2z d)
  | _ => "<nil>"
  end.

(** ** Lemmas *)
Lemma To4_length ip : To4 ip = [] ∨ length (To4 ip) = 4%nat.
Proof.
  unfold To4. case_bool_decide as H4; [by right|].
  destruct (bool_decide (length ip = 16%nat) && _) eqn:E; [right|by left].
  bool_prop. rewrite length_drop. lia.
Qed.

Lemma To4_Uint32ToIP v : To4 (Uint32ToIP v) = Uint32ToIP v.
Proof. done. Qed.

Lemma IpToUint32_range ip : 0 ≤ IpToUint32 ip < 2 ^ 32.
Proof.
  unfold IpToUint32. case_bool_decide as H; [lia|].
  destruct (To4_length ip) as [?|Hl]; [done|].
  pose proof (be_get_range (To4 ip)) as Hr. rewrite Hl in Hr. done.
Qed.

Lemma IpToUint32_Uint32ToIP v : IpToUint32 (Uint32ToIP v) = u32 v.
Proof. unfold IpToUint32. rewrite To4_Uint32ToIP. simpl. apply (be_get_put 4 v). Qed.

Lemma Uint32ToIP_IpToUint32 ip : To4 ip ≠ [] → Uint32ToIP (IpToUint32 ip) = To4 ip.
Proof.
  intros Hne. unfold IpToUint32. rewrite bool_decide_eq_false_2 by done.
  destruct (To4_length ip) as [?|Hl]; [done|].
  unfold Uint32ToIP. rewrite <-Hl. apply be_put_get.
Qed.

Lemma Uint32ToIP_inj v w : 0 ≤ v < 2 ^ 32 → 0 ≤ w < 2 ^ 32 → Uint32ToIP v = Uint32ToIP w → v = w.
Proof.
  intros Hv Hw E%(f_equal IpToUint32). rewrite !IpToUint32_Uint32ToIP in E.
  unfold u32 in E. by rewrite !Z.mod_small in E.
Qed.

Lemma u32_small v : 0 ≤ v < 2 ^ 32 → u32 v = v.
Proof. apply Z.mod_small. Qed.

Lemma u32_range v : 0 ≤ u32 v < 2 ^ 32.
Proof. by apply Z.mod_pos_bound. Qed.

(** Comparing an address with a virtual IP compares their [uint32] forms. *)
Lemma IP_Equal_Uint32ToIP ip v :
  0 ≤ v < 2 ^ 32 → IP_Equal ip (Uint32ToIP v) = true ↔ To4 ip ≠ [] ∧ IpToUint32 ip = v.
Proof.
  intros Hv. assert (IP_Equal ip (Uint32ToIP v) = true ↔ To4 ip = Uint32ToIP v) as ->.
  { unfold IP_Equal, To4. change (length (Uint32ToIP v)) with 4%nat.
    case_bool_decide as H4; [by rewrite bool_decide_eq_true|].
    rewrite (bool_decide_eq_false_2 (4%nat = 16%nat)), andb_false_r by done.
    rewrite (bool_decide_eq_true_2 (4%nat = 4%nat)), andb_true_r by done.
    case_bool_decide as H16; [|done]. simpl.
    case_bool_decide; simpl; [by rewrite bool_decide_eq_true|done]. }
  split.
  - intros E. rewrite E. split; [done|]. unfold IpToUint32. rewrite E, bool_decide_eq_false_2 by done.
    unfold Uint32ToIP. rewrite be_get_put. by apply Z.mod_small.
  - intros [Hne <-]. by rewrite Uint32ToIP_IpToUint32.
Qed.

(** Dotted-decimal text determines the address. *)
Lemma ip4_string_inj a b :
  length a = 4%nat → length b = 4%nat → ip4_string a = ip4_string b → a = b.
Proof.
  destruct a as [|a1 [|a2 [|a3 [|a4 [|? ?]]]]]; try done.
  destruct b as [|b1 [|b2 [|b3 [|b4 [|? ?]]]]]; try done.
  intros _ _ E. simpl in E.
  assert (Hd : ∀ x : byte, "."%char ∉ chars (dec (b2z x))).
  { intros x. apply dec_no_char; [not_digit|]. apply b2z_range. }
  do 3 (apply sep_inj_first in E as [?%dec_inj%b2z_inj E]; [|apply Hd..]).
  apply dec_inj, b2z_inj in E. by subst.
Qed.

Lemma Uint32_string_inj v w :
  0 ≤ v < 2 ^ 32 → 0 ≤ w < 2 ^ 32 → ip4_string (Uint32ToIP v) = ip4_string (Uint32ToIP w) → v = w.
Proof. intros Hv Hw E%ip4_string_inj; [|done..]. by apply Uint32ToIP_inj. Qed.

#[export] Hint Resolve IpToUint32_range u32_range b2z_range : sdl.

Example ip_ex : ip4_string (Uint32ToIP 169476865) = "10.26.3.1".
Proof. reflexivity. Qed.
