(* ===== verification/GoText.v ===== *)
(** * Lower-casing and printing: [strings.ToLower], [net.IP.String] and
    [sort.Strings] of the Go library. *)
From S2P Require Import Prelude GoString NetIP.

(** ** [strings.ToLower]

    Every rune is replaced by its lower-case mapping, whose table is a data file of
    the Go distribution (class [UnicodeLower]); an invalid byte becomes U+FFFD. *)
Class UnicodeLower := {
  lower_rune : Z → Z;
  lower_rune_ascii : ∀ r, 0 ≤ r < 128 → lower_rune r = if (65 <=? r) && (r <=? 90) then r + 32 else r
}.

Definition ascii_of_Z (z : Z) : ascii := ascii_of_N (Z.to_N z).

(** [utf8.AppendRune]. *)
Definition encode_rune (r : Z) : list ascii :=
  let tail (shift : Z) := ascii_of_Z (Z.lor 0x80 (Z.land (Z.shiftr r shift) 0x3F)) in
  if (0 <=? r) && (r <? 0x80) then [ascii_of_Z r]
  else if (0 <=? r) && (r <? 0x800) then [ascii_of_Z (Z.lor 0xC0 (Z.shiftr r 6)); tail 0]
  else if (r <? 0) || (0x10FFFF <? r) || ((0xD800 <=? r) && (r <=? 0xDFFF))
  then [ascii_of_Z 0xEF; ascii_of_Z 0xBF; ascii_of_Z 0xBD]
  else if r <? 0x10000 then [ascii_of_Z (Z.lor 0xE0 (Z.shiftr r 12)); tail 6; tail 0]
  else [ascii_of_Z (Z.lor 0xF0 (Z.shiftr r 18)); tail 12; tail 6; tail 0].

Definition ToLower `{UnicodeLower} (s : string) : string :=
  String.string_of_list_ascii (string_runes s ≫= λ r, encode_rune (lower_rune r)).

(** The mapping restricted to ASCII: an instance to compute with. *)
Definition ascii_lower (r : Z) : Z := if (65 <=? r) && (r <=? 90) then r + 32 else r.
Definition AsciiLower : UnicodeLower := {| lower_rune := ascii_lower; lower_rune_ascii := λ r _, eq_refl |}.

(** ** [net.IP.String] *)

(** Lower-case hexadecimal of a 16-bit group without leading zeros. *)
Definition hex16 (v : Z) : string :=
  let d (k : Z) := String (hex_digit (Z.land (Z.shiftr v (4 * k)) 15)) "" in
  if v <? 0x10 then d 0 else if v <? 0x100 then d 1 +:+ d 0
  else if v <? 0x1000 then d 2 +:+ d 1 +:+ d 0 else d 3 +:+ d 2 +:+ d 1 +:+ d 0.

Fixpoint groups16 (l : list byte) : list Z :=
  match l with a :: b :: l' => (b2z a * 256 + b2z b) :: groups16 l' | _ => [] end.

Fixpoint zero_run (l : list Z) : nat := match l with 0 :: l' => S (zero_run l') | _ => 0%nat end.

(** The first longest run of at least two zero groups: its start and end. *)
Definition longest_zero_run (groups : list Z) : nat * nat :=
  foldl (λ '(zs, ze) i,
      let len := zero_run (drop i groups) in
      if bool_decide (2 ≤ len)%nat && bool_decide (ze - zs < len)%nat then (i, (i + len)%nat) else (zs, ze))
    (255%nat, 255%nat) (seq 0 8).

(** The groups from number [i] on; those of the compressed run are printed once, as two colons. *)
Fixpoint print_groups (zs ze i : nat) (groups : list Z) : string :=
  match groups with
  | [] => ""
  | g :: groups' =>
      if bool_decide (i = zs) then "::" +:+ print_groups zs ze (S i) groups'
      else if bool_decide (zs < i < ze)%nat then print_groups zs ze (S i) groups'
      else (if bool_decide (i = 0%nat) || bool_decide (i = ze) then "" else ":")
           +:+ hex16 g +:+ print_groups zs ze (S i) groups'
  end.

Definition IP_String (ip : IP) : string :=
  if bool_decide (ip = []) then "<nil>"
  else if negb (bool_decide (length ip = 4%nat)) && negb (bool_decide (length ip = 16%nat))
  then "?" +:+ foldr (λ b acc, String (hex_digit (b2z b / 16)) (String (hex_digit (b2z b mod 16)) acc)) "" ip
  else if bool_decide (To4 ip ≠ []) then ip4_string (To4 ip)
  else let groups := groups16 ip in
       let '(zs, ze) := longest_zero_run groups in print_groups zs ze 0 groups.

(** ** [sort.Strings]: byte-wise order *)
Definition string_le (a b : string) : Prop := String.leb a b = true.
#[export] Instance string_le_dec a b : Decision (string_le a b).
Proof. unfold string_le. apply _. Defined.

#[export] Instance string_le_total : Total string_le.
Proof. intros a b. apply String.leb_total. Qed.

#[export] Instance string_le_trans : Transitive string_le.
Proof.
  assert (Hlt : ∀ a b : string, String.leb a b = true ↔ String.compare a b ≠ Gt).
  { intros a b. unfold String.leb. destruct (String.compare a b); naive_solver. }
  intros a b c. unfold string_le. rewrite !Hlt. revert b c.
  induction a as [|x a IH]; intros [|y b] [|z c]; simpl; try done.
  unfold Ascii.compare.
  destruct (N.compare_spec (N_of_ascii x) (N_of_ascii y)) as [Exy|Lxy|Gxy];
  destruct (N.compare_spec (N_of_ascii y) (N_of_ascii z)) as [Eyz|Lyz|Gyz]; try done; intros H1 H2.
  - rewrite Exy, Eyz, N.compare_refl. by eapply IH.
  - assert ((N_of_ascii x ?= N_of_ascii z)%N = Lt) as -> by (apply N.compare_lt_iff; lia). done.
  - assert ((N_of_ascii x ?= N_of_ascii z)%N = Lt) as -> by (apply N.compare_lt_iff; lia). done.
  - assert ((N_of_ascii x ?= N_of_ascii z)%N = Lt) as -> by (apply N.compare_lt_iff; lia). done.
Qed.

Definition sort_Strings (l : list string) : list string := merge_sort string_le l.

Lemma sort_Strings_sorted l : Sorted string_le (sort_Strings l).
Proof. apply Sorted_merge_sort, _. Qed.
Lemma sort_Strings_perm l : sort_Strings l ≡ₚ l.
Proof. apply merge_sort_Permutation. Qed.

Example lower_ex : @ToLower AsciiLower "Lap-TOP.ms.net" = "lap-top.ms.net".
Proof. vm_compute. reflexivity. Qed.
Example ip_string_ex : IP_String ([xfe; x80] ++ replicate 13 x00 ++ [x01]) = "fe80::1"
  ∧ IP_String (replicate 16 x00) = "::" ∧ IP_String [x0a; x00; x00; x01] = "10.0.0.1"
  ∧ IP_String (replicate 8 x01 ++ replicate 8 x00) = "101:101:101:101::".
Proof. split_and!; vm_compute; reflexivity. Qed.
