(* ===== verification/NetParse.v ===== *)
(** * Textual addresses: what the control plane uses of [net.SplitHostPort],
    [net.ParseIP] and [strconv.Atoi]. *)
From S2P Require Import Prelude GoString NetIP.

(** ** Positions of a byte *)
Fixpoint index_byte (c : ascii) (l : list ascii) : option nat :=
  match l with
  | [] => None
  | a :: l' => if bool_decide (a = c) then Some 0%nat else S <$> index_byte c l'
  end.

Fixpoint last_index_byte (c : ascii) (l : list ascii) : option nat :=
  match l with
  | [] => None
  | a :: l' =>
      match last_index_byte c l' with
      | Some n => Some (S n)
      | None => if bool_decide (a = c) then Some 0%nat else None
      end
  end.

Abbreviation str := String.string_of_list_ascii.

(** [net.SplitHostPort]: the host and the port of ["host:port"] or ["[host]:port"]. *)
Definition addrErr (addr why : string) : result (string * string) :=
  Err ("address " +:+ addr +:+ ": " +:+ why).

Definition SplitHostPort (hostport : string) : result (string * string) :=
  let l := chars hostport in
  let missingPort := "missing port in address" in
  let tooManyColons := "too many colons in address" in
  match last_index_byte ":"%char l with
  | None => addrErr hostport missingPort
  | Some i =>
      let finish (host : string) (j k : nat) :=
        if bool_decide (is_Some (index_byte "["%char (drop j l)))
        then addrErr hostport "unexpected '[' in address"
        else if bool_decide (is_Some (index_byte "]"%char (drop k l)))
        then addrErr hostport "unexpected ']' in address"
        else Ok (host, str (drop (S i) l)) in
      match l with
      | "["%char :: _ =>
          match index_byte "]"%char l with
          | None => addrErr hostport "missing ']' in address"
          | Some e =>
              if bool_decide (S e = length l) then addrErr hostport missingPort
              else if bool_decide (S e = i) then finish (str (take (e - 1) (drop 1 l))) 1%nat (S e)
              else if bool_decide (l !! S e = Some ":"%char) then addrErr hostport tooManyColons
              else addrErr hostport missingPort
          end
      | _ =>
          let host := take i l in
          if bool_decide (is_Some (index_byte ":"%char host)) then addrErr hostport tooManyColons
          else finish (str host) 0%nat 0%nat
      end
  end.

(** [strconv.Atoi] on a 64-bit platform. *)
Definition digit_val (c : ascii) : option Z :=
  let n := z_of_ascii c in if (48 <=? n) && (n <=? 57) then Some (n - 48) else None.

Fixpoint parse_digits (acc : Z) (l : list ascii) : option Z :=
  match l with
  | [] => Some acc
  | c :: l' => d ← digit_val c; parse_digits (acc * 10 + d) l'
  end.

Definition Atoi (s : string) : option Z :=
  let l := chars s in
  let signed (neg : bool) (l : list ascii) :=
    match l with
    | [] => None
    | _ => v ← parse_digits 0 l;
           let v := if neg then - v else v in
           if (- 2 ^ 63 <=? v) && (v <? 2 ^ 63) then Some v else None
    end in
  match l with
  | "+"%char :: l' => signed false l'
  | "-"%char :: l' => signed true l'
  | _ => signed false l
  end.

(** ** [net.ParseIP] *)

(** [netip.parseIPv4Fields]: four decimal octets separated by dots. [prev] is the
    previous byte, [digLen] the number of digits of the current octet. *)
Fixpoint parseIPv4Fields (l : list ascii) (first : bool) (prevdot : bool) (val : Z) (digLen : nat)
    (fields : list byte) : option (list byte) :=
  match l with
  | [] => if bool_decide (length fields = 3%nat) then Some (fields ++ [z2b val]) else None
  | c :: l' =>
      match digit_val c with
      | Some d =>
          if bool_decide (digLen = 1%nat) && (val =? 0) then None else
          let val' := val * 10 + d in
          if 255 <? val' then None else parseIPv4Fields l' false false val' (S digLen) fields
      | None =>
          if bool_decide (c = "."%char) then
            if first || bool_decide (l' = []) || prevdot then None
            else if bool_decide (length fields = 3%nat) then None
            else parseIPv4Fields l' false true 0 0 (fields ++ [z2b val])
          else None
      end
  end.

Definition hex_val (c : ascii) : option Z :=
  let n := z_of_ascii c in
  if (48 <=? n) && (n <=? 57) then Some (n - 48)
  else if (97 <=? n) && (n <=? 102) then Some (n - 87)
  else if (65 <=? n) && (n <=? 70) then Some (n - 55) else None.

(** The longest run of hexadecimal digits: its value and length, and the rest;
    [None] for more than four digits. *)
Fixpoint hex_group (l : list ascii) (off : nat) (acc : Z) : option (Z * nat * list ascii) :=
  match l with
  | [] => Some (acc, off, [])
  | c :: l' =>
      match hex_val c with
      | Some d => if bool_decide (3 < off)%nat then None else hex_group l' (S off) (acc * 16 + d)
      | None => Some (acc, off, l)
      end
  end.

(** The loop of [netip.parseIPv6] on at most 8 groups ([fuel]): the bytes read so
    far, the byte position of the ellipsis, and the unread rest. *)
Fixpoint parseIPv6_loop (fuel : nat) (s : list ascii) (ip : list byte) (ellipsis : option nat)
    : option (list byte * option nat * list ascii) :=
  match fuel with
  | O => Some (ip, ellipsis, s)
  | S fuel =>
      match hex_group s 0 0 with
      | None | Some (_, 0%nat, _) => None
      | Some (acc, _, rest) =>
          match rest with
          | "."%char :: _ =>
              if bool_decide (ellipsis = None) && negb (bool_decide (length ip = 12%nat)) then None
              else if bool_decide (16 < length ip + 4)%nat then None
              else fields ← parseIPv4Fields s true false 0 0 [];
                   Some (ip ++ fields, ellipsis, [])
          | _ =>
              let ip' := ip ++ [z2b (acc / 256); z2b acc] in
              match rest with
              | [] => Some (ip', ellipsis, [])
              | c :: rest' =>
                  if negb (bool_decide (c = ":"%char)) then None else
                  match rest' with
                  | [] => None
                  | ":"%char :: rest'' =>
                      if bool_decide (is_Some ellipsis) then None
                      else match rest'' with
                           | [] => Some (ip', Some (length ip'), [])
                           | _ => parseIPv6_loop fuel rest'' ip' (Some (length ip'))
                           end
                  | _ => parseIPv6_loop fuel rest' ip' ellipsis
                  end
              end
          end
      end
  end.

Definition parseIPv6_finish (r : list byte * option nat * list ascii) : option (list byte) :=
  let '(ip, ellipsis, s) := r in
  if negb (bool_decide (s = [])) then None else
  if bool_decide (length ip < 16)%nat then
    e ← ellipsis; Some (take e ip ++ replicate (16 - length ip) x00 ++ drop e ip)
  else if bool_decide (is_Some ellipsis) then None else Some ip.

(** [netip.parseIPv6] without a zone ([net.ParseIP] rejects zones). *)
Definition parseIPv6 (s : list ascii) : option (list byte) :=
  if bool_decide (is_Some (index_byte "%"%char s)) then None else
  match s with
  | ":"%char :: ":"%char :: rest =>
      match rest with
      | [] => Some (replicate 16 x00)
      | _ => r ← parseIPv6_loop 8 rest [] (Some 0%nat); parseIPv6_finish r
      end
  | _ => r ← parseIPv6_loop 8 s [] None; parseIPv6_finish r
  end.

(** The first of [.], [:], [%] decides the family. The result is always the
    16-byte form, the nil slice on failure. *)
Fixpoint addr_family (l : list ascii) : option bool :=
  match l with
  | [] => None
  | c :: l' =>
      if bool_decide (c = "."%char) then Some true
      else if bool_decide (c = ":"%char) then Some false
      else if bool_decide (c = "%"%char) then None else addr_family l'
  end.

Definition ParseIP (s : string) : IP :=
  let l := chars s in
  match addr_family l with
  | Some true =>
      match parseIPv4Fields l true false 0 0 [] with
      | Some f => v4InV6Prefix ++ f
      | None => []
      end
  | Some false => match parseIPv6 l with Some ip => ip | None => [] end
  | None => []
  end.

(** ** Printing and reading back a number *)
Lemma parse_pretty_N_go x s : parse_digits 0 (chars (pretty_N_go x s)) = parse_digits (Z.of_N x) (chars s).
Proof.
  revert s. induction (N.lt_wf_0 x) as [x _ IH]. intros s. destruct (decide (0 < x)%N) as [Hx|Hx].
  - rewrite pretty_N_go_step by done. rewrite IH by (apply N.div_lt; lia). cbn [chars String.list_ascii_of_string parse_digits].
    assert (Hd : digit_val (pretty_N_char (x `mod` 10)) = Some (Z.of_N (x mod 10))).
    { pose proof (N.mod_lt x 10 ltac:(lia)). generalize dependent (x mod 10)%N. intros d Hd.
      assert (d ∈ [0;1;2;3;4;5;6;7;8;9]%N) as Hin by (repeat rewrite elem_of_cons; lia).
      repeat (apply elem_of_cons in Hin as [->|Hin]; [done|]). by apply not_elem_of_nil in Hin. }
    rewrite Hd. simpl. f_equal. rewrite N2Z.inj_div, N2Z.inj_mod. pose proof (Z.div_mod (Z.of_N x) 10). lia.
  - assert (x = 0%N) as -> by lia. by rewrite pretty_N_go_0.
Qed.

Lemma parse_dec z : 0 ≤ z → parse_digits 0 (chars (dec z)) = Some z.
Proof.
  intros Hz. destruct z as [|p|p]; [done| |lia].
  unfold dec, pretty, pretty_Z, pretty, pretty_positive, pretty, pretty_N. case_decide; [done|].
  by rewrite parse_pretty_N_go.
Qed.

(** A positive number is printed without leading zeros. *)
Lemma pretty_leading x s : (0 < x)%N → ∃ c l, chars (pretty_N_go x s) = c :: l ∧ c ≠ "0"%char.
Proof.
  revert s. induction (N.lt_wf_0 x) as [x _ IH]. intros s Hx. rewrite pretty_N_go_step by done.
  destruct (decide (0 < x `div` 10)%N) as [Hd|Hd]; [by apply IH; [apply N.div_lt; lia|]|].
  assert (E : (x `div` 10 = 0)%N) by (by apply N.le_0_r, N.nlt_ge). rewrite E, pretty_N_go_0.
  pose proof (N.div_mod x 10 ltac:(lia)) as Hm. rewrite E in Hm. pose proof (N.mod_lt x 10 ltac:(lia)) as Hl. assert (Hlt : (x < 10)%N) by lia.
  rewrite N.mod_small by done. eexists _, _. split; [done|].
  assert (x ∈ [1;2;3;4;5;6;7;8;9]%N) as Hin by (repeat rewrite elem_of_cons; lia).
  repeat (apply elem_of_cons in Hin as [->|Hin]; [done|]). by apply not_elem_of_nil in Hin.
Qed.

Lemma dec_leading z : 0 < z → ∃ c l, chars (dec z) = c :: l ∧ c ≠ "0"%char.
Proof.
  intros Hz. destruct z as [|p|p]; [lia| |lia].
  unfold dec, pretty, pretty_Z, pretty, pretty_positive, pretty, pretty_N. case_decide; [done|]. by apply pretty_leading.
Qed.

Example parse_ex1 : IpToUint32 (ParseIP "255.255.255.0") = 0xFFFFFF00.
Proof. reflexivity. Qed.
Example parse_ex2 : ParseIP "256.1.1.1" = [] ∧ ParseIP "1.2.3" = [] ∧ ParseIP "01.2.3.4" = [].
Proof. done. Qed.
Example parse_ex3 : IpToUint32 (ParseIP "::ffff:10.0.0.1") = 0x0A000001.
Proof. reflexivity. Qed.
Example parse_ex4 : ParseIP "fe80::1" = [xfe; x80] ++ replicate 13 x00 ++ [x01].
Proof. reflexivity. Qed.
Example parse_ex5 : SplitHostPort "[::1]:443" = Ok ("::1", "443") ∧ SplitHostPort "10.0.0.1:80" = Ok ("10.0.0.1", "80").
Proof. done. Qed.
Example parse_ex6 : Atoi "65535" = Some 65535 ∧ Atoi "" = None ∧ Atoi "-1" = Some (-1).
Proof. done. Qed.
