(* ===== verification/GoFlag.v ===== *)
(** * Command-line flags: what the administration tool uses of Go's [flag] and
    [strconv] packages.

    A [FlagSet] lists the flags with the variable each one sets; two names may share
    a variable.  The variables are a finite map from their names to values.  [Parse]
    follows [FlagSet.parseOne] argument by argument; every way of failing is one
    [None], because the tool prints its usage and exits whatever the reason. *)
From S2P Require Import Prelude GoString NetIP NetParse.

(** ** Numbers and truth values *)
Definition lower_ascii (c : ascii) : Z :=
  let n := z_of_ascii c in if (65 <=? n) && (n <=? 90) then n + 32 else n.

Definition decimal_digit (c : ascii) : bool := let n := z_of_ascii c in (48 <=? n) && (n <=? 57).

(** The value of a digit in any base up to 36. *)
Definition digit_any (c : ascii) : option Z :=
  if decimal_digit c then Some (z_of_ascii c - 48)
  else let n := lower_ascii c in if (97 <=? n) && (n <=? 122) then Some (n - 97 + 10) else None.

(** The digits of a number in [base]; underscores are skipped here. *)
Fixpoint base_digits (base acc : Z) (l : list ascii) : option Z :=
  match l with
  | [] => Some acc
  | c :: l' =>
      if bool_decide (c = "_"%char) then base_digits base acc l' else
      d ← digit_any c; if base <=? d then None else base_digits base (acc * base + d) l'
  end.

(** [underscoreOK] after the prefix: an underscore stands between digits, where the
    prefix counts as one.  The state is what came before. *)
Inductive before := BStart | BDigit | BUnderscore | BOther.

Fixpoint underscore_scan (hex : bool) (st : before) (l : list ascii) : bool :=
  match l with
  | [] => match st with BUnderscore => false | _ => true end
  | c :: l' =>
      if decimal_digit c || (hex && (97 <=? lower_ascii c) && (lower_ascii c <=? 102)) then underscore_scan hex BDigit l'
      else if bool_decide (c = "_"%char) then match st with BDigit => underscore_scan hex BUnderscore l' | _ => false end
      else match st with BUnderscore => false | _ => underscore_scan hex BOther l' end
  end.

(** The base a literal announces, its digits, and whether it had a two-letter prefix. *)
Definition base_prefix (l : list ascii) : Z * list ascii :=
  match l with
  | "0"%char :: c :: d :: l' =>
      if lower_ascii c =? 98 then (2, d :: l') else if lower_ascii c =? 111 then (8, d :: l')
      else if lower_ascii c =? 120 then (16, d :: l') else (8, c :: d :: l')
  | "0"%char :: l' => (8, l')
  | _ => (10, l)
  end.

Definition underscoreOK (l : list ascii) : bool :=
  match l with
  | "0"%char :: c :: l' =>
      let n := lower_ascii c in
      if (n =? 98) || (n =? 111) || (n =? 120) then underscore_scan (n =? 120) BDigit l' else underscore_scan false BStart l
  | _ => underscore_scan false BStart l
  end.

(** [strconv.ParseUint(s, 0, 64)] before the range check. *)
Definition parse_magnitude (l : list ascii) : option Z :=
  match l with
  | [] => None
  | _ =>
      let '(base, digits) := base_prefix l in
      v ← base_digits base 0 digits;
      if bool_decide ("_"%char ∈ l) && negb (underscoreOK l) then None else Some v
  end.

(** [strconv.ParseInt(s, 0, 64)] *)
Definition ParseInt64 (s : string) : option Z :=
  let '(neg, l) := match chars s with
    | "+"%char :: l => (false, l)
    | "-"%char :: l => (true, l)
    | l => (false, l)
    end in
  v ← parse_magnitude l;
  let v := if neg : bool then - v else v in
  if (- 2 ^ 63 <=? v) && (v <? 2 ^ 63) then Some v else None.

(** [strconv.ParseBool] *)
Definition ParseBool (s : string) : option bool :=
  if bool_decide (s ∈ ["1"; "t"; "T"; "TRUE"; "true"; "True"]) then Some true
  else if bool_decide (s ∈ ["0"; "f"; "F"; "FALSE"; "false"; "False"]) then Some false else None.

(** ** Flags *)
Inductive flag_value := VString (s : string) | VInt (z : Z) | VBool (b : bool).
#[export] Instance flag_value_eq_dec : EqDecision flag_value.
Proof. solve_decision. Defined.

(** A flag: its name, the variable it sets, and the default, which fixes its kind. *)
Record flag_def := mkFlag { fl_name : string; fl_var : string; fl_default : flag_value }.

Abbreviation FlagSet := (list flag_def).
Abbreviation Vars := (gmap string flag_value).

Definition StringVar (var name dflt : string) : flag_def := mkFlag name var (VString dflt).
Definition Int64Var (var name : string) (dflt : Z) : flag_def := mkFlag name var (VInt dflt).
Definition BoolVar (var name : string) (dflt : bool) : flag_def := mkFlag name var (VBool dflt).

(** Declaring a flag stores the default in its variable. *)
Definition declare (fs : FlagSet) : Vars := foldl (λ vars f, <[fl_var f := fl_default f]> vars) ∅ fs.

(** [f.formal[name]]; declaring the same name twice panics, so it has one entry. *)
Definition formal (fs : FlagSet) (name : string) : option flag_def :=
  r ← list_find (λ f, fl_name f = name) fs; Some r.2.

Definition is_bool (f : flag_def) : bool := match fl_default f with VBool _ => true | _ => false end.

(** [flag.Value.Set] *)
Definition set_value (f : flag_def) (value : string) (vars : Vars) : option Vars :=
  v ← match fl_default f with
      | VString _ => Some (VString value)
      | VInt _ => VInt <$> ParseInt64 value
      | VBool _ => VBool <$> ParseBool value
      end;
  Some (<[fl_var f := v]> vars).

(** What the first argument is: an operand, the terminator, a bad flag, or a flag with
    the text after its dashes. *)
Inductive arg_kind := Operand | Terminator | BadSyntax | Flagged (body : list ascii).

Definition classify (s : string) : arg_kind :=
  match chars s with
  | "-"%char :: c :: l =>
      let body := if bool_decide (c = "-"%char) then l else c :: l in
      if bool_decide (c = "-"%char) && bool_decide (l = []) then Terminator else
      match body with
      | [] => BadSyntax
      | "-"%char :: _ | "="%char :: _ => BadSyntax
      | _ => Flagged body
      end
  | _ => Operand
  end.

(** The name and the value after an equals sign, which cannot come first. *)
Definition name_value (body : list ascii) : string * option string :=
  match body with
  | [] => ("", None)
  | c :: l =>
      match index_byte "="%char l with
      | Some i => (str (c :: take i l), Some (str (drop (i + 1) l)))
      | None => (str body, None)
      end
  end.

(** [FlagSet.Parse]: the variables and the remaining arguments. *)
Fixpoint Parse (fs : FlagSet) (vars : Vars) (args : list string) : option (Vars * list string) :=
  match args with
  | [] => Some (vars, [])
  | s :: args' =>
      match classify s with
      | Operand => Some (vars, args)
      | Terminator => Some (vars, args')
      | BadSyntax => None
      | Flagged body =>
          let '(name, value) := name_value body in
          f ← formal fs name;
          if is_bool f then
            vars ← set_value f (default "true" value) vars; Parse fs vars args'
          else
            match value with
            | Some value => vars ← set_value f value vars; Parse fs vars args'
            | None =>
                match args' with
                | [] => None
                | value :: args'' => vars ← set_value f value vars; Parse fs vars args''
                end
            end
      end
  end.

(** The values of variables. *)
Definition var_string (vars : Vars) (x : string) : string :=
  match vars !! x with Some (VString s) => s | _ => "" end.
Definition var_int (vars : Vars) (x : string) : Z := match vars !! x with Some (VInt z) => z | _ => 0 end.
Definition var_bool (vars : Vars) (x : string) : bool := match vars !! x with Some (VBool b) => b | _ => false end.

Example parse_int_ex : ParseInt64 "300" = Some 300 ∧ ParseInt64 "-0x1F" = Some (-31) ∧ ParseInt64 "1_000" = Some 1000
  ∧ ParseInt64 "010" = Some 8 ∧ ParseInt64 "1__0" = None ∧ ParseInt64 "" = None ∧ ParseInt64 "0x" = None
  ∧ ParseInt64 "0x_1" = Some 1 ∧ ParseInt64 "08" = None ∧ ParseInt64 "0" = Some 0
  ∧ ParseInt64 "9223372036854775808" = None ∧ ParseInt64 "-9223372036854775808" = Some (- 2 ^ 63).
Proof. vm_compute. repeat split. Qed.

Example parse_ex :
  let fs := [StringVar "userID" "id" ""; StringVar "userID" "u" ""; BoolVar "all" "all" false; Int64Var "ttl" "t" 300] in
  let run args := (λ r : Vars * list string, (var_string r.1 "userID", var_bool r.1 "all", var_int r.1 "ttl", r.2)) <$> Parse fs (declare fs) args in
  run ["--id"; "a"; "-u=b"; "-all"; "x"; "-t=1"] = Some ("b", true, 300, ["x"; "-t=1"]) ∧ run ["-t"] = None
  ∧ run ["--all=no"] = None ∧ run ["-x"] = None ∧ run ["--"; "-x"] = Some ("", false, 300, ["-x"])
  ∧ run ["-id="; "-t"; "0x10"] = Some ("", false, 16, []) ∧ run ["-"] = Some ("", false, 300, ["-"]).
Proof. vm_compute. repeat split. Qed.
