(* ===== verification/GoJson.v ===== *)
(** * JSON: what the code uses of Go's [encoding/json].

    A text is parsed into a tree that keeps string and number literals as they are
    written, so that printing the tree gives the text back up to white space, as
    [json.RawMessage] and [json.Compact] need it; [unquote] and [quote_json] translate
    between literals and Go strings.  A struct is read and written through the list
    of its fields with their names from the struct tags: unknown names are skipped,
    names are matched exactly or, failing that, up to case, and [omitempty] leaves
    empty values out.  The texts of syntax and type errors are not modelled. *)
From S2P Require Import Prelude GoString NetIP GoText NetParse.

Definition quote_char34 : ascii := ascii_of_nat 34.

(** ** Trees *)
#[warnings="-register-all"]
Inductive json :=
| JNull
| JBool (b : bool)
| JNumber (lit : list ascii)
| JString (lit : list ascii)
| JArray (l : list json)
| JObject (l : list (list ascii * json)).

Section json_ind.
Context (P : json → Prop) (Hnull : P JNull) (Hbool : ∀ b, P (JBool b)) (Hnum : ∀ lit, P (JNumber lit))
  (Hstr : ∀ lit, P (JString lit)) (Harr : ∀ l, Forall P l → P (JArray l)) (Hobj : ∀ l, Forall P l.*2 → P (JObject l)).
Fixpoint json_ind' (j : json) : P j :=
  match j with
  | JNull => Hnull
  | JBool b => Hbool b
  | JNumber lit => Hnum lit
  | JString lit => Hstr lit
  | JArray l => Harr l ((fix go l := match l return Forall P l with
                         | [] => Forall_nil_2 _ | x :: l => Forall_cons_2 _ _ _ (json_ind' x) (go l) end) l)
  | JObject l => Hobj l ((fix go l := match l return Forall P l.*2 with
                          | [] => Forall_nil_2 _ | x :: l => Forall_cons_2 _ _ _ (json_ind' x.2) (go l) end) l)
  end.
End json_ind.

(** ** Printing

    [brk n] is what is written around the elements of a list at nesting [n], and [sep]
    what is written after the colon of a member: nothing at all for [json.Marshal], a
    line break with two blanks per level and a blank for [SetIndent]. *)
Definition quoted (lit : list ascii) : list ascii := quote_char34 :: lit ++ [quote_char34].

Section Layout.
Context (brk : nat → list ascii) (sep : list ascii).

Fixpoint commas (n : nat) (l : list (list ascii)) : list ascii :=
  match l with [] => [] | [x] => x | x :: l' => x ++ ","%char :: brk n ++ commas n l' end.

Definition enclosed (n : nat) (left right : ascii) (items : list (list ascii)) : list ascii :=
  if bool_decide (items = []) then [left; right] else left :: brk (S n) ++ commas (S n) items ++ brk n ++ [right].

Fixpoint layout (n : nat) (j : json) : list ascii :=
  match j with
  | JNull => chars "null"
  | JBool b => chars (if b then "true" else "false")
  | JNumber lit => lit
  | JString lit => quoted lit
  | JArray l => enclosed n "["%char "]"%char (map (layout (S n)) l)
  | JObject l => enclosed n "{"%char "}"%char (map (λ m, quoted m.1 ++ ":"%char :: sep ++ layout (S n) m.2) l)
  end.
End Layout.

Definition json_text : json → list ascii := layout (λ _, []) [] 0.

(** [SetIndent("", "  ")]. *)
Definition two_blanks (n : nat) : list ascii := ascii_of_nat 10 :: replicate (2 * n) " "%char.
Definition json_indent : json → list ascii := layout two_blanks [" "%char] 0.

(** ** Parsing *)
Definition json_space (c : ascii) : bool := bool_decide (z_of_ascii c ∈ [32; 9; 10; 13]).
Fixpoint skip_space (l : list ascii) : list ascii :=
  match l with c :: l' => if json_space c then skip_space l' else l | [] => [] end.

Definition hex_value (c : ascii) : option Z :=
  let n := z_of_ascii c in
  if (48 <=? n) && (n <=? 57) then Some (n - 48)
  else if (97 <=? n) && (n <=? 102) then Some (n - 87)
  else if (65 <=? n) && (n <=? 70) then Some (n - 55) else None.

(** The four hexadecimal digits after [\u]. *)
Definition getu4 (l : list ascii) : option Z :=
  match l with
  | a :: b :: c :: d :: _ =>
      a ← hex_value a; b ← hex_value b; c ← hex_value c; d ← hex_value d; Some (a * 4096 + b * 256 + c * 16 + d)
  | _ => None
  end.

Definition simple_escape (c : ascii) : bool := bool_decide (c ∈ quote_char34 :: chars "\/bfnrt").

(** A string literal after its opening quote, and what follows the closing one. *)
Fixpoint scan_string (l : list ascii) : option (list ascii * list ascii) :=
  match l with
  | [] => None
  | c :: l' =>
      let more n lit := match lit with Some (lit, rest) => Some (take n l ++ lit, rest) | None => None end in
      if bool_decide (c = quote_char34) then Some ([], l')
      else if bool_decide (c = "\"%char) then
        match l' with
        | e :: l2 =>
            if simple_escape e then more 2%nat (scan_string l2)
            else if bool_decide (e = "u"%char) then
              match l2 with
              | _ :: _ :: _ :: _ :: l3 => if bool_decide (is_Some (getu4 l2)) then more 6%nat (scan_string l3) else None
              | _ => None
              end
            else None
        | [] => None
        end
      else if z_of_ascii c <? 32 then None else more 1%nat (scan_string l')
  end.

Definition digit (c : ascii) : bool := let n := z_of_ascii c in (48 <=? n) && (n <=? 57).
Fixpoint span_digits (l : list ascii) : list ascii * list ascii :=
  match l with
  | c :: l' => if digit c then let '(d, r) := span_digits l' in (c :: d, r) else ([], l)
  | [] => ([], [])
  end.

(** At least one digit. *)
Definition digits1 (l : list ascii) : option (list ascii * list ascii) :=
  let '(d, r) := span_digits l in if bool_decide (d = []) then None else Some (d, r).

Definition scan_fraction (l : list ascii) : option (list ascii * list ascii) :=
  match l with
  | "."%char :: l' => '(d, r) ← digits1 l'; Some ("."%char :: d, r)
  | _ => Some ([], l)
  end.

Definition scan_exponent (l : list ascii) : option (list ascii * list ascii) :=
  match l with
  | e :: l' =>
      if bool_decide (e ∈ chars "eE") then
        match l' with
        | s :: l2 => if bool_decide (s ∈ chars "+-") then '(d, r) ← digits1 l2; Some (e :: s :: d, r)
                     else '(d, r) ← digits1 l'; Some (e :: d, r)
        | [] => None
        end
      else Some ([], l)
  | [] => Some ([], l)
  end.

Definition scan_number (l : list ascii) : option (list ascii * list ascii) :=
  let '(sign, l) := match l with "-"%char :: l' => (["-"%char], l') | _ => ([], l) end in
  '(int, l) ← (match l with "0"%char :: l' => Some (["0"%char], l') | _ => digits1 l end);
  '(frac, l) ← scan_fraction l;
  '(exp, l) ← scan_exponent l;
  Some (sign ++ int ++ frac ++ exp, l).

(** [maxNestingDepth] *)
Definition maxNestingDepth : Z := 10000.

Definition strip (word l : list ascii) : option (list ascii) :=
  if bool_decide (take (length word) l = word) then Some (drop (length word) l) else None.

Fixpoint parse_value (fuel : nat) (depth : Z) (l : list ascii) : option (json * list ascii) :=
  match fuel with
  | O => None
  | S fuel =>
      match skip_space l with
      | [] => None
      | c :: l' =>
          if bool_decide (c = quote_char34) then '(lit, r) ← scan_string l'; Some (JString lit, r)
          else if bool_decide (c = "{"%char) then
            if maxNestingDepth <? depth + 1 then None else
            match skip_space l' with
            | "}"%char :: r => Some (JObject [], r)
            | _ => '(ms, r) ← parse_members fuel (depth + 1) l'; Some (JObject ms, r)
            end
          else if bool_decide (c = "["%char) then
            if maxNestingDepth <? depth + 1 then None else
            match skip_space l' with
            | "]"%char :: r => Some (JArray [], r)
            | _ => '(vs, r) ← parse_elements fuel (depth + 1) l'; Some (JArray vs, r)
            end
          else if bool_decide (c = "t"%char) then r ← strip (chars "true") (c :: l'); Some (JBool true, r)
          else if bool_decide (c = "f"%char) then r ← strip (chars "false") (c :: l'); Some (JBool false, r)
          else if bool_decide (c = "n"%char) then r ← strip (chars "null") (c :: l'); Some (JNull, r)
          else '(lit, r) ← scan_number (c :: l'); Some (JNumber lit, r)
      end
  end
with parse_members (fuel : nat) (depth : Z) (l : list ascii) : option (list (list ascii * json) * list ascii) :=
  match fuel with
  | O => None
  | S fuel =>
      match skip_space l with
      | [] => None
      | c :: l' =>
          if bool_decide (c = quote_char34) then
            '(key, r) ← scan_string l';
            match skip_space r with
            | ":"%char :: r =>
                '(v, r) ← parse_value fuel depth r;
                match skip_space r with
                | ","%char :: r => '(ms, r) ← parse_members fuel depth r; Some ((key, v) :: ms, r)
                | "}"%char :: r => Some ([(key, v)], r)
                | _ => None
                end
            | _ => None
            end
          else None
      end
  end
with parse_elements (fuel : nat) (depth : Z) (l : list ascii) : option (list json * list ascii) :=
  match fuel with
  | O => None
  | S fuel =>
      '(v, r) ← parse_value fuel depth l;
      match skip_space r with
      | ","%char :: r => '(vs, r) ← parse_elements fuel depth r; Some (v :: vs, r)
      | "]"%char :: r => Some ([v], r)
      | _ => None
      end
  end.

(** The first value of a stream, as [json.Decoder.Decode] reads it, and a whole
    text, as [json.Unmarshal] and [json.Valid] read it. *)
Definition parse_first (l : list ascii) : option json := fst <$> parse_value (S (2 * length l)) 0 l.
Definition parse_all (l : list ascii) : option json :=
  '(j, r) ← parse_value (S (2 * length l)) 0 l; if bool_decide (skip_space r = []) then Some j else None.
Definition json_Valid (s : string) : bool := bool_decide (is_Some (parse_all (chars s))).

(** ** String literals *)
Definition hex4 (n : Z) : list ascii :=
  let d (k : Z) := hex_digit (Z.land (Z.shiftr n (4 * k)) 15) in [d 3; d 2; d 1; d 0].
Definition unicode_escape (n : Z) : list ascii := "\"%char :: "u"%char :: hex4 n.

(** [appendString] with [escapeHTML]: the literal of the rune that starts with [c],
    and the number of bytes it takes after [c]. *)
Definition escape_rune (c : ascii) (l : list ascii) : list ascii * nat :=
  let n := z_of_ascii c in
  let short (d : ascii) := ["\"%char; d] in
  if n <? 128 then
    (if bool_decide (c = "\"%char) || bool_decide (c = quote_char34) then short c
     else if n =? 8 then short "b"%char else if n =? 12 then short "f"%char else if n =? 10 then short "n"%char
     else if n =? 13 then short "r"%char else if n =? 9 then short "t"%char
     else if (n <? 32) || bool_decide (c ∈ chars "<>&") then unicode_escape n else [c], 0%nat)
  else
    let '(r, k) := decode_rune c l in
    (if (r =? runeError) && bool_decide (k = 0%nat) then unicode_escape runeError
     else if (r =? 0x2028) || (r =? 0x2029) then unicode_escape r else c :: take k l, k).

Fixpoint escape (skip : nat) (l : list ascii) : list ascii :=
  match l, skip with
  | [], _ => []
  | _ :: l', S k => escape k l'
  | c :: l', O => let '(out, k) := escape_rune c l' in out ++ escape k l'
  end.

Definition quote_json (s : string) : json := JString (escape 0 (chars s)).

(** [utf16.DecodeRune] of a surrogate pair. *)
Definition utf16_pair (r1 r2 : Z) : option Z :=
  if (0xD800 <=? r1) && (r1 <? 0xDC00) && (0xDC00 <=? r2) && (r2 <? 0xE000)
  then Some (Z.lor (Z.shiftl (r1 - 0xD800) 10) (r2 - 0xDC00) + 0x10000) else None.

Definition short_escape (e : ascii) : ascii :=
  match e with
  | "b"%char => ascii_of_Z 8 | "f"%char => ascii_of_Z 12 | "n"%char => ascii_of_Z 10 | "r"%char => ascii_of_Z 13
  | "t"%char => ascii_of_Z 9 | _ => e
  end.

(** [unquote]: the bytes the rune or escape that starts with [c] stands for, and the
    number of bytes it takes after [c]. *)
Definition unquote_rune (c : ascii) (l : list ascii) : list ascii * nat :=
  if bool_decide (c = "\"%char) then
    match l with
    | e :: l2 =>
        if bool_decide (e = "u"%char) then
          let r := default (-1) (getu4 l2) in
          if (0xD800 <=? r) && (r <? 0xE000) then
            match drop 4 l2 with
            | "\"%char :: "u"%char :: l3 =>
                match getu4 l3 ≫= utf16_pair r with
                | Some d => (encode_rune d, 11%nat)
                | None => (encode_rune runeError, 5%nat)
                end
            | _ => (encode_rune runeError, 5%nat)
            end
          else (encode_rune r, 5%nat)
        else ([short_escape e], 1%nat)
    | [] => ([], 0%nat)
    end
  else if z_of_ascii c <? 128 then ([c], 0%nat)
  else let '(r, k) := decode_rune c l in (encode_rune r, k).

Fixpoint unquote (skip : nat) (l : list ascii) : list ascii :=
  match l, skip with
  | [], _ => []
  | _ :: l', S k => unquote k l'
  | c :: l', O => let '(out, k) := unquote_rune c l' in out ++ unquote k l'
  end.

Definition unquoted (lit : list ascii) : string := str (unquote 0 lit).

(** A string with its invalid bytes replaced by U+FFFD: what arrives. *)
Fixpoint valid_runes (skip : nat) (l : list ascii) : list ascii :=
  match l, skip with
  | [], _ => []
  | _ :: l', S k => valid_runes k l'
  | c :: l', O => encode_rune (decode_rune c l').1 ++ valid_runes (decode_rune c l').2 l'
  end.
Definition ToValidUTF8 (s : string) : string := str (valid_runes 0 (chars s)).

(** [json.Compact] of a raw value, which escapes the HTML characters and the line
    separators wherever they stand. *)
Fixpoint compact_literal (l : list ascii) : list ascii :=
  match l with
  | [] => []
  | c :: l' =>
      if bool_decide (c ∈ chars "<>&") then unicode_escape (z_of_ascii c) ++ compact_literal l' else
      match l' with
      | a :: b :: l3 =>
          if (z_of_ascii c =? 0xE2) && (z_of_ascii a =? 0x80) && (Z.land (z_of_ascii b) (Z.lnot 1) =? 0xA8)
          then unicode_escape (0x2000 + Z.land (z_of_ascii b) 0x3F) ++ compact_literal l3 else c :: compact_literal l'
      | _ => c :: compact_literal l'
      end
  end.
Fixpoint compact_json (j : json) : json :=
  match j with
  | JString lit => JString (compact_literal lit)
  | JArray l => JArray (map compact_json l)
  | JObject l => JObject (map (λ m, (compact_literal m.1, compact_json m.2)) l)
  | _ => j
  end.

Example parse_json_ex :
  parse_all (chars " {" ++ quoted (chars "a") ++ chars ": [1, -2.5e3 ,true,null, {}]} ")
  = Some (JObject [(chars "a", JArray [JNumber (chars "1"); JNumber (chars "-2.5e3"); JBool true; JNull; JObject []])]).
Proof. reflexivity. Qed.
Example parse_json_bad : parse_all (chars "[1,]") = None ∧ parse_all (chars "01") = None ∧ parse_all (chars "{} x") = None.
Proof. by vm_compute. Qed.
Example quote_json_ex : json_text (quote_json "a<b" ) = quoted (chars "a\u003cb").
Proof. reflexivity. Qed.
Example unquote_ex : unquoted (chars "\ud83d\ude00\/\u0041\ud800") = str (encode_rune 0x1F600 ++ chars "/A" ++ encode_rune runeError).
Proof. by vm_compute. Qed.
