(* ===== verification/GoJsonInv.v ===== *)
(** * JSON texts can be read back: the printer, the parser, string literals. *)
From S2P Require Import Prelude GoString NetIP GoText NetParse GoJson.

(** ** String literals *)
Definition prepend (p : list ascii) (r : option (list ascii * list ascii)) : option (list ascii * list ascii) :=
  match r with Some (lit, rest) => Some (p ++ lit, rest) | None => None end.

Definition high (c : ascii) : Prop := 128 ≤ z_of_ascii c.

Lemma prepend_app p q r : prepend (p ++ q) r = prepend p (prepend q r).
Proof. destruct r as [[lit rest]|]; simpl; [by rewrite <-app_assoc|done]. Qed.

Lemma scan_high c r : high c → scan_string (c :: r) = prepend [c] (scan_string r).
Proof.
  intros Hc. unfold high in Hc. cbn [scan_string].
  rewrite !bool_decide_eq_false_2 by (intros ->; by vm_compute in Hc). by rewrite (proj2 (Z.ltb_ge _ _)) by lia.
Qed.

Lemma scan_all_high p r : Forall high p → scan_string (p ++ r) = prepend p (scan_string r).
Proof.
  induction 1 as [|c p Hc _ IH]; [cbn; by destruct (scan_string r) as [[]|]|].
  cbn [app]. by rewrite scan_high, IH, <-prepend_app.
Qed.

Ltac high_bytes := unfold high, within, cont in *; bool_prop; repeat case_match; bool_prop; lia.

(** A rune of several bytes is decoded from its own bytes, all of them above 127. *)
Lemma decode_multi c l r k : decode_rune c l = (r, S k) →
  (∀ rest, decode_rune c (take (S k) l ++ rest) = (r, S k)) ∧ length (take (S k) l) = S k ∧ high c ∧ Forall high (take (S k) l).
Proof.
  unfold decode_rune. destruct (z_of_ascii c <? 128) eqn:Hc; [done|]. apply Z.ltb_ge in Hc.
  destruct l as [|b l]; [done|]. destruct (within c 194 223 && cont b) eqn:E1.
  { intros [= <- <-]. split_and!; [intros rest; simpl; by rewrite E1|done..|]. repeat constructor. high_bytes. }
  destruct l as [|d l]; [done|]. destruct (within c 224 239 && _ && cont d) eqn:E2.
  { intros [= <- <-]. split_and!; [intros rest; simpl; by rewrite E1, E2|done..|]. repeat constructor; clear E1; high_bytes. }
  destruct l as [|e l]; [done|]. destruct (within c 240 244 && _ && cont d && cont e) eqn:E3; [|done].
  intros [= <- <-]. split_and!; [intros rest; simpl; by rewrite E1, E2, E3|done..|].
  repeat constructor; clear E1 E2; high_bytes.
Qed.

(** What the literal of one rune stands for, whatever follows it. *)
Lemma escape_ascii c l rest : z_of_ascii c < 128 →
  let out := (escape_rune c l).1 in
  (escape_rune c l).2 = 0%nat ∧ scan_string (out ++ rest) = prepend out (scan_string rest)
  ∧ unquote 0 (out ++ rest) = c :: unquote 0 rest ∧ Forall (λ d, 32 ≤ z_of_ascii d) out.
Proof.
  intros Hc. destruct c as [[] [] [] [] [] [] [] []]; first [exfalso; by vm_compute in Hc|clear Hc].
  all: cbv zeta; split_and!; [reflexivity|reflexivity|reflexivity|]; apply (bool_decide_unpack _); by vm_compute.
Qed.

Lemma decode_single c l : high c → (decode_rune c l).2 = 0%nat → (decode_rune c l).1 = runeError.
Proof.
  unfold high, decode_rune. intros Hc. rewrite (proj2 (Z.ltb_ge _ _)) by done.
  destruct l as [|b l]; [done|]. destruct (_ && cont b); [done|].
  destruct l as [|d l]; [done|]. destruct (_ && cont d); [done|].
  destruct l as [|e l]; [done|]. by destruct (_ && cont e).
Qed.

Lemma decode_ascii c l : z_of_ascii c < 128 → decode_rune c l = (z_of_ascii c, 0%nat) ∧ encode_rune (z_of_ascii c) = [c].
Proof.
  intros Hc. unfold decode_rune. rewrite (proj2 (Z.ltb_lt _ _)) by done. split; [done|].
  destruct c as [[] [] [] [] [] [] [] []]; first [exfalso; by vm_compute in Hc|reflexivity].
Qed.

Lemma unquote_skip p rest : unquote (length p) (p ++ rest) = unquote 0 rest.
Proof. induction p as [|c p IH]; [by destruct rest|exact IH]. Qed.

Lemma escape_rune_spec c l rest :
  let out := (escape_rune c l).1 in
  (escape_rune c l).2 = (decode_rune c l).2 ∧ scan_string (out ++ rest) = prepend out (scan_string rest)
  ∧ unquote 0 (out ++ rest) = encode_rune (decode_rune c l).1 ++ unquote 0 rest ∧ Forall (λ d, 32 ≤ z_of_ascii d) out.
Proof.
  cbv zeta. destruct (Z.lt_ge_cases (z_of_ascii c) 128) as [Hc|Hc].
  { destruct (decode_ascii c l Hc) as [-> Henc]. cbn [fst snd]. rewrite Henc. by apply escape_ascii. }
  unfold escape_rune. rewrite (proj2 (Z.ltb_ge _ _)) by done.
  destruct (decode_rune c l) as [r k] eqn:E. cbn [fst snd]. split; [done|]. destruct k as [|k].
  { pose proof (decode_single c l Hc) as Hr. rewrite E in Hr. cbn in Hr. rewrite Hr by done. cbn [bool_decide].
    split_and!; [reflexivity|reflexivity|]. apply (bool_decide_unpack _). by vm_compute. }
  destruct (decode_multi c l r k E) as (Hd & Hlen & Hcc & Hall).
  rewrite (bool_decide_eq_false_2 (S k = 0%nat)) by done. rewrite andb_false_r.
  destruct (_ || _) eqn:Hsep.
  { assert (r = 0x2028 ∨ r = 0x2029) as [-> | ->] by (apply orb_true_iff in Hsep as [?|?]; bool_prop; tauto).
    all: split_and!; [reflexivity|reflexivity|]; apply (bool_decide_unpack _); by vm_compute. }
  split_and!.
  - rewrite <-(scan_all_high (c :: take (S k) l)); [done|by constructor].
  - change ((c :: take (S k) l) ++ rest) with (c :: take (S k) l ++ rest). cbn [unquote]. unfold unquote_rune.
    rewrite bool_decide_eq_false_2 by (intros ->; by vm_compute in Hc). rewrite (proj2 (Z.ltb_ge _ _)) by done.
    rewrite Hd. f_equal. rewrite <-Hlen at 1. apply unquote_skip.
  - constructor; [unfold high in Hcc; lia|]. eapply Forall_impl; [exact Hall|]. unfold high. lia.
Qed.

Lemma escape_drop k l : escape k l = escape 0 (drop k l).
Proof. revert l. induction k as [|k IH]; intros [|c l]; try done. apply IH. Qed.
Lemma valid_drop k l : valid_runes k l = valid_runes 0 (drop k l).
Proof. revert l. induction k as [|k IH]; intros [|c l]; try done. apply IH. Qed.

Lemma escape_all l rest :
  scan_string (escape 0 l ++ rest) = prepend (escape 0 l) (scan_string rest)
  ∧ unquote 0 (escape 0 l) = valid_runes 0 l ∧ Forall (λ d, 32 ≤ z_of_ascii d) (escape 0 l).
Proof.
  remember (length l) as n eqn:Hn. revert l Hn. induction (lt_wf n) as [n _ IH]. intros [|c l] ->.
  { split_and!; [cbn; by destruct (scan_string rest) as [[]|]|done|constructor]. }
  destruct (IH (length (drop (decode_rune c l).2 l))) with (drop (decode_rune c l).2 l) as (Hs & Hu & Hf);
    [rewrite length_drop; simpl; lia|done|].
  cbn [escape]. destruct (escape_rune c l) as [out k] eqn:E.
  pose proof (λ r, escape_rune_spec c l r) as Hspec. rewrite E in Hspec. cbn [fst snd] in Hspec.
  assert (k = (decode_rune c l).2) as -> by apply (Hspec []).
  rewrite escape_drop. split_and!.
  - rewrite <-app_assoc, (proj1 (proj2 (Hspec _))), Hs. by rewrite prepend_app.
  - rewrite (proj1 (proj2 (proj2 (Hspec _)))), Hu. cbn [valid_runes]. by rewrite (valid_drop _ l).
  - apply Forall_app. split; [apply (Hspec [])|done].
Qed.

(** A literal that the scanner reads up to its closing quote, without control
    characters. *)
Definition literal (lit : list ascii) : Prop :=
  (∀ rest, scan_string (lit ++ quote_char34 :: rest) = Some (lit, rest)) ∧ Forall (λ d, 32 ≤ z_of_ascii d) lit.

Lemma escape_literal l : literal (escape 0 l).
Proof.
  split; [|by apply (escape_all l [])]. intros rest. rewrite (proj1 (escape_all l _)).
  change (scan_string (quote_char34 :: rest)) with (Some ([] : list ascii, rest)). cbn [prepend]. by rewrite app_nil_r.
Qed.

(** A string arrives as it is, up to its invalid bytes. *)
Lemma unquoted_quote s : unquoted (escape 0 (chars s)) = ToValidUTF8 s.
Proof. unfold unquoted, ToValidUTF8. by rewrite (proj1 (proj2 (escape_all (chars s) []))). Qed.

Lemma valid_ascii s : Forall is_ascii7 (chars s) → ToValidUTF8 s = s.
Proof.
  intros Hs. apply chars_inj. unfold ToValidUTF8, str. rewrite chars_of_list.
  induction Hs as [|c l Hc _ IH]; [done|]. cbn [valid_runes]. destruct (decode_ascii c l Hc) as [-> Henc].
  cbn [fst snd]. by rewrite Henc, IH.
Qed.

(** ** Numbers *)

(** What may follow a value. *)
Definition ends (rest : list ascii) : Prop :=
  match rest with [] => True | c :: _ => json_space c = true ∨ c ∈ chars ",]}" end.

Definition number (lit : list ascii) : Prop :=
  (∀ rest, ends rest → scan_number (lit ++ rest) = Some (lit, rest))
  ∧ (∃ c l, lit = c :: l ∧ (digit c = true ∨ c = "-"%char)) ∧ Forall (λ d, 32 ≤ z_of_ascii d) lit.

Lemma digit_spec c : is_digit c ↔ digit c = true.
Proof. unfold is_digit, digit. rewrite andb_true_iff, !Z.leb_le. done. Qed.

Lemma ends_cases rest (P : list ascii → Prop) :
  ends rest → P [] → (∀ c l, digit c = false → c ∉ chars ".eE" → P (c :: l)) → P rest.
Proof.
  intros He H0 H1. destruct rest as [|c l]; [done|]. apply H1.
  - destruct He as [Hs|Hc]; [|by set_unfold; destruct Hc as [->|[->|[->|[]]]]].
    unfold json_space in Hs. bool_prop. unfold digit. set_unfold. destruct (_ && _) eqn:E; [|done]. bool_prop. lia.
  - intros Hc. destruct He as [Hs|Hs]; set_unfold; [|naive_solver].
    destruct Hc as [->|[->|[->|[]]]]; by vm_compute in Hs.
Qed.

(** The cases of a character that the code compares with fixed ones. *)
Ltac char_cases c := destruct c as [[] [] [] [] [] [] [] []]; try done.

Lemma no_fraction rest : ends rest → scan_fraction rest = Some ([], rest) ∧ scan_exponent rest = Some ([], rest).
Proof.
  intros He. pattern rest. apply (ends_cases rest); [done|done|]. intros c l _ Hc. split.
  - unfold scan_fraction. assert (c ≠ "."%char) by (intros ->; apply Hc; set_solver). repeat case_match; congruence.
  - unfold scan_exponent. rewrite bool_decide_eq_false_2; [done|]. intros Hin. apply Hc. set_unfold. naive_solver.
Qed.

(** The digits of a number that is not negative. *)
Definition magnitude (ds : list ascii) : Prop :=
  Forall is_digit ds ∧ (ds = ["0"%char] ∨ ∃ c l, ds = c :: l ∧ c ≠ "0"%char).

Lemma dec_magnitude z : 0 ≤ z → magnitude (chars (dec z)).
Proof.
  intros Hz. split; [by apply dec_digits|]. destruct (decide (z = 0)) as [->|Hn]; [by left|right]. apply dec_leading. lia.
Qed.

Lemma span_digits_split l : l = (span_digits l).1 ++ (span_digits l).2.
Proof.
  induction l as [|c l IH]; [done|]. cbn [span_digits]. destruct (digit c); [|done]. destruct (span_digits l). cbn in *. by rewrite <-IH.
Qed.

Definition digs (ds : list ascii) : Prop := ds ≠ [] ∧ Forall is_digit ds.
Definition no_digit (rest : list ascii) : Prop := match rest with [] => True | c :: _ => digit c = false end.
Definition stops (rest : list ascii) : Prop := no_digit rest ∧ head rest ≠ Some "."%char.

Lemma ends_stops rest : ends rest → stops rest.
Proof.
  intros He. pattern rest. apply (ends_cases rest); [done|done|]. intros c l Hd Hc. split; [done|]. intros [= ->]. apply Hc. set_solver.
Qed.

Lemma span_digits_stop ds rest : Forall is_digit ds → no_digit rest → span_digits (ds ++ rest) = (ds, rest).
Proof.
  intros Hds Hs. induction Hds as [|c ds Hc _ IH]; cbn [app span_digits].
  - destruct rest as [|c l]; [done|]. cbn [span_digits]. by rewrite Hs.
  - apply digit_spec in Hc. by rewrite Hc, IH.
Qed.

Lemma digits1_stop ds rest : digs ds → no_digit rest → digits1 (ds ++ rest) = Some (ds, rest).
Proof. intros [Hne Hds] Hs. unfold digits1. rewrite span_digits_stop by done. by rewrite bool_decide_eq_false_2. Qed.

Lemma digits1_sound l ds r : digits1 l = Some (ds, r) → digs ds ∧ l = ds ++ r.
Proof.
  unfold digits1. assert (Hd : Forall is_digit (span_digits l).1).
  { induction l as [|c l IH]; [constructor|]. cbn [span_digits]. destruct (digit c) eqn:Hc; [|constructor].
    destruct (span_digits l). constructor; [by apply digit_spec|done]. }
  pose proof (span_digits_split l) as E. destruct (span_digits l) as [d' r']. case_bool_decide; [done|]. by intros [= <- <-].
Qed.

(** The parts of a number that follow its integer part. *)
Definition fraction (frac : list ascii) : Prop := frac = [] ∨ ∃ ds, frac = "."%char :: ds ∧ digs ds.
Definition exponent (ex : list ascii) : Prop :=
  ex = [] ∨ ∃ e sign ds, ex = e :: sign ++ ds ∧ e ∈ chars "eE" ∧ digs ds ∧ (sign = [] ∨ ∃ s, sign = [s] ∧ s ∈ chars "+-").

Lemma exponent_head ex rest : exponent ex → ends rest → stops (ex ++ rest).
Proof.
  intros [->|(e & sign & ds & -> & He & _)] Hr; [by apply ends_stops|]. cbn [app]. set_unfold.
  destruct He as [->|[->|[]]]; by vm_compute.
Qed.

Lemma scan_exponent_ok ex rest : exponent ex → ends rest → scan_exponent (ex ++ rest) = Some (ex, rest).
Proof.
  intros [->|(e & sign & ds & -> & He & [Hne Hds] & Hs)] Hr; [by apply no_fraction|].
  cbn [app scan_exponent]. rewrite bool_decide_eq_true_2 by done. rewrite <-app_assoc.
  pose proof (digits1_stop ds rest (conj Hne Hds) (proj1 (ends_stops rest Hr))) as Hd.
  destruct Hs as [->|(s & -> & Hs)]; cbn [app].
  - destruct ds as [|c ds]; [done|]. cbn [app] in *. rewrite bool_decide_eq_false_2; [by rewrite Hd|].
    inversion_clear Hds as [|? ? Hc _]. intros Hin. set_unfold.
    destruct Hin as [->|[->|[]]]; by destruct Hc as [H1 H2]; (destruct H1 || destruct H2).
  - by rewrite bool_decide_eq_true_2, Hd.
Qed.

Lemma scan_fraction_ok frac rest : fraction frac → stops rest → scan_fraction (frac ++ rest) = Some (frac, rest).
Proof.
  intros [->|(ds & -> & Hds)] [Hr Hc]; cbn [app scan_fraction]; [|by rewrite digits1_stop].
  destruct rest as [|c l]; [done|]. cbn [head] in Hc. char_cases c.
Qed.

Lemma fraction_head frac rest : fraction frac → stops rest → no_digit (frac ++ rest).
Proof. intros [->|(ds & -> & _)] Hr; [apply Hr|done]. Qed.

Lemma magnitude_head ds : magnitude ds → ∃ c l, ds = c :: l ∧ digit c = true.
Proof.
  intros [Hds Hne]. destruct ds as [|c l]; [by destruct Hne as [?|(? & ? & ? & _)]|]. inversion Hds.
  exists c, l. split; [done|]. by apply digit_spec.
Qed.

Lemma scan_magnitude ds rest : magnitude ds → no_digit rest →
  (match ds ++ rest with "0"%char :: l' => Some (["0"%char], l') | _ => digits1 (ds ++ rest) end) = Some (ds, rest).
Proof.
  intros [Hds [->|(c & l & -> & Hc)]] He; [done|].
  pose proof (digits1_stop (c :: l) rest (conj (not_eq_sym (nil_cons (x:=c) (l:=l))) Hds) He) as E. cbn [app] in *. char_cases c.
Qed.

Lemma number_scanned int frac ex rest : magnitude int → fraction frac → exponent ex → ends rest →
  scan_number (int ++ frac ++ ex ++ rest) = Some (int ++ frac ++ ex, rest)
  ∧ scan_number ("-"%char :: int ++ frac ++ ex ++ rest) = Some ("-"%char :: int ++ frac ++ ex, rest).
Proof.
  intros Hint Hfrac Hex Hr. pose proof (exponent_head ex rest Hex Hr) as Hx.
  pose proof (scan_magnitude int _ Hint (fraction_head frac _ Hfrac Hx)) as Hi. split.
  - assert (Hsg : ∀ t : list ascii, (match int ++ t with "-"%char :: l' => (["-"%char], l') | _ => ([], int ++ t) end) = ([], int ++ t)).
    { intros t. destruct (magnitude_head int Hint) as (c & l & -> & Hd). cbn [app]. char_cases c. }
    unfold scan_number. rewrite Hsg, Hi. cbn [mbind option_bind]. rewrite scan_fraction_ok by done. cbn [mbind option_bind].
    by rewrite scan_exponent_ok.
  - unfold scan_number. rewrite Hi. cbn [mbind option_bind]. rewrite scan_fraction_ok by done. cbn [mbind option_bind].
    by rewrite scan_exponent_ok.
Qed.

Lemma number_parts sign int frac ex :
  sign = [] ∨ sign = ["-"%char] → magnitude int → fraction frac → exponent ex → number (sign ++ int ++ frac ++ ex).
Proof.
  intros Hsign Hint Hfrac Hex. split_and!.
  - intros rest Hr. rewrite <-!app_assoc. destruct (number_scanned int frac ex rest) as [Hp Hn]; [done..|]. by destruct Hsign as [->| ->].
  - destruct (magnitude_head int Hint) as (c & l & -> & Hd). destruct Hsign as [->| ->]; cbn [app]; eauto.
  - assert (Hdp : ∀ ds, Forall is_digit ds → Forall (λ d, 32 ≤ z_of_ascii d) ds).
    { intros ds Hds. eapply Forall_impl; [exact Hds|]. unfold is_digit. lia. }
    repeat (apply Forall_app; split).
    + destruct Hsign as [->| ->]; repeat constructor; by vm_compute.
    + apply Hdp, Hint.
    + destruct Hfrac as [->|(ds & -> & _ & Hds)]; [constructor|]. constructor; [by vm_compute|by apply Hdp].
    + destruct Hex as [->|(e & s & ds & -> & He & [_ Hds] & Hs)]; [constructor|]. set_unfold.
      constructor; [destruct He as [->|[->|[]]]; by vm_compute|]. apply Forall_app. split; [|by apply Hdp].
      destruct Hs as [->|(x & -> & [->|[->|[]]])]; repeat constructor; by vm_compute.
Qed.

Lemma dec_number z : number (chars (dec z)).
Proof.
  assert (Hm : ∀ sign ds, sign = [] ∨ sign = ["-"%char] → magnitude ds → number (sign ++ ds)).
  { intros sign ds Hs Hd. pose proof (number_parts sign ds [] [] Hs Hd ltac:(by left) ltac:(by left)) as Hn. by rewrite !app_nil_r in Hn. }
  destruct (Z.le_gt_cases 0 z) as [Hz|Hz]; [apply (Hm []); [by left|by apply dec_magnitude]|].
  destruct z as [|p|p]; [lia|lia|]. change (chars (dec (Z.neg p))) with (["-"%char] ++ chars (dec (Z.pos p))).
  apply Hm; [by right|by apply dec_magnitude].
Qed.

(** ** Values *)

(** Trees whose literals can be read and whose nesting is within the limit, at [depth]. *)
#[warnings="-register-all"]
Inductive wf_json (depth : Z) : json → Prop :=
| wf_null : wf_json depth JNull
| wf_bool b : wf_json depth (JBool b)
| wf_number lit : number lit → wf_json depth (JNumber lit)
| wf_string lit : literal lit → wf_json depth (JString lit)
| wf_array l : depth + 1 ≤ maxNestingDepth → Forall (wf_json (depth + 1)) l → wf_json depth (JArray l)
| wf_object l : depth + 1 ≤ maxNestingDepth → Forall literal l.*1 → Forall (wf_json (depth + 1)) l.*2 →
    wf_json depth (JObject l).

Lemma skip_none c l : json_space c = false → skip_space (c :: l) = c :: l.
Proof. intros E. cbn [skip_space]. by rewrite E. Qed.

Definition spaces (l : list ascii) : Prop := Forall (λ c, json_space c = true) l.

Lemma skip_spaces sp l : spaces sp → skip_space (sp ++ l) = skip_space l.
Proof. induction 1 as [|c sp Hc _ IH]; [done|]. cbn [app skip_space]. by rewrite Hc. Qed.

Lemma skip_all l : spaces l → skip_space l = [].
Proof. intros Hl. rewrite <-(app_nil_r l). by rewrite skip_spaces. Qed.

(** White space before a value or a list of them is skipped. *)
Lemma parse_spaces fuel d sp l : spaces sp →
  parse_value fuel d (sp ++ l) = parse_value fuel d l ∧ parse_members fuel d (sp ++ l) = parse_members fuel d l
  ∧ parse_elements fuel d (sp ++ l) = parse_elements fuel d l.
Proof.
  intros Hsp. assert (Hv : ∀ fuel, parse_value fuel d (sp ++ l) = parse_value fuel d l).
  { intros [|f]; [done|]. cbn [parse_value]. by rewrite skip_spaces. }
  split; [done|]. destruct fuel as [|fuel]; [done|]. cbn [parse_members parse_elements]. by rewrite skip_spaces, Hv.
Qed.

Definition closing (c : ascii) : Prop := c ∈ chars ",]}".
Lemma ends_closing sp c l : spaces sp → closing c → ends (sp ++ c :: l).
Proof. intros [|? ? Hs _] Hc; [by right|by left]. Qed.
Lemma closing_comma : closing ","%char.
Proof. apply (bool_decide_unpack _). by vm_compute. Qed.
Lemma closing_brackets : closing "]"%char ∧ closing "}"%char.
Proof. split; apply (bool_decide_unpack _); by vm_compute. Qed.
Lemma ends_space l : spaces l → ends l.
Proof. intros [|c l' Hc _]; [done|]. by left. Qed.

Lemma parse_number c l depth fuel : digit c = true ∨ c = "-"%char →
  parse_value (S fuel) depth (c :: l) = ('(lit, r) ← scan_number (c :: l); Some (JNumber lit, r)).
Proof.
  intros Hc. destruct c as [[] [] [] [] [] [] [] []];
    first [exfalso; destruct Hc as [Hc|Hc]; [by vm_compute in Hc|discriminate Hc]|reflexivity].
Qed.

(** A value that starts with a bracket: empty, or with a first element. *)
Lemma parse_empty depth fuel r : depth + 1 ≤ maxNestingDepth →
  parse_value (S fuel) depth ("["%char :: "]"%char :: r) = Some (JArray [], r)
  ∧ parse_value (S fuel) depth ("{"%char :: "}"%char :: r) = Some (JObject [], r).
Proof.
  intros Hd. cbn [parse_value]. rewrite !skip_none by done. cbn [bool_decide].
  rewrite !(bool_decide_eq_false_2 (_ = quote_char34)) by done. rewrite (bool_decide_eq_false_2 ("["%char = "{"%char)) by done.
  rewrite !(bool_decide_eq_true_2 (_ = _)) by done. by rewrite (proj2 (Z.ltb_ge _ _)) by done.
Qed.

Lemma parse_open l depth fuel c r : depth + 1 ≤ maxNestingDepth → skip_space l = c :: r → c ∉ chars ",:]}" →
  parse_value (S fuel) depth ("["%char :: l) = ('(vs, r) ← parse_elements fuel (depth + 1) l; Some (JArray vs, r))
  ∧ parse_value (S fuel) depth ("{"%char :: l) = ('(ms, r) ← parse_members fuel (depth + 1) l; Some (JObject ms, r)).
Proof.
  intros Hd Hs Hc. cbn [parse_value]. rewrite !skip_none by done. cbn [bool_decide].
  rewrite !(bool_decide_eq_false_2 (_ = quote_char34)) by done. rewrite (bool_decide_eq_false_2 ("["%char = "{"%char)) by done.
  rewrite !(bool_decide_eq_true_2 (_ = _)) by done. rewrite (proj2 (Z.ltb_ge _ _)) by done. rewrite Hs.
  split; destruct c as [[] [] [] [] [] [] [] []]; first [reflexivity|exfalso; apply Hc; apply (bool_decide_unpack _); by vm_compute].
Qed.

Lemma quote_opens : quote_char34 ∉ chars ",:]}".
Proof. apply (bool_decide_unpack _). by vm_compute. Qed.

(** ** Reading back what was printed, in any layout *)
Section Layout.
Context (brk : nat → list ascii) (sep : list ascii) (Hbrk : ∀ n, spaces (brk n)) (Hsep : spaces sep).

Lemma commas_cons n x y l : commas brk n (x :: y :: l) = x ++ ","%char :: brk n ++ commas brk n (y :: l).
Proof. done. Qed.

(** The text of a value starts with a character that is not white space. *)
Lemma text_head depth n j : wf_json depth j → ∃ c l, layout brk sep n j = c :: l ∧ json_space c = false ∧ c ∉ chars ",:]}".
Proof.
  assert (He : ∀ a b items, json_space a = false → a ∉ chars ",:]}" →
    ∃ c l, enclosed brk n a b items = c :: l ∧ json_space c = false ∧ c ∉ chars ",:]}").
  { intros a b items Ha Hn. exists a. unfold enclosed. case_bool_decide; by eexists. }
  destruct 1 as [|[]|lit (_ & (c & l & -> & Hc) & _)|lit _|l _ _|l _ _ _];
    try (apply He; [reflexivity|]; apply (bool_decide_unpack _); by vm_compute);
    try (eexists _, _; split; [reflexivity|]; split; [reflexivity|]; apply (bool_decide_unpack _); by vm_compute).
  eexists _, _. split; [reflexivity|].
  destruct c as [[] [] [] [] [] [] [] []]; first
    [ exfalso; destruct Hc as [Hc|Hc]; [by vm_compute in Hc|discriminate Hc]
    | split; [reflexivity|]; apply (bool_decide_unpack _); by vm_compute ].
Qed.

Definition reads (j : json) : Prop := ∀ n depth fuel rest,
  wf_json depth j → (length (layout brk sep n j) < fuel)%nat → ends rest →
  parse_value fuel depth (layout brk sep n j ++ rest) = Some (j, rest).

Lemma reads_elements n l depth fuel sp rest :
  Forall reads l → Forall (wf_json depth) l → l ≠ [] → spaces sp → (S (length (commas brk n (map (layout brk sep n) l))) < fuel)%nat →
  parse_elements fuel depth (commas brk n (map (layout brk sep n) l) ++ sp ++ "]"%char :: rest) = Some (l, rest).
Proof.
  intros Hl Hwf Hne Hsp. revert fuel Hwf Hne. induction Hl as [|x l Hx Hl IH]; intros fuel Hwf Hne Hf; [done|].
  apply Forall_cons in Hwf as [Hwx Hwl]. destruct fuel as [|fuel]; [lia|]. destruct closing_brackets as [Hclose _].
  destruct l as [|y l]; [|cbn [map] in *; rewrite commas_cons, length_app in Hf; rewrite commas_cons, <-app_assoc];
    cbn [parse_elements map commas]; (rewrite Hx; [|done|cbn [map commas length] in Hf; lia|
      first [by apply ends_closing|exact (ends_closing [] _ _ (Forall_nil_2 _) closing_comma)]]).
  - cbn [mbind option_bind]. by rewrite skip_spaces.
  - cbn [mbind option_bind app]. rewrite skip_none by done. rewrite <-app_assoc.
    rewrite (proj2 (proj2 (parse_spaces _ _ _ _ (Hbrk n)))). rewrite IH; [done|done|done|].
    clear -Hf. simpl in Hf |- *. rewrite !length_app in Hf. lia.
Qed.

Definition member_text (n : nat) (m : list ascii * json) : list ascii := quoted m.1 ++ ":"%char :: sep ++ layout brk sep n m.2.

Lemma member_opens n k x r : skip_space (member_text n (k, x) ++ r) = quote_char34 :: k ++ quote_char34 :: ":"%char :: sep ++ layout brk sep n x ++ r.
Proof. unfold member_text, quoted. cbn [fst snd app]. rewrite skip_none by done. by rewrite <-!app_assoc; cbn [app]; rewrite <-!app_assoc. Qed.

Lemma member_longer n k x : (length (layout brk sep n x) < length (member_text n (k, x)))%nat.
Proof. unfold member_text, quoted. cbn [fst snd]. rewrite !length_app. cbn [length]. rewrite !length_app. cbn [length]. lia. Qed.

Lemma reads_members n l depth fuel sp rest :
  Forall reads l.*2 → Forall literal l.*1 → Forall (wf_json depth) l.*2 → l ≠ [] → spaces sp →
  (S (length (commas brk n (map (member_text n) l))) < fuel)%nat →
  parse_members fuel depth (commas brk n (map (member_text n) l) ++ sp ++ "}"%char :: rest) = Some (l, rest).
Proof.
  intros Hr Hk Hwf Hne Hsp. revert fuel Hr Hk Hwf Hne. induction l as [|[k x] l IH]; intros fuel Hr Hk Hwf Hne Hf; [done|].
  apply Forall_cons in Hr as [Hx Hl]. apply Forall_cons in Hk as [[Hk _] Hks]. apply Forall_cons in Hwf as [Hwx Hwl].
  destruct fuel as [|fuel]; [lia|]. cbn [fst snd] in *. pose proof (member_longer n k x). destruct closing_brackets as [_ Hclose].
  destruct l as [|y l]; [|cbn [map] in *; rewrite commas_cons, length_app in Hf; rewrite commas_cons, <-app_assoc];
    cbn [parse_members map commas]; rewrite member_opens, Hk; cbn [bool_decide mbind option_bind];
    (rewrite bool_decide_eq_true_2 by done); (rewrite skip_none by done); cbn [map commas length] in Hf;
    rewrite (proj1 (parse_spaces _ _ _ _ Hsep));
    (rewrite Hx; [|done|lia|first [by apply ends_closing|exact (ends_closing [] _ _ (Forall_nil_2 _) closing_comma)]]).
  - cbn [mbind option_bind]. by rewrite skip_spaces.
  - cbn [mbind option_bind app]. rewrite skip_none by done. rewrite <-app_assoc.
    rewrite (proj1 (proj2 (parse_spaces _ _ _ _ (Hbrk n)))). rewrite IH; [done|done..|].
    clear -Hf. simpl in Hf |- *. rewrite !length_app in Hf. lia.
Qed.

Lemma enclosed_ne n a b x items rest :
  enclosed brk n a b (x :: items) ++ rest = a :: brk (S n) ++ commas brk (S n) (x :: items) ++ brk n ++ b :: rest.
Proof. unfold enclosed. rewrite bool_decide_eq_false_2 by done. cbn [app]. by rewrite <-!app_assoc. Qed.

Lemma enclosed_longer n a b x items : (S (length (commas brk (S n) (x :: items))) < length (enclosed brk n a b (x :: items)))%nat.
Proof. unfold enclosed. rewrite bool_decide_eq_false_2 by done. cbn [length]. rewrite !length_app. cbn [length]. lia. Qed.

(** Every value is read back from its text, whatever follows it. *)
Lemma parse_text j : reads j.
Proof.
  induction j as [|b|lit|lit|l IH|l IH] using json_ind'; intros n depth fuel rest Hwf Hf He;
    (destruct fuel as [|fuel]; [lia|]).
  - done.
  - by destruct b.
  - inversion_clear Hwf as [| |? (Hs & (c & l & -> & Hc) & _)| | |]. specialize (Hs rest He).
    cbn [layout app] in *. by rewrite parse_number, Hs.
  - inversion_clear Hwf as [| | |? [Hs _]| |]. cbn [layout]. unfold quoted. cbn [app parse_value].
    rewrite skip_none by done. rewrite bool_decide_eq_true_2 by done. rewrite <-app_assoc. cbn [app]. by rewrite Hs.
  - inversion_clear Hwf as [| | | |? Hd Hwl|]. cbn [layout] in *. destruct l as [|x l]; [by apply parse_empty|].
    destruct (text_head (depth + 1) (S n) x) as (c & t & Ht & Hc & Hn); [by inversion Hwl|]. cbn [map] in *.
    pose proof (enclosed_longer n "["%char "]"%char (layout brk sep (S n) x) (map (layout brk sep (S n)) l)). rewrite enclosed_ne.
    assert (Hh : ∃ t', commas brk (S n) (map (layout brk sep (S n)) (x :: l)) ++ brk n ++ "]"%char :: rest = c :: t').
    { cbn [map]. rewrite Ht. destruct l; cbn [map commas]; by eexists. }
    destruct Hh as [t' Hh]. cbn [map] in Hh.
    match goal with |- parse_value _ _ (_ :: ?l) = _ => assert (Hs : skip_space l = c :: t') by
      (rewrite skip_spaces, Hh by done; by apply skip_none) end.
    rewrite (proj1 (parse_open _ depth fuel c t' Hd Hs Hn)).
    rewrite (proj2 (proj2 (parse_spaces _ _ _ _ (Hbrk (S n))))). rewrite (reads_elements (S n) (x :: l)); [done|done..|]. cbn [map]. lia.
  - inversion_clear Hwf as [| | | | |? Hd Hks Hwl]. cbn [layout] in *. fold (member_text (S n)) in *. destruct l as [|[k x] l]; [by apply parse_empty|].
    cbn [map] in *. pose proof (enclosed_longer n "{"%char "}"%char (member_text (S n) (k, x)) (map (member_text (S n)) l)). rewrite enclosed_ne.
    assert (Hh : ∃ t', commas brk (S n) (map (member_text (S n)) ((k, x) :: l)) ++ brk n ++ "}"%char :: rest = quote_char34 :: t').
    { destruct l; cbn [map commas]; by eexists. }
    destruct Hh as [t' Hh]. cbn [map] in Hh.
    match goal with |- parse_value _ _ (_ :: ?l) = _ => assert (Hs : skip_space l = quote_char34 :: t') by
      (rewrite skip_spaces, Hh by done; done) end.
    rewrite (proj2 (parse_open _ depth fuel quote_char34 t' Hd Hs quote_opens)).
    rewrite (proj1 (proj2 (parse_spaces _ _ _ _ (Hbrk (S n))))). rewrite (reads_members (S n) ((k, x) :: l)); [done|done..|]. cbn [map]. lia.
Qed.

Lemma commas_forall (P : ascii → Prop) n l : P ","%char → Forall P (brk n) → Forall (Forall P) l → Forall P (commas brk n l).
Proof.
  intros Hc Hb. induction 1 as [|x l Hx Hl IH]; [constructor|]. destruct l; [done|]. rewrite commas_cons.
  apply Forall_app. split; [done|]. constructor; [done|]. by apply Forall_app.
Qed.

(** A text with white space after it is the value it was printed from. *)
Lemma parse_all_layout j sp : wf_json 0 j → spaces sp → parse_all (layout brk sep 0 j ++ sp) = Some j.
Proof.
  intros Hw Hs. unfold parse_all. rewrite parse_text; [|done|rewrite length_app; lia|by apply ends_space].
  cbn [mbind option_bind]. by rewrite skip_all, bool_decide_eq_true_2.
Qed.

Definition printable (c : ascii) : Prop := 32 ≤ z_of_ascii c.

(** Without line breaks the text of a value has no control characters. *)
Lemma layout_printable j depth n :
  (∀ n, Forall printable (brk n)) → Forall printable sep → wf_json depth j → Forall printable (layout brk sep n j).
Proof.
  intros Hb Hp. assert (He : ∀ n a b items, printable a → printable b → Forall (Forall printable) items →
    Forall printable (enclosed brk n a b items)).
  { intros m a b items Ha Hc Hi. unfold enclosed. case_bool_decide; [by repeat constructor|]. constructor; [done|].
    rewrite !Forall_app. split_and!; [done|by apply commas_forall|done|by repeat constructor]. }
  revert depth n. induction j as [|b|lit|lit|l IH|l IH] using json_ind'; intros depth n Hwf; cbn [layout].
  - apply (bool_decide_unpack (Forall (λ c, 32 ≤ z_of_ascii c) (chars "null"))). by vm_compute.
  - apply (bool_decide_unpack (Forall (λ c, 32 ≤ z_of_ascii c) (chars (if b then "true" else "false")))). by destruct b; vm_compute.
  - inversion_clear Hwf as [| |? (_ & _ & ?)| | |]. done.
  - inversion_clear Hwf as [| | |? [_ ?]| |]. constructor; [by vm_compute|]. apply Forall_app. split; [done|]. by repeat constructor.
  - inversion_clear Hwf as [| | | |? _ Hwl|]. apply He; [by vm_compute..|]. apply Forall_map.
    eapply Forall_impl; [by apply Forall_and; split; [exact IH|exact Hwl]|]. intros x [Hx Hw]. by eapply Hx.
  - inversion_clear Hwf as [| | | | |? _ Hks Hwl]. apply He; [by vm_compute..|]. apply Forall_map. induction l as [|[k x] l IHl]; [constructor|].
    apply Forall_cons in IH as [Hx IH]. apply Forall_cons in Hks as [[_ Hk] Hks]. apply Forall_cons in Hwl as [Hw Hwl].
    constructor; [|by apply IHl]. unfold quoted. cbn [fst snd app]. constructor; [by vm_compute|]. rewrite <-app_assoc. apply Forall_app. split; [done|].
    constructor; [by vm_compute|]. constructor; [by vm_compute|]. apply Forall_app. split; [done|]. by eapply Hx.
Qed.
End Layout.

(** The two layouts. *)
Lemma parse_all_text j sp : wf_json 0 j → spaces sp → parse_all (json_text j ++ sp) = Some j.
Proof. apply parse_all_layout; [intros; apply Forall_nil_2|apply Forall_nil_2]. Qed.

Lemma parse_all_indent j sp : wf_json 0 j → spaces sp → parse_all (json_indent j ++ sp) = Some j.
Proof.
  apply parse_all_layout; [|by repeat constructor]. intros n. apply Forall_cons_2; [done|]. by apply Forall_replicate.
Qed.

Lemma text_printable j depth : wf_json depth j → Forall printable (json_text j).
Proof. apply layout_printable; [intros; apply Forall_nil_2|apply Forall_nil_2]. Qed.

(** ** The fuel is enough *)
Lemma skip_shorter l : (length (skip_space l) ≤ length l)%nat.
Proof. induction l as [|c l IH]; [done|]. cbn [skip_space]. case_match; simpl; lia. Qed.

Lemma scan_string_shorter l lit r : scan_string l = Some (lit, r) → (length r < length l)%nat.
Proof.
  remember (length l) as n eqn:Hn. revert l lit r Hn. induction (lt_wf n) as [n _ IH]. intros [|c l] lit r -> E; [done|].
  assert (Hm : ∀ l' k, (length l' ≤ length l)%nat →
    match scan_string l' with Some (lit, rest) => Some (take k (c :: l) ++ lit, rest) | None => None end = Some (lit, r) →
    (length r < length (c :: l))%nat).
  { intros l' k Hle. destruct (scan_string l') as [[lit' r']|] eqn:E'; [|done]. intros [= _ <-].
    assert (length r' < length l')%nat by (eapply (IH (length l')); [simpl; lia|done|done]). simpl. lia. }
  cbn [scan_string] in E. case_bool_decide; [injection E as _ <-; simpl; lia|]. case_bool_decide.
  - destruct l as [|e l2]; [done|]. destruct (simple_escape e); [by eapply (Hm l2), E; simpl; lia|].
    case_bool_decide; [|done]. destruct l2 as [|h1 [|h2 [|h3 [|h4 l3]]]]; try done. case_bool_decide; [|done].
    eapply (Hm l3), E. simpl. lia.
  - destruct (_ <? 32); [done|]. eapply (Hm l), E. lia.
Qed.

Lemma digits1_shorter l d r : digits1 l = Some (d, r) → (length r < length l)%nat.
Proof.
  unfold digits1. pose proof (span_digits_split l) as E. destruct (span_digits l) as [d' r']. case_bool_decide; [done|].
  intros [= <- <-]. cbn in E. rewrite E, length_app. destruct d'; [done|simpl; lia].
Qed.

Lemma scan_number_shorter l lit r : scan_number l = Some (lit, r) → (length r < length l)%nat.
Proof.
  unfold scan_number. destruct (match l with "-"%char :: l' => (["-"%char], l') | _ => ([], l) end) as [sign l1] eqn:E1.
  assert (Hl1 : (length l1 ≤ length l)%nat).
  { destruct l as [|c l']; [by injection E1 as _ <-|]. destruct c as [[] [] [] [] [] [] [] []]; injection E1 as _ <-; simpl; lia. }
  intros ([int l2] & E2 & ([frac l3] & E3 & ([ex l4] & E4 & [= _ <-])%bind_Some)%bind_Some)%bind_Some.
  assert (Hl2 : (length l2 < length l1)%nat).
  { destruct l1 as [|c l1]; [done|]. revert E2. destruct (ascii_dec c "0"%char) as [->|Hc].
    - intros [= _ <-]. simpl. lia.
    - intros E2. eapply (digits1_shorter _ int). destruct c as [[] [] [] [] [] [] [] []]; try exact E2. done. }
  assert (Hl3 : (length l3 ≤ length l2)%nat).
  { unfold scan_fraction in E3. destruct l2 as [|c l2]; [by injection E3 as _ <-|].
    destruct (ascii_dec c "."%char) as [->|Hc].
    - apply bind_Some in E3 as ([d r'] & E & [= _ <-]). apply digits1_shorter in E. simpl. lia.
    - destruct c as [[] [] [] [] [] [] [] []]; first [by injection E3 as _ <-|done]. }
  assert (Hl4 : (length l4 ≤ length l3)%nat); [|lia].
  unfold scan_exponent in E4. destruct l3 as [|c l3]; [by injection E4 as _ <-|].
  case_bool_decide; [|by injection E4 as _ <-]. destruct l3 as [|s l3]; [done|].
  case_bool_decide; apply bind_Some in E4 as ([d r'] & E & [= _ <-]); apply digits1_shorter in E; simpl in *; lia.
Qed.

(** The parser reads something: what it leaves is shorter. *)
Definition shorter {A} (parse : Z → list ascii → option (A * list ascii)) : Prop :=
  ∀ d l v r, parse d l = Some (v, r) → (length r < length l)%nat.

Lemma strip_shorter w c l r : strip w (c :: l) = Some r → w ≠ [] → (length r ≤ length l)%nat.
Proof.
  unfold strip. case_bool_decide; [|done]. intros [= <-] Hw. rewrite length_drop. destruct w; [done|simpl; lia].
Qed.

Lemma value_shorter fuel : shorter (parse_members fuel) → shorter (parse_elements fuel) → shorter (parse_value (S fuel)).
Proof.
  intros IHm IHe d l v r E. cbn [parse_value] in E. pose proof (skip_shorter l) as Hs.
  destruct (skip_space l) as [|c l']; [done|]. simpl in Hs. pose proof (skip_shorter l') as Hs'.
  repeat case_bool_decide; try (destruct (_ <? _); [done|]).
  - apply bind_Some in E as ([lit r'] & E & [= _ <-]). apply scan_string_shorter in E. lia.
  - assert (Hm : ('(ms, r) ← parse_members fuel (d + 1) l'; Some (JObject ms, r)) = Some (v, r) → (length r < length l)%nat).
    { intros ([ms r'] & E'%IHm & [= _ <-])%bind_Some. lia. }
    destruct (skip_space l') as [|c' r']; [by apply Hm|]. simpl in Hs'. char_cases c'; first [by apply Hm|injection E as _ <-; lia].
  - assert (Hm : ('(vs, r) ← parse_elements fuel (d + 1) l'; Some (JArray vs, r)) = Some (v, r) → (length r < length l)%nat).
    { intros ([vs r'] & E'%IHe & [= _ <-])%bind_Some. lia. }
    destruct (skip_space l') as [|c' r']; [by apply Hm|]. simpl in Hs'. char_cases c'; first [by apply Hm|injection E as _ <-; lia].
  - apply bind_Some in E as (r' & E & [= _ <-]). apply strip_shorter in E; [lia|done].
  - apply bind_Some in E as (r' & E & [= _ <-]). apply strip_shorter in E; [lia|done].
  - apply bind_Some in E as (r' & E & [= _ <-]). apply strip_shorter in E; [lia|done].
  - apply bind_Some in E as ([lit r'] & E & [= _ <-]). apply scan_number_shorter in E. simpl in E. lia.
Qed.

Lemma members_shorter fuel : shorter (parse_value fuel) → shorter (parse_members fuel) → shorter (parse_members (S fuel)).
Proof.
  intros IHv IHm d l v r E. cbn [parse_members] in E. pose proof (skip_shorter l) as Hs.
  destruct (skip_space l) as [|c l']; [done|]. simpl in Hs.
  case_bool_decide; [|done]. apply bind_Some in E as ([k r1] & E1%scan_string_shorter & E).
  pose proof (skip_shorter r1) as Hs1. destruct (skip_space r1) as [|c1 r2]; [done|]. simpl in Hs1.
  char_cases c1. apply bind_Some in E as ([v' r3] & E2%IHv & E).
  pose proof (skip_shorter r3) as Hs3. destruct (skip_space r3) as [|c3 r4]; [done|]. simpl in Hs3.
  char_cases c3; first [injection E as _ <-; lia|apply bind_Some in E as ([ms r5] & E%IHm & [= _ <-]); lia].
Qed.

Lemma elements_shorter fuel : shorter (parse_value fuel) → shorter (parse_elements fuel) → shorter (parse_elements (S fuel)).
Proof.
  intros IHv IHe d l v r E. cbn [parse_elements] in E. apply bind_Some in E as ([v' r3] & E2%IHv & E).
  pose proof (skip_shorter r3) as Hs3. destruct (skip_space r3) as [|c3 r4]; [done|]. simpl in Hs3.
  char_cases c3; first [injection E as _ <-; lia|apply bind_Some in E as ([ms r5] & E%IHe & [= _ <-]); lia].
Qed.

Lemma parse_shorter fuel : shorter (parse_value fuel) ∧ shorter (parse_members fuel) ∧ shorter (parse_elements fuel).
Proof.
  induction fuel as [|fuel (? & ? & ?)]; [by split_and!|].
  split_and!; [by apply value_shorter|by apply members_shorter|by apply elements_shorter].
Qed.

(** With more fuel than twice the characters (and [extra]), more fuel changes nothing. *)
Definition enough {A} (parse : nat → Z → list ascii → option (A * list ascii)) (extra fuel : nat) : Prop :=
  ∀ d l fuel', (2 * length l + extra < fuel)%nat → (fuel ≤ fuel')%nat → parse fuel' d l = parse fuel d l.

Lemma value_enough fuel : enough parse_members 0 fuel → enough parse_elements 1 fuel → enough parse_value 0 (S fuel).
Proof.
  intros IHm IHe d l [|fuel'] Hl Hf; [lia|]. cbn [parse_value]. pose proof (skip_shorter l) as Hs.
  destruct (skip_space l) as [|c l']; [done|]. simpl in Hs.
  rewrite (IHm (d + 1) l' fuel'), (IHe (d + 1) l' fuel') by lia. done.
Qed.

Lemma members_enough fuel : enough parse_value 0 fuel → enough parse_members 0 fuel → enough parse_members 0 (S fuel).
Proof.
  intros IHv IHm d l [|fuel'] Hl Hf; [lia|]. cbn [parse_members]. pose proof (skip_shorter l) as Hs.
  destruct (skip_space l) as [|c l']; [done|]. simpl in Hs. case_bool_decide; [|done].
  destruct (scan_string l') as [[k r1]|] eqn:E1; [|done]. apply scan_string_shorter in E1. cbn [mbind option_bind].
  pose proof (skip_shorter r1) as Hs1. destruct (skip_space r1) as [|c1 r2]; [done|]. simpl in Hs1.
  rewrite (IHv d r2 fuel') by lia. destruct (parse_value fuel d r2) as [[v r3]|] eqn:E2; [|done].
  apply (proj1 (parse_shorter fuel)) in E2. cbn [mbind option_bind].
  pose proof (skip_shorter r3) as Hs3. destruct (skip_space r3) as [|c3 r4]; [done|]. simpl in Hs3.
  by rewrite (IHm d r4 fuel') by lia.
Qed.

Lemma elements_enough fuel : enough parse_value 0 fuel → enough parse_elements 1 fuel → enough parse_elements 1 (S fuel).
Proof.
  intros IHv IHe d l [|fuel'] Hl Hf; [lia|]. cbn [parse_elements].
  rewrite (IHv d l fuel') by lia. destruct (parse_value fuel d l) as [[v r3]|] eqn:E2; [|done].
  apply (proj1 (parse_shorter fuel)) in E2. cbn [mbind option_bind].
  pose proof (skip_shorter r3) as Hs3. destruct (skip_space r3) as [|c3 r4]; [done|]. simpl in Hs3.
  by rewrite (IHe d r4 fuel') by lia.
Qed.

Lemma parse_enough fuel : enough parse_value 0 fuel ∧ enough parse_members 0 fuel ∧ enough parse_elements 1 fuel.
Proof.
  induction fuel as [|fuel (? & ? & ?)]; [split_and!; intros d l fuel' Hl; lia|].
  split_and!; [by apply value_enough|by apply members_enough|by apply elements_enough].
Qed.

(** The fuel of [parse_all] and [parse_first] is enough: no text is refused for want of it. *)
Lemma parse_fuel l d fuel : (2 * length l < fuel)%nat → parse_value fuel d l = parse_value (S (2 * length l)) d l.
Proof. intros Hf. apply (proj1 (parse_enough (S (2 * length l)))); lia. Qed.

(** ** What the parser accepts can be printed and read again *)
Inductive lit_chars : list ascii → Prop :=
| lit_nil : lit_chars []
| lit_plain c l : 32 ≤ z_of_ascii c → c ≠ quote_char34 → c ≠ "\"%char → lit_chars l → lit_chars (c :: l)
| lit_escape e l : simple_escape e = true → lit_chars l → lit_chars ("\"%char :: e :: l)
| lit_unicode a b c d l : is_Some (getu4 [a; b; c; d]) → lit_chars l →
    lit_chars ("\"%char :: "u"%char :: a :: b :: c :: d :: l).

Lemma hex_printable c : is_Some (hex_value c) → printable c.
Proof. unfold hex_value, printable. intros [v Hv]. repeat case_match; bool_prop; try done; lia. Qed.

Lemma getu4_hex a b c d l : is_Some (getu4 (a :: b :: c :: d :: l)) → Forall printable [a; b; c; d].
Proof.
  intros [v Hv]. cbn in Hv. destruct (hex_value a) eqn:Ea; [|done]. destruct (hex_value b) eqn:Eb; [|done].
  destruct (hex_value c) eqn:Ec; [|done]. destruct (hex_value d) eqn:Ed; [|done].
  repeat constructor; apply hex_printable; by eexists.
Qed.

Lemma simple_escape_cases e : simple_escape e = true → printable e.
Proof.
  unfold simple_escape. intros Hin. bool_prop. repeat (apply elem_of_cons in Hin as [->|Hin]; [by vm_compute|]). by apply not_elem_of_nil in Hin.
Qed.

Lemma lit_literal l : lit_chars l → literal l.
Proof.
  induction 1 as [|c l Hc Hq Hb _ [IH Hp]|e l He _ [IH Hp]|a b c d l Hu _ [IH Hp]]; (split; [intros rest|]).
  - done.
  - constructor.
  - cbn [app scan_string]. rewrite !bool_decide_eq_false_2 by done. rewrite (proj2 (Z.ltb_ge _ _)) by done. by rewrite IH.
  - by constructor.
  - cbn [app scan_string]. rewrite bool_decide_eq_false_2, bool_decide_eq_true_2 by done. by rewrite He, IH.
  - constructor; [by vm_compute|]. constructor; [by apply simple_escape_cases|done].
  - cbn [app scan_string]. rewrite bool_decide_eq_false_2, bool_decide_eq_true_2 by done.
    change (simple_escape "u") with false. cbv iota. rewrite bool_decide_eq_true_2 by done.
    rewrite bool_decide_eq_true_2 by exact Hu. by rewrite IH.
  - apply getu4_hex in Hu. inversion_clear Hu as [|? ? Ha Hu1]. inversion_clear Hu1 as [|? ? Hb' Hu2].
    inversion_clear Hu2 as [|? ? Hc' Hu3]. inversion_clear Hu3 as [|? ? Hd' _]. repeat constructor; try done; by vm_compute.
Qed.

Lemma scan_string_sound l lit r : scan_string l = Some (lit, r) → lit_chars lit.
Proof.
  remember (length l) as n eqn:Hn. revert l lit r Hn. induction (lt_wf n) as [n _ IH]. intros [|c l] lit r -> E; [done|].
  assert (Hm : ∀ l' k, (length l' ≤ length l)%nat →
    match scan_string l' with Some (lit, rest) => Some (take k (c :: l) ++ lit, rest) | None => None end = Some (lit, r) →
    ∃ lit', lit = take k (c :: l) ++ lit' ∧ lit_chars lit').
  { intros l' k Hle. destruct (scan_string l') as [[lit' r']|] eqn:E'; [|done]. intros [= <- <-].
    exists lit'. split; [done|]. eapply (IH (length l')); [simpl; lia|done|done]. }
  cbn [scan_string] in E. case_bool_decide as Hq; [injection E as <- _; constructor|]. case_bool_decide as Hb.
  - subst c. destruct l as [|e l2]; [done|]. destruct (simple_escape e) eqn:He.
    { destruct (Hm l2 2%nat ltac:(simpl; lia) E) as (lit' & -> & ?). by constructor. }
    case_bool_decide as Hu; [|done]. subst e. destruct l2 as [|h1 [|h2 [|h3 [|h4 l3]]]]; try done.
    case_bool_decide as Hx; [|done]. destruct (Hm l3 6%nat ltac:(simpl; lia) E) as (lit' & -> & ?). by constructor.
  - destruct (_ <? 32) eqn:Hc; [done|]. bool_prop. destruct (Hm l 1%nat ltac:(lia) E) as (lit' & -> & ?). by constructor.
Qed.

Lemma scan_number_sound l lit r : scan_number l = Some (lit, r) → number lit.
Proof.
  unfold scan_number. destruct (match l with "-"%char :: l' => (["-"%char], l') | _ => ([], l) end) as [sign l1] eqn:E1.
  intros ([int l2] & E2 & ([frac l3] & E3 & ([ex l4] & E4 & [= <- _])%bind_Some)%bind_Some)%bind_Some.
  apply number_parts.
  - destruct l as [|c l']; [injection E1 as <- _; by left|]. char_cases c; injection E1 as <- _; tauto.
  - destruct l1 as [|c l1]; [done|]. destruct (ascii_dec c "0"%char) as [->|Hc].
    + injection E2 as <- _. split; [|by left]. repeat constructor; by vm_compute.
    + assert (Hd : digits1 (c :: l1) = Some (int, l2)) by char_cases c. apply digits1_sound in Hd as [[Hne Hds] Hl].
      split; [done|]. right. destruct int as [|x int]; [done|]. injection Hl as <- _. by eexists _, _.
  - destruct l2 as [|c l2]; [injection E3 as <- _; by left|]. destruct (ascii_dec c "."%char) as [->|Hc].
    + apply bind_Some in E3 as ([d r'] & [Hd _]%digits1_sound & [= <- _]). right. by exists d.
    + left. char_cases c; by injection E3 as <- _.
  - unfold scan_exponent in E4. destruct l3 as [|c l3]; [injection E4 as <- _; by left|].
    case_bool_decide as Hc; [|injection E4 as <- _; by left]. right. destruct l3 as [|s l3]; [done|].
    case_bool_decide as Hs; apply bind_Some in E4 as ([d r'] & [Hd _]%digits1_sound & [= <- _]).
    + exists c, [s], d. split_and!; [done..|]. right. by exists s.
    + exists c, [], d. split_and!; [done..|by left].
Qed.

Definition sound {A} (parse : Z → list ascii → option (A * list ascii)) (P : Z → A → Prop) : Prop :=
  ∀ d l v r, parse d l = Some (v, r) → P d v.

Definition members_ok (d : Z) (ms : list (list ascii * json)) : Prop := Forall literal ms.*1 ∧ Forall (wf_json d) ms.*2.

Lemma value_sound fuel : sound (parse_members fuel) members_ok → sound (parse_elements fuel) (λ d, Forall (wf_json d)) →
  sound (parse_value (S fuel)) wf_json.
Proof.
  intros IHm IHe d l v r E. cbn [parse_value] in E. destruct (skip_space l) as [|c l']; [done|].
  repeat case_bool_decide; try (destruct (_ <? _) eqn:Hdep; [done|bool_prop]).
  - apply bind_Some in E as ([lit r'] & E & [= <- _]). constructor. by eapply lit_literal, scan_string_sound.
  - assert (Hm : ('(ms, r) ← parse_members fuel (d + 1) l'; Some (JObject ms, r)) = Some (v, r) → wf_json d v).
    { intros ([ms r'] & [E1 E2]%IHm & [= <- _])%bind_Some. by constructor. }
    destruct (skip_space l') as [|c' r']; [by apply Hm|]. char_cases c'; first [by apply Hm|injection E as <- _; by constructor].
  - assert (Hm : ('(vs, r) ← parse_elements fuel (d + 1) l'; Some (JArray vs, r)) = Some (v, r) → wf_json d v).
    { intros ([vs r'] & E'%IHe & [= <- _])%bind_Some. by constructor. }
    destruct (skip_space l') as [|c' r']; [by apply Hm|]. char_cases c'; first [by apply Hm|injection E as <- _; by constructor].
  - apply bind_Some in E as (r' & _ & [= <- _]). constructor.
  - apply bind_Some in E as (r' & _ & [= <- _]). constructor.
  - apply bind_Some in E as (r' & _ & [= <- _]). constructor.
  - apply bind_Some in E as ([lit r'] & E & [= <- _]). constructor. by eapply scan_number_sound.
Qed.

Lemma members_sound fuel : sound (parse_value fuel) wf_json → sound (parse_members fuel) members_ok →
  sound (parse_members (S fuel)) members_ok.
Proof.
  intros IHv IHm d l v r E. cbn [parse_members] in E. destruct (skip_space l) as [|c l']; [done|].
  case_bool_decide; [|done]. apply bind_Some in E as ([k r1] & E1%scan_string_sound%lit_literal & E).
  destruct (skip_space r1) as [|c1 r2]; [done|].
  char_cases c1. apply bind_Some in E as ([v' r3] & E2%IHv & E). destruct (skip_space r3) as [|c3 r4]; [done|].
  char_cases c3.
  all: first [injection E as <- _; split; by apply Forall_singleton|apply bind_Some in E as ([ms r5] & [E3 E4]%IHm & [= <- _]); split; by apply Forall_cons].
Qed.

Lemma elements_sound fuel : sound (parse_value fuel) wf_json → sound (parse_elements fuel) (λ d, Forall (wf_json d)) →
  sound (parse_elements (S fuel)) (λ d, Forall (wf_json d)).
Proof.
  intros IHv IHe d l v r E. cbn [parse_elements] in E. apply bind_Some in E as ([v' r3] & E2%IHv & E).
  destruct (skip_space r3) as [|c3 r4]; [done|]. char_cases c3.
  all: first [injection E as <- _; by apply Forall_singleton|apply bind_Some in E as ([ms r5] & E3%IHe & [= <- _]); by apply Forall_cons].
Qed.

Lemma parse_sound fuel :
  sound (parse_value fuel) wf_json ∧ sound (parse_members fuel) members_ok ∧ sound (parse_elements fuel) (λ d, Forall (wf_json d)).
Proof.
  induction fuel as [|fuel (? & ? & ?)]; [by split_and!|].
  split_and!; [by apply value_sound|by apply members_sound|by apply elements_sound].
Qed.

Lemma parse_all_wf l j : parse_all l = Some j → wf_json 0 j.
Proof. intros ([j' r] & E%(proj1 (parse_sound _)) & Hr)%bind_Some. case_bool_decide; by simplify_eq. Qed.

(** ** Compacting *)
Lemma literal_chars l : literal l → lit_chars l.
Proof. intros [Hs _]. by eapply scan_string_sound, (Hs []). Qed.

Lemma lit_high a l : lit_chars (a :: l) → high a → lit_chars l.
Proof.
  intros Hl Ha. assert (Hne : a ≠ "\"%char) by (intros ->; by vm_compute in Ha).
  remember (a :: l) as al eqn:E. destruct Hl; simplify_eq; done.
Qed.

Lemma compact_plain c l : c ∉ chars "<>&" → z_of_ascii c < 128 → compact_literal (c :: l) = c :: compact_literal l.
Proof.
  intros Hc Hz. cbn [compact_literal]. rewrite bool_decide_eq_false_2 by done. destruct l as [|a [|b l]]; [done..|].
  by rewrite (proj2 (Z.eqb_neq _ _)) by lia.
Qed.

(** The last byte of a line or paragraph separator. *)
Lemma separator_byte b : (Z.land (z_of_ascii b) (Z.lnot 1) =? 0xA8) = true → z_of_ascii b = 0xA8 ∨ z_of_ascii b = 0xA9.
Proof. destruct b as [[] [] [] [] [] [] [] []]; vm_compute; auto; discriminate. Qed.

Lemma simple_escape_plain e : simple_escape e = true → (e ∉ chars "<>&") ∧ z_of_ascii e < 128.
Proof.
  unfold simple_escape. intros Hin. bool_prop. split; [|].
  - intros Hc. set_unfold. destruct Hc as [->|[->|[->|[]]]]; repeat (destruct Hin as [Hin|Hin]; [discriminate Hin|]); done.
  - repeat (apply elem_of_cons in Hin as [->|Hin]; [by vm_compute|]). by apply not_elem_of_nil in Hin.
Qed.

Lemma hex_plain c : is_Some (hex_value c) → (c ∉ chars "<>&") ∧ z_of_ascii c < 128.
Proof.
  intros [v Hv]. split.
  - intros Hc. set_unfold. destruct Hc as [->|[->|[->|[]]]]; discriminate Hv.
  - unfold hex_value in Hv. repeat case_match; bool_prop; try done; lia.
Qed.

Lemma html_escaped c t : c ∈ chars "<>&" → lit_chars t → lit_chars (unicode_escape (z_of_ascii c) ++ t).
Proof. intros Hc Ht. set_unfold. destruct Hc as [->|[->|[->|[]]]]; (constructor; [by eexists|done]). Qed.

Lemma compact_lit l : lit_chars l → lit_chars (compact_literal l).
Proof.
  remember (length l) as n eqn:Hn. revert l Hn. induction (lt_wf n) as [n _ IH]. intros l -> Hl.
  destruct Hl as [|c l Hc Hq Hb Hl|e l He Hl|a b c d l Hg Hl].
  - constructor.
  - pose proof (IH (length l) ltac:(simpl; lia) l eq_refl Hl) as IHl.
    cbn [compact_literal]. case_bool_decide as Hin; [by apply html_escaped|].
    destruct l as [|a [|b l3]]; [by constructor..|]. destruct (_ && _) eqn:E; [|by constructor].
    apply andb_true_iff in E as [[E1 E2]%andb_true_iff E3]. apply separator_byte in E3. apply Z.eqb_eq in E2.
    assert (Hl3 : lit_chars l3) by (apply (lit_high b); [apply (lit_high a); [done|]|]; unfold high; lia).
    pose proof (IH (length l3) ltac:(simpl; lia) l3 eq_refl Hl3) as IH3.
    destruct E3 as [-> | ->]; (constructor; [by eexists|done]).
  - destruct (simple_escape_plain e He). rewrite !compact_plain; [|done..|by apply (bool_decide_unpack _); vm_compute|done].
    constructor; [done|]. eapply IH; [|done|done]. simpl. lia.
  - assert (Hx : Forall (λ x, is_Some (hex_value x)) [a; b; c; d]).
    { destruct Hg as [v Hv]. cbn in Hv. destruct (hex_value a) eqn:Ea; [|done]. destruct (hex_value b) eqn:Eb; [|done].
      destruct (hex_value c) eqn:Ec; [|done]. destruct (hex_value d) eqn:Ed; [|done]. repeat constructor; by eexists. }
    assert (Hp : ∀ x t, x ∈ [a; b; c; d] → compact_literal (x :: t) = x :: compact_literal t).
    { intros x t Hin. rewrite Forall_forall in Hx. apply compact_plain; by apply hex_plain, Hx. }
    rewrite (compact_plain "\"), (compact_plain "u"), !Hp by (set_solver || done || (apply (bool_decide_unpack _); by vm_compute)).
    constructor; [done|]. eapply IH; [|done|done]. simpl. lia.
Qed.

(** How deep a value is nested. *)
Fixpoint json_depth (j : json) : Z :=
  match j with
  | JArray l => 1 + foldr Z.max 0 (map json_depth l)
  | JObject l => 1 + foldr Z.max 0 (map (λ m, json_depth m.2) l)
  | _ => 0
  end.

Lemma max_le {A} (f : A → Z) l b : foldr Z.max 0 (map f l) ≤ b → Forall (λ x, f x ≤ b) l.
Proof. induction l as [|x l IH]; intros Hb; [constructor|]. simpl in Hb. constructor; [lia|]. apply IH. lia. Qed.
Lemma max_nonneg (l : list Z) : 0 ≤ foldr Z.max 0 l.
Proof. induction l; simpl; lia. Qed.

(** A compacted value can be read wherever it is not nested too deep. *)
Lemma compact_wf j d d' : wf_json d j → d' + json_depth j ≤ maxNestingDepth → wf_json d' (compact_json j).
Proof.
  revert d d'. induction j as [|b|lit|lit|l IH|l IH] using json_ind'; intros d d' Hw Hd; cbn [compact_json];
    inversion_clear Hw as [| |? Hn|? Hl|? _ Hwl|? _ Hks Hwl]; cbn [json_depth] in Hd.
  - constructor.
  - constructor.
  - by constructor.
  - constructor. by apply lit_literal, compact_lit, literal_chars.
  - pose proof (max_nonneg (map json_depth l)). constructor; [lia|].
    assert (Hm : Forall (λ x, json_depth x ≤ maxNestingDepth - d' - 1) l) by (apply max_le; lia).
    apply Forall_map. rewrite Forall_forall in *. intros x Hx. eapply IH; [done|by apply Hwl|].
    specialize (Hm x Hx). simpl in Hm. lia.
  - pose proof (max_nonneg (map (λ m, json_depth m.2) l)).
    assert (Hm : Forall (λ m, json_depth m.2 ≤ maxNestingDepth - d' - 1) l) by (apply max_le; lia).
    constructor; [lia|..].
    + clear -Hks. induction l as [|[k x] l IHl]; [constructor|]. apply Forall_cons in Hks as [Hk Hks].
      constructor; [by apply lit_literal, compact_lit, literal_chars|by apply IHl].
    + clear Hks Hd. induction l as [|[k x] l IHl]; [constructor|]. apply Forall_cons in IH as [Hx IH].
      apply Forall_cons in Hwl as [Hw Hwl]. apply Forall_cons in Hm as [Hm1 Hm]. cbn [snd] in *.
      constructor; [eapply Hx; [done|]; simpl in Hm1; lia|]. apply IHl; try done. apply max_nonneg.
Qed.

Lemma compact_depth j : json_depth (compact_json j) = json_depth j.
Proof.
  induction j as [|b|lit|lit|l IH|l IH] using json_ind'; cbn [compact_json json_depth]; try done; f_equal; f_equal; rewrite map_map.
  - apply map_ext_Forall. exact IH.
  - apply map_ext_Forall. cbn [snd]. by rewrite Forall_fmap in IH.
Qed.
