(* ===== verification/JsonCodec.v ===== *)
(** * Struct tags: how [encoding/json] writes and reads Go structs.

    A [codec] is how a Go type is written, and read over an old value: [null] leaves a
    scalar as it is, a slice is read over the elements it had (the storage behind its
    end is not modelled), a struct field by field.  A [field] is a struct field with
    its tag.  [transfers] is the law between the type of the sender and that of the
    receiver, which need not be the same: what the one writes, the other reads as its
    image. *)
From S2P Require Import Prelude GoString NetIP GoText NetParse GoJson GoJsonInv.

Record codec (A : Type) := mkCodec {
  c_zero : A;
  c_empty : A → bool;                    (* what [omitempty] leaves out *)
  c_enc : A → option json;
  c_dec : json → A → option A
}.
Arguments mkCodec {A} _ _ _ _.
Arguments c_zero {A} _.
Arguments c_empty {A} _ _.
Arguments c_enc {A} _ _.
Arguments c_dec {A} _ _ _.

Record struct_field (R : Type) := mkField {
  fd_type : Type; fd_name : string; fd_omit : bool; fd_codec : codec fd_type;
  fd_get : R → fd_type; fd_set : fd_type → R → R
}.
Arguments mkField {R} {fd_type} _ _ _ _ _.
Arguments fd_type {R} _.
Arguments fd_name {R} _.
Arguments fd_omit {R} _.
Arguments fd_codec {R} _.
Arguments fd_get {R} _ _.
Arguments fd_set {R} _ _ _.

(** ** Scalars *)
Definition string_codec : codec string :=
  mkCodec "" (λ s, bool_decide (s = "")) (λ s, Some (quote_json s))
    (λ j old, match j with JString lit => Some (unquoted lit) | JNull => Some old | _ => None end).

Definition bool_codec : codec bool :=
  mkCodec false negb (λ b, Some (JBool b)) (λ j old, match j with JBool b => Some b | JNull => Some old | _ => None end).

(** [int64] and [int]: the literal must be an integer in range. *)
Definition int_codec : codec Z :=
  mkCodec 0 (λ z, z =? 0) (λ z, Some (JNumber (chars (dec z))))
    (λ j old, match j with JNumber lit => Atoi (str lit) | JNull => Some old | _ => None end).

(** [strconv.ParseUint] in base 10, of the given width. *)
Definition ParseUint10 (bits : Z) (l : list ascii) : option Z :=
  match l with [] => None | _ => v ← parse_digits 0 l; if v <? 2 ^ bits then Some v else None end.
Definition uint_codec (bits : Z) : codec Z :=
  mkCodec 0 (λ z, z =? 0) (λ z, Some (JNumber (chars (dec z))))
    (λ j old, match j with JNumber lit => ParseUint10 bits lit | JNull => Some old | _ => None end).

(** [json.RawMessage]: it must be a JSON value, and is compacted; none at all is [null].
    Reading keeps its text up to white space, which writing it drops. *)
Definition raw_codec : codec string :=
  mkCodec "" (λ s, bool_decide (s = ""))
    (λ s, if bool_decide (s = "") then Some JNull else compact_json <$> parse_all (chars s)) (λ j _, Some (str (json_text j))).

(** [any]: whatever value there is; [null] is no value. *)
Definition any_codec : codec (option json) :=
  mkCodec None (λ v, match v with None => true | Some _ => false end) (λ v, Some (default JNull v))
    (λ j _, Some (match j with JNull => None | _ => Some j end)).

(** A value of type [any] that was read, as it is written again: numbers went through
    [float64], whose text is [json_float], strings are unquoted and quoted, and an object
    is a map with its keys in order, where the last member of a name counts.  A number
    out of the range of [float64] is an error of the decoder, which is not modelled. *)
Section Any.
Context (json_float : list ascii → list ascii).
Fixpoint any_again (j : json) : json :=
  match j with
  | JNull => JNull
  | JBool b => JBool b
  | JNumber lit => JNumber (json_float lit)
  | JString lit => quote_json (unquoted lit)
  | JArray l => JArray (map any_again l)
  | JObject l =>
      let members : gmap string json := list_to_map (reverse (map (λ m, (unquoted m.1, any_again m.2)) l)) in
      JObject (map (λ k, (escape 0 (chars k), default JNull (members !! k))) (merge_sort string_le (map_to_list members).*1))
  end.
End Any.

(** ** Slices and pointers *)
Fixpoint decode_elements {A} (c : codec A) (js : list json) (old : list A) : option (list A) :=
  match js with
  | [] => Some []
  | j :: js' => a ← c_dec c j (default (c_zero c) (head old)); l ← decode_elements c js' (tail old); Some (a :: l)
  end.

Fixpoint encode_elements {A} (c : codec A) (l : list A) : option (list json) :=
  match l with [] => Some [] | a :: l' => j ← c_enc c a; js ← encode_elements c l'; Some (j :: js) end.

(** All slices of the program are [omitempty]: an empty one is never written. *)
Definition slice_codec {A} (c : codec A) : codec (list A) :=
  mkCodec [] (λ l, bool_decide (length l = 0%nat)) (λ l, JArray <$> encode_elements c l)
    (λ j old, match j with JArray js => decode_elements c js old | JNull => Some [] | _ => None end).

(** A map with strings as keys: written in the order of its keys, read over the old one,
    each value afresh. *)
Fixpoint encode_entries {A} (c : codec A) (l : list (string * A)) : option (list (list ascii * json)) :=
  match l with [] => Some [] | (k, a) :: l' => j ← c_enc c a; ms ← encode_entries c l'; Some ((escape 0 (chars k), j) :: ms) end.
Fixpoint decode_entries {A} (c : codec A) (ms : list (list ascii * json)) (old : gmap string A) : option (gmap string A) :=
  match ms with [] => Some old | (k, j) :: ms' => a ← c_dec c j (c_zero c); decode_entries c ms' (<[unquoted k := a]> old) end.

Definition key_le {A} (a b : string * A) : Prop := string_le a.1 b.1.
#[export] Instance key_le_dec {A} (a b : string * A) : Decision (key_le a b).
Proof. unfold key_le. apply _. Defined.

Definition map_codec {A} (c : codec A) : codec (gmap string A) :=
  mkCodec ∅ (λ m, bool_decide (size m = 0%nat)) (λ m, JObject <$> encode_entries c (merge_sort key_le (map_to_list m)))
    (λ j old, match j with JObject ms => decode_entries c ms old | JNull => Some ∅ | _ => None end).

Definition pointer_codec {A} (c : codec A) : codec (option A) :=
  mkCodec None (λ p, match p with None => true | Some _ => false end)
    (λ p, match p with None => Some JNull | Some a => c_enc c a end)
    (λ j old, match j with JNull => Some None | _ => Some <$> c_dec c j (default (c_zero c) old) end).

(** ** Structs *)
Fixpoint first_field {R} (p : struct_field R → bool) (fs : list (struct_field R)) : option (struct_field R) :=
  match fs with [] => None | f :: fs' => if p f then Some f else first_field p fs' end.

(** The field of a name: exactly, or else the first one up to case. *)
Definition find_field `{UnicodeFold} {R} (fs : list (struct_field R)) (key : string) : option (struct_field R) :=
  match first_field (λ f, bool_decide (fd_name f = key)) fs with
  | Some f => Some f
  | None => first_field (λ f, EqualFold key (fd_name f)) fs
  end.

Fixpoint encode_fields {R} (fs : list (struct_field R)) (r : R) : option (list (list ascii * json)) :=
  match fs with
  | [] => Some []
  | f :: fs' =>
      if fd_omit f && c_empty (fd_codec f) (fd_get f r) then encode_fields fs' r else
      j ← c_enc (fd_codec f) (fd_get f r); ms ← encode_fields fs' r; Some ((escape 0 (chars (fd_name f)), j) :: ms)
  end.

Definition decode_member `{UnicodeFold} {R} (fs : list (struct_field R)) (m : list ascii * json) (r : R) : option R :=
  match find_field fs (unquoted m.1) with
  | None => Some r
  | Some f => a ← c_dec (fd_codec f) m.2 (fd_get f r); Some (fd_set f a r)
  end.

Fixpoint decode_members `{UnicodeFold} {R} (fs : list (struct_field R)) (ms : list (list ascii * json)) (r : R) : option R :=
  match ms with [] => Some r | m :: ms' => r ← decode_member fs m r; decode_members fs ms' r end.

Definition struct_codec `{UnicodeFold} {R} (zero : R) (fs : list (struct_field R)) : codec R :=
  mkCodec zero (λ _, false) (λ r, JObject <$> encode_fields fs r)
    (λ j r, match j with JObject ms => decode_members fs ms r | JNull => Some r | _ => None end).

(** ** Whole texts: [json.Marshal], [json.Unmarshal] and [json.Decoder.Decode] *)
Definition JsonMarshal {A} (c : codec A) (a : A) : option string := (λ j, str (json_text j)) <$> c_enc c a.
(** [json.Encoder.Encode] after [SetIndent("", "  ")]: the text and a line break. *)
Definition JsonEncodeIndent {A} (c : codec A) (a : A) : option string :=
  (λ j, str (json_indent j ++ [ascii_of_nat 10])) <$> c_enc c a.
Definition JsonUnmarshal {A} (c : codec A) (text : string) (old : A) : option A :=
  j ← parse_all (chars text); c_dec c j old.
Definition JsonDecode {A} (c : codec A) (text : string) (old : A) : option A :=
  j ← parse_first (chars text); c_dec c j old.

(** ** Laws *)

(** What [ca] writes for a value in range, nested at most [h] deep, [cb] reads as its image [f]. *)
Record transfers {A B} (ca : codec A) (cb : codec B) (h : Z) (ok : A → Prop) (f : A → B) : Prop := {
  tr_enc : ∀ a, ok a → ∃ j, c_enc ca a = Some j ∧ c_dec cb j (c_zero cb) = Some (f a)
             ∧ ∀ depth, depth + h ≤ maxNestingDepth → wf_json depth j;
  tr_empty : ∀ a, c_empty ca a = true → f a = c_zero cb;
  tr_height : 0 ≤ h
}.

Definition always {A} (_ : A) : Prop := True.

Lemma transfers_string : transfers string_codec string_codec 0 always ToValidUTF8.
Proof.
  split; [|intros a Ha; simpl in Ha; by bool_prop; subst|done].
  intros s _. eexists. split; [done|]. split; [cbn; by rewrite unquoted_quote|]. intros. constructor. apply escape_literal.
Qed.

Lemma transfers_bool : transfers bool_codec bool_codec 0 always id.
Proof. split; [|by intros []|done]. intros b _. eexists. split_and!; [done|done|]. intros. constructor. Qed.

Lemma str_chars s : str (chars s) = s.
Proof. apply String.string_of_list_ascii_of_string. Qed.

Definition int64_range (z : Z) : Prop := - 2 ^ 63 ≤ z < 2 ^ 63.

Lemma Atoi_dec z : int64_range z → Atoi (dec z) = Some z.
Proof.
  intros [Hlo Hhi]. unfold Atoi. cbv zeta.
  assert (Hrange : (- 2 ^ 63 <=? z) && (z <? 2 ^ 63) = true) by (apply andb_true_iff; split; [apply Z.leb_le|apply Z.ltb_lt]; lia).
  destruct (Z.le_gt_cases 0 z) as [Hz|Hz].
  - pose proof (parse_dec z Hz) as Hp. pose proof (dec_digits z Hz) as Hd.
    destruct (chars (dec z)) as [|c l] eqn:E; [by apply dec_nonempty in E|]. inversion_clear Hd as [|? ? Hc _].
    destruct c as [[] [] [] [] [] [] [] []];
      first [ rewrite Hp; cbn [mbind option_bind]; by rewrite Hrange
            | exfalso; unfold is_digit in Hc; destruct Hc as [H1 H2]; by (destruct H1 || destruct H2) ].
  - destruct z as [|p|p]; [lia|lia|]. change (chars (dec (Z.neg p))) with ("-"%char :: chars (dec (Z.pos p))).
    pose proof (dec_nonempty (Z.pos p)) as Hne. destruct (chars (dec (Z.pos p))) as [|c l] eqn:E; [done|].
    rewrite <-E, parse_dec by done. cbn [mbind option_bind]. change (- Z.pos p) with (Z.neg p). by rewrite Hrange.
Qed.

Lemma transfers_int : transfers int_codec int_codec 0 int64_range id.
Proof.
  split; [|intros a Ha; simpl in Ha; by bool_prop; subst|done].
  intros z Hz. eexists. split; [done|]. split; [cbn; by rewrite str_chars, Atoi_dec|]. intros. constructor. apply dec_number.
Qed.

Lemma transfers_uint bits : 0 < 2 ^ bits → transfers (uint_codec bits) (uint_codec bits) 0 (λ z, 0 ≤ z < 2 ^ bits) id.
Proof.
  intros Hb. split; [|intros a Ha; simpl in Ha; by bool_prop; subst|done].
  intros z Hz. eexists. split; [done|]. split; [|intros; constructor; apply dec_number].
  cbn. unfold ParseUint10. pose proof (dec_nonempty z) as Hne. destruct (chars (dec z)) as [|c l] eqn:E; [done|].
  rewrite <-E, parse_dec by lia. cbn [mbind option_bind]. by rewrite (proj2 (Z.ltb_lt _ _)) by lia.
Qed.

Lemma transfers_slice {A B} (ca : codec A) (cb : codec B) h ok f :
  transfers ca cb h ok f → transfers (slice_codec ca) (slice_codec cb) (h + 1) (Forall ok) (map f).
Proof.
  intros Ht. pose proof (tr_height _ _ _ _ _ Ht). split; [|intros l Hl; simpl in Hl; bool_prop; by destruct l|lia].
  intros l Hl. assert (E : ∃ js, encode_elements ca l = Some js ∧ decode_elements cb js [] = Some (map f l)
    ∧ ∀ depth, depth + h ≤ maxNestingDepth → Forall (wf_json depth) js).
  { induction Hl as [|a l Ha _ (js & Ee & Ed & Hw)]; [exists []; by split_and!|].
    destruct (tr_enc _ _ _ _ _ Ht a Ha) as (j & Ej & Dj & Wj). exists (j :: js). cbn.
    rewrite Ej, Dj. cbn. rewrite Ee, Ed. split_and!; [done..|]. intros d Hd. constructor; [by apply Wj|by apply Hw]. }
  destruct E as (js & Ee & Ed & Hw). exists (JArray js). cbn. rewrite Ee. split_and!; [done|done|].
  intros d Hd. constructor; [lia|]. apply Hw. lia.
Qed.

(** A text that is valid UTF-8 arrives as it is. *)
Definition valid_text (s : string) : Prop := ToValidUTF8 s = s.

Lemma entries_transfer {A B} (ca : codec A) (cb : codec B) h ok (f : A → B) l old :
  transfers ca cb h ok f → Forall (λ e, valid_text e.1 ∧ ok e.2) l → NoDup l.*1 →
  ∃ ms, encode_entries ca l = Some ms ∧ decode_entries cb ms old = Some ((f <$> (list_to_map l : gmap string A)) ∪ old)
    ∧ Forall literal ms.*1 ∧ ∀ depth, depth + h ≤ maxNestingDepth → Forall (wf_json depth) ms.*2.
Proof.
  intros Ht Hl. revert old. induction Hl as [|[k a] l [Hk Ha] _ IH]; intros old Hnd.
  { exists []. cbn. rewrite fmap_empty, map_empty_union. by split_and!. }
  cbn in Hk, Ha. apply NoDup_cons in Hnd as [Hnk Hnd]. destruct (tr_enc _ _ _ _ _ Ht a Ha) as (j & Ej & Dj & Wj).
  destruct (IH (<[k := f a]> old) Hnd) as (ms & He & Hd & Hlit & Hw). cbn. rewrite Ej. cbn. rewrite He. eexists. split; [done|].
  split; [|split; [constructor; [apply escape_literal|done]|intros d Hdep; constructor; [by apply Wj|by apply Hw]]].
  cbn. rewrite Dj. cbn. rewrite unquoted_quote, Hk, Hd. f_equal. rewrite fmap_insert, <-insert_union_l, insert_union_r; [done|].
  rewrite lookup_fmap. by rewrite not_elem_of_list_to_map_1.
Qed.

Lemma transfers_map {A B} (ca : codec A) (cb : codec B) h ok (f : A → B) : transfers ca cb h ok f →
  transfers (map_codec ca) (map_codec cb) (h + 1) (map_Forall (λ k a, valid_text k ∧ ok a)) (fmap f).
Proof.
  intros Ht. pose proof (tr_height _ _ _ _ _ Ht). split; [|intros m Hm; cbn in Hm; bool_prop; apply map_size_empty_iff in Hm as ->; apply fmap_empty|lia].
  intros m Hm. set (l := merge_sort key_le (map_to_list m)). assert (Hp : l ≡ₚ map_to_list m) by apply merge_sort_Permutation.
  assert (Hnd : NoDup l.*1) by (rewrite Hp; apply NoDup_fst_map_to_list).
  destruct (entries_transfer ca cb h ok f l ∅ Ht) as (ms & He & Hd & Hlit & Hw); [|done|].
  { rewrite Hp. apply Forall_forall. intros [k a] Hin%elem_of_map_to_list. by apply Hm. }
  exists (JObject ms). cbn. fold l. rewrite He. split; [done|]. split.
  - rewrite Hd, map_union_empty. rewrite (list_to_map_proper l (map_to_list m)) by done. by rewrite list_to_map_to_list.
  - intros d Hdep. constructor; [lia|done|apply Hw; lia].
Qed.

(** Values that arrive unchanged. *)
Lemma transfers_valid : transfers string_codec string_codec 0 valid_text id.
Proof.
  split; [|intros a Ha; simpl in Ha; by bool_prop; subst|done].
  intros s Hs. eexists. split; [done|]. split; [cbn; by rewrite unquoted_quote, Hs|]. intros. constructor. apply escape_literal.
Qed.

Lemma transfers_map_same {A} (c : codec A) h ok : transfers c c h ok id →
  transfers (map_codec c) (map_codec c) (h + 1) (map_Forall (λ k a, valid_text k ∧ ok a)) id.
Proof.
  intros Ht%transfers_map. destruct Ht as [He Hz Hh]. split; [|intros m Hm; rewrite <-(Hz m Hm); by rewrite map_fmap_id|done].
  intros m Hm. destruct (He m Hm) as (j & ? & Hd & ?). rewrite map_fmap_id in Hd. by exists j.
Qed.

(** A raw value is sent as it is, compacted, if it is not nested too deep. *)
Definition raw_text (s : string) : string :=
  match parse_all (chars s) with Some j => str (json_text (compact_json j)) | None => "" end.
Definition raw_ok (h : Z) (s : string) : Prop := ∃ j, parse_all (chars s) = Some j ∧ json_depth j ≤ h.

Lemma transfers_raw h : 0 ≤ h → transfers raw_codec raw_codec h (raw_ok h) raw_text.
Proof.
  intros Hh. split; [|intros a Ha; simpl in Ha; by bool_prop; subst|done].
  intros s (j & Hj & Hd). unfold raw_text. cbn [c_enc c_dec raw_codec].
  rewrite bool_decide_eq_false_2 by (intros ->; discriminate Hj). rewrite Hj. eexists. split_and!; [done..|].
  intros d Hdep. eapply compact_wf; [by eapply parse_all_wf|lia].
Qed.

(** ** Structs *)
Section Structs.
Context `{UnicodeFold} {R S : Type} (FC : list (struct_field S)) (r : R) (h : Z).

(** The fields of the sender, one after the other, take the receiver from one value to
    another: a field the receiver knows is set to its image, another one is skipped.  A
    field is written before it is set: it still has its zero value. *)
Inductive steps : list (struct_field R) → S → S → Prop :=
| steps_nil acc : steps [] acc acc
| steps_known f fs fc ok g acc acc' :
    find_field FC (ToValidUTF8 (fd_name f)) = Some fc → transfers (fd_codec f) (fd_codec fc) h ok g →
    (fd_omit f && c_empty (fd_codec f) (fd_get f r) = false → ok (fd_get f r)) →
    fd_get fc acc = c_zero (fd_codec fc) → fd_set fc (c_zero (fd_codec fc)) acc = acc →
    steps fs (fd_set fc (g (fd_get f r)) acc) acc' → steps (f :: fs) acc acc'
| steps_unknown f fs ok g acc acc' :
    find_field FC (ToValidUTF8 (fd_name f)) = None → transfers (fd_codec f) (fd_codec f) h ok g →
    (fd_omit f && c_empty (fd_codec f) (fd_get f r) = false → ok (fd_get f r)) →
    steps fs acc acc' → steps (f :: fs) acc acc'.

Lemma steps_decode fs acc acc' : steps fs acc acc' →
  ∃ ms, encode_fields fs r = Some ms ∧ decode_members FC ms acc = Some acc' ∧ Forall literal ms.*1
    ∧ ∀ depth, depth + h ≤ maxNestingDepth → Forall (wf_json depth) ms.*2.
Proof.
  induction 1 as [acc|f fs fc ok g acc acc' Hfind Ht Hok Hget Hset _ (ms & He & Hd & Hl & Hw)
                 |f fs ok g acc acc' Hfind Ht Hok _ (ms & He & Hd & Hl & Hw)]; [exists []; by split_and!|..];
    cbn [encode_fields]; destruct (fd_omit f && c_empty (fd_codec f) (fd_get f r)) eqn:Eo.
  - apply andb_true_iff in Eo as [_ Eo]. rewrite (tr_empty _ _ _ _ _ Ht _ Eo), Hset in Hd. by exists ms.
  - destruct (tr_enc _ _ _ _ _ Ht _ (Hok eq_refl)) as (j & Ej & Dj & Wj). eexists. rewrite Ej. cbn [mbind option_bind]. rewrite He.
    split; [done|]. split.
    + cbn [decode_members]. unfold decode_member at 1. cbn [fst snd]. rewrite unquoted_quote, Hfind, Hget, Dj. exact Hd.
    + split; [constructor; [apply escape_literal|done]|]. intros d Hdep. constructor; [by apply Wj|by apply Hw].
  - by exists ms.
  - destruct (tr_enc _ _ _ _ _ Ht _ (Hok eq_refl)) as (j & Ej & Dj & Wj). eexists. rewrite Ej. cbn [mbind option_bind]. rewrite He.
    split; [done|]. split.
    + cbn [decode_members]. unfold decode_member at 1. cbn [fst snd]. by rewrite unquoted_quote, Hfind.
    + split; [constructor; [apply escape_literal|done]|]. intros d Hdep. constructor; [by apply Wj|by apply Hw].
Qed.
End Structs.

Lemma transfers_weaken {A B} (ca : codec A) (cb : codec B) h h' ok ok' f :
  transfers ca cb h ok f → h ≤ h' → (∀ a, ok' a → ok a) → transfers ca cb h' ok' f.
Proof.
  intros [He Hz Hh] Hle Hok. split; [|done|lia]. intros a Ha. destruct (He a (Hok a Ha)) as (j & ? & ? & Hw).
  exists j. split_and!; [done..|]. intros d Hd. apply Hw. lia.
Qed.

Lemma transfers_struct `{UnicodeFold} {R S} (zr : R) (zs : S) FR FS h ok f :
  0 ≤ h → (∀ r, ok r → steps FS r h FR zs (f r)) → transfers (struct_codec zr FR) (struct_codec zs FS) (h + 1) ok f.
Proof.
  intros Hh Hs. split; [|done|lia]. intros r Hr. destruct (steps_decode _ _ _ _ _ _ (Hs r Hr)) as (ms & He & Hd & Hl & Hw).
  exists (JObject ms). cbn. rewrite He. split_and!; [done|done|]. intros d Hdep. constructor; [lia|done|apply Hw; lia].
Qed.

(** A pointer to a struct, read back as one, or as [any]. *)
Lemma transfers_pointer {A B} (ca : codec A) (cb : codec B) h ok f :
  transfers ca cb h ok f → (∀ a, c_enc ca a ≠ Some JNull) →
  transfers (pointer_codec ca) (pointer_codec cb) h (λ p, match p with Some a => ok a | None => True end) (fmap f).
Proof.
  intros Ht Hn. pose proof (tr_height _ _ _ _ _ Ht). split; [|by intros []|done]. intros [a|] Ha.
  - destruct (tr_enc _ _ _ _ _ Ht a Ha) as (j & Ej & Dj & Wj). exists j. split; [done|]. split; [|done].
    specialize (Hn a). cbn. destruct j; try done; by rewrite Dj.
  - exists JNull. split_and!; [done..|]. intros. constructor.
Qed.

Lemma transfers_any {A B} (ca : codec A) (cb : codec B) h ok f :
  transfers ca cb h ok f → (∀ a, c_enc ca a ≠ Some JNull) →
  transfers (pointer_codec ca) any_codec h (λ p, match p with Some a => ok a | None => True end) (λ p, p ≫= c_enc ca).
Proof.
  intros Ht Hn. pose proof (tr_height _ _ _ _ _ Ht). split; [|by intros []|done]. intros [a|] Ha.
  - destruct (tr_enc _ _ _ _ _ Ht a Ha) as (j & Ej & Dj & Wj). exists j. split; [done|]. split; [|done].
    specialize (Hn a). cbn. rewrite Ej. by destruct j.
  - exists JNull. split_and!; [done..|]. intros. constructor.
Qed.

(** A value of type [any] that is not nested too deep. *)
Definition any_ok (h : Z) (v : option json) : Prop :=
  match v with Some j => j ≠ JNull ∧ ∀ depth, depth + h ≤ maxNestingDepth → wf_json depth j | None => True end.

Lemma transfers_any_any h : 0 ≤ h → transfers any_codec any_codec h (any_ok h) id.
Proof.
  intros Hh. split; [|by intros []|done]. intros [j|] Hj; [|exists JNull; split_and!; [done..|intros; constructor]].
  destruct Hj as [Hn Hw]. exists j. split_and!; [done|by destruct j|done].
Qed.

(** ** Whole texts *)
Lemma json_roundtrip {A B} (ca : codec A) (cb : codec B) h ok f a sp :
  transfers ca cb h ok f → h ≤ maxNestingDepth → ok a → Forall (λ c, json_space c = true) (chars sp) →
  ∃ text, JsonMarshal ca a = Some text ∧ JsonUnmarshal cb (text +:+ sp) (c_zero cb) = Some (f a) ∧ Forall printable (chars text).
Proof.
  intros Ht Hh Ha Hsp. destruct (tr_enc _ _ _ _ _ Ht a Ha) as (j & Ej & Dj & Wj). unfold JsonMarshal. rewrite Ej.
  eexists. split; [done|]. unfold JsonUnmarshal, str. rewrite chars_app, chars_of_list.
  rewrite parse_all_text; [|apply Wj; lia|done]. split; [done|]. eapply text_printable, (Wj 0). lia.
Qed.

Lemma indent_roundtrip {A B} (ca : codec A) (cb : codec B) h ok f a :
  transfers ca cb h ok f → h ≤ maxNestingDepth → ok a →
  ∃ text, JsonEncodeIndent ca a = Some text ∧ JsonUnmarshal cb text (c_zero cb) = Some (f a).
Proof.
  intros Ht Hh Ha. destruct (tr_enc _ _ _ _ _ Ht a Ha) as (j & Ej & Dj & Wj). unfold JsonEncodeIndent. rewrite Ej.
  eexists. split; [done|]. unfold JsonUnmarshal, str. rewrite chars_of_list. rewrite parse_all_indent; [done|apply Wj; lia|by repeat constructor].
Qed.

(** Writing a value of type [any] again yields a value of the same nesting, and [null] only for [null]. *)
Lemma any_again_wf json_float d j : (∀ lit, number lit → number (json_float lit)) → wf_json d j → wf_json d (any_again json_float j).
Proof.
  intros Hf. revert d. induction j as [|b|lit|lit|l IH|l IH] using json_ind'; intros d Hw; cbn [any_again].
  - constructor.
  - constructor.
  - inversion_clear Hw. constructor. by apply Hf.
  - constructor. apply escape_literal.
  - inversion_clear Hw as [| | | |? Hd Hl|]. constructor; [done|]. apply Forall_map. rewrite Forall_forall in IH, Hl.
    apply Forall_forall. intros x Hx. apply IH; [done|by apply Hl].
  - inversion_clear Hw as [| | | | |? Hd _ Hl]. cbv zeta. constructor; [done|apply Forall_fmap, Forall_fmap, Forall_forall; intros; apply escape_literal|].
    apply Forall_fmap, Forall_fmap, Forall_forall. intros k _. cbn [snd compose].
    destruct (_ !! k) as [v|] eqn:Ev; [|constructor]. apply elem_of_list_to_map_2 in Ev.
    apply elem_of_reverse, list_elem_of_fmap in Ev as ([k' v'] & [= _ ->] & Hin).
    assert (Hin2 : v' ∈ l.*2) by (apply list_elem_of_fmap; by exists (k', v')). rewrite Forall_forall in IH, Hl. apply IH; [done|by apply Hl].
Qed.

Lemma any_again_null json_float j : any_again json_float j = JNull → j = JNull.
Proof. by destruct j. Qed.

(** Names are matched without the tables of Unicode: they are ASCII. *)
Lemma find_field_ascii `{UnicodeFold} {R} (fs : list (struct_field R)) key :
  Forall is_ascii7 (chars key) → Forall (λ f, Forall is_ascii7 (chars (fd_name f))) fs →
  find_field fs key = @find_field AsciiFold R fs key.
Proof.
  intros Hk Hfs. assert (Hfold : ∀ s, Forall is_ascii7 (chars s) → fold_key s = @fold_key AsciiFold s).
  { intros s Hs. unfold fold_key, string_runes. fold (chars s). rewrite runes_ascii by done.
    induction Hs as [|c l Hc _ IH]; [done|]. rewrite !fmap_cons. f_equal; [|exact IH].
    pose proof (z_of_ascii_nonneg c). unfold is_ascii7 in Hc. by rewrite !fold_rune_ascii by lia. }
  unfold find_field. destruct (first_field _ fs); [done|]. induction Hfs as [|f fs Hf _ IH]; [done|]. cbn [first_field].
  unfold EqualFold at 1 3. rewrite !Hfold by done. by rewrite IH.
Qed.

(** ** Automation: walking through the fields of a struct *)
Ltac ascii_names := apply (bool_decide_unpack _); vm_compute; exact I.
Ltac by_name := rewrite find_field_ascii; [reflexivity|ascii_names|ascii_names].
Ltac transfer := first
  [ apply transfers_string | apply transfers_bool | apply transfers_int | by apply transfers_uint | (apply (transfers_raw 9999); lia)
  | apply transfers_slice; transfer | eassumption ].
(** The same for values that arrive unchanged. *)
Ltac transfer_same := first
  [ apply transfers_valid | apply transfers_bool | apply transfers_int | by apply transfers_uint | apply transfers_map_same; transfer_same
  | eassumption ].
Ltac field_by tac := eapply transfers_weaken; [tac|lia|let Hin := fresh in intros ? Hin; exact Hin].
(** Bring the receiver's value into the form of a record. *)
Ltac tidy := match goal with |- steps ?FC ?r ?h ?fs ?acc ?acc' =>
  let a := eval hnf in acc in let a := eval cbn in a in let a := eval unfold const in a in change (steps FC r h fs a acc') end.
Ltac in_range := let Ho := fresh in intros Ho; first [exact I|assumption|apply Forall_true; intros; exact I|eauto].
Ltac known_by tac := eapply steps_known; [by_name|field_by tac|in_range|reflexivity|reflexivity|tidy].
Ltac unknown_by tac := eapply steps_unknown; [by_name|field_by tac|in_range|].
Ltac walk_by tac := repeat first [known_by tac|unknown_by tac]; apply steps_nil.
