(* ===== verification/Packet.v ===== *)
(** * The wire format: [protocol/packet.go] and [protocol/control_packet.go].

    A control packet is a 12-byte header (version, protocol, application
    protocol, two 4-bit TTLs, two IPv4 addresses) and a payload. *)
From S2P Require Import Prelude GoString NetIP NetParse.

Module Protocol.

(** [Version], [Protocol], [AppProtocol] and [ControlProtocol] are named [uint8]
    types: any byte value can occur in a packet, the constants name some. *)
Definition V2 : Z := 2.
Definition V3 : Z := 3.
Definition VersionUnknown : Z := 255.

Definition VersionFromUint8 (val : Z) : Z :=
  if val =? 2 then V2 else if val =? 3 then V3 else VersionUnknown.

Definition ProtocolService : Z := 1.
Definition ProtocolError : Z := 2.
Definition ProtocolControl : Z := 3.
Definition ProtocolIpTurn : Z := 4.
Definition ProtocolOtherTurn : Z := 5.
Definition ProtocolUnknown : Z := 255.

Definition ProtocolFromUint8 (val : Z) : Z :=
  match val with
  | 1 => ProtocolService
  | 2 => ProtocolError
  | 3 => ProtocolControl
  | 4 => ProtocolIpTurn
  | 5 => ProtocolOtherTurn
  | _ => ProtocolUnknown
  end.

Definition AppProtoRegistrationRequest : Z := 1.
Definition AppProtoRegistrationResponse : Z := 2.
Definition AppProtoPullDeviceList : Z := 3.
Definition AppProtoPushDeviceList : Z := 4.
Definition AppProtoHandshakeRequest : Z := 5.
Definition AppProtoHandshakeResponse : Z := 6.
Definition AppProtoClientStatusInfo : Z := 9.
Definition AppProtoPunchRequest : Z := 10.
Definition AppProtoPunchAck : Z := 11.
Definition AppProtoPunchStart : Z := 12.
Definition AppProtoPunchResult : Z := 13.
Definition AppProtoDeviceAuthRequest : Z := 15.
Definition AppProtoDeviceAuthAck : Z := 16.
Definition AppProtoGatewayReportRequest : Z := 17.
Definition AppProtoGatewayReportAck : Z := 18.
Definition AppProtoGatewayConnectHello : Z := 19.
Definition AppProtoGatewayConnectAck : Z := 20.
Definition AppProtoRefreshGatewayGrantRequest : Z := 21.
Definition AppProtoRefreshGatewayGrantResponse : Z := 22.
Definition AppProtoDeviceAuthChallenge : Z := 23.
Definition AppProtoDeviceAuthProof : Z := 24.
Definition AppProtoDNSQueryRequest : Z := 25.
Definition AppProtoDNSQueryResponse : Z := 26.
Definition AppProtoDeviceRenameRequest : Z := 27.
Definition AppProtoDeviceRenameResponse : Z := 28.
Definition AppProtoDebugCollectRequest : Z := 29.
Definition AppProtoDebugCollectResponse : Z := 30.
Definition AppProtoDebugWatchStartRequest : Z := 31.
Definition AppProtoDebugWatchStartResponse : Z := 32.
Definition AppProtoDebugWatchStopRequest : Z := 33.
Definition AppProtoDebugWatchStopResponse : Z := 34.
Definition AppProtoDebugWatchEvent : Z := 35.
Definition AppProtoUnknown : Z := 255.

Definition AppProtocolFromUint8 (val : Z) : Z :=
  match val with
  | 1 => AppProtoRegistrationRequest
  | 2 => AppProtoRegistrationResponse
  | 3 => AppProtoPullDeviceList
  | 4 => AppProtoPushDeviceList
  | 5 => AppProtoHandshakeRequest
  | 6 => AppProtoHandshakeResponse
  | 9 => AppProtoClientStatusInfo
  | 10 => AppProtoPunchRequest
  | 11 => AppProtoPunchAck
  | 12 => AppProtoPunchStart
  | 13 => AppProtoPunchResult
  | 15 => AppProtoDeviceAuthRequest
  | 16 => AppProtoDeviceAuthAck
  | 17 => AppProtoGatewayReportRequest
  | 18 => AppProtoGatewayReportAck
  | 19 => AppProtoGatewayConnectHello
  | 20 => AppProtoGatewayConnectAck
  | 21 => AppProtoRefreshGatewayGrantRequest
  | 22 => AppProtoRefreshGatewayGrantResponse
  | 23 => AppProtoDeviceAuthChallenge
  | 24 => AppProtoDeviceAuthProof
  | 25 => AppProtoDNSQueryRequest
  | 26 => AppProtoDNSQueryResponse
  | 27 => AppProtoDeviceRenameRequest
  | 28 => AppProtoDeviceRenameResponse
  | 29 => AppProtoDebugCollectRequest
  | 30 => AppProtoDebugCollectResponse
  | 31 => AppProtoDebugWatchStartRequest
  | 32 => AppProtoDebugWatchStartResponse
  | 33 => AppProtoDebugWatchStopRequest
  | 34 => AppProtoDebugWatchStopResponse
  | 35 => AppProtoDebugWatchEvent
  | _ => AppProtoUnknown
  end.

Record Packet := mkPacket {
  Ver : Z;
  Proto : Z;
  AppProto : Z;
  SourceTTL : Z;
  TTL : Z;
  SrcIP : IP;
  DstIP : IP;
  Payload : list byte;
  RouteNetworkKey : string
}.

Definition PacketHeaderSize : nat := 12.
Definition MAX_TTL : Z := 15.
Definition ErrInvalidPacket : string := "invalid packet".

Definition NewPacket (ver proto appProto sourceTTL ttl : Z) (srcIP dstIP : IP) (payload : list byte) : Packet :=
  {| Ver := VersionFromUint8 ver; Proto := ProtocolFromUint8 proto;
     AppProto := AppProtocolFromUint8 appProto; SourceTTL := sourceTTL; TTL := ttl;
     SrcIP := To4 srcIP; DstIP := To4 dstIP; Payload := payload; RouteNetworkKey := "" |}.

(** [copy(buf[i:i+4], ip.To4())] on a zeroed buffer: a missing IPv4 form leaves zeros. *)
Definition wire_ip (ip : IP) : list byte :=
  let ip4 := To4 ip in if bool_decide (ip4 = []) then [x00; x00; x00; x00] else ip4.

Definition Marshal (p : Packet) : list byte :=
  [ z2b (Z.land V3 0x0F);
    z2b (Proto p);
    z2b (AppProto p);
    z2b (Z.lor (Z.shiftl (Z.land (SourceTTL p) 0x0F) 4) (Z.land (TTL p) 0x0F)) ]
  ++ wire_ip (SrcIP p) ++ wire_ip (DstIP p) ++ Payload p.

Definition Unmarshal (data : list byte) : result Packet :=
  match data with
  | d0 :: d1 :: d2 :: d3 :: d4 :: d5 :: d6 :: d7 :: d8 :: d9 :: d10 :: d11 :: payload =>
      Ok {| Ver := VersionFromUint8 (Z.land (b2z d0) 0x0F);
            Proto := ProtocolFromUint8 (b2z d1);
            AppProto := AppProtocolFromUint8 (b2z d2);
            SourceTTL := Z.land (Z.shiftr (b2z d3) 4) 0x0F;
            TTL := Z.land (b2z d3) 0x0F;
            SrcIP := IPv4 d4 d5 d6 d7;
            DstIP := IPv4 d8 d9 d10 d11;
            Payload := payload;
            RouteNetworkKey := "" |}
  | _ => Err ErrInvalidPacket
  end.

(** ** [control_packet.go] *)
Definition ControlPing : Z := 1.
Definition ControlPong : Z := 2.
Definition ControlPunchRequest : Z := 3.
Definition ControlPunchResponse : Z := 4.
Definition ControlAddrRequest : Z := 5.
Definition ControlAddrResponse : Z := 6.

Definition ParsePingPayload (payload : list byte) : result (Z * Z) :=
  match payload with
  | a :: b :: c :: d :: _ => Ok (be_get [a; b], be_get [c; d])
  | _ => Err ("invalid ping payload length: " +:+ dec (Z.of_nat (length payload)))
  end.

Definition BuildPingPayload (time epoch : Z) : list byte := be_put 2 time ++ be_put 2 epoch.

Definition ParseAddrPayload (payload : list byte) : result (IP * Z) :=
  match payload with
  | a :: b :: c :: d :: e :: f :: _ => Ok (To4 (IPv4 a b c d), be_get [e; f])
  | _ => Err ("invalid addr payload length: " +:+ dec (Z.of_nat (length payload)))
  end.

(** [BuildAddrPayloadByAddr]: [remoteAddr] is the text of the [net.Addr]. *)
Definition BuildAddrPayloadByAddr (remoteAddr : string) : result (list byte) :=
  match SplitHostPort remoteAddr with
  | Err e => Err ("failed to parse remote addr: " +:+ e)
  | Ok (host, portStr) =>
      let bad := Err ("invalid remote port: " +:+ Quote portStr) in
      match Atoi portStr with
      | None => bad
      | Some port =>
          if (port <? 0) || (65535 <? port) then bad else
          let ip := ParseIP host in
          if bool_decide (ip = []) then Err ("invalid remote host: " +:+ Quote host) else
          Ok (wire_ip ip ++ be_put 2 port)
      end
  end.

(** ** Lemmas *)

(** What the receiver of a marshalled packet sees. *)
Definition wire_view (p : Packet) : Packet :=
  {| Ver := V3;
     Proto := ProtocolFromUint8 (u8 (Proto p));
     AppProto := AppProtocolFromUint8 (u8 (AppProto p));
     SourceTTL := SourceTTL p mod 16;
     TTL := TTL p mod 16;
     SrcIP := v4InV6Prefix ++ wire_ip (SrcIP p);
     DstIP := v4InV6Prefix ++ wire_ip (DstIP p);
     Payload := Payload p;
     RouteNetworkKey := "" |}.

Lemma wire_ip_length ip : length (wire_ip ip) = 4%nat.
Proof. unfold wire_ip. case_bool_decide as H; [done|]. by destruct (To4_length ip). Qed.

Lemma ttl_byte s t :
  let b := Z.lor (Z.shiftl (Z.land s 15) 4) (Z.land t 15) in
  0 ≤ b < 256 ∧ Z.land (Z.shiftr b 4) 15 = s mod 16 ∧ Z.land b 15 = t mod 16.
Proof.
  simpl. change 15 with (Z.ones 4). rewrite !Z.land_ones by lia. change (2 ^ 4) with 16.
  pose proof (Z.mod_pos_bound s 16 ltac:(lia)). pose proof (Z.mod_pos_bound t 16 ltac:(lia)).
  generalize dependent (s mod 16). generalize dependent (t mod 16). intros y Hy x Hx.
  assert (Z.lor (Z.shiftl x 4) y = x * 16 + y) as ->.
  { assert (Z.land (Z.shiftl x 4) y = 0) as Hz; cycle 1.
    - pose proof (Z.add_lor_land (Z.shiftl x 4) y) as E. rewrite Hz in E.
      rewrite Z.shiftl_mul_pow2 in * by lia. lia.
    - apply Z.bits_inj'. intros i Hi. rewrite Z.bits_0, Z.land_spec.
      destruct (decide (i < 4)).
      + by rewrite Z.shiftl_spec_low by lia.
      + rewrite (Z.bits_above_log2 y i), andb_false_r; [done|lia|].
        destruct (decide (y = 0)) as [->|]; [simpl; lia|]. apply Z.log2_lt_pow2; [lia|].
        apply Z.lt_le_trans with (2 ^ 4); [lia|]. apply Z.pow_le_mono_r; lia. }
  split; [lia|]. rewrite Z.shiftr_div_pow2 by lia. change (2 ^ 4) with 16.
  rewrite Z.div_add_l, (Z.div_small y 16), Z.add_0_r by lia.
  rewrite (Z.add_comm (x * 16)), Z.mod_add by lia. by rewrite !Z.mod_small.
Qed.

Lemma IPv4_wire ip : ∃ a b c d, wire_ip ip = [a; b; c; d] ∧ IPv4 a b c d = v4InV6Prefix ++ wire_ip ip.
Proof.
  pose proof (wire_ip_length ip) as Hl.
  destruct (wire_ip ip) as [|a [|b [|c [|d [|? ?]]]]] eqn:E; try done. by exists a, b, c, d.
Qed.

Lemma wire_ip_IPv4 a b c d : wire_ip (IPv4 a b c d) = [a; b; c; d].
Proof. done. Qed.

Lemma known_protocol v : ProtocolFromUint8 v ≠ ProtocolUnknown → ProtocolFromUint8 v = v.
Proof. unfold ProtocolFromUint8. intros H. repeat case_match; done. Qed.

Lemma known_app_protocol v : AppProtocolFromUint8 v ≠ AppProtoUnknown → AppProtocolFromUint8 v = v.
Proof. unfold AppProtocolFromUint8. intros H. repeat case_match; done. Qed.

(** C33 (roundtrip). Marshalling a packet and unmarshalling the bytes gives back
    its payload, addresses (IPv4 form, zeros when there is none) and the low
    four bits of both TTLs; the version is always V3, codes outside the known
    set become Unknown, and the local routing key is not transmitted. *)
Theorem Unmarshal_Marshal (p : Packet) : Unmarshal (Marshal p) = Ok (wire_view p).
Proof.
  unfold Marshal. destruct (IPv4_wire (SrcIP p)) as (a & b & c & d & Hs & Hs').
  destruct (IPv4_wire (DstIP p)) as (a' & b' & c' & d' & Hd & Hd').
  rewrite Hs, Hd. cbn [app Unmarshal]. unfold wire_view.
  destruct (ttl_byte (SourceTTL p) (TTL p)) as (Hr & H1 & H2).
  rewrite Hs', Hd', !b2z_z2b. unfold u8. change (2 ^ 8) with 256. f_equal. f_equal.
  - by rewrite Z.mod_small.
  - by rewrite Z.mod_small.
Qed.

(** Unmarshalling fails exactly on inputs shorter than the header. *)
Theorem Unmarshal_error_iff (data : list byte) :
  Unmarshal data = Err ErrInvalidPacket ↔ (length data < PacketHeaderSize)%nat.
Proof.
  unfold PacketHeaderSize.
  do 12 (destruct data as [|? data]; [simpl; split; [lia|done]|]).
  simpl. split; [done|lia].
Qed.

(** A version-3 frame whose codes are known is reproduced byte
    for byte by unmarshalling and marshalling it again. *)
Theorem Marshal_Unmarshal (data : list byte) (p : Packet) :
  Unmarshal data = Ok p → data !! 0%nat = Some x03 →
  Proto p ≠ ProtocolUnknown → AppProto p ≠ AppProtoUnknown →
  Marshal p = data.
Proof.
  destruct data as [|d0 [|d1 [|d2 [|d3 [|d4 [|d5 [|d6 [|d7 [|d8 [|d9 [|d10 [|d11 data]]]]]]]]]]]];
    try done.
  intros [= <-] [= ->] Hp Ha. cbn [Proto AppProto] in Hp, Ha.
  unfold Marshal. cbn [Proto AppProto SourceTTL TTL SrcIP DstIP Payload].
  rewrite !wire_ip_IPv4, (known_protocol _ Hp), (known_app_protocol _ Ha), !z2b_b2z. cbn [app].
  f_equal. f_equal. f_equal. f_equal. by destruct d3.
Qed.

Lemma Marshal_Unmarshal_witness :
  ∃ p, Unmarshal (x03 :: x01 :: x05 :: xff :: replicate 8 x0a ++ [x2a]) = Ok p
       ∧ Marshal p = x03 :: x01 :: x05 :: xff :: replicate 8 x0a ++ [x2a].
Proof.
  eexists. split; [reflexivity|].
  by apply (Marshal_Unmarshal (x03 :: x01 :: x05 :: xff :: replicate 8 x0a ++ [x2a])).
Defined.

(** A pong answers with the time of the ping it read and the 16-bit epoch. *)
Lemma ParsePing_BuildPing t e : ParsePingPayload (BuildPingPayload t e) = Ok (u16 t, u16 e).
Proof.
  unfold BuildPingPayload. cbn [be_put app ParsePingPayload].
  f_equal. f_equal; [apply (be_get_put 2 t)|apply (be_get_put 2 e)].
Qed.

(** The address payload built for a peer parses back to the IPv4
    form of the peer's host (0.0.0.0 for an IPv6 host) and its port, which is a
    valid port number. *)
Theorem ParseAddr_BuildAddr (remoteAddr : string) (payload : list byte) :
  BuildAddrPayloadByAddr remoteAddr = Ok payload →
  ∃ host portStr port,
    SplitHostPort remoteAddr = Ok (host, portStr) ∧ Atoi portStr = Some port ∧ 0 ≤ port ≤ 65535
    ∧ ParseIP host ≠ [] ∧ ParseAddrPayload payload = Ok (wire_ip (ParseIP host), port).
Proof.
  unfold BuildAddrPayloadByAddr. destruct (SplitHostPort remoteAddr) as [[host portStr]|]; [|done].
  destruct (Atoi portStr) as [port|] eqn:Hp; [|done].
  destruct ((port <? 0) || (65535 <? port)) eqn:Hr; [done|]. bool_prop.
  case_bool_decide as Hip; [done|]. intros [= <-]. exists host, portStr, port.
  split_and!; [done..|]. destruct (IPv4_wire (ParseIP host)) as (a & b & c & d & -> & _).
  unfold ParseAddrPayload. cbn [app be_put]. f_equal. f_equal.
  change (be_get (be_put 2 port) = port). rewrite be_get_put.
  change (256 ^ Z.of_nat 2) with 65536. apply Z.mod_small. lia.
Qed.

Lemma ParseAddr_BuildAddr_witness :
  ∃ host portStr port,
    SplitHostPort "10.0.0.7:4500" = Ok (host, portStr) ∧ Atoi portStr = Some port ∧ 0 ≤ port ≤ 65535
    ∧ ParseIP host ≠ []
    ∧ ParseAddrPayload [x0a; x00; x00; x07; x11; x94] = Ok (wire_ip (ParseIP host), port).
Proof. apply ParseAddr_BuildAddr. vm_compute. reflexivity. Defined.

End Protocol.
