(* ===== verification/Proto.v ===== *)
(** * Protobuf messages ([proto/message.proto]) that the modelled handlers read or
    write.

    The generated Go structs and their accessors are records here; a proto3
    enum is open, so its values are integers and the named values constants.
    Encoding and decoding are done by the protobuf library, a third-party
    package: they are the operations of the class [ProtoMessage]. *)
From S2P Require Import Prelude.

Class ProtoMessage (M : Type) := {
  proto_marshal : M → result (list byte);
  proto_unmarshal : list byte → result M
}.

(** ** Registration and handshake *)
Record HandshakeRequest := {
  HandshakeRequest_version : string;
  HandshakeRequest_key_finger : string;
  HandshakeRequest_capabilities : list string
}.

Record HandshakeResponse := {
  HandshakeResponse_version : string;
  HandshakeResponse_public_key : list byte;
  HandshakeResponse_key_finger : string;
  HandshakeResponse_capabilities : list string
}.

Record RegistrationRequest := {
  token : string;
  reg_device_id : string;
  reg_name : string;
  is_fast : bool;
  reg_version : string;
  reg_virtual_ip : Z;
  allow_ip_change : bool;
  reg_device_pub_key : list byte;
  reg_online_kx_pub : list byte
}.

Record DnsProfile := { dns_servers : list string; dns_match_domains : list string }.

Record DnsQueryRequest := { dq_request_id : Z; dq_query : list byte }.
Record DnsQueryResponse := { dqr_request_id : Z; dqr_response : list byte; dqr_error : string }.

Definition REGISTRATION_ERROR_REASON_UNSPECIFIED : Z := 0.
Definition REGISTRATION_ERROR_REASON_INVALID_GROUP_DOMAIN : Z := 1.
Definition REGISTRATION_ERROR_REASON_NOT_AUTHED : Z := 2.
Definition REGISTRATION_ERROR_REASON_INVALID_REQUEST : Z := 3.
Definition REGISTRATION_ERROR_REASON_MISSING_HANDSHAKE_CAPABILITY : Z := 4.
Definition REGISTRATION_ERROR_REASON_INTERNAL : Z := 100.

(** ** Gateways *)
Definition GATEWAY_CHANNEL_UNKNOWN : Z := 0.
Definition GATEWAY_CHANNEL_UDP : Z := 1.
Definition GATEWAY_CHANNEL_QUIC : Z := 2.
Definition GATEWAY_CHANNEL_HTTPS : Z := 3.

Record GatewayChannel := {
  ch_kind : Z;
  ch_addr : string;
  ch_server_name : string;
  ch_udp_public_key : list byte;
  ch_udp_key_id : string
}.

Record GatewayAccessGrant := {
  ticket : list byte;
  ticket_expire_unix_ms : Z;
  session_id : Z;
  policy_rev : Z;
  gateway_capabilities : list string;
  lease_secs : Z;
  grace_secs : Z;
  gateway_group_id : string;
  gateway_channel : option GatewayChannel;
  grant_gateway_id : string;
  soft_refresh_after_unix_ms : Z;
  hard_expire_unix_ms : Z
}.

Record GatewayTicketClaims := {
  ticket_id : string;
  claim_device_id : string;
  claim_virtual_ip : Z;
  claim_session_id : Z;
  policy_revision : Z;
  gateway_ids : list string;
  claim_gateway_group_id : string;
  issued_at_unix_ms : Z;
  not_before_unix_ms : Z;
  expire_unix_ms : Z;
  lease_cap_secs : Z;
  grace_cap_secs : Z
}.

Record SignedGatewayTicket := { alg : string; key_id : string; claims : list byte; signature : list byte }.

Record GatewayReportRequest := {
  rep_gateway_id : string;
  rep_capabilities : list string;
  rep_report_unix_ms : Z;
  rep_nonce : list byte;
  rep_signature : list byte;
  rep_gateway_channel : option GatewayChannel
}.

Record GatewayReportProof := {
  proof_gateway_id : string;
  proof_capabilities : list string;
  proof_report_unix_ms : Z;
  proof_nonce : list byte;
  proof_gateway_channel : option GatewayChannel
}.

Record GatewayReportAck := {
  rack_ok : bool;
  rack_reason : string;
  rack_gateway_id : string;
  rack_expire_unix_ms : Z
}.

Record RefreshGatewayGrantRequest := {
  ref_virtual_ip : Z;
  ref_device_id : string;
  last_session_id : Z;
  last_policy_rev : Z;
  force_reissue : bool
}.

Definition REFRESH_GATEWAY_GRANT_RESULT_UPDATED : Z := 1.
Definition REFRESH_GATEWAY_GRANT_RESULT_NO_CHANGE : Z := 2.
Definition REFRESH_GATEWAY_GRANT_RESULT_TEMPORARILY_UNAVAILABLE : Z := 3.
Definition REFRESH_GATEWAY_GRANT_RESULT_REVOKED : Z := 4.

Record RefreshGatewayGrantResponse := {
  has_update : bool;
  resp_gateway_access_grant : option GatewayAccessGrant;
  resp_reason : string;
  resp_gateway_access_grants : list GatewayAccessGrant;
  resp_gateway_policy_rev : Z;
  resp_result : Z
}.

(** ** Device lists *)
Definition CHANNEL_MODE_AUTO : Z := 0.
Definition CHANNEL_MODE_DIRECT : Z := 1.
Definition CHANNEL_MODE_RELAY : Z := 2.

Record DeviceInfo := {
  di_name : string;
  di_virtual_ip : Z;
  di_device_status : Z;
  di_device_id : string;
  di_device_pub_key : list byte;
  di_online_kx_pub : list byte;
  di_preferred_channel_mode : Z;
  di_exit_node_advertised : bool;
  di_exit_node_approved : bool;
  di_exit_node_usable : bool
}.

Record DeviceList := {
  dl_epoch : Z;
  dl_device_info_list : list DeviceInfo;
  dl_gateway_access_grants : list GatewayAccessGrant;
  dl_gateway_policy_rev : Z
}.

Record RegistrationResponse := {
  virtual_ip : Z;
  virtual_gateway : Z;
  virtual_netmask : Z;
  epoch : Z;
  device_info_list : list DeviceInfo;
  public_ip : Z;
  public_port : Z;
  public_ipv6 : list byte;
  gateway_access_grant : option GatewayAccessGrant;
  error_code : Z;
  error_message : string;
  dns_profile : option DnsProfile;
  gateway_access_grants : list GatewayAccessGrant;
  gateway_policy_rev : Z;
  error_reason : Z
}.

(** ** Device authentication *)
Record DeviceAuthRequest := {
  dar_user_id : string;
  dar_group : string;
  dar_device_id : string;
  dar_ticket : string;
  dar_device_pub_key : list byte
}.

Record DeviceAuthChallenge := {
  dac_challenge_id : string;
  dac_nonce : list byte;
  dac_expire_unix_ms : Z;
  dac_reauth_required : bool;
  dac_reason : string
}.

Record DeviceAuthProof := {
  dap_challenge_id : string;
  dap_device_id : string;
  dap_device_pub_key : list byte;
  dap_signature : list byte
}.

Definition DEVICE_AUTH_ERROR_REASON_UNSPECIFIED : Z := 0.
Definition DEVICE_AUTH_ERROR_REASON_CHALLENGE_EXPIRED : Z := 1.
Definition DEVICE_AUTH_ERROR_REASON_DEVICE_KEY_MISMATCH : Z := 2.
Definition DEVICE_AUTH_ERROR_REASON_INVALID_SIGNATURE : Z := 3.
Definition DEVICE_AUTH_ERROR_REASON_AUTH_CHECK_FAILED : Z := 4.

Record DeviceAuthAck := {
  daa_ok : bool;
  daa_reason : string;
  daa_user_id : string;
  daa_group : string;
  daa_device_id : string;
  daa_auth_expire_unix_ms : Z;
  daa_reauth_required : bool;
  daa_error_reason : Z
}.

Record DeviceRenameRequest := { ren_request_id : Z; ren_device_id : string; ren_new_name : string }.
Record DeviceRenameResponse := {
  renr_request_id : Z; renr_ok : bool; renr_reason : string; renr_applied_name : string;
  renr_pending_approval : bool
}.

(** ** Hole punching and client status *)
Definition PunchNat_Symmetric : Z := 0.
Definition PunchNat_Cone : Z := 1.

Definition PunchTriggerUnknown : Z := 0.
Definition PunchTriggerStatusUpdate : Z := 1.
Definition PunchTriggerRouteTimeout : Z := 2.
Definition PunchTriggerReconnectRecovery : Z := 3.
Definition PunchTriggerManualRequest : Z := 4.
Definition StatusReportOnly : Z := 5.

Definition PunchPhaseUnknown : Z := 0.
Definition PunchPhaseScheduled : Z := 1.
Definition PunchPhaseSending : Z := 2.
Definition PunchPhaseWaiting : Z := 3.
Definition PunchPhaseSuccess : Z := 4.
Definition PunchPhaseTimeout : Z := 5.
Definition PunchPhaseFailed : Z := 6.

Definition PunchEndpointSelectionDefault : Z := 0.
Definition PunchEndpointSelectionAll : Z := 1.
Definition PunchEndpointSelectionPreferPublic : Z := 2.

Definition PunchResultUnknown : Z := 0.
Definition PunchResultSuccess : Z := 1.
Definition PunchResultFailed : Z := 2.
Definition PunchResultTimeout : Z := 3.
Definition PunchResultCanceled : Z := 4.
Definition PunchResultRejected : Z := 5.
Definition PunchResultNoResponse : Z := 6.
Definition PunchResultSuperseded : Z := 7.

Record PunchEndpoint := { pe_ip : Z; pe_port : Z; pe_ipv6 : list byte; pe_tcp : bool }.

Record PunchRequest := {
  preq_session_id : Z;
  preq_source : Z;
  preq_target : Z;
  preq_source_nat_type : Z;
  preq_target_nat_type : Z;
  preq_source_endpoints : list PunchEndpoint;
  preq_target_endpoints : list PunchEndpoint;
  preq_attempt : Z;
  preq_timeout_ms : Z;
  preq_deadline_unix_ms : Z;
  preq_trigger_reason : Z;
  preq_attempt_budget : Z;
  preq_endpoint_selection_policy : Z
}.

Record PunchAck := {
  pack_session_id : Z;
  pack_source : Z;
  pack_attempt : Z;
  pack_accepted : bool;
  pack_reason : string;
  pack_phase : Z
}.

Record PunchStart := {
  ps_session_id : Z;
  ps_source : Z;
  ps_target : Z;
  ps_peer_endpoints : list PunchEndpoint;
  ps_attempt : Z;
  ps_timeout_ms : Z;
  ps_deadline_unix_ms : Z;
  ps_trigger_reason : Z;
  ps_attempt_budget : Z;
  ps_endpoint_selection_policy : Z
}.

Record PunchResult := {
  pres_session_id : Z;
  pres_source : Z;
  pres_target : Z;
  pres_attempt : Z;
  pres_code : Z;
  pres_reason : string;
  pres_selected_endpoint : option PunchEndpoint;
  pres_phase : Z
}.

Record ClientStatusInfoMsg := {
  cs_source : Z;
  cs_p2p_list : list Z;
  cs_up_stream : Z;
  cs_down_stream : Z;
  cs_nat_type : Z;
  cs_public_udp_endpoints : list PunchEndpoint;
  cs_punch_trigger_reason : Z;
  cs_local_udp_endpoints : list PunchEndpoint;
  cs_preferred_channel_mode : Z;
  cs_exit_node_advertised : bool;
  cs_exit_node_local_ready : bool;
  cs_recovery_punch_target : Z
}.

(** ** Debugging *)
Record DebugCollectRequest := { dcq_request_id : Z; dcq_sections : list string; dcq_reason : string }.
Record DebugCollectResponse := {
  dcr_request_id : Z; dcr_ok : bool; dcr_reason : string; dcr_collected_at_unix_ms : Z; dcr_snapshot_json : string
}.
Record DebugWatchStartRequest := {
  dsq_request_id : Z; dsq_sections : list string; dsq_duration_sec : Z; dsq_reason : string
}.
Record DebugWatchStartResponse := {
  dsr_request_id : Z; dsr_ok : bool; dsr_reason : string; dsr_watch_id : Z; dsr_started_at_unix_ms : Z;
  dsr_expire_at_unix_ms : Z
}.
Record DebugWatchStopRequest := { dtq_request_id : Z; dtq_watch_id : Z; dtq_reason : string }.
Record DebugWatchStopResponse := {
  dtr_request_id : Z; dtr_ok : bool; dtr_reason : string; dtr_watch_id : Z; dtr_stopped_at_unix_ms : Z
}.
Record DebugWatchEvent := {
  dwe_watch_id : Z; dwe_section : string; dwe_event_type : string; dwe_event_unix_ms : Z; dwe_payload_json : string
}.
