(* ===== verification/ExpireMap.v ===== *)
(** * The expiring map of [control/expire_map.go].

    The model keeps the two Go maps ([data] and [expiration]) and the default
    time to live.  Each operation takes the clock reading [now] (nanoseconds)
    its body uses.  The critical sections guarded by the map's mutex are the
    atomic steps; [Get] has two of them. *)
From S2P Require Import Prelude.

Record ExpireMap (K T : Type) `{Countable K} := mkExpireMap {
  data : gmap K T;
  expiration : gmap K Z;
  ttl : Z
}.
Arguments mkExpireMap {K T _ _} data expiration ttl.
Arguments data {K T _ _} e.
Arguments expiration {K T _ _} e.
Arguments ttl {K T _ _} e.

Section ExpireMap.
Context `{Countable K} {T : Type}.
Implicit Types (e : ExpireMap K T) (k : K) (v : T) (now : Z).

Definition NewExpireMap (defaultTTL : Z) : ExpireMap K T := mkExpireMap ∅ ∅ defaultTTL.

Definition Set_ (now : Z) (key : K) (value : T) (e : ExpireMap K T) : ExpireMap K T :=
  let deadline := if 0 <? ttl e then now + ttl e else 0 in
  mkExpireMap (<[key := value]> (data e))
    (if deadline =? 0 then delete key (expiration e) else <[key := deadline]> (expiration e))
    (ttl e).

Definition Delete (key : K) (e : ExpireMap K T) : ExpireMap K T :=
  mkExpireMap (delete key (data e)) (delete key (expiration e)) (ttl e).

(** [deadline, ok := e.expiration[key]; ok && deadline > 0 && now > deadline]. *)
Definition expired (now : Z) (key : K) (e : ExpireMap K T) : bool :=
  match expiration e !! key with
  | Some deadline => (0 <? deadline) && (deadline <? now)
  | None => false
  end.

Definition TrySetIfAbsent (now : Z) (key : K) (value : T) (e : ExpireMap K T) : bool * ExpireMap K T :=
  let e := if expired now key e then Delete key e else e in
  match data e !! key with
  | Some _ => (false, e)
  | None =>
      (true, mkExpireMap (<[key := value]> (data e))
               (if 0 <? ttl e then <[key := now + ttl e]> (expiration e) else delete key (expiration e))
               (ttl e))
  end.

(** [Get]: the section under the read lock yields the value and whether it has
    expired; an expired entry is removed in a second section. *)
Definition get_read (now : Z) (key : K) (e : ExpireMap K T) : option T * bool :=
  match data e !! key with
  | None => (None, false)
  | Some val => if expired now key e then (None, true) else (Some val, false)
  end.

Definition get_cleanup (key : K) (cleanup : bool) (e : ExpireMap K T) : ExpireMap K T :=
  if cleanup then Delete key e else e.

Definition Get (now : Z) (key : K) (e : ExpireMap K T) : option T * ExpireMap K T :=
  let '(val, cleanup) := get_read now key e in (val, get_cleanup key cleanup e).

(** One tick of [janitor]: every key whose deadline has passed is removed. *)
Definition janitor_tick (now : Z) (e : ExpireMap K T) : ExpireMap K T :=
  mkExpireMap (filter (λ kv, expired now kv.1 e = false) (data e))
              (filter (λ kv, expired now kv.1 e = false) (expiration e)) (ttl e).

(** The interval of the janitor's ticker. *)
Definition janitor_interval (ttl : Z) : Z :=
  let second := 10 ^ 9 in
  if 0 <? ttl then
    let d := ttl `quot` 4 in if (0 <? d) && (d <? second) then d else second
  else second.

(** ** What a client of the map can observe *)
Definition live (now : Z) (e : ExpireMap K T) (k : K) : option T :=
  if expired now k e then None else data e !! k.

(** Two maps that no client can tell apart from time [now] on. *)
Definition live_equiv (now : Z) (e1 e2 : ExpireMap K T) : Prop :=
  ttl e1 = ttl e2 ∧ ∀ now' k, now ≤ now' → live now' e1 k = live now' e2 k.

#[global] Instance live_equiv_equivalence now : Equivalence (live_equiv now).
Proof.
  split.
  - by split.
  - intros e1 e2 [Ht Hl]. split; [done|]. intros. symmetry. by apply Hl.
  - intros e1 e2 e3 [Ht Hl] [Ht' Hl']. split; [congruence|]. intros. rewrite Hl by done. by apply Hl'.
Qed.

Lemma live_equiv_mono now now' e1 e2 : now ≤ now' → live_equiv now e1 e2 → live_equiv now' e1 e2.
Proof. intros Hle [Ht Hl]. split; [done|]. intros. apply Hl. lia. Qed.

Lemma expired_mono now now' k e : now ≤ now' → expired now k e = true → expired now' k e = true.
Proof.
  unfold expired. destruct (expiration e !! k); [|done]. intros. bool_prop.
  apply andb_true_iff; split; apply Z.ltb_lt; lia.
Qed.

Lemma live_Set now now' k v e k' : 0 ≤ now →
  live now' (Set_ now k v e) k' =
    if decide (k = k') then (if (0 <? ttl e) && (now + ttl e <? now') then None else Some v)
    else live now' e k'.
Proof.
  intros Hnow. unfold live, expired, Set_; cbn [data expiration ttl].
  destruct (decide (k = k')) as [<-|Hne].
  - rewrite lookup_insert_eq. destruct (0 <? ttl e) eqn:Ht; bool_prop; cbn [andb].
    + rewrite (proj2 (Z.eqb_neq _ _)) by lia. rewrite lookup_insert_eq.
      by rewrite (proj2 (Z.ltb_lt 0 _)) by lia.
    + change (0 =? 0) with true. cbv iota. by rewrite lookup_delete_eq.
  - rewrite lookup_insert_ne by done.
    destruct (_ =? 0); [by rewrite lookup_delete_ne|by rewrite lookup_insert_ne].
Qed.

Lemma live_Delete now k e k' :
  live now (Delete k e) k' = if decide (k = k') then None else live now e k'.
Proof.
  unfold live, expired, Delete; cbn [data expiration ttl]. destruct (decide (k = k')) as [<-|Hne].
  - by rewrite !lookup_delete_eq.
  - by rewrite !lookup_delete_ne.
Qed.

Lemma live_Delete_expired now k e : expired now k e = true → live_equiv now (Delete k e) e.
Proof.
  intros Hexp. split; [done|]. intros now' k' Hle. rewrite live_Delete.
  destruct (decide (k = k')) as [<-|]; [|done].
  unfold live. by rewrite (expired_mono now now').
Qed.

Lemma live_janitor now e : live_equiv now (janitor_tick now e) e.
Proof.
  split; [done|]. intros now' k Hle. unfold live.
  destruct (expired now k e) eqn:Hexp.
  - rewrite (expired_mono now now' k e) by done. unfold expired at 1. simpl.
    rewrite map_lookup_filter_None_2; [|right; intros; simpl; congruence].
    apply map_lookup_filter_None_2. right. intros; simpl; congruence.
  - assert (data (janitor_tick now e) !! k = data e !! k) as ->.
    { simpl. destruct (data e !! k) eqn:E; [by apply map_lookup_filter_Some|].
      apply map_lookup_filter_None. by left. }
    assert (expiration (janitor_tick now e) !! k = expiration e !! k) as Hx.
    { simpl. destruct (expiration e !! k) eqn:E; [by apply map_lookup_filter_Some|].
      apply map_lookup_filter_None. by left. }
    unfold expired. by rewrite Hx.
Qed.

Lemma Get_live now k e : (Get now k e).1 = live now e k ∧ live_equiv now (Get now k e).2 e.
Proof.
  unfold Get, get_read, live. destruct (data e !! k) eqn:E; simpl.
  - destruct (expired now k e) eqn:Hx; simpl; [|done].
    split; [done|]. by apply live_Delete_expired.
  - by destruct (expired now k e).
Qed.

Lemma TrySetIfAbsent_live now k v e :
  0 ≤ now →
  match live now e k with
  | Some _ => (TrySetIfAbsent now k v e).1 = false ∧ live_equiv now (TrySetIfAbsent now k v e).2 e
  | None => (TrySetIfAbsent now k v e).1 = true
            ∧ live_equiv now (TrySetIfAbsent now k v e).2 (Set_ now k v e)
  end.
Proof.
  intros Hnow. unfold TrySetIfAbsent.
  set (e' := if expired now k e then Delete k e else e).
  assert (data e' !! k = live now e k) as Hd.
  { unfold e', live. destruct (expired now k e); [apply lookup_delete_eq|done]. }
  assert (live_equiv now e' e) as Heq.
  { unfold e'. destruct (expired now k e) eqn:Hx; [by apply live_Delete_expired|done]. }
  rewrite Hd. destruct (live now e k) as [w|]; [done|]. split; [done|].
  assert (ttl e' = ttl e) as Ht by apply Heq.
  split; [done|]. intros now' k' Hle. rewrite live_Set by done.
  destruct (decide (k = k')) as [<-|Hne].
  - unfold live, expired; cbn [fst snd data expiration ttl]. rewrite lookup_insert_eq, Ht.
    destruct (0 <? ttl e) eqn:Hpos; bool_prop; cbn [andb].
    + rewrite lookup_insert_eq. by rewrite (proj2 (Z.ltb_lt 0 _)) by lia.
    + by rewrite lookup_delete_eq.
  - rewrite <-(proj2 Heq now' k' Hle). unfold live, expired; cbn [fst snd data expiration ttl].
    rewrite lookup_insert_ne by done.
    destruct (0 <? ttl e'); [by rewrite lookup_insert_ne|by rewrite lookup_delete_ne].
Qed.

#[global] Instance Set_proper now k v : 0 ≤ now → Proper (live_equiv now ==> live_equiv now) (Set_ now k v).
Proof.
  intros Hnow e1 e2 [Ht Hl]. split; [done|]. intros now' k' Hle. rewrite !live_Set, Ht by done.
  destruct (decide (k = k')); [done|]. by apply Hl.
Qed.

#[global] Instance Delete_proper now k : Proper (live_equiv now ==> live_equiv now) (Delete k).
Proof.
  intros e1 e2 [Ht Hl]. split; [done|]. intros now' k' Hle. rewrite !live_Delete.
  destruct (decide (k = k')); [done|]. by apply Hl.
Qed.

(** ** Refinement: the map as its documentation describes it

    The specification keeps, for every key ever written and not deleted, its
    value and optional deadline, never cleans up, and answers a read from the
    entry and the clock. *)
Abbreviation spec_map := (gmap K (T * option Z)).

Definition spec_live (now : Z) (m : spec_map) (k : K) : option T :=
  match m !! k with
  | Some (v, Some deadline) => if deadline <? now then None else Some v
  | Some (v, None) => Some v
  | None => None
  end.

Definition spec_deadline (ttl now : Z) : option Z := if 0 <? ttl then Some (now + ttl) else None.

Inductive op :=
| OpSet (k : K) (v : T)
| OpTrySet (k : K) (v : T)
| OpGet (k : K)
| OpDelete (k : K)
| OpJanitor.

Inductive obs := ObsUnit | ObsBool (b : bool) | ObsValue (v : option T).

Definition exec (now : Z) (o : op) (e : ExpireMap K T) : obs * ExpireMap K T :=
  match o with
  | OpSet k v => (ObsUnit, Set_ now k v e)
  | OpTrySet k v => let '(b, e') := TrySetIfAbsent now k v e in (ObsBool b, e')
  | OpGet k => let '(v, e') := Get now k e in (ObsValue v, e')
  | OpDelete k => (ObsUnit, Delete k e)
  | OpJanitor => (ObsUnit, janitor_tick now e)
  end.

Definition spec_exec (ttl now : Z) (o : op) (m : spec_map) : obs * spec_map :=
  match o with
  | OpSet k v => (ObsUnit, <[k := (v, spec_deadline ttl now)]> m)
  | OpTrySet k v =>
      match spec_live now m k with
      | Some _ => (ObsBool false, m)
      | None => (ObsBool true, <[k := (v, spec_deadline ttl now)]> m)
      end
  | OpGet k => (ObsValue (spec_live now m k), m)
  | OpDelete k => (ObsUnit, delete k m)
  | OpJanitor => (ObsUnit, m)
  end.

Fixpoint run {S} (step : Z → op → S → obs * S) (tr : list (Z * op)) (s : S) : list obs * S :=
  match tr with
  | [] => ([], s)
  | (now, o) :: tr' =>
      let '(ob, s') := step now o s in
      let '(obs, s'') := run step tr' s' in (ob :: obs, s'')
  end.

(** The clock readings of a trace: from [now] on, never going back. *)
Fixpoint clocked (now : Z) (tr : list (Z * op)) : Prop :=
  match tr with [] => True | (t, _) :: tr' => now ≤ t ∧ clocked t tr' end.

Definition refines (t now : Z) (e : ExpireMap K T) (m : spec_map) : Prop :=
  ttl e = t ∧ ∀ now' k, now ≤ now' → live now' e k = spec_live now' m k.

Lemma refines_equiv t now e e' m : live_equiv now e' e → refines t now e m → refines t now e' m.
Proof. intros [Ht Hl] [Ht' Hr]. split; [congruence|]. intros. rewrite Hl by done. by apply Hr. Qed.

Lemma refines_Set t now e m k v :
  0 ≤ now → refines t now e m → refines t now (Set_ now k v e) (<[k := (v, spec_deadline t now)]> m).
Proof.
  intros Hnow [Ht Hr]. split; [done|]. intros now' k' Hle. rewrite live_Set by done.
  unfold spec_live. destruct (decide (k = k')) as [<-|Hne].
  - rewrite lookup_insert_eq, Ht. unfold spec_deadline. by destruct (0 <? t).
  - rewrite lookup_insert_ne by done. by apply Hr.
Qed.

Lemma exec_refines t now o e m :
  0 ≤ now → refines t now e m →
  (exec now o e).1 = (spec_exec t now o m).1 ∧ refines t now (exec now o e).2 (spec_exec t now o m).2.
Proof.
  intros Hnow Hr. destruct o as [k v|k v|k|k|]; cbn [exec spec_exec].
  - split; [done|]. by apply refines_Set.
  - pose proof (TrySetIfAbsent_live now k v e Hnow) as Htry.
    rewrite <-(proj2 Hr now k) by lia.
    destruct (TrySetIfAbsent now k v e) as [b e'], (live now e k); simpl in *;
      destruct Htry as [-> Heq]; (split; [done|]); (eapply refines_equiv; [exact Heq|]); [done|].
    by apply refines_Set.
  - destruct (Get_live now k e) as [Hv Heq]. destruct (Get now k e) as [w e']; simpl in *.
    rewrite <-(proj2 Hr now k) by lia. split; [by f_equal|]. by eapply refines_equiv.
  - split; [done|]. split; [apply Hr|]. intros now' k' Hle. simpl. rewrite live_Delete.
    unfold spec_live. destruct (decide (k = k')) as [<-|Hne].
    + by rewrite lookup_delete_eq.
    + rewrite lookup_delete_ne by done. by apply Hr.
  - split; [done|]. eapply refines_equiv, Hr. apply live_janitor.
Qed.

Lemma run_refines t tr now e m :
  0 ≤ now → clocked now tr → refines t now e m →
  (run exec tr e).1 = (run (spec_exec t) tr m).1.
Proof.
  revert now e m. induction tr as [|[t' o] tr IH]; intros now e m Hnow Hc Hr; [done|].
  destruct Hc as [Hle Hc]. cbn [run].
  assert (Hr' : refines t t' e m).
  { split; [apply Hr|]. intros. apply Hr. lia. }
  destruct (exec_refines t t' o e m ltac:(lia) Hr') as [Ho Hs].
  destruct (exec t' o e) as [ob e'], (spec_exec t t' o m) as [ob' m']; simpl in *. subst ob'.
  specialize (IH t' e' m' ltac:(lia) Hc Hs).
  destruct (run exec tr e'), (run (spec_exec t) tr m'); simpl in *. congruence.
Qed.

End ExpireMap.



(** [Get] is not atomic: when goroutine A finds an expired entry
    under its read lock and goroutine B stores a fresh value under the same key
    before A takes the write lock, A's clean-up deletes B's value; run one after
    the other, in either order of A's [Get] and B's [Set], the value survives. *)
Theorem Get_cleanup_loses_fresh_write `{Countable K} {T} (e : ExpireMap K T) (now : Z) (key : K) (old v : T) :
  0 ≤ now → 0 < ttl e → data e !! key = Some old → expired now key e = true →
  let cleanup := (get_read now key e).2 in
  live now (Set_ now key v e) key = Some v
  ∧ (∀ now', live now' (get_cleanup key cleanup (Set_ now key v e)) key = None)
  ∧ live now (Set_ now key v (Get now key e).2) key = Some v
  ∧ live now (Get now key (Set_ now key v e)).2 key = Some v.
Proof.
  intros Hnow Ht Hd Hx. cbv zeta.
  assert (Hset : ∀ e', ttl e' = ttl e → live now (Set_ now key v e') key = Some v).
  { intros e' E. rewrite live_Set, decide_True by done.
    by rewrite (proj2 (Z.ltb_ge (now + ttl e') now)), andb_false_r by lia. }
  split_and!.
  - by apply Hset.
  - intros now'. unfold get_read, get_cleanup. rewrite Hd, Hx; simpl. rewrite live_Delete.
    by rewrite decide_True.
  - apply Hset. apply Get_live.
  - rewrite (proj2 (proj2 (Get_live now key (Set_ now key v e)))) by lia. by apply Hset.
Qed.

Lemma Get_cleanup_loses_fresh_write_witness :
  let e := Set_ 1 "k" 1 (NewExpireMap 10) in
  let cleanup := (get_read 20 "k" e).2 in
  live 20 (Set_ 20 "k" 2 e) "k" = Some 2
  ∧ (∀ now', live now' (get_cleanup "k" cleanup (Set_ 20 "k" 2 e)) "k" = None)
  ∧ live 20 (Set_ 20 "k" 2 (Get 20 "k" e).2) "k" = Some 2
  ∧ live 20 (Get 20 "k" (Set_ 20 "k" 2 e)).2 "k" = Some 2.
Proof.
  apply (Get_cleanup_loses_fresh_write (Set_ 1 "k" 1 (NewExpireMap 10)) 20 "k" 1 2);
    [lia|reflexivity|reflexivity|reflexivity].
Defined.
