(* ===== verification/Network.v ===== *)
(** * Virtual networks and address allocation: [control/ip.go] and
    [control/network.go].

    [NetworkControl] owns the virtual networks (one per network key) and the
    expiring session tables.  Every handler holds the mutex of
    [VirtualNetwork] while it reads or writes a network, so each function below
    is one atomic step; [now] is the clock reading (nanoseconds since the Unix
    epoch) used throughout the step. *)
From S2P Require Import Prelude GoString NetIP NetParse Proto ExpireMap.

Definition unix (now : Z) : Z := now / 10 ^ 9.
Definition unix_milli (now : Z) : Z := now / 10 ^ 6.
Definition second : Z := 10 ^ 9.
Definition minute : Z := 60 * second.
Definition hour : Z := 60 * minute.

(** ** [ip.go] *)
Definition personalNetworkPrefix : string := "personal:".
Definition groupNetworkPrefix : string := "group:".
Definition personalUserIDPrefix : string := "sdl-".

(** A [net.Addr] is represented by its text; [None] is nil. *)
Abbreviation Addr := (option string).

Record UDPAddr := { udp_ip : IP; udp_port : Z }.

Record ClientStatusInfo := {
  P2PList : list IP;
  PublicUDPEndpoints : list UDPAddr;
  LocalUDPEndpoints : list UDPAddr;
  UpStream : Z;
  DownStream : Z;
  IsCone : bool;
  PunchTriggerReason : string;
  RecoveryPunchTarget : Z;
  UpdateTime : Z;
  ExitNodeAdvertised : bool;
  ExitNodeLocalReady : bool
}.

Record ClientInfo := mkClientInfo {
  DeviceId : string;
  Name : string;
  UserID : string;
  NetworkKey : string;
  AuthGroup : string;
  NetworkScope : string;
  ControlOnline : bool;
  ControlLastSeen : Z;
  DataPlaneReachable : bool;
  DataPlaneLastSeen : Z;
  Version : string;
  Capabilities : list string;
  VirtualIp : Z;
  Address : Addr;
  DevicePubKey : list byte;
  OnlineKxPub : list byte;
  LastJoin : Z;
  ClientStatus : option ClientStatusInfo;
  PreferredChannelMode : Z
}.

(** The zero value of the struct: what a map lookup of an absent key yields. *)
Definition zeroClientInfo : ClientInfo :=
  {| DeviceId := ""; Name := ""; UserID := ""; NetworkKey := ""; AuthGroup := ""; NetworkScope := "";
     ControlOnline := false; ControlLastSeen := 0; DataPlaneReachable := false; DataPlaneLastSeen := 0;
     Version := ""; Capabilities := []; VirtualIp := 0; Address := None; DevicePubKey := [];
     OnlineKxPub := []; LastJoin := 0; ClientStatus := None; PreferredChannelMode := CHANNEL_MODE_AUTO |}.

Record NetworkIdentity := mkNetworkIdentity { Key : string; authGroup : string; Scope : string }.

Definition zeroNetworkIdentity : NetworkIdentity := mkNetworkIdentity "" "" "".

Definition isPersonalSDLUser (userID : string) : bool :=
  HasPrefix (TrimSpace userID) personalUserIDPrefix.

Definition NewNetworkIdentity (authGroup userID : string) : NetworkIdentity :=
  let authGroup := TrimSpace authGroup in
  let userID := TrimSpace userID in
  if isPersonalSDLUser userID then
    let scope := personalNetworkPrefix +:+ userID in
    mkNetworkIdentity (scope +:+ "@" +:+ authGroup) authGroup scope
  else mkNetworkIdentity authGroup authGroup (groupNetworkPrefix +:+ authGroup).

Definition NetworkIdentityFromClient (client : ClientInfo) (fallbackNetworkKey : string) : NetworkIdentity :=
  let authGroup := TrimSpace (AuthGroup client) in
  let authGroup := if bool_decide (authGroup = "") then TrimSpace fallbackNetworkKey else authGroup in
  let key := TrimSpace (NetworkKey client) in
  let key := if bool_decide (key = "") then TrimSpace fallbackNetworkKey else key in
  let scope := TrimSpace (NetworkScope client) in
  let scope := if bool_decide (scope = "") then Scope (NewNetworkIdentity authGroup (UserID client)) else scope in
  mkNetworkIdentity key authGroup scope.

Definition IsZero (n : NetworkIdentity) : bool := bool_decide (TrimSpace (Key n) = "").

Definition networkScopeForAuth (groupName userID : string) : string := Scope (NewNetworkIdentity groupName userID).
Definition clientAuthGroup (client : ClientInfo) (fallback : string) : string :=
  authGroup (NetworkIdentityFromClient client fallback).
Definition clientNetworkKey (client : ClientInfo) (fallback : string) : string :=
  Key (NetworkIdentityFromClient client fallback).
Definition clientNetworkScope (client : ClientInfo) (fallbackGroup : string) : string :=
  Scope (NetworkIdentityFromClient client fallbackGroup).

Record NetworkInfo := mkNetworkInfo {
  Group : string;
  Netmask : list byte;
  Gateway : IP;
  Epoch : Z;
  Clients : gmap Z ClientInfo;
  ClientIPsByDeviceID : gmap string Z;
  ReservedIPs : gmap Z string
}.

Definition NewNetworkInfo (group : string) (netmask : list byte) (gateway : IP) (reservedIPs : gmap Z string)
    : NetworkInfo :=
  mkNetworkInfo group netmask gateway 0 ∅ ∅ reservedIPs.

(** The index after the device that held [ip] before, if another one, lost it. *)
Definition evict_index (ip : Z) (client : ClientInfo) (n : NetworkInfo) : gmap string Z :=
  match Clients n !! ip with
  | Some existing =>
      if bool_decide (DeviceId existing ≠ "") && bool_decide (DeviceId existing ≠ DeviceId client)
         && bool_decide (ClientIPsByDeviceID n !! DeviceId existing = Some ip)
      then delete (DeviceId existing) (ClientIPsByDeviceID n) else ClientIPsByDeviceID n
  | None => ClientIPsByDeviceID n
  end.

Definition UpsertClient (ip : Z) (client : ClientInfo) (n : NetworkInfo) : NetworkInfo :=
  let index := evict_index ip client n in
  n <| Clients := <[ip := client]> (Clients n) |>
    <| ClientIPsByDeviceID :=
         if bool_decide (DeviceId client ≠ "") then <[DeviceId client := ip]> index else index |>.

Definition DeleteClient (ip : Z) (n : NetworkInfo) : NetworkInfo :=
  match Clients n !! ip with
  | None => n
  | Some client =>
      n <| Clients := delete ip (Clients n) |>
        <| ClientIPsByDeviceID :=
             if bool_decide (DeviceId client ≠ "")
                && bool_decide (ClientIPsByDeviceID n !! DeviceId client = Some ip)
             then delete (DeviceId client) (ClientIPsByDeviceID n) else ClientIPsByDeviceID n |>
  end.

Definition FindClientIPByDeviceID (n : NetworkInfo) (deviceID : string) : Z :=
  if bool_decide (deviceID = "") then 0 else default 0 (ClientIPsByDeviceID n !! deviceID).

(** ** [network.go]: state *)
Inductive PunchSessionState :=
| PunchSessionScheduled | PunchSessionSending | PunchSessionWaiting
| PunchSessionSuccess | PunchSessionFailed | PunchSessionTimeout.

#[export] Instance PunchSessionState_eq_dec : EqDecision PunchSessionState.
Proof. solve_decision. Defined.

Record PunchSession := mkPunchSession {
  SessionID : Z;
  Source : Z;
  Target : Z;
  Attempt : Z;
  AttemptBudget : Z;
  DeadlineUnixMs : Z;
  TriggerReason : string;
  SelectionPolicy : string;
  State : PunchSessionState;
  RequestedAt : Z;
  LastReason : string;
  RelayFallback : bool;
  Ack : gmap Z bool;
  Results : gmap Z PunchResult
}.

Record PunchRetryState := mkPunchRetryState { RetryAttempt : Z; NextAllowedUnixMs : Z }.

(** The key of an address lease: network and dotted-decimal address. *)
Abbreviation IpSessionKey := (string * string)%type.
Definition NewIpSessionKey (id : string) (ip : IP) : IpSessionKey := (id, ip4_string ip).

Record NetworkControl := mkNetworkControl {
  VirtualNetwork : ExpireMap string NetworkInfo;
  IPSessions : ExpireMap IpSessionKey Addr;
  CipherSessions : ExpireMap string unit;
  PunchSessions : ExpireMap string PunchSession;
  PunchPairCooldown : ExpireMap string unit;
  ManualPunchPairDedup : ExpireMap string unit;
  PunchPairRetry : ExpireMap string PunchRetryState
}.

(** [nc.VirtualNetwork.data] is read and written directly, bypassing the
    expiring map's operations. *)
Definition networks (nc : NetworkControl) : gmap string NetworkInfo := data (VirtualNetwork nc).
Definition set_networks (m : gmap string NetworkInfo) (nc : NetworkControl) : NetworkControl :=
  nc <| VirtualNetwork := mkExpireMap m (expiration (VirtualNetwork nc)) (ttl (VirtualNetwork nc)) |>.
Definition set_network (key : string) (n : NetworkInfo) (nc : NetworkControl) : NetworkControl :=
  set_networks (<[key := n]> (networks nc)) nc.

(** Visit the elements in order until the visitor says stop. *)
Fixpoint visit_until {A S} (visit : A → S → S * bool) (l : list A) (s : S) : S :=
  match l with
  | [] => s
  | a :: l' => let '(s', continue) := visit a s in if continue then visit_until visit l' s' else s'
  end.

Definition forEachVirtualNetworkRead {S} (o : RangeOrder) (nc : NetworkControl) (networkKey : string)
    (visit : string → NetworkInfo → S → S * bool) (s : S) : S :=
  let networkKey := TrimSpace networkKey in
  visit_until (λ '(key, network) s,
      if bool_decide (networkKey ≠ "") && bool_decide (key ≠ networkKey) then (s, true)
      else visit key network s)
    (range o (networks nc)) s.

(** ** Address allocation *)

(** [first] and [last] usable addresses of the subnet, in [uint32] arithmetic. *)
Definition network_ip (gateway : IP) (netmask : list byte) : Z :=
  Z.land (IpToUint32 gateway) (MaskToUint32 netmask).
Definition broadcast_ip (gateway : IP) (netmask : list byte) : Z :=
  Z.lor (network_ip gateway netmask) (not32 (MaskToUint32 netmask)).
Definition first_ip (gateway : IP) (netmask : list byte) : Z := u32 (network_ip gateway netmask + 1).
Definition last_ip (gateway : IP) (netmask : list byte) : Z := u32 (broadcast_ip gateway netmask - 1).

Definition validateRequestedIP (virtualIP : Z) (gateway : IP) (netmask : list byte) : option string :=
  let requested := Uint32ToIP virtualIP in
  if IP_Equal gateway requested then Some "client requested virtual ip is gateway ip" else
  let first := first_ip gateway netmask in
  let last := last_ip gateway netmask in
  if (virtualIP <? first) || (last <? virtualIP)
  then Some ("virtual ip " +:+ ip4_string requested +:+ " out of network range") else None.

(** The scan for a free address: [ips] are the candidates still to try. *)
Fixpoint scan_free_ip (now gatewayIP : Z) (ips : list Z) (sessions : ExpireMap IpSessionKey Addr)
    (network : NetworkInfo) : ExpireMap IpSessionKey Addr * NetworkInfo * option Z :=
  match ips with
  | [] => (sessions, network, None)
  | ip :: ips' =>
      if ip =? gatewayIP then scan_free_ip now gatewayIP ips' sessions network else
      if bool_decide (is_Some (ReservedIPs network !! ip))
      then scan_free_ip now gatewayIP ips' sessions network else
      let key := NewIpSessionKey (Group network) (Uint32ToIP ip) in
      let try_lease sessions network :=
        let '(occupied, sessions) := Get now key sessions in
        match occupied with
        | None => (Set_ now key (Some (ip4_string (Uint32ToIP ip))) sessions, network, Some ip)
        | Some _ => scan_free_ip now gatewayIP ips' sessions network
        end in
      match Clients network !! ip with
      | Some client =>
          if ControlOnline client then scan_free_ip now gatewayIP ips' sessions network else
          let '(reserved, sessions) := Get now key sessions in
          match reserved with
          | None => try_lease sessions (DeleteClient ip network)
          | Some _ => scan_free_ip now gatewayIP ips' sessions network
          end
      | None => try_lease sessions network
      end
  end.

Definition errNoIP : string := "no available virtual ips".

(** [generateIP]: the chosen address, the device's previous address (0 for none)
    or an error, and the changed tables. *)
Definition generateIP (now : Z) (sessions : ExpireMap IpSessionKey Addr) (network : NetworkInfo)
    (requestedIP : Z) (deviceID : string) (allowIPChange : bool)
    : ExpireMap IpSessionKey Addr * NetworkInfo * (Z * Z * option string) :=
  let oldIP := FindClientIPByDeviceID network deviceID in
  let requested : result Z :=
    if requestedIP =? 0 then Ok 0 else
    match validateRequestedIP requestedIP (Gateway network) (Netmask network) with
    | Some e => Err e
    | None =>
        match Clients network !! requestedIP with
        | Some current =>
            if bool_decide (DeviceId current ≠ deviceID) then
              if allowIPChange then Ok 0
              else Err ("virtual ip " +:+ ip4_string (Uint32ToIP requestedIP) +:+ " already in use")
            else Ok requestedIP
        | None => Ok requestedIP
        end
    end in
  match requested with
  | Err e => (sessions, network, (0, oldIP, Some e))
  | Ok requestedIP =>
      if negb (requestedIP =? 0) then (sessions, network, (requestedIP, oldIP, None)) else
      if negb (oldIP =? 0) then (sessions, network, (oldIP, oldIP, None)) else
      let gatewayIP := IpToUint32 (Gateway network) in
      let first := first_ip (Gateway network) (Netmask network) in
      let last := last_ip (Gateway network) (Netmask network) in
      if last <? first then (sessions, network, (0, 0, Some errNoIP)) else
      match scan_free_ip now gatewayIP (seqZ first (last - first + 1)) sessions network with
      | (sessions, network, Some ip) => (sessions, network, (ip, 0, None))
      | (sessions, network, None) => (sessions, network, (0, 0, Some errNoIP))
      end
  end.

(** ** Presence: touching and leaving *)

(** Update the first network (in [range] order) of the given key, or of any key
    when [networkKey] is blank, on which [f] succeeds. *)
Fixpoint update_first {R} (networkKey : string) (f : NetworkInfo → option (NetworkInfo * R))
    (l : list (string * NetworkInfo)) (nc : NetworkControl) : NetworkControl * option R :=
  match l with
  | [] => (nc, None)
  | (key, network) :: l' =>
      if bool_decide (TrimSpace networkKey ≠ "") && bool_decide (key ≠ networkKey)
      then update_first networkKey f l' nc else
      match f network with
      | Some (network', r) => (set_network key network' nc, Some r)
      | None => update_first networkKey f l' nc
      end
  end.

Definition touch_client (now : Z) (client : ClientInfo) : ClientInfo :=
  client <| ControlOnline := true |> <| ControlLastSeen := unix now |>.

Definition TouchClientByIPInNetwork (o : RangeOrder) (now : Z) (networkKey : string) (srcIP : IP)
    (nc : NetworkControl) : NetworkControl * Z :=
  let ip := IpToUint32 srcIP in
  let '(nc, r) :=
    update_first networkKey (λ network,
      client ← Clients network !! ip;
      Some (UpsertClient ip (touch_client now client) network, u16 (Epoch network)))
    (range o (networks nc)) nc in
  (nc, default 0 r).

Definition TouchClientByIP o now srcIP nc := TouchClientByIPInNetwork o now "" srcIP nc.

Definition TouchCipherSession (now : Z) (remoteAddr : Addr) (nc : NetworkControl) : NetworkControl :=
  match remoteAddr with
  | None => nc
  | Some addr => nc <| CipherSessions := Set_ now addr tt (CipherSessions nc) |>
  end.

(** The client record of a device that went offline. *)
Definition offline_client (now : Z) (client : ClientInfo) : ClientInfo :=
  client <| ControlOnline := false |> <| ControlLastSeen := unix now |>
         <| DataPlaneReachable := false |> <| DataPlaneLastSeen := 0 |>
         <| ClientStatus := None |> <| PreferredChannelMode := CHANNEL_MODE_AUTO |>.

Definition bump_epoch (n : NetworkInfo) : NetworkInfo := n <| Epoch := u64 (Epoch n + 1) |>.

(** The body of the loop over a network's clients, and over the networks, of
    [LeaveByRemoteAddr], [clearStaleClientStateByDeviceID] and the other sweeps:
    [change] says what happens to one client and to the address leases. *)
Definition sweep_client (change : ClientInfo → Z → ExpireMap IpSessionKey Addr → NetworkInfo →
      option (ExpireMap IpSessionKey Addr * NetworkInfo))
    (acc : ExpireMap IpSessionKey Addr * NetworkInfo * bool) (entry : Z * ClientInfo)
    : ExpireMap IpSessionKey Addr * NetworkInfo * bool :=
  let '(sessions, network, changed) := acc in
  match change entry.2 entry.1 sessions network with
  | Some (sessions, network) => (sessions, network, true)
  | None => acc
  end.

Definition sweep_network (o : RangeOrder)
    (change : ClientInfo → Z → ExpireMap IpSessionKey Addr → NetworkInfo →
      option (ExpireMap IpSessionKey Addr * NetworkInfo))
    (sessions : ExpireMap IpSessionKey Addr) (network : NetworkInfo)
    : ExpireMap IpSessionKey Addr * NetworkInfo :=
  let '(sessions, network, changed) :=
    foldl (sweep_client change) (sessions, network, false) (range o (Clients network)) in
  (sessions, if changed then bump_epoch network else network).

Definition sweep_networks (o : RangeOrder)
    (change : string → ClientInfo → Z → ExpireMap IpSessionKey Addr → NetworkInfo →
      option (ExpireMap IpSessionKey Addr * NetworkInfo)) (nc : NetworkControl) : NetworkControl :=
  foldl (λ nc '(key, network),
      let '(sessions, network) := sweep_network o (change key) (IPSessions nc) network in
      set_network key network (nc <| IPSessions := sessions |>))
    nc (range o (networks nc)).

Definition LeaveByRemoteAddr (o : RangeOrder) (now : Z) (remoteAddr : Addr) (nc : NetworkControl)
    : NetworkControl :=
  match remoteAddr with
  | None => nc
  | Some addr =>
      let nc := nc <| CipherSessions := Delete addr (CipherSessions nc) |> in
      sweep_networks o (λ _ client ip sessions network,
        if bool_decide (Address client ≠ Some addr) || negb (ControlOnline client) then None else
        Some (Set_ now (NewIpSessionKey (Group network) (Uint32ToIP ip)) remoteAddr sessions,
              UpsertClient ip (offline_client now client) network)) nc
  end.

(** ** Queries *)
Definition parseNetmask (netmask : string) : result (list byte) :=
  let ip := ParseIP netmask in
  if bool_decide (ip = []) || bool_decide (To4 ip = [])
  then Err ("invalid netmask " +:+ Quote netmask) else Ok (To4 ip).

(** [exit_node.go]: what a client's last status report says. *)
Definition clientExitNodeAdvertised (client : ClientInfo) : bool :=
  match ClientStatus client with Some s => ExitNodeAdvertised s | None => false end.
Definition clientExitNodeLocalReady (client : ClientInfo) : bool :=
  match ClientStatus client with Some s => ExitNodeLocalReady s | None => false end.
Definition clientExitNodeUsable (client : ClientInfo) : bool :=
  ControlOnline client && clientExitNodeAdvertised client && clientExitNodeLocalReady client.

Definition device_info (ip : Z) (info : ClientInfo) : DeviceInfo :=
  {| di_name := Name info; di_virtual_ip := ip;
     di_device_status := if ControlOnline info then 0 else 1;
     di_device_id := DeviceId info; di_device_pub_key := DevicePubKey info;
     di_online_kx_pub := OnlineKxPub info;
     di_preferred_channel_mode := PreferredChannelMode info;
     di_exit_node_advertised := clientExitNodeAdvertised info;
     di_exit_node_approved := false; di_exit_node_usable := false |}.

Definition buildDeviceInfoList (o : RangeOrder) (clients : gmap Z ClientInfo) (selfIP : Z) : list DeviceInfo :=
  match clients !! selfIP with
  | None => []
  | Some self =>
      let selfScope := clientNetworkScope self "" in
      omap (λ '(ip, info),
          if bool_decide (ip = selfIP) then None
          else if bool_decide (clientNetworkScope info "" ≠ selfScope) then None
          else Some (device_info ip info))
        (range o clients)
  end.

Definition DeviceListByIPInNetwork (o o' : RangeOrder) (nc : NetworkControl) (networkKey : string) (selfIP : Z)
    : option DeviceList :=
  forEachVirtualNetworkRead o nc networkKey (λ _ network s,
    match Clients network !! selfIP with
    | None => (s, true)
    | Some _ =>
        (Some {| dl_epoch := u32 (Epoch network);
                 dl_device_info_list := buildDeviceInfoList o' (Clients network) selfIP;
                 dl_gateway_access_grants := []; dl_gateway_policy_rev := 0 |}, false)
    end) None.

Definition DeviceListByIP o o' nc selfIP := DeviceListByIPInNetwork o o' nc "" selfIP.

Definition FindClientByVirtualIPInNetwork (o : RangeOrder) (nc : NetworkControl) (networkKey : string)
    (virtualIP : Z) : option ClientInfo :=
  forEachVirtualNetworkRead o nc networkKey (λ _ network s,
    match Clients network !! virtualIP with Some c => (Some c, false) | None => (s, true) end) None.

Definition FindClientByVirtualIP o nc virtualIP := FindClientByVirtualIPInNetwork o nc "" virtualIP.

Definition clientOwnsVirtualIPInNetwork (o : RangeOrder) (nc : NetworkControl) (networkKey : string)
    (virtualIP : Z) (deviceID : string) : bool :=
  forEachVirtualNetworkRead o nc networkKey (λ _ network s,
    match Clients network !! virtualIP with
    | Some client => (bool_decide (DeviceId client = deviceID), false)
    | None => (s, true)
    end) false.

Definition clientOwnsVirtualIP o nc virtualIP deviceID := clientOwnsVirtualIPInNetwork o nc "" virtualIP deviceID.

Definition FindClientByDeviceID `{UnicodeFold} (o o' : RangeOrder) (nc : NetworkControl)
    (groupName deviceID : string) : option ClientInfo :=
  match networks nc !! groupName with
  | None =>
      list_find (λ '(g, client),
          DeviceId client = deviceID ∧ EqualFold (clientAuthGroup client g) groupName = true)
        ('(_, network) ← range o (networks nc); (λ '(_, c), (Group network, c)) <$> range o' (Clients network))
      ≫= λ r, Some r.2.2
  | Some network =>
      let virtualIP := FindClientIPByDeviceID network deviceID in
      let by_index := if negb (virtualIP =? 0) then Clients network !! virtualIP else None in
      match by_index with
      | Some client => Some client
      | None => r ← list_find (λ '(_, client), DeviceId client = deviceID) (range o' (Clients network)); Some r.2.2
      end
  end.

Definition UpdateClientByVirtualIPInNetwork (o : RangeOrder) (networkKey : string) (virtualIP : Z)
    (update : ClientInfo → ClientInfo) (nc : NetworkControl) : NetworkControl * bool :=
  let '(nc, r) :=
    update_first networkKey (λ network,
      client ← Clients network !! virtualIP;
      Some (UpsertClient virtualIP (update client) network, tt))
    (range o (networks nc)) nc in
  (nc, bool_decide (is_Some r)).

Definition UpdateClientByVirtualIP o virtualIP update nc :=
  UpdateClientByVirtualIPInNetwork o "" virtualIP update nc.
