(* ===== verification/NetworkInv.v ===== *)
(** * Invariants of a virtual network and correctness of address allocation.

    [wf_network] says that the device index is the exact inverse of the client
    table (so a device has at most one address) and that every client sits on a
    usable address of the subnet.  [scan_free_ip] is shown to pick the least
    free address. *)
From S2P Require Import Prelude GoString NetIP NetParse Proto ExpireMap Network.

Implicit Types (n : NetworkInfo) (c : ClientInfo) (ip : Z) (s : ExpireMap IpSessionKey Addr).

(** An address a client may hold. *)
Definition usable (n : NetworkInfo) (ip : Z) : Prop :=
  first_ip (Gateway n) (Netmask n) ≤ ip ≤ last_ip (Gateway n) (Netmask n)
  ∧ ip ≠ IpToUint32 (Gateway n).

Record wf_network (n : NetworkInfo) : Prop := {
  wf_subnet : 0 < first_ip (Gateway n) (Netmask n);
  wf_index : ∀ dev ip, ClientIPsByDeviceID n !! dev = Some ip →
    dev ≠ "" ∧ ∃ c, Clients n !! ip = Some c ∧ DeviceId c = dev;
  wf_clients : ∀ ip c, Clients n !! ip = Some c → DeviceId c ≠ "" →
    ClientIPsByDeviceID n !! DeviceId c = Some ip;
  wf_usable : ∀ ip c, Clients n !! ip = Some c → usable n ip
}.

Lemma usable_positive n ip : wf_network n → usable n ip → 0 < ip.
Proof. intros Hwf [Hr _]. pose proof (wf_subnet n Hwf). lia. Qed.

Lemma wf_NewNetworkInfo group netmask gateway reserved :
  0 < first_ip gateway netmask → wf_network (NewNetworkInfo group netmask gateway reserved).
Proof.
  intros H. split; simpl; [done|..]; intros ? ?; rewrite lookup_empty; done.
Qed.

(** ** Client table updates *)
Lemma Clients_Upsert ip c n : Clients (UpsertClient ip c n) = <[ip := c]> (Clients n).
Proof. done. Qed.

Lemma Clients_Delete ip n : Clients (DeleteClient ip n) = delete ip (Clients n).
Proof.
  unfold DeleteClient. destruct (Clients n !! ip) eqn:E; [done|].
  by rewrite delete_id.
Qed.

Lemma frame_Upsert ip c n :
  Gateway (UpsertClient ip c n) = Gateway n ∧ Netmask (UpsertClient ip c n) = Netmask n
  ∧ Group (UpsertClient ip c n) = Group n ∧ ReservedIPs (UpsertClient ip c n) = ReservedIPs n
  ∧ Epoch (UpsertClient ip c n) = Epoch n.
Proof. done. Qed.

Lemma frame_Delete ip n :
  Gateway (DeleteClient ip n) = Gateway n ∧ Netmask (DeleteClient ip n) = Netmask n
  ∧ Group (DeleteClient ip n) = Group n ∧ ReservedIPs (DeleteClient ip n) = ReservedIPs n
  ∧ Epoch (DeleteClient ip n) = Epoch n.
Proof. unfold DeleteClient. by destruct (Clients n !! ip). Qed.

Lemma usable_Delete ip ip' n : usable (DeleteClient ip n) ip' ↔ usable n ip'.
Proof. unfold usable. by destruct (frame_Delete ip n) as (-> & -> & _). Qed.

(** The index after an insertion that evicts nobody else's entry. *)
Lemma index_Upsert ip c n dev :
  wf_network n →
  ClientIPsByDeviceID (UpsertClient ip c n) !! dev =
    if bool_decide (DeviceId c ≠ "" ∧ dev = DeviceId c) then Some ip
    else if bool_decide (ClientIPsByDeviceID n !! dev = Some ip ∧ dev ≠ DeviceId c) then None
    else ClientIPsByDeviceID n !! dev.
Proof.
  intros Hwf. unfold UpsertClient; simpl. unfold const.
  assert (Hidx : dev ≠ DeviceId c →
    evict_index ip c n !! dev = if bool_decide (ClientIPsByDeviceID n !! dev = Some ip) then None
                   else ClientIPsByDeviceID n !! dev).
  { intros Hne. unfold evict_index. case_bool_decide as Hip.
    - destruct (wf_index n Hwf _ _ Hip) as (Hd & c0 & Hc0 & <-). rewrite Hc0.
      rewrite !bool_decide_eq_true_2 by done. simpl. by rewrite lookup_delete_eq.
    - destruct (Clients n !! ip) as [c0|] eqn:E; [|done].
      destruct (_ && _) eqn:Hb; [|done]. bool_prop.
      rewrite lookup_delete_ne; [done|]. congruence. }
  destruct (decide (DeviceId c = "")) as [He|He].
  - rewrite (bool_decide_eq_false_2 (DeviceId c ≠ "")) by (intros ?; done).
    rewrite (bool_decide_eq_false_2 (_ ∧ dev = _)) by tauto.
    destruct (decide (dev = DeviceId c)) as [->|Hne].
    + rewrite (bool_decide_eq_false_2 (_ ∧ DeviceId c ≠ _)) by tauto.
      unfold evict_index. destruct (Clients n !! ip); [|done].
      destruct (_ && _) eqn:Hb; [|done]. bool_prop. by rewrite lookup_delete_ne.
    + rewrite Hidx by done. do 2 case_bool_decide; tauto.
  - rewrite (bool_decide_eq_true_2 (DeviceId c ≠ "")) by done.
    destruct (decide (dev = DeviceId c)) as [->|Hne].
    + by rewrite lookup_insert_eq, bool_decide_eq_true_2.
    + rewrite lookup_insert_ne, Hidx by done.
      rewrite (bool_decide_eq_false_2 (_ ∧ dev = _)) by tauto.
      do 2 case_bool_decide; tauto.
Qed.

Lemma wf_UpsertClient ip c n :
  wf_network n → usable n ip →
  (∀ ip', ClientIPsByDeviceID n !! DeviceId c = Some ip' → ip' = ip) →
  wf_network (UpsertClient ip c n).
Proof.
  intros Hwf Hu Hfree. split.
  - apply (wf_subnet n Hwf).
  - intros dev ip'. rewrite index_Upsert, Clients_Upsert by done.
    case_bool_decide as H1; [intros [= <-]; destruct H1 as [? ->]|].
    { split; [done|]. exists c. by rewrite lookup_insert_eq. }
    case_bool_decide as H2; [done|]. intros Hi.
    destruct (wf_index n Hwf _ _ Hi) as (Hd & c0 & Hc0 & Hdev). split; [done|].
    assert (dev ≠ DeviceId c) by (intros ->; tauto).
    assert (ip' ≠ ip) by (intros ->; tauto).
    exists c0. by rewrite lookup_insert_ne.
  - intros ip' c'. rewrite Clients_Upsert, index_Upsert by done.
    destruct (decide (ip = ip')) as [<-|Hne].
    + rewrite lookup_insert_eq. intros [= <-] Hd. by rewrite bool_decide_eq_true_2.
    + rewrite lookup_insert_ne by done. intros Hc Hd. pose proof (wf_clients n Hwf _ _ Hc Hd) as Hi.
      rewrite bool_decide_eq_false_2.
      2:{ intros [_ E]. apply Hne. symmetry. apply Hfree. by rewrite <-E. }
      rewrite bool_decide_eq_false_2; [done|]. intros [E _]. congruence.
  - intros ip' c'. rewrite Clients_Upsert. destruct (decide (ip = ip')) as [<-|Hne]; [done|].
    rewrite lookup_insert_ne by done. apply (wf_usable n Hwf).
Qed.

(** Updating a client in place (same device) keeps the network well formed. *)
Lemma wf_UpsertClient_same ip c c' n :
  wf_network n → Clients n !! ip = Some c → DeviceId c' = DeviceId c →
  wf_network (UpsertClient ip c' n).
Proof.
  intros Hwf Hc Hd. apply wf_UpsertClient; [done|by eapply wf_usable|].
  rewrite Hd. intros ip' Hi. destruct (wf_index n Hwf _ _ Hi) as (Hne & c0 & Hc0 & E).
  pose proof (wf_clients n Hwf _ _ Hc Hne) as Hi'. congruence.
Qed.

Lemma wf_DeleteClient ip n : wf_network n → wf_network (DeleteClient ip n).
Proof.
  intros Hwf. destruct (frame_Delete ip n) as (Hg & Hm & _).
  assert (Hidx : ∀ dev, ClientIPsByDeviceID (DeleteClient ip n) !! dev =
    if bool_decide (ClientIPsByDeviceID n !! dev = Some ip) then None else ClientIPsByDeviceID n !! dev).
  { intros dev. unfold DeleteClient. case_bool_decide as Hi.
    - destruct (wf_index n Hwf _ _ Hi) as (Hd & c0 & Hc0 & <-). rewrite Hc0.
      cbn [ClientIPsByDeviceID]. rewrite !bool_decide_eq_true_2 by done. apply lookup_delete_eq.
    - destruct (Clients n !! ip) as [c0|] eqn:E; [|done]. simpl; unfold const.
      destruct (_ && _) eqn:Hb; [|done]. bool_prop. rewrite lookup_delete_ne; [done|]. congruence. }
  split.
  - rewrite Hg, Hm. apply (wf_subnet n Hwf).
  - intros dev ip'. rewrite Hidx, Clients_Delete. case_bool_decide as Hi; [done|]. intros Hi'.
    destruct (wf_index n Hwf _ _ Hi') as (Hd & c0 & Hc0 & E). split; [done|]. exists c0.
    rewrite lookup_delete_ne; [done|]. congruence.
  - intros ip' c. rewrite Clients_Delete, Hidx. rewrite lookup_delete_Some. intros [Hne Hc] Hd.
    rewrite (wf_clients n Hwf _ _ Hc Hd). rewrite bool_decide_eq_false_2; [done|]. congruence.
  - intros ip' c. rewrite Clients_Delete, lookup_delete_Some, usable_Delete. intros [_ Hc].
    by eapply wf_usable.
Qed.

Lemma wf_bump_epoch n : wf_network n → wf_network (bump_epoch n).
Proof. intros [? ? ? ?]. by split. Qed.

#[export] Hint Resolve wf_UpsertClient_same wf_DeleteClient wf_bump_epoch : sdl.

(** ** Address allocation *)
Definition lease_key (n : NetworkInfo) (ip : Z) : IpSessionKey := NewIpSessionKey (Group n) (Uint32ToIP ip).

(** An address the scan may hand out: not the gateway, not reserved for a
    service, not held by a client that is online, and without a live lease. *)
Definition free (now : Z) (s : ExpireMap IpSessionKey Addr) (n : NetworkInfo) (ip : Z) : Prop :=
  ip ≠ IpToUint32 (Gateway n) ∧ ReservedIPs n !! ip = None
  ∧ (∀ c, Clients n !! ip = Some c → ControlOnline c = false)
  ∧ live now s (lease_key n ip) = None.

Definition freeb (now : Z) (s : ExpireMap IpSessionKey Addr) (n : NetworkInfo) (ip : Z) : bool :=
  negb (ip =? IpToUint32 (Gateway n)) && bool_decide (ReservedIPs n !! ip = None)
  && match Clients n !! ip with Some c => negb (ControlOnline c) | None => true end
  && bool_decide (live now s (lease_key n ip) = None).

Lemma freeb_spec now s n ip : freeb now s n ip = true ↔ free now s n ip.
Proof.
  unfold freeb, free. rewrite !andb_true_iff, negb_true_iff, Z.eqb_neq, !bool_decide_eq_true.
  destruct (Clients n !! ip) as [c|] eqn:E.
  - rewrite negb_true_iff. split.
    + intros [[[? ?] ?] ?]. split_and!; try done. by intros ? [= <-].
    + intros (? & ? & Hc & ?). split_and!; try done. by apply Hc.
  - split; [intros [[[? ?] _] ?]; by split_and!|intros (? & ? & _ & ?); by split_and!].
Qed.

Lemma freeb_equiv now s s' n ip : live_equiv now s' s → freeb now s' n ip = freeb now s n ip.
Proof. intros [_ Hl]. unfold freeb. by rewrite Hl by lia. Qed.

(** The scan stops at the first free address, evicts its offline holder and
    leases it; otherwise it changes nothing a client can observe. *)
Definition scan_finds now (ips : list Z) s n (r : _ * NetworkInfo * option Z) : Prop :=
  match r with
  | (s', n', Some ip) =>
      ∃ l1 l2, ips = l1 ++ ip :: l2 ∧ Forall (λ i, freeb now s n i = false) l1
        ∧ freeb now s n ip = true ∧ n' = DeleteClient ip n
        ∧ ∃ s0, live_equiv now s0 s ∧ s' = Set_ now (lease_key n ip) (Some (ip4_string (Uint32ToIP ip))) s0
  | (s', n', None) => Forall (λ i, freeb now s n i = false) ips ∧ n' = n ∧ live_equiv now s' s
  end.

(** An address that is taken is passed over. *)
Lemma scan_skip now ip ips s s1 n r : live_equiv now s1 s → freeb now s n ip = false →
  scan_finds now ips s1 n r → scan_finds now (ip :: ips) s n r.
Proof.
  intros Heq Hf. assert (Hfb : ∀ i, freeb now s1 n i = freeb now s n i) by (intros; by apply freeb_equiv).
  destruct r as [[s' n'] [ip0|]].
  - intros (l1 & l2 & -> & Hl1 & Hip & -> & s0 & Hs0 & ->). exists (ip :: l1), l2. rewrite Hfb in Hip. split_and!; try done.
    + constructor; [done|]. eapply Forall_impl; [exact Hl1|]. intros i; cbv beta; by rewrite Hfb.
    + exists s0. split; [by etrans|done].
  - intros (Hall & -> & Hs'). split_and!; [|done|by etrans].
    constructor; [done|]. eapply Forall_impl; [exact Hall|]. intros i; cbv beta; by rewrite Hfb.
Qed.

(** A free address ends the scan. *)
Lemma scan_hit now ip ips s s0 n n0 : n0 = DeleteClient ip n → live_equiv now s0 s → freeb now s n ip = true →
  scan_finds now (ip :: ips) s n
    (Set_ now (lease_key n ip) (Some (ip4_string (Uint32ToIP ip))) s0, n0, Some ip).
Proof. intros -> ? ?. exists [], ips. split_and!; try done. by exists s0. Qed.

Lemma scan_free_ip_spec now ips s n : scan_finds now ips s n (scan_free_ip now (IpToUint32 (Gateway n)) ips s n).
Proof.
  revert s. induction ips as [|ip ips IH]; intros s; [by simpl|].
  cbn [scan_free_ip]. fold (lease_key n ip).
  destruct (ip =? IpToUint32 (Gateway n)) eqn:Hg.
  { eapply scan_skip, IH; [done|]. unfold freeb. by rewrite Hg. }
  case_bool_decide as Hr.
  { eapply scan_skip, IH; [done|]. unfold freeb. rewrite Hg, (bool_decide_eq_false_2 (ReservedIPs n !! ip = None)); [done|].
    by rewrite not_eq_None_Some. }
  rewrite <-eq_None_not_Some in Hr.
  destruct (Get_live now (lease_key n ip) s) as [Hv Heq].
  destruct (Get now (lease_key n ip) s) as [v s1] eqn:HG; simpl in Hv, Heq.
  assert (Hbusy : ∀ a, live now s (lease_key n ip) = Some a → freeb now s n ip = false).
  { intros a E. unfold freeb. rewrite E, (bool_decide_eq_false_2 (Some a = None)) by done. by rewrite andb_false_r. }
  assert (Hfree : ControlOnline <$> (Clients n !! ip) ≠ Some true → live now s (lease_key n ip) = None →
                  freeb now s n ip = true).
  { intros Hc E. apply freeb_spec. split_and!; try done; [by apply Z.eqb_neq|].
    intros c Hc'. rewrite Hc' in Hc. simpl in Hc. by destruct (ControlOnline c). }
  destruct (Clients n !! ip) as [c|] eqn:Hc.
  - destruct (ControlOnline c) eqn:Hon.
    { eapply scan_skip, IH; [done|]. unfold freeb. by rewrite Hc, Hon, andb_false_r. }
    destruct v as [a|]; [eapply scan_skip, IH; [done|by eapply Hbusy]|].
    destruct (Get_live now (lease_key n ip) s1) as [Hv1 Heq1].
    destruct (Get now (lease_key n ip) s1) as [v1 s2]; simpl in Hv1, Heq1.
    assert (v1 = None) as -> by (rewrite Hv1, (proj2 Heq) by lia; done).
    apply scan_hit; [done|by etrans|]. apply Hfree; [|done]. simpl. congruence.
  - destruct v as [a|]; [eapply scan_skip, IH; [done|by eapply Hbusy]|].
    apply scan_hit; [|done|by apply Hfree].
    unfold DeleteClient. by rewrite Hc.
Qed.

(** The candidates of the scan are exactly the addresses between the first and
    the last usable one, in increasing order. *)
Lemma elem_of_candidates n ip :
  first_ip (Gateway n) (Netmask n) ≤ last_ip (Gateway n) (Netmask n) →
  ip ∈ seqZ (first_ip (Gateway n) (Netmask n)) (last_ip (Gateway n) (Netmask n) - first_ip (Gateway n) (Netmask n) + 1)
  ↔ first_ip (Gateway n) (Netmask n) ≤ ip ≤ last_ip (Gateway n) (Netmask n).
Proof. intros ?. rewrite elem_of_seqZ. lia. Qed.

Lemma seqZ_prefix_lt m k l1 x l2 y : seqZ m k = l1 ++ x :: l2 → m ≤ y < x → y ∈ l1.
Proof.
  intros E Hy. set (i := length l1).
  assert (Hx : seqZ m k !! i = Some x).
  { rewrite E. unfold i. by rewrite list_lookup_middle. }
  apply lookup_seqZ in Hx as [-> Hi].
  assert (Hl : seqZ m k !! Z.to_nat (y - m) = Some y) by (apply lookup_seqZ; lia).
  rewrite E, lookup_app_l in Hl by (fold i; lia).
  by apply list_elem_of_lookup_2 in Hl.
Qed.

Lemma FindClientIP_nonzero n dev :
  wf_network n → FindClientIPByDeviceID n dev ≠ 0 →
  ∃ c, Clients n !! FindClientIPByDeviceID n dev = Some c ∧ DeviceId c = dev.
Proof.
  unfold FindClientIPByDeviceID. intros Hwf Hne. case_bool_decide; [done|].
  destruct (ClientIPsByDeviceID n !! dev) as [ip|] eqn:E; [|done]. simpl in *.
  by apply (wf_index n Hwf) in E as [_ ?].
Qed.

(** A positive address is found exactly for the devices that have a client. *)
Lemma FindClientIP_zero n dev ip c :
  wf_network n → dev ≠ "" → Clients n !! ip = Some c → DeviceId c = dev →
  FindClientIPByDeviceID n dev = ip.
Proof.
  intros Hwf Hd Hc <-. unfold FindClientIPByDeviceID. rewrite bool_decide_eq_false_2 by done.
  by rewrite (wf_clients n Hwf _ _ Hc Hd).
Qed.

Lemma validateRequestedIP_None n r :
  0 ≤ r < 2 ^ 32 → validateRequestedIP r (Gateway n) (Netmask n) = None → r ≠ 0 → usable n r.
Proof.
  unfold validateRequestedIP, usable. intros Hr Hv H0.
  destruct (IP_Equal _ _) eqn:E; [done|]. destruct (_ || _) eqn:Hb; [done|]. bool_prop.
  split; [done|]. intros ->.
  assert (Hn : To4 (Gateway n) ≠ []).
  { intros E4. apply H0. unfold IpToUint32. by rewrite E4. }
  pose proof (proj2 (IP_Equal_Uint32ToIP (Gateway n) _ Hr) (conj Hn eq_refl)). congruence.
Qed.

(** The outcome of [generateIP], branch by branch. *)
Inductive generated (now : Z) (s : ExpireMap IpSessionKey Addr) (n : NetworkInfo) (r : Z) (dev : string)
    : ExpireMap IpSessionKey Addr * NetworkInfo * (Z * Z * option string) → Prop :=
| gen_requested :
    r ≠ 0 → validateRequestedIP r (Gateway n) (Netmask n) = None →
    (∀ c, Clients n !! r = Some c → DeviceId c = dev) →
    generated now s n r dev (s, n, (r, FindClientIPByDeviceID n dev, None))
| gen_keep :
    FindClientIPByDeviceID n dev ≠ 0 →
    generated now s n r dev (s, n, (FindClientIPByDeviceID n dev, FindClientIPByDeviceID n dev, None))
| gen_fresh s0 ip :
    FindClientIPByDeviceID n dev = 0 → usable n ip → free now s n ip →
    (∀ ip', usable n ip' → ip' < ip → ¬ free now s n ip') → live_equiv now s0 s →
    generated now s n r dev
      (Set_ now (lease_key n ip) (Some (ip4_string (Uint32ToIP ip))) s0, DeleteClient ip n, (ip, 0, None))
| gen_refused e :
    r ≠ 0 → generated now s n r dev (s, n, (0, FindClientIPByDeviceID n dev, Some e))
| gen_exhausted s0 :
    FindClientIPByDeviceID n dev = 0 → (∀ ip, usable n ip → ¬ free now s n ip) → live_equiv now s0 s →
    generated now s n r dev (s0, n, (0, 0, Some errNoIP)).

Lemma generateIP_scan now s n r dev :
  FindClientIPByDeviceID n dev = 0 →
  generated now s n r dev
    (let first := first_ip (Gateway n) (Netmask n) in
     let last := last_ip (Gateway n) (Netmask n) in
     if last <? first then (s, n, (0, 0, Some errNoIP)) else
     match scan_free_ip now (IpToUint32 (Gateway n)) (seqZ first (last - first + 1)) s n with
     | (s', n', Some ip) => (s', n', (ip, 0, None))
     | (s', n', None) => (s', n', (0, 0, Some errNoIP))
     end).
Proof.
  intros H0. cbv zeta. destruct (_ <? _) eqn:Hlt; bool_prop.
  { apply gen_exhausted; [done| |done]. intros ip [Hr _]. lia. }
  pose proof (elem_of_candidates n) as Hcand.
  set (cands := seqZ _ _) in *.
  pose proof (scan_free_ip_spec now cands s n) as Hs.
  destruct (scan_free_ip now _ cands s n) as [[s' n'] [ip|]].
  - destruct Hs as (l1 & l2 & E & Hl1 & Hip & -> & s0 & Hs0 & ->).
    apply freeb_spec in Hip.
    apply gen_fresh; [done| |done| |done].
    + split; [apply Hcand; [done|]; rewrite E; apply elem_of_app; right; constructor|apply Hip].
    + intros ip' [Hr' _] Hlt' Hf. apply freeb_spec in Hf.
      rewrite Forall_forall in Hl1. rewrite Hl1 in Hf; [done|].
      eapply seqZ_prefix_lt; [exact E|]. split; [apply Hr'|done].
  - destruct Hs as (Hall & -> & Hs'). apply gen_exhausted; [done| |done].
    intros ip [Hr _] Hf%freeb_spec. rewrite Forall_forall in Hall. rewrite Hall in Hf; [done|].
    by apply Hcand.
Qed.

Lemma generateIP_generated now s n r dev allow :
  generated now s n r dev (generateIP now s n r dev allow).
Proof.
  assert (Hrest : generated now s n r dev
    (if negb (FindClientIPByDeviceID n dev =? 0)
     then (s, n, (FindClientIPByDeviceID n dev, FindClientIPByDeviceID n dev, None))
     else let first := first_ip (Gateway n) (Netmask n) in
          let last := last_ip (Gateway n) (Netmask n) in
          if last <? first then (s, n, (0, 0, Some errNoIP)) else
          match scan_free_ip now (IpToUint32 (Gateway n)) (seqZ first (last - first + 1)) s n with
          | (s', n', Some ip) => (s', n', (ip, 0, None))
          | (s', n', None) => (s', n', (0, 0, Some errNoIP))
          end)).
  { destruct (FindClientIPByDeviceID n dev =? 0) eqn:E; cbn [negb]; bool_prop.
    - by apply generateIP_scan.
    - by apply gen_keep. }
  unfold generateIP. destruct (r =? 0) eqn:Hr; bool_prop; [exact Hrest|].
  destruct (validateRequestedIP _ _ _) as [e|] eqn:Hv; [by apply gen_refused|].
  assert (Hrq : negb (r =? 0) = true) by (apply negb_true_iff; by apply Z.eqb_neq).
  destruct (Clients n !! r) as [c|] eqn:Hc.
  - case_bool_decide as Hd; [destruct allow; [exact Hrest|by apply gen_refused]|].
    rewrite Hrq. apply gen_requested; [done..|]. intros c'. rewrite Hc. intros [= <-].
    destruct (decide (DeviceId c = dev)); [done|by destruct Hd].
  - rewrite Hrq. apply gen_requested; [done..|]. by rewrite Hc.
Qed.

(** What a successful allocation tells about the network it leaves behind. *)
Lemma generateIP_facts (now : Z) s n (r : Z) (dev : string) (allow : bool) s' n' ip old :
  wf_network n → 0 ≤ r < 2 ^ 32 →
  generateIP now s n r dev allow = (s', n', (ip, old, None)) →
  usable n ip ∧ wf_network n' ∧ old = FindClientIPByDeviceID n dev
  ∧ (∀ c, Clients n' !! ip = Some c → DeviceId c = dev)
  ∧ (∀ ip' c, Clients n' !! ip' = Some c → Clients n !! ip' = Some c)
  ∧ (∀ ip' c, Clients n !! ip' = Some c → ip' ≠ ip ∨ ControlOnline c = true → Clients n' !! ip' = Some c)
  ∧ Gateway n' = Gateway n ∧ Netmask n' = Netmask n ∧ Group n' = Group n ∧ Epoch n' = Epoch n.
Proof.
  intros Hwf Hr E. pose proof (generateIP_generated now s n r dev allow) as Hg.
  rewrite E in Hg. inversion Hg as [? Hv Hc|Hne|s0 ? H0 Hu Hf _ _| |]; subst.
  - split_and!; try done. by apply validateRequestedIP_None.
  - destruct (FindClientIP_nonzero _ _ Hwf Hne) as (c & Hc & <-).
    split_and!; try done; [by eapply wf_usable|]. congruence.
  - destruct (frame_Delete ip n) as (? & ? & ? & _ & ?).
    split_and!; try done; [by apply wf_DeleteClient|..].
    + intros c. by rewrite Clients_Delete, lookup_delete_eq.
    + intros ip' c. rewrite Clients_Delete. by intros [_ ?]%lookup_delete_Some.
    + intros ip' c Hc Hk. rewrite Clients_Delete, lookup_delete_ne; [done|].
      intros <-. destruct Hk as [?|Hon]; [done|]. destruct Hf as (_ & _ & Hoff & _). rewrite (Hoff c) in Hon; done.
Qed.

Lemma generateIP_error (now : Z) s n (r : Z) (dev : string) (allow : bool) s' n' ip old e :
  generateIP now s n r dev allow = (s', n', (ip, old, Some e)) → n' = n.
Proof. intros E. pose proof (generateIP_generated now s n r dev allow) as Hg. rewrite E in Hg. by inversion Hg. Qed.

(** C8 (safety). A virtual address handed out by [generateIP] is a usable
    address of the subnet, is held by nobody or by the same device, the client
    table stays well formed and no online client is evicted to make room. *)
Theorem generateIP_sound (now : Z) s n (r : Z) (dev : string) (allow : bool) s' n' ip old :
  wf_network n → 0 ≤ r < 2 ^ 32 →
  generateIP now s n r dev allow = (s', n', (ip, old, None)) →
  usable n ip ∧ wf_network n' ∧ old = FindClientIPByDeviceID n dev
  ∧ (∀ c, Clients n' !! ip = Some c → DeviceId c = dev)
  ∧ (∀ ip' c, Clients n !! ip' = Some c → ControlOnline c = true → Clients n' !! ip' = Some c).
Proof.
  intros Hwf Hr E. destruct (generateIP_facts _ _ _ _ _ _ _ _ _ _ Hwf Hr E) as (? & ? & ? & ? & _ & Hkeep & _).
  split_and!; try done. intros ip' c Hc Hon. apply Hkeep; [done|by right].
Qed.

(** A device without an address that requests none receives
    the least usable address that is not reserved for a service, not held by an
    online client and not leased; it is refused only when there is none. *)
Theorem generateIP_least_free (now : Z) s n (dev : string) (allow : bool) :
  FindClientIPByDeviceID n dev = 0 →
  match generateIP now s n 0 dev allow with
  | (_, n', (ip, _, None)) =>
      usable n ip ∧ free now s n ip ∧ n' = DeleteClient ip n
      ∧ ∀ ip', usable n ip' → ip' < ip → ¬ free now s n ip'
  | (_, n', (_, _, Some e)) => e = errNoIP ∧ n' = n ∧ ∀ ip, usable n ip → ¬ free now s n ip
  end.
Proof.
  intros H0. pose proof (generateIP_generated now s n 0 dev allow) as Hg.
  destruct (generateIP now s n 0 dev allow) as [[s' n'] [[ip old] err]].
  inversion Hg; subst; done.
Qed.

(** ** Sweeps over the clients of all networks *)

(** Store the new record of a client, or remove the client. *)
Definition replace_client (ip : Z) (r : option ClientInfo) (n : NetworkInfo) : NetworkInfo :=
  match r with Some c => UpsertClient ip c n | None => DeleteClient ip n end.

Section Sweep.
(** In networks of group [G], the sweep replaces the clients selected by [p]. *)
Context (change : ClientInfo → Z → ExpireMap IpSessionKey Addr → NetworkInfo →
      option (ExpireMap IpSessionKey Addr * NetworkInfo))
  (G : string) (p : ClientInfo → bool) (f : ClientInfo → option ClientInfo)
  (g : NetworkInfo → Z → ClientInfo → ExpireMap IpSessionKey Addr → ExpireMap IpSessionKey Addr).
Hypothesis change_spec : ∀ c ip s n, Group n = G →
  change c ip s n = if p c then Some (g n ip c s, replace_client ip (f c) n) else None.
Hypothesis f_device : ∀ c c', f c = Some c' → DeviceId c' = DeviceId c.

(** What becomes of a client. *)
Definition after_sweep (c : ClientInfo) : option ClientInfo := if p c then f c else Some c.

Lemma Clients_replace ip r n ip' :
  Clients (replace_client ip r n) !! ip' = if bool_decide (ip' = ip) then r else Clients n !! ip'.
Proof.
  destruct r as [c|]; unfold replace_client; [rewrite Clients_Upsert|rewrite Clients_Delete]; case_bool_decide as E; subst.
  all: rewrite ?lookup_insert_eq, ?lookup_delete_eq, ?lookup_insert_ne, ?lookup_delete_ne by done; done.
Qed.

Lemma frame_replace ip r n :
  Group (replace_client ip r n) = Group n ∧ Epoch (replace_client ip r n) = Epoch n
  ∧ Gateway (replace_client ip r n) = Gateway n ∧ Netmask (replace_client ip r n) = Netmask n.
Proof. destruct r; simpl; [done|]. destruct (frame_Delete ip n) as (? & ? & ? & _ & ?). done. Qed.

Lemma sweep_fold (l : list (Z * ClientInfo)) s n b s' n' b' :
  NoDup l.*1 → (∀ ip c, (ip, c) ∈ l → Clients n !! ip = Some c) → wf_network n → Group n = G →
  foldl (sweep_client change) (s, n, b) l = (s', n', b') →
  wf_network n' ∧ Group n' = G ∧ Epoch n' = Epoch n ∧ b' = b || existsb (λ e, p e.2) l
  ∧ ∀ ip, Clients n' !! ip = if bool_decide (ip ∈ l.*1) then Clients n !! ip ≫= after_sweep else Clients n !! ip.
Proof.
  revert s n b. induction l as [|[ip c] l IH]; intros s n b Hnd Hl Hwf HG E.
  { simpl in E. simplify_eq. split_and!; [done..|by rewrite orb_false_r|]. intros ip.
    by rewrite bool_decide_eq_false_2 by (by apply not_elem_of_nil). }
  cbn [fmap list_fmap fst] in Hnd. apply NoDup_cons in Hnd as [Hip Hnd].
  assert (Hc : Clients n !! ip = Some c) by (apply Hl; constructor).
  assert (Hne : ∀ ip', ip' ≠ ip → (ip' ∈ ((ip, c) :: l).*1 ↔ ip' ∈ l.*1)).
  { intros ip' ?. cbn [fmap list_fmap fst]. rewrite elem_of_cons. tauto. }
  cbn [foldl] in E. unfold sweep_client in E at 2. cbn [fst snd] in E. rewrite change_spec in E by done.
  destruct (frame_replace ip (f c) n) as (Hg' & He' & _).
  destruct (p c) eqn:Hp.
  - apply IH in E as (Hwf' & HG' & He & Hb & Hcl); [|done| | |by rewrite Hg'].
    + split_and!; [done..|by rewrite He|by rewrite Hb; simpl; rewrite Hp; destruct b|].
      intros ip'. rewrite Hcl, Clients_replace. destruct (decide (ip' = ip)) as [->|Hi].
      * rewrite (bool_decide_eq_false_2 (ip ∈ l.*1)), !bool_decide_eq_true_2 by (done || constructor).
        rewrite Hc. unfold after_sweep. simpl. by rewrite Hp.
      * rewrite (bool_decide_eq_false_2 (ip' = ip)) by done.
        by rewrite (bool_decide_ext _ _ (Hne ip' Hi)).
    + intros ip' c' Hin. rewrite Clients_replace, bool_decide_eq_false_2; [apply Hl; by constructor|].
      intros ->. apply Hip. by apply (list_elem_of_fmap_2 fst) in Hin.
    + destruct (f c) as [c'|] eqn:Hf; simpl; [|by apply wf_DeleteClient].
      apply (wf_UpsertClient_same ip c); [done..|by apply f_device].
  - apply IH in E as (Hwf' & HG' & He & Hb & Hcl); [|done|intros; apply Hl; by constructor|done..].
    split_and!; [done..|by rewrite Hb; simpl; rewrite Hp|]. intros ip'. rewrite Hcl.
    destruct (decide (ip' = ip)) as [->|Hi].
    + rewrite (bool_decide_eq_false_2 (ip ∈ l.*1)), bool_decide_eq_true_2 by (done || constructor).
      rewrite Hc. unfold after_sweep. simpl. by rewrite Hp.
    + by rewrite (bool_decide_ext _ _ (Hne ip' Hi)).
Qed.

(** A sweep replaces exactly the clients selected by [p] and bumps the epoch
    exactly when it replaced one. *)
Lemma sweep_network_gen o s n s' n' :
  wf_network n → Group n = G → sweep_network o change s n = (s', n') →
  wf_network n' ∧ Group n' = G ∧ Clients n' = omap after_sweep (Clients n)
  ∧ Epoch n' = if existsb (λ e, p e.2) (range o (Clients n)) then u64 (Epoch n + 1) else Epoch n.
Proof.
  intros Hwf HG. unfold sweep_network.
  destruct (foldl _ _ _) as [[s1 n1] b1] eqn:E. intros [= <- <-].
  apply sweep_fold in E as (Hwf' & HG' & He & Hb & Hcl);
    [|apply range_NoDup_fst|intros ip c; by rewrite elem_of_range|done..].
  assert (HC : Clients n1 = omap after_sweep (Clients n)).
  { apply map_eq. intros ip. rewrite Hcl, lookup_omap.
    case_bool_decide as Hin; [done|]. destruct (Clients n !! ip) as [c|] eqn:Hc; [|done].
    exfalso. apply Hin. apply (list_elem_of_fmap_2' fst _ (ip, c)); [by apply elem_of_range|done]. }
  simpl in Hb. rewrite <-Hb. destruct b1; split_and!; try done.
  - by apply wf_bump_epoch.
  - unfold bump_epoch. simpl. unfold const. by rewrite He.
Qed.

End Sweep.

(** The clients of a sweep that removes nobody. *)
Definition swept (p : ClientInfo → bool) (f : ClientInfo → ClientInfo) (c : ClientInfo) : ClientInfo :=
  if p c then f c else c.

Lemma omap_swept p f (m : gmap Z ClientInfo) : omap (after_sweep p (λ c, Some (f c))) m = swept p f <$> m.
Proof.
  apply map_eq. intros ip. rewrite lookup_omap, lookup_fmap. destruct (m !! ip) as [c|]; [|done].
  simpl. unfold after_sweep, swept. by destruct (p c).
Qed.

Definition wf_networks (nc : NetworkControl) : Prop :=
  ∀ key n, networks nc !! key = Some n → wf_network n.

Lemma networks_set_network key n nc : networks (set_network key n nc) = <[key := n]> (networks nc).
Proof. done. Qed.

(** A sweep over all networks sweeps each of them. *)
Lemma sweep_networks_spec o change nc key :
  networks (sweep_networks o change nc) !! key = None ∧ networks nc !! key = None
  ∨ ∃ n s s' n', networks nc !! key = Some n ∧ sweep_network o (change key) s n = (s', n')
      ∧ networks (sweep_networks o change nc) !! key = Some n'.
Proof.
  unfold sweep_networks.
  set (step := λ nc '(key, network), _).
  assert (Hfold : ∀ l nc1, NoDup l.*1 →
    (key ∉ l.*1 → networks (foldl step nc1 l) !! key = networks nc1 !! key) ∧
    (∀ n, (key, n) ∈ l → ∃ s s' n', sweep_network o (change key) s n = (s', n')
                                   ∧ networks (foldl step nc1 l) !! key = Some n')).
  { induction l as [|[k n0] l IH]; intros nc1 Hnd.
    { split; [done|]. intros n Hn. by apply not_elem_of_nil in Hn. }
    cbn [fmap list_fmap fst] in Hnd. apply NoDup_cons in Hnd as [Hk Hnd]. cbn [foldl].
    destruct (IH (step nc1 (k, n0)) Hnd) as [IH1 IH2].
    assert (Hstep : ∀ k', k' ≠ k → networks (step nc1 (k, n0)) !! k' = networks nc1 !! k').
    { intros k' Hne. unfold step. destruct (sweep_network _ _ _ _) as [s1 n1].
      rewrite networks_set_network, lookup_insert_ne; [|done]. done. }
    split.
    - cbn [fmap list_fmap fst]. rewrite not_elem_of_cons. intros [Hne Hni]. rewrite IH1 by done. by apply Hstep.
    - intros n [[= <- <-]|Hin]%elem_of_cons; [|by apply IH2].
      rewrite IH1 by done. unfold step. destruct (sweep_network o (change key) (IPSessions nc1) n) as [s1 n1] eqn:E.
      exists (IPSessions nc1), s1, n1. split; [done|]. rewrite networks_set_network. apply lookup_insert_eq. }
  destruct (Hfold (range o (networks nc)) nc (range_NoDup_fst o _)) as [H1 H2].
  destruct (networks nc !! key) as [n|] eqn:E.
  - right. destruct (H2 n) as (s & s' & n' & Hs & Hn'); [by apply elem_of_range|]. by exists n, s, s', n'.
  - left. split; [|done]. rewrite H1; [done|].
    intros ([k n] & Hk & Hin)%list_elem_of_fmap. simpl in Hk. subst k. apply elem_of_range in Hin. congruence.
Qed.

(** The same for a sweep that replaces the clients selected by [p] by what [f]
    makes of them, in every network. *)
Lemma sweep_all o change nc (p : string → ClientInfo → bool) (f : ClientInfo → option ClientInfo) g key :
  (∀ key c ip s n, change key c ip s n = if p (Group n) c then Some (g key n ip c s, replace_client ip (f c) n) else None) →
  (∀ c c', f c = Some c' → DeviceId c' = DeviceId c) → wf_networks nc →
  match networks nc !! key with
  | None => networks (sweep_networks o change nc) !! key = None
  | Some n => ∃ n', networks (sweep_networks o change nc) !! key = Some n' ∧ wf_network n' ∧ Group n' = Group n
      ∧ Clients n' = omap (after_sweep (p (Group n)) f) (Clients n)
      ∧ Epoch n' = if existsb (λ e, p (Group n) e.2) (range o (Clients n)) then u64 (Epoch n + 1) else Epoch n
  end.
Proof.
  intros Hch Hf Hwf. destruct (sweep_networks_spec o change nc key) as [[H1 H2]|(n & s & s' & n' & Hn & Hsw & Hn')].
  { by rewrite H2. }
  rewrite Hn. exists n'. split; [done|].
  apply (sweep_network_gen (change key) (Group n) (p (Group n)) f (g key)) with (o := o) (s := s) (s' := s');
    [|done|by eapply Hwf|done|done].
  intros c ip s1 n1 <-. apply Hch.
Qed.

(** While the lease of an address held by some device is live, no
    other device is given that address, whatever it requests. *)
Theorem generateIP_respects_lease (now : Z) s n (r : Z) (dev : string) (allow : bool) s' n' ip old ipc c :
  wf_network n → Clients n !! ipc = Some c → DeviceId c ≠ dev →
  live now s (lease_key n ipc) ≠ None →
  generateIP now s n r dev allow = (s', n', (ip, old, None)) → ip ≠ ipc.
Proof.
  intros Hwf Hc Hd Hl E ->. pose proof (generateIP_generated now s n r dev allow) as Hg.
  rewrite E in Hg. inversion Hg as [? Hv Hown|Hne|s0 ? H0 Hu Hf _ _| |]; subst.
  - by apply Hd, Hown.
  - destruct (FindClientIP_nonzero _ _ Hwf Hne) as (c' & Hc' & <-). congruence.
  - by destruct Hf as (_ & _ & _ & ?).
Qed.

(** The clients a departing connection takes offline. *)
Definition leaves (addr : string) (c : ClientInfo) : bool :=
  bool_decide (Address c = Some addr) && ControlOnline c.

(** When a connection leaves, exactly the online clients of that
    connection go offline (in every network), the others are untouched, the epoch
    of a network advances exactly when one of its clients went offline, and the
    client tables stay well formed. *)
Theorem LeaveByRemoteAddr_spec o (now : Z) (addr : string) (nc : NetworkControl) (key : string) :
  wf_networks nc →
  match networks nc !! key with
  | None => networks (LeaveByRemoteAddr o now (Some addr) nc) !! key = None
  | Some n => ∃ n', networks (LeaveByRemoteAddr o now (Some addr) nc) !! key = Some n'
      ∧ wf_network n'
      ∧ Clients n' = swept (leaves addr) (offline_client now) <$> Clients n
      ∧ Epoch n' = if existsb (λ e, leaves addr e.2) (range o (Clients n)) then u64 (Epoch n + 1) else Epoch n
  end.
Proof.
  intros Hwf. unfold LeaveByRemoteAddr.
  match goal with |- context [sweep_networks o ?ch ?nc1] =>
    pose proof (sweep_all o ch nc1 (λ _, leaves addr) (λ c, Some (offline_client now c))
      (λ _ n ip _ s, Set_ now (NewIpSessionKey (Group n) (Uint32ToIP ip)) (Some addr) s) key) as Hsw end.
  change (networks (nc <| CipherSessions := _ |>)) with (networks nc) in Hsw.
  destruct (networks nc !! key) as [n|]; [destruct Hsw as (n' & ? & ? & _ & HC & ?)|apply Hsw].
  4:{ exists n'. by rewrite HC, omap_swept. }
  all: try done; try by intros c ? [= <-].
  all: intros k c ip s1 n1; cbv beta; unfold leaves;
    case_bool_decide; case_bool_decide; destruct (ControlOnline c); simpl; done.
Qed.

(** ** Touching *)
Lemma update_first_spec {R} networkKey (f : NetworkInfo → option (NetworkInfo * R)) l nc :
  match update_first networkKey f l nc with
  | (nc', None) => nc' = nc ∧ ∀ key n, (key, n) ∈ l → TrimSpace networkKey = "" ∨ key = networkKey → f n = None
  | (nc', Some r) => ∃ key n n', (key, n) ∈ l ∧ (TrimSpace networkKey = "" ∨ key = networkKey)
      ∧ f n = Some (n', r) ∧ nc' = set_network key n' nc
  end.
Proof.
  induction l as [|[key n] l IH]; cbn [update_first].
  { split; [done|]. intros ? ? ?%not_elem_of_nil. done. }
  assert (Hskip : ((TrimSpace networkKey = "" ∨ key = networkKey) → f n = None) →
    match update_first networkKey f l nc with
    | (nc', None) => nc' = nc ∧ ∀ key0 n0, (key0, n0) ∈ (key, n) :: l →
        TrimSpace networkKey = "" ∨ key0 = networkKey → f n0 = None
    | (nc', Some r) => ∃ key0 n0 n', (key0, n0) ∈ (key, n) :: l ∧ (TrimSpace networkKey = "" ∨ key0 = networkKey)
        ∧ f n0 = Some (n', r) ∧ nc' = set_network key0 n' nc
    end).
  { intros Hn. destruct (update_first networkKey f l nc) as [nc' [r|]].
    - destruct IH as (k & n0 & n' & Hin & ?). exists k, n0, n'. split; [by constructor|done].
    - destruct IH as [-> Hall]. split; [done|]. intros k n0 [[= -> ->]|Hin]%elem_of_cons; [done|eauto]. }
  do 2 case_bool_decide; cbn [andb]; try (apply Hskip; tauto).
  all: destruct (f n) as [[n' r]|] eqn:E; [|apply Hskip; tauto].
  all: exists key, n, n'; split; [constructor|]; split; [|done].
  - right. by destruct (decide (key = networkKey)).
  - left. by destruct (decide (TrimSpace networkKey = "")).
  - left. by destruct (decide (TrimSpace networkKey = "")).
Qed.

(** Touching a client marks it online at the current second,
    changes no other client or network, and returns the network's epoch truncated
    to 16 bits; an unknown address changes nothing and returns 0. *)
Theorem TouchClient_spec o (now : Z) (networkKey : string) (srcIP : IP) (nc nc' : NetworkControl) (r : Z) :
  wf_networks nc → TouchClientByIPInNetwork o now networkKey srcIP nc = (nc', r) →
  wf_networks nc' ∧
  ((nc' = nc ∧ r = 0 ∧ ∀ key n, networks nc !! key = Some n → TrimSpace networkKey = "" ∨ key = networkKey →
       Clients n !! IpToUint32 srcIP = None)
   ∨ ∃ key n c, networks nc !! key = Some n ∧ (TrimSpace networkKey = "" ∨ key = networkKey)
       ∧ Clients n !! IpToUint32 srcIP = Some c
       ∧ networks nc' = <[key := UpsertClient (IpToUint32 srcIP) (touch_client now c) n]> (networks nc)
       ∧ r = u16 (Epoch n)).
Proof.
  intros Hwf. unfold TouchClientByIPInNetwork.
  set (f := λ network, _ ≫= _).
  pose proof (update_first_spec networkKey f (range o (networks nc)) nc) as Hu.
  destruct (update_first networkKey f (range o (networks nc)) nc) as [nc1 [r1|]]; intros [= <- <-].
  - destruct Hu as (key & n & n' & Hin & Hkey & Hf & ->). apply elem_of_range in Hin.
    unfold f in Hf. destruct (Clients n !! IpToUint32 srcIP) as [c|] eqn:Hc; [|done].
    simpl in Hf. injection Hf as <- <-. split.
    + intros k m. rewrite networks_set_network. intros [[<- <-]|[_ Hm]]%lookup_insert_Some; [|by eapply Hwf].
      eapply wf_UpsertClient_same; [by eapply Hwf|done|done].
    + right. exists key, n, c. done.
  - destruct Hu as [-> Hnone]. split; [done|left]. split_and!; try done. intros key n Hn Hk.
    specialize (Hnone key n (proj2 (elem_of_range o _ _ _) Hn) Hk). unfold f in Hnone.
    by destruct (Clients n !! IpToUint32 srcIP).
Qed.

(** ** A concrete network: 10.0.0.0/24 with device [a] on 10.0.0.2. *)
Module Sample.
Definition client (dev : string) (online : bool) : ClientInfo :=
  zeroClientInfo <| DeviceId := dev |> <| ControlOnline := online |> <| Address := Some "192.0.2.1:4000" |>.
Definition net (online : bool) : NetworkInfo :=
  UpsertClient 167772162 (client "a" online)
    (NewNetworkInfo "g" [xff; xff; xff; x00] [x0a; x00; x00; x01] {[167772163 := "dns"]}).
Definition nc (online : bool) : NetworkControl :=
  mkNetworkControl (mkExpireMap {["g" := net online]} ∅ 0) (NewExpireMap 5) (NewExpireMap 0) (NewExpireMap 0)
    (NewExpireMap 0) (NewExpireMap 0) (NewExpireMap 0).
(** The lease of 10.0.0.2 taken at time 1. *)
Definition leased : ExpireMap IpSessionKey Addr :=
  Set_ 1 (lease_key (net false) 167772162) (Some "192.0.2.1:4000") (NewExpireMap 5).

Lemma net_wf b : wf_network (net b).
Proof.
  apply wf_UpsertClient; [apply wf_NewNetworkInfo; by vm_compute| |].
  - split; [split; by vm_compute|by vm_compute].
  - intros ip'. simpl. by rewrite lookup_empty.
Qed.

Lemma nc_wf b : wf_networks (nc b).
Proof.
  intros key n Hn. change (({["g" := net b]} : gmap string NetworkInfo) !! key = Some n) in Hn.
  apply lookup_singleton_Some in Hn as [<- <-]. apply net_wf.
Qed.
End Sample.

Lemma generateIP_sound_witness :
  let r := generateIP 3 (NewExpireMap 5) (Sample.net false) 0 "b" true in
  r.2 = (167772162, 0, None) ∧ usable (Sample.net false) 167772162 ∧ wf_network r.1.2.
Proof.
  set (r := generateIP 3 (NewExpireMap 5) (Sample.net false) 0 "b" true).
  assert (E : r.2 = (167772162, 0, None)) by (vm_compute; reflexivity).
  destruct (generateIP_sound 3 (NewExpireMap 5) (Sample.net false) 0 "b" true r.1.1 r.1.2 167772162 0
    (Sample.net_wf false) ltac:(lia) ltac:(rewrite <-E; subst r; by destruct (generateIP _ _ _ _ _ _) as [[??] ?]))
    as (Hu & Hwf & _).
  split; [exact E|]. split; [exact Hu|exact Hwf].
Defined.

Lemma generateIP_least_free_witness :
  FindClientIPByDeviceID (Sample.net true) "b" = 0
  ∧ usable (Sample.net true) 167772164 ∧ ¬ free 3 (NewExpireMap 5) (Sample.net true) 167772163.
Proof.
  split; [by vm_compute|].
  pose proof (generateIP_least_free 3 (NewExpireMap 5) (Sample.net true) "b" true ltac:(by vm_compute)) as H.
  assert (E : (generateIP 3 (NewExpireMap 5) (Sample.net true) 0 "b" true).2 = (167772164, 0, None))
    by (vm_compute; reflexivity).
  destruct (generateIP _ _ _ _ _ _) as [[s' n'] [[ip old] e]]. cbn [snd] in E. injection E as -> -> ->.
  destruct H as (Hu & _ & _ & Hl). split; [exact Hu|]. apply Hl; [|lia].
  split; [split; by vm_compute|by vm_compute].
Defined.

Lemma generateIP_respects_lease_witness :
  (generateIP 3 Sample.leased (Sample.net false) 167772162 "b" true).2.1.1 ≠ 167772162.
Proof.
  destruct (generateIP 3 Sample.leased (Sample.net false) 167772162 "b" true) as [[s' n'] [[ip old] [e|]]] eqn:E.
  - apply (f_equal (λ r, r.2.2)) in E. vm_compute in E. discriminate E.
  - apply (generateIP_respects_lease _ _ _ _ _ _ _ _ _ _ 167772162 (Sample.client "a" false)
             (Sample.net_wf false)) in E; [exact E|by vm_compute|done|by vm_compute].
Defined.

Lemma LeaveByRemoteAddr_spec_witness :
  ∃ n', networks (LeaveByRemoteAddr ascending 7 (Some "192.0.2.1:4000") (Sample.nc true)) !! "g" = Some n'
    ∧ wf_network n' ∧ Epoch n' = 1.
Proof.
  destruct (LeaveByRemoteAddr_spec ascending 7 "192.0.2.1:4000" (Sample.nc true) "g" (Sample.nc_wf true))
    as (n' & H1 & H2 & _ & H3).
  exists n'. split; [exact H1|]. split; [exact H2|]. rewrite H3. by vm_compute.
Defined.

Lemma TouchClient_spec_witness :
  wf_networks (TouchClientByIPInNetwork ascending 7 "g" [x0a; x00; x00; x02] (Sample.nc false)).1.
Proof.
  apply (TouchClient_spec ascending 7 "g" [x0a; x00; x00; x02] (Sample.nc false) _ 0 (Sample.nc_wf false)).
  by vm_compute.
Defined.
