(* ===== verification/Config.v ===== *)
(** * Configuration: [config/config.go], and how [control] looks a group up in it.

    [Validate] returns the configuration with its defaults filled in, and the
    first error.  The two regular expressions of the code are kept as such
    ([regex]) and decided by derivatives.  A Go map is visited in the order [o],
    which decides which of several errors is reported. *)
From S2P Require Import Prelude GoString NetIP NetParse Proto ExpireMap Network.

(** ** Regular expressions over bytes *)
Inductive regex :=
| RNone | REmpty
| RChar (p : ascii → bool)
| RAlt (r s : regex) | RCat (r s : regex) | RStar (r : regex).

Fixpoint nullable (r : regex) : bool :=
  match r with
  | RNone | RChar _ => false
  | REmpty | RStar _ => true
  | RAlt r s => nullable r || nullable s
  | RCat r s => nullable r && nullable s
  end.

Fixpoint deriv (c : ascii) (r : regex) : regex :=
  match r with
  | RNone | REmpty => RNone
  | RChar p => if p c then REmpty else RNone
  | RAlt r s => RAlt (deriv c r) (deriv c s)
  | RCat r s => if nullable r then RAlt (RCat (deriv c r) s) (deriv c s) else RCat (deriv c r) s
  | RStar r => RCat (deriv c r) (RStar r)
  end.

(** [regexp.MatchString] of an expression anchored at both ends. *)
Definition rmatch (r : regex) (s : string) : bool := nullable (foldl (λ r c, deriv c r) r (chars s)).

Definition RPlus (r : regex) : regex := RCat r (RStar r).
Definition ROpt (r : regex) : regex := RAlt REmpty r.
Fixpoint RUpTo (n : nat) (r : regex) : regex :=
  match n with O => REmpty | S n => ROpt (RCat r (RUpTo n r)) end.

Definition is_letter (c : ascii) : bool :=
  let n := z_of_ascii c in ((97 <=? n) && (n <=? 122)) || ((65 <=? n) && (n <=? 90)).
Definition is_alnum (c : ascii) : bool :=
  let n := z_of_ascii c in is_letter c || ((48 <=? n) && (n <=? 57)).
Definition is_label (c : ascii) : bool := is_alnum c || bool_decide (c = "-"%char).
Definition is_dot (c : ascii) : bool := bool_decide (c = "."%char).

(** [^(?:[a-zA-Z0-9-]+\.)+[a-zA-Z]{2,}$] *)
Definition domainRe : regex :=
  RCat (RPlus (RCat (RPlus (RChar is_label)) (RChar is_dot)))
       (RCat (RChar is_letter) (RCat (RChar is_letter) (RStar (RChar is_letter)))).

(** [^[a-zA-Z0-9][a-zA-Z0-9-]{0,62}$] *)
Definition groupRe : regex := RCat (RChar is_alnum) (RUpTo 62 (RChar is_label)).

(** ** Data *)
Record GroupConfig := mkGroupConfig {
  gc_Gateway : IP;
  gc_Netmask : string;
  gc_DNSServiceIP : string;
  gc_DNSServers : list string;
  gc_DNSMatchDomains : list string
}.

(** [DomainConfig] only holds its groups. *)
Record DomainConfig := mkDomainConfig { dc_Groups : gmap string GroupConfig }.

(** The fields that the modelled code reads. *)
Record Config := mkConfig {
  cfg_Gateway : IP;
  cfg_Domain : string;
  cfg_Netmask : string;
  cfg_DNSServiceIP : string;
  cfg_DNSServers : list string;
  cfg_DNSMatchDomains : list string;
  cfg_Groups : gmap string GroupConfig;
  cfg_DefaultDomain : string;
  cfg_Domains : gmap string DomainConfig;
  cfg_DefaultGatewayID : string;
  cfg_GatewayTicketSecret : string;
  cfg_DNSServiceAddr : string;
  cfg_AutoCertHTTPAddr : string
}.

(** ** Checks: [None] is success *)
Abbreviation error := (option string).

(** Run the checks until one fails. *)
Definition orElse (e : error) (k : error) : error := match e with Some m => Some m | None => k end.
Fixpoint first_error {A} (check : A → error) (l : list A) : error :=
  match l with [] => None | a :: l' => orElse (check a) (first_error check l') end.

Definition isPrivate (b : IP) : bool :=
  match b2z <$> b with
  | b0 :: b1 :: _ =>
      (b0 =? 10) || ((b0 =? 172) && (16 <=? b1) && (b1 <=? 31)) || ((b0 =? 192) && (b1 =? 168))
  | _ => false
  end.

(** The loop over the bits [i-1] .. 0 of the mask: no one after a zero. *)
Fixpoint mask_contiguous (val : Z) (i : nat) (foundZero : bool) : bool :=
  match i with
  | O => true
  | S i =>
      if Z.land val (Z.shiftl 1 (Z.of_nat i)) =? 0 then mask_contiguous val i true
      else if foundZero then false else mask_contiguous val i foundZero
  end.

Definition byte_at (ip : IP) (i : nat) : Z := b2z (default x00 (ip !! i)).

Definition validateGatewayAndNetmask (gateway : IP) (netmaskStr : string) : error :=
  if bool_decide (To4 gateway = []) then Some "gateway 必须为合法 IPv4 地址" else
  if byte_at (To4 gateway) 3 =? 255 then Some "gateway 不能为广播地址" else
  if (224 <=? byte_at (To4 gateway) 0) && (byte_at (To4 gateway) 0 <=? 239)
  then Some "gateway 不能为组播地址" else
  if negb (isPrivate (To4 gateway)) then Some "gateway 不能为公网地址" else
  let netmask := ParseIP netmaskStr in
  if bool_decide (netmask = []) || bool_decide (To4 netmask = []) then Some "netmask 必须为合法 IPv4 地址" else
  let val := be_get (To4 netmask) in
  if (val =? 0) || (val =? 0xFFFFFFFF) then Some "netmask 不能为全0或全255" else
  if mask_contiguous val 32 false then None else Some "netmask 必须为连续的1后跟连续的0".

Definition validateDNSServers (servers : list string) : error :=
  first_error (λ server,
      let server := TrimSpace server in
      if bool_decide (server = "") then Some "dns_servers 不能为空字符串" else
      let ip := ParseIP server in
      if bool_decide (ip = []) || bool_decide (To4 ip = [])
      then Some "dns_servers 必须为合法 IPv4 地址列表" else None)
    servers.

Definition validateDNSMatchDomains (domains : list string) : error :=
  first_error (λ domain,
      let domain := TrimSpace domain in
      if bool_decide (domain = "") then Some "dns_match_domains 不能为空字符串" else
      if rmatch domainRe domain then None else Some "dns_match_domains 必须为合法域名列表")
    domains.

Definition ipv4ToUint32 (ip : IP) : Z := be_get (To4 ip).

Definition validateServiceIP (serviceIP : string) (gateway : IP) (netmaskStr field : string) : error :=
  let serviceIP := TrimSpace serviceIP in
  if bool_decide (serviceIP = "") then None else
  let ip := ParseIP serviceIP in
  if bool_decide (ip = []) || bool_decide (To4 ip = []) then Some (field +:+ " 必须为合法 IPv4 地址") else
  if bool_decide (To4 gateway = []) || bool_decide (TrimSpace netmaskStr = "")
  then Some (field +:+ " 需要对应合法的 gateway 和 netmask") else
  let maskIP := ParseIP netmaskStr in
  if bool_decide (maskIP = []) || bool_decide (To4 maskIP = [])
  then Some (field +:+ " 对应的 netmask 必须为合法 IPv4 地址") else
  let requested := To4 ip in
  let gateway4 := To4 gateway in
  if IP_Equal requested gateway4 then Some (field +:+ " 不能与 gateway 相同") else
  let maskUint := ipv4ToUint32 (To4 maskIP) in
  let networkIP := Z.land (ipv4ToUint32 gateway4) maskUint in
  let serviceUint := ipv4ToUint32 requested in
  let broadcast := Z.lor networkIP (not32 maskUint) in
  let first := u32 (networkIP + 1) in
  let last := u32 (broadcast - 1) in
  if (serviceUint <? first) || (last <? serviceUint)
  then Some (field +:+ " 必须落在对应网段可用地址范围内") else None.

(** The checks of one group, shared by the two places that list groups. *)
Definition validate_group (field : string) (gc : GroupConfig) : error :=
  orElse (validateGatewayAndNetmask (gc_Gateway gc) (gc_Netmask gc))
  (orElse (validateServiceIP (gc_DNSServiceIP gc) (gc_Gateway gc) (gc_Netmask gc) field)
  (orElse (validateDNSServers (gc_DNSServers gc)) (validateDNSMatchDomains (gc_DNSMatchDomains gc)))).

Definition with_default (value fallback : string) : string :=
  if bool_decide (TrimSpace value = "") then fallback else value.

Section Validate.
Context (o : RangeOrder).

Definition validate_domain (entry : string * DomainConfig) : error :=
  let '(domain, dc) := entry in
  if negb (rmatch domainRe domain) then Some "domains 的 key 必须为合法域名(FQDN)" else
  if bool_decide (dc_Groups dc = ∅) then Some "domains.<domain>.groups 不能为空" else
  first_error (λ '(group, gc),
      if negb (rmatch groupRe group) then Some "domains.<domain>.groups 的 key 必须为合法 group 名称"
      else validate_group "domains.<domain>.groups.<group>.dns_service_ip" gc)
    (range o (dc_Groups dc)).

(** The branch for [len(c.Domains) > 0]. *)
Definition validate_domains (c : Config) : Config * error :=
  match orElse (validateDNSServers (cfg_DNSServers c))
       (orElse (validateServiceIP (cfg_DNSServiceIP c) (cfg_Gateway c) (cfg_Netmask c) "dns_service_ip")
               (validateDNSMatchDomains (cfg_DNSMatchDomains c))) with
  | Some e => (c, Some e)
  | None =>
      let c := c <| cfg_DefaultDomain := with_default (cfg_DefaultDomain c) "ms.net" |> in
      (c, if negb (rmatch domainRe (cfg_DefaultDomain c)) then Some "default_domain 必须为合法域名"
          else if bool_decide (cfg_Domains c !! cfg_DefaultDomain c = None)
          then Some "default_domain 未在 domains 中配置"
          else first_error validate_domain (range o (cfg_Domains c)))
  end.

(** The branch for a single network. *)
Definition validate_single (c : Config) : error :=
  orElse (validateGatewayAndNetmask (cfg_Gateway c) (cfg_Netmask c))
  (orElse (validateServiceIP (cfg_DNSServiceIP c) (cfg_Gateway c) (cfg_Netmask c) "dns_service_ip")
  (orElse (validateDNSServers (cfg_DNSServers c))
  (orElse (validateDNSMatchDomains (cfg_DNSMatchDomains c))
          (if rmatch domainRe (cfg_Domain c) then None else Some "domain 必须为合法域名")))).

(** The branch for a flat table of groups. *)
Definition validate_groups (c : Config) : error :=
  orElse (first_error (λ '(group, gc),
      if negb (rmatch domainRe group) then Some "groups 的 key 必须为合法域名"
      else validate_group "groups.<group>.dns_service_ip" gc) (range o (cfg_Groups c)))
  (orElse (if bool_decide (cfg_Domain c = "") then None
           else if negb (rmatch domainRe (cfg_Domain c)) then Some "domain 必须为合法域名"
           else validateGatewayAndNetmask (cfg_Gateway c) (cfg_Netmask c))
  (orElse (validateServiceIP (cfg_DNSServiceIP c) (cfg_Gateway c) (cfg_Netmask c) "dns_service_ip")
  (orElse (validateDNSServers (cfg_DNSServers c)) (validateDNSMatchDomains (cfg_DNSMatchDomains c))))).

Definition Validate (c : Config) : Config * error :=
  let c := c <| cfg_DefaultGatewayID := with_default (cfg_DefaultGatewayID c) "default" |> in
  if bool_decide (TrimSpace (cfg_GatewayTicketSecret c) = "") then (c, Some "gateway_ticket_secret 不能为空") else
  let c := c <| cfg_DNSServiceAddr := with_default (cfg_DNSServiceAddr c) "127.0.0.1:53" |> in
  match SplitHostPort (cfg_DNSServiceAddr c) with
  | Err _ => (c, Some "dns_service_addr 必须为 host:port")
  | Ok _ =>
      let c := c <| cfg_AutoCertHTTPAddr := with_default (cfg_AutoCertHTTPAddr c) ":80" |> in
      if negb (bool_decide (cfg_Domains c = ∅)) then validate_domains c else
      if bool_decide (cfg_Groups c = ∅) then (c, validate_single c) else (c, validate_groups c)
  end.

Definition EffectiveDefaultDomain (c : Config) : string :=
  if bool_decide (TrimSpace (cfg_DefaultDomain c) ≠ "") then cfg_DefaultDomain c else
  if bool_decide (TrimSpace (cfg_Domain c) ≠ "") then cfg_Domain c else
  match range o (cfg_Domains c) with (domain, _) :: _ => domain | [] => "" end.

(** ** Looking up a group *)

(** [gateway.go: matchDomainAndGroup]: the longest configured domain the token ends in. *)
Definition best_domain (token best domain : string) : string :=
  if HasSuffix token ("." +:+ domain) && bool_decide (String.length best < String.length domain)%nat
  then domain else best.

Definition matchDomainAndGroup (token : string) (domains : gmap string DomainConfig) : option (string * string) :=
  let bestDomain := foldl (best_domain token) "" (range o domains).*1 in
  if bool_decide (bestDomain = "") then None else
  let group := TrimSpace (TrimSuffix token ("." +:+ bestDomain)) in
  if bool_decide (group = "") then None else Some (bestDomain, group).

Definition group_config (c : Config) (domainName groupName : string) : option GroupConfig :=
  dc ← cfg_Domains c !! domainName; dc_Groups dc !! groupName.

Definition resolveGroupNetworkConfig (c : Config) (group : string) : result (IP * list byte) :=
  if negb (bool_decide (cfg_Domains c = ∅)) then
    match matchDomainAndGroup group (cfg_Domains c) with
    | None => Err ("group " +:+ group +:+ " not configured in domains (expect <group>.<domain>)")
    | Some (domainName, groupName) =>
        match group_config c domainName groupName with
        | None => Err ("group " +:+ groupName +:+ " not configured under domain " +:+ domainName)
        | Some gc => let? mask := parseNetmask (gc_Netmask gc) in Ok (gc_Gateway gc, mask)
        end
    end
  else if negb (bool_decide (cfg_Groups c = ∅)) then
    match cfg_Groups c !! group with
    | None => Err ("group " +:+ group +:+ " not configured")
    | Some gc => let? mask := parseNetmask (gc_Netmask gc) in Ok (gc_Gateway gc, mask)
    end
  else if bool_decide (cfg_Domain c ≠ "") && bool_decide (group ≠ cfg_Domain c)
  then Err ("RegistrationRequest domain " +:+ group +:+ " mismatch config domain " +:+ cfg_Domain c)
  else let? mask := parseNetmask (cfg_Netmask c) in Ok (cfg_Gateway c, mask).

End Validate.
