(* ===== verification/ConfigInv.v ===== *)
(** * What a validated configuration guarantees.

    The netmask check accepts exactly the prefix masks of lengths 1 to 31; with
    such a mask the [uint32] arithmetic of address allocation does not wrap, and
    every group that can be resolved has such a subnet.  The domain of a token is
    the longest configured one, whatever the order of the map. *)
From S2P Require Import Prelude GoString NetIP NetParse Proto ExpireMap Network NetworkInv Config.

(** ** The mask loop *)
Lemma land_bit val i : 0 ≤ i → (Z.land val (Z.shiftl 1 i) =? 0) = negb (Z.testbit val i).
Proof.
  intros Hi. destruct (Z.testbit val i) eqn:E; simpl.
  - apply Z.eqb_neq. intros H0. assert (Z.testbit (Z.land val (Z.shiftl 1 i)) i = false) as Hf by (rewrite H0; apply Z.bits_0).
    rewrite Z.land_spec, E, Z.shiftl_spec, Z.sub_diag in Hf by done. done.
  - apply Z.eqb_eq, Z.bits_inj'. intros j Hj. rewrite Z.land_spec, Z.shiftl_1_l, Z.pow2_bits_eqb, Z.bits_0 by done.
    destruct (Z.eqb_spec i j) as [<-|]; [by rewrite E|apply andb_false_r].
Qed.

Lemma mod_pow2_succ val (i : nat) :
  val mod 2 ^ Z.of_nat (S i) = val mod 2 ^ Z.of_nat i + 2 ^ Z.of_nat i * Z.b2z (Z.testbit val (Z.of_nat i)).
Proof.
  rewrite Nat2Z.inj_succ, Z.pow_succ_r, (Z.mul_comm 2), Z.rem_mul_r by lia.
  rewrite Z.testbit_spec' by lia. lia.
Qed.

Lemma mask_contiguous_zero val n : mask_contiguous val n true = true ↔ val mod 2 ^ Z.of_nat n = 0.
Proof.
  induction n as [|n IH]; [by rewrite Z.mod_1_r|]. cbn [mask_contiguous].
  rewrite land_bit, mod_pow2_succ by lia. destruct (Z.testbit val _); simpl.
  - split; [done|]. intros. pose proof (Z.mod_pos_bound val (2 ^ Z.of_nat n) ltac:(lia)). lia.
  - rewrite IH. lia.
Qed.

Lemma mask_contiguous_spec val n :
  mask_contiguous val n false = true ↔ ∃ k, 0 ≤ k ≤ Z.of_nat n ∧ val mod 2 ^ Z.of_nat n = 2 ^ Z.of_nat n - 2 ^ k.
Proof.
  induction n as [|n IH].
  - rewrite Z.mod_1_r. split; [by exists 0|done].
  - cbn [mask_contiguous]. rewrite land_bit, mod_pow2_succ, Nat2Z.inj_succ, Z.pow_succ_r by lia.
    pose proof (Z.mod_pos_bound val (2 ^ Z.of_nat n) ltac:(lia)).
    destruct (Z.testbit val _); simpl.
    + rewrite IH. split; intros (k & Hk & E); exists k; [lia|]. split; [|lia].
      destruct (decide (k = Z.succ (Z.of_nat n))) as [->|]; [|lia]. rewrite Z.pow_succ_r in E; lia.
    + rewrite mask_contiguous_zero. split.
      * intros E. exists (Z.succ (Z.of_nat n)). rewrite Z.pow_succ_r by lia. lia.
      * intros (k & Hk & E). destruct (decide (k = Z.succ (Z.of_nat n))) as [->|Hne].
        { rewrite Z.pow_succ_r in E; lia. }
        assert (2 ^ k ≤ 2 ^ Z.of_nat n) by (apply Z.pow_le_mono_r; lia). lia.
Qed.

(** ** Subnets *)

(** [mask] is the prefix mask with [k] host bits and [gateway] a private address. *)
Record sane_subnet (gateway : IP) (mask : Z) (k : Z) : Prop := {
  sane_bits : 1 ≤ k ≤ 31;
  sane_mask : mask = 2 ^ 32 - 2 ^ k;
  sane_private : isPrivate (To4 gateway) = true;
  sane_octet : byte_at (To4 gateway) 3 ≠ 255
}.

Lemma be_get_4 l : length l = 4%nat → 0 ≤ be_get l < 2 ^ 32.
Proof. intros Hl. pose proof (be_get_range l) as H. by rewrite Hl in H. Qed.

Lemma validateGatewayAndNetmask_ok gateway netmaskStr :
  validateGatewayAndNetmask gateway netmaskStr = None ↔
  ∃ k, To4 (ParseIP netmaskStr) ≠ [] ∧ sane_subnet gateway (be_get (To4 (ParseIP netmaskStr))) k.
Proof.
  unfold validateGatewayAndNetmask. cbv zeta.
  case_bool_decide as H4.
  { split; [done|]. intros (k & _ & [_ _ Hp _]). by rewrite H4 in Hp. }
  destruct (_ =? 255) eqn:E255; bool_prop.
  { split; [done|]. by intros (k & _ & []). }
  destruct ((224 <=? _) && _) eqn:Emc.
  { split; [done|]. intros (k & _ & [_ _ Hp _]). bool_prop. exfalso.
    destruct (To4_length gateway) as [?|Hl]; [done|].
    destruct (To4 gateway) as [|b0 [|b1 [|b2 [|b3 [|]]]]]; try done. cbn in *.
    repeat (apply orb_true_iff in Hp as [Hp|Hp]); bool_prop; unfold byte_at in *; simpl in *; lia. }
  destruct (isPrivate (To4 gateway)) eqn:Ep; cbn [negb]; [|split; [done|intros (k & _ & []); congruence]].
  destruct (bool_decide (ParseIP netmaskStr = []) || _) eqn:Em.
  { split; [done|]. intros (k & Hne & _). apply orb_true_iff in Em as [Em|Em]; bool_prop; [|done].
    rewrite Em in Hne. done. }
  bool_prop. destruct (To4_length (ParseIP netmaskStr)) as [?|Hl]; [done|].
  apply be_get_4 in Hl. set (val := be_get _) in *.
  destruct ((val =? 0) || _) eqn:Ev.
  { split; [done|]. intros (k & _ & [Hk Hm _ _]). exfalso.
    assert (2 ^ 1 ≤ 2 ^ k ≤ 2 ^ 31) by (split; apply Z.pow_le_mono_r; lia).
    apply orb_true_iff in Ev as [Ev|Ev]; bool_prop; lia. }
  bool_prop. pose proof (mask_contiguous_spec val 32) as Hc. cbn [Z.of_nat] in Hc.
  change (Z.of_nat 32) with 32 in Hc. rewrite Z.mod_small in Hc by done.
  destruct (mask_contiguous val 32 false); split.
  - intros _. destruct Hc as [Hc _]. destruct (Hc eq_refl) as (k & Hk & E). exists k. split; [done|].
    split; [|done..]. assert (k ≠ 0) by (intros ->; lia). assert (k ≠ 32) by (intros ->; lia). lia.
  - by intros _.
  - done.
  - intros (k & _ & [Hk Hm _ _]). destruct Hc as [_ Hc]. discriminate Hc. exists k. lia.
Qed.

Lemma testbit_high v j : 0 ≤ v < 2 ^ 32 → 32 ≤ j → Z.testbit v j = false.
Proof.
  intros Hv Hj. destruct (decide (v = 0)) as [->|]; [apply Z.bits_0|].
  apply Z.bits_above_log2; [lia|]. apply Z.log2_lt_pow2; [lia|].
  assert (2 ^ 32 ≤ 2 ^ j) by (apply Z.pow_le_mono_r; lia). lia.
Qed.

Lemma land_prefix ip k : 0 ≤ k ≤ 32 → 0 ≤ ip < 2 ^ 32 → Z.land ip (2 ^ 32 - 2 ^ k) = ip - ip mod 2 ^ k.
Proof.
  intros Hk Hip.
  replace (2 ^ 32 - 2 ^ k) with (Z.shiftl (Z.ones (32 - k)) k).
  2:{ rewrite Z.shiftl_mul_pow2, Z.ones_equiv by lia. rewrite <-Z.sub_1_r, Z.mul_sub_distr_r, <-Z.pow_add_r by lia.
      replace (32 - k + k) with 32 by lia. lia. }
  rewrite <-(Z.land_ones ip k) by lia.
  replace (ip - Z.land ip (Z.ones k)) with (Z.ldiff ip (Z.ones k)).
  2:{ rewrite (Z.land_ones ip k), Z.ldiff_ones_r, Z.shiftr_div_pow2, Z.shiftl_mul_pow2 by lia.
      pose proof (Z.div_mod ip (2 ^ k)). lia. }
  apply Z.bits_inj'. intros j Hj. rewrite Z.land_spec, Z.ldiff_spec, Z.shiftl_spec by done.
  destruct (decide (j < k)).
  - rewrite (Z.testbit_neg_r (Z.ones _)), (Z.ones_spec_low k j) by lia. by rewrite !andb_false_r.
  - rewrite (Z.ones_spec_high k j) by lia. destruct (decide (j < 32)).
    + by rewrite Z.ones_spec_low by lia.
    + by rewrite Z.ones_spec_high, (testbit_high ip) by lia.
Qed.

Lemma not32_sub v : 0 ≤ v < 2 ^ 32 → not32 v = 2 ^ 32 - 1 - v.
Proof.
  intros Hv. change (2 ^ 32 - 1) with (Z.ones 32). rewrite Z.sub_nocarry_ldiff.
  - apply Z.bits_inj'. intros j Hj. unfold not32. rewrite Z.lxor_spec, Z.ldiff_spec.
    destruct (decide (j < 32)); [rewrite Z.ones_spec_low by lia; by destruct (Z.testbit v j)|].
    rewrite (testbit_high v) by lia. by rewrite Z.ones_spec_high by lia.
  - apply Z.bits_inj'. intros j Hj. rewrite Z.ldiff_spec, Z.bits_0.
    destruct (decide (j < 32)); [rewrite Z.ones_spec_low by lia; by rewrite andb_false_r|].
    by rewrite (testbit_high v) by lia.
Qed.

(** The subnet arithmetic of address allocation, free of wrap-around. *)
Lemma subnet_bounds gateway mask k :
  1 ≤ k ≤ 31 → MaskToUint32 mask = 2 ^ 32 - 2 ^ k →
  let net := IpToUint32 gateway - IpToUint32 gateway mod 2 ^ k in
  network_ip gateway mask = net ∧ broadcast_ip gateway mask = net + 2 ^ k - 1
  ∧ first_ip gateway mask = net + 1 ∧ last_ip gateway mask = net + 2 ^ k - 2
  ∧ 0 ≤ net ∧ net + 2 ^ k ≤ 2 ^ 32.
Proof.
  intros Hk Hm net. pose proof (IpToUint32_range gateway) as Hg.
  assert (2 ≤ 2 ^ k < 2 ^ 32) as Hp.
  { split; [change 2 with (2 ^ 1) at 1; apply Z.pow_le_mono_r; lia|apply Z.pow_lt_mono_r; lia]. }
  assert (Hnet : network_ip gateway mask = net) by (unfold network_ip; rewrite Hm; apply land_prefix; lia).
  assert (0 ≤ net ∧ net + 2 ^ k ≤ 2 ^ 32) as [Hn1 Hn2].
  { pose proof (Z.div_mod (IpToUint32 gateway) (2 ^ k) ltac:(lia)) as Hd.
    pose proof (Z.mod_pos_bound (IpToUint32 gateway) (2 ^ k) ltac:(lia)).
    assert (net = 2 ^ k * (IpToUint32 gateway / 2 ^ k)) as -> by lia.
    assert (0 ≤ IpToUint32 gateway / 2 ^ k < 2 ^ (32 - k)) as Hq.
    { split; [apply Z.div_pos; lia|]. apply Z.div_lt_upper_bound; [lia|].
      rewrite <-Z.pow_add_r by lia. replace (k + (32 - k)) with 32 by lia. lia. }
    assert (2 ^ k * 2 ^ (32 - k) = 2 ^ 32) by (rewrite <-Z.pow_add_r by lia; f_equal; lia). nia. }
  assert (Hb : broadcast_ip gateway mask = net + 2 ^ k - 1).
  { unfold broadcast_ip. rewrite Hnet, Hm, not32_sub by lia.
    replace (2 ^ 32 - 1 - (2 ^ 32 - 2 ^ k)) with (Z.ones k) by (rewrite Z.ones_equiv; lia).
    rewrite <-Z.add_nocarry_lor; [rewrite Z.ones_equiv; lia|].
    rewrite Z.land_ones by lia. unfold net. rewrite Zminus_mod_idemp_r, Z.sub_diag. apply Z.mod_0_l. lia. }
  split_and!; [done|done|..]; [| |lia..].
  - unfold first_ip. rewrite Hnet. apply u32_small. lia.
  - unfold last_ip. rewrite Hb. rewrite u32_small; lia.
Qed.

(** ** Validated configurations *)
Lemma orElse_None e k : orElse e k = None ↔ e = None ∧ k = None.
Proof. destruct e; simpl; naive_solver. Qed.

Lemma first_error_None {A} (check : A → error) l : first_error check l = None ↔ ∀ a, a ∈ l → check a = None.
Proof.
  induction l as [|a l IH]; simpl.
  - split; [|done]. intros _ a []%not_elem_of_nil.
  - rewrite orElse_None, IH. setoid_rewrite elem_of_cons. naive_solver.
Qed.

Lemma parseNetmask_Ok netmask mask :
  parseNetmask netmask = Ok mask → mask = To4 (ParseIP netmask) ∧ To4 (ParseIP netmask) ≠ [].
Proof. unfold parseNetmask. destruct (_ || _) eqn:E; [done|]. bool_prop. by intros [= <-]. Qed.

Lemma MaskToUint32_4 mask : length mask = 4%nat → MaskToUint32 mask = be_get mask.
Proof. intros Hl. unfold MaskToUint32. by rewrite bool_decide_eq_true_2, Hl by lia. Qed.

Lemma checked_subnet gateway netmask mask :
  validateGatewayAndNetmask gateway netmask = None → parseNetmask netmask = Ok mask →
  ∃ k, sane_subnet gateway (MaskToUint32 mask) k.
Proof.
  intros (k & Hne & Hs)%validateGatewayAndNetmask_ok [-> _]%parseNetmask_Ok. exists k.
  destruct (To4_length (ParseIP netmask)) as [?|Hl]; [done|]. by rewrite MaskToUint32_4.
Qed.

(** The group tables that a lookup can reach hold only checked subnets. *)
Definition checked_config (c : Config) : Prop :=
  (∀ domain dc group gc, cfg_Domains c !! domain = Some dc → dc_Groups dc !! group = Some gc →
     validate_group "domains.<domain>.groups.<group>.dns_service_ip" gc = None)
  ∧ (cfg_Domains c = ∅ → ∀ group gc, cfg_Groups c !! group = Some gc →
     validate_group "groups.<group>.dns_service_ip" gc = None)
  ∧ (cfg_Domains c = ∅ → cfg_Groups c = ∅ → validateGatewayAndNetmask (cfg_Gateway c) (cfg_Netmask c) = None).

Lemma validate_domains_checked o c c' :
  validate_domains o c = (c', None) → cfg_Domains c ≠ ∅ → checked_config c'.
Proof.
  unfold validate_domains. intros H Hne.
  destruct (orElse _ _) as [|]; [done|]. assert (Hc := f_equal fst H). assert (He := f_equal snd H).
  cbn [fst snd] in Hc, He. clear H.
  assert (cfg_Domains c' = cfg_Domains c) as Hd by (by subst c').
  rewrite Hc in He. destruct (negb _); [done|]. case_bool_decide; [done|].
  rewrite first_error_None in He. split_and!; [|by rewrite Hd..].
  intros domain dc group gc Hdc Hgc. specialize (He (domain, dc) ltac:(by apply elem_of_range)).
  simpl in He. destruct (negb _); [done|]. case_bool_decide; [done|].
  rewrite first_error_None in He. specialize (He (group, gc) ltac:(by apply elem_of_range)).
  simpl in He. by destruct (negb _).
Qed.

Lemma Validate_checked o c c' : Validate o c = (c', None) → checked_config c'.
Proof.
  unfold Validate. intros H. case_bool_decide; [done|]. destruct (SplitHostPort _); [|done].
  case_bool_decide as Hd; simpl in H; [|by apply validate_domains_checked in H].
  case_bool_decide as Hg; injection H as <- He; simpl in *; unfold const in *.
  - split_and!; simpl; unfold const.
    + rewrite Hd. intros *. by rewrite lookup_empty.
    + rewrite Hg. intros _ *. by rewrite lookup_empty.
    + intros _ _. by apply orElse_None in He as [? _].
  - split_and!; simpl; unfold const.
    + rewrite Hd. intros *. by rewrite lookup_empty.
    + intros _ group gc Hgc. unfold validate_groups in He. simpl in He. unfold const in He.
      apply orElse_None in He as [He _]. rewrite first_error_None in He.
      specialize (He (group, gc) ltac:(by apply elem_of_range)). simpl in He. by destruct (negb _).
    + done.
Qed.

Lemma resolve_sane o c group gateway mask :
  checked_config c → resolveGroupNetworkConfig o c group = Ok (gateway, mask) →
  ∃ k, sane_subnet gateway (MaskToUint32 mask) k.
Proof.
  intros (Hdom & Hgrp & Hsingle). unfold resolveGroupNetworkConfig.
  case_bool_decide as Hd; simpl.
  - case_bool_decide as Hg; simpl.
    + destruct (_ && _); [done|]. intros (m & Hm & [= <- <-])%rbind_Ok. eapply checked_subnet; eauto.
    + destruct (cfg_Groups c !! group) as [gc|] eqn:E; [|done]. intros (m & Hm & [= <- <-])%rbind_Ok.
      eapply checked_subnet; [|done]. by apply Hgrp in E as [? _]%orElse_None.
  - destruct (matchDomainAndGroup _ _ _) as [[dn gn]|]; [|done].
    destruct (group_config c dn gn) as [gc|] eqn:E; [|done]. intros (m & Hm & [= <- <-])%rbind_Ok.
    unfold group_config in E. apply bind_Some in E as (dc & Hdc & Hgc).
    eapply checked_subnet; [|done]. by eapply Hdom in Hgc as [? _]%orElse_None.
Qed.


(** ** The domain of a token *)

(** [d] is a configured domain that the token ends in. *)
Definition token_in (token : string) (domains : gmap string DomainConfig) (d : string) : Prop :=
  is_Some (domains !! d) ∧ d ≠ "" ∧ ∃ p, token = p +:+ "." +:+ d.

Lemma best_domain_fold token l best :
  let r := foldl (best_domain token) best l in
  (r = best ∨ r ∈ l ∧ HasSuffix token ("." +:+ r) = true)
  ∧ (String.length best ≤ String.length r)%nat
  ∧ (∀ d, d ∈ l → HasSuffix token ("." +:+ d) = true → (String.length d ≤ String.length r)%nat).
Proof.
  revert best. induction l as [|x l IH]; intros best; simpl.
  - split_and!; [by left|done|]. intros d []%not_elem_of_nil.
  - destruct (IH (best_domain token best x)) as (H1 & H2 & H3). unfold best_domain in *.
    destruct (HasSuffix token ("." +:+ x)) eqn:Ex; simpl in *.
    + case_bool_decide as Hlen; split_and!; try lia.
      all: try (intros d [->|Hd]%elem_of_cons Hs; [lia|by apply H3]).
      all: destruct H1 as [->|[? ?]]; [|right; split; [by right|done]]; auto.
      right. split; [by left|done].
    + split_and!; [|done|].
      * destruct H1 as [->|[? ?]]; [by left|right]. split; [by right|done].
      * intros d [->|Hd]%elem_of_cons Hs; [congruence|by apply H3].
Qed.

Lemma suffix_same_length p q d e : p +:+ d = q +:+ e → String.length d = String.length e → d = e.
Proof.
  intros E Hl. apply (f_equal chars) in E. rewrite !chars_app in E.
  apply chars_inj. rewrite <-!length_chars in Hl. by apply app_inj_2 in E as [_ ?].
Qed.

(** [matchDomainAndGroup] splits a token into group and domain:
    the domain is the longest configured one such that the token ends in a dot and
    the domain, the group is the trimmed rest and not empty.  The answer does not
    depend on the order in which the map of domains is visited. *)
Theorem matchDomainAndGroup_spec (o : RangeOrder) (token : string) (domains : gmap string DomainConfig) d g :
  matchDomainAndGroup o token domains = Some (d, g) ↔
  token_in token domains d ∧ (∀ d', token_in token domains d' → (String.length d' ≤ String.length d)%nat)
  ∧ g ≠ "" ∧ ∃ p, token = p +:+ "." +:+ d ∧ g = TrimSpace p.
Proof.
  unfold matchDomainAndGroup. destruct (best_domain_fold token (range o domains).*1 "") as (H1 & _ & H3).
  set (r := foldl _ _ _) in *. clearbody r. cbv zeta.
  assert (Hin : ∀ x, x ∈ (range o domains).*1 ↔ is_Some (domains !! x)).
  { intros x. rewrite list_elem_of_fmap. split.
    - intros ([k v] & -> & Hx%elem_of_range). by eexists.
    - intros [v Hv]. exists (x, v). by rewrite elem_of_range. }
  assert (Hmax : ∀ d', token_in token domains d' → (String.length d' ≤ String.length r)%nat).
  { intros d' (Hd & _ & Hp). apply H3; [by apply Hin|]. by apply HasSuffix_spec. }
  case_bool_decide as Hr.
  { split; [done|]. intros ((? & Hne & ?) & _). specialize (Hmax d ltac:(by split)). rewrite Hr in Hmax.
    destruct d; [done|simpl in Hmax; lia]. }
  destruct H1 as [?|[Hr1 Hr2]]; [done|]. apply Hin in Hr1. apply HasSuffix_spec in Hr2 as [p Hp].
  assert (token_in token domains r) as Htr by (split_and!; eauto).
  assert (TrimSuffix token ("." +:+ r) = p) as -> by (rewrite Hp; apply TrimSuffix_app).
  assert (Huniq : ∀ q, token_in token domains d → (∀ d', token_in token domains d' → (String.length d' ≤ String.length d)%nat) →
    token = q +:+ "." +:+ d → d = r ∧ q = p).
  { intros q Hd Hmaxd Hq. pose proof (Hmax d Hd). pose proof (Hmaxd r Htr).
    assert (d = r) as ->. { eapply (suffix_same_length (q +:+ ".") (p +:+ ".")); [|lia]. by rewrite !string_app_assoc, <-Hp. }
    rewrite Hp in Hq. by apply string_app_inj_r in Hq as ->. }
  case_bool_decide as Hg; split; [done|..].
  - intros (Hd & Hmaxd & Hg' & q & Hq & ->). by destruct (Huniq q Hd Hmaxd Hq) as [-> ->].
  - intros [= <- <-]. split_and!; [done..|by eauto].
  - intros (Hd & Hmaxd & Hg' & q & Hq & ->). by destruct (Huniq q Hd Hmaxd Hq) as [-> ->].
Qed.

(** ** A configuration with one domain and one group *)
Module SampleConfig.

Definition group : GroupConfig :=
  mkGroupConfig (ParseIP "10.26.0.1") "255.255.255.0" "10.26.0.53" [] [].
Definition cfg : Config :=
  mkConfig [] "" "" "" [] [] ∅ "ms.net" {[ "ms.net" := mkDomainConfig {[ "default" := group ]} ]} "" "secret" "" "".
Definition cfg' : Config := (Validate ascending cfg).1.
Definition mask : list byte := [xff; xff; xff; x00].

Lemma cfg_valid : Validate ascending cfg = (cfg', None).
Proof. vm_compute. reflexivity. Qed.

Lemma cfg_group : resolveGroupNetworkConfig descending cfg' "default.ms.net" = Ok (ParseIP "10.26.0.1", mask).
Proof. vm_compute. reflexivity. Qed.

End SampleConfig.


(** The broadcast check looks only at the last octet: with 25 prefix bits the
    broadcast address of the subnet is accepted as gateway. *)
Example broadcast_gateway_accepted :
  validateGatewayAndNetmask (ParseIP "10.0.0.127") "255.255.255.128" = None
  ∧ broadcast_ip (ParseIP "10.0.0.127") (To4 (ParseIP "255.255.255.128")) = IpToUint32 (ParseIP "10.0.0.127").
Proof. split; vm_compute; reflexivity. Qed.
