(* ===== verification/ConfigFile.v ===== *)
(** * The configuration file: [Config], its struct tags and [LoadConfig] of
    [config/config.go], and the file that is shipped as [config/config.json]. *)
From S2P Require Import Prelude GoString NetIP GoText NetParse GoJson GoJsonInv JsonCodec Network Config ConfigInv.

(** [config.Config]: [fc_base] has the fields that the controller reads. *)
Record FileConfig := mkFileConfig {
  fc_base : Config; fc_ListenAddr : string; fc_AdminHTTPAddr : string; fc_AdminHTTPToken : string; fc_DatabaseURL : string;
  fc_AutoCertDomain : string; fc_AutoCertEmail : string; fc_CertCacheDir : string; fc_TLSCertPath : string;
  fc_TLSKeyPath : string; fc_ClientCAPath : string; fc_RequireClientCert : bool; fc_DebugCollectDir : string;
  fc_DebugCollectKeepPerDevice : Z
}.
Definition zeroFileConfig : FileConfig :=
  mkFileConfig (mkConfig [] "" "" "" [] [] ∅ "" ∅ "" "" "" "") "" "" "" "" "" "" "" "" "" "" false "" 0.

(** [net.IP] through [MarshalText] and [UnmarshalText]: no address is the empty text, and
    a text that is not an address an error. *)
Definition ip_codec : codec IP :=
  mkCodec [] (λ ip, bool_decide (length ip = 0%nat))
    (λ ip, if bool_decide (length ip = 0%nat) then Some (quote_json "")
           else if bool_decide (length ip ∈ [4; 16]%nat) then Some (quote_json (IP_String ip)) else None)
    (λ j _, match j with
            | JString lit => let s := unquoted lit in
                             if bool_decide (s = "") then Some [] else
                             let ip := ParseIP s in if bool_decide (length ip = 0%nat) then None else Some ip
            | JNull => Some []
            | _ => None
            end).

Local Abbreviation own name omit codec get := (mkField name omit codec get (λ a c, c <| get := a |>)).
#[warnings="-inconsistent-scopes"]
Local Abbreviation base name omit codec get :=
  (mkField name omit codec (λ c, get (fc_base c)) (λ a c, c <| fc_base := (fc_base c) <| get := a |> |>)).

Section File.
Context `{UnicodeFold} (json_error : string → string).

Definition group_config_fields : list (struct_field GroupConfig) :=
  [own "gateway" false ip_codec gc_Gateway; own "netmask" false string_codec gc_Netmask;
   own "dns_service_ip" true string_codec gc_DNSServiceIP; own "dns_servers" true (slice_codec string_codec) gc_DNSServers;
   own "dns_match_domains" true (slice_codec string_codec) gc_DNSMatchDomains].
Definition group_codec : codec GroupConfig := struct_codec (mkGroupConfig [] "" "" [] []) group_config_fields.
Definition domain_config_fields : list (struct_field DomainConfig) := [own "groups" false (map_codec group_codec) dc_Groups].
Definition domain_codec : codec DomainConfig := struct_codec (mkDomainConfig ∅) domain_config_fields.

Definition config_fields : list (struct_field FileConfig) :=
  [base "gateway" false ip_codec cfg_Gateway;
   base "domain" false string_codec cfg_Domain;
   base "netmask" false string_codec cfg_Netmask;
   base "dns_service_ip" true string_codec cfg_DNSServiceIP;
   base "dns_servers" true (slice_codec string_codec) cfg_DNSServers;
   base "dns_match_domains" true (slice_codec string_codec) cfg_DNSMatchDomains;
   base "groups" false (map_codec group_codec) cfg_Groups;
   base "default_domain" false string_codec cfg_DefaultDomain;
   base "domains" false (map_codec domain_codec) cfg_Domains;
   base "default_gateway_id" false string_codec cfg_DefaultGatewayID;
   base "gateway_ticket_secret" false string_codec cfg_GatewayTicketSecret;
   base "dns_service_addr" true string_codec cfg_DNSServiceAddr;
   own "listen_addr" false string_codec fc_ListenAddr;
   own "admin_http_addr" true string_codec fc_AdminHTTPAddr;
   own "admin_http_token" true string_codec fc_AdminHTTPToken;
   own "database_url" true string_codec fc_DatabaseURL;
   own "autocert_domain" false string_codec fc_AutoCertDomain;
   base "autocert_http_addr" false string_codec cfg_AutoCertHTTPAddr;
   own "autocert_email" false string_codec fc_AutoCertEmail;
   own "cert_cache_dir" false string_codec fc_CertCacheDir;
   own "tls_cert_path" false string_codec fc_TLSCertPath;
   own "tls_key_path" false string_codec fc_TLSKeyPath;
   own "client_ca_path" false string_codec fc_ClientCAPath;
   own "require_client_cert" false bool_codec fc_RequireClientCert;
   own "debug_collect_dir" true string_codec fc_DebugCollectDir;
   own "debug_collect_keep_per_device" true int_codec fc_DebugCollectKeepPerDevice].
Definition config_codec : codec FileConfig := struct_codec zeroFileConfig config_fields.

(** [json.Decoder.Decode] *)
Definition decode_config (data : string) : result FileConfig :=
  match JsonDecode config_codec data zeroFileConfig with Some cfg => Ok cfg | None => Err (json_error data) end.

(** [open] yields the content of a file. *)
Definition LoadConfig (o : RangeOrder) (open : string → result string) (path : string) : result FileConfig :=
  let? data := open path in
  let? cfg := decode_config data in
  match Validate o (fc_base cfg) with
  | (_, Some e) => Err e
  | (c, None) => Ok (cfg <| fc_base := c |>)
  end.
End File.

(** ** The file in the repository *)

(** Quotes are written as apostrophes. *)
Definition with_quotes (s : string) : string := str (map (λ c, if bool_decide (c = "'"%char) then quote_char34 else c) (chars s)).
Definition shipped_config : string := with_quotes
"{
    'default_domain': 'ms.net',
    'default_gateway_id': 'default',
    'gateway_ticket_secret': 'dev-gateway-ticket-secret-change-me',
    'dns_service_addr': '127.0.0.1:53',
    'domains': {
        'ms.net': {
            'groups': {
                'sales': {
                    'gateway': '10.26.0.1',
                    'netmask': '255.255.255.0',
                    'dns_service_ip': '10.26.0.53'
                },
                'marketing': {
                    'gateway': '10.27.0.1',
                    'netmask': '255.255.255.0',
                    'dns_service_ip': '10.27.0.53'
                }
            }
        },
        'dev.net': {
            'groups': {
                'qa': {
                    'gateway': '10.28.0.1',
                    'netmask': '255.255.255.0',
                    'dns_service_ip': '10.28.0.53'
                }
            }
        }
    },
    'listen_addr': ':443',
    'admin_http_addr': '',
    'admin_http_token': '',
    'autocert_http_addr': ':80',
    'autocert_email': 'admin@middlescale.com',
    'cert_cache_dir': './cert-cache'
}".

Definition shipped : result FileConfig := @LoadConfig AsciiFold id ascending (λ _, Ok shipped_config) "config/config.json".

(** It is accepted: three groups, each with the address of its gateway and its mask. *)
Lemma shipped_config_accepted : ∃ cfg, shipped = Ok cfg ∧ fc_ListenAddr cfg = ":443" ∧ cfg_DefaultDomain (fc_base cfg) = "ms.net"
  ∧ (λ d, (λ g, (IpToUint32 (gc_Gateway g), gc_Netmask g)) <$> dc_Groups d) <$> cfg_Domains (fc_base cfg)
    = {[ "ms.net" := {[ "sales" := (0x0A1A0001, "255.255.255.0"); "marketing" := (0x0A1B0001, "255.255.255.0") ]};
         "dev.net" := {[ "qa" := (0x0A1C0001, "255.255.255.0") ]} ]}.
Proof.
  destruct shipped as [cfg|e] eqn:E; [|vm_compute in E; discriminate E]. exists cfg. split; [done|].
  vm_compute in E. injection E as <-. by vm_compute.
Qed.
