(* ===== verification/UserManager.v ===== *)
(** * Users, enrolments, device tickets and authenticated devices:
    [control/user.go] and the snapshot type of [control/user_store.go].

    [UserManager] is the struct without its mutex and store.  Every operation
    locks the mutex for its whole body except where noted ([AuthDevice] and
    [CreateEnrollment] use two critical sections), so one definition is one
    atomic step.  A [time.Time] is a number of nanoseconds since the Unix epoch;
    [now] is the clock reading of the step.

    [save] is [m.store.Save] at that moment (the error text, or [None] for
    success; a manager without a store always succeeds), [sha256] is
    [crypto/sha256] and [rand] the outcome of [rand.Read]. *)
From S2P Require Import Prelude GoString NetIP NetParse Proto ExpireMap Network.

(** [time.Time{}]: January 1 of year 1. *)
Definition zero_time : Z := -62135596800 * 10 ^ 9.
Definition time_IsZero (t : Z) : bool := t =? zero_time.

Record UMUser := mkUMUser { u_UserID : string; u_Name : string; u_Domain : string; u_CreatedAt : Z }.

Record UMUserAdminView := mkUMUserAdminView {
  v_UserID : string; v_Name : string; v_Email : string; v_Group : string; v_Domain : string; v_CreatedAtUnix : Z
}.

Record UMEnrollment := mkUMEnrollment {
  e_Code : string; e_UserID : string; e_ExpireAt : Z; e_Used : bool; e_CreatedAt : Z
}.

Record UMDevice := mkUMDevice {
  d_UserID : string; d_DeviceID : string; d_DisplayName : string; d_PubKeyAlg : string;
  d_PubKeyHex : string; d_CreatedAt : Z; d_LastBoundAt : Z
}.

Record UMPolicy := mkUMPolicy {
  p_UserID : string; p_GroupName : string; p_UserExpireAtUnixMs : Z; p_UserGracePeriodSeconds : Z;
  p_AllowP2P : bool; p_AllowRelay : bool; p_MaxDevices : Z; p_EnrollmentTTLSeconds : Z;
  p_GatewayTicketTTLSeconds : Z; p_CreatedAt : Z; p_UpdatedAt : Z
}.

Record UMDeviceTicket := mkUMDeviceTicket {
  t_Ticket : string; t_UserID : string; t_GroupName : string; t_ExpireAt : Z; t_Used : bool; t_CreatedAt : Z
}.

Record UMAuthDevice := mkUMAuthDevice {
  a_UserID : string; a_GroupName : string; a_DeviceID : string; a_DisplayName : string;
  a_PubKeyHex : string; a_AuthedAt : Z; a_AuthExpireAt : Z
}.

Definition zeroTicket : UMDeviceTicket := mkUMDeviceTicket "" "" "" zero_time false zero_time.

Record UserManager := mkUserManager {
  userSeq : Z;
  enrollmentSeq : Z;
  users : gmap string UMUser;
  policies : gmap string UMPolicy;
  enrollments : gmap string UMEnrollment;
  deviceByPubKey : gmap string UMDevice;
  authedDevices : gmap string UMAuthDevice;
  deviceTickets : gmap string UMDeviceTicket
}.

(** [UMSnapshot] has the same fields under other names. *)
Record UMSnapshot := mkUMSnapshot {
  s_UserSeq : Z;
  s_EnrollmentSeq : Z;
  s_Users : gmap string UMUser;
  s_Policies : gmap string UMPolicy;
  s_Enrollments : gmap string UMEnrollment;
  s_DeviceByPubKey : gmap string UMDevice;
  s_CertifiedDevices : gmap string UMAuthDevice;
  s_DeviceTickets : gmap string UMDeviceTicket
}.

Definition defaultDeviceAuthTTL : Z := 30 * 24 * hour.

Definition NewUserManager : UserManager := mkUserManager 0 0 ∅ ∅ ∅ ∅ ∅ ∅.

(** ** Pure helpers *)
Definition hex_byte (b : byte) : string :=
  String (hex_digit (b2z b / 16)) (String (hex_digit (b2z b mod 16)) "").

Definition EncodeToString (l : list byte) : string := foldr (λ b acc, hex_byte b +:+ acc) "" l.

Definition authedDeviceKey (groupName deviceID : string) : string := groupName +:+ "|" +:+ deviceID.

Definition normalizeGroupForUser (groupName userDomain : string) : result string :=
  let userDomain := if bool_decide (TrimSpace userDomain = "") then "ms.net" else userDomain in
  if Contains groupName "." then
    if bool_decide (groupName = userDomain) then Ok groupName
    else if negb (HasSuffix groupName ("." +:+ userDomain))
    then Err ("group " +:+ groupName +:+ " does not belong to user domain " +:+ userDomain)
    else Ok groupName
  else Ok (groupName +:+ "." +:+ userDomain).

(** [registration.go: normalizeRenameName]. *)
Definition normalizeRenameName (name : string) : result string :=
  let name := TrimSpace name in
  if bool_decide (name = "") then Err "name is empty"
  else if (128 <? Z.of_nat (String.length name)) then Err "name too long"
  else Ok name.

(** [newSecureTicketID]: [rand] is the outcome of filling the 16-byte buffer. *)
Definition newSecureTicketID (rand : result (list byte)) : result string :=
  match rand with
  | Err e => Err ("generate secure ticket id: " +:+ e)
  | Ok buf => Ok ("dtk-" +:+ EncodeToString buf)
  end.

Definition generateBasicPolicyLocked (now : Z) (userID : string) : UMPolicy :=
  {| p_UserID := userID; p_GroupName := userID; p_UserExpireAtUnixMs := 0;
     p_UserGracePeriodSeconds := 24 * 60 * 60; p_AllowP2P := true; p_AllowRelay := true;
     p_MaxDevices := 32; p_EnrollmentTTLSeconds := 15 * 60; p_GatewayTicketTTLSeconds := 2 * 60;
     p_CreatedAt := now; p_UpdatedAt := now |}.

(** One row of the table of [wildcardMatch]: [prev] is the row of the pattern
    before this rune; the result is computed from its second entry on. *)
Fixpoint star_row (left : bool) (matches : list bool) : list bool :=
  match matches with
  | [] => []
  | m :: matches' => let b := m || left in b :: star_row b matches'
  end.

Fixpoint rune_row (patternRune : Z) (matches : list bool) (valueRunes : list Z) : list bool :=
  match matches, valueRunes with
  | m :: matches', v :: valueRunes' =>
      (m && ((patternRune =? 63) || (patternRune =? v))) :: rune_row patternRune matches' valueRunes'
  | _, _ => []
  end.

Definition wildcard_step (valueRunes : list Z) (matches : list bool) (patternRune : Z) : list bool :=
  if patternRune =? 42 then
    match matches with
    | [] => []
    | m :: matches' => m :: star_row m matches'
    end
  else false :: rune_row patternRune matches valueRunes.

Definition wildcardMatch (pattern value : string) : bool :=
  let patternRunes := string_runes pattern in
  let valueRunes := string_runes value in
  let matches := true :: replicate (length valueRunes) false in
  let matches := foldl (wildcard_step valueRunes) matches patternRunes in
  default false (last matches).

Definition view_le (a b : UMUserAdminView) : Prop := String.leb (v_UserID a) (v_UserID b) = true.
#[export] Instance view_le_dec a b : Decision (view_le a b) := decide (_ = true).

(** ** Snapshot and restore *)
Definition cloneAuthedDevices (o : RangeOrder) (src : gmap string UMAuthDevice) : gmap string UMAuthDevice :=
  foldl (λ dst '(k, v),
      let key := if bool_decide (TrimSpace (a_DeviceID v) ≠ "")
                 then authedDeviceKey (TrimSpace (a_GroupName v)) (TrimSpace (a_DeviceID v)) else k in
      <[key := v]> dst)
    ∅ (range o src).

Definition snapshotLocked (o : RangeOrder) (m : UserManager) : UMSnapshot :=
  {| s_UserSeq := userSeq m; s_EnrollmentSeq := enrollmentSeq m; s_Users := users m;
     s_Policies := policies m; s_Enrollments := enrollments m; s_DeviceByPubKey := deviceByPubKey m;
     s_CertifiedDevices := cloneAuthedDevices o (authedDevices m); s_DeviceTickets := deviceTickets m |}.

Definition restore (o : RangeOrder) (now : Z) (snapshot : UMSnapshot) : UserManager :=
  {| userSeq := s_UserSeq snapshot; enrollmentSeq := s_EnrollmentSeq snapshot;
     users := s_Users snapshot;
     policies := s_Policies snapshot ∪ map_imap (λ userID _, Some (generateBasicPolicyLocked now userID)) (s_Users snapshot);
     enrollments := s_Enrollments snapshot; deviceByPubKey := s_DeviceByPubKey snapshot;
     authedDevices := cloneAuthedDevices o (s_CertifiedDevices snapshot);
     deviceTickets := s_DeviceTickets snapshot |}.

Definition NewUserManagerWithStore (o : RangeOrder) (now : Z) (load : result UMSnapshot) : result UserManager :=
  let? snapshot := load in Ok (restore o now snapshot).

Section UserManager.
Context `{UnicodeFold} (o : RangeOrder) (save : UMSnapshot → option string) (sha256 : list byte → list byte).

Definition toPubKeyHex (pubKey : list byte) (pubKeyAlg : string) : string :=
  EncodeToString (sha256 (String.list_byte_of_string (pubKeyAlg +:+ ":") ++ pubKey)).

Definition saveLocked (m : UserManager) : option string := save (snapshotLocked o m).

(** The end of a mutating operation: the new state stays in memory whether or
    not it could be saved; the caller sees the error. *)
Definition finish {A} (a : A) (m : UserManager) : UserManager * result A :=
  match saveLocked m with
  | Some err => (m, Err err)
  | None => (m, Ok a)
  end.

(** The loop of [CreateUser] over [u-1], [u-2], ...: the sequence number and the
    first identifier not in use.  [userSeq.Add(1)] wraps around at 2^64. *)
Definition user_id_taken (seq : Z) (us : gmap string UMUser) (k : Z) : bool :=
  bool_decide (is_Some (us !! ("u-" +:+ dec (u64 (seq + k))))).

Definition next_user_id (seq : Z) (us : gmap string UMUser) : Z * string :=
  let seq := u64 (seq + first_free (size us) (user_id_taken seq us) 1) in
  (seq, "u-" +:+ dec seq).

Definition CreateUser (now : Z) (name : string) (domain : list string) (m : UserManager) : UserManager * result UMUser :=
  if bool_decide (name = "") then (m, Err "user name is empty") else
  let userDomain :=
    match domain with
    | d :: _ => if bool_decide (TrimSpace d ≠ "") then TrimSpace d else "ms.net"
    | [] => "ms.net"
    end in
  let '(seq, id) := next_user_id (userSeq m) (users m) in
  let user := mkUMUser id name userDomain now in
  finish user (m <| userSeq := seq |> <| users := <[id := user]> (users m) |>
                 <| policies := <[id := generateBasicPolicyLocked now id]> (policies m) |>).

Definition CreateUserWithID (now : Z) (userID domain group : string) (m : UserManager) : UserManager * result UMUser :=
  let userID := TrimSpace userID in
  if bool_decide (userID = "") then (m, Err "user id is empty") else
  let userDomain := if bool_decide (TrimSpace domain ≠ "") then TrimSpace domain else "ms.net" in
  let defaultGroup := TrimSpace group in
  let defaultGroup := if bool_decide (defaultGroup = "") then "default" else defaultGroup in
  match normalizeGroupForUser defaultGroup userDomain with
  | Err e => (m, Err e)
  | Ok normalizedGroup =>
      let user := mkUMUser userID userID userDomain now in
      let policy := (generateBasicPolicyLocked now userID) <| p_GroupName := normalizedGroup |>
                      <| p_UpdatedAt := now |> in
      match users m !! userID with
      | Some existing =>
          if bool_decide (u_Domain existing ≠ userDomain)
          then (m, Err ("user " +:+ userID +:+ " already exists")) else
          match policies m !! userID with
          | None => finish existing (m <| policies := <[userID := policy]> (policies m) |>)
          | Some _ => (m, Ok existing)
          end
      | None =>
          finish user (m <| users := <[userID := user]> (users m) |>
                         <| policies := <[userID := policy]> (policies m) |>)
      end
  end.

Definition user_view (m : UserManager) (user : UMUser) : UMUserAdminView :=
  {| v_UserID := u_UserID user; v_Name := u_Name user; v_Email := "";
     v_Group := match policies m !! u_UserID user with Some policy => p_GroupName policy | None => "" end;
     v_Domain := u_Domain user; v_CreatedAtUnix := unix (u_CreatedAt user) |}.

Definition ListUsers (idFilter : string) (m : UserManager) : list UMUserAdminView :=
  let idFilter := TrimSpace idFilter in
  merge_sort view_le
    (omap (λ '(_, user),
        if bool_decide (idFilter ≠ "") && negb (wildcardMatch idFilter (u_UserID user)) then None
        else Some (user_view m user))
      (range o (users m))).

(** [CreateEnrollment]: the user is looked up in a first critical section, the
    enrolment is stored in a second one. *)
Definition CreateEnrollment (now : Z) (userID : string) (ttl : Z) (m : UserManager) : UserManager * result UMEnrollment :=
  if ttl <=? 0 then (m, Err "invalid ttl") else
  match users m !! userID with
  | None => (m, Err "user not found")
  | Some _ =>
      let seq := u64 (enrollmentSeq m + 1) in
      let code := "enr-" +:+ dec now +:+ "-" +:+ dec seq in
      let enrollment := mkUMEnrollment code userID (now + ttl) false now in
      finish enrollment (m <| enrollmentSeq := seq |> <| enrollments := <[code := enrollment]> (enrollments m) |>)
  end.

Definition BindDeviceByEnrollment (now : Z) (code deviceID : string) (pubKey : list byte) (pubKeyAlg : string)
    (m : UserManager) : UserManager * result UMDevice :=
  if bool_decide (code = "") then (m, Err "enrollment code is empty") else
  if bool_decide (deviceID = "") then (m, Err "device_id is empty") else
  if bool_decide (pubKey = []) then (m, Err "device public key is empty") else
  if bool_decide (pubKeyAlg = "") then (m, Err "device public key algorithm is empty") else
  let pubKeyHex := toPubKeyHex pubKey pubKeyAlg in
  match enrollments m !! code with
  | None => (m, Err "enrollment not found")
  | Some enrollment =>
      if e_Used enrollment then (m, Err "enrollment already used") else
      if e_ExpireAt enrollment <? now then (m, Err "enrollment expired") else
      match users m !! e_UserID enrollment with
      | None => (m, Err "user not found")
      | Some _ =>
          let other := match deviceByPubKey m !! pubKeyHex with
                       | Some existing => bool_decide (d_UserID existing ≠ e_UserID enrollment)
                       | None => false
                       end in
          if other then (m, Err "device key already bound to another user") else
          let device := mkUMDevice (e_UserID enrollment) deviceID "" pubKeyAlg pubKeyHex now now in
          finish device (m <| deviceByPubKey := <[pubKeyHex := device]> (deviceByPubKey m) |>
                           <| enrollments := <[code := enrollment <| e_Used := true |>]> (enrollments m) |>)
      end
  end.

Definition FindUserByDevicePubKey (pubKey : list byte) (pubKeyAlg : string) (m : UserManager) : option UMUser :=
  device ← deviceByPubKey m !! toPubKeyHex pubKey pubKeyAlg;
  users m !! d_UserID device.

Definition GetPolicy (userID : string) (m : UserManager) : option UMPolicy := policies m !! userID.

Definition GenerateBasicPolicy (now : Z) (userID : string) (m : UserManager) : UserManager * result UMPolicy :=
  match users m !! userID with
  | None => (m, Err "user not found")
  | Some _ =>
      let policy := generateBasicPolicyLocked now userID in
      let policy := match policies m !! userID with
                    | Some existing => policy <| p_CreatedAt := p_CreatedAt existing |>
                    | None => policy
                    end in
      finish policy (m <| policies := <[userID := policy]> (policies m) |>)
  end.

Definition IssueDeviceTicket (now : Z) (rand : result (list byte)) (userID groupName : string) (ttl : Z)
    (m : UserManager) : UserManager * result UMDeviceTicket :=
  if bool_decide (userID = "") then (m, Err "user id is empty") else
  let groupName := TrimSpace groupName in
  if bool_decide (groupName = "") then (m, Err "group name is empty") else
  if ttl <=? 0 then (m, Err "invalid ttl") else
  match users m !! userID with
  | None => (m, Err "user not found")
  | Some user =>
      match normalizeGroupForUser groupName (u_Domain user) with
      | Err e => (m, Err e)
      | Ok fullGroupName =>
          match newSecureTicketID rand with
          | Err e => (m, Err e)
          | Ok ticketID =>
              let ticket := mkUMDeviceTicket ticketID userID fullGroupName (now + ttl) false now in
              finish ticket (m <| deviceTickets := <[ticketID := ticket]> (deviceTickets m) |>)
          end
      end
  end.

Definition ValidateDeviceAuth (now : Z) (userID groupName deviceID ticket : string) (m : UserManager) : result string :=
  if bool_decide (userID = "") || bool_decide (groupName = "") || bool_decide (deviceID = "")
     || bool_decide (ticket = "")
  then Err "user/group/device/ticket required" else
  match deviceTickets m !! ticket with
  | None => Err "ticket not found"
  | Some t =>
      if t_Used t then Err "ticket already used" else
      if t_ExpireAt t <? now then Err "ticket expired" else
      match users m !! userID with
      | None => Err "user not found"
      | Some user =>
          let? normalizedGroup := normalizeGroupForUser groupName (u_Domain user) in
          if bool_decide (t_UserID t ≠ userID) || bool_decide (t_GroupName t ≠ normalizedGroup)
          then Err "ticket mismatch" else Ok normalizedGroup
      end
  end.

(** The second critical section of [AuthDevice], entered after
    [ValidateDeviceAuth] returned [normalizedGroup]. *)
Definition auth_device_commit (now : Z) (userID normalizedGroup deviceID ticket : string) (pubKey : list byte)
    (m : UserManager) : UserManager * result UMAuthDevice :=
  let t := default zeroTicket (deviceTickets m !! ticket) in
  let key := authedDeviceKey normalizedGroup deviceID in
  let displayName := match authedDevices m !! key with
                     | Some existing => TrimSpace (a_DisplayName existing)
                     | None => ""
                     end in
  let record := mkUMAuthDevice userID normalizedGroup deviceID displayName (toPubKeyHex pubKey "ed25519")
                  now (now + defaultDeviceAuthTTL) in
  finish record (m <| authedDevices := <[key := record]> (authedDevices m) |>
                   <| deviceTickets := <[ticket := t <| t_Used := true |>]> (deviceTickets m) |>).

Definition AuthDevice (now : Z) (userID groupName deviceID ticket : string) (pubKey : list byte) (m : UserManager)
    : UserManager * result UMAuthDevice :=
  if bool_decide (pubKey = []) then (m, Err "device public key is empty") else
  match ValidateDeviceAuth now userID groupName deviceID ticket m with
  | Err e => (m, Err e)
  | Ok normalizedGroup => auth_device_commit now userID normalizedGroup deviceID ticket pubKey m
  end.

Definition record_network (r : UMAuthDevice) : string := Key (NewNetworkIdentity (a_GroupName r) (a_UserID r)).

Definition displayNameExistsInNetworkLocked (record : UMAuthDevice) (displayName : string) (m : UserManager) : bool :=
  let displayName := TrimSpace displayName in
  if bool_decide (displayName = "") then false else
  let networkKey := record_network record in
  existsb (λ '(_, existing),
      if bool_decide (a_GroupName existing = a_GroupName record) && bool_decide (a_DeviceID existing = a_DeviceID record)
      then false
      else if bool_decide (record_network existing ≠ networkKey) then false
      else EqualFold (TrimSpace (a_DisplayName existing)) displayName)
    (range o (authedDevices m)).

(** The loop over [desired-1], [desired-2], ... of [uniqueDisplayNameLocked]. *)
Definition numbered_name (desired : string) (i : Z) : string := desired +:+ "-" +:+ dec i.

Definition uniqueDisplayNameLocked (record : UMAuthDevice) (desired : string) (m : UserManager) : string :=
  let desired := TrimSpace desired in
  let desired := if bool_decide (desired = "") then TrimSpace (a_DeviceID record) else desired in
  if bool_decide (desired = "") || negb (displayNameExistsInNetworkLocked record desired m) then desired
  else numbered_name desired
         (first_free (size (authedDevices m))
            (λ i, displayNameExistsInNetworkLocked record (numbered_name desired i) m) 1).

Definition AssignAuthedDeviceDisplayName (groupName deviceID displayName : string) (m : UserManager)
    : UserManager * result UMAuthDevice :=
  match normalizeRenameName displayName with
  | Err e => (m, Err e)
  | Ok displayName =>
      let key := authedDeviceKey groupName deviceID in
      match authedDevices m !! key with
      | None => (m, Err "authed device not found")
      | Some record =>
          if bool_decide (TrimSpace (a_DisplayName record) ≠ "") then (m, Ok record) else
          let record := record <| a_DisplayName := uniqueDisplayNameLocked record displayName m |> in
          finish record (m <| authedDevices := <[key := record]> (authedDevices m) |>)
      end
  end.

Definition IsAuthedDevice (groupName deviceID : string) (m : UserManager) : bool :=
  bool_decide (is_Some (authedDevices m !! authedDeviceKey groupName deviceID)).

Definition GetAuthedDevice (groupName deviceID : string) (m : UserManager) : option UMAuthDevice :=
  authedDevices m !! authedDeviceKey groupName deviceID.

Definition ListAuthedDevicesByUser (userID : string) (m : UserManager) : list UMAuthDevice :=
  filter (λ record, a_UserID record = userID) (range o (authedDevices m)).*2.

Definition ListAuthedDevices (m : UserManager) : list UMAuthDevice := (range o (authedDevices m)).*2.

(** The keys of the records that belong to [userID] and match the group and the
    device (a blank one matches everything). *)
Definition matching_keys (userID groupName deviceID : string) (m : UserManager) : list string :=
  omap (λ '(key, record),
      if bool_decide (a_UserID record ≠ userID) then None
      else if bool_decide (groupName ≠ "") && bool_decide (a_GroupName record ≠ groupName) then None
      else if bool_decide (deviceID ≠ "") && bool_decide (a_DeviceID record ≠ deviceID) then None
      else Some key)
    (range o (authedDevices m)).

Definition errMultipleGroups (deviceID : string) : string :=
  "device id " +:+ deviceID +:+ " matched multiple groups; specify --group".

(** The common prefix of the three admin operations on a device: resolve the
    user, the group and the matching records. *)
Definition resolve_matches (userID groupName deviceID : string) (m : UserManager) : result (string * list string) :=
  match users m !! userID with
  | None => Err "user not found"
  | Some user =>
      let? groupName := if bool_decide (groupName ≠ "") then normalizeGroupForUser groupName (u_Domain user)
                        else Ok groupName in
      let matches := matching_keys userID groupName deviceID m in
      if bool_decide (matches = []) then Err "authed device not found" else Ok (groupName, matches)
  end.

Definition extend_record (now ttl : Z) (record : UMAuthDevice) : UMAuthDevice :=
  let base := a_AuthExpireAt record in
  let base := if time_IsZero base || (base <? now) then now else base in
  record <| a_AuthExpireAt := base + ttl |>.

(** The bodies of the loops over the matching keys. *)
Definition extend_step (now ttl : Z) (acc : gmap string UMAuthDevice * list UMAuthDevice) (key : string)
    : gmap string UMAuthDevice * list UMAuthDevice :=
  match acc.1 !! key with
  | Some record => let record := extend_record now ttl record in (<[key := record]> acc.1, acc.2 ++ [record])
  | None => acc
  end.

Definition delete_step (acc : gmap string UMAuthDevice * list UMAuthDevice) (key : string)
    : gmap string UMAuthDevice * list UMAuthDevice :=
  match acc.1 !! key with
  | Some record => (delete key acc.1, acc.2 ++ [record])
  | None => acc
  end.

Definition ExtendAuthedDeviceExpiry (now : Z) (userID groupName deviceID : string) (ttl : Z) (all : bool)
    (m : UserManager) : UserManager * result (list UMAuthDevice) :=
  let userID := TrimSpace userID in
  let groupName := TrimSpace groupName in
  let deviceID := TrimSpace deviceID in
  if bool_decide (userID = "") then (m, Err "user id is empty") else
  if ttl <=? 0 then (m, Err "invalid ttl") else
  if negb all && bool_decide (deviceID = "") then (m, Err "device id is required unless --all is set") else
  match resolve_matches userID groupName deviceID m with
  | Err e => (m, Err e)
  | Ok (groupName, matches) =>
      if negb all && bool_decide (deviceID ≠ "") && bool_decide (groupName = "") && (1 <? length matches)%nat
      then (m, Err (errMultipleGroups deviceID)) else
      let '(devices, updated) :=
        foldl (extend_step now ttl) (authedDevices m, []) matches in
      finish updated (m <| authedDevices := devices |>)
  end.

Definition DeleteAuthedDevice (userID groupName deviceID : string) (m : UserManager)
    : UserManager * result (list UMAuthDevice) :=
  let userID := TrimSpace userID in
  let groupName := TrimSpace groupName in
  let deviceID := TrimSpace deviceID in
  if bool_decide (userID = "") then (m, Err "user id is empty") else
  if bool_decide (deviceID = "") then (m, Err "device id is empty") else
  match resolve_matches userID groupName deviceID m with
  | Err e => (m, Err e)
  | Ok (groupName, matches) =>
      if bool_decide (groupName = "") && (1 <? length matches)%nat
      then (m, Err (errMultipleGroups deviceID)) else
      let '(devices, deleted) :=
        foldl delete_step (authedDevices m, []) matches in
      finish deleted (m <| authedDevices := devices |>)
  end.

Definition CheckAuthedDevice (now : Z) (groupName deviceID : string) (pubKey : list byte) (m : UserManager)
    : option string :=
  match authedDevices m !! authedDeviceKey groupName deviceID with
  | None => Some "not_auth"
  | Some record =>
      if negb (time_IsZero (a_AuthExpireAt record)) && (a_AuthExpireAt record <? now) then Some "auth_expired"
      else if bool_decide (pubKey = []) then Some "device_key_mismatch"
      else if bool_decide (a_PubKeyHex record ≠ toPubKeyHex pubKey "ed25519") then Some "device_key_mismatch"
      else None
  end.

Definition SetAuthedDeviceDisplayName (groupName deviceID displayName : string) (m : UserManager)
    : UserManager * option string :=
  let displayName := TrimSpace displayName in
  if bool_decide (displayName = "") then (m, Some "display name is empty") else
  if 128 <? Z.of_nat (String.length displayName) then (m, Some "display name too long") else
  let key := authedDeviceKey groupName deviceID in
  match authedDevices m !! key with
  | None => (m, Some "authed device not found")
  | Some record =>
      let networkKey := record_network record in
      let taken := existsb (λ '(_, existing),
          if bool_decide (a_DeviceID existing = deviceID) then false
          else if bool_decide (record_network existing ≠ networkKey) then false
          else EqualFold (TrimSpace (a_DisplayName existing)) displayName)
        (range o (authedDevices m)) in
      if taken then (m, Some "display name already exists") else
      let m := m <| authedDevices := <[key := record <| a_DisplayName := displayName |>]> (authedDevices m) |> in
      (m, saveLocked m)
  end.

Definition RenameAuthedDevice (userID groupName deviceID displayName : string) (m : UserManager)
    : UserManager * result UMAuthDevice :=
  let displayName := TrimSpace displayName in
  if bool_decide (displayName = "") then (m, Err "display name is empty") else
  if 128 <? Z.of_nat (String.length displayName) then (m, Err "display name too long") else
  let userID := TrimSpace userID in
  let groupName := TrimSpace groupName in
  let deviceID := TrimSpace deviceID in
  if bool_decide (userID = "") then (m, Err "user id is empty") else
  if bool_decide (deviceID = "") then (m, Err "device id is empty") else
  match resolve_matches userID groupName deviceID m with
  | Err e => (m, Err e)
  | Ok (groupName, matches) =>
      if bool_decide (groupName = "") && (1 <? length matches)%nat
      then (m, Err (errMultipleGroups deviceID)) else
      match head matches ≫= λ key, pair key <$> authedDevices m !! key with
      | None => (m, Err "authed device not found")
      | Some (key, record) =>
          if displayNameExistsInNetworkLocked record displayName m
          then (m, Err "display name already exists") else
          let record := record <| a_DisplayName := displayName |> in
          finish record (m <| authedDevices := <[key := record]> (authedDevices m) |>)
      end
  end.

Definition RequireTicketAuthForGroup (now : Z) (groupName : string) (m : UserManager) : bool :=
  existsb (λ '(_, t), bool_decide (t_GroupName t = groupName) && negb (t_Used t) && (now <? t_ExpireAt t))
    (range o (deviceTickets m)).

End UserManager.
