(* ===== verification/UserInv.v ===== *)
(** * Correctness of the user manager.

    The state invariant and its preservation by every operation, single use of
    tickets and enrolments, uniqueness of display names, the equivalence of the
    table-based wildcard matcher with the usual definition, and the round trip
    through a snapshot. *)
From S2P Require Import Prelude GoString NetIP NetParse Proto ExpireMap Network UserManager.

(** ** Wildcards *)

(** Reference definition: [*] matches any run of runes, [?] any one rune. *)
Inductive glob : list Z → list Z → Prop :=
| glob_nil : glob [] []
| glob_star_skip p v : glob p v → glob (42 :: p) v
| glob_star_take p x v : glob (42 :: p) v → glob (42 :: p) (x :: v)
| glob_any p x v : glob p v → glob (63 :: p) (x :: v)
| glob_rune p x v : x ≠ 42 → x ≠ 63 → glob p v → glob (x :: p) (x :: v).

(** The definition read from the right end, as the table computes it. *)
Inductive globr : list Z → list Z → Prop :=
| globr_nil : globr [] []
| globr_star_skip p v : globr p v → globr (p ++ [42]) v
| globr_star_take p x v : globr (p ++ [42]) v → globr (p ++ [42]) (v ++ [x])
| globr_any p x v : globr p v → globr (p ++ [63]) (v ++ [x])
| globr_rune p x v : x ≠ 42 → x ≠ 63 → globr p v → globr (p ++ [x]) (v ++ [x]).

Lemma glob_app p q v w : glob p v → glob q w → glob (p ++ q) (v ++ w).
Proof.
  induction 1 as [|p v _ IH|p x v _ IH|p x v _ IH|p x v ? ? _ IH]; intros Hq; specialize (IH Hq) || done.
  - by apply glob_star_skip.
  - by apply glob_star_take.
  - by apply glob_any.
  - by apply glob_rune.
Qed.

Lemma glob_star v : glob [42] v.
Proof. induction v as [|x v IH]; [apply glob_star_skip, glob_nil|by apply glob_star_take]. Qed.

Lemma glob_snoc_star p v x : glob (p ++ [42]) v → glob (p ++ [42]) (v ++ [x]).
Proof.
  intros Hg. remember (p ++ [42]) as q eqn:E. revert p E.
  induction Hg as [|q v Hg IH|q y v Hg IH|q y v Hg IH|q y v H1 H2 Hg IH]; intros p E.
  - by destruct p.
  - destruct p as [|a p]; simplify_eq/=.
    + apply glob_star.
    + apply glob_star_skip. by apply (IH p).
  - apply glob_star_take. by apply (IH p).
  - destruct p as [|a p]; simplify_eq/=. apply glob_any. by apply (IH p).
  - destruct p as [|a p]; simplify_eq/=. apply glob_rune; [done..|]. by apply (IH p).
Qed.

Lemma globr_app p q v w : globr p v → globr q w → globr (p ++ q) (v ++ w).
Proof.
  intros Hp. induction 1 as [|q w _ IH|q x w _ IH|q x w _ IH|q x w ? ? _ IH];
    rewrite ?app_nil_r, ?(app_assoc p), ?(app_assoc v) in *; [done|..].
  - by apply globr_star_skip.
  - by apply globr_star_take.
  - by apply globr_any.
  - by apply globr_rune.
Qed.

Lemma globr_star v : globr [42] v.
Proof.
  induction v as [|x v IH] using rev_ind; [apply (globr_star_skip []), globr_nil|by apply (globr_star_take [])].
Qed.

Lemma globr_cons_star p v x : globr (42 :: p) v → globr (42 :: p) (x :: v).
Proof.
  intros Hg. remember (42 :: p) as q eqn:E. revert p E.
  induction Hg as [|q v Hg IH|q y v Hg IH|q y v Hg IH|q y v H1 H2 Hg IH]; intros p E.
  - done.
  - destruct q as [|a q]; simplify_eq/=.
    + apply globr_star.
    + apply (globr_star_skip (42 :: q)). by apply (IH q).
  - apply (globr_star_take _ y (x :: v)). by apply (IH p).
  - destruct q as [|a q]; simplify_eq/=. apply (globr_any (42 :: q) y (x :: v)). by apply (IH q).
  - destruct q as [|a q]; simplify_eq/=. apply (globr_rune (42 :: q) y (x :: v)); [done..|]. by apply (IH q).
Qed.

Lemma glob_globr p v : glob p v ↔ globr p v.
Proof.
  split.
  - induction 1 as [|p v Hg IH|p x v Hg IH|p x v Hg IH|p x v H1 H2 Hg IH].
    + constructor.
    + apply (globr_app [42] p [] v); [apply (globr_star_skip []); constructor|done].
    + by apply globr_cons_star.
    + apply (globr_app [63] p [x] v); [apply (globr_any [] x []); constructor|done].
    + apply (globr_app [x] p [x] v); [apply (globr_rune [] x []); [done..|constructor]|done].
  - induction 1 as [|p v Hg IH|p x v Hg IH|p x v Hg IH|p x v H1 H2 Hg IH].
    + constructor.
    + rewrite <-(app_nil_r v). apply glob_app; [done|apply glob_star].
    + by apply glob_snoc_star.
    + apply glob_app; [done|]. apply glob_any. constructor.
    + apply glob_app; [done|]. apply glob_rune; [done..|constructor].
Qed.

Ltac snoc_inv :=
  repeat match goal with
  | H : _ ++ [_] = _ ++ [_] |- _ => apply app_inj_tail in H as [? ?]; subst
  | H : [] = _ ++ [_] |- _ => by apply app_cons_not_nil in H
  end; simplify_eq.

Lemma globr_snoc_star_inv p v : globr (p ++ [42]) v ↔ globr p v ∨ ∃ w x, v = w ++ [x] ∧ globr (p ++ [42]) w.
Proof.
  split; [|intros [?|(w & x & -> & ?)]; [by apply globr_star_skip|by apply globr_star_take]].
  intros Hg. inversion Hg; snoc_inv; eauto 10.
Qed.

Lemma globr_snoc_inv p c v : c ≠ 42 →
  globr (p ++ [c]) v ↔ ∃ w x, v = w ++ [x] ∧ globr p w ∧ (c = 63 ∨ c = x).
Proof.
  intros Hc. split.
  - intros Hg. inversion Hg; snoc_inv; eauto 10.
  - intros (w & x & -> & Hg & Hx). destruct (decide (c = 63)) as [->|Hne]; [by apply globr_any|].
    destruct Hx as [?|<-]; [done|]. by apply globr_rune.
Qed.

(** [ms] is right for pattern [p] on the prefixes of [u ++ rest] longer than [u]. *)
Fixpoint row_from (p u rest : list Z) (ms : list bool) : Prop :=
  match rest, ms with
  | [], [] => True
  | x :: rest', m :: ms' => (m = true ↔ globr p (u ++ [x])) ∧ row_from p (u ++ [x]) rest' ms'
  | _, _ => False
  end.

Definition row_ok (p v : list Z) (ms : list bool) : Prop :=
  match ms with [] => False | m :: ms' => (m = true ↔ globr p []) ∧ row_from p [] v ms' end.

Lemma row_from_star p u rest ms left :
  row_from p u rest ms → (left = true ↔ globr (p ++ [42]) u) → row_from (p ++ [42]) u rest (star_row left ms).
Proof.
  revert u ms left. induction rest as [|x rest IH]; intros u [|m ms] left; simpl; try done.
  intros [Hm Hms] Hl.
  assert (Hb : m || left = true ↔ globr (p ++ [42]) (u ++ [x])).
  { rewrite orb_true_iff, Hm, Hl, (globr_snoc_star_inv p (u ++ [x])). split; [intros [?|?]; [by left|right; by exists u, x]|].
    intros [?|(w & y & E & ?)]; [by left|]. snoc_inv. by right. }
  split; [done|]. by apply IH.
Qed.

Lemma row_from_rune p c u rest m ms :
  c ≠ 42 → (m = true ↔ globr p u) → row_from p u rest ms → row_from (p ++ [c]) u rest (rune_row c (m :: ms) rest).
Proof.
  intros Hc. revert u m ms. induction rest as [|x rest IH]; intros u m ms; destruct ms as [|m1 ms]; try done.
  intros Hm [Hm1 Hms]. cbn [rune_row row_from]. split; [|by apply IH].
  rewrite andb_true_iff, orb_true_iff, !Z.eqb_eq, Hm, globr_snoc_inv by done.
  split; [intros [? [?|?]]; exists u, x; auto|]. intros (w & y & E & ? & ?). by snoc_inv.
Qed.

Lemma row_ok_step p v ms c : row_ok p v ms → row_ok (p ++ [c]) v (wildcard_step v ms c).
Proof.
  destruct ms as [|m ms]; [done|]. intros [Hm Hms]. unfold wildcard_step.
  destruct (c =? 42) eqn:Hc; bool_prop.
  - subst c. assert (Hs : m = true ↔ globr (p ++ [42]) []).
    { rewrite Hm, globr_snoc_star_inv. split; [by left|].
      intros [?|(w & x & E & _)]; [done|]. snoc_inv. }
    split; [done|]. by apply row_from_star.
  - split; [|by apply row_from_rune].
    split; [done|]. rewrite globr_snoc_inv by done. intros (w & x & E & _). snoc_inv.
Qed.

Lemma row_ok_foldl p q v ms : row_ok p v ms → row_ok (p ++ q) v (foldl (wildcard_step v) ms q).
Proof.
  revert p ms. induction q as [|c q IH]; intros p ms Hms; simpl; [by rewrite app_nil_r|].
  rewrite cons_middle, app_assoc. by apply IH, row_ok_step.
Qed.

Lemma row_from_last p u v m ms :
  (m = true ↔ globr p u) → row_from p u v ms → (default false (last (m :: ms)) = true ↔ globr p (u ++ v)).
Proof.
  revert u m ms. induction v as [|x v IH]; intros u m [|m1 ms]; simpl; try done.
  - by rewrite app_nil_r.
  - intros _ [Hm1 Hms]. rewrite cons_middle, app_assoc. by apply IH.
Qed.

(** C38 (equivalence). The table-based [wildcardMatch] decides exactly the usual
    wildcard relation on runes: [*] stands for any run, [?] for one rune. *)
Theorem wildcardMatch_glob (pattern value : string) :
  wildcardMatch pattern value = true ↔ glob (string_runes pattern) (string_runes value).
Proof.
  rewrite glob_globr. unfold wildcardMatch. set (v := string_runes value).
  assert (H0 : row_ok [] v (true :: replicate (length v) false)).
  { split; [split; [constructor|done]|]. generalize (@nil Z) at 2.
    induction v as [|x v IH]; intros u; [done|].
    split; [split; [done|]|apply IH]. intros Hg. inversion Hg; try (by destruct u); snoc_inv.
    all: match goal with H : _ ++ [_] = [] |- _ => by apply app_nil in H as [_ ?] end. }
  apply (row_ok_foldl [] (string_runes pattern)) in H0. simpl in H0.
  destruct (foldl _ _ _) as [|m ms]; [done|]. destruct H0 as [Hm Hms].
  exact (row_from_last _ [] v m ms Hm Hms).
Qed.

(** ** The operations of the manager as one step function *)
Inductive um_op :=
| OpCreateUser (name : string) (domain : list string)
| OpCreateUserWithID (userID domain group : string)
| OpCreateEnrollment (userID : string) (ttl : Z)
| OpBindDevice (code deviceID : string) (pubKey : list byte) (alg : string)
| OpGenerateBasicPolicy (userID : string)
| OpIssueTicket (rand : result (list byte)) (userID groupName : string) (ttl : Z)
| OpAuthDevice (userID groupName deviceID ticket : string) (pubKey : list byte)
| OpAssignName (groupName deviceID displayName : string)
| OpExtend (userID groupName deviceID : string) (ttl : Z) (all : bool)
| OpDelete (userID groupName deviceID : string)
| OpSetName (groupName deviceID displayName : string)
| OpRename (userID groupName deviceID displayName : string).

Definition succeeds {A} (r : UserManager * result A) : UserManager * bool :=
  (r.1, match r.2 with Ok _ => true | Err _ => false end).

(** A sequence of operations, each with the store's behaviour and the clock. *)
Abbreviation um_trace := (list ((UMSnapshot → option string) * Z * um_op)).

Section Steps.
Context `{UnicodeFold} (o : RangeOrder) (sha256 : list byte → list byte).

(** One operation at time [now] against a store that behaves as [save]. *)
Definition um_exec (save : UMSnapshot → option string) (now : Z) (op : um_op) (m : UserManager)
    : UserManager * bool :=
  match op with
  | OpCreateUser name domain => succeeds (CreateUser o save now name domain m)
  | OpCreateUserWithID userID domain group => succeeds (CreateUserWithID o save now userID domain group m)
  | OpCreateEnrollment userID ttl => succeeds (CreateEnrollment o save now userID ttl m)
  | OpBindDevice code dev pk alg => succeeds (BindDeviceByEnrollment o save sha256 now code dev pk alg m)
  | OpGenerateBasicPolicy userID => succeeds (GenerateBasicPolicy o save now userID m)
  | OpIssueTicket rand userID group ttl => succeeds (IssueDeviceTicket o save now rand userID group ttl m)
  | OpAuthDevice userID group dev ticket pk => succeeds (AuthDevice o save sha256 now userID group dev ticket pk m)
  | OpAssignName group dev name => succeeds (AssignAuthedDeviceDisplayName o save group dev name m)
  | OpExtend userID group dev ttl all => succeeds (ExtendAuthedDeviceExpiry o save now userID group dev ttl all m)
  | OpDelete userID group dev => succeeds (DeleteAuthedDevice o save userID group dev m)
  | OpSetName group dev name =>
      let '(m, e) := SetAuthedDeviceDisplayName o save group dev name m in (m, bool_decide (e = None))
  | OpRename userID group dev name => succeeds (RenameAuthedDevice o save userID group dev name m)
  end.

(** The group belongs to the domain: it is the domain or one of its subdomains. *)
Definition in_domain (group domain : string) : Prop :=
  let d := if bool_decide (TrimSpace domain = "") then "ms.net" else domain in
  group = d ∨ ∃ p, group = p +:+ "." +:+ d.

(** [userID] exists and [group] lies in its domain. *)
Definition owned (m : UserManager) (userID group : string) : Prop :=
  ∃ u, users m !! userID = Some u ∧ in_domain group (u_Domain u).

(** The state invariant: users have a policy, records are filed under their own
    key, whatever refers to a user refers to an existing one, and the groups of
    tickets and authenticated devices lie in the domain of their user. *)
Record wf_um (m : UserManager) : Prop := {
  wf_users : ∀ id u, users m !! id = Some u → u_UserID u = id ∧ is_Some (policies m !! id);
  wf_enrollments : ∀ c e, enrollments m !! c = Some e → e_Code e = c ∧ is_Some (users m !! e_UserID e);
  wf_bound : ∀ k d, deviceByPubKey m !! k = Some d → d_PubKeyHex d = k ∧ is_Some (users m !! d_UserID d);
  wf_tickets : ∀ k t, deviceTickets m !! k = Some t → t_Ticket t = k ∧ owned m (t_UserID t) (t_GroupName t);
  wf_authed : ∀ k r, authedDevices m !! k = Some r →
    k = authedDeviceKey (a_GroupName r) (a_DeviceID r) ∧ owned m (a_UserID r) (a_GroupName r)
}.

Lemma wf_NewUserManager : wf_um NewUserManager.
Proof. split; intros ? ?; simpl; by rewrite lookup_empty. Qed.

Lemma finish_fst {A} save (a : A) m : (finish o save a m).1 = m.
Proof. unfold finish. by destruct (saveLocked o save m). Qed.

Lemma normalizeGroup_in_domain group domain g : normalizeGroupForUser group domain = Ok g → in_domain g domain.
Proof.
  unfold normalizeGroupForUser, in_domain. cbv zeta.
  set (d := if bool_decide (TrimSpace domain = "") then _ else _).
  destruct (Contains group ".").
  - case_bool_decide; [intros [= <-]; by left|]. destruct (HasSuffix _ _) eqn:E; [|done]. intros [= <-]. right.
    by apply HasSuffix_spec in E.
  - intros [= <-]. right. by exists group.
Qed.

Lemma wf_put_user m id u p seq :
  wf_um m → u_UserID u = id → users m !! id = None →
  wf_um (m <| userSeq := seq |> <| users := <[id := u]> (users m) |> <| policies := <[id := p]> (policies m) |>).
Proof.
  intros [Hu He Hb Ht Ha] Hid Hnew.
  assert (Hown : ∀ userID group, owned m userID group →
    owned (m <| userSeq := seq |> <| users := <[id := u]> (users m) |> <| policies := <[id := p]> (policies m) |>) userID group).
  { intros userID group (u' & Hu' & Hd). exists u'. split; [|done]. apply lookup_insert_Some. right.
    split; [congruence|done]. }
  split.
  - intros id' u'. simpl. unfold const. intros [[<- <-]|[? Hu']]%lookup_insert_Some.
    + split; [done|]. rewrite lookup_insert_eq. by eexists.
    + rewrite lookup_insert_ne by done. by apply Hu.
  - intros c e Hc. destruct (He c e Hc) as [? ?]. split; [done|]. by apply lookup_insert_is_Some'; right.
  - intros c e Hc. destruct (Hb c e Hc) as [? ?]. split; [done|]. by apply lookup_insert_is_Some'; right.
  - intros c e Hc. destruct (Ht c e Hc) as [? ?]. split; [done|]. by apply Hown.
  - intros c e Hc. destruct (Ha c e Hc) as [? ?]. split; [done|]. by apply Hown.
Qed.

Lemma wf_put_policy m id p : wf_um m → wf_um (m <| policies := <[id := p]> (policies m) |>).
Proof.
  intros [Hu He Hb Ht Ha]. split; simpl; unfold const; try done.
  intros id' u' Hu'. destruct (Hu _ _ Hu') as [? ?]. split; [done|]. by apply lookup_insert_is_Some'; right.
Qed.

Lemma wf_put_enrollment m c e seq :
  wf_um m → e_Code e = c → is_Some (users m !! e_UserID e) →
  wf_um (m <| enrollmentSeq := seq |> <| enrollments := <[c := e]> (enrollments m) |>).
Proof.
  intros [Hu He Hb Ht Ha] ? ?. split; simpl; unfold const; try done.
  intros c' e' [[<- <-]|[? ?]]%lookup_insert_Some; [done|by apply He].
Qed.

Lemma wf_bind m k d c e :
  wf_um m → e_Code e = c → d_PubKeyHex d = k → is_Some (users m !! e_UserID e) → is_Some (users m !! d_UserID d) →
  wf_um (m <| deviceByPubKey := <[k := d]> (deviceByPubKey m) |> <| enrollments := <[c := e]> (enrollments m) |>).
Proof.
  intros [Hu He Hb Ht Ha] ? ? ? ?. split; simpl; unfold const; try done.
  - intros c' e' [[<- <-]|[? ?]]%lookup_insert_Some; [done|by apply He].
  - intros c' e' [[<- <-]|[? ?]]%lookup_insert_Some; [done|by apply Hb].
Qed.

Lemma wf_put_ticket m k t :
  wf_um m → t_Ticket t = k → owned m (t_UserID t) (t_GroupName t) →
  wf_um (m <| deviceTickets := <[k := t]> (deviceTickets m) |>).
Proof.
  intros [Hu He Hb Ht Ha] ? ?. split; simpl; unfold const; try done.
  intros c' e' [[<- <-]|[? ?]]%lookup_insert_Some; [done|by apply Ht].
Qed.

Lemma wf_put_authed m k r :
  wf_um m → k = authedDeviceKey (a_GroupName r) (a_DeviceID r) → owned m (a_UserID r) (a_GroupName r) →
  wf_um (m <| authedDevices := <[k := r]> (authedDevices m) |>).
Proof.
  intros [Hu He Hb Ht Ha] ? ?. split; simpl; unfold const; try done.
  intros c' e' [[<- <-]|[? ?]]%lookup_insert_Some; [done|by apply Ha].
Qed.

Lemma wf_auth_commit m key r k t :
  wf_um m → key = authedDeviceKey (a_GroupName r) (a_DeviceID r) → owned m (a_UserID r) (a_GroupName r) →
  t_Ticket t = k → owned m (t_UserID t) (t_GroupName t) →
  wf_um (m <| authedDevices := <[key := r]> (authedDevices m) |> <| deviceTickets := <[k := t]> (deviceTickets m) |>).
Proof.
  intros [Hu He Hb Ht Ha] ? ? ? ?. split; simpl; unfold const; try done.
  - intros c' e' [[<- <-]|[? ?]]%lookup_insert_Some; [done|by apply Ht].
  - intros c' e' [[<- <-]|[? ?]]%lookup_insert_Some; [done|by apply Ha].
Qed.

(** Replacing the device table by one that only drops records or changes their
    name or expiry. *)
Lemma wf_set_authed m devices :
  wf_um m →
  (∀ k r, devices !! k = Some r → ∃ r0, authedDevices m !! k = Some r0 ∧ a_GroupName r = a_GroupName r0
     ∧ a_DeviceID r = a_DeviceID r0 ∧ a_UserID r = a_UserID r0) →
  wf_um (m <| authedDevices := devices |>).
Proof.
  intros [Hu He Hb Ht Ha] Hd. split; simpl; unfold const; try done.
  intros k r Hk. destruct (Hd k r Hk) as (r0 & Hr0 & -> & -> & ->). by apply Ha.
Qed.

(** ** The loops of the admin operations *)
Lemma matching_keys_spec userID group dev m k :
  k ∈ matching_keys o userID group dev m ↔
  ∃ r, authedDevices m !! k = Some r ∧ a_UserID r = userID ∧ (group = "" ∨ a_GroupName r = group)
     ∧ (dev = "" ∨ a_DeviceID r = dev).
Proof.
  unfold matching_keys. rewrite list_elem_of_omap. split.
  - intros ([k' r] & Hin%elem_of_range & E). exists r.
    destruct (decide (a_UserID r = userID)); [rewrite bool_decide_eq_false_2 in E by tauto|
      by rewrite bool_decide_eq_true_2 in E].
    destruct (bool_decide (group ≠ "") && _) eqn:Hg; [done|].
    destruct (bool_decide (dev ≠ "") && _) eqn:Hd; [done|]. injection E as <-.
    apply andb_false_iff in Hg, Hd. split_and!; try done.
    + destruct Hg as [Hg|Hg]; apply bool_decide_eq_false, dec_stable in Hg; auto.
    + destruct Hd as [Hd|Hd]; apply bool_decide_eq_false, dec_stable in Hd; auto.
  - intros (r & Hr & <- & Hg & Hd). exists (k, r). split; [by apply elem_of_range|].
    rewrite bool_decide_eq_false_2 by tauto.
    rewrite (proj2 (andb_false_iff (bool_decide (group ≠ "")) _)).
    + rewrite (proj2 (andb_false_iff (bool_decide (dev ≠ "")) _)); [done|].
      destruct Hd; [left|right]; apply bool_decide_eq_false_2; tauto.
    + destruct Hg; [left|right]; apply bool_decide_eq_false_2; tauto.
Qed.

Lemma extend_fold now ttl keys devices acc devices' acc' :
  NoDup keys →
  foldl (extend_step now ttl) (devices, acc) keys = (devices', acc') →
  ∀ k, devices' !! k = if bool_decide (k ∈ keys) then extend_record now ttl <$> devices !! k else devices !! k.
Proof.
  revert devices acc. induction keys as [|key keys IH]; intros devices acc Hnd E k.
  { cbn [foldl] in E. injection E as <- <-. rewrite bool_decide_eq_false_2; [done|apply not_elem_of_nil]. }
  apply NoDup_cons in Hnd as [Hk Hnd]. cbn [foldl] in E. unfold extend_step in E at 2. cbn [fst snd] in E.
  destruct (decide (k = key)) as [->|Hne].
  - rewrite (bool_decide_eq_true_2 (key ∈ key :: keys)) by constructor.
    destruct (devices !! key) as [r|] eqn:Hr; apply IH with (k := key) in E; try done;
      rewrite E, bool_decide_eq_false_2 by done; [by rewrite lookup_insert_eq|done].
  - rewrite (bool_decide_ext (k ∈ key :: keys) (k ∈ keys)) by (rewrite elem_of_cons; tauto).
    destruct (devices !! key) as [r|] eqn:Hr; apply IH with (k := k) in E; try done.
    by rewrite E, lookup_insert_ne.
Qed.

Lemma delete_fold keys devices acc devices' acc' :
  NoDup keys → foldl delete_step (devices, acc) keys = (devices', acc') →
  ∀ k, devices' !! k = if bool_decide (k ∈ keys) then None else devices !! k.
Proof.
  revert devices acc. induction keys as [|key keys IH]; intros devices acc Hnd E k.
  { cbn [foldl] in E. injection E as <- <-. rewrite bool_decide_eq_false_2; [done|apply not_elem_of_nil]. }
  apply NoDup_cons in Hnd as [Hk Hnd]. cbn [foldl] in E. unfold delete_step in E at 2. cbn [fst snd] in E.
  destruct (decide (k = key)) as [->|Hne].
  - rewrite (bool_decide_eq_true_2 (key ∈ key :: keys)) by constructor.
    destruct (devices !! key) as [r|] eqn:Hr; apply IH with (k := key) in E; try done;
      rewrite E, bool_decide_eq_false_2 by done; [by rewrite lookup_delete_eq|done].
  - rewrite (bool_decide_ext (k ∈ key :: keys) (k ∈ keys)) by (rewrite elem_of_cons; tauto).
    destruct (devices !! key) as [r|] eqn:Hr; apply IH with (k := k) in E; try done.
    by rewrite E, lookup_delete_ne.
Qed.

Lemma delete_fold_records keys devices acc devices' acc' r :
  NoDup keys → foldl delete_step (devices, acc) keys = (devices', acc') →
  r ∈ acc' ↔ r ∈ acc ∨ ∃ k, k ∈ keys ∧ devices !! k = Some r.
Proof.
  revert devices acc. induction keys as [|key keys IH]; intros devices acc Hnd E.
  { injection E as <- <-. split; [by left|]. intros [?|(k & []%not_elem_of_nil & _)]. done. }
  apply NoDup_cons in Hnd as [Hk Hnd]. cbn [foldl] in E. unfold delete_step in E at 2. cbn [fst snd] in E.
  setoid_rewrite elem_of_cons. destruct (devices !! key) as [r0|] eqn:Hr; apply IH in E as ->; try done.
  - rewrite elem_of_app, list_elem_of_singleton. split.
    + intros [[?| ->]|(k & Hin & Hl)]; [by left|right; by eauto|].
      apply lookup_delete_Some in Hl as [_ ?]. right. eauto.
    + intros [?|(k & [->|Hin] & Hl)]; [by do 2 left|left; right; congruence|].
      right. exists k. rewrite lookup_delete_ne by congruence. done.
  - naive_solver.
Qed.

Lemma matching_keys_NoDup userID group dev m : NoDup (matching_keys o userID group dev m).
Proof.
  unfold matching_keys. pose proof (range_NoDup_fst o (authedDevices m)) as Hnd.
  induction (range o (authedDevices m)) as [|[k r] l IH]; [constructor|].
  cbn [fmap list_fmap fst] in Hnd. apply NoDup_cons in Hnd as [Hk Hnd]. cbn [omap list_omap].
  assert (Hin : ∀ f : string * UMAuthDevice → option string,
    (∀ e k', f e = Some k' → k' = e.1) → k ∉ omap f l).
  { intros f Hf ([k' r'] & Hin & E)%list_elem_of_omap. apply Hf in E. simpl in E. subst k'.
    apply Hk. by apply (list_elem_of_fmap_2' fst l (k, r')). }
  repeat case_bool_decide; simpl; try (by apply IH); constructor; try (by apply IH);
    apply Hin; intros [k' r'] k''; simpl; repeat case_match; naive_solver.
Qed.

(** Split a translated operation into its return points. *)
Ltac returns :=
  cbv zeta; unfold succeeds; cbn [fst];
  repeat match goal with
  | |- context [ (if ?b then _ else _) ] => destruct b eqn:?
  | |- context [ (match ?x with _ => _ end).1 ] => destruct x eqn:?
  | |- context [ let '(_, _) := ?x in _ ] => destruct x eqn:?
  end;
  rewrite ?finish_fst; cbn [fst].

Lemma resolve_matches_Ok userID group dev m group' keys :
  resolve_matches o userID group dev m = Ok (group', keys) →
  keys = matching_keys o userID group' dev m ∧ keys ≠ [] ∧ is_Some (users m !! userID).
Proof.
  unfold resolve_matches. destruct (users m !! userID) as [u|]; [|done].
  intros (g & _ & Hk)%rbind_Ok. case_bool_decide; [done|]. by injection Hk as <- <-.
Qed.

Lemma ValidateDeviceAuth_Ok now userID group dev ticket m g :
  ValidateDeviceAuth now userID group dev ticket m = Ok g →
  ∃ t u, deviceTickets m !! ticket = Some t ∧ t_Used t = false ∧ now ≤ t_ExpireAt t
    ∧ t_UserID t = userID ∧ t_GroupName t = g ∧ users m !! userID = Some u
    ∧ normalizeGroupForUser group (u_Domain u) = Ok g
    ∧ userID ≠ "" ∧ group ≠ "" ∧ dev ≠ "" ∧ ticket ≠ "".
Proof.
  unfold ValidateDeviceAuth. destruct (_ || _) eqn:Hb; [done|]. bool_prop.
  destruct (deviceTickets m !! ticket) as [t|]; [|done].
  destruct (t_Used t) eqn:Hu; [done|]. destruct (t_ExpireAt t <? now) eqn:Hexp; [done|]. bool_prop.
  destruct (users m !! userID) as [u|] eqn:Husr; [|done].
  intros (g' & Hg & Hm)%rbind_Ok. destruct (_ || _) eqn:Hb2; [done|]. bool_prop.
  injection Hm as ->. exists t, u. split_and!; try done; by apply dec_stable.
Qed.

Lemma wf_AuthDevice save now userID group dev ticket pk m :
  wf_um m → wf_um (AuthDevice o save sha256 now userID group dev ticket pk m).1.
Proof.
  intros Hwf. unfold AuthDevice. case_bool_decide; [done|].
  destruct (ValidateDeviceAuth _ _ _ _ _ _) as [g|] eqn:E; [|done].
  apply ValidateDeviceAuth_Ok in E as (t & u & Ht & _ & _ & Htu & _ & Hu & Hg & _).
  apply normalizeGroup_in_domain in Hg. unfold auth_device_commit. rewrite finish_fst, Ht. cbn [default].
  destruct (wf_tickets m Hwf _ _ Ht) as [? ?]. apply wf_auth_commit; try done. by exists u.
Qed.

(** ** Fresh user identifiers *)
Lemma dec_prefix_inj p a b : p +:+ dec a = p +:+ dec b → a = b.
Proof.
  intros E%(f_equal chars). rewrite !chars_app in E. apply app_inv_head, chars_inj in E. by apply dec_inj.
Qed.

Lemma next_user_id_fresh seq us :
  Z.of_nat (size us) < 2 ^ 64 → us !! (next_user_id seq us).2 = None.
Proof.
  intros Hsz. unfold next_user_id. cbn [snd].
  set (keys := (map_to_list us).*1).
  assert (Hlen : length keys = size us) by (unfold keys; by rewrite length_fmap, length_map_to_list).
  assert (Hf : user_id_taken seq us (first_free (length keys) (user_id_taken seq us) 1) = false).
  { apply (first_free_pigeonhole (λ k, "u-" +:+ dec (u64 (seq + k)))).
    - intros j [u Hu]%bool_decide_eq_true. unfold keys.
      apply list_elem_of_fmap. eexists (_, u). split; [done|]. by apply elem_of_map_to_list.
    - rewrite Hlen. intros j k Hj Hk E%dec_prefix_inj. unfold u64 in E.
      assert (Hd : (j - k) mod 2 ^ 64 = 0).
      { replace (j - k) with ((seq + j) - (seq + k)) by lia. by rewrite Zminus_mod, E, Z.sub_diag. }
      apply Z.mod_divide in Hd as [q Hq]; [|lia].
      assert (q = 0) by nia. lia. }
  rewrite Hlen in Hf. apply bool_decide_eq_false in Hf. by apply eq_None_not_Some.
Qed.

(** Only [CreateUser] needs a user identifier that is not taken. *)
Definition id_available (op : um_op) (m : UserManager) : Prop :=
  match op with OpCreateUser _ _ => Z.of_nat (size (users m)) < 2 ^ 64 | _ => True end.

Lemma um_exec_wf_gen save (now : Z) (op : um_op) (m : UserManager) :
  wf_um m → id_available op m → wf_um (um_exec save now op m).1.
Proof.
  intros Hwf Hsz. destruct op; cbn [um_exec]; unfold succeeds; cbn [fst].
  - unfold CreateUser. pose proof (next_user_id_fresh (userSeq m) (users m) Hsz) as Hfresh.
    destruct (next_user_id _ _) as [seq id]. returns; [done|..]. all: by apply wf_put_user.
  - unfold CreateUserWithID. returns; try done.
    all: try (by apply wf_put_policy). all: by apply (wf_put_user m _ _ _ (userSeq m)).
  - unfold CreateEnrollment. returns; try done.
    apply wf_put_enrollment; [done..|]. simpl. by eexists.
  - unfold BindDeviceByEnrollment. returns; try done;
      match goal with E : enrollments _ !! _ = Some _ |- _ => destruct (wf_enrollments _ Hwf _ _ E) end;
      by apply wf_bind.
  - unfold GenerateBasicPolicy. returns; try done. all: by apply wf_put_policy.
  - unfold IssueDeviceTicket. returns; try done. apply wf_put_ticket; [done..|].
    eexists. split; [eassumption|]. by eapply normalizeGroup_in_domain.
  - by apply wf_AuthDevice.
  - unfold AssignAuthedDeviceDisplayName. returns; try done.
    match goal with E : authedDevices m !! ?k = Some ?r |- _ => destruct (wf_authed m Hwf _ _ E) as [Hk Hr] end.
    by apply wf_put_authed.
  - unfold ExtendAuthedDeviceExpiry. returns; try done.
    match goal with E : resolve_matches _ _ _ _ _ = Ok _ |- _ => apply resolve_matches_Ok in E as (-> & _ & _) end.
    apply wf_set_authed; [done|]. intros k r.
    match goal with E : foldl _ _ _ = _ |- _ => rewrite (extend_fold _ _ _ _ _ _ _ (matching_keys_NoDup _ _ _ _) E) end.
    destruct (bool_decide (k ∈ _)); [|intros ?; by exists r]. intros (r0 & Hr0 & ->)%fmap_Some. by exists r0.
  - unfold DeleteAuthedDevice. returns; try done.
    match goal with E : resolve_matches _ _ _ _ _ = Ok _ |- _ => apply resolve_matches_Ok in E as (-> & _ & _) end.
    apply wf_set_authed; [done|]. intros k r.
    match goal with E : foldl _ _ _ = _ |- _ => rewrite (delete_fold _ _ _ _ _ (matching_keys_NoDup _ _ _ _) E) end.
    destruct (bool_decide (k ∈ _)); [done|intros ?; by exists r].
  - destruct (SetAuthedDeviceDisplayName _ _ _ _ _ _) as [m1 e] eqn:E. cbn [fst].
    apply (f_equal fst) in E. cbn [fst] in E. subst m1.
    unfold SetAuthedDeviceDisplayName. returns; try done.
    match goal with E : authedDevices m !! ?k = Some ?r |- _ => destruct (wf_authed m Hwf _ _ E) as [Hk Hr] end.
    by apply wf_put_authed.
  - unfold RenameAuthedDevice. returns; try done.
    match goal with E : _ ≫= _ = Some _ |- _ => apply bind_Some in E as (k & _ & (r & Hr & [= <- <-])%fmap_Some) end.
    destruct (wf_authed m Hwf _ _ Hr) as [Hk Hu]. by apply wf_put_authed.
Qed.

Lemma um_exec_wf save (now : Z) (op : um_op) (m : UserManager) :
  wf_um m → Z.of_nat (size (users m)) < 2 ^ 64 → wf_um (um_exec save now op m).1.
Proof. intros Hwf Hsz. apply um_exec_wf_gen; [done|]. by destruct op. Qed.


(** ** Single use of tickets *)
(** A new ticket identifier is not one already on file (it has 128 random bits). *)
Definition issue_fresh (op : um_op) (m : UserManager) : Prop :=
  match op with
  | OpIssueTicket rand _ _ _ => ∀ id, newSecureTicketID rand = Ok id → deviceTickets m !! id = None
  | _ => True
  end.

Fixpoint fresh_trace (tr : um_trace) (m : UserManager) : Prop :=
  match tr with
  | [] => True
  | (save, now, op) :: tr' => issue_fresh op m ∧ fresh_trace tr' (um_exec save now op m).1
  end.

(** The number of authentications that succeed with ticket [T]. *)
Fixpoint auth_count (T : string) (tr : um_trace) (m : UserManager) : nat :=
  match tr with
  | [] => 0
  | (save, now, op) :: tr' =>
      let r := um_exec save now op m in
      let hit := match op with OpAuthDevice _ _ _ ticket _ => bool_decide (ticket = T) && r.2 | _ => false end in
      ((if hit then 1 else 0) + auth_count T tr' r.1)%nat
  end.

Definition ticket_used (T : string) (m : UserManager) : Prop :=
  ∃ t, deviceTickets m !! T = Some t ∧ t_Used t = true.

(** Close the goal that an operation leaves some table alone. *)
Ltac unchanged :=
  cbn [um_exec]; unfold succeeds; cbn [fst];
  try (destruct (SetAuthedDeviceDisplayName _ _ _ _ _ _) as [m1 e] eqn:E; cbn [fst];
       apply (f_equal fst) in E; cbn [fst] in E; subst m1);
  unfold CreateUser, CreateUserWithID, CreateEnrollment, BindDeviceByEnrollment, GenerateBasicPolicy,
    IssueDeviceTicket, AuthDevice, auth_device_commit, AssignAuthedDeviceDisplayName, ExtendAuthedDeviceExpiry,
    DeleteAuthedDevice, SetAuthedDeviceDisplayName, RenameAuthedDevice; by returns.

Lemma tickets_unchanged save now op m :
  match op with OpIssueTicket _ _ _ _ | OpAuthDevice _ _ _ _ _ => True | _ =>
    deviceTickets (um_exec save now op m).1 = deviceTickets m end.
Proof. destruct op; try done; unchanged. Qed.

Lemma keys_unchanged save now op m :
  match op with OpBindDevice _ _ _ _ => True | _ =>
    deviceByPubKey (um_exec save now op m).1 = deviceByPubKey m end.
Proof. destruct op; try done; unchanged. Qed.

Lemma AuthDevice_tickets save now userID group dev ticket pk m r :
  AuthDevice o save sha256 now userID group dev ticket pk m = r →
  (r.1 = m ∧ ∃ e, r.2 = Err e) ∨
  ∃ t, deviceTickets m !! ticket = Some t ∧ t_Used t = false
     ∧ deviceTickets r.1 = <[ticket := t <| t_Used := true |>]> (deviceTickets m).
Proof.
  intros <-. unfold AuthDevice. case_bool_decide; [left; eauto|].
  destruct (ValidateDeviceAuth _ _ _ _ _ _) as [g|e] eqn:E; [|left; eauto].
  apply ValidateDeviceAuth_Ok in E as (t & u & Ht & Hused & _). right. exists t. split_and!; [done..|].
  unfold auth_device_commit. rewrite finish_fst, Ht. done.
Qed.

Lemma IssueDeviceTicket_tickets save now rand userID group ttl m :
  deviceTickets (IssueDeviceTicket o save now rand userID group ttl m).1 = deviceTickets m
  ∨ ∃ id t, newSecureTicketID rand = Ok id
      ∧ deviceTickets (IssueDeviceTicket o save now rand userID group ttl m).1 = <[id := t]> (deviceTickets m).
Proof.
  unfold IssueDeviceTicket. returns; try (by left). right. eexists _, _. split; reflexivity.
Qed.

Lemma ticket_used_step save now op m T :
  issue_fresh op m → ticket_used T m → ticket_used T (um_exec save now op m).1.
Proof.
  intros Hf (t & Ht & Hu). unfold ticket_used.
  pose proof (tickets_unchanged save now op m) as Hsame.
  destruct op; cbv iota in Hsame; try (rewrite Hsame; by exists t).
  - cbn [um_exec]. unfold succeeds; cbn [fst].
    destruct (IssueDeviceTicket_tickets save now rand userID groupName ttl m) as [->|(id & t' & Hid & ->)]; [by exists t|].
    apply Hf in Hid. exists t. rewrite lookup_insert_ne by congruence. done.
  - cbn [um_exec]. unfold succeeds; cbn [fst].
    destruct (AuthDevice_tickets save now userID groupName deviceID ticket pubKey m _ eq_refl)
      as [[-> _]|(t' & Ht' & Hu' & ->)]; [by exists t|].
    exists t. rewrite lookup_insert_ne; [done|]. congruence.
Qed.

Lemma ticket_used_count T tr m : fresh_trace tr m → ticket_used T m → auth_count T tr m = 0%nat.
Proof.
  revert m. induction tr as [|[[save now] op] tr IH]; intros m; [done|]. cbn [fresh_trace auth_count].
  intros [Hf Htr] Hu. rewrite (IH _ Htr) by (by apply ticket_used_step).
  destruct op; try done. case_bool_decide as HT; [subst ticket|done]. cbn [andb].
  destruct Hu as (t & Ht & Hused).
  destruct (AuthDevice_tickets save now userID groupName deviceID T pubKey m _ eq_refl)
    as [[_ [e He]]|(t' & Ht' & Hu' & _)]; [|congruence].
  cbn [um_exec]. unfold succeeds. cbn [snd]. by rewrite He.
Qed.


(** [AuthDevice] validates the ticket in one critical section and
    consumes it in another: two overlapping calls that both validated the same
    single-use ticket both succeed, authenticating two devices. *)
Theorem ticket_race (now : Z) (userID group d1 d2 ticket g : string) (pk1 pk2 : list byte) (m : UserManager) :
  d1 ≠ d2 →
  ValidateDeviceAuth now userID group d1 ticket m = Ok g →
  ValidateDeviceAuth now userID group d2 ticket m = Ok g →
  let r1 := auth_device_commit o (λ _, None) sha256 now userID g d1 ticket pk1 m in
  let r2 := auth_device_commit o (λ _, None) sha256 now userID g d2 ticket pk2 r1.1 in
  is_Ok r1.2 ∧ is_Ok r2.2 ∧ IsAuthedDevice g d1 r2.1 = true ∧ IsAuthedDevice g d2 r2.1 = true.
Proof.
  intros Hne _ _. cbv zeta. split_and!; [by eexists..| |].
  all: unfold IsAuthedDevice, auth_device_commit; rewrite !finish_fst; apply bool_decide_eq_true; cbn [authedDevices].
  - apply lookup_insert_is_Some'. right. apply lookup_insert_is_Some'. by left.
  - apply lookup_insert_is_Some'. by left.
Qed.

(** ** Reachable states *)
Definition um_run (tr : um_trace) (m : UserManager) : UserManager :=
  foldl (λ m '(save, now, op), (um_exec save now op m).1) m tr.

Lemma users_grow save now op m : (size (users (um_exec save now op m).1) ≤ S (size (users m)))%nat.
Proof.
  assert (Hput : ∀ k (u : UMUser), (size (<[k := u]> (users m)) ≤ S (size (users m)))%nat).
  { intros k u. rewrite map_size_insert. destruct (users m !! k); unfold id; lia. }
  cut (users (um_exec save now op m).1 = users m ∨ ∃ id u, users (um_exec save now op m).1 = <[id := u]> (users m)).
  { intros [->|(id & u & ->)]; [lia|apply Hput]. }
  destruct op; try (left; unchanged); cbn [um_exec]; unfold succeeds; cbn [fst].
  - unfold CreateUser. returns; try (by left). right. by eexists _, _.
  - unfold CreateUserWithID. returns; try (by left). all: right; by eexists _, _.
Qed.

Lemma um_run_wf tr m :
  wf_um m → Z.of_nat (size (users m) + length tr) < 2 ^ 64 → wf_um (um_run tr m).
Proof.
  unfold um_run. revert m. induction tr as [|[[save now] op] tr IH]; intros m Hwf Hsz; [done|]. cbn [foldl length] in *.
  apply IH; [apply um_exec_wf; [done|lia]|]. pose proof (users_grow save now op m). lia.
Qed.

(** C12 (invariant). In every state the manager can reach, through any sequence of
    successful, failing or unsaved operations: users have policies, records are
    filed under their own key, enrolments, bound keys, tickets and authenticated
    devices belong to existing users, and the groups of tickets and devices lie in
    the domain of their user. *)
Theorem um_reachable_wf (tr : um_trace) :
  Z.of_nat (length tr) < 2 ^ 64 → wf_um (um_run tr NewUserManager).
Proof. intros Hl. apply um_run_wf; [apply wf_NewUserManager|done]. Qed.

(** ** Keys bound by enrolment *)

(** Once a device public key is bound to a user, no operation binds
    it to another user or unbinds it. *)
Theorem bound_key_keeps_user save (now : Z) (op : um_op) (m : UserManager) (k : string) (d : UMDevice) :
  deviceByPubKey m !! k = Some d →
  ∃ d', deviceByPubKey (um_exec save now op m).1 !! k = Some d' ∧ d_UserID d' = d_UserID d.
Proof.
  intros Hk. pose proof (keys_unchanged save now op m) as Hsame.
  destruct op; cbv iota in Hsame; try (rewrite Hsame; by exists d).
  cbn [um_exec]; unfold succeeds; cbn [fst]. unfold BindDeviceByEnrollment. returns; try (by exists d).
  cbn [deviceByPubKey]. destruct (decide (toPubKeyHex sha256 pubKey alg = k)) as [E|Hne].
  - rewrite E in *. eexists. split; [apply lookup_insert_eq|]. rewrite Hk in *. bool_prop. simpl.
    symmetry. by apply dec_stable.
  - exists d. split; [|done]. by apply lookup_insert_Some; right.
Qed.

(** [CreateUser] always finds an identifier that no user has:
    it adds one user and a policy under it and changes no existing user. *)
Theorem CreateUser_fresh save (now : Z) (name : string) (domain : list string) (m : UserManager) :
  name ≠ "" → Z.of_nat (size (users m)) < 2 ^ 64 →
  ∃ user, users m !! u_UserID user = None ∧ u_Name user = name
    ∧ users (CreateUser o save now name domain m).1 = <[u_UserID user := user]> (users m)
    ∧ is_Some (policies (CreateUser o save now name domain m).1 !! u_UserID user)
    ∧ (CreateUser o save now name domain m).2
      = match saveLocked o save (CreateUser o save now name domain m).1 with None => Ok user | Some e => Err e end.
Proof.
  intros Hn Hsz. unfold CreateUser. rewrite bool_decide_eq_false_2 by done.
  pose proof (next_user_id_fresh (userSeq m) (users m) Hsz) as Hfresh.
  destruct (next_user_id (userSeq m) (users m)) as [seq id]. cbn [snd] in Hfresh. cbv zeta.
  eexists (mkUMUser id name _ now). rewrite finish_fst. split_and!; try done.
  - cbn [u_UserID]. eexists. apply lookup_insert_eq.
  - unfold finish. by destruct (saveLocked o save _).
Qed.

(** ** Display names *)
Definition clashes (r e : UMAuthDevice) (name : string) : Prop :=
  (a_GroupName e ≠ a_GroupName r ∨ a_DeviceID e ≠ a_DeviceID r) ∧ record_network e = record_network r
  ∧ EqualFold (TrimSpace (a_DisplayName e)) (TrimSpace name) = true.

Lemma displayNameExists_spec r name m :
  displayNameExistsInNetworkLocked o r name m = true ↔
  TrimSpace name ≠ "" ∧ ∃ k e, authedDevices m !! k = Some e ∧ clashes r e name.
Proof.
  unfold displayNameExistsInNetworkLocked, clashes. case_bool_decide as Hn; [split; [done|by intros [? _]]|].
  rewrite List.existsb_exists. split.
  - intros ([k e] & Hin%list_elem_of_In%elem_of_range & He). split; [done|]. exists k, e. split; [done|].
    destruct (bool_decide (a_GroupName e = _) && _) eqn:Hs; [done|]. apply andb_false_iff in Hs.
    case_bool_decide as Hnet; [done|]. split_and!; [|done..].
    destruct Hs as [Hs%bool_decide_eq_false|Hs%bool_decide_eq_false]; auto.
  - intros (_ & k & e & Hk & Hd & Hnet & He). exists (k, e).
    split; [by apply list_elem_of_In, elem_of_range|].
    rewrite (proj2 (andb_false_iff _ _)).
    + by rewrite bool_decide_eq_false_2 by tauto.
    + destruct Hd; [left|right]; by apply bool_decide_eq_false_2.
Qed.

Lemma uniqueDisplayName_free (r : UMAuthDevice) (desired : string) (m : UserManager) :
  displayNameExistsInNetworkLocked o r (uniqueDisplayNameLocked o r desired m) m = false.
Proof.
  unfold uniqueDisplayNameLocked. cbv zeta.
  set (base := if bool_decide (TrimSpace desired = "") then TrimSpace (a_DeviceID r) else TrimSpace desired).
  assert (Htrim : TrimSpace base = base) by (unfold base; case_bool_decide; apply TrimSpace_idem).
  destruct (bool_decide (base = "") || _) eqn:Hb.
  { apply orb_true_iff in Hb as [Hb|Hb]; bool_prop; [|done]. rewrite Hb.
    unfold displayNameExistsInNetworkLocked. by rewrite bool_decide_eq_true_2. }
  bool_prop. set (taken := λ i, displayNameExistsInNetworkLocked o r (numbered_name base i) m).
  set (l := (λ e : string * UMAuthDevice, fold_key (TrimSpace (a_DisplayName e.2))) <$> map_to_list (authedDevices m)).
  assert (Hlen : length l = size (authedDevices m)) by (unfold l; by rewrite length_fmap, length_map_to_list).
  rewrite <-Hlen.
  change (taken (first_free (length l) taken 1) = false).
  apply (first_free_pigeonhole (λ i, fold_key (TrimSpace (numbered_name base i)))).
  - intros j Hj. apply displayNameExists_spec in Hj as (_ & k & e & Hk & _ & _ & Hf%bool_decide_eq_true).
    rewrite <-Hf. by apply (list_elem_of_fmap_2' _ _ (k, e)); [apply elem_of_map_to_list|].
  - intros j k Hj Hk. unfold numbered_name. rewrite !TrimSpace_numbered by (done || lia).
    by apply fold_key_numbered_inj; lia.
Qed.

(** C39 (termination). [uniqueDisplayNameLocked] ends with the first name of the
    sequence desired, desired-1, desired-2, ... that no other device of the record's
    network uses, even up to case (the device identifier stands in for a blank
    request). *)
Theorem uniqueDisplayName_first_unused (r : UMAuthDevice) (desired : string) (m : UserManager) :
  let base := if bool_decide (TrimSpace desired = "") then TrimSpace (a_DeviceID r) else TrimSpace desired in
  let name := uniqueDisplayNameLocked o r desired m in
  displayNameExistsInNetworkLocked o r name m = false
  ∧ (name = base ∨ ∃ i, 1 ≤ i ∧ name = numbered_name base i
       ∧ displayNameExistsInNetworkLocked o r base m = true
       ∧ ∀ j, 1 ≤ j < i → displayNameExistsInNetworkLocked o r (numbered_name base j) m = true).
Proof.
  cbv zeta. split; [apply uniqueDisplayName_free|]. unfold uniqueDisplayNameLocked. cbv zeta.
  set (base := if bool_decide (TrimSpace desired = "") then _ else _).
  destruct (_ || _) eqn:Hb; [by left|right]. bool_prop.
  match goal with |- context [first_free ?n ?t 1] => destruct (first_free_spec n t 1) as (Hr & Hlt & _) end.
  eexists. split_and!; [|done..]. lia.
Qed.

(** Devices of one network have different display names, up to case. *)
Definition names_unique (m : UserManager) : Prop :=
  ∀ k1 k2 r1 r2, authedDevices m !! k1 = Some r1 → authedDevices m !! k2 = Some r2 → k1 ≠ k2 →
    record_network r1 = record_network r2 → TrimSpace (a_DisplayName r1) ≠ "" →
    EqualFold (TrimSpace (a_DisplayName r1)) (TrimSpace (a_DisplayName r2)) = false.

Lemma EqualFold_sym s t : EqualFold s t = EqualFold t s.
Proof. unfold EqualFold. apply bool_decide_ext. by split. Qed.

Lemma EqualFold_empty s : s ≠ "" → EqualFold s "" = false.
Proof.
  intros Hs. apply bool_decide_eq_false_2. destruct s as [|c s]; [done|]. unfold fold_key, string_runes. done.
Qed.

Lemma names_put m k r :
  names_unique m →
  (∀ k' e, authedDevices m !! k' = Some e → k' ≠ k → record_network e = record_network r →
     TrimSpace (a_DisplayName r) ≠ "" → EqualFold (TrimSpace (a_DisplayName e)) (TrimSpace (a_DisplayName r)) = false) →
  names_unique (m <| authedDevices := <[k := r]> (authedDevices m) |>).
Proof.
  intros Hu Hr k1 k2 r1 r2. simpl. unfold const.
  intros [[<- <-]|[Hk1 H1]]%lookup_insert_Some [[<- <-]|[Hk2 H2]]%lookup_insert_Some Hne Hnet Hn; try done.
  - rewrite EqualFold_sym. by apply (Hr k2 r2).
  - destruct (decide (TrimSpace (a_DisplayName r) = "")) as [->|Hn']; [by apply EqualFold_empty|].
    by apply (Hr k1 r1).
  - by apply (Hu k1 k2).
Qed.

Lemma names_sub m devices :
  names_unique m →
  (∀ k r, devices !! k = Some r → ∃ r0, authedDevices m !! k = Some r0 ∧ record_network r = record_network r0
     ∧ a_DisplayName r = a_DisplayName r0) →
  names_unique (m <| authedDevices := devices |>).
Proof.
  intros Hu Hd k1 k2 r1 r2 H1 H2. simpl in H1, H2. unfold const in H1, H2.
  destruct (Hd _ _ H1) as (q1 & Hq1 & -> & ->). destruct (Hd _ _ H2) as (q2 & Hq2 & -> & ->). by apply Hu.
Qed.

(** Giving a filed record a name that [displayNameExistsInNetworkLocked] rejects
    nowhere keeps the names unique. *)
Lemma names_rename m k r name :
  wf_um m → names_unique m → authedDevices m !! k = Some r →
  displayNameExistsInNetworkLocked o r name m = false →
  names_unique (m <| authedDevices := <[k := r <| a_DisplayName := name |>]> (authedDevices m) |>).
Proof.
  intros Hwf Hu Hk Hex. apply names_put; [done|]. intros k' e He Hne Hnet Hn.
  destruct (EqualFold _ _) eqn:Heq; [|done]. exfalso.
  enough (displayNameExistsInNetworkLocked o r name m = true) by congruence.
  apply displayNameExists_spec. split; [done|]. exists k', e. split; [done|]. split; [|done].
  destruct (wf_authed m Hwf _ _ He) as [Hk' _]. destruct (wf_authed m Hwf _ _ Hk) as [Hk0 _].
  destruct (decide (a_GroupName e = a_GroupName r)) as [Eg|]; [|by left].
  destruct (decide (a_DeviceID e = a_DeviceID r)) as [Ed|]; [|by right]. congruence.
Qed.

(** The two operations that file a name without the full check need a side
    condition: re-authentication stays within the device's network, and a name is
    set on a device that is filed once in its network. *)
Definition name_safe (now : Z) (op : um_op) (m : UserManager) : Prop :=
  match op with
  | OpAuthDevice userID group dev ticket _ => ∀ g r,
      ValidateDeviceAuth now userID group dev ticket m = Ok g →
      authedDevices m !! authedDeviceKey g dev = Some r → record_network r = Key (NewNetworkIdentity g userID)
  | OpSetName group dev _ => ∀ k e r,
      authedDevices m !! authedDeviceKey group dev = Some r → authedDevices m !! k = Some e →
      a_DeviceID e = dev → record_network e = record_network r → k = authedDeviceKey group dev
  | _ => True
  end.

Lemma authed_unchanged save now op m :
  match op with
  | OpAuthDevice _ _ _ _ _ | OpAssignName _ _ _ | OpExtend _ _ _ _ _ | OpDelete _ _ _ | OpSetName _ _ _
  | OpRename _ _ _ _ => True
  | _ => authedDevices (um_exec save now op m).1 = authedDevices m end.
Proof. destruct op; try done; unchanged. Qed.

Lemma names_AuthDevice save now userID group dev ticket pk m :
  names_unique m → name_safe now (OpAuthDevice userID group dev ticket pk) m →
  names_unique (AuthDevice o save sha256 now userID group dev ticket pk m).1.
Proof.
  intros Hu Hs. unfold AuthDevice. case_bool_decide; [done|].
  destruct (ValidateDeviceAuth _ _ _ _ _ _) as [g|] eqn:E; [|done].
  unfold auth_device_commit. rewrite finish_fst. apply (names_put m); [done|].
  intros k e He Hne Hnet Hn. cbn [a_DisplayName] in *.
  destruct (authedDevices m !! authedDeviceKey g dev) as [r|] eqn:Hr; [|done].
  rewrite TrimSpace_idem in *. rewrite EqualFold_sym. apply (Hu (authedDeviceKey g dev) k); try done.
  rewrite (Hs g r E Hr). symmetry. exact Hnet.
Qed.

Lemma names_SetName save group dev name m :
  names_unique m → name_safe 0 (OpSetName group dev name) m →
  names_unique (SetAuthedDeviceDisplayName o save group dev name m).1.
Proof.
  intros Hu Hs. unfold SetAuthedDeviceDisplayName. returns; try done.
  match goal with E : authedDevices m !! _ = Some ?r |- _ => rename E into Hr; rename r into rec end.
  apply names_put; [done|]. intros k e He Hne Hnet Hn.
  match goal with E : existsb _ _ = false |- _ => rename E into Hex end.
  destruct (EqualFold _ _) eqn:Heq; [|done]. exfalso.
  cut (existsb (λ '(_, existing),
          if bool_decide (a_DeviceID existing = dev) then false
          else if bool_decide (record_network existing ≠ record_network rec) then false
          else EqualFold (TrimSpace (a_DisplayName existing)) (TrimSpace name)) (range o (authedDevices m)) = true);
    [congruence|]. clear Hex.
  apply List.existsb_exists. exists (k, e). split; [by apply list_elem_of_In, elem_of_range|].
  rewrite bool_decide_eq_false_2 by (intros Hd; apply Hne; by apply (Hs k e rec)).
  rewrite bool_decide_eq_false_2 by tauto. simpl in Heq. unfold const in Heq. by rewrite TrimSpace_idem in Heq.
Qed.

(** Every operation keeps the display names of a network unique
    up to case, given that re-authentication stays in the device's network. *)
Theorem um_exec_names_unique save (now : Z) (op : um_op) (m : UserManager) :
  wf_um m → names_unique m → name_safe now op m → names_unique (um_exec save now op m).1.
Proof.
  intros Hwf Hu Hs. pose proof (authed_unchanged save now op m) as Hsame.
  destruct op; cbv iota in Hsame; try (unfold names_unique; by rewrite Hsame).
  all: clear Hsame; cbn [um_exec]; unfold succeeds; cbn [fst].
  - by apply names_AuthDevice.
  - unfold AssignAuthedDeviceDisplayName. returns; try done.
    apply names_rename; [done..|]. apply uniqueDisplayName_free.
  - unfold ExtendAuthedDeviceExpiry. returns; try done.
    match goal with E : resolve_matches _ _ _ _ _ = Ok _ |- _ => apply resolve_matches_Ok in E as (-> & _ & _) end.
    apply names_sub; [done|]. intros k r.
    match goal with E : foldl _ _ _ = _ |- _ => rewrite (extend_fold _ _ _ _ _ _ _ (matching_keys_NoDup _ _ _ _) E) end.
    destruct (bool_decide (k ∈ _)); [|intros ?; by exists r]. intros (r0 & Hr0 & ->)%fmap_Some. by exists r0.
  - unfold DeleteAuthedDevice. returns; try done.
    match goal with E : resolve_matches _ _ _ _ _ = Ok _ |- _ => apply resolve_matches_Ok in E as (-> & _ & _) end.
    apply names_sub; [done|]. intros k r.
    match goal with E : foldl _ _ _ = _ |- _ => rewrite (delete_fold _ _ _ _ _ (matching_keys_NoDup _ _ _ _) E) end.
    destruct (bool_decide (k ∈ _)); [done|intros ?; by exists r].
  - destruct (SetAuthedDeviceDisplayName _ _ _ _ _ _) as [m1 e] eqn:E. cbn [fst].
    apply (f_equal fst) in E. cbn [fst] in E. subst m1. by apply names_SetName.
  - unfold RenameAuthedDevice. returns; try done.
    match goal with E : _ ≫= _ = Some _ |- _ => apply bind_Some in E as (k & _ & (r & Hr & [= <- <-])%fmap_Some) end.
    by apply names_rename.
Qed.

(** ** Authentication *)

(** After a successful [AuthDevice], [CheckAuthedDevice] accepts
    the device with exactly the keys that hash like the authenticated one, until
    thirty days later, and reports expiry afterwards. *)
Theorem auth_then_check save (now : Z) (userID group dev ticket : string) (pk : list byte) (m m' : UserManager)
    (rec : UMAuthDevice) (now' : Z) (pk' : list byte) :
  0 ≤ now →
  AuthDevice o save sha256 now userID group dev ticket pk m = (m', Ok rec) →
  a_UserID rec = userID ∧ a_DeviceID rec = dev ∧ owned m userID (a_GroupName rec)
  ∧ CheckAuthedDevice sha256 now' (a_GroupName rec) dev pk' m' =
      if now + defaultDeviceAuthTTL <? now' then Some "auth_expired"
      else if bool_decide (pk' ≠ [] ∧ toPubKeyHex sha256 pk' "ed25519" = toPubKeyHex sha256 pk "ed25519")
           then None else Some "device_key_mismatch".
Proof.
  intros Hnow. unfold AuthDevice. case_bool_decide; [done|].
  destruct (ValidateDeviceAuth _ _ _ _ _ _) as [g|] eqn:E; [|done].
  apply ValidateDeviceAuth_Ok in E as (t & u & Ht & _ & _ & Htu & Htg & Hu & Hg & _).
  apply normalizeGroup_in_domain in Hg.
  unfold auth_device_commit, finish. cbv zeta. destruct (saveLocked o save _); [done|]. intros [= <- <-].
  cbn [a_UserID a_DeviceID a_GroupName]. split_and!; [done..|by exists u|].
  unfold CheckAuthedDevice. simpl. unfold const. rewrite lookup_insert_eq.
  cbn [a_AuthExpireAt a_PubKeyHex]. unfold time_IsZero.
  rewrite (proj2 (Z.eqb_neq _ zero_time)) by (unfold defaultDeviceAuthTTL, zero_time, hour, minute, second; lia).
  cbn [negb andb]. destruct (_ <? _); [done|].
  destruct (decide (pk' = [])) as [->|Hpk].
  { rewrite bool_decide_eq_true_2 by done. by rewrite bool_decide_eq_false_2 by tauto. }
  rewrite (bool_decide_eq_false_2 (pk' = [])) by done.
  destruct (decide (toPubKeyHex sha256 pk' "ed25519" = toPubKeyHex sha256 pk "ed25519")) as [->|Hh].
  - by rewrite bool_decide_eq_false_2, bool_decide_eq_true_2 by tauto.
  - rewrite bool_decide_eq_true_2 by congruence. by rewrite bool_decide_eq_false_2 by tauto.
Qed.

(** When the store cannot be written, [AuthDevice] reports the error
    but the device stays authenticated, and the ticket consumed, in memory. *)
Theorem AuthDevice_save_failure save (now : Z) (userID group dev ticket g e : string) (pk : list byte) (m : UserManager) :
  (∀ s, save s = Some e) → pk ≠ [] → ValidateDeviceAuth now userID group dev ticket m = Ok g →
  let r := AuthDevice o save sha256 now userID group dev ticket pk m in
  r.2 = Err e ∧ IsAuthedDevice g dev r.1 = true ∧ ticket_used ticket r.1.
Proof.
  intros Hs Hpk E. cbv zeta. unfold AuthDevice. rewrite bool_decide_eq_false_2 by done. rewrite E.
  unfold auth_device_commit, finish, saveLocked. rewrite Hs. cbn [fst snd]. split_and!; [done|..].
  - apply bool_decide_eq_true. eexists. apply lookup_insert_eq.
  - eexists. split; [apply lookup_insert_eq|done].
Qed.

(** ** Admin operations *)

(** [DeleteAuthedDevice] removes exactly the records of the user and device (in the
    named group, if one is named) and reports them; nothing else changes. *)
Lemma DeleteAuthedDevice_exact save (userID group dev : string) (m m' : UserManager) (deleted : list UMAuthDevice) :
  DeleteAuthedDevice o save userID group dev m = (m', Ok deleted) →
  ∃ g, (TrimSpace group = "" ∧ g = "" ∨ in_domain g (from_option u_Domain "" (users m !! TrimSpace userID)))
  ∧ (∃ k, k ∈ matching_keys o (TrimSpace userID) g (TrimSpace dev) m)
  ∧ (∀ k, authedDevices m' !! k =
       if bool_decide (k ∈ matching_keys o (TrimSpace userID) g (TrimSpace dev) m) then None else authedDevices m !! k)
  ∧ (∀ r, r ∈ deleted ↔ ∃ k, k ∈ matching_keys o (TrimSpace userID) g (TrimSpace dev) m ∧ authedDevices m !! k = Some r)
  ∧ m' = m <| authedDevices := authedDevices m' |>.
Proof.
  unfold DeleteAuthedDevice. cbv zeta. case_bool_decide; [done|]. case_bool_decide; [done|].
  destruct (resolve_matches _ _ _ _ _) as [[g keys]|] eqn:E; [|done].
  destruct (bool_decide (g = "") && _); [done|].
  destruct (foldl _ _ _) as [devices del] eqn:Hf. unfold finish. destruct (saveLocked o save _); [done|].
  intros [= <- <-]. exists g.
  assert (Hg : TrimSpace group = "" ∧ g = "" ∨ in_domain g (from_option u_Domain "" (users m !! TrimSpace userID))).
  { unfold resolve_matches in E. destruct (users m !! _) as [u|]; [|done]. apply rbind_Ok in E as (g' & Hg & E).
    destruct (bool_decide (matching_keys _ _ _ _ _ = [])); [done|]. injection E as <- <-.
    case_bool_decide as Hb; [right; by eapply normalizeGroup_in_domain|]. injection Hg as <-. by left. }
  apply resolve_matches_Ok in E as (-> & Hne & _).
  split_and!; [done| |exact (delete_fold _ _ _ _ _ (matching_keys_NoDup _ _ _ _) Hf)| |done].
  2:{ intros r. rewrite (delete_fold_records _ _ _ _ _ r (matching_keys_NoDup _ _ _ _) Hf). set_solver. }
  destruct (matching_keys _ _ _ _ _) as [|k l]; [done|]. exists k. constructor.
Qed.

(** [ExtendAuthedDeviceExpiry] lengthens the authorisation of
    every matching record, by at least the requested time beyond the present and
    beyond any unexpired deadline, and touches no other record. *)
Theorem Extend_lengthens save (now : Z) (userID group dev : string) (ttl : Z) (all : bool) (m m' : UserManager)
    (updated : list UMAuthDevice) :
  ExtendAuthedDeviceExpiry o save now userID group dev ttl all m = (m', Ok updated) →
  ∃ g, ∀ k r, authedDevices m !! k = Some r →
    ∃ r', authedDevices m' !! k = Some r' ∧
      if bool_decide (k ∈ matching_keys o (TrimSpace userID) g (TrimSpace dev) m)
      then now + ttl ≤ a_AuthExpireAt r' ∧ (a_AuthExpireAt r ≠ zero_time → a_AuthExpireAt r + ttl ≤ a_AuthExpireAt r')
           ∧ a_AuthExpireAt r' ≤ Z.max now (a_AuthExpireAt r) + ttl
      else r' = r.
Proof.
  unfold ExtendAuthedDeviceExpiry. cbv zeta. case_bool_decide; [done|]. destruct (ttl <=? 0); [done|].
  destruct (negb all && _); [done|].
  destruct (resolve_matches _ _ _ _ _) as [[g keys]|] eqn:E; [|done].
  apply resolve_matches_Ok in E as (-> & _ & _). destruct (negb all && _ && _ && _); [done|].
  destruct (foldl _ _ _) as [devices upd] eqn:Hf. unfold finish. destruct (saveLocked o save _); [done|].
  intros [= <- <-]. exists g. intros k r Hr. cbn [authedDevices].
  pose proof (extend_fold _ _ _ _ _ _ _ (matching_keys_NoDup _ _ _ _) Hf k) as Hk. rewrite Hr in Hk.
  destruct (bool_decide (k ∈ _)); [|by exists r].
  eexists. split; [exact Hk|]. unfold extend_record, time_IsZero. simpl. unfold const.
  destruct (a_AuthExpireAt r =? zero_time) eqn:Hz; cbn [orb]; [|destruct (_ <? now) eqn:Hlt]; bool_prop; lia.
Qed.

(** ** Durability *)
Lemma finish_ok {A} save (a b : A) m : (finish o save a m).2 = Ok b → saveLocked o save m = None ∧ a = b.
Proof. unfold finish. destruct (saveLocked o save m); [done|]. by intros [= ->]. Qed.

(** An operation that reports success has saved the state it left
    behind, or left the state as it was. *)
Theorem um_exec_durable save (now : Z) (op : um_op) (m : UserManager) :
  (um_exec save now op m).2 = true →
  (um_exec save now op m).1 = m ∨ save (snapshotLocked o (um_exec save now op m).1) = None.
Proof.
  assert (Hfin : ∀ A (a : A) m', (succeeds (finish o save a m')).2 = true →
    (succeeds (finish o save a m')).1 = m ∨ save (snapshotLocked o (succeeds (finish o save a m')).1) = None).
  { intros A a m'. unfold succeeds, finish. destruct (saveLocked o save m') eqn:E; [done|]. right. exact E. }
  assert (Hret : ∀ A (r : result A), (succeeds (m, r)).2 = true →
    (succeeds (m, r)).1 = m ∨ save (snapshotLocked o (succeeds (m, r)).1) = None) by (intros; by left).
  destruct op; cbn [um_exec];
    unfold CreateUser, CreateUserWithID, CreateEnrollment, BindDeviceByEnrollment, GenerateBasicPolicy,
    IssueDeviceTicket, AuthDevice, auth_device_commit, AssignAuthedDeviceDisplayName, ExtendAuthedDeviceExpiry,
    DeleteAuthedDevice, SetAuthedDeviceDisplayName, RenameAuthedDevice; cbv zeta;
    repeat match goal with
    | |- _ → (succeeds (m, _)).1 = _ ∨ _ => apply Hret
    | |- _ → (succeeds (finish _ _ _ _)).1 = _ ∨ _ => apply Hfin
    | |- _ → (succeeds (if ?b then _ else _)).1 = _ ∨ _ => destruct b
    | |- _ → (succeeds (match ?x with _ => _ end)).1 = _ ∨ _ => destruct x
    end.
  repeat (case_match; simplify_eq); cbn [fst snd]; try (by left).
  intros Hs. right. by apply bool_decide_eq_true in Hs.
Qed.

(** ** Snapshot and restore *)
Lemma foldl_insert_lookup {A} (l : list (string * A)) m0 :
  NoDup l.*1 →
  (∀ k v, (k, v) ∈ l → foldl (λ d '(k, v), <[k := v]> d) m0 l !! k = Some v)
  ∧ ∀ k, k ∉ l.*1 → foldl (λ d '(k, v), <[k := v]> d) m0 l !! k = (m0 : gmap string A) !! k.
Proof.
  revert m0. induction l as [|[k0 v0] l IH]; intros m0 Hnd.
  { split; [by intros ? ? ?%not_elem_of_nil|done]. }
  cbn [fmap list_fmap fst] in Hnd. apply NoDup_cons in Hnd as [Hk Hnd]. cbn [foldl].
  destruct (IH (<[k0 := v0]> m0) Hnd) as [IH1 IH2]. split.
  - intros k v [[= -> ->]|Hin]%elem_of_cons; [|by apply IH1]. rewrite IH2 by done. apply lookup_insert_eq.
  - intros k. cbn [fmap list_fmap fst]. rewrite not_elem_of_cons. intros [Hne Hni].
    rewrite IH2 by done. by rewrite lookup_insert_ne.
Qed.

(** Group and device identifiers without white space at their ends. *)
Definition trimmed_devices (m : UserManager) : Prop :=
  ∀ k r, authedDevices m !! k = Some r →
    TrimSpace (a_GroupName r) = a_GroupName r ∧ TrimSpace (a_DeviceID r) = a_DeviceID r.

Lemma cloneAuthedDevices_id o' m : wf_um m → trimmed_devices m → cloneAuthedDevices o' (authedDevices m) = authedDevices m.
Proof.
  intros Hwf Ht. unfold cloneAuthedDevices.
  assert (Hkey : ∀ (l : list (string * UMAuthDevice)) (d : gmap string UMAuthDevice), (∀ k r, (k, r) ∈ l → authedDevices m !! k = Some r) →
    foldl (λ dst '(k, v),
      let key := if bool_decide (TrimSpace (a_DeviceID v) ≠ "")
                 then authedDeviceKey (TrimSpace (a_GroupName v)) (TrimSpace (a_DeviceID v)) else k in
      <[key := v]> dst) d l = foldl (λ d '(k, v), <[k := v]> d) d l).
  { induction l as [|[k r] l IH]; intros d Hl; [done|]. cbn [foldl].
    assert (Hr : authedDevices m !! k = Some r) by (apply Hl; constructor).
    destruct (wf_authed m Hwf _ _ Hr) as [Hk _]. destruct (Ht _ _ Hr) as [-> ->]. cbv zeta.
    rewrite <-Hk. rewrite IH by (intros; apply Hl; by constructor). by destruct (bool_decide _). }
  rewrite Hkey by (intros ? ? ?%elem_of_range; done).
  destruct (foldl_insert_lookup (range o' (authedDevices m)) ∅ (range_NoDup_fst o' _)) as [H1 H2].
  apply map_eq. intros k. destruct (authedDevices m !! k) as [r|] eqn:E.
  - apply H1. by apply elem_of_range.
  - rewrite H2; [apply lookup_empty|]. intros ([k' r] & -> & Hin%elem_of_range)%list_elem_of_fmap. simpl in E. congruence.
Qed.

(** Restoring a manager from its own snapshot yields the same
    manager: nothing is lost or invented across a restart. *)
Theorem restore_snapshot (o' : RangeOrder) (now : Z) (m : UserManager) :
  wf_um m → trimmed_devices m → restore o' now (snapshotLocked o m) = m.
Proof.
  intros Hwf Ht. unfold restore, snapshotLocked; cbn.
  rewrite !cloneAuthedDevices_id by done.
  assert (policies m ∪ map_imap (λ userID _, Some (generateBasicPolicyLocked now userID)) (users m) = policies m) as ->.
  { apply map_eq. intros k. rewrite lookup_union, map_lookup_imap.
    destruct (policies m !! k) as [p|] eqn:E; [by destruct (users m !! k)|].
    destruct (users m !! k) as [u|] eqn:Hu; [|done].
    destruct (wf_users m Hwf _ _ Hu) as [_ [p Hp]]. congruence. }
  by destruct m.
Qed.

End Steps.

#[export] Hint Resolve wf_put_user wf_put_policy wf_put_enrollment wf_bind wf_put_ticket wf_put_authed
  wf_set_authed : sdl.

(** ** A concrete manager: user [alice] of [corp.net] with an authenticated laptop *)
Module SampleUsers.
Definition sha (l : list byte) : list byte := l.
Definition ok : UMSnapshot → option string := λ _, None.
Definition key : list byte := [x01; x02].
Definition ticket (b : byte) : string := "dtk-" +:+ hex_byte b.
Definition setup : um_trace :=
  [(ok, 0, OpCreateUserWithID "alice" "corp.net" "dev");
   (ok, 0, OpIssueTicket (Ok [x0a]) "alice" "dev" 100);
   (ok, 0, OpCreateEnrollment "alice" 100)].
Definition m0 : UserManager := @um_run AsciiFold ascending sha setup NewUserManager.
Definition auth_ops : um_trace :=
  [(ok, 5, OpAuthDevice "alice" "dev" "laptop" (ticket x0a) key);
   (ok, 6, OpAuthDevice "alice" "dev" "phone" (ticket x0a) key)].
Definition m1 : UserManager := @um_run AsciiFold ascending sha auth_ops m0.

Lemma m0_wf : wf_um m0.
Proof. apply um_run_wf; [apply wf_NewUserManager|by vm_compute]. Qed.

Lemma m1_wf : wf_um m1.
Proof. apply um_run_wf; [apply m0_wf|by vm_compute]. Qed.

Lemma m1_device : ∃ r, ∀ k r', authedDevices m1 !! k = Some r' → k = "dev.corp.net|laptop" ∧ r' = r.
Proof.
  eexists. intros k r' Hk.
  assert (Hl : (k, r') ∈ map_to_list (authedDevices m1)) by (by apply elem_of_map_to_list).
  vm_compute in Hl. apply list_elem_of_singleton in Hl. by injection Hl as -> ->.
Qed.
End SampleUsers.

Lemma um_reachable_wf_witness : wf_um (@um_run AsciiFold ascending SampleUsers.sha
  (SampleUsers.setup ++ SampleUsers.auth_ops) NewUserManager).
Proof. apply um_reachable_wf. by vm_compute. Defined.


Lemma ticket_race_witness :
  let r1 := auth_device_commit ascending (λ _, None) SampleUsers.sha 5 "alice" "dev.corp.net" "laptop"
              (SampleUsers.ticket x0a) SampleUsers.key SampleUsers.m0 in
  let r2 := auth_device_commit ascending (λ _, None) SampleUsers.sha 5 "alice" "dev.corp.net" "phone"
              (SampleUsers.ticket x0a) SampleUsers.key r1.1 in
  is_Ok r1.2 ∧ is_Ok r2.2 ∧ IsAuthedDevice "dev.corp.net" "laptop" r2.1 = true
  ∧ IsAuthedDevice "dev.corp.net" "phone" r2.1 = true.
Proof. apply (ticket_race ascending SampleUsers.sha 5 "alice" "dev"); [done|by vm_compute..]. Defined.

Lemma bound_key_keeps_user_witness :
  ∃ d', deviceByPubKey (@um_exec AsciiFold ascending SampleUsers.sha SampleUsers.ok 9
     (OpDelete "alice" "" "laptop") (SampleUsers.m0 <| deviceByPubKey := {["k" := mkUMDevice "alice" "d" "" "ed25519" "k" 0 0]} |>)).1
     !! "k" = Some d' ∧ d_UserID d' = "alice".
Proof.
  apply (@bound_key_keeps_user AsciiFold ascending SampleUsers.sha SampleUsers.ok 9 (OpDelete "alice" "" "laptop") _ "k"
    (mkUMDevice "alice" "d" "" "ed25519" "k" 0 0)). by vm_compute.
Defined.

Lemma CreateUser_fresh_witness :
  ∃ user, users SampleUsers.m0 !! u_UserID user = None ∧ u_Name user = "bob"
    ∧ users (CreateUser ascending SampleUsers.ok 1 "bob" [] SampleUsers.m0).1
      = <[u_UserID user := user]> (users SampleUsers.m0).
Proof.
  destruct (CreateUser_fresh ascending SampleUsers.ok 1 "bob" [] SampleUsers.m0 ltac:(done) ltac:(by vm_compute))
    as (user & H1 & H2 & H3 & _). by exists user.
Defined.

Lemma um_exec_names_unique_witness :
  @names_unique AsciiFold (@um_exec AsciiFold ascending SampleUsers.sha SampleUsers.ok 9
    (OpAssignName "dev.corp.net" "laptop" "my laptop") SampleUsers.m1).1.
Proof.
  apply um_exec_names_unique; [apply SampleUsers.m1_wf| |exact I].
  destruct SampleUsers.m1_device as [r Hr]. intros k1 k2 r1 r2 [-> _]%Hr [-> _]%Hr Hne. by destruct Hne.
Defined.

Lemma auth_then_check_witness :
  CheckAuthedDevice SampleUsers.sha 7 "dev.corp.net" "laptop" SampleUsers.key
    (AuthDevice ascending SampleUsers.ok SampleUsers.sha 5 "alice" "dev" "laptop" (SampleUsers.ticket x0a)
       SampleUsers.key SampleUsers.m0).1 = None.
Proof.
  assert (Hg : match (AuthDevice ascending SampleUsers.ok SampleUsers.sha 5 "alice" "dev" "laptop" (SampleUsers.ticket x0a)
       SampleUsers.key SampleUsers.m0).2 with Ok d => a_GroupName d | Err _ => "" end = "dev.corp.net")
    by (vm_compute; reflexivity).
  destruct (AuthDevice ascending SampleUsers.ok SampleUsers.sha 5 "alice" "dev" "laptop" (SampleUsers.ticket x0a)
       SampleUsers.key SampleUsers.m0) as [m' [rec|e]] eqn:E; cbn [snd] in Hg.
  - apply (auth_then_check ascending SampleUsers.sha SampleUsers.ok 5 "alice" "dev" "laptop" _ _ _ _ _ 7 SampleUsers.key) in E
      as (_ & _ & _ & Hc); [|done].
    rewrite Hg in Hc. cbn [fst]. rewrite Hc. by vm_compute.
  - discriminate Hg.
Defined.

Lemma AuthDevice_save_failure_witness :
  (AuthDevice ascending (λ _, Some "disk full") SampleUsers.sha 5 "alice" "dev" "laptop" (SampleUsers.ticket x0a)
     SampleUsers.key SampleUsers.m0).2 = Err "disk full".
Proof.
  apply (AuthDevice_save_failure ascending SampleUsers.sha (λ _, Some "disk full") 5 "alice" "dev" "laptop"
    (SampleUsers.ticket x0a) "dev.corp.net"); [done|done|by vm_compute].
Defined.

Lemma Extend_lengthens_witness :
  ∃ r', authedDevices (ExtendAuthedDeviceExpiry ascending SampleUsers.ok 10 "alice" "" "laptop" 50 false SampleUsers.m1).1
          !! "dev.corp.net|laptop" = Some r'.
Proof.
  destruct (ExtendAuthedDeviceExpiry ascending SampleUsers.ok 10 "alice" "" "laptop" 50 false SampleUsers.m1)
    as [m' [d|e]] eqn:E.
  - apply Extend_lengthens in E as (g & Hg).
    destruct (authedDevices SampleUsers.m1 !! "dev.corp.net|laptop") as [r|] eqn:Hr; [|by vm_compute in Hr].
    destruct (Hg _ _ Hr) as (r' & Hr' & _). by exists r'.
  - apply (f_equal (λ r, match r.2 with Ok _ => true | Err _ => false end)) in E. vm_compute in E. discriminate E.
Defined.

Lemma um_exec_durable_witness :
  (@um_exec AsciiFold ascending SampleUsers.sha SampleUsers.ok 9 (OpCreateUser "bob" []) SampleUsers.m0).1 = SampleUsers.m0
  ∨ SampleUsers.ok (snapshotLocked ascending
      (@um_exec AsciiFold ascending SampleUsers.sha SampleUsers.ok 9 (OpCreateUser "bob" []) SampleUsers.m0).1) = None.
Proof. apply um_exec_durable. by vm_compute. Defined.

Lemma restore_snapshot_witness : restore descending 77 (snapshotLocked ascending SampleUsers.m1) = SampleUsers.m1.
Proof.
  apply restore_snapshot; [apply SampleUsers.m1_wf|].
  intros k r Hk.
  assert (Hl : (k, r) ∈ map_to_list (authedDevices SampleUsers.m1)) by (by apply elem_of_map_to_list).
  vm_compute in Hl. apply list_elem_of_singleton in Hl. injection Hl as -> ->. by vm_compute.
Defined.
