(* ===== verification/Gateway.v ===== *)
(** * Gateway nodes: reports, approval and access grants ([control/gateway.go]).

    [GatewayState] holds the fields of [Controller] guarded by [gatewayMu]; every
    definition that takes it is one critical section unless noted
    ([HandleGatewayReportPacket] uses four).  [stored] is the snapshot last handed
    to the approval store (a failing store is only logged by the code).

    Parameters: the protobuf codec (class [ProtoMessage]), HMAC-SHA256 [hmac],
    the outcome of [rand.Read] and the three [net/url] results the code uses. *)
From S2P Require Import Prelude GoString NetIP NetParse Packet Proto ExpireMap Network UserManager.
Export Protocol.

(** The reply to a service request. *)
Definition service_packet (request : Packet) (appProto : Z) (payload : list byte) : Packet :=
  {| Ver := V3; Proto := ProtocolService; AppProto := appProto; SourceTTL := MAX_TTL; TTL := MAX_TTL;
     SrcIP := DstIP request; DstIP := SrcIP request; Payload := payload; RouteNetworkKey := "" |}.

(** [net/url] on an address text: [url_host] is the host of a parsed URL ([None]
    when [url.Parse] fails), [url_path] its escaped path, and [url_gateway] its
    text once the path is [/gateway] and the query and fragment are removed. *)
Class UrlPackage := { url_host : string → option string; url_path : string → string; url_gateway : string → string }.

(** ** Data *)
Record GatewayNodeInfo := mkGatewayNodeInfo {
  GatewayID : string;
  Endpoint : string;
  NodeCapabilities : list string;
  Channels : list GatewayChannel;
  UpdatedAt : Z
}.

Record cachedGatewayGrant := mkCachedGatewayGrant {
  cg_gatewayID : string;
  cg_nodeFingerprint : string;
  cg_expireUnixMs : Z;
  cg_grant : option GatewayAccessGrant
}.

Record gatewayGrantBuildOptions := {
  lastSessionID : Z;
  lastSessionIDValid : bool;
  forceReissue : bool;
  refresh : bool;
  retainExisting : bool
}.

Record GatewayAdminView := {
  gv_GatewayID : string; gv_Endpoint : string; gv_Approved : bool; gv_Default : bool; gv_Reported : bool;
  gv_Alive : bool; gv_Capabilities : list string; gv_UpdatedAtUnix : Z
}.

Definition zeroGatewayAdminView : GatewayAdminView :=
  {| gv_GatewayID := ""; gv_Endpoint := ""; gv_Approved := false; gv_Default := false; gv_Reported := false;
     gv_Alive := false; gv_Capabilities := []; gv_UpdatedAtUnix := 0 |}.

Record GatewayState := mkGatewayState {
  gatewayNodes : gmap string GatewayNodeInfo;
  gatewayAllow : gmap string string;
  gatewaySeen : gmap string GatewayNodeInfo;
  gatewayNonce : gmap string (gmap string Z);
  gatewayGrantFingerprint : string;
  gatewayGrantPolicyRev : Z;
  gatewayGrantCache : gmap string cachedGatewayGrant;
  stored : gmap string string
}.

Definition gatewayNodeLease : Z := 90 * second.
Definition gatewayReportFreshnessWindow : Z := 2 * minute.
Definition gatewayGrantLease : Z := 5 * minute.
Definition gatewayGrantGrace : Z := 45 * second.
Definition defaultGatewayHost : string := "gateway.middlescale.net".

(** [strings.Join]. *)
Definition Join (parts : list string) (sep : string) : string := String.concat sep parts.

(** [time.Duration.Seconds] of whole seconds, and milliseconds of an instant. *)
Definition seconds_of (d : Z) : Z := d / second.

Section Channels.
Context `{UrlPackage}.

Definition normalizeGatewayChannelKind (kind : Z) : Z :=
  if (kind =? GATEWAY_CHANNEL_UDP) || (kind =? GATEWAY_CHANNEL_QUIC) || (kind =? GATEWAY_CHANNEL_HTTPS)
  then kind else GATEWAY_CHANNEL_UNKNOWN.

Definition normalizeGatewayChannelAddr (kind : Z) (raw : string) : string :=
  let addr := TrimSpace raw in
  if bool_decide (addr = "") then "" else
  if negb (kind =? GATEWAY_CHANNEL_HTTPS) then addr else
  if negb (HasPrefix addr "https://") then "" else
  match url_host addr with
  | None => ""
  | Some host =>
      if bool_decide (TrimSpace host = "") then "" else
      let path := url_path addr in
      if bool_decide (path = "") || bool_decide (path = "/") || bool_decide (path = "/gateway")
      then url_gateway addr else ""
  end.

Definition cloneGatewayChannels (channels : list GatewayChannel) : list GatewayChannel :=
  omap (λ channel,
      let kind := normalizeGatewayChannelKind (ch_kind channel) in
      let addr := normalizeGatewayChannelAddr kind (ch_addr channel) in
      if bool_decide (addr = "") then None else
      let udp := kind =? GATEWAY_CHANNEL_UDP in
      Some {| ch_kind := kind; ch_addr := addr; ch_server_name := TrimSpace (ch_server_name channel);
              ch_udp_public_key := if udp then ch_udp_public_key channel else [];
              ch_udp_key_id := if udp then TrimSpace (ch_udp_key_id channel) else "" |})
    channels.

Definition cloneGatewayChannel (channel : option GatewayChannel) : option GatewayChannel :=
  match channel with Some ch => head (cloneGatewayChannels [ch]) | None => None end.

(** The endpoint of one channel, or [""]. *)
Definition channel_endpoint (channel : GatewayChannel) : string :=
  let kind := normalizeGatewayChannelKind (ch_kind channel) in
  let addr := normalizeGatewayChannelAddr kind (ch_addr channel) in
  if bool_decide (addr = "") then "" else
  if kind =? GATEWAY_CHANNEL_UDP then if HasPrefix addr "udp://" then TrimPrefix addr "udp://" else ""
  else if kind =? GATEWAY_CHANNEL_QUIC then if HasPrefix addr "quic://" then TrimPrefix addr "quic://" else ""
  else if kind =? GATEWAY_CHANNEL_HTTPS then
    if HasPrefix addr "https://" then default "" (url_host addr) else ""
  else "".

Definition primaryGatewayEndpoint (channels : list GatewayChannel) : string :=
  default "" (head (filter (λ e, e ≠ "") (channel_endpoint <$> channels))).

Definition gatewayServerName (endpoint : string) : string :=
  let host := match SplitHostPort endpoint with Ok (h, _) => h | Err _ => endpoint end in
  let host := TrimSpace host in
  if bool_decide (host = "") then defaultGatewayHost else host.

End Channels.

Definition channel_fingerprint (channel : GatewayChannel) : string :=
  dec (ch_kind channel) +:+ "|" +:+ ch_addr channel +:+ "|" +:+ ch_server_name channel +:+ "|"
  +:+ ch_udp_key_id channel +:+ "|" +:+ EncodeToString (ch_udp_public_key channel).

Definition gatewayGrantNodeFingerprint (node : GatewayNodeInfo) : string :=
  Join ([GatewayID node; Endpoint node; Join (NodeCapabilities node) ","]
        ++ (channel_fingerprint <$> Channels node)) ";".

Definition gatewayGrantFingerprintOf (nodes : list GatewayNodeInfo) : string :=
  Join (gatewayGrantNodeFingerprint <$> nodes) ",".

Definition gatewayGrantCachePrefix (networkKey : string) (virtualIP : Z) (deviceID : string) : string :=
  TrimSpace networkKey +:+ "|" +:+ dec virtualIP +:+ "|" +:+ deviceID +:+ "|".

Definition gatewayGrantCacheKey (networkKey : string) (virtualIP : Z) (deviceID gatewayID : string) : string :=
  gatewayGrantCachePrefix networkKey virtualIP deviceID +:+ gatewayID.

(** ** Ordering of nodes and grants: the default gateway first, then by identifier *)
Definition node_le (defaultID : string) (a b : GatewayNodeInfo) : Prop :=
  let leftDefault := bool_decide (GatewayID a = defaultID) in
  let rightDefault := bool_decide (GatewayID b = defaultID) in
  if negb (Bool.eqb leftDefault rightDefault) then leftDefault = true
  else if bool_decide (GatewayID a ≠ GatewayID b) then String.leb (GatewayID a) (GatewayID b) = true
  else String.leb (Endpoint a) (Endpoint b) = true.
#[export] Instance node_le_dec d a b : Decision (node_le d a b).
Proof. unfold node_le. cbv zeta. repeat case_match; apply _. Defined.

Definition grant_le (defaultID : string) (a b : GatewayAccessGrant) : Prop :=
  let leftDefault := bool_decide (grant_gateway_id a = defaultID) in
  let rightDefault := bool_decide (grant_gateway_id b = defaultID) in
  if negb (Bool.eqb leftDefault rightDefault) then leftDefault = true
  else String.leb (grant_gateway_id a) (grant_gateway_id b) = true.
#[export] Instance grant_le_dec d a b : Decision (grant_le d a b).
Proof. unfold grant_le. cbv zeta. repeat case_match; apply _. Defined.

Definition sortGatewayAccessGrants (grants : list GatewayAccessGrant) (defaultGatewayID : string)
    : list GatewayAccessGrant := merge_sort (grant_le defaultGatewayID) grants.

Definition selectPrimaryGatewayGrant (grants : list GatewayAccessGrant) : option GatewayAccessGrant := head grants.

Section Gateway.
Context `{UrlPackage} `{ProtoMessage GatewayReportRequest} `{ProtoMessage GatewayReportProof}
  `{ProtoMessage GatewayReportAck} `{ProtoMessage GatewayTicketClaims} `{ProtoMessage SignedGatewayTicket}.
Context (o : RangeOrder) (hmac : string → list byte → list byte).
(** [c.cfg.GatewayTicketSecret], [c.cfg.DefaultGatewayID], and the two durations
    read from the environment. *)
Context (secret defaultGatewayID : string) (gatewayGrantHardTTL gatewayGrantSoftRefreshLead : Z).
Implicit Types (g : GatewayState).

Definition is_default (gatewayID : string) : bool := bool_decide (TrimSpace gatewayID = TrimSpace defaultGatewayID).

(** ** Approval *)

(** The snapshot written to the approval store. *)
Definition approval_snapshot (allow : gmap string string) : gmap string string :=
  foldl (λ snapshot '(gatewayID, endpoint),
      if bool_decide (TrimSpace gatewayID = "") || bool_decide (TrimSpace endpoint = "") then snapshot
      else <[TrimSpace gatewayID := TrimSpace endpoint]> snapshot)
    ∅ (range o allow).

Definition persistGatewayApprovalLocked (g : GatewayState) : GatewayState :=
  g <| stored := approval_snapshot (gatewayAllow g) |>.

Definition gatewayNodeApprovedLocked (g : GatewayState) (node : GatewayNodeInfo) : bool :=
  if bool_decide (TrimSpace (Endpoint node) = "") then false else
  let approvedEndpoint := default "" (gatewayAllow g !! GatewayID node) in
  let approved := bool_decide (is_Some (gatewayAllow g !! GatewayID node))
                  || bool_decide (GatewayID node = TrimSpace defaultGatewayID) in
  if negb approved then false
  else bool_decide (TrimSpace approvedEndpoint = "")
       || bool_decide (TrimSpace approvedEndpoint = TrimSpace (Endpoint node)).

Definition isGatewayAllowed (g : GatewayState) (gatewayID endpoint : string) : bool :=
  if is_default gatewayID then true else
  match gatewayAllow g !! gatewayID with
  | Some allowedEndpoint => bool_decide (TrimSpace allowedEndpoint = TrimSpace endpoint)
  | None => false
  end.

Definition ApproveGatewayNode (gatewayID endpoint : string) (g : GatewayState) : GatewayState :=
  persistGatewayApprovalLocked (g <| gatewayAllow := <[gatewayID := endpoint]> (gatewayAllow g) |>).

Definition ApproveGatewayNodeByID (gatewayID : string) (g : GatewayState) : GatewayState * option string :=
  let gatewayID := TrimSpace gatewayID in
  if bool_decide (gatewayID = "") then (g, Some "gateway_id is required") else
  if bool_decide (gatewayID = TrimSpace defaultGatewayID) then (g, None) else
  let known := match gatewayAllow g !! gatewayID with
               | Some endpoint => bool_decide (TrimSpace endpoint ≠ "") | None => false end in
  if known then (g, None) else
  let none := (g, Some ("gateway " +:+ gatewayID +:+ " has no pending report")) in
  match gatewaySeen g !! gatewayID with
  | None => none
  | Some seen =>
      if bool_decide (TrimSpace (Endpoint seen) = "") then none else
      (persistGatewayApprovalLocked
         (g <| gatewayAllow := <[gatewayID := Endpoint seen]> (gatewayAllow g) |>
            <| gatewayNodes := <[gatewayID := seen]> (gatewayNodes g) |>), None)
  end.

Definition deleteGatewayGrantCacheForGatewayLocked (gatewayID : string) (g : GatewayState) : GatewayState :=
  g <| gatewayGrantCache := filter (λ kc, cg_gatewayID kc.2 ≠ gatewayID) (gatewayGrantCache g) |>.

Definition DelistGatewayNodeByID (gatewayID : string) (g : GatewayState) : GatewayState * option string :=
  let gatewayID := TrimSpace gatewayID in
  if bool_decide (gatewayID = "") then (g, Some "gateway_id is required") else
  if bool_decide (gatewayID = TrimSpace defaultGatewayID)
  then (g, Some ("default gateway " +:+ gatewayID +:+ " cannot be delisted")) else
  if bool_decide (gatewayAllow g !! gatewayID = None) && bool_decide (gatewayNodes g !! gatewayID = None)
     && bool_decide (gatewaySeen g !! gatewayID = None)
  then (g, Some ("gateway " +:+ gatewayID +:+ " not found")) else
  let g := match gatewayNodes g !! gatewayID with
           | Some node => g <| gatewaySeen := <[gatewayID := node]> (gatewaySeen g) |>
           | None => g
           end in
  let g := g <| gatewayAllow := delete gatewayID (gatewayAllow g) |>
             <| gatewayNodes := delete gatewayID (gatewayNodes g) |> in
  (persistGatewayApprovalLocked (deleteGatewayGrantCacheForGatewayLocked gatewayID g), None).

Definition RegisterGatewayNodeWithTransport (now : Z) (gatewayID : string) (capabilities : list string)
    (channels : list GatewayChannel) (g : GatewayState) : GatewayState :=
  let normalizedChannels := cloneGatewayChannels channels in
  let endpoint := primaryGatewayEndpoint normalizedChannels in
  if bool_decide (endpoint = "") || bool_decide (normalizedChannels = []) then g else
  persistGatewayApprovalLocked
    (g <| gatewayAllow := <[gatewayID := endpoint]> (gatewayAllow g) |>
       <| gatewayNodes := <[gatewayID := mkGatewayNodeInfo gatewayID endpoint capabilities normalizedChannels now]>
                            (gatewayNodes g) |>
       <| gatewaySeen := delete gatewayID (gatewaySeen g) |>).

Definition RegisterGatewayNode (now : Z) (gatewayID endpoint : string) (capabilities : list string)
    (g : GatewayState) : GatewayState :=
  RegisterGatewayNodeWithTransport now gatewayID capabilities
    [{| ch_kind := GATEWAY_CHANNEL_QUIC; ch_addr := "quic://" +:+ TrimSpace endpoint;
        ch_server_name := gatewayServerName endpoint; ch_udp_public_key := []; ch_udp_key_id := "" |}] g.

Definition recordGatewaySeen (info : GatewayNodeInfo) (g : GatewayState) : GatewayState :=
  g <| gatewaySeen := <[GatewayID info := info]> (gatewaySeen g) |>.

(** ** Reports *)
Definition marshalGatewayReportProof (req : GatewayReportRequest) : result (list byte) :=
  proto_marshal {| proof_gateway_id := rep_gateway_id req; proof_capabilities := rep_capabilities req;
                   proof_report_unix_ms := rep_report_unix_ms req; proof_nonce := rep_nonce req;
                   proof_gateway_channel := cloneGatewayChannel (rep_gateway_channel req) |}.

(** [validateGatewayReplayWindow]; [None] means accepted.  [time.Time.Sub]
    saturates, which does not change the two comparisons. *)
Definition validateGatewayReplayWindow (gatewayID : string) (reportUnixMs : Z) (nonce : list byte) (now : Z)
    (g : GatewayState) : GatewayState * option string :=
  let reportTime := reportUnixMs * 10 ^ 6 in
  if (gatewayReportFreshnessWindow <? now - reportTime) || (gatewayReportFreshnessWindow <? reportTime - now)
  then (g, Some "stale_report_timestamp") else
  let nonceKey := EncodeToString nonce in
  let expireAt := unix_milli (reportTime + gatewayReportFreshnessWindow) in
  let expireAt := if expireAt <? unix_milli now then unix_milli (now + gatewayReportFreshnessWindow) else expireAt in
  let cache := default ∅ (gatewayNonce g !! gatewayID) in
  let cache := filter (λ ke, unix_milli now < ke.2) cache in
  match cache !! nonceKey with
  | Some _ => (g <| gatewayNonce := <[gatewayID := cache]> (gatewayNonce g) |>, Some "replayed_nonce")
  | None => (g <| gatewayNonce := <[gatewayID := <[nonceKey := expireAt]> cache]> (gatewayNonce g) |>, None)
  end.

Definition authenticateGatewayReport (req : GatewayReportRequest) (now : Z) (g : GatewayState)
    : GatewayState * option string :=
  if bool_decide (rep_nonce req = []) then (g, Some "nonce is required") else
  if bool_decide (rep_signature req = []) then (g, Some "signature is required") else
  match marshalGatewayReportProof req with
  | Err e => (g, Some ("invalid_gateway_report_proof: " +:+ e))
  | Ok proofBytes =>
      let gatewayID := TrimSpace (rep_gateway_id req) in
      if bool_decide (hmac secret proofBytes ≠ rep_signature req) then (g, Some "invalid_signature") else
      validateGatewayReplayWindow gatewayID (rep_report_unix_ms req) (rep_nonce req) now g
  end.

Definition buildGatewayReportAck (packet : Packet) (ack : GatewayReportAck) : result Packet :=
  let? payload := proto_marshal ack in Ok (service_packet packet AppProtoGatewayReportAck payload).

(** The checks of [HandleGatewayReportPacket] before authentication: the
    normalised channels and the primary endpoint. *)
Definition check_gateway_report (req : GatewayReportRequest) : result (list GatewayChannel * string) :=
  if bool_decide (TrimSpace (rep_gateway_id req) = "") then Err "gateway_id is required" else
  match rep_gateway_channel req with
  | None => Err "gateway_channel is required"
  | Some reported =>
      if rep_report_unix_ms req =? 0 then Err "report_unix_ms is required" else
      let normalizedChannels := cloneGatewayChannels [reported] in
      let primaryEndpoint := primaryGatewayEndpoint normalizedChannels in
      if bool_decide (primaryEndpoint = "") then Err "gateway_channel must include a valid addr" else
      let badUDP := match normalizedChannels with
                    | channel :: _ =>
                        (ch_kind channel =? GATEWAY_CHANNEL_UDP)
                        && (bool_decide (length (ch_udp_public_key channel) ≠ 32%nat)
                            || bool_decide (ch_udp_key_id channel = ""))
                    | [] => false
                    end in
      if badUDP then Err "UDP gateway_channel requires a 32-byte udp_public_key and udp_key_id" else
      if is_default (rep_gateway_id req) && bool_decide (gatewayServerName primaryEndpoint ≠ defaultGatewayHost)
      then Err ("default gateway host must be " +:+ defaultGatewayHost) else
      Ok (normalizedChannels, primaryEndpoint)
  end.

Definition HandleGatewayReportPacket (now : Z) (packet : Packet) (g : GatewayState) : GatewayState * result Packet :=
  match proto_unmarshal (M := GatewayReportRequest) (Payload packet) with
  | Err e => (g, Err e)
  | Ok req =>
      match check_gateway_report req with
      | Err e => (g, Err e)
      | Ok (normalizedChannels, primaryEndpoint) =>
          let ack ok reason := buildGatewayReportAck packet
            {| rack_ok := ok; rack_reason := reason; rack_gateway_id := rep_gateway_id req;
               rack_expire_unix_ms := unix_milli (now + 2 * minute) |} in
          let '(g, err) := authenticateGatewayReport req now g in
          match err with
          | Some e => (g, ack false e)
          | None =>
              let g := recordGatewaySeen (mkGatewayNodeInfo (rep_gateway_id req) primaryEndpoint
                         (rep_capabilities req) normalizedChannels now) g in
              if negb (isGatewayAllowed g (rep_gateway_id req) primaryEndpoint)
              then (g, ack false "gateway not approved") else
              let g := RegisterGatewayNodeWithTransport now (rep_gateway_id req) (rep_capabilities req)
                         normalizedChannels g in
              (g, ack true "ok")
          end
      end
  end.

(** [ListGateways]: the admin view of every approved or reported gateway. *)
Definition seen_view (now : Z) (seen : GatewayNodeInfo) (item : GatewayAdminView) : GatewayAdminView :=
  item <| gv_Endpoint := if bool_decide (TrimSpace (gv_Endpoint item) = "") then Endpoint seen else gv_Endpoint item |>
       <| gv_Reported := true |> <| gv_Alive := now - UpdatedAt seen <=? gatewayNodeLease |>
       <| gv_Capabilities := NodeCapabilities seen |> <| gv_UpdatedAtUnix := unix (UpdatedAt seen) |>.

Definition node_view (now : Z) (node : GatewayNodeInfo) (item : GatewayAdminView) : GatewayAdminView :=
  item <| gv_Endpoint := Endpoint node |> <| gv_Reported := true |>
       <| gv_Alive := now - UpdatedAt node <=? gatewayNodeLease |>
       <| gv_Capabilities := NodeCapabilities node |> <| gv_UpdatedAtUnix := unix (UpdatedAt node) |>.

Definition ListGateways (now : Z) (g : GatewayState) : list GatewayAdminView :=
  let defaultID := TrimSpace defaultGatewayID in
  let byID : gmap string GatewayAdminView :=
    map_imap (λ gatewayID endpoint,
      Some (zeroGatewayAdminView <| gv_GatewayID := gatewayID |> <| gv_Endpoint := endpoint |>
              <| gv_Approved := true |> <| gv_Default := bool_decide (gatewayID = defaultID) |>))
      (gatewayAllow g) in
  let byID := map_imap (λ gatewayID seen,
      Some (seen_view now seen
        (default (zeroGatewayAdminView <| gv_GatewayID := gatewayID |> <| gv_Endpoint := Endpoint seen |>)
           (byID !! gatewayID)))) (gatewaySeen g) ∪ byID in
  let byID := map_imap (λ gatewayID item, Some match gatewayNodes g !! gatewayID with
      | Some node =>
          if bool_decide (TrimSpace (gv_Endpoint item) = "")
             || bool_decide (TrimSpace (Endpoint node) = TrimSpace (gv_Endpoint item))
          then node_view now node item else item
      | None => item
      end) byID in
  (range o byID).*2.

(** ** Grants *)
Definition approvedAliveGatewayNodesLocked (now : Z) (g : GatewayState) : list GatewayNodeInfo :=
  let defaultID := TrimSpace defaultGatewayID in
  merge_sort (node_le defaultID)
    (filter (λ node, now - UpdatedAt node ≤ gatewayNodeLease ∧ gatewayNodeApprovedLocked g node = true)
       (range o (gatewayNodes g)).*2).

Definition syncGatewayGrantPolicyLocked (nodes : list GatewayNodeInfo) (g : GatewayState) : GatewayState * (Z * bool) :=
  let fingerprint := gatewayGrantFingerprintOf nodes in
  if bool_decide (fingerprint = gatewayGrantFingerprint g) then
    let rev := if gatewayGrantPolicyRev g =? 0 then 1 else gatewayGrantPolicyRev g in
    (g <| gatewayGrantPolicyRev := rev |>, (rev, false))
  else
    let rev := u64 (gatewayGrantPolicyRev g + 1) in
    let rev := if rev =? 0 then 1 else rev in
    (g <| gatewayGrantFingerprint := fingerprint |> <| gatewayGrantPolicyRev := rev |>, (rev, true)).

(** A cached grant that may still be used at [now]. *)
Definition cache_usable (now : Z) (g : GatewayState) (cached : cachedGatewayGrant) : bool :=
  match gatewayNodes g !! cg_gatewayID cached with
  | None => false
  | Some node =>
      gatewayNodeApprovedLocked g node && bool_decide (is_Some (cg_grant cached))
      && (unix_milli (now + 30 * second) <? cg_expireUnixMs cached)
      && bool_decide (cg_nodeFingerprint cached = gatewayGrantNodeFingerprint node)
  end.

Definition pruneGatewayGrantCacheLocked (now : Z) (g : GatewayState) : GatewayState :=
  g <| gatewayGrantCache := filter (λ kc, cache_usable now g kc.2 = true) (gatewayGrantCache g) |>.

Definition gatewayGrantSessionKnownLocked (networkKey : string) (virtualIP : Z) (deviceID : string) (sessionID : Z)
    (g : GatewayState) : bool :=
  let prefix := gatewayGrantCachePrefix networkKey virtualIP deviceID in
  existsb (λ '(key, cached), HasPrefix key prefix
      && match cg_grant cached with Some grant => session_id grant =? sessionID | None => false end)
    (range o (gatewayGrantCache g)).

(** [newGatewayTicket]; [buf] is the outcome of [rand.Read] on 12 bytes. *)
Definition newGatewayTicket (now : Z) (buf : result (list byte)) (deviceID : string)
    (virtualIP sessionID policyRevision : Z) (gatewayIDs : list string) (gatewayGroupID : string)
    (expireUnixMs leaseCapSecs graceCapSecs : Z) : result (list byte) :=
  let? buf := buf in
  let nowMs := unix_milli now in
  let? claimsBytes := proto_marshal
    {| ticket_id := EncodeToString buf; claim_device_id := deviceID; claim_virtual_ip := virtualIP;
       claim_session_id := sessionID; policy_revision := policyRevision; gateway_ids := gatewayIDs;
       claim_gateway_group_id := gatewayGroupID; issued_at_unix_ms := nowMs; not_before_unix_ms := nowMs - 5000;
       expire_unix_ms := expireUnixMs; lease_cap_secs := leaseCapSecs; grace_cap_secs := graceCapSecs |} in
  if bool_decide (TrimSpace secret = "") then Err "gateway ticket secret is required" else
  proto_marshal {| alg := "hmac-sha256"; key_id := ""; claims := claimsBytes; signature := hmac secret claimsBytes |}.

Definition buildGatewayAccessGrantForNode (now : Z) (buf : result (list byte)) (virtualIP : Z) (deviceID : string)
    (node : GatewayNodeInfo) (sessionID expireUnixMs refreshAfterUnixMs leaseSecs graceSecs policyRev : Z)
    : option GatewayAccessGrant :=
  match newGatewayTicket now buf deviceID virtualIP sessionID policyRev [GatewayID node] "" expireUnixMs
          leaseSecs graceSecs with
  | Err _ => None
  | Ok t =>
      match cloneGatewayChannels (Channels node) with
      | [] => None
      | channel :: _ =>
          Some {| ticket := t; ticket_expire_unix_ms := expireUnixMs; session_id := sessionID;
                  policy_rev := policyRev; gateway_capabilities := NodeCapabilities node; lease_secs := leaseSecs;
                  grace_secs := graceSecs; gateway_group_id := "";
                  gateway_channel := cloneGatewayChannel (Some channel);
                  grant_gateway_id := GatewayID node; soft_refresh_after_unix_ms := refreshAfterUnixMs;
                  hard_expire_unix_ms := expireUnixMs |}
      end
  end.

Definition gatewayAccessGrantForNodeLocked (networkKey : string) (virtualIP : Z) (deviceID : string)
    (node : GatewayNodeInfo) (sessionSalt expireUnixMs refreshAfterUnixMs leaseSecs graceSecs policyRev : Z)
    (opts : gatewayGrantBuildOptions) (now : Z) (buf : result (list byte)) (g : GatewayState)
    : GatewayState * (option GatewayAccessGrant * bool) :=
  let cacheKey := gatewayGrantCacheKey networkKey virtualIP deviceID (GatewayID node) in
  let nodeFingerprint := gatewayGrantNodeFingerprint node in
  let cached := gatewayGrantCache g !! cacheKey in
  let fresh := match cached with
    | Some c => if bool_decide (cg_nodeFingerprint c = nodeFingerprint)
                   && (unix_milli (now + 30 * second) <? cg_expireUnixMs c) then cg_grant c else None
    | None => None
    end in
  let reuse := match fresh with
    | Some grant =>
        if refresh opts then
          if negb (forceReissue opts) && ((lastSessionID opts =? 0) || lastSessionIDValid opts)
          then Some grant else None
        else Some grant
    | None => None
    end in
  match reuse with
  | Some grant => (g, (Some (grant <| policy_rev := policyRev |>), false))
  | None =>
      let sessionID := u64 (now + sessionSalt) in
      let keepSession := refresh opts && negb (forceReissue opts) && negb (lastSessionID opts =? 0)
        && match cached with
           | Some c => match cg_grant c with Some grant => session_id grant =? lastSessionID opts | None => false end
           | None => false
           end in
      let sessionID := if keepSession then lastSessionID opts else sessionID in
      match buildGatewayAccessGrantForNode now buf virtualIP deviceID node sessionID expireUnixMs
              refreshAfterUnixMs leaseSecs graceSecs policyRev with
      | None => (g <| gatewayGrantCache := delete cacheKey (gatewayGrantCache g) |>, (None, false))
      | Some grant =>
          (g <| gatewayGrantCache :=
               <[cacheKey := mkCachedGatewayGrant (GatewayID node) nodeFingerprint (ticket_expire_unix_ms grant) (Some grant)]>
                 (gatewayGrantCache g) |>, (Some grant, true))
      end
  end.

Definition retainedGatewayAccessGrantsLocked (networkKey : string) (virtualIP : Z) (deviceID : string)
    (aliveNodes : list GatewayNodeInfo) (policyRev now : Z) (g : GatewayState) : list GatewayAccessGrant :=
  let prefix := gatewayGrantCachePrefix networkKey virtualIP deviceID in
  omap (λ '(key, cached),
      if negb (HasPrefix key prefix) then None
      else if bool_decide (cg_gatewayID cached ∈ GatewayID <$> aliveNodes) then None
      else if negb (cache_usable now g cached) then None
      else grant ← cg_grant cached; Some (grant <| policy_rev := policyRev |>))
    (range o (gatewayGrantCache g)).

(** The loop over the alive nodes; [rand index] is the randomness of each ticket. *)
Fixpoint grants_for_nodes (networkKey : string) (virtualIP : Z) (deviceID : string) (opts : gatewayGrantBuildOptions)
    (policyRev now : Z) (rand : Z → result (list byte)) (index : Z) (nodes : list GatewayNodeInfo) (g : GatewayState)
    : GatewayState * (list GatewayAccessGrant * bool) :=
  match nodes with
  | [] => (g, ([], false))
  | node :: nodes' =>
      let hardExpire := now + gatewayGrantHardTTL in
      let softRefreshAfter := hardExpire - gatewayGrantSoftRefreshLead in
      let '(g, (grant, grantChanged)) :=
        gatewayAccessGrantForNodeLocked networkKey virtualIP deviceID node index (unix_milli hardExpire)
          (unix_milli softRefreshAfter) (seconds_of gatewayGrantLease) (seconds_of gatewayGrantGrace) policyRev opts
          now (rand index) g in
      let '(g, (grants, changed)) :=
        grants_for_nodes networkKey virtualIP deviceID opts policyRev now rand (index + 1) nodes' g in
      match grant with
      | Some grant => (g, (grant :: grants, grantChanged || changed))
      | None => (g, (grants, changed))
      end
  end.

Definition buildGatewayAccessGrantsLocked (now : Z) (rand : Z → result (list byte)) (networkKey : string)
    (virtualIP : Z) (deviceID : string) (opts : gatewayGrantBuildOptions) (g : GatewayState)
    : GatewayState * (list GatewayAccessGrant * Z * bool) :=
  let nodes := approvedAliveGatewayNodesLocked now g in
  let '(g, (policyRev, _)) := syncGatewayGrantPolicyLocked nodes g in
  let g := pruneGatewayGrantCacheLocked now g in
  if bool_decide (nodes = []) && negb (retainExisting opts) then (g, ([], policyRev, false)) else
  let opts := if refresh opts && negb (lastSessionID opts =? 0)
              then opts <| lastSessionIDValid :=
                     gatewayGrantSessionKnownLocked networkKey virtualIP deviceID (lastSessionID opts) g |>
              else opts in
  let '(g, (grants, changed)) := grants_for_nodes networkKey virtualIP deviceID opts policyRev now rand 0 nodes g in
  let grants := if retainExisting opts
                then grants ++ retainedGatewayAccessGrantsLocked networkKey virtualIP deviceID nodes policyRev now g
                else grants in
  (g, (sortGatewayAccessGrants grants (TrimSpace defaultGatewayID), policyRev, changed)).

Definition no_options : gatewayGrantBuildOptions :=
  {| lastSessionID := 0; lastSessionIDValid := false; forceReissue := false; refresh := false; retainExisting := false |}.

Definition buildGatewayAccessGrantsWithPolicyRev now rand networkKey virtualIP deviceID g
    : GatewayState * (list GatewayAccessGrant * Z) :=
  let '(g, (grants, policyRev, _)) := buildGatewayAccessGrantsLocked now rand networkKey virtualIP deviceID no_options g in
  (g, (grants, policyRev)).

Definition buildGatewayAccessGrantsForExistingClient now rand networkKey virtualIP deviceID g
    : GatewayState * (list GatewayAccessGrant * Z) :=
  let '(g, (grants, policyRev, _)) :=
    buildGatewayAccessGrantsLocked now rand networkKey virtualIP deviceID (no_options <| retainExisting := true |>) g in
  (g, (grants, policyRev)).

Definition buildGatewayAccessGrantsForRefresh now rand networkKey virtualIP deviceID (last : Z) (force : bool) g
    : GatewayState * (list GatewayAccessGrant * Z * bool) :=
  buildGatewayAccessGrantsLocked now rand networkKey virtualIP deviceID
    {| lastSessionID := last; lastSessionIDValid := false; forceReissue := force; refresh := true; retainExisting := true |} g.

Definition buildGatewayAccessGrants now rand networkKey virtualIP deviceID g : GatewayState * list GatewayAccessGrant :=
  let '(g, (grants, _)) := buildGatewayAccessGrantsWithPolicyRev now rand networkKey virtualIP deviceID g in (g, grants).

Definition buildGatewayAccessGrant now rand networkKey virtualIP deviceID g : GatewayState * option GatewayAccessGrant :=
  let '(g, grants) := buildGatewayAccessGrants now rand networkKey virtualIP deviceID g in
  (g, selectPrimaryGatewayGrant grants).

End Gateway.
