(* ===== verification/GatewayInv.v ===== *)
(** * Correctness of gateway reports, approval and access grants. *)
From S2P Require Import Prelude GoString NetIP NetParse Packet Proto ExpireMap Network UserManager Gateway.

Implicit Types (g : GatewayState).

(** ** Replay protection *)

(** One report reaching the replay check: gateway, report time, nonce, clock. *)
Record replay_event := { ev_gateway : string; ev_report : Z; ev_nonce : list byte; ev_now : Z }.

Definition replay_step (e : replay_event) (g : GatewayState) : GatewayState * option string :=
  validateGatewayReplayWindow (ev_gateway e) (ev_report e) (ev_nonce e) (ev_now e) g.

Definition replay_run (tr : list replay_event) (g : GatewayState) : GatewayState :=
  foldl (λ g e, (replay_step e g).1) g tr.

(** The nonce is remembered for the gateway until [expireAt]. *)
Definition remembered (gatewayID nonceKey : string) (expireAt : Z) (g : GatewayState) : Prop :=
  ∃ cache, gatewayNonce g !! gatewayID = Some cache ∧ cache !! nonceKey = Some expireAt.

Lemma unix_milli_mono a b : a ≤ b → unix_milli a ≤ unix_milli b.
Proof. intros. by apply Z.div_le_mono. Qed.

Lemma unix_milli_ms r d : unix_milli (r * 10 ^ 6 + d * 10 ^ 6) = r + d.
Proof. unfold unix_milli. rewrite <-Z.mul_add_distr_r. by apply Z.div_mul. Qed.

Lemma window_ms : gatewayReportFreshnessWindow = 120000 * 10 ^ 6.
Proof. reflexivity. Qed.

Lemma remembered_step e g gid nk ex :
  remembered gid nk ex g → unix_milli (ev_now e) < ex → remembered gid nk ex (replay_step e g).1.
Proof.
  intros (cache & Hc & Hn) Hlt. unfold replay_step, validateGatewayReplayWindow. cbv zeta.
  destruct (_ || _); [by exists cache|].
  set (c0 := filter _ (default ∅ _)).
  destruct (decide (ev_gateway e = gid)) as [Heq|Hne].
  - assert (Hc0 : c0 !! nk = Some ex).
    { unfold c0. rewrite Heq, Hc. by apply map_lookup_filter_Some. }
    destruct (c0 !! EncodeToString (ev_nonce e)) as [z|] eqn:Hz; cbn [fst]; unfold remembered; simpl; unfold const;
      rewrite Heq, lookup_insert_eq; eexists; split; try done.
    rewrite lookup_insert_ne; [done|]. congruence.
  - destruct (c0 !! EncodeToString (ev_nonce e)); cbn [fst]; unfold remembered; simpl; unfold const;
      rewrite lookup_insert_ne by done; by exists cache.
Qed.

Lemma remembered_run tr g gid nk ex :
  remembered gid nk ex g → Forall (λ e, unix_milli (ev_now e) < ex) tr → remembered gid nk ex (replay_run tr g).
Proof.
  unfold replay_run. revert g. induction tr as [|e tr IH]; intros g Hr Htr; [done|].
  apply Forall_cons in Htr as [He Htr]. cbn [foldl]. apply IH; [by apply remembered_step|done].
Qed.

(** An accepted report leaves its nonce remembered until the end of its window. *)
Lemma accepted_remembered e g :
  (replay_step e g).2 = None →
  remembered (ev_gateway e) (EncodeToString (ev_nonce e)) (ev_report e + 120000) (replay_step e g).1.
Proof.
  unfold replay_step, validateGatewayReplayWindow. rewrite window_ms. cbv zeta.
  destruct (_ || _) eqn:Hb; [done|]. bool_prop. rewrite unix_milli_ms.
  assert (Hle : unix_milli (ev_now e) ≤ ev_report e + 120000).
  { rewrite <-unix_milli_ms. apply unix_milli_mono. lia. }
  rewrite (proj2 (Z.ltb_ge (ev_report e + 120000) (unix_milli (ev_now e)))) by lia.
  destruct (_ !! _); [done|]. intros _. eexists. split; [apply lookup_insert_eq|apply lookup_insert_eq].
Qed.

(** C25 (safety). Once a report is accepted, the same report (same gateway, time
    and nonce) is refused whenever it is presented later, whatever reports of any
    gateway were processed in between; the only exception is the exact instant at
    which its freshness window ends. *)
Theorem replay_refused (e : replay_event) (tr : list replay_event) (g : GatewayState) (now' : Z) :
  (replay_step e g).2 = None →
  ev_now e ≤ now' → Forall (λ e', ev_now e' ≤ now') tr →
  now' ≠ ev_report e * 10 ^ 6 + gatewayReportFreshnessWindow →
  ∃ reason, (validateGatewayReplayWindow (ev_gateway e) (ev_report e) (ev_nonce e) now'
               (replay_run tr (replay_step e g).1)).2 = Some reason.
Proof.
  intros Hacc Hnow Htr Hne. rewrite window_ms in Hne.
  destruct (decide (now' < ev_report e * 10 ^ 6 + 120000 * 10 ^ 6)) as [Hlt|Hge].
  - assert (Hms : unix_milli now' < ev_report e + 120000).
    { unfold unix_milli. apply Z.div_lt_upper_bound; lia. }
    assert (Hrem : remembered (ev_gateway e) (EncodeToString (ev_nonce e)) (ev_report e + 120000)
                     (replay_run tr (replay_step e g).1)).
    { apply remembered_run; [by apply accepted_remembered|].
      eapply Forall_impl; [exact Htr|]. intros e' Hle. pose proof (unix_milli_mono _ _ Hle). cbv beta. lia. }
    destruct Hrem as (cache & Hc & Hn). unfold validateGatewayReplayWindow. cbv zeta.
    destruct (_ || _); [by eexists|]. rewrite Hc. cbn [default].
    rewrite (map_lookup_filter_Some_2 _ _ _ _ Hn) by done. by eexists.
  - unfold validateGatewayReplayWindow. rewrite window_ms. cbv zeta.
    rewrite (proj2 (Z.ltb_lt (120000 * 10 ^ 6) (now' - ev_report e * 10 ^ 6))) by lia. by eexists.
Qed.

(** At the exact end of its window an accepted report is accepted a
    second time: expired nonces are dropped at [expireAt <= now] while a report is
    stale only after the window. *)
Theorem replay_accepted_at_window_end (e : replay_event) (g : GatewayState) :
  (replay_step e g).2 = None →
  (validateGatewayReplayWindow (ev_gateway e) (ev_report e) (ev_nonce e)
     (ev_report e * 10 ^ 6 + gatewayReportFreshnessWindow) (replay_step e g).1).2 = None.
Proof.
  intros Hacc. destruct (accepted_remembered e g Hacc) as (cache & Hc & Hn).
  unfold validateGatewayReplayWindow. rewrite window_ms. cbv zeta.
  rewrite (proj2 (Z.ltb_ge _ _)) by lia. rewrite (proj2 (Z.ltb_ge _ _)) by lia. cbn [orb].
  rewrite Hc. cbn [default]. rewrite map_lookup_filter_None_2; [done|]. right. intros x Hx. cbn in Hx.
  assert (x = ev_report e + 120000) as -> by congruence. simpl. rewrite unix_milli_ms. lia.
Qed.

(** ** The state invariant *)
Inductive gateway_op :=
| GApprove (gatewayID endpoint : string)
| GApproveByID (gatewayID : string)
| GDelist (gatewayID : string)
| GRegister (now : Z) (gatewayID endpoint : string) (capabilities : list string)
| GReport (now : Z) (packet : Packet)
| GBuild (now : Z) (rand : Z → result (list byte)) (networkKey : string) (virtualIP : Z) (deviceID : string)
    (opts : gatewayGrantBuildOptions).

Section GatewayInv.
Context `{UrlPackage} `{ProtoMessage GatewayReportRequest} `{ProtoMessage GatewayReportProof}
  `{ProtoMessage GatewayReportAck} `{ProtoMessage GatewayTicketClaims} `{ProtoMessage SignedGatewayTicket}.
Context (o : RangeOrder) (hmac : string → list byte → list byte) (secret defaultID : string) (hardTTL softLead : Z).

Abbreviation build := (buildGatewayAccessGrantsLocked o hmac secret defaultID hardTTL softLead).
Abbreviation report := (HandleGatewayReportPacket o hmac secret defaultID).

Definition gw_exec (op : gateway_op) (g : GatewayState) : GatewayState :=
  match op with
  | GApprove id ep => ApproveGatewayNode o id ep g
  | GApproveByID id => (ApproveGatewayNodeByID o defaultID id g).1
  | GDelist id => (DelistGatewayNodeByID o defaultID id g).1
  | GRegister now id ep caps => RegisterGatewayNode o now id ep caps g
  | GReport now packet => (report now packet g).1
  | GBuild now rand nk vip dev opts => (build now rand nk vip dev opts g).1
  end.

(** A cached grant is a grant for the gateway it is filed under. *)
Definition cache_ok (c : cachedGatewayGrant) : Prop :=
  ∃ grant, cg_grant c = Some grant ∧ grant_gateway_id grant = cg_gatewayID c
    ∧ ticket_expire_unix_ms grant = cg_expireUnixMs c.

Record wf_gateway (g : GatewayState) : Prop := {
  gw_nodes : ∀ id n, gatewayNodes g !! id = Some n → GatewayID n = id;
  gw_seen : ∀ id n, gatewaySeen g !! id = Some n → GatewayID n = id;
  gw_cache : ∀ k c, gatewayGrantCache g !! k = Some c → cache_ok c;
  gw_stored : stored g = approval_snapshot o (gatewayAllow g)
}.

(** The state after start-up: the approvals read from the store, normalised. *)
Definition initial (allow : gmap string string) : GatewayState :=
  mkGatewayState ∅ allow ∅ ∅ "" 0 ∅ (approval_snapshot o allow).

Lemma wf_initial allow : wf_gateway (initial allow).
Proof. split; intros; simpl in *; by rewrite ?lookup_empty in *. Qed.

(** Operations that only touch the nonces, the policy or the cache. *)
Lemma wf_frame g g' :
  wf_gateway g → gatewayNodes g' = gatewayNodes g → gatewaySeen g' = gatewaySeen g → stored g' = stored g →
  gatewayAllow g' = gatewayAllow g → (∀ k c, gatewayGrantCache g' !! k = Some c → cache_ok c) → wf_gateway g'.
Proof. intros [? ? ? ?] En Es Est Ea ?. split; rewrite ?En, ?Es, ?Est, ?Ea; done. Qed.

Lemma auth_frame req now g g' e :
  authenticateGatewayReport hmac secret req now g = (g', e) → ∃ nonces, g' = g <| gatewayNonce := nonces |>.
Proof.
  assert (Hid : ∃ nonces, g = g <| gatewayNonce := nonces |>) by (exists (gatewayNonce g); by destruct g).
  unfold authenticateGatewayReport. case_bool_decide; [by intros [= <- _]|]. case_bool_decide; [by intros [= <- _]|].
  destruct (marshalGatewayReportProof req); [|by intros [= <- _]]. cbv zeta.
  case_bool_decide; [by intros [= <- _]|]. unfold validateGatewayReplayWindow. cbv zeta.
  destruct (_ || _); [by intros [= <- _]|]. destruct (_ !! _); intros [= <- _]; by eexists.
Qed.

Lemma wf_Register now id caps chans g : wf_gateway g → wf_gateway (RegisterGatewayNodeWithTransport o now id caps chans g).
Proof.
  intros [Hn Hs Hc Hst]. unfold RegisterGatewayNodeWithTransport. cbv zeta. destruct (_ || _); [by split|].
  split; simpl; unfold const; try done.
  - intros id' n [[<- <-]|[_ ?]]%lookup_insert_Some; [done|by apply Hn].
  - intros id' n [_ ?]%lookup_delete_Some. by apply Hs.
Qed.

Lemma wf_Seen info g : wf_gateway g → wf_gateway (recordGatewaySeen info g).
Proof.
  intros [Hn Hs Hc Hst]. split; simpl; unfold const; try done.
  intros id' n [[<- <-]|[_ ?]]%lookup_insert_Some; [done|by apply Hs].
Qed.

Lemma wf_Report now packet g : wf_gateway g → wf_gateway (report now packet g).1.
Proof.
  intros Hwf. unfold HandleGatewayReportPacket. destruct (proto_unmarshal _) as [req|]; [|done].
  destruct (check_gateway_report _ _) as [[chans ep]|]; [|done]. cbv zeta.
  destruct (authenticateGatewayReport _ _ _ _ _) as [g1 [e|]] eqn:Ha; apply auth_frame in Ha as [nonces ->].
  - destruct Hwf. by split.
  - assert (Hwf1 : wf_gateway (g <| gatewayNonce := nonces |>)) by (destruct Hwf; by split).
    destruct (negb _); cbn [fst]; [by apply wf_Seen|by apply wf_Register, wf_Seen].
Qed.

Lemma wf_ApproveByID id g : wf_gateway g → wf_gateway (ApproveGatewayNodeByID o defaultID id g).1.
Proof.
  intros Hwf. unfold ApproveGatewayNodeByID. cbv zeta.
  case_bool_decide; [done|]. case_bool_decide; [done|].
  destruct (match gatewayAllow g !! _ with Some _ => _ | None => _ end); [done|].
  destruct (gatewaySeen g !! TrimSpace id) as [seen|] eqn:Hs; [|done]. case_bool_decide; [done|].
  destruct Hwf as [Hn Hse Hc Hst]. split; simpl; unfold const; try done.
  intros id' n [[<- <-]|[_ ?]]%lookup_insert_Some; [by apply Hse|by apply Hn].
Qed.

Lemma wf_Delist id g : wf_gateway g → wf_gateway (DelistGatewayNodeByID o defaultID id g).1.
Proof.
  intros Hwf. unfold DelistGatewayNodeByID. cbv zeta.
  case_bool_decide; [done|]. case_bool_decide; [done|]. destruct (_ && _ && _); [done|]. cbn [fst].
  destruct Hwf as [Hn Hs Hc Hst].
  destruct (gatewayNodes g !! TrimSpace id) as [node|] eqn:Hnode; split; simpl; unfold const; try done.
  all: try (by intros id' n [_ ?]%lookup_delete_Some; apply Hn).
  all: try (by intros k c [? _]%map_lookup_filter_Some; apply (Hc k)).
  intros id' n [[<- <-]|[_ ?]]%lookup_insert_Some; [by apply Hn|by apply Hs].
Qed.

(** ** Grants *)

(** The gateway is registered and approved. *)
Definition backed (g : GatewayState) (id : string) : Prop :=
  ∃ node, gatewayNodes g !! id = Some node ∧ gatewayNodeApprovedLocked defaultID g node = true.

Definition cache_backed (g : GatewayState) : Prop :=
  ∀ k c, gatewayGrantCache g !! k = Some c → cache_ok c ∧ backed g (cg_gatewayID c).

(** [g'] differs from [g] only in the grant cache. *)
Definition same_but_cache (g g' : GatewayState) : Prop := ∃ cache, g' = g <| gatewayGrantCache := cache |>.

Lemma same_but_cache_refl g : same_but_cache g g.
Proof. exists (gatewayGrantCache g). by destruct g. Qed.

Lemma same_but_cache_trans g1 g2 g3 : same_but_cache g1 g2 → same_but_cache g2 g3 → same_but_cache g1 g3.
Proof. intros [c ->] [c' ->]. by exists c'. Qed.

Lemma backed_same g g' id : same_but_cache g g' → backed g' id ↔ backed g id.
Proof. by intros [c ->]. Qed.

(** What is true of every grant handed out at [now] under policy revision [rev]. *)
Definition good_grant (g : GatewayState) (now rev : Z) (grant : GatewayAccessGrant) : Prop :=
  policy_rev grant = rev ∧ backed g (grant_gateway_id grant)
  ∧ unix_milli (now + 30 * second) < ticket_expire_unix_ms grant.

Lemma forNode_spec nk vip dev node salt ex ref lease grace rev opts now buf g g' grant ch :
  gatewayAccessGrantForNodeLocked hmac secret nk vip dev node salt ex ref lease grace rev opts now buf g
    = (g', (grant, ch)) →
  backed g (GatewayID node) → cache_backed g → unix_milli (now + 30 * second) < ex →
  same_but_cache g g' ∧ cache_backed g' ∧ (∀ gr, grant = Some gr → good_grant g now rev gr).
Proof.
  unfold gatewayAccessGrantForNodeLocked. cbv zeta. intros E Hb Hc Hex.
  set (cached := gatewayGrantCache g !! _) in *.
  destruct (match match cached with Some _ => _ | None => _ end with Some _ => _ | None => _ end) as [gr0|] eqn:Hreuse.
  - injection E as <- <- <-. split_and!; [apply same_but_cache_refl|done|]. intros gr [= <-].
    destruct cached as [c|] eqn:Hcached; [|done]. unfold cached in Hcached.
    destruct (bool_decide _ && _) eqn:Hf; [|done]. bool_prop.
    destruct (Hc _ _ Hcached) as [(gr1 & Hgr1 & Hid & Hexp) Hback]. rewrite Hgr1 in Hreuse.
    assert (gr1 = gr0) as -> by (repeat case_match; congruence).
    split; [done|]. simpl. rewrite Hid, Hexp. done.
  - destruct (buildGatewayAccessGrantForNode _ _ _ _ _ _ _ _ _ _ _ _ _) as [gr0|] eqn:Hbuild; injection E as <- <- <-.
    + unfold buildGatewayAccessGrantForNode in Hbuild. destruct (newGatewayTicket _ _ _ _ _ _ _ _ _ _ _ _ _); [|done].
      destruct (cloneGatewayChannels _); [done|]. injection Hbuild as <-.
      split_and!; [by eexists| |by intros gr [= <-]].
      intros k c. simpl. unfold const. intros [[<- <-]|[_ Hk]]%lookup_insert_Some; [|by apply (Hc k)].
      split; [|done]. by eexists.
    + split_and!; [by eexists| |done]. intros k c. simpl. unfold const. intros [_ Hk]%lookup_delete_Some. by apply (Hc k).
Qed.

Lemma grants_for_nodes_spec nk vip dev opts rev now rand index nodes g g' grants ch :
  grants_for_nodes hmac secret hardTTL softLead nk vip dev opts rev now rand index nodes g = (g', (grants, ch)) →
  (∀ node, node ∈ nodes → backed g (GatewayID node)) → cache_backed g → 30 * second + 10 ^ 6 ≤ hardTTL →
  same_but_cache g g' ∧ cache_backed g' ∧ Forall (good_grant g now rev) grants.
Proof.
  revert index g g' grants ch. induction nodes as [|node nodes IH]; intros index g g' grants ch E Hn Hc Httl.
  { injection E as <- <- <-. split_and!; [apply same_but_cache_refl|done|constructor]. }
  cbn [grants_for_nodes] in E. cbv zeta in E.
  destruct (gatewayAccessGrantForNodeLocked _ _ _ _ _ _ _ _ _ _ _ _ _ _ _ g) as [g1 [grant gch]] eqn:E1.
  apply forNode_spec in E1 as (Hs1 & Hc1 & Hg1); [|apply Hn; constructor|done|].
  2:{ unfold unix_milli. assert (Hd : (now + 30 * second + 10 ^ 6) / 10 ^ 6 ≤ (now + hardTTL) / 10 ^ 6)
        by (apply Z.div_le_mono; [done|]; unfold second in *; lia).
      replace (now + 30 * second + 10 ^ 6) with (now + 30 * second + 1 * 10 ^ 6) in Hd by lia.
      rewrite Z.div_add in Hd by done. lia. }
  destruct (grants_for_nodes _ _ _ _ _ _ _ _ _ _ _ (index + 1) nodes g1) as [g2 [grants2 ch2]] eqn:E2.
  apply IH in E2 as (Hs2 & Hc2 & Hg2); [|intros; apply (backed_same g); [done|]; apply Hn; by constructor|done|done].
  assert (Hg2' : Forall (good_grant g now rev) grants2).
  { eapply Forall_impl; [exact Hg2|]. intros gr (? & Hb & ?). split; [done|]. by rewrite <-(backed_same g g1). }
  destruct grant as [gr|]; injection E as <- <- <-; split_and!; try done; try (by eapply same_but_cache_trans).
  constructor; [by apply Hg1|done].
Qed.

Lemma approvedAlive_backed now g node :
  wf_gateway g → node ∈ approvedAliveGatewayNodesLocked o defaultID now g →
  backed g (GatewayID node) ∧ now - UpdatedAt node ≤ gatewayNodeLease.
Proof.
  intros Hwf. unfold approvedAliveGatewayNodesLocked. cbv zeta. rewrite merge_sort_Permutation.
  intros [[Hl Ha] ([id n] & -> & Hin%elem_of_range)%list_elem_of_fmap]%list_elem_of_filter. cbn [snd] in *.
  split; [|done]. exists n. rewrite (gw_nodes g Hwf _ _ Hin). done.
Qed.

Lemma cache_usable_backed now g c : cache_usable defaultID now g c = true → backed g (cg_gatewayID c)
  ∧ unix_milli (now + 30 * second) < cg_expireUnixMs c.
Proof.
  unfold cache_usable, backed. destruct (gatewayNodes g !! cg_gatewayID c) as [node|]; [|done].
  intros Hu. bool_prop. split; [by exists node|done].
Qed.

#[local] Instance grant_le_total d : Total (grant_le d).
Proof.
  intros a b. unfold grant_le. cbv zeta.
  destruct (bool_decide (grant_gateway_id a = d)), (bool_decide (grant_gateway_id b = d)); simpl; auto.
  all: destruct (String.leb_total (grant_gateway_id a) (grant_gateway_id b)); auto.
Qed.

Lemma sync_frame nodes g g' rev ch :
  syncGatewayGrantPolicyLocked nodes g = (g', (rev, ch)) →
  ∃ fp, g' = g <| gatewayGrantFingerprint := fp |> <| gatewayGrantPolicyRev := rev |>.
Proof.
  unfold syncGatewayGrantPolicyLocked. cbv zeta. case_bool_decide; intros [= <- <- <-]; [|by eexists].
  exists (gatewayGrantFingerprint g). by destruct g.
Qed.

Lemma build_spec now rand nk vip dev opts g g' grants rev ch :
  wf_gateway g → 30 * second + 10 ^ 6 ≤ hardTTL →
  build now rand nk vip dev opts g = (g', (grants, rev, ch)) →
  wf_gateway g' ∧ Forall (good_grant g now rev) grants ∧ Sorted (grant_le (TrimSpace defaultID)) grants.
Proof.
  intros Hwf Httl. unfold buildGatewayAccessGrantsLocked. cbv zeta.
  set (nodes := approvedAliveGatewayNodesLocked o defaultID now g).
  destruct (syncGatewayGrantPolicyLocked nodes g) as [g1 [rev1 ch1]] eqn:Hsync.
  apply sync_frame in Hsync as [fp ->].
  set (g2 := pruneGatewayGrantCacheLocked defaultID now _).
  assert (Hback2 : ∀ id, backed g2 id ↔ backed g id) by done.
  assert (Hc2 : cache_backed g2).
  { intros k c. unfold g2, pruneGatewayGrantCacheLocked. simpl. unfold const.
    intros [Hk Hu]%map_lookup_filter_Some. simpl in Hu. apply cache_usable_backed in Hu as [Hu _].
    split; [by apply (gw_cache g Hwf k)|]. by apply Hback2. }
  assert (Hwf2 : wf_gateway g2).
  { destruct Hwf as [? ? Hc ?]. split; try done. intros k c Hk. by apply (Hc2 k). }
  destruct (bool_decide (nodes = []) && _).
  { intros [= <- <- <- <-]. split_and!; [done|constructor|constructor]. }
  destruct (grants_for_nodes _ _ _ _ _ _ _ _ _ _ _ _ _ _) as [g3 [grants3 ch3]] eqn:Hgr.
  apply grants_for_nodes_spec in Hgr as (Hs3 & Hc3 & Hg3); [|intros n Hn; by apply Hback2, (approvedAlive_backed now)|done|done].
  assert (Hwf3 : wf_gateway g3).
  { destruct Hs3 as [cache ->]. destruct Hwf2 as [? ? ? ?]. split; try done. intros k c Hk. by apply (Hc3 k). }
  assert (Hret : Forall (good_grant g now rev1)
     (retainedGatewayAccessGrantsLocked o defaultID nk vip dev nodes rev1 now g3)).
  { apply Forall_forall. intros gr ([k c] & Hin%elem_of_range & E)%list_elem_of_omap.
    destruct (negb _); [done|]. case_bool_decide; [done|].
    destruct (cache_usable defaultID now g3 c) eqn:Hu; [|done]. cbn [negb] in E.
    apply cache_usable_backed in Hu as [Hb Hexp]. destruct (Hc3 _ _ Hin) as [(gr1 & Hgr1 & Hid & He) _].
    rewrite Hgr1 in E. simpl in E. injection E as <-. split; [done|]. simpl. rewrite Hid, He. split; [|done].
    apply Hback2. by apply (backed_same g2 g3). }
  intros [= <- <- <- <-]. split_and!; [done| |].
  - unfold sortGatewayAccessGrants. rewrite merge_sort_Permutation. destruct (retainExisting _); [apply Forall_app|]; done.
  - apply Sorted_merge_sort, _.
Qed.

(** Grants touch nothing but the cache, whatever its state. *)
Lemma grants_cache_only nk vip dev opts rev now rand index nodes g :
  same_but_cache g (grants_for_nodes hmac secret hardTTL softLead nk vip dev opts rev now rand index nodes g).1.
Proof.
  revert index g. induction nodes as [|node nodes IH]; intros index g; [apply same_but_cache_refl|].
  cbn [grants_for_nodes]. cbv zeta.
  match goal with |- context [gatewayAccessGrantForNodeLocked _ _ ?a ?b ?c ?d ?e ?f ?h ?i ?j ?k ?l ?m ?n g] =>
    assert (Hs : same_but_cache g (gatewayAccessGrantForNodeLocked hmac secret a b c d e f h i j k l m n g).1);
    [|destruct (gatewayAccessGrantForNodeLocked hmac secret a b c d e f h i j k l m n g) as [g1 [grant ch]]] end.
  { unfold gatewayAccessGrantForNodeLocked. cbv zeta.
    destruct (match match gatewayGrantCache g !! _ with Some _ => _ | None => _ end with Some _ => _ | None => _ end);
      [apply same_but_cache_refl|]. destruct (buildGatewayAccessGrantForNode _ _ _ _ _ _ _ _ _ _ _ _ _); by eexists. }
  cbn [fst] in Hs. specialize (IH (index + 1) g1).
  destruct (grants_for_nodes _ _ _ _ _ _ _ _ _ _ _ _ nodes g1) as [g2 [grants ch2]].
  destruct grant; by eapply same_but_cache_trans.
Qed.

(** The recorded fingerprint is that of the gateways approved and alive at [now]. *)
Definition synced (now : Z) (g : GatewayState) : Prop :=
  gatewayGrantFingerprint g = gatewayGrantFingerprintOf (approvedAliveGatewayNodesLocked o defaultID now g).

Lemma synced_cache now g g' : same_but_cache g g' → synced now g → synced now g'.
Proof. by intros [c ->]. Qed.

Lemma sync_synced now g : synced now (syncGatewayGrantPolicyLocked (approvedAliveGatewayNodesLocked o defaultID now g) g).1.
Proof. unfold syncGatewayGrantPolicyLocked. cbv zeta. by case_bool_decide. Qed.

Lemma synced_unchanged now g : synced now g →
  (syncGatewayGrantPolicyLocked (approvedAliveGatewayNodesLocked o defaultID now g) g).2.2 = false.
Proof. intros Hs. unfold syncGatewayGrantPolicyLocked. by rewrite bool_decide_eq_true_2. Qed.

Lemma build_synced now rand nk vip dev opts g : synced now (build now rand nk vip dev opts g).1.
Proof.
  unfold buildGatewayAccessGrantsLocked. cbv zeta.
  set (nodes := approvedAliveGatewayNodesLocked o defaultID now g).
  pose proof (sync_synced now g) as Hs. fold nodes in Hs.
  destruct (syncGatewayGrantPolicyLocked nodes g) as [g1 [rev ch]]. cbn [fst] in Hs.
  assert (Hs2 : synced now (pruneGatewayGrantCacheLocked defaultID now g1)) by done.
  destruct (bool_decide (nodes = []) && _); [done|].
  match goal with |- context [grants_for_nodes _ _ _ _ ?a ?b ?c ?d ?e ?f ?h ?i ?j ?k] =>
    pose proof (grants_cache_only a b c d e f h i j k) as Hc;
    destruct (grants_for_nodes hmac secret hardTTL softLead a b c d e f h i j k) as [g3 [grants ch3]] end.
  by eapply synced_cache.
Qed.

Lemma gw_exec_wf op g : 30 * second + 10 ^ 6 ≤ hardTTL → wf_gateway g → wf_gateway (gw_exec op g).
Proof.
  intros Httl Hwf. destruct op; cbn [gw_exec].
  - destruct Hwf. by split.
  - by apply wf_ApproveByID.
  - by apply wf_Delist.
  - by apply wf_Register.
  - by apply wf_Report.
  - destruct (build now rand networkKey virtualIP deviceID opts g) as [g' [[grants rev] ch]] eqn:E.
    by apply build_spec in E as [? _].
Qed.

(** In every state reached from start-up by approvals, delistings,
    registrations, reports and grant requests: nodes are filed under their own
    identifier, every cached grant belongs to the gateway it is filed under, and
    the approval store was last handed exactly the current approvals. *)
Theorem gateway_reachable_wf (allow : gmap string string) (ops : list gateway_op) :
  30 * second + 10 ^ 6 ≤ hardTTL → wf_gateway (foldl (λ g op, gw_exec op g) (initial allow) ops).
Proof.
  intros Httl. cut (∀ g, wf_gateway g → wf_gateway (foldl (λ g op, gw_exec op g) g ops)).
  { intros Hall. apply Hall, wf_initial. }
  induction ops as [|op ops IH]; intros g Hwf; [done|]. cbn [foldl]. by apply IH, gw_exec_wf.
Qed.


(** After a gateway is delisted, no grant request is answered with a
    grant for it: its node, its approval and its cached grants are gone. *)
Theorem delisted_gets_no_grant (id : string) (now : Z) (rand : Z → result (list byte)) (nk : string) (vip : Z)
    (dev : string) (opts : gatewayGrantBuildOptions) (g g' : GatewayState) :
  wf_gateway g → 30 * second + 10 ^ 6 ≤ hardTTL →
  DelistGatewayNodeByID o defaultID id g = (g', None) →
  ∀ grant, grant ∈ (build now rand nk vip dev opts g').2.1.1 → grant_gateway_id grant ≠ TrimSpace id.
Proof.
  intros Hwf Httl E grant Hin Heq.
  assert (Hwf' : wf_gateway g') by (pose proof (wf_Delist id g Hwf) as Hd; by rewrite E in Hd).
  destruct (build now rand nk vip dev opts g') as [g2 [[grants rev] ch]] eqn:Eb.
  apply build_spec in Eb as (_ & Hg & _); [|done..]. cbn [fst snd] in Hin.
  rewrite Forall_forall in Hg. destruct (Hg _ Hin) as (_ & (node & Hn & _) & _). rewrite Heq in Hn.
  unfold DelistGatewayNodeByID in E. cbv zeta in E. case_bool_decide; [done|]. case_bool_decide; [done|].
  destruct (_ && _ && _); [done|]. injection E as <-.
  destruct (gatewayNodes g !! TrimSpace id); simpl in Hn; unfold const in Hn; by rewrite lookup_delete_eq in Hn.
Qed.

(** C26 (safety). A report changes the set of approved or active gateways only if
    its signature is the HMAC of its contents under the shared secret and the
    gateway is the default one or was approved beforehand at that endpoint. *)
Theorem report_needs_approval (now : Z) (packet : Packet) (g : GatewayState) :
  let g' := (report now packet g).1 in
  (gatewayNodes g' = gatewayNodes g ∧ gatewayAllow g' = gatewayAllow g ∧ stored g' = stored g
     ∧ gatewayGrantCache g' = gatewayGrantCache g)
  ∨ ∃ req chans ep proof, proto_unmarshal (Payload packet) = Ok req
      ∧ check_gateway_report defaultID req = Ok (chans, ep)
      ∧ marshalGatewayReportProof req = Ok proof ∧ hmac secret proof = rep_signature req
      ∧ (is_default defaultID (rep_gateway_id req) = true
         ∨ ∃ approved, gatewayAllow g !! rep_gateway_id req = Some approved ∧ TrimSpace approved = TrimSpace ep).
Proof.
  cbv zeta. unfold HandleGatewayReportPacket. destruct (proto_unmarshal _) as [req|]; [|by left].
  destruct (check_gateway_report _ _) as [[chans ep]|] eqn:Hchk; [|by left]. cbv zeta.
  destruct (authenticateGatewayReport _ _ _ _ _) as [g1 err] eqn:Ha.
  pose proof (auth_frame _ _ _ _ _ Ha) as [nonces ->]. destruct err as [e|]; [by left|].
  destruct (isGatewayAllowed _ _ _ _) eqn:Hal; cbn [negb]; [|by left].
  right. unfold authenticateGatewayReport in Ha. case_bool_decide; [done|]. case_bool_decide; [done|].
  destruct (marshalGatewayReportProof req) as [proof|] eqn:Hp; [|done]. case_bool_decide as Hh; [done|].
  exists req, chans, ep, proof. split_and!; try done.
  unfold isGatewayAllowed in Hal. destruct (is_default _ _); [by left|right]. simpl in Hal.
  destruct (gatewayAllow g !! rep_gateway_id req) as [a|]; [|done]. exists a. by bool_prop.
Qed.

(** The policy revision is never 0, and it changes exactly when
    the list of approved and live gateways (its fingerprint) changed since the
    last request. *)
Theorem policy_rev_tracks_nodes (nodes : list GatewayNodeInfo) (g g' : GatewayState) (rev : Z) (changed : bool) :
  0 ≤ gatewayGrantPolicyRev g < 2 ^ 64 →
  syncGatewayGrantPolicyLocked nodes g = (g', (rev, changed)) →
  0 < rev < 2 ^ 64 ∧ gatewayGrantPolicyRev g' = rev
  ∧ gatewayGrantFingerprint g' = gatewayGrantFingerprintOf nodes
  ∧ (changed = true ↔ gatewayGrantFingerprintOf nodes ≠ gatewayGrantFingerprint g)
  ∧ (changed = true → rev ≠ gatewayGrantPolicyRev g)
  ∧ (changed = false → gatewayGrantPolicyRev g ≠ 0 → rev = gatewayGrantPolicyRev g).
Proof.
  intros Hr. unfold syncGatewayGrantPolicyLocked. cbv zeta. case_bool_decide as Hfp; intros [= <- <- <-].
  - destruct (gatewayGrantPolicyRev g =? 0) eqn:Hz; bool_prop; simpl; unfold const; split_and!; done || lia || congruence.
  - assert (Hu : gatewayGrantPolicyRev g + 1 < 2 ^ 64 ∧ u64 (gatewayGrantPolicyRev g + 1) = gatewayGrantPolicyRev g + 1
                 ∨ (gatewayGrantPolicyRev g = 2 ^ 64 - 1 ∧ u64 (gatewayGrantPolicyRev g + 1) = 0)).
    { destruct (decide (gatewayGrantPolicyRev g = 2 ^ 64 - 1)) as [->|Hne]; [by right|left]. split; [lia|]. apply Z.mod_small. lia. }
    simpl. unfold const. destruct Hu as [[? ->]|[-> ->]]; [rewrite (proj2 (Z.eqb_neq _ _)) by lia|].
    + split_and!; done || lia.
    + by split_and!.
Qed.

(** ** Tickets *)
Section Tickets.
(** The protobuf library decodes what it encoded. *)
Hypothesis claims_codec : ∀ (c : GatewayTicketClaims) b, proto_marshal c = Ok b → proto_unmarshal b = Ok c.
Hypothesis ticket_codec : ∀ (t : SignedGatewayTicket) b, proto_marshal t = Ok b → proto_unmarshal b = Ok t.

(** The ticket inside a newly built grant decodes to claims for
    exactly the requesting device, address, session and gateway, with the grant's
    own expiry and policy revision, signed with the HMAC of those claims. *)
Theorem grant_ticket_authentic (now : Z) (buf : result (list byte)) (vip : Z) (dev : string) (node : GatewayNodeInfo)
    (session expire refresh lease grace rev : Z) (grant : GatewayAccessGrant) :
  buildGatewayAccessGrantForNode hmac secret now buf vip dev node session expire refresh lease grace rev = Some grant →
  ∃ (t : SignedGatewayTicket) (c : GatewayTicketClaims),
    proto_unmarshal (ticket grant) = Ok t ∧ proto_unmarshal (claims t) = Ok c
    ∧ signature t = hmac secret (claims t)
    ∧ claim_device_id c = dev ∧ claim_virtual_ip c = vip ∧ claim_session_id c = session_id grant
    ∧ gateway_ids c = [grant_gateway_id grant] ∧ expire_unix_ms c = hard_expire_unix_ms grant
    ∧ policy_revision c = policy_rev grant ∧ not_before_unix_ms c ≤ issued_at_unix_ms c.
Proof.
  unfold buildGatewayAccessGrantForNode, newGatewayTicket.
  destruct buf as [buf|]; [|done]. cbn [rbind]. cbv zeta.
  destruct (proto_marshal _) as [cb|] eqn:Hc; [|done]. cbn [rbind]. case_bool_decide; [done|].
  destruct (proto_marshal (Build_SignedGatewayTicket _ _ _ _)) as [tb|] eqn:Ht; [|done].
  destruct (cloneGatewayChannels _); [done|]. intros [= <-].
  apply claims_codec in Hc. apply ticket_codec in Ht.
  eexists _, _. split; [exact Ht|]. split; [exact Hc|]. cbn. split_and!; done || lia.
Qed.
End Tickets.

End GatewayInv.

(** ** A concrete gateway *)
Module SampleGateway.
Definition url : UrlPackage := {| url_host := λ _, None; url_path := λ _, ""; url_gateway := λ s, s |}.
Definition codec {M} : ProtoMessage M := {| proto_marshal := λ _, Ok []; proto_unmarshal := λ _, Err "bad message" |}.
Definition mac (secret : string) (l : list byte) : list byte := l.
Definition day : Z := 24 * hour.
Definition ops : list gateway_op := [GRegister 0 "gw1" "198.51.100.7:443" ["relay"]].
Definition exec := @gw_exec url codec codec codec codec codec ascending mac "secret" "default" day minute.
Definition g0 : GatewayState := foldl (λ g op, exec op g) (initial ascending ∅) ops.

Lemma g0_wf : wf_gateway ascending g0.
Proof. apply gw_exec_wf; [by vm_compute|apply wf_initial]. Qed.

Definition event : replay_event := {| ev_gateway := "gw1"; ev_report := 1000; ev_nonce := [x01]; ev_now := 10 ^ 9 |}.

(** A codec for a single message. *)
Definition one_message {M} `{EqDecision M} (m : M) : ProtoMessage M :=
  {| proto_marshal := λ x, if decide (x = m) then Ok [x01] else Err "unknown";
     proto_unmarshal := λ _, Ok m |}.

Lemma one_message_codec {M} `{EqDecision M} (m x : M) b :
  @proto_marshal M (one_message m) x = Ok b → @proto_unmarshal M (one_message m) b = Ok x.
Proof. simpl. case_decide; [by intros _; subst|done]. Qed.

#[global] Instance claims_eq_dec : EqDecision GatewayTicketClaims.
Proof. solve_decision. Defined.
#[global] Instance ticket_eq_dec : EqDecision SignedGatewayTicket.
Proof. solve_decision. Defined.

Definition sample_claims : GatewayTicketClaims :=
  {| ticket_id := "07"; claim_device_id := "d"; claim_virtual_ip := 5; claim_session_id := 9; policy_revision := 1;
     gateway_ids := ["gw1"]; claim_gateway_group_id := ""; issued_at_unix_ms := 0; not_before_unix_ms := -5000;
     expire_unix_ms := 1000; lease_cap_secs := 300; grace_cap_secs := 45 |}.
Definition sample_ticket : SignedGatewayTicket :=
  {| alg := "hmac-sha256"; key_id := ""; claims := [x01]; signature := [x01] |}.
Definition node : GatewayNodeInfo := default (mkGatewayNodeInfo "" "" [] [] 0) (gatewayNodes g0 !! "gw1").
End SampleGateway.

Lemma replay_refused_witness :
  ∃ reason, (validateGatewayReplayWindow "gw1" 1000 [x01] (10 ^ 9 + 7)
    (replay_run [] (replay_step SampleGateway.event SampleGateway.g0).1)).2 = Some reason.
Proof.
  apply (replay_refused SampleGateway.event [] SampleGateway.g0 (10 ^ 9 + 7)); [by vm_compute|by vm_compute|constructor|by vm_compute].
Defined.

Lemma replay_accepted_at_window_end_witness :
  (validateGatewayReplayWindow "gw1" 1000 [x01] (1000 * 10 ^ 6 + gatewayReportFreshnessWindow)
    (replay_step SampleGateway.event SampleGateway.g0).1).2 = None.
Proof. apply (replay_accepted_at_window_end SampleGateway.event SampleGateway.g0). by vm_compute. Defined.

Lemma gateway_reachable_wf_witness : wf_gateway ascending SampleGateway.g0.
Proof.
  apply (@gateway_reachable_wf SampleGateway.url SampleGateway.codec SampleGateway.codec SampleGateway.codec
    SampleGateway.codec SampleGateway.codec ascending SampleGateway.mac "secret" "default" SampleGateway.day minute
    ∅ SampleGateway.ops). by vm_compute.
Defined.


Lemma delisted_gets_no_grant_witness :
  Forall (λ grant, grant_gateway_id grant ≠ "gw1") (@buildGatewayAccessGrantsLocked SampleGateway.url SampleGateway.codec SampleGateway.codec ascending
       SampleGateway.mac "secret" "default" SampleGateway.day minute 5 (λ _, Ok [x07]) "g" 5 "d" no_options
       (DelistGatewayNodeByID ascending "default" "gw1" SampleGateway.g0).1).2.1.1.
Proof.
  apply Forall_forall. apply (@delisted_gets_no_grant SampleGateway.url SampleGateway.codec SampleGateway.codec ascending SampleGateway.mac
    "secret" "default" SampleGateway.day minute "gw1" 5 (λ _, Ok [x07]) "g" 5 "d" no_options SampleGateway.g0);
    [apply SampleGateway.g0_wf|by vm_compute|].
  apply injective_projections; [done|]. by vm_compute.
Defined.

Lemma policy_rev_tracks_nodes_witness :
  0 < (syncGatewayGrantPolicyLocked [SampleGateway.node] SampleGateway.g0).2.1 < 2 ^ 64.
Proof.
  apply (policy_rev_tracks_nodes [SampleGateway.node] SampleGateway.g0
    (syncGatewayGrantPolicyLocked [SampleGateway.node] SampleGateway.g0).1 _
    (syncGatewayGrantPolicyLocked [SampleGateway.node] SampleGateway.g0).2.2); [by vm_compute|].
  by destruct (syncGatewayGrantPolicyLocked _ _) as [? [? ?]].
Defined.

Lemma grant_ticket_authentic_witness :
  ∃ grant t c,
    @buildGatewayAccessGrantForNode SampleGateway.url (SampleGateway.one_message SampleGateway.sample_claims)
      (SampleGateway.one_message SampleGateway.sample_ticket) SampleGateway.mac "secret" 0 (Ok [x07]) 5 "d"
      SampleGateway.node 9 1000 900 300 45 1 = Some grant
    ∧ @proto_unmarshal _ (SampleGateway.one_message SampleGateway.sample_ticket) (ticket grant) = Ok t
    ∧ @proto_unmarshal _ (SampleGateway.one_message SampleGateway.sample_claims) (claims t) = Ok c
    ∧ claim_device_id c = "d" ∧ gateway_ids c = ["gw1"].
Proof.
  assert (Hid : from_option grant_gateway_id "" (@buildGatewayAccessGrantForNode SampleGateway.url
      (SampleGateway.one_message SampleGateway.sample_claims)
      (SampleGateway.one_message SampleGateway.sample_ticket) SampleGateway.mac "secret" 0 (Ok [x07]) 5 "d"
      SampleGateway.node 9 1000 900 300 45 1) = "gw1") by (vm_compute; reflexivity).
  destruct (@buildGatewayAccessGrantForNode SampleGateway.url (SampleGateway.one_message SampleGateway.sample_claims)
      (SampleGateway.one_message SampleGateway.sample_ticket) SampleGateway.mac "secret" 0 (Ok [x07]) 5 "d"
      SampleGateway.node 9 1000 900 300 45 1) as [grant|] eqn:E; [|discriminate Hid].
  destruct (grant_ticket_authentic _ _ (SampleGateway.one_message_codec _) (SampleGateway.one_message_codec _)
    _ _ _ _ _ _ _ _ _ _ _ _ E) as (t & c & H1 & H2 & _ & H3 & _ & _ & H4 & _).
  exists grant, t, c. change (grant_gateway_id grant = "gw1") in Hid. rewrite Hid in H4.
  split; [reflexivity|]. split; [exact H1|]. split; [exact H2|]. split; [exact H3|exact H4].
Defined.
