(* ===== verification/Punch.v ===== *)
(** * Client status and hole punching: [control/punch.go].

    The handlers work on [NetworkControl]: the client tables and the expiring
    maps of punch sessions, pair cooldowns, manual deduplication and retry state.
    A punch session is shared by pointer in the code; since each handler stores
    the session it changed, passing the record is the same.  [now] is the clock of
    the step in nanoseconds. *)
From S2P Require Import Prelude GoString NetIP NetParse Packet Proto ExpireMap Network Gateway.

Definition maxPunchAttemptsPerPair : Z := 3.

(** ** Enumerations as text: [String] and the reverse table of the generated code *)
Definition trigger_names : list (Z * string) :=
  [(0, "PunchTriggerUnknown"); (1, "PunchTriggerStatusUpdate"); (2, "PunchTriggerRouteTimeout");
   (3, "PunchTriggerReconnectRecovery"); (4, "PunchTriggerManualRequest"); (5, "StatusReportOnly")].
Definition policy_names : list (Z * string) :=
  [(0, "PunchEndpointSelectionDefault"); (1, "PunchEndpointSelectionAll"); (2, "PunchEndpointSelectionPreferPublic")].

Definition enum_string (names : list (Z * string)) (v : Z) : string :=
  default (dec v) (snd <$> (snd <$> list_find (λ e, e.1 = v) names)).
Definition enum_value (names : list (Z * string)) (s : string) : option Z :=
  fst <$> (snd <$> list_find (λ e, e.2 = s) names).

(** ** Keys *)
Definition punchSessionKey (sessionID attempt : Z) : string := dec sessionID +:+ ":" +:+ dec attempt.

Definition punchPairKey (a b : Z) : string :=
  if a <? b then dec a +:+ "-" +:+ dec b else dec b +:+ "-" +:+ dec a.

(** ** Retry and backoff *)
Definition retryBackoffDuration (attempt : Z) : Z :=
  if attempt =? 0 then 0 else
  let shift := if 5 <? attempt then 5 else attempt in
  let d := Z.shiftl 1 shift * second in
  if 30 * second <? d then 30 * second else d.

Definition updatePunchRetryState (now : Z) (pairKey : string) (status : PunchSessionState) (nc : NetworkControl)
    : NetworkControl :=
  match status with
  | PunchSessionSuccess => nc <| PunchPairRetry := Delete pairKey (PunchPairRetry nc) |>
  | PunchSessionFailed | PunchSessionTimeout =>
      let '(state, retries) := Get now pairKey (PunchPairRetry nc) in
      let state := default (mkPunchRetryState 0 0) state in
      let attempt := u32 (RetryAttempt state + 1) in
      nc <| PunchPairRetry :=
        Set_ now pairKey (mkPunchRetryState attempt (unix_milli (now + retryBackoffDuration attempt))) retries |>
  | _ => nc
  end.

Definition punchSessionStateFromPhase (phase : Z) : PunchSessionState :=
  if (phase =? PunchPhaseScheduled) || (phase =? PunchPhaseUnknown) then PunchSessionScheduled
  else if phase =? PunchPhaseSending then PunchSessionSending
  else if phase =? PunchPhaseWaiting then PunchSessionWaiting
  else if phase =? PunchPhaseSuccess then PunchSessionSuccess
  else if phase =? PunchPhaseTimeout then PunchSessionTimeout
  else PunchSessionFailed.

Definition punchPeerIP (session : PunchSession) (source : Z) : Z :=
  if source =? Source session then Target session
  else if source =? Target session then Source session else 0.

(** ** Endpoints *)

(** A reported endpoint that has a port and an address. *)
Definition status_endpoint (endpoint : PunchEndpoint) : option UDPAddr :=
  if (pe_port endpoint =? 0) || (65535 <? pe_port endpoint) then None
  else if negb (pe_ip endpoint =? 0) then Some {| udp_ip := Uint32ToIP (pe_ip endpoint); udp_port := pe_port endpoint |}
  else if bool_decide (length (pe_ipv6 endpoint) = 16%nat)
  then Some {| udp_ip := pe_ipv6 endpoint; udp_port := pe_port endpoint |}
  else None.

(** The endpoint sent to the peer. *)
Definition punch_endpoint (addr : UDPAddr) : option PunchEndpoint :=
  let port := u16 (udp_port addr) in
  if port =? 0 then None
  else if bool_decide (udp_ip addr = []) then None
  else if bool_decide (To4 (udp_ip addr) ≠ [])
  then Some {| pe_ip := IpToUint32 (To4 (udp_ip addr)); pe_port := port; pe_ipv6 := []; pe_tcp := false |}
  else if bool_decide (length (To16 (udp_ip addr)) = 16%nat)
  then Some {| pe_ip := 0; pe_port := port; pe_ipv6 := To16 (udp_ip addr); pe_tcp := false |}
  else None.

(** [appendEndpoint]: [seen] holds the addresses already taken.  The code keys
    them by the address text, which two addresses share exactly when their
    16-byte forms agree. *)
Definition append_endpoint (acc : list (IP * Z) * list PunchEndpoint) (addr : UDPAddr)
    : list (IP * Z) * list PunchEndpoint :=
  match punch_endpoint addr with
  | None => acc
  | Some endpoint =>
      let key := (To16 (udp_ip addr), u16 (udp_port addr)) in
      if bool_decide (key ∈ acc.1) then acc else (key :: acc.1, acc.2 ++ [endpoint])
  end.

Definition buildPunchEndpoints (client : ClientInfo) : list PunchEndpoint :=
  match ClientStatus client with
  | None => []
  | Some status =>
      (foldl append_endpoint ([], []) (PublicUDPEndpoints status ++ LocalUDPEndpoints status)).2
  end.

(** ** Suppression *)
Definition clientReportsDirectPeer (client : ClientInfo) (peerIP : Z) : bool :=
  match ClientStatus client with
  | None => false
  | Some status => existsb (λ ip, bool_decide (ip ≠ []) && IP_Equal ip (Uint32ToIP peerIP)) (P2PList status)
  end.

Definition clientsHaveAnyP2PPath srcClient srcIP targetClient targetIP : bool :=
  clientReportsDirectPeer srcClient targetIP || clientReportsDirectPeer targetClient srcIP.
Definition clientsHaveMutualP2PPath srcClient srcIP targetClient targetIP : bool :=
  clientReportsDirectPeer srcClient targetIP && clientReportsDirectPeer targetClient srcIP.
Definition clientsPreferRelay (srcClient targetClient : ClientInfo) : bool :=
  (PreferredChannelMode srcClient =? CHANNEL_MODE_RELAY) || (PreferredChannelMode targetClient =? CHANNEL_MODE_RELAY).
Definition shouldSuppressPunchStartForStatusUpdate srcClient srcIP targetClient targetIP : bool :=
  if clientsPreferRelay srcClient targetClient then true
  else clientsHaveAnyP2PPath srcClient srcIP targetClient targetIP.
Definition shouldSuppressPunchStartForOtherTrigger srcClient srcIP targetClient targetIP : bool :=
  if clientsPreferRelay srcClient targetClient then true
  else clientsHaveMutualP2PPath srcClient srcIP targetClient targetIP.

Section Punch.
Context `{ProtoMessage ClientStatusInfoMsg} `{ProtoMessage PunchStart} `{ProtoMessage PunchRequest}
  `{ProtoMessage PunchAck} `{ProtoMessage PunchResult}.
(** The orders in which networks and clients are visited. *)
Context (o o' : RangeOrder).

(** ** Client status *)
Definition client_status (now : Z) (status : ClientStatusInfoMsg) : ClientStatusInfo :=
  {| P2PList := Uint32ToIP <$> cs_p2p_list status;
     PublicUDPEndpoints := omap status_endpoint (cs_public_udp_endpoints status);
     LocalUDPEndpoints := omap status_endpoint (cs_local_udp_endpoints status);
     UpStream := cs_up_stream status; DownStream := cs_down_stream status;
     IsCone := cs_nat_type status =? PunchNat_Cone;
     PunchTriggerReason := enum_string trigger_names (cs_punch_trigger_reason status);
     RecoveryPunchTarget := cs_recovery_punch_target status;
     UpdateTime := unix now;
     ExitNodeAdvertised := cs_exit_node_advertised status;
     ExitNodeLocalReady := cs_exit_node_local_ready status |}.

(** The client after a status report, and whether peers must be told. *)
Definition apply_status (now : Z) (status : ClientStatusInfoMsg) (client : ClientInfo) : ClientInfo * bool :=
  let clientStatus := client_status now status in
  let reachable := bool_decide (P2PList clientStatus ≠ []) in
  let changed := negb (PreferredChannelMode client =? cs_preferred_channel_mode status)
    || match ClientStatus client with
       | None => true
       | Some old => negb (Bool.eqb (ExitNodeAdvertised old) (ExitNodeAdvertised clientStatus))
                     || negb (Bool.eqb (ExitNodeLocalReady old) (ExitNodeLocalReady clientStatus))
       end in
  (client <| ControlOnline := true |> <| ControlLastSeen := unix now |> <| DataPlaneReachable := reachable |>
          <| DataPlaneLastSeen := if reachable then unix now else DataPlaneLastSeen client |>
          <| ClientStatus := Some clientStatus |> <| PreferredChannelMode := cs_preferred_channel_mode status |>,
   changed).

Definition HandleClientStatusInfoPacketInNetwork (now : Z) (request : Packet) (networkKey : string) (nc : NetworkControl)
    : NetworkControl * result bool :=
  match proto_unmarshal (M := ClientStatusInfoMsg) (Payload request) with
  | Err e => (nc, Err ("ClientStatusInfo unmarshal error: " +:+ e))
  | Ok status =>
      let srcIP := IpToUint32 (SrcIP request) in
      if negb (cs_source status =? 0) && negb (cs_source status =? srcIP)
      then (nc, Err ("client status source mismatch: " +:+ dec (cs_source status) +:+ " != " +:+ dec srcIP)) else
      let '(nc, r) :=
        update_first networkKey (λ network,
          client ← Clients network !! srcIP;
          let '(client, changed) := apply_status now status client in
          Some (UpsertClient srcIP client network, changed))
        (range o (networks nc)) nc in
      match r with
      | Some changed => (nc, Ok changed)
      | None => (nc, Err ("client " +:+ ip4_string (To4 (SrcIP request)) +:+ " not registered"))
      end
  end.

Definition HandleClientStatusInfoPacket now request nc :=
  HandleClientStatusInfoPacketInNetwork now request (RouteNetworkKey request) nc.

(** ** Starting punches from a status report *)
Definition punch_start_packet (request : Packet) (dst : Z) (networkKey : string) (payload : list byte) : Packet :=
  {| Ver := V3; Proto := ProtocolService; AppProto := AppProtoPunchStart; SourceTTL := MAX_TTL; TTL := MAX_TTL;
     SrcIP := DstIP request; DstIP := Uint32ToIP dst; Payload := payload; RouteNetworkKey := networkKey |}.

Inductive target_outcome :=
| TargetSkip
| TargetStart (session : PunchSession) (packets : list Packet)
| TargetError (e : string).

(** The retry state that applies to the pair: none for a manual trigger (which
    also clears it); [None] when the pair must wait or has used up its attempts. *)
Definition pair_retry (now : Z) (manualTrigger : bool) (pairKey : string) (nc : NetworkControl)
    : NetworkControl * option (option PunchRetryState) :=
  let '(retryState, retries) := Get now pairKey (PunchPairRetry nc) in
  let nc := nc <| PunchPairRetry := retries |> in
  if manualTrigger then (nc <| PunchPairRetry := Delete pairKey (PunchPairRetry nc) |>, Some None) else
  match retryState with
  | None => (nc, Some None)
  | Some state =>
      if maxPunchAttemptsPerPair <=? RetryAttempt state then (nc, None)
      else if unix_milli now <? NextAllowedUnixMs state then (nc, None)
      else (nc, Some (Some state))
  end.

(** The filters on a target that do not depend on the shared tables. *)
Definition target_wanted (triggerReason recoveryPunchTarget srcIP : Z) (srcClient : ClientInfo)
    (targetIP : Z) (targetClient : ClientInfo) : bool :=
  if (targetIP =? srcIP) || negb (ControlOnline targetClient) || bool_decide (ClientStatus targetClient = None) then false
  else if negb (recoveryPunchTarget =? 0) && negb (targetIP =? recoveryPunchTarget) then false
  else if triggerReason =? StatusReportOnly then false
  else if triggerReason =? PunchTriggerStatusUpdate
  then negb (shouldSuppressPunchStartForStatusUpdate srcClient srcIP targetClient targetIP)
  else negb (shouldSuppressPunchStartForOtherTrigger srcClient srcIP targetClient targetIP).

(** The body of the loop over the clients of the network; [sessionID] is the
    clock reading taken for this target. *)
Definition punch_target (now sessionID : Z) (request : Packet) (key : string) (triggerReason recoveryPunchTarget srcIP : Z)
    (srcClient : ClientInfo) (targetIP : Z) (targetClient : ClientInfo) (nc : NetworkControl)
    : NetworkControl * target_outcome :=
  if negb (target_wanted triggerReason recoveryPunchTarget srcIP srcClient targetIP targetClient) then (nc, TargetSkip) else
  let manualTrigger := triggerReason =? PunchTriggerManualRequest in
  let pairKey := punchPairKey srcIP targetIP in
  let '(cooling, nc) :=
    if manualTrigger then (false, nc) else
    let '(c, cooldown) := Get now pairKey (PunchPairCooldown nc) in
    (bool_decide (is_Some c), nc <| PunchPairCooldown := cooldown |>) in
  if cooling then (nc, TargetSkip) else
  let '(nc, retry) := pair_retry now manualTrigger pairKey nc in
  match retry with
  | None => (nc, TargetSkip)
  | Some retry =>
      let sourceEndpoints := buildPunchEndpoints srcClient in
      let targetEndpoints := buildPunchEndpoints targetClient in
      if bool_decide (sourceEndpoints = []) || bool_decide (targetEndpoints = []) then (nc, TargetSkip) else
      let '(claimed, nc) :=
        if manualTrigger then
          let '(ok, dedup) := TrySetIfAbsent now pairKey tt (ManualPunchPairDedup nc) in
          (ok, nc <| ManualPunchPairDedup := dedup |>)
        else (true, nc) in
      if negb claimed then (nc, TargetSkip) else
      let attempt := match retry with Some state => u32 (RetryAttempt state + 1) | None => 1 end in
      let attemptBudget := maxPunchAttemptsPerPair in
      let deadline := unix_milli (now + 5 * second) in
      let session :=
        {| SessionID := u64 sessionID; Source := srcIP; Target := targetIP; Attempt := attempt;
           AttemptBudget := attemptBudget; DeadlineUnixMs := deadline;
           TriggerReason := enum_string trigger_names triggerReason;
           SelectionPolicy := enum_string policy_names PunchEndpointSelectionAll;
           State := PunchSessionScheduled; RequestedAt := unix now; LastReason := ""; RelayFallback := false;
           Ack := ∅; Results := ∅ |} in
      let nc := nc <| PunchSessions := Set_ now (punchSessionKey (u64 sessionID) attempt) session (PunchSessions nc) |>
                   <| PunchPairCooldown := Set_ now pairKey tt (PunchPairCooldown nc) |> in
      let start from to endpoints :=
        {| ps_session_id := u64 sessionID; ps_source := from; ps_target := to; ps_peer_endpoints := endpoints;
           ps_attempt := attempt; ps_timeout_ms := 3000; ps_deadline_unix_ms := deadline;
           ps_trigger_reason := triggerReason; ps_attempt_budget := attemptBudget;
           ps_endpoint_selection_policy := PunchEndpointSelectionAll |} in
      match proto_marshal (start srcIP targetIP targetEndpoints) with
      | Err e => (nc, TargetError ("PunchStart source marshal error: " +:+ e))
      | Ok sourcePayload =>
          match proto_marshal (start targetIP srcIP sourceEndpoints) with
          | Err e => (nc, TargetError ("PunchStart target marshal error: " +:+ e))
          | Ok targetPayload =>
              (nc, TargetStart session [punch_start_packet request srcIP key sourcePayload;
                                        punch_start_packet request targetIP key targetPayload])
          end
      end
  end.

(** The loop: the shared tables, the packets so far, an error, and whether the
    iteration over the networks goes on. *)
Fixpoint punch_targets (now : Z) (clock : Z → Z) (request : Packet) (key : string)
    (triggerReason recoveryPunchTarget srcIP : Z) (srcClient : ClientInfo) (targets : list (Z * ClientInfo))
    (packets : list Packet) (nc : NetworkControl) : NetworkControl * result (list Packet) * bool :=
  match targets with
  | [] => (nc, Ok packets, true)
  | (targetIP, targetClient) :: targets' =>
      let '(nc, outcome) := punch_target now (clock targetIP) request key triggerReason recoveryPunchTarget srcIP
                              srcClient targetIP targetClient nc in
      match outcome with
      | TargetSkip =>
          punch_targets now clock request key triggerReason recoveryPunchTarget srcIP srcClient targets' packets nc
      | TargetError e => (nc, Err e, false)
      | TargetStart _ new =>
          let packets := packets ++ new in
          if negb (recoveryPunchTarget =? 0) || negb (triggerReason =? PunchTriggerManualRequest)
          then (nc, Ok packets, false)
          else punch_targets now clock request key triggerReason recoveryPunchTarget srcIP srcClient targets' packets nc
      end
  end.

Definition status_trigger (status : ClientStatusInfo) : Z :=
  default PunchTriggerStatusUpdate (enum_value trigger_names (PunchTriggerReason status)).

Definition BuildPunchStartPacketsFromStatusInNetwork (now : Z) (clock : Z → Z) (request : Packet) (networkKey : string)
    (nc : NetworkControl) : NetworkControl * result (list Packet) :=
  let srcIP := IpToUint32 (SrcIP request) in
  forEachVirtualNetworkRead o nc networkKey (λ key network '(nc, packets),
    match packets, Clients network !! srcIP with
    | Ok packets, Some srcClient =>
        match ControlOnline srcClient, ClientStatus srcClient with
        | true, Some status =>
            let triggerReason := status_trigger status in
            let recoveryPunchTarget :=
              if triggerReason =? PunchTriggerManualRequest then RecoveryPunchTarget status else 0 in
            punch_targets now clock request key triggerReason recoveryPunchTarget srcIP srcClient
              (range o' (Clients network)) packets nc
        | _, _ => (nc, Ok packets, true)
        end
    | _, _ => (nc, packets, true)
    end) (nc, Ok []).

Definition BuildPunchStartPacketsFromStatus now clock request nc :=
  BuildPunchStartPacketsFromStatusInNetwork now clock request (RouteNetworkKey request) nc.

(** ** Punch requests *)
Definition check_punch_request (request : Packet) : result (PunchRequest * Z) :=
  match proto_unmarshal (M := PunchRequest) (Payload request) with
  | Err e => Err ("PunchRequest unmarshal error: " +:+ e)
  | Ok req =>
      let sourceIP := IpToUint32 (SrcIP request) in
      if negb (preq_source req =? 0) && negb (preq_source req =? sourceIP)
      then Err ("punch request source mismatch: " +:+ dec (preq_source req) +:+ " != " +:+ dec sourceIP)
      else if (preq_session_id req =? 0) || (preq_attempt req =? 0)
      then Err "invalid punch request, session_id and attempt must be non-zero"
      else Ok (req, sourceIP)
  end.

Definition HandlePunchRequestPacketInNetwork (now : Z) (request : Packet) (networkKey : string) (nc : NetworkControl)
    : NetworkControl * result Packet :=
  match check_punch_request request with
  | Err e => (nc, Err e)
  | Ok (req, sourceIP) =>
      match FindClientByVirtualIPInNetwork o nc networkKey (preq_target req) with
      | None => (nc, Err ("punch target " +:+ ip4_string (Uint32ToIP (preq_target req)) +:+ " not registered"))
      | Some _ =>
          let session :=
            {| SessionID := preq_session_id req; Source := sourceIP; Target := preq_target req;
               Attempt := preq_attempt req;
               AttemptBudget := if preq_attempt_budget req =? 0 then maxPunchAttemptsPerPair else preq_attempt_budget req;
               DeadlineUnixMs := if preq_deadline_unix_ms req =? 0 then unix_milli (now + 5 * second)
                                 else preq_deadline_unix_ms req;
               TriggerReason := enum_string trigger_names (preq_trigger_reason req);
               SelectionPolicy := enum_string policy_names (preq_endpoint_selection_policy req);
               State := PunchSessionScheduled; RequestedAt := unix now; LastReason := ""; RelayFallback := false;
               Ack := {[sourceIP := true]}; Results := ∅ |} in
          let nc := nc <| PunchSessions :=
            Set_ now (punchSessionKey (preq_session_id req) (preq_attempt req)) session (PunchSessions nc) |> in
          match proto_marshal {| pack_session_id := preq_session_id req; pack_source := sourceIP;
                                 pack_attempt := preq_attempt req; pack_accepted := true; pack_reason := "";
                                 pack_phase := PunchPhaseScheduled |} with
          | Err e => (nc, Err ("PunchAck marshal error: " +:+ e))
          | Ok payload => (nc, Ok (service_packet request AppProtoPunchAck payload))
          end
      end
  end.

Definition HandlePunchRequestPacket now request nc :=
  HandlePunchRequestPacketInNetwork now request (RouteNetworkKey request) nc.

Definition BuildPunchStartPacketsInNetwork (request : Packet) (networkKey : string) (nc : NetworkControl)
    : result (list Packet) :=
  let? '(req, sourceIP) := check_punch_request request in
  match FindClientByVirtualIPInNetwork o nc networkKey sourceIP with
  | None => Err ("punch source " +:+ ip4_string (Uint32ToIP sourceIP) +:+ " not registered")
  | Some sourceClient =>
      match FindClientByVirtualIPInNetwork o nc networkKey (preq_target req) with
      | None => Err ("punch target " +:+ ip4_string (Uint32ToIP (preq_target req)) +:+ " not registered")
      | Some targetClient =>
          if clientsPreferRelay sourceClient targetClient then Ok [] else
          let start from to endpoints :=
            {| ps_session_id := preq_session_id req; ps_source := from; ps_target := to; ps_peer_endpoints := endpoints;
               ps_attempt := preq_attempt req; ps_timeout_ms := preq_timeout_ms req;
               ps_deadline_unix_ms := preq_deadline_unix_ms req; ps_trigger_reason := preq_trigger_reason req;
               ps_attempt_budget := preq_attempt_budget req;
               ps_endpoint_selection_policy := preq_endpoint_selection_policy req |} in
          match proto_marshal (start sourceIP (preq_target req) (preq_target_endpoints req)) with
          | Err e => Err ("PunchStart source marshal error: " +:+ e)
          | Ok sourcePayload =>
              match proto_marshal (start (preq_target req) sourceIP (preq_source_endpoints req)) with
              | Err e => Err ("PunchStart target marshal error: " +:+ e)
              | Ok targetPayload =>
                  Ok [punch_start_packet request sourceIP networkKey sourcePayload;
                      punch_start_packet request (preq_target req) networkKey targetPayload]
              end
          end
      end
  end.

Definition BuildPunchStartPackets request nc := BuildPunchStartPacketsInNetwork request (RouteNetworkKey request) nc.

(** ** Acknowledgements and results *)

(** The session after an acknowledgement of [source]. *)
Definition ack_session (source : Z) (ack : PunchAck) (session : PunchSession) : PunchSession :=
  let session := session <| Ack := <[source := pack_accepted ack]> (Ack session) |> in
  if negb (pack_accepted ack)
  then session <| State := PunchSessionFailed |> <| LastReason := pack_reason ack |> <| RelayFallback := true |>
  else if (2 <=? size (Ack session))%nat then session <| State := PunchSessionWaiting |>
  else
    let state := punchSessionStateFromPhase (pack_phase ack) in
    session <| State := if bool_decide (state = PunchSessionScheduled) then PunchSessionSending else state |>.

Definition HandlePunchAckPacket (now : Z) (request : Packet) (nc : NetworkControl) : NetworkControl * option string :=
  match proto_unmarshal (M := PunchAck) (Payload request) with
  | Err e => (nc, Some ("PunchAck unmarshal error: " +:+ e))
  | Ok ack =>
      let key := punchSessionKey (pack_session_id ack) (pack_attempt ack) in
      let '(found, sessions) := Get now key (PunchSessions nc) in
      let nc := nc <| PunchSessions := sessions |> in
      match found with
      | None => (nc, Some ("punch session not found: " +:+ key))
      | Some session =>
          let source := IpToUint32 (SrcIP request) in
          if negb (pack_source ack =? 0) && negb (pack_source ack =? source)
          then (nc, Some ("punch ack source mismatch: " +:+ dec (pack_source ack) +:+ " != " +:+ dec source)) else
          let session' := ack_session source ack session in
          let pairKey := punchPairKey (Source session) (Target session) in
          let nc :=
            if negb (pack_accepted ack)
            then updatePunchRetryState now pairKey (State session')
                   (nc <| PunchPairCooldown := Delete pairKey (PunchPairCooldown nc) |>)
            else nc in
          (nc <| PunchSessions := Set_ now key session' (PunchSessions nc) |>, None)
      end
  end.

(** The session after a result reported by [source]. *)
Definition result_session (source : Z) (res : PunchResult) (session : PunchSession) : PunchSession :=
  let session := session <| Results := <[source := res]> (Results session) |> <| LastReason := pres_reason res |> in
  if pres_code res =? PunchResultSuccess
  then session <| State := PunchSessionSuccess |> <| RelayFallback := false |>
  else if (pres_code res =? PunchResultTimeout) || (pres_code res =? PunchResultNoResponse)
  then session <| State := PunchSessionTimeout |> <| RelayFallback := true |>
  else session <| State := PunchSessionFailed |> <| RelayFallback := true |>.

Definition HandlePunchResultPacket (now : Z) (request : Packet) (nc : NetworkControl) : NetworkControl * option string :=
  match proto_unmarshal (M := PunchResult) (Payload request) with
  | Err e => (nc, Some ("PunchResult unmarshal error: " +:+ e))
  | Ok res =>
      let key := punchSessionKey (pres_session_id res) (pres_attempt res) in
      let '(found, sessions) := Get now key (PunchSessions nc) in
      let nc := nc <| PunchSessions := sessions |> in
      match found with
      | None => (nc, Some ("punch session not found: " +:+ key))
      | Some session =>
          let source := IpToUint32 (SrcIP request) in
          if negb (pres_source res =? 0) && negb (pres_source res =? source)
          then (nc, Some ("punch result source mismatch: " +:+ dec (pres_source res) +:+ " != " +:+ dec source)) else
          let session' := result_session source res session in
          let pairKey := punchPairKey (Source session) (Target session) in
          let nc := updatePunchRetryState now pairKey (State session')
                      (nc <| PunchPairCooldown := Delete pairKey (PunchPairCooldown nc) |>) in
          (nc <| PunchSessions := Set_ now key session' (PunchSessions nc) |>, None)
      end
  end.

(** ** Deadlines *)
Definition overdue (nowUnixMs : Z) (session : PunchSession) : bool :=
  bool_decide (State session ∈ [PunchSessionScheduled; PunchSessionSending; PunchSessionWaiting])
  && (0 <? DeadlineUnixMs session) && (DeadlineUnixMs session <? nowUnixMs).

Definition time_out (session : PunchSession) : PunchSession :=
  session <| State := PunchSessionTimeout |>
          <| LastReason := if bool_decide (LastReason session = "") then "deadline exceeded" else LastReason session |>
          <| RelayFallback := true |>.

Definition reconcile_one (now nowUnixMs : Z) (nc : NetworkControl) (entry : string * PunchSession) : NetworkControl :=
  let '(key, session) := entry in
  if overdue nowUnixMs session then
    let session' := time_out session in
    let sessions := PunchSessions nc in
    let nc := nc <| PunchSessions :=
      mkExpireMap (<[key := session']> (data sessions)) (expiration sessions) (ttl sessions) |> in
    let pairKey := punchPairKey (Source session') (Target session') in
    updatePunchRetryState now pairKey (State session')
      (nc <| PunchPairCooldown := Delete pairKey (PunchPairCooldown nc) |>)
  else nc.

Definition ReconcilePunchSessions (now nowUnixMs : Z) (nc : NetworkControl) : NetworkControl :=
  foldl (reconcile_one now nowUnixMs) nc (range o (data (PunchSessions nc))).

(** ** Control packets *)
Definition control_packet (request : Packet) (proto appProto : Z) (payload : list byte) : Packet :=
  {| Ver := V3; Proto := proto; AppProto := appProto; SourceTTL := MAX_TTL; TTL := MAX_TTL;
     SrcIP := DstIP request; DstIP := SrcIP request; Payload := payload; RouteNetworkKey := "" |}.

(** [registration.go: buildDisconnectPacket]. *)
Definition buildDisconnectPacket (request : Packet) : Packet := control_packet request ProtocolError 2 [].

Definition HandleControlPacketInNetwork (now : Z) (request : Packet) (remoteAddr networkKey : string) (nc : NetworkControl)
    : NetworkControl * result Packet :=
  if AppProto request =? ControlPing then
    match ParsePingPayload (Payload request) with
    | Err e => (nc, Err e)
    | Ok (pingTime, _) =>
        let '(nc, epoch) := TouchClientByIPInNetwork o now networkKey (SrcIP request) nc in
        if epoch =? 0 then (nc, Ok (buildDisconnectPacket request))
        else (nc, Ok (control_packet request ProtocolControl ControlPong (BuildPingPayload pingTime epoch)))
    end
  else if AppProto request =? ControlAddrRequest then
    match BuildAddrPayloadByAddr remoteAddr with
    | Err e => (nc, Err e)
    | Ok payload => (nc, Ok (control_packet request ProtocolControl ControlAddrResponse payload))
    end
  else (nc, Err ("unsupported control protocol: " +:+ dec (AppProto request))).

Definition HandleControlPacket now request remoteAddr nc :=
  HandleControlPacketInNetwork now request remoteAddr (RouteNetworkKey request) nc.

End Punch.
