(* ===== verification/PunchInv.v ===== *)
(** * Correctness of hole punching, client status and control pings. *)
From S2P Require Import Prelude GoString NetIP NetParse Packet Proto ExpireMap Network NetworkInv Gateway Punch.

Implicit Types (nc : NetworkControl).

(** ** Keys *)
Lemma dec_sep_inj (c : ascii) a b a' b' :
  ¬ is_digit c → 0 ≤ a → 0 ≤ a' → dec a +:+ String c (dec b) = dec a' +:+ String c (dec b') → a = a' ∧ b = b'.
Proof.
  intros Hc Ha Ha' E. apply sep_inj_first in E as [?%dec_inj ?%dec_inj]; [done|by apply dec_no_char..].
Qed.

Lemma punchSessionKey_inj s a s' a' :
  0 ≤ s → 0 ≤ s' → punchSessionKey s a = punchSessionKey s' a' → s = s' ∧ a = a'.
Proof. intros ? ? E. apply (dec_sep_inj ":"%char) in E; [done|not_digit|done..]. Qed.

Lemma punchPairKey_sym a b : punchPairKey a b = punchPairKey b a.
Proof.
  unfold punchPairKey. destruct (a <? b) eqn:E1, (b <? a) eqn:E2; bool_prop; try done; try lia.
  by assert (a = b) as -> by lia.
Qed.

(** The pair key identifies the unordered pair. *)
Lemma punchPairKey_inj a b a' b' :
  0 ≤ a → 0 ≤ b → 0 ≤ a' → 0 ≤ b' →
  punchPairKey a b = punchPairKey a' b' → (a = a' ∧ b = b') ∨ (a = b' ∧ b = a').
Proof.
  intros ? ? ? ?. unfold punchPairKey.
  destruct (a <? b), (a' <? b'); intros E; apply (dec_sep_inj "-"%char) in E; try done; try not_digit; tauto.
Qed.

(** ** Backoff *)
Lemma retryBackoff_bounds a : 0 ≤ a →
  0 ≤ retryBackoffDuration a ≤ 30 * second ∧ (0 < a → 2 * second ≤ retryBackoffDuration a).
Proof.
  intros Ha. unfold retryBackoffDuration, second. destruct (a =? 0) eqn:E0; bool_prop; [lia|].
  destruct (5 <? a) eqn:E5; bool_prop.
  - by vm_compute.
  - assert (a = 1 ∨ a = 2 ∨ a = 3 ∨ a = 4 ∨ a = 5) as Hcases by lia.
    destruct Hcases as [->|[->|[->|[->| ->]]]]; by vm_compute.
Qed.

(** ** Deadlines *)
Definition settle (nowUnixMs : Z) (session : PunchSession) : PunchSession :=
  if overdue nowUnixMs session then time_out session else session.

Lemma updateRetry_sessions now pk st nc : PunchSessions (updatePunchRetryState now pk st nc) = PunchSessions nc.
Proof. destruct st; try done; unfold updatePunchRetryState; by destruct (Get _ _ _). Qed.

Lemma updateRetry_networks now pk st nc : VirtualNetwork (updatePunchRetryState now pk st nc) = VirtualNetwork nc.
Proof. destruct st; try done; unfold updatePunchRetryState; by destruct (Get _ _ _). Qed.

Lemma reconcile_one_sessions now ms nc key session :
  data (PunchSessions (reconcile_one now ms nc (key, session)))
  = if overdue ms session then <[key := time_out session]> (data (PunchSessions nc)) else data (PunchSessions nc).
Proof. unfold reconcile_one. destruct (overdue ms session); [|done]. by rewrite updateRetry_sessions. Qed.

Lemma reconcile_fold now ms l nc :
  NoDup l.*1 → (∀ k s, (k, s) ∈ l → data (PunchSessions nc) !! k = Some s) →
  ∀ k, data (PunchSessions (foldl (reconcile_one now ms) nc l)) !! k
       = if bool_decide (k ∈ l.*1) then settle ms <$> data (PunchSessions nc) !! k else data (PunchSessions nc) !! k.
Proof.
  revert nc. induction l as [|[k0 s0] l IH]; intros nc Hnd Hl k.
  { cbn [foldl]. by rewrite bool_decide_eq_false_2 by apply not_elem_of_nil. }
  cbn [fmap list_fmap fst] in Hnd. apply NoDup_cons in Hnd as [Hk0 Hnd]. cbn [foldl].
  assert (Hs0 : data (PunchSessions nc) !! k0 = Some s0) by (apply Hl; constructor).
  assert (Hne : ∀ k', k' ≠ k0 →
    data (PunchSessions (reconcile_one now ms nc (k0, s0))) !! k' = data (PunchSessions nc) !! k').
  { intros k' ?. rewrite reconcile_one_sessions. destruct (overdue ms s0); [|done]. by rewrite lookup_insert_ne. }
  rewrite IH; [|done|].
  2:{ intros k' s' Hin. rewrite Hne; [apply Hl; by constructor|]. intros ->. apply Hk0.
      by apply (list_elem_of_fmap_2' fst _ (k0, s')). }
  destruct (decide (k = k0)) as [->|Hk].
  - rewrite (bool_decide_eq_false_2 (k0 ∈ l.*1)), bool_decide_eq_true_2 by (done || constructor).
    rewrite reconcile_one_sessions, Hs0. simpl. unfold settle. destruct (overdue ms s0); [apply lookup_insert_eq|done].
  - rewrite Hne by done. rewrite (bool_decide_ext (k ∈ ((k0, s0) :: l).*1) (k ∈ l.*1)); [done|].
    cbn [fmap list_fmap fst]. rewrite elem_of_cons. tauto.
Qed.

Lemma settle_not_overdue ms s : overdue ms (settle ms s) = false.
Proof.
  unfold settle. destruct (overdue ms s) eqn:E; [|done]. unfold overdue at 1.
  rewrite bool_decide_eq_false_2; [done|]. change (State (time_out s)) with PunchSessionTimeout. rewrite !elem_of_cons. intros [?|[?|[?|?%not_elem_of_nil]]]; done.
Qed.

(** [ReconcilePunchSessions] times out exactly the sessions that
    are still pending past their deadline (sending them to the relay), leaves every
    other session as it is, and afterwards no pending session is overdue. *)
Theorem Reconcile_spec (o : RangeOrder) (now nowUnixMs : Z) (nc : NetworkControl) :
  let nc' := ReconcilePunchSessions o now nowUnixMs nc in
  data (PunchSessions nc') = settle nowUnixMs <$> data (PunchSessions nc)
  ∧ (∀ k s, data (PunchSessions nc') !! k = Some s → overdue nowUnixMs s = false)
  ∧ VirtualNetwork nc' = VirtualNetwork nc.
Proof.
  cbv zeta. assert (Hd : data (PunchSessions (ReconcilePunchSessions o now nowUnixMs nc))
                         = settle nowUnixMs <$> data (PunchSessions nc)).
  { apply map_eq. intros k. unfold ReconcilePunchSessions.
    rewrite reconcile_fold; [|apply range_NoDup_fst|intros ? ?; by rewrite elem_of_range].
    rewrite lookup_fmap. case_bool_decide as Hin; [done|].
    destruct (data (PunchSessions nc) !! k) as [s|] eqn:E; [|done]. exfalso. apply Hin.
    apply (list_elem_of_fmap_2' fst _ (k, s)); [by apply elem_of_range|done]. }
  split_and!; [done| |].
  - intros k s. rewrite Hd, lookup_fmap. intros (s0 & _ & ->)%fmap_Some. apply settle_not_overdue.
  - unfold ReconcilePunchSessions. generalize (range o (data (PunchSessions nc))). intros l. revert nc Hd.
    assert (Hstep : ∀ nc e, VirtualNetwork (reconcile_one now nowUnixMs nc e) = VirtualNetwork nc).
    { intros nc [k s]. unfold reconcile_one. destruct (overdue nowUnixMs s); [|done]. by rewrite updateRetry_networks. }
    intros nc _. revert nc. induction l as [|e l IH]; intros nc; [done|]. cbn [foldl]. by rewrite IH, Hstep.
Qed.

(** ** The session state machine *)

(** A late acknowledgement undoes a successful punch: a session on
    which both peers have acknowledged and one reported success goes back to
    waiting when another acceptance arrives, and the next deadline check sends the
    pair to the relay. *)
Theorem late_ack_undoes_success (source peer nowUnixMs : Z) (ack : PunchAck) (res : PunchResult) (session : PunchSession) :
  pack_accepted ack = true → source ≠ peer → pres_code res = PunchResultSuccess →
  is_Some (Ack session !! peer) → 0 < DeadlineUnixMs session < nowUnixMs →
  let done := result_session peer res session in
  let late := ack_session source ack done in
  State done = PunchSessionSuccess ∧ RelayFallback done = false
  ∧ State late = PunchSessionWaiting
  ∧ State (settle nowUnixMs late) = PunchSessionTimeout ∧ RelayFallback (settle nowUnixMs late) = true.
Proof.
  intros Hacc Hne Hcode [b Hpeer] Hd. cbv zeta.
  assert (Hdone : result_session peer res session
    = session <| Results := <[peer := res]> (Results session) |> <| LastReason := pres_reason res |>
              <| State := PunchSessionSuccess |> <| RelayFallback := false |>).
  { unfold result_session. by rewrite Hcode. }
  assert (Hlate : State (ack_session source ack (result_session peer res session)) = PunchSessionWaiting
                  ∧ DeadlineUnixMs (ack_session source ack (result_session peer res session)) = DeadlineUnixMs session).
  { rewrite Hdone. unfold ack_session. rewrite Hacc. cbn [negb]. cbv zeta.
    destruct (2 <=? _)%nat eqn:Hsz; [done|]. apply Nat.leb_gt in Hsz. simpl in Hsz. unfold const in Hsz.
    assert (Hs : ({[source; peer]} : gset Z) ⊆ dom (<[source := true]> (Ack session))).
    { intros x [->%elem_of_singleton| ->%elem_of_singleton]%elem_of_union; apply elem_of_dom.
      - rewrite lookup_insert_eq. by eexists.
      - rewrite lookup_insert_ne by done. by eexists. }
    apply subseteq_size in Hs. rewrite size_dom, size_union, !size_singleton in Hs; [lia|].
    intros x ->%elem_of_singleton ?%elem_of_singleton. done. }
  destruct Hlate as [Hs1 Hs2].
  assert (Hov : overdue nowUnixMs (ack_session source ack (result_session peer res session)) = true).
  { unfold overdue. rewrite Hs1, Hs2. rewrite bool_decide_eq_true_2 by (by right; right; left).
    rewrite (proj2 (Z.ltb_lt _ _)) by lia. by rewrite (proj2 (Z.ltb_lt _ _)) by lia. }
  split_and!; [by rewrite Hdone..|done| |]; unfold settle; by rewrite Hov.
Qed.

(** ** Starting punches *)
Section Start.
Context `{ProtoMessage ClientStatusInfoMsg} `{ProtoMessage PunchStart}.

(** What the tables must say for a punch of the pair to start at [now]. *)
Definition pair_ready (now : Z) (manual : bool) (pairKey : string) (nc : NetworkControl) : Prop :=
  manual = true ∨
  live now (PunchPairCooldown nc) pairKey = None
  ∧ ∀ st, live now (PunchPairRetry nc) pairKey = Some st →
      RetryAttempt st < maxPunchAttemptsPerPair ∧ NextAllowedUnixMs st ≤ unix_milli now.

Lemma pair_retry_spec now manual pk nc nc' retry :
  pair_retry now manual pk nc = (nc', retry) →
  VirtualNetwork nc' = VirtualNetwork nc ∧ PunchPairCooldown nc' = PunchPairCooldown nc
  ∧ ∀ st, retry = Some st →
      (manual = true ∧ st = None)
      ∨ manual = false ∧ st = live now (PunchPairRetry nc) pk
        ∧ ∀ x, st = Some x → RetryAttempt x < maxPunchAttemptsPerPair ∧ NextAllowedUnixMs x ≤ unix_milli now.
Proof.
  unfold pair_retry. destruct (Get_live now pk (PunchPairRetry nc)) as [Hv _].
  destruct (Get now pk (PunchPairRetry nc)) as [v retries]. cbn [fst] in Hv. subst v.
  destruct manual; [intros [= <- <-]; split_and!; try done; intros st [= <-]; by left|].
  destruct (live now (PunchPairRetry nc) pk) as [st|].
  - destruct (_ <=? _) eqn:E1; [intros [= <- <-]; by split_and!|].
    destruct (unix_milli now <? _) eqn:E2; intros [= <- <-]; split_and!; try done. bool_prop.
    intros st' [= <-]. right. split_and!; try done. intros x [= <-]. done.
  - intros [= <- <-]. split_and!; try done. intros st [= <-]. right. by split_and!.
Qed.

Lemma punch_target_start now sid request key trig rec src srcC tgt tgtC nc nc' session packets :
  punch_target now sid request key trig rec src srcC tgt tgtC nc = (nc', TargetStart session packets) →
  target_wanted trig rec src srcC tgt tgtC = true
  ∧ pair_ready now (trig =? PunchTriggerManualRequest) (punchPairKey src tgt) nc
  ∧ Source session = src ∧ Target session = tgt ∧ State session = PunchSessionScheduled
  ∧ AttemptBudget session = maxPunchAttemptsPerPair
  ∧ (Attempt session = 1 ∨ ∃ st, live now (PunchPairRetry nc) (punchPairKey src tgt) = Some st
       ∧ RetryAttempt st < maxPunchAttemptsPerPair ∧ Attempt session = u32 (RetryAttempt st + 1))
  ∧ (∃ cd, ttl cd = ttl (PunchPairCooldown nc) ∧ PunchPairCooldown nc' = Set_ now (punchPairKey src tgt) tt cd)
  ∧ Forall (λ p, AppProto p = AppProtoPunchStart ∧ RouteNetworkKey p = key
       ∧ (DstIP p = Uint32ToIP src ∨ DstIP p = Uint32ToIP tgt)) packets.
Proof.
  unfold punch_target. destruct (target_wanted _ _ _ _ _ _) eqn:Hw; cbn [negb]; [|done]. cbv zeta.
  set (manual := trig =? PunchTriggerManualRequest). set (pk := punchPairKey src tgt).
  destruct (if manual then (false, nc) else _) as [cooling nc1] eqn:Hcool.
  assert (Hc : VirtualNetwork nc1 = VirtualNetwork nc ∧ PunchPairRetry nc1 = PunchPairRetry nc
    ∧ ttl (PunchPairCooldown nc1) = ttl (PunchPairCooldown nc)
    ∧ (cooling = false → manual = true ∨ live now (PunchPairCooldown nc) pk = None)).
  { destruct manual; [injection Hcool as <- <-; split_and!; auto|].
    destruct (Get_live now pk (PunchPairCooldown nc)) as [Hv [Httl _]].
    destruct (Get now pk (PunchPairCooldown nc)) as [v cd]. cbn [fst snd] in Hv, Httl. subst v.
    injection Hcool as <- <-. split_and!; try done. intros Hf%bool_decide_eq_false. right. by apply eq_None_not_Some. }
  destruct Hc as (Hn1 & Hr1 & Ht1 & Hcold). destruct cooling; [done|].
  destruct (pair_retry now manual pk nc1) as [nc2 retry] eqn:Hpr.
  apply pair_retry_spec in Hpr as (Hn2 & Hcd2 & Hretry). destruct retry as [retry|]; [|done].
  specialize (Hretry retry eq_refl). rewrite Hr1 in Hretry.
  destruct (_ || _); [done|].
  destruct (if manual then _ else (true, nc2)) as [claimed nc3] eqn:Hcl.
  assert (H3 : PunchPairCooldown nc3 = PunchPairCooldown nc2).
  { destruct manual; [|by injection Hcl as <- <-]. destruct (TrySetIfAbsent _ _ _ _) as [ok dd].
    by injection Hcl as <- <-. }
  destruct claimed; cbn [negb]; [|done].
  destruct (proto_marshal _) as [sp|]; [|done]. destruct (proto_marshal _) as [tp|]; [|done].
  intros [= <- <- <-]. cbn [Source Target State AttemptBudget Attempt].
  split_and!; try done.
  - destruct (Hcold eq_refl) as [->|Hlive]; [by left|].
    destruct Hretry as [[-> _]|(_ & -> & Hst)]; [by left|right]. split; [done|exact Hst].
  - destruct Hretry as [[_ ->]|(_ & -> & Hst)]; [by left|].
    destruct (live now (PunchPairRetry nc) pk) as [st|]; [right|by left].
    exists st. destruct (Hst st eq_refl). done.
  - exists (PunchPairCooldown nc3). split; [|done]. by rewrite H3, Hcd2, Ht1.
  - apply Forall_cons; split; [split_and!; [done|done|by left]|].
    apply Forall_cons; split; [split_and!; [done|done|by right]|constructor].
Qed.

(** After a punch of a pair is started, no report of either peer
    starts another one for the pair during the cooldown, unless it asks for it
    manually. *)
Theorem punch_cooldown_blocks (now sid : Z) (request : Packet) (key : string) (trig rec src : Z) (srcC : ClientInfo)
    (tgt : Z) (tgtC : ClientInfo) (nc nc1 : NetworkControl) (session : PunchSession) (packets : list Packet)
    (now' sid' : Z) (request' : Packet) (key' : string) (trig' rec' a b : Z) (ca cb : ClientInfo) :
  punch_target now sid request key trig rec src srcC tgt tgtC nc = (nc1, TargetStart session packets) →
  0 ≤ now → 0 < ttl (PunchPairCooldown nc) → now' ≤ now + ttl (PunchPairCooldown nc) →
  trig' ≠ PunchTriggerManualRequest → (a = src ∧ b = tgt) ∨ (a = tgt ∧ b = src) →
  ∀ s p, (punch_target now' sid' request' key' trig' rec' a ca b cb nc1).2 ≠ TargetStart s p.
Proof.
  intros E Hnow Httl Hle Htrig Hab s p E'.
  apply punch_target_start in E as (_ & _ & _ & _ & _ & _ & _ & (cd & Hcd & Hset) & _).
  destruct (punch_target now' _ _ _ _ _ a ca b cb nc1) as [nc2 oc] eqn:E2. cbn [snd] in E'. subst oc.
  apply punch_target_start in E2 as (_ & Hready & _).
  assert (Hpk : punchPairKey a b = punchPairKey src tgt).
  { destruct Hab as [[-> ->]|[-> ->]]; [done|apply punchPairKey_sym]. }
  destruct Hready as [Hm|[Hlive _]]; [by apply Z.eqb_eq in Hm|].
  rewrite Hset, Hpk, live_Set, decide_True in Hlive by done.
  rewrite Hcd, (proj2 (Z.ltb_ge (now + ttl (PunchPairCooldown nc)) now')), andb_false_r in Hlive by lia. done.
Qed.

(** The attempts of a pair stay within the budget. *)
Lemma start_within_budget now sid request key trig rec src srcC tgt tgtC nc nc' session packets :
  punch_target now sid request key trig rec src srcC tgt tgtC nc = (nc', TargetStart session packets) →
  (∀ st, live now (PunchPairRetry nc) (punchPairKey src tgt) = Some st → 0 ≤ RetryAttempt st) →
  1 ≤ Attempt session ≤ AttemptBudget session.
Proof.
  intros (_ & _ & _ & _ & _ & -> & Ha & _)%punch_target_start Hpos. unfold maxPunchAttemptsPerPair in *.
  destruct Ha as [->|(st & Hst & Hlt & ->)]; [lia|]. specialize (Hpos st Hst).
  unfold u32. rewrite Z.mod_small by lia. lia.
Qed.

(** A packet of a legitimate punch: it goes to one of two different clients of
    the network it is routed in, both online, neither asking for the relay. *)
Definition legit (nc : NetworkControl) (src : Z) (p : Packet) : Prop :=
  ∃ network tgt srcC tgtC, networks nc !! RouteNetworkKey p = Some network
    ∧ Clients network !! src = Some srcC ∧ Clients network !! tgt = Some tgtC ∧ tgt ≠ src
    ∧ ControlOnline srcC = true ∧ ControlOnline tgtC = true ∧ clientsPreferRelay srcC tgtC = false
    ∧ AppProto p = AppProtoPunchStart ∧ (DstIP p = Uint32ToIP src ∨ DstIP p = Uint32ToIP tgt).

Lemma target_wanted_spec trig rec src srcC tgt tgtC :
  target_wanted trig rec src srcC tgt tgtC = true →
  tgt ≠ src ∧ ControlOnline tgtC = true ∧ clientsPreferRelay srcC tgtC = false ∧ trig ≠ StatusReportOnly.
Proof.
  unfold target_wanted. destruct (_ || _ || _) eqn:Hb; [done|]. bool_prop.
  destruct (negb _ && _); [done|]. destruct (trig =? StatusReportOnly) eqn:Hs; [done|]. bool_prop.
  unfold shouldSuppressPunchStartForStatusUpdate, shouldSuppressPunchStartForOtherTrigger.
  destruct (clientsPreferRelay srcC tgtC), (trig =? PunchTriggerStatusUpdate); done.
Qed.

Lemma visit_until_inv {A S} (visit : A → S → S * bool) (I : S → Prop) l s :
  (∀ a s, a ∈ l → I s → I (visit a s).1) → I s → I (visit_until visit l s).
Proof.
  revert s. induction l as [|a l IH]; intros s Hv Hs; [done|]. cbn [visit_until].
  pose proof (Hv a s ltac:(constructor) Hs) as Ha. destruct (visit a s) as [s' []]; [|done].
  apply IH; [|done]. intros; apply Hv; [by constructor|done].
Qed.

Lemma forEachRead_inv {S} o nc nk (visit : string → NetworkInfo → S → S * bool) (I : S → Prop) s :
  (∀ key network s, networks nc !! key = Some network → I s → I (visit key network s).1) → I s →
  I (forEachVirtualNetworkRead o nc nk visit s).
Proof.
  intros Hv Hs. unfold forEachVirtualNetworkRead. apply visit_until_inv; [|done].
  intros [key network] s' Hin%elem_of_range Hs'. destruct (_ && _); [done|]. by apply Hv.
Qed.

Lemma punch_targets_legit now clock request key trig rec src srcC targets packets nc nc0 network :
  networks nc0 !! key = Some network → Clients network !! src = Some srcC → ControlOnline srcC = true →
  (∀ tgt tgtC, (tgt, tgtC) ∈ targets → Clients network !! tgt = Some tgtC) →
  Forall (legit nc0 src) packets →
  match (punch_targets now clock request key trig rec src srcC targets packets nc).1.2 with
  | Ok packets' => Forall (legit nc0 src) packets'
  | Err _ => True
  end.
Proof.
  intros Hn Hs Hon. revert packets nc. induction targets as [|[tgt tgtC] targets IH]; intros packets nc Ht Hp; [done|].
  cbn [punch_targets].
  destruct (punch_target _ _ _ _ _ _ _ _ _ _ _) as [nc1 [|session new|e]] eqn:E; [|..|done].
  { apply IH; [|done]. intros; apply Ht; by constructor. }
  apply punch_target_start in E as (Hw & _ & _ & _ & _ & _ & _ & _ & Hnew).
  apply target_wanted_spec in Hw as (Hne & Hont & Hrel & _).
  assert (Hall : Forall (legit nc0 src) (packets ++ new)).
  { apply Forall_app. split; [done|]. eapply Forall_impl; [exact Hnew|]. intros p (Ha & Hk & Hd).
    exists network, tgt, srcC, tgtC. rewrite Hk. split_and!; try done. apply Ht. constructor. }
  destruct (_ || _); [done|]. apply IH; [|done]. intros; apply Ht; by constructor.
Qed.

(** C37 (safety). Every punch instruction sent because of a status report goes to
    one of two distinct clients of one network that are both online and of which
    neither prefers the relay, one of them the reporter. *)
Theorem punch_starts_legit (o o' : RangeOrder) (now : Z) (clock : Z → Z) (request : Packet) (networkKey : string)
    (nc nc' : NetworkControl) (packets : list Packet) :
  BuildPunchStartPacketsFromStatusInNetwork o o' now clock request networkKey nc = (nc', Ok packets) →
  Forall (legit nc (IpToUint32 (SrcIP request))) packets.
Proof.
  unfold BuildPunchStartPacketsFromStatusInNetwork. cbv zeta. intros E.
  enough (match (nc', Ok packets : result (list Packet)).2 with
          | Ok ps => Forall (legit nc (IpToUint32 (SrcIP request))) ps | Err _ => True end) by done.
  rewrite <-E. clear E packets nc'.
  apply (forEachRead_inv o nc networkKey _ (λ s : NetworkControl * result (list Packet),
    match s.2 with Ok ps => Forall (legit nc (IpToUint32 (SrcIP request))) ps | Err _ => True end)); [|constructor].
  intros key network [nc1 [ps|e]] Hn Hps; [|done]. cbn [snd] in Hps.
  destruct (Clients network !! IpToUint32 (SrcIP request)) as [srcC|] eqn:Hs; [|done].
  destruct (ControlOnline srcC) eqn:Hon; [|done]. destruct (ClientStatus srcC) as [st|]; [|done].
  eapply punch_targets_legit; [done..| |done]. intros tgt tgtC. by rewrite elem_of_range.
Qed.

End Start.

(** ** Status reports and pings *)

(** Updating the client with address [ip] in one named network. *)
Lemma update_first_named {R} o nc key n (ip : Z) (f : NetworkInfo → option (NetworkInfo * R)) :
  TrimSpace key ≠ "" → networks nc !! key = Some n →
  update_first key f (range o (networks nc)) nc
  = match f n with Some (n', r) => (set_network key n' nc, Some r) | None => (nc, None) end.
Proof.
  intros Hkey Hn. pose proof (update_first_spec key f (range o (networks nc)) nc) as Hu.
  destruct (update_first key f (range o (networks nc)) nc) as [nc' [r|]].
  - destruct Hu as (k & n0 & n' & Hin%elem_of_range & [?| ->] & Hf & ->); [done|].
    assert (n0 = n) as -> by congruence. by rewrite Hf.
  - destruct Hu as [-> Hnone]. rewrite (Hnone key n); [done|by apply elem_of_range|by right].
Qed.

(** A ping of a registered client is answered with a pong that
    echoes its time and carries the low 16 bits of the network's epoch; an unknown
    client is told to disconnect, and so is a registered one whenever those 16 bits
    are zero. *)
Theorem ping_reply (o : RangeOrder) (now : Z) (request : Packet) (remoteAddr key : string) (nc : NetworkControl)
    (n : NetworkInfo) (time rest : Z) :
  TrimSpace key ≠ "" → networks nc !! key = Some n →
  AppProto request = ControlPing → ParsePingPayload (Payload request) = Ok (time, rest) →
  (HandleControlPacketInNetwork o now request remoteAddr key nc).2 = Ok
    (match Clients n !! IpToUint32 (SrcIP request) with
     | Some _ =>
         if u16 (Epoch n) =? 0 then buildDisconnectPacket request
         else control_packet request ProtocolControl ControlPong (BuildPingPayload time (u16 (Epoch n)))
     | None => buildDisconnectPacket request
     end).
Proof.
  intros Hkey Hn Happ Hping. unfold HandleControlPacketInNetwork. rewrite Happ, Hping. cbn [ControlPing Z.eqb].
  change (ControlPing =? ControlPing) with true. cbv iota. unfold TouchClientByIPInNetwork.
  rewrite (update_first_named o nc key n (IpToUint32 (SrcIP request))) by done.
  destruct (Clients n !! IpToUint32 (SrcIP request)) as [c|]; [|done]. simpl.
  by destruct (u16 (Epoch n) =? 0).
Qed.

(** A status report of a registered client updates exactly that
    client (online, reachability, endpoints, preferred channel), keeps the table
    well formed, and asks for peers to be informed exactly when the preferred
    channel or the exit-node flags changed or no status was known; a report of an
    unregistered client is refused and changes nothing. *)
Theorem status_report_spec `{ProtoMessage ClientStatusInfoMsg} (o : RangeOrder) (now : Z) (request : Packet)
    (key : string) (nc : NetworkControl) (n : NetworkInfo) (status : ClientStatusInfoMsg) :
  TrimSpace key ≠ "" → networks nc !! key = Some n → wf_networks nc →
  proto_unmarshal (Payload request) = Ok status →
  (cs_source status = 0 ∨ cs_source status = IpToUint32 (SrcIP request)) →
  let '(nc', r) := HandleClientStatusInfoPacketInNetwork o now request key nc in
  match Clients n !! IpToUint32 (SrcIP request) with
  | None => nc' = nc ∧ ∃ e, r = Err e
  | Some c =>
      wf_networks nc' ∧ r = Ok (apply_status now status c).2
      ∧ networks nc' = <[key := UpsertClient (IpToUint32 (SrcIP request)) (apply_status now status c).1 n]> (networks nc)
  end.
Proof.
  intros Hkey Hn Hwf Hun Hsrc. unfold HandleClientStatusInfoPacketInNetwork. rewrite Hun. cbv zeta.
  replace (negb (cs_source status =? 0) && negb (cs_source status =? IpToUint32 (SrcIP request))) with false.
  2:{ destruct Hsrc as [->| ->]; [done|]. by rewrite Z.eqb_refl, andb_false_r. }
  rewrite (update_first_named o nc key n (IpToUint32 (SrcIP request))) by done.
  destruct (Clients n !! IpToUint32 (SrcIP request)) as [c|] eqn:Hc; simpl; [|by eauto].
  split_and!; [|done..]. intros k m Hm.
  change (<[key := UpsertClient (IpToUint32 (SrcIP request)) (apply_status now status c).1 n]> (networks nc) !! k
          = Some m) in Hm.
  apply lookup_insert_Some in Hm as [[<- <-]|[_ Hm]]; [|by apply (Hwf k)].
  by eapply wf_UpsertClient_same; [eapply Hwf| |].
Qed.

(** ** Two clients of a concrete network *)
Module SamplePunch.
Definition codec {M} : ProtoMessage M := {| proto_marshal := λ _, Ok []; proto_unmarshal := λ _, Err "bad message" |}.
Definition status : ClientStatusInfo :=
  {| P2PList := []; PublicUDPEndpoints := [{| udp_ip := [x01; x02; x03; x04]; udp_port := 4000 |}];
     LocalUDPEndpoints := []; UpStream := 0; DownStream := 0; IsCone := true;
     PunchTriggerReason := "PunchTriggerStatusUpdate"; RecoveryPunchTarget := 0; UpdateTime := 0;
     ExitNodeAdvertised := false; ExitNodeLocalReady := false |}.
Definition client (dev : string) : ClientInfo :=
  zeroClientInfo <| DeviceId := dev |> <| ControlOnline := true |> <| ClientStatus := Some status |>.
Definition net : NetworkInfo :=
  UpsertClient 167772163 (client "b") (UpsertClient 167772162 (client "a")
    (NewNetworkInfo "g" [xff; xff; xff; x00] [x0a; x00; x00; x01] ∅)).
Definition nc : NetworkControl :=
  mkNetworkControl (mkExpireMap {["g" := net]} ∅ 0) (NewExpireMap 5) (NewExpireMap 0) (NewExpireMap 100)
    (NewExpireMap (20 * second)) (NewExpireMap 3) (NewExpireMap 100).
Definition request : Packet :=
  {| Ver := V3; Proto := ProtocolControl; AppProto := ControlPing; SourceTTL := 15; TTL := 15;
     SrcIP := [x0a; x00; x00; x02]; DstIP := [x0a; x00; x00; x01]; Payload := [x00; x07; x00; x00]; RouteNetworkKey := "g" |}.
Definition session : PunchSession :=
  mkPunchSession 1 2 3 1 3 100 "" "" PunchSessionWaiting 0 "" false {[2 := true; 3 := true]} ∅.
Definition ack : PunchAck :=
  {| pack_session_id := 1; pack_source := 3; pack_attempt := 1; pack_accepted := true; pack_reason := ""; pack_phase := 2 |}.
Definition success : PunchResult :=
  {| pres_session_id := 1; pres_source := 2; pres_target := 3; pres_attempt := 1; pres_code := PunchResultSuccess;
     pres_reason := ""; pres_selected_endpoint := None; pres_phase := 4 |}.
Definition report : ClientStatusInfoMsg :=
  {| cs_source := 0; cs_p2p_list := []; cs_up_stream := 0; cs_down_stream := 0; cs_nat_type := 1;
     cs_public_udp_endpoints := []; cs_punch_trigger_reason := 1; cs_local_udp_endpoints := [];
     cs_preferred_channel_mode := 2; cs_exit_node_advertised := false; cs_exit_node_local_ready := false;
     cs_recovery_punch_target := 0 |}.
Definition report_codec : ProtoMessage ClientStatusInfoMsg :=
  {| proto_marshal := λ _, Ok []; proto_unmarshal := λ _, Ok report |}.
Definition start now src tgt nc :=
  @punch_target codec now 7 request "g" PunchTriggerStatusUpdate 0 src (client "a") tgt (client "b") nc.

Lemma punch_nc_wf : wf_networks nc.
Proof.
  intros key n Hn. change (({["g" := net]} : gmap string NetworkInfo) !! key = Some n) in Hn.
  apply lookup_singleton_Some in Hn as [<- <-].
  apply wf_UpsertClient; [apply wf_UpsertClient; [apply wf_NewNetworkInfo; by vm_compute| |]| |].
  - split; [split; by vm_compute|by vm_compute].
  - intros ip'. simpl. by rewrite lookup_empty.
  - split; [split; by vm_compute|by vm_compute].
  - intros ip' Hi. vm_compute in Hi. discriminate Hi.
Qed.
End SamplePunch.

Lemma late_ack_undoes_success_witness :
  State (ack_session 3 SamplePunch.ack (result_session 2 SamplePunch.success SamplePunch.session)) = PunchSessionWaiting.
Proof.
  apply (late_ack_undoes_success 3 2 200 SamplePunch.ack SamplePunch.success SamplePunch.session);
    [done|done|done|by eexists|by vm_compute].
Defined.

Lemma punch_cooldown_blocks_witness :
  match (SamplePunch.start (5 * second) 167772163 167772162 (SamplePunch.start 0 167772162 167772163 SamplePunch.nc).1).2 with
  | TargetStart _ _ => False | _ => True end.
Proof.
  assert (Hs : match (SamplePunch.start 0 167772162 167772163 SamplePunch.nc).2 with
               | TargetStart _ _ => True | _ => False end) by (vm_compute; exact I).
  destruct (SamplePunch.start 0 167772162 167772163 SamplePunch.nc) as [nc1 [|session packets|e]] eqn:E; try (by destruct Hs).
  cbn [fst]. destruct (SamplePunch.start (5 * second) 167772163 167772162 nc1).2 as [|s p|e] eqn:E2; [exact I| |exact I].
  eapply (@punch_cooldown_blocks SamplePunch.codec _ _ _ _ _ _ _ _ _ _ _ _ _ _ (5 * second) 7 SamplePunch.request "g"
    PunchTriggerStatusUpdate 0 167772163 167772162 (SamplePunch.client "a") (SamplePunch.client "b") E);
    [by vm_compute|by vm_compute|by vm_compute|by vm_compute|by right|exact E2].
Defined.

Lemma punch_starts_legit_witness :
  ∃ packets, length packets = 2%nat ∧ Forall (legit SamplePunch.nc 167772162) packets.
Proof.
  assert (Hs : match (@BuildPunchStartPacketsFromStatusInNetwork SamplePunch.codec ascending ascending 0 (λ _, 7)
                 SamplePunch.request "g" SamplePunch.nc).2 with Ok ps => length ps = 2%nat | Err _ => False end)
    by (vm_compute; reflexivity).
  destruct (@BuildPunchStartPacketsFromStatusInNetwork SamplePunch.codec ascending ascending 0 (λ _, 7)
                 SamplePunch.request "g" SamplePunch.nc) as [nc' [packets|e]] eqn:E; [|by destruct Hs].
  exists packets. split; [exact Hs|]. apply punch_starts_legit in E. exact E.
Defined.

Lemma ping_reply_witness :
  (HandleControlPacketInNetwork ascending 1 SamplePunch.request "" "g" SamplePunch.nc).2
  = Ok (buildDisconnectPacket SamplePunch.request).
Proof.
  rewrite (ping_reply ascending 1 SamplePunch.request "" "g" SamplePunch.nc SamplePunch.net 7 0);
    [by vm_compute|by vm_compute|by vm_compute|by vm_compute|by vm_compute].
Defined.

Lemma status_report_spec_witness :
  wf_networks (@HandleClientStatusInfoPacketInNetwork SamplePunch.report_codec ascending 1 SamplePunch.request "g" SamplePunch.nc).1.
Proof.
  pose proof (@status_report_spec SamplePunch.report_codec ascending 1 SamplePunch.request "g" SamplePunch.nc SamplePunch.net
    SamplePunch.report ltac:(by vm_compute) ltac:(by vm_compute) SamplePunch.punch_nc_wf ltac:(by vm_compute) ltac:(by left)) as Hs.
  destruct (HandleClientStatusInfoPacketInNetwork _ _ _ _ _) as [nc' r]. cbn [fst].
  destruct (Clients SamplePunch.net !! IpToUint32 (SrcIP SamplePunch.request)) as [c|] eqn:Hc.
  - apply Hs.
  - vm_compute in Hc. discriminate Hc.
Defined.
