(* ===== verification/Dns.v ===== *)
(** * Name service: [control/dns.go], [control/dns_proxy.go] and the reserved
    service addresses of [control/controller.go].

    The client profile is computed from the configuration, the snapshot from the
    configuration, the client tables and the gateways.  Parameters: the digest
    [sha256] and the exchange with the name server [dial] (its reply or the error
    text). *)
From S2P Require Import Prelude GoString GoText NetIP NetParse Packet Proto ExpireMap Network UserManager Config Gateway.

(** ** String lists *)
Definition cloneStrings (values : list string) : list string :=
  omap (λ value, let value := TrimSpace value in if bool_decide (value = "") then None else Some value) values.

Definition firstNonEmptyStrings (primary fallback : list string) : list string :=
  if bool_decide (primary = []) then cloneStrings fallback else cloneStrings primary.

Section Dns.
Context `{UnicodeFold} `{UnicodeLower}.
Context (o : RangeOrder).

(** One value of the loop: [seen] and [out] always hold the same values. *)
Definition normalize_step (lower : bool) (out : list string) (value : string) : list string :=
  let value := TrimSpace value in
  let value := if lower then ToLower value else value in
  if bool_decide (value = "") then out else if bool_decide (value ∈ out) then out else out ++ [value].

Definition normalizeDNSStrings (values : list string) (lower : bool) : list string :=
  sort_Strings (foldl (normalize_step lower) [] values).

Definition ensureGroupQualifiedMatchDomains (domains : list string) (groupName domainName : string) : list string :=
  let groupName := ToLower (TrimSpace groupName) in
  let domainName := ToLower (TrimSpace domainName) in
  if bool_decide (groupName = "") || bool_decide (domainName = "") then cloneStrings domains else
  let qualified := groupName +:+ "." +:+ domainName in
  let out := cloneStrings domains in
  if existsb (λ domain, EqualFold (TrimSpace domain) qualified) out then out else out ++ [qualified].

(** ** Reserved service addresses *)
Definition first_set (a b : string) : string := if bool_decide (TrimSpace a ≠ "") then TrimSpace a else TrimSpace b.

Definition zeroGroupConfig : GroupConfig := mkGroupConfig [] "" "" [] [].

Definition resolveDNSServiceIP (cfg : Config) (group : string) : string :=
  let group := ToLower (TrimSpace group) in
  if negb (bool_decide (cfg_Domains cfg = ∅)) then
    match matchDomainAndGroup o group (cfg_Domains cfg) with
    | None => ""
    | Some (domainName, groupName) =>
        first_set (gc_DNSServiceIP (default zeroGroupConfig (group_config cfg domainName groupName))) (cfg_DNSServiceIP cfg)
    end
  else if negb (bool_decide (cfg_Groups cfg = ∅)) then
    match cfg_Groups cfg !! group with
    | None => ""
    | Some gc => first_set (gc_DNSServiceIP gc) (cfg_DNSServiceIP cfg)
    end
  else TrimSpace (cfg_DNSServiceIP cfg).

Definition reservedServiceIPs (cfg : Config) (group : string) : gmap Z string :=
  let ip := TrimSpace (resolveDNSServiceIP cfg group) in
  if bool_decide (ip = "") then ∅ else
  let parsed := ParseIP ip in
  if bool_decide (parsed ≠ []) && bool_decide (To4 parsed ≠ [])
  then {[ IpToUint32 parsed := "dns_service_ip" ]} else ∅.

(** ** The client profile *)

(** The servers when none are configured: the service address, else the gateway. *)
Definition default_servers (cfg : Config) (token : string) (gateway : IP) (servers : list string) : list string :=
  if negb (bool_decide (servers = [])) then servers else
  let serviceIP := resolveDNSServiceIP cfg token in
  if bool_decide (serviceIP ≠ "") then [serviceIP]
  else if bool_decide (gateway ≠ []) then [IP_String gateway] else servers.

Definition default_domains (domains : list string) (fallback : string) : list string :=
  if bool_decide (domains = []) then [fallback] else domains.

(** The servers and match domains before normalisation. *)
Definition profile_strings (cfg : Config) (token : string) : option (list string * list string) :=
  if negb (bool_decide (cfg_Domains cfg = ∅)) then
    '(domainName, groupName) ← matchDomainAndGroup o token (cfg_Domains cfg);
    let gc := default zeroGroupConfig (group_config cfg domainName groupName) in
    Some (default_servers cfg token (gc_Gateway gc) (firstNonEmptyStrings (gc_DNSServers gc) (cfg_DNSServers cfg)),
          ensureGroupQualifiedMatchDomains
            (default_domains (firstNonEmptyStrings (gc_DNSMatchDomains gc) (cfg_DNSMatchDomains cfg)) domainName)
            groupName domainName)
  else if negb (bool_decide (cfg_Groups cfg = ∅)) then
    gc ← cfg_Groups cfg !! token;
    Some (default_servers cfg token (gc_Gateway gc) (firstNonEmptyStrings (gc_DNSServers gc) (cfg_DNSServers cfg)),
          default_domains (firstNonEmptyStrings (gc_DNSMatchDomains gc) (cfg_DNSMatchDomains cfg)) token)
  else
    let domainName := ToLower (TrimSpace (EffectiveDefaultDomain o cfg)) in
    if bool_decide (domainName = "") then None else
    Some (default_servers cfg token (cfg_Gateway cfg) (cloneStrings (cfg_DNSServers cfg)),
          default_domains (cloneStrings (cfg_DNSMatchDomains cfg)) domainName).

Definition BuildClientDNSProfile (cfg : Config) (token : string) : option DnsProfile :=
  let token := ToLower (TrimSpace token) in
  if bool_decide (token = "") then None else
  '(servers, matchDomains) ← profile_strings cfg token;
  let servers := normalizeDNSStrings servers false in
  let matchDomains := normalizeDNSStrings matchDomains true in
  if bool_decide (servers = []) || bool_decide (matchDomains = []) then None
  else Some {| dns_servers := servers; dns_match_domains := matchDomains |}.

(** ** Snapshots *)
Record DNSNetworkView := { nv_Group : string; nv_GatewayIP : string; nv_Netmask : string }.

Record DNSRecordView := {
  rv_FQDN : string; rv_ShortName : string; rv_DeviceID : string; rv_Group : string; rv_VirtualIP : string;
  rv_ControlOnline : bool; rv_DataPlaneReachable : bool; rv_UpdatedAtUnix : Z
}.

Record DNSGatewayView := { dgv_GatewayID : string; dgv_Endpoint : string; dgv_Default : bool; dgv_Alive : bool }.

Record DNSSnapshotView := mkDNSSnapshotView {
  sv_Domain : string;
  sv_GroupFilter : string;
  sv_Epoch : Z;
  sv_DefaultTTLSeconds : Z;
  sv_RefreshAfterSec : Z;
  sv_PrimaryNS : string;
  sv_AdminMailbox : string;
  sv_Networks : list DNSNetworkView;
  sv_Records : list DNSRecordView;
  sv_Gateways : list DNSGatewayView
}.

Record dnsGroupScope := mkdnsGroupScope {
  shortName : string; runtimeGroup : string; gs_gatewayIP : string; gs_netmask : string; includeGroupLabel : bool
}.

Definition implicitDNSGroupName : string := "default".
Definition defaultDNSTTLSeconds : Z := 30.
Definition defaultDNSRefreshAfter : Z := 15.

Definition ListDNSDomains (cfg : Config) : list string :=
  sort_Strings (omap (λ domain, let domain := ToLower (TrimSpace domain) in
      if bool_decide (domain = "") then None else Some domain) (range o (cfg_Domains cfg)).*1).

Definition buildDNSGroupScopes (cfg : Config) (domain group : string) : result (list dnsGroupScope) :=
  if negb (bool_decide (cfg_Domains cfg = ∅)) then
    match cfg_Domains cfg !! domain with
    | None => Err ("domain " +:+ domain +:+ " not configured")
    | Some dc =>
        if bool_decide (group ≠ "") then
          match dc_Groups dc !! group with
          | None => Err ("group " +:+ group +:+ " not configured under domain " +:+ domain)
          | Some gc => Ok [mkdnsGroupScope group (group +:+ "." +:+ domain) (IP_String (gc_Gateway gc)) (gc_Netmask gc) true]
          end
        else Ok ((λ '(groupName, gc),
            let name := ToLower (TrimSpace groupName) in
            mkdnsGroupScope name (name +:+ "." +:+ domain) (IP_String (gc_Gateway gc)) (gc_Netmask gc) true)
          <$> range o (dc_Groups dc))
    end
  else
    let configured := ToLower (TrimSpace (cfg_Domain cfg)) in
    if bool_decide (configured = "") then Err "dns snapshot is unsupported for current control config" else
    if bool_decide (domain ≠ configured) then Err ("domain " +:+ domain +:+ " not configured") else
    if bool_decide (group ≠ "") && bool_decide (group ≠ implicitDNSGroupName)
    then Err ("group " +:+ group +:+ " not configured under domain " +:+ domain)
    else Ok [mkdnsGroupScope implicitDNSGroupName configured (IP_String (cfg_Gateway cfg)) (cfg_Netmask cfg) false].

Definition buildDNSFQDN (short group domain : string) (includeGroup : bool) : string :=
  let short := ToLower (TrimSpace short) in
  let group := ToLower (TrimSpace group) in
  let domain := ToLower (TrimSpace domain) in
  if includeGroup && bool_decide (group ≠ "") then short +:+ "." +:+ group +:+ "." +:+ domain
  else short +:+ "." +:+ domain.

(** The latest of the three times kept for a client. *)
Definition client_updated_at (client : ClientInfo) : Z :=
  Z.max (Z.max (ControlLastSeen client) (DataPlaneLastSeen client)) (LastJoin client).

Definition dns_record (domain : string) (scope : dnsGroupScope) (ip : Z) (client : ClientInfo) : DNSRecordView :=
  let name := ToLower (TrimSpace (Name client)) in
  let name := if bool_decide (name = "") then ToLower (TrimSpace (DeviceId client)) else name in
  {| rv_FQDN := buildDNSFQDN name (shortName scope) domain (includeGroupLabel scope); rv_ShortName := name;
     rv_DeviceID := TrimSpace (DeviceId client); rv_Group := shortName scope;
     rv_VirtualIP := IP_String (Uint32ToIP ip); rv_ControlOnline := ControlOnline client;
     rv_DataPlaneReachable := DataPlaneReachable client; rv_UpdatedAtUnix := client_updated_at client |}.

Definition isPersonalClient (scope : dnsGroupScope) (client : ClientInfo) : bool :=
  HasPrefix (clientNetworkScope client (runtimeGroup scope)) personalNetworkPrefix.

(** The records of one scope: the visitor stops after the first network it is given. *)
Definition scope_records (nc : NetworkControl) (domain : string) (scope : dnsGroupScope) : list DNSRecordView :=
  forEachVirtualNetworkRead o nc (runtimeGroup scope) (λ _ network records,
      (records ++ omap (λ '(ip, client),
           if isPersonalClient scope client then None else Some (dns_record domain scope ip client))
         (range o (Clients network)), false)) [].

Definition network_le (a b : DNSNetworkView) : Prop := string_le (nv_Group a) (nv_Group b).
Definition gateway_le (a b : DNSGatewayView) : Prop := string_le (dgv_GatewayID a) (dgv_GatewayID b).
Definition record_le (a b : DNSRecordView) : Prop :=
  if bool_decide (rv_FQDN a ≠ rv_FQDN b) then string_le (rv_FQDN a) (rv_FQDN b)
  else if bool_decide (rv_VirtualIP a ≠ rv_VirtualIP b) then string_le (rv_VirtualIP a) (rv_VirtualIP b)
  else string_le (rv_DeviceID a) (rv_DeviceID b).
#[local] Instance network_le_dec a b : Decision (network_le a b).
Proof. unfold network_le. apply _. Defined.
#[local] Instance gateway_le_dec a b : Decision (gateway_le a b).
Proof. unfold gateway_le. apply _. Defined.
#[local] Instance record_le_dec a b : Decision (record_le a b).
Proof. unfold record_le. repeat case_match; apply _. Defined.

Section Snapshot.
Context (sha256 : list byte → list byte) (defaultGatewayID : string).

Definition line (s : string) : list byte := String.list_byte_of_string s ++ [x0a].

Definition computeDNSEpoch (s : DNSSnapshotView) : Z :=
  let text :=
    line (sv_Domain s) ++ line (sv_GroupFilter s) ++ line (sv_PrimaryNS s) ++ line (sv_AdminMailbox s)
    ++ line ("ttl:" +:+ dec (sv_DefaultTTLSeconds s)) ++ line ("refresh:" +:+ dec (sv_RefreshAfterSec s))
    ++ (sv_Networks s ≫= λ n, line ("net:" +:+ nv_Group n +:+ "|" +:+ nv_GatewayIP n +:+ "|" +:+ nv_Netmask n))
    ++ (sv_Records s ≫= λ r, line ("rec:" +:+ rv_FQDN r +:+ "|" +:+ rv_DeviceID r +:+ "|" +:+ rv_Group r +:+ "|" +:+ rv_VirtualIP r)) in
  let epoch := be_get (take 8 (sha256 text)) in
  if epoch =? 0 then 1 else epoch.

Definition BuildDNSSnapshot (now : Z) (cfg : Config) (nc : NetworkControl) (g : GatewayState) (domain group : string)
    : result DNSSnapshotView :=
  let domain := ToLower (TrimSpace domain) in
  let group := ToLower (TrimSpace group) in
  let domain := if bool_decide (domain = "") then ToLower (TrimSpace (EffectiveDefaultDomain o cfg)) else domain in
  if bool_decide (domain = "") then Err "domain is required" else
  let? scopes := buildDNSGroupScopes cfg domain group in
  let networks := (λ scope, {| nv_Group := shortName scope; nv_GatewayIP := gs_gatewayIP scope;
                               nv_Netmask := gs_netmask scope |}) <$> scopes in
  let records := scopes ≫= scope_records nc domain in
  let gateways := (λ gateway, {| dgv_GatewayID := TrimSpace (gv_GatewayID gateway);
                                 dgv_Endpoint := TrimSpace (gv_Endpoint gateway);
                                 dgv_Default := gv_Default gateway; dgv_Alive := gv_Alive gateway |})
                  <$> ListGateways o defaultGatewayID now g in
  let snapshot :=
    mkDNSSnapshotView domain group 0 defaultDNSTTLSeconds defaultDNSRefreshAfter ("ns1." +:+ domain) ("admin." +:+ domain)
      (merge_sort network_le networks) (merge_sort record_le records) (merge_sort gateway_le gateways) in
  Ok (snapshot <| sv_Epoch := computeDNSEpoch snapshot |>).

End Snapshot.

End Dns.

(** ** Forwarded queries *)
Section Proxy.
Context `{ProtoMessage DnsQueryRequest} `{ProtoMessage DnsQueryResponse}.
(** The UDP exchange with the server at an address, including the texts of its
    errors ([proxyDNSQuery] after the check of the address). *)
Context (exchange : string → list byte → result (list byte)).

Definition proxyDNSQuery (cfg : Config) (query : list byte) : result (list byte) :=
  let target := TrimSpace (cfg_DNSServiceAddr cfg) in
  if bool_decide (target = "") then Err "dns_service_addr is empty" else exchange target query.

Definition HandleDNSQueryPacket (cfg : Config) (request : Packet) : result Packet :=
  match proto_unmarshal (Payload request) with
  | Err e => Err ("DnsQueryRequest unmarshal error: " +:+ e)
  | Ok query =>
      let response : DnsQueryResponse :=
        if bool_decide (dq_query query = [])
        then {| dqr_request_id := dq_request_id query; dqr_response := []; dqr_error := "dns query payload is empty" |}
        else match proxyDNSQuery cfg (dq_query query) with
             | Err e => {| dqr_request_id := dq_request_id query; dqr_response := []; dqr_error := e |}
             | Ok reply => {| dqr_request_id := dq_request_id query; dqr_response := reply; dqr_error := "" |}
             end in
      let? payload := proto_marshal response in Ok (service_packet request AppProtoDNSQueryResponse payload)
  end.

End Proxy.
