(* ===== verification/DnsInv.v ===== *)
(** * Correctness of the name service: profiles are normalised, a snapshot lists
    exactly the shared clients of the requested groups. *)
From S2P Require Import Prelude GoString GoText NetIP NetParse Packet Proto ExpireMap Network NetworkInv.
From S2P Require Import UserManager Config ConfigInv Gateway Dns.

Section DnsInv.
Context `{UnicodeFold} `{UnicodeLower}.
Context (o : RangeOrder).

(** ** Normalised lists *)
Definition normal_form (lower : bool) (value : string) : string :=
  if lower then ToLower (TrimSpace value) else TrimSpace value.

Lemma normalize_fold lower values out :
  NoDup out →
  let r := foldl (normalize_step lower) out values in
  NoDup r ∧ ∀ x, x ∈ r ↔ x ∈ out ∨ x ≠ "" ∧ ∃ v, v ∈ values ∧ x = normal_form lower v.
Proof.
  revert out. induction values as [|v values IH]; intros out Hnd; simpl.
  { split; [done|]. intros x. split; [by left|]. intros [?|(_ & v & []%not_elem_of_nil & _)]; done. }
  assert (Hstep : NoDup (normalize_step lower out v)
    ∧ ∀ x, x ∈ normalize_step lower out v ↔ x ∈ out ∨ x ≠ "" ∧ x = normal_form lower v).
  { unfold normalize_step. fold (normal_form lower v).
    case_bool_decide as He; [split; [done|]; naive_solver|].
    case_bool_decide as Hi; [split; [done|]; naive_solver|].
    split; [apply NoDup_app; split_and!; [done|set_solver|apply NoDup_singleton]|].
    intros x. rewrite elem_of_app, list_elem_of_singleton. naive_solver. }
  destruct Hstep as [Hnd' Hm]. destruct (IH _ Hnd') as [H1 H2]. split; [done|].
  intros x. rewrite H2, Hm. setoid_rewrite elem_of_cons. naive_solver.
Qed.

Lemma normalizeDNSStrings_spec values lower :
  let r := normalizeDNSStrings values lower in
  Sorted string_le r ∧ NoDup r ∧ ∀ x, x ∈ r ↔ x ≠ "" ∧ ∃ v, v ∈ values ∧ x = normal_form lower v.
Proof.
  cbv zeta. unfold normalizeDNSStrings.
  destruct (normalize_fold lower values [] (NoDup_nil_2)) as [Hnd Hm].
  split_and!; [apply sort_Strings_sorted|by rewrite sort_Strings_perm|].
  intros x. rewrite sort_Strings_perm, Hm. set_solver.
Qed.

(** The group's own domain is among the match domains, up to case. *)
Lemma ensureGroup_has domains groupName domainName :
  ToLower (TrimSpace groupName) ≠ "" → ToLower (TrimSpace domainName) ≠ "" →
  ∃ d, d ∈ ensureGroupQualifiedMatchDomains domains groupName domainName
    ∧ (d = ToLower (TrimSpace groupName) +:+ "." +:+ ToLower (TrimSpace domainName)
       ∨ EqualFold (TrimSpace d) (ToLower (TrimSpace groupName) +:+ "." +:+ ToLower (TrimSpace domainName)) = true).
Proof.
  intros Hg Hd. unfold ensureGroupQualifiedMatchDomains.
  rewrite !bool_decide_eq_false_2 by done. simpl. destruct (existsb _ _) eqn:E.
  - apply existsb_exists in E as (d & Hin%list_elem_of_In & Hf). eauto.
  - eexists. split; [by apply elem_of_app; right; left|]. by left.
Qed.

(** The name-service profile sent to a client lists servers and
    match domains without blanks, without duplicates and in byte order; a client of
    a group of a configured domain is always given the name [group.domain] itself,
    up to case, among its match domains. *)
Theorem dns_profile_spec (cfg : Config) (tok : string) (p : DnsProfile) :
  BuildClientDNSProfile o cfg tok = Some p →
  Sorted string_le (dns_servers p) ∧ NoDup (dns_servers p) ∧ dns_servers p ≠ [] ∧ ("" ∉ dns_servers p)
  ∧ Sorted string_le (dns_match_domains p) ∧ NoDup (dns_match_domains p) ∧ dns_match_domains p ≠ []
  ∧ ("" ∉ dns_match_domains p)
  ∧ (cfg_Domains cfg ≠ ∅ → ∃ d g, matchDomainAndGroup o (ToLower (TrimSpace tok)) (cfg_Domains cfg) = Some (d, g)
       ∧ (ToLower (TrimSpace g) ≠ "" → ToLower (TrimSpace d) ≠ "" →
          let qualified := ToLower (TrimSpace g) +:+ "." +:+ ToLower (TrimSpace d) in
          ∃ m, (m = qualified ∨ EqualFold (TrimSpace m) qualified = true)
            ∧ (ToLower (TrimSpace m) ≠ "" → ToLower (TrimSpace m) ∈ dns_match_domains p))).
Proof.
  unfold BuildClientDNSProfile. case_bool_decide; [done|]. set (t := ToLower (TrimSpace tok)).
  destruct (profile_strings o cfg t) as [[servers matchDomains]|] eqn:Ep; [|done]. simpl.
  destruct (normalizeDNSStrings_spec servers false) as (S1 & S2 & S3).
  destruct (normalizeDNSStrings_spec matchDomains true) as (M1 & M2 & M3).
  destruct (bool_decide (normalizeDNSStrings servers false = []) || _) eqn:Ee; [done|]. bool_prop.
  intros [= <-]. cbn [dns_servers dns_match_domains].
  split_and!; try done; [by rewrite S3; intros [? _]|by rewrite M3; intros [? _]|].
  intros Hne. unfold profile_strings in Ep. rewrite bool_decide_eq_false_2 in Ep by done. simpl in Ep.
  destruct (matchDomainAndGroup o t (cfg_Domains cfg)) as [[d g]|]; [|done]. simpl in Ep.
  exists d, g. split; [done|]. intros Hg Hd. injection Ep as _ Hm.
  destruct (ensureGroup_has (default_domains (firstNonEmptyStrings
    (gc_DNSMatchDomains (default zeroGroupConfig (group_config cfg d g))) (cfg_DNSMatchDomains cfg)) d) g d Hg Hd)
    as (m & Hin & Hq). rewrite Hm in Hin.
  exists m. split; [done|]. intros Hb. apply M3. split; [done|]. by exists m.
Qed.

(** ** Snapshots *)

(** Reading one named network: the visitor that stops at once sees that network. *)
Lemma forEach_named {S} nc key (f : NetworkInfo → S → S) (s : S) :
  TrimSpace key ≠ "" →
  forEachVirtualNetworkRead o nc key (λ _ n s, (f n s, false)) s
  = match networks nc !! TrimSpace key with Some n => f n s | None => s end.
Proof.
  intros Hk. unfold forEachVirtualNetworkRead. cbv zeta. rewrite bool_decide_eq_true_2 by done. simpl.
  pose proof (range_NoDup_fst o (networks nc)) as Hnd.
  pose proof (λ k n, elem_of_range o (networks nc) k n) as Hin.
  destruct (networks nc !! TrimSpace key) as [n|] eqn:E.
  - apply Hin in E. clear Hin. revert Hnd E. generalize (range o (networks nc)). intros l.
    induction l as [|[k m] l IH]; simpl; intros Hnd E; [by apply elem_of_nil in E|].
    apply NoDup_cons in Hnd as [Hni Hnd]. case_bool_decide as Hne.
    + apply elem_of_cons in E as [[= <- <-]|E]; [done|]. by apply IH.
    + subst k. apply elem_of_cons in E as [[= <-]|E]; [done|].
      exfalso. apply Hni. apply list_elem_of_fmap. by exists (TrimSpace key, n).
  - assert (Hno : ∀ n, (TrimSpace key, n) ∉ range o (networks nc)).
    { intros n Hn%Hin. congruence. }
    clear -Hno. revert Hno. generalize (range o (networks nc)). intros l.
    induction l as [|[k m] l IH]; simpl; intros Hno; [done|]. case_bool_decide as Hne.
    + apply IH. intros n Hn. apply (Hno n). by right.
    + subst k. exfalso. apply (Hno m). by left.
Qed.

Lemma scope_records_spec nc domain scope rec :
  TrimSpace (runtimeGroup scope) ≠ "" →
  rec ∈ scope_records o nc domain scope ↔
  ∃ network ip client, networks nc !! TrimSpace (runtimeGroup scope) = Some network
    ∧ Clients network !! ip = Some client ∧ isPersonalClient scope client = false
    ∧ rec = dns_record domain scope ip client.
Proof.
  intros Hk. unfold scope_records.
  rewrite (forEach_named nc (runtimeGroup scope) (λ network records, records ++ _)) by done.
  destruct (networks nc !! _) as [n|]; simpl.
  - rewrite list_elem_of_omap. split.
    + intros ([ip client] & Hin%elem_of_range & Hr). destruct (isPersonalClient scope client) eqn:E; [done|].
      injection Hr as <-. by exists n, ip, client.
    + intros (? & ip & client & [= <-] & Hc & Hp & ->). exists (ip, client). rewrite elem_of_range. by rewrite Hp.
  - split; [by intros ?%elem_of_nil|]. by intros (? & ? & ? & ? & _).
Qed.

Lemma scopes_nonblank cfg domain group scopes scope :
  cfg_Domains cfg ≠ ∅ → buildDNSGroupScopes o cfg domain group = Ok scopes → scope ∈ scopes →
  TrimSpace (runtimeGroup scope) ≠ "".
Proof.
  intros Hne Hs Hin.
  assert (Hdot : ∀ a b : string, TrimSpace (a +:+ "." +:+ b) ≠ "").
  { intros a b E. assert ("."%char ∈ chars (a +:+ "." +:+ b)) as Hd.
    { rewrite chars_app. apply elem_of_app. right. by left. }
    apply (TrimSpace_keeps _ ".") in Hd; [|done|by vm_compute].
    rewrite E in Hd. by apply elem_of_nil in Hd. }
  unfold buildDNSGroupScopes in Hs. rewrite bool_decide_eq_false_2 in Hs by done. simpl in Hs.
  destruct (cfg_Domains cfg !! domain) as [dc|]; [|done]. case_bool_decide.
  - destruct (dc_Groups dc !! group); [|done]. injection Hs as <-. apply list_elem_of_singleton in Hin as ->.
    apply Hdot.
  - injection Hs as <-. apply list_elem_of_fmap in Hin as ([gn gc] & -> & _). apply Hdot.
Qed.

#[local] Instance record_le_total : Total record_le.
Proof.
  intros a b. unfold record_le.
  destruct (string_le_total (rv_FQDN a) (rv_FQDN b)), (string_le_total (rv_VirtualIP a) (rv_VirtualIP b)),
    (string_le_total (rv_DeviceID a) (rv_DeviceID b)); repeat case_bool_decide; auto; congruence.
Qed.

(** A name-service snapshot lists exactly the clients of the networks
    of its groups that do not belong to a personal network, one record each, in
    order; no client of a personal network is published. *)
Theorem dns_snapshot_records (sha256 : list byte → list byte) (defaultID : string) (now : Z) (cfg : Config)
    (nc : NetworkControl) (g : GatewayState) (domain group : string) (snapshot : DNSSnapshotView) :
  cfg_Domains cfg ≠ ∅ →
  BuildDNSSnapshot o sha256 defaultID now cfg nc g domain group = Ok snapshot →
  ∃ scopes, buildDNSGroupScopes o cfg (sv_Domain snapshot) (sv_GroupFilter snapshot) = Ok scopes
  ∧ Sorted record_le (sv_Records snapshot)
  ∧ (∀ rec, rec ∈ sv_Records snapshot ↔
       ∃ scope network ip client, scope ∈ scopes ∧ networks nc !! TrimSpace (runtimeGroup scope) = Some network
         ∧ Clients network !! ip = Some client ∧ isPersonalClient scope client = false
         ∧ rec = dns_record (sv_Domain snapshot) scope ip client).
Proof.
  intros Hne. unfold BuildDNSSnapshot. cbv zeta. set (dom := if (_ : bool) then ToLower (TrimSpace (EffectiveDefaultDomain _ _)) else _). clearbody dom.
  case_bool_decide; [done|]. intros (scopes & Hs & [= <-])%rbind_Ok. cbn -[merge_sort].
  exists scopes. split_and!; [done|apply Sorted_merge_sort, _|].
  intros rec. unfold const. rewrite merge_sort_Permutation, list_elem_of_bind.
  assert (Hk : ∀ scope, scope ∈ scopes → TrimSpace (runtimeGroup scope) ≠ "").
  { intros scope. by apply scopes_nonblank with (1 := Hne) (2 := Hs). }
  split.
  - intros (scope & Hr & Hin). apply scope_records_spec in Hr as (n & ip & c & ? & ? & ? & ->); [|by apply Hk].
    by exists scope, n, ip, c.
  - intros (scope & n & ip & c & Hin & ? & ? & ? & ->). exists scope. split; [|done].
    apply scope_records_spec; [by apply Hk|]. by exists n, ip, c.
Qed.

End DnsInv.

(** ** Samples *)
Module SampleDns.
Definition client (dev name scope : string) : ClientInfo :=
  zeroClientInfo <| DeviceId := dev |> <| Name := name |> <| NetworkScope := scope |> <| ControlOnline := true |>.
Definition net : NetworkInfo :=
  UpsertClient 169476099 (client "d2" "Phone" "personal:sdl-7")
    (UpsertClient 169476098 (client "d1" "Lap-Top" "group:default.ms.net")
       (NewNetworkInfo "default.ms.net" SampleConfig.mask (ParseIP "10.26.0.1") ∅)).
Definition nc : NetworkControl :=
  mkNetworkControl (mkExpireMap {["default.ms.net" := net]} ∅ 0) (NewExpireMap 5) (NewExpireMap 0) (NewExpireMap 0)
    (NewExpireMap 0) (NewExpireMap 0) (NewExpireMap 0).
Definition gateways : GatewayState := mkGatewayState ∅ ∅ ∅ ∅ "" 0 ∅ ∅.
Definition profile : DnsProfile :=
  {| dns_servers := ["10.26.0.53"]; dns_match_domains := ["default.ms.net"; "ms.net"] |}.
Definition build := @BuildDNSSnapshot AsciiLower ascending (λ l, l) "default" 0 SampleConfig.cfg' nc gateways "" "default".
Definition snapshot : DNSSnapshotView :=
  match build with Ok s => s | Err _ => mkDNSSnapshotView "" "" 0 0 0 "" "" [] [] [] end.
End SampleDns.

Lemma dns_profile_spec_witness :
  Sorted string_le (dns_servers SampleDns.profile) ∧ NoDup (dns_match_domains SampleDns.profile).
Proof.
  destruct (@dns_profile_spec AsciiFold AsciiLower ascending SampleConfig.cfg' "Default.MS.net" SampleDns.profile
    ltac:(by vm_compute)) as (H1 & _ & _ & _ & _ & H2 & _).
  by split.
Defined.

Lemma dns_snapshot_records_witness :
  rv_FQDN <$> sv_Records SampleDns.snapshot = ["lap-top.default.ms.net"]
  ∧ Sorted record_le (sv_Records SampleDns.snapshot).
Proof.
  split; [by vm_compute|].
  destruct (@dns_snapshot_records AsciiLower ascending (λ l, l) "default" 0 SampleConfig.cfg' SampleDns.nc
    SampleDns.gateways "" "default" SampleDns.snapshot) as (scopes & _ & H & _); [|by vm_compute|exact H].
  intros E. apply (f_equal (λ m, bool_decide (m !! "ms.net" = None))) in E. by vm_compute in E.
Defined.
