(* ===== verification/ExitNode.v ===== *)
(** * Exit nodes: [control/exit_node.go], the approval loading of
    [control/controller.go] and the three statements of [control/store/postgres.go]
    they run.

    [ExitNodes] holds the approvals in memory ([exitNodeMu]) and the table
    [control_exit_node_approvals], whose rows are keyed by user and device and
    carry whether [revoked_at IS NULL].  Each statement is given its [db_outcome]. *)
From S2P Require Import Prelude GoString GoText NetIP NetParse Proto ExpireMap Network UserManager.

(** What happens to a statement: it runs, it fails without effect, or it runs and
    the driver cannot tell how many rows it changed. *)
Inductive db_outcome := Runs | ExecFails (msg : string) | CountFails (msg : string).

Record ExitNodes := mkExitNodes {
  exitNodeApproved : gmap string (gmap string bool);
  approvals : gmap (string * string) bool
}.

(** ** [store/postgres.go] *)
Definition pgApproveExitNode (userID deviceID : string) (out : db_outcome) (rows : gmap (string * string) bool)
    : gmap (string * string) bool * option string :=
  match out with
  | ExecFails e => (rows, Some ("approve exit-node: " +:+ e))
  | _ => (<[(userID, deviceID) := true]> rows, None)
  end.

(** The second component of the error says whether it is [sql.ErrNoRows]. *)
Definition pgRevokeExitNode (userID deviceID : string) (out : db_outcome) (rows : gmap (string * string) bool)
    : gmap (string * string) bool * option (string * bool) :=
  let affected := bool_decide (rows !! (userID, deviceID) = Some true) in
  let rows' := if affected then <[(userID, deviceID) := false]> rows else rows in
  match out with
  | ExecFails e => (rows, Some ("revoke exit-node: " +:+ e, false))
  | CountFails e => (rows', Some ("revoke exit-node rows affected: " +:+ e, false))
  | Runs => if affected then (rows', None) else (rows', Some ("sql: no rows in result set", true))
  end.

Definition ListActiveExitNodeApprovals (o : RangeOrder) (rows : gmap (string * string) bool) : list (string * string) :=
  omap (λ '(key, active), if active : bool then Some key else None) (range o rows).

(** ** Approvals in memory *)
Definition approved_in (approved : gmap string (gmap string bool)) (userID deviceID : string) : bool :=
  default false (devices ← approved !! userID; devices !! deviceID).

Definition mark_approved (userID deviceID : string) (approved : gmap string (gmap string bool))
    : gmap string (gmap string bool) :=
  <[userID := <[deviceID := true]> (default ∅ (approved !! userID))]> approved.

(** [controller.go: loadExitNodeApprovalStateFromPostgres] on the listed rows. *)
Definition loadExitNodeApprovalStateFromPostgres (records : list (string * string)) : gmap string (gmap string bool) :=
  foldl (λ approved '(userID, deviceID),
      let userID := TrimSpace userID in
      let deviceID := TrimSpace deviceID in
      if bool_decide (userID = "") || bool_decide (deviceID = "") then approved
      else mark_approved userID deviceID approved)
    ∅ records.

Section ExitNode.
Context (o : RangeOrder).
(** [c.pgStore != nil]. *)
Context (hasStore : bool).

Definition isAuthedDeviceForUser (userID deviceID : string) (um : UserManager) : bool :=
  existsb (λ record, bool_decide (a_DeviceID record = deviceID)) (ListAuthedDevicesByUser o userID um).

Definition ApproveExitNode (userID deviceID : string) (out : db_outcome) (um : UserManager) (x : ExitNodes)
    : ExitNodes * option string :=
  let userID := TrimSpace userID in
  let deviceID := TrimSpace deviceID in
  if bool_decide (userID = "") then (x, Some "user_id is required") else
  if bool_decide (deviceID = "") then (x, Some "device_id is required") else
  if negb (isAuthedDeviceForUser userID deviceID um)
  then (x, Some ("device " +:+ deviceID +:+ " is not authed for user " +:+ userID)) else
  if negb hasStore then (x, Some "exit-node approval requires DATABASE_URL") else
  match pgApproveExitNode userID deviceID out (approvals x) with
  | (rows, Some e) => (x <| approvals := rows |>, Some e)
  | (rows, None) =>
      (x <| approvals := rows |> <| exitNodeApproved := mark_approved userID deviceID (exitNodeApproved x) |>, None)
  end.

Definition errNotApproved (userID deviceID : string) : string :=
  "exit node " +:+ deviceID +:+ " for user " +:+ userID +:+ " is not approved".

Definition RevokeExitNode (userID deviceID : string) (out : db_outcome) (x : ExitNodes) : ExitNodes * option string :=
  let userID := TrimSpace userID in
  let deviceID := TrimSpace deviceID in
  if bool_decide (userID = "") then (x, Some "user_id is required") else
  if bool_decide (deviceID = "") then (x, Some "device_id is required") else
  if negb hasStore then (x, Some "exit-node approval requires DATABASE_URL") else
  let devices := default ∅ (exitNodeApproved x !! userID) in
  if negb (default false (devices !! deviceID)) then (x, Some (errNotApproved userID deviceID)) else
  match pgRevokeExitNode userID deviceID out (approvals x) with
  | (rows, Some (e, noRows)) =>
      (x <| approvals := rows |>, Some (if noRows : bool then errNotApproved userID deviceID else e))
  | (rows, None) =>
      let devices := delete deviceID devices in
      (x <| approvals := rows |>
         <| exitNodeApproved := if bool_decide (devices = ∅) then delete userID (exitNodeApproved x)
                                else <[userID := devices]> (exitNodeApproved x) |>, None)
  end.

Definition resolveExitNodeApprovalTarget (userID deviceID displayName : string) (um : UserManager)
    : result (string * string) :=
  let userID := TrimSpace userID in
  let deviceID := TrimSpace deviceID in
  let displayName := TrimSpace displayName in
  if bool_decide (deviceID ≠ "") && bool_decide (displayName ≠ "")
  then Err "specify either device_id or name, not both" else
  if bool_decide (deviceID = "") && bool_decide (displayName = "") then Err "device_id or name is required" else
  if bool_decide (displayName ≠ "") && bool_decide (userID = "")
  then Err "user_id is required when approving by name" else
  let records := if bool_decide (userID ≠ "") then ListAuthedDevicesByUser o userID um else ListAuthedDevices o um in
  let matches := filter (λ record, (deviceID ≠ "" ∧ a_DeviceID record = deviceID)
                                   ∨ (displayName ≠ "" ∧ a_DisplayName record = displayName)) records in
  match matches with
  | [] =>
      if bool_decide (userID ≠ "") then
        if bool_decide (displayName ≠ "")
        then Err ("node " +:+ Quote displayName +:+ " is not authed for user " +:+ userID)
        else Err ("device " +:+ deviceID +:+ " is not authed for user " +:+ userID)
      else Err ("device " +:+ deviceID +:+ " is not an authed device")
  | [m] => Ok (a_UserID m, a_DeviceID m)
  | _ =>
      if bool_decide (userID = "") then Err ("device " +:+ deviceID +:+ " is ambiguous; specify --id/-u <user-id>")
      else Err ("node " +:+ Quote displayName +:+ " is ambiguous for user " +:+ userID +:+ "; use its device_id")
  end.

Definition ApproveExitNodeTarget (userID deviceID displayName : string) (out : db_outcome) (um : UserManager) (x : ExitNodes)
    : ExitNodes * result (string * string) :=
  match resolveExitNodeApprovalTarget userID deviceID displayName um with
  | Err e => (x, Err e)
  | Ok (userID, deviceID) =>
      match ApproveExitNode userID deviceID out um x with
      | (x, Some e) => (x, Err e)
      | (x, None) => (x, Ok (userID, deviceID))
      end
  end.

(** ** What peers are told *)
Definition exitNodeApprovedSnapshot (x : ExitNodes) : gmap string (gmap string bool) :=
  (λ devices, filter (λ kv, kv.2 = true) devices) <$> exitNodeApproved x.

Definition enrich_item (approved : gmap string (gmap string bool)) (clientsByIP : gmap Z ClientInfo) (item : DeviceInfo)
    : DeviceInfo :=
  match clientsByIP !! di_virtual_ip item with
  | None => item
  | Some client =>
      let isApproved := approved_in approved (UserID client) (DeviceId client) in
      item <| di_exit_node_advertised := clientExitNodeAdvertised client |>
           <| di_exit_node_approved := isApproved |>
           <| di_exit_node_usable := isApproved && clientExitNodeUsable client |>
  end.

Definition enrichDeviceInfoListExitNodesFromClients (items : list DeviceInfo) (clientsByIP : gmap Z ClientInfo)
    (x : ExitNodes) : list DeviceInfo :=
  enrich_item (exitNodeApprovedSnapshot x) clientsByIP <$> items.

Definition enrichDeviceInfoListExitNodes (networkKey : string) (items : list DeviceInfo) (nc : NetworkControl)
    (x : ExitNodes) : list DeviceInfo :=
  if bool_decide (items = []) then items else
  let clientsByIP := forEachVirtualNetworkRead o nc networkKey (λ _ network clientsByIP,
      (Clients network ∪ clientsByIP, bool_decide (TrimSpace networkKey = ""))) ∅ in
  enrichDeviceInfoListExitNodesFromClients items clientsByIP x.

(** ** The admin listing *)
Record ExitNodeAdminView := {
  xv_UserID : string; xv_Group : string; xv_Name : string; xv_DeviceID : string; xv_VirtualIP : string;
  xv_Approved : bool; xv_Advertised : bool; xv_LocalReady : bool; xv_Usable : bool; xv_ControlOnline : bool;
  xv_DataPlaneReachable : bool; xv_UpdatedAtUnix : Z
}.

Definition zeroExitNodeView (userID deviceID : string) (approved : bool) : ExitNodeAdminView :=
  {| xv_UserID := userID; xv_Group := ""; xv_Name := ""; xv_DeviceID := deviceID; xv_VirtualIP := "";
     xv_Approved := approved; xv_Advertised := false; xv_LocalReady := false; xv_Usable := false;
     xv_ControlOnline := false; xv_DataPlaneReachable := false; xv_UpdatedAtUnix := 0 |}.

Definition nul : string := String (ascii_of_nat 0) "".
Definition view_key (userID deviceID : string) : string := userID +:+ nul +:+ deviceID.

(** The latest of the three times kept for a client. *)
Definition updated_at (client : ClientInfo) : Z :=
  Z.max (Z.max (ControlLastSeen client) (DataPlaneLastSeen client)) (LastJoin client).

(** The body of the loop over the clients of a network. *)
Definition merge_client (approved : gmap string (gmap string bool)) (userIDFilter : string) (network : NetworkInfo)
    (views : gmap string ExitNodeAdminView) (entry : Z * ClientInfo) : gmap string ExitNodeAdminView :=
  let '(ip, client) := entry in
  if bool_decide (userIDFilter ≠ "") && bool_decide (UserID client ≠ userIDFilter) then views else
  let key := view_key (UserID client) (DeviceId client) in
  let isApproved := approved_in approved (UserID client) (DeviceId client) in
  let known := views !! key in
  if bool_decide (known = None) && negb isApproved && negb (clientExitNodeAdvertised client)
     && negb (clientExitNodeLocalReady client) then views else
  let view := default (zeroExitNodeView (UserID client) (DeviceId client) isApproved) known in
  let view := if bool_decide (TrimSpace (Name client) ≠ "") then view <| xv_Name := Name client |> else view in
  let view := if bool_decide (TrimSpace (xv_Group view) = "")
              then view <| xv_Group := clientAuthGroup client (Group network) |> else view in
  <[key := view <| xv_VirtualIP := ip4_string (Uint32ToIP ip) |>
                <| xv_Advertised := clientExitNodeAdvertised client |> <| xv_Approved := isApproved |>
                <| xv_LocalReady := clientExitNodeLocalReady client |> <| xv_ControlOnline := ControlOnline client |>
                <| xv_DataPlaneReachable := DataPlaneReachable client |>
                <| xv_UpdatedAtUnix := Z.max (xv_UpdatedAtUnix view) (updated_at client) |>]> views.

Definition mergeExitNodeRuntimeViews (views : gmap string ExitNodeAdminView) (userIDFilter : string)
    (nc : NetworkControl) (x : ExitNodes) : gmap string ExitNodeAdminView :=
  let userIDFilter := TrimSpace userIDFilter in
  forEachVirtualNetworkRead o nc "" (λ _ network views,
      (foldl (merge_client (exitNodeApprovedSnapshot x) userIDFilter network) views (range o (Clients network)), true))
    views.

Definition exit_view_le (a b : ExitNodeAdminView) : Prop :=
  if bool_decide (xv_UserID a ≠ xv_UserID b) then string_le (xv_UserID a) (xv_UserID b)
  else if bool_decide (xv_Group a ≠ xv_Group b) then string_le (xv_Group a) (xv_Group b)
  else if bool_decide (xv_Name a ≠ xv_Name b) then string_le (xv_Name a) (xv_Name b)
  else string_le (xv_DeviceID a) (xv_DeviceID b).
#[local] Instance exit_view_le_dec a b : Decision (exit_view_le a b).
Proof. unfold exit_view_le. repeat case_match; apply _. Defined.

(** The approvals of the listed user, or of all users. *)
Definition approved_for (userID : string) (x : ExitNodes) : gmap string (gmap string bool) :=
  filter (λ kv, userID = "" ∨ kv.1 = userID) (exitNodeApprovedSnapshot x).

(** The views of the authenticated devices, then of approvals without a device. *)
Definition record_views (approved : gmap string (gmap string bool)) (records : list UMAuthDevice)
    : gmap string ExitNodeAdminView :=
  foldl (λ views record,
      if negb (approved_in approved (a_UserID record) (a_DeviceID record)) then views else
      let name := TrimSpace (a_DisplayName record) in
      let name := if bool_decide (name = "") then a_DeviceID record else name in
      <[view_key (a_UserID record) (a_DeviceID record) :=
          (zeroExitNodeView (a_UserID record) (a_DeviceID record) true)
            <| xv_Group := a_GroupName record |> <| xv_Name := name |>]> views)
    ∅ records.

Definition orphan_views (approved : gmap string (gmap string bool)) (views : gmap string ExitNodeAdminView)
    : gmap string ExitNodeAdminView :=
  foldl (λ views '(userID, devices),
      foldl (λ (views : gmap string ExitNodeAdminView) '(deviceID, _),
          match views !! view_key userID deviceID with
          | Some _ => views
          | None => <[view_key userID deviceID := zeroExitNodeView userID deviceID true]> views
          end) views (range o (devices : gmap string bool)))
    views (range o approved).

Definition ListExitNodes (userID : string) (um : UserManager) (nc : NetworkControl) (x : ExitNodes)
    : list ExitNodeAdminView :=
  let userID := TrimSpace userID in
  let approved := approved_for userID x in
  let records := if bool_decide (userID ≠ "") then ListAuthedDevicesByUser o userID um else ListAuthedDevices o um in
  let views := orphan_views approved (record_views approved records) in
  let views := mergeExitNodeRuntimeViews views userID nc x in
  merge_sort exit_view_le
    ((λ view, view <| xv_Usable := xv_Approved view && xv_Advertised view && xv_LocalReady view && xv_ControlOnline view |>)
     <$> (range o views).*2).

End ExitNode.
