(* ===== verification/ExitNodeInv.v ===== *)
(** * Exit nodes: memory and table agree, and peers are told the truth. *)
From S2P Require Import Prelude GoString GoText NetIP NetParse Proto ExpireMap Network NetworkInv UserManager UserInv ExitNode.

(** ** Approvals in memory *)
Lemma approved_in_mark u d m u' d' :
  approved_in (mark_approved u d m) u' d' = true ↔ (u' = u ∧ d' = d) ∨ approved_in m u' d' = true.
Proof.
  unfold approved_in, mark_approved. destruct (decide (u' = u)) as [->|Hu].
  - rewrite lookup_insert_eq. simpl. destruct (decide (d' = d)) as [->|Hd].
    + rewrite lookup_insert_eq. naive_solver.
    + rewrite lookup_insert_ne by done. destruct (m !! u) as [ds|]; simpl; [naive_solver|].
      rewrite lookup_empty. naive_solver.
  - rewrite lookup_insert_ne by done. naive_solver.
Qed.

Lemma approved_in_load records u d :
  approved_in (loadExitNodeApprovalStateFromPostgres records) u d = true ↔
  u ≠ "" ∧ d ≠ "" ∧ ∃ u' d', (u', d') ∈ records ∧ TrimSpace u' = u ∧ TrimSpace d' = d.
Proof.
  unfold loadExitNodeApprovalStateFromPostgres.
  assert (∀ acc, approved_in (foldl (λ approved '(userID, deviceID),
      if bool_decide (TrimSpace userID = "") || bool_decide (TrimSpace deviceID = "") then approved
      else mark_approved (TrimSpace userID) (TrimSpace deviceID) approved) acc records) u d = true ↔
    approved_in acc u d = true ∨ (u ≠ "" ∧ d ≠ "" ∧ ∃ u' d', (u', d') ∈ records ∧ TrimSpace u' = u ∧ TrimSpace d' = d)) as Hgen.
  { induction records as [|[u1 d1] records IH]; intros acc; simpl.
    - split; [by left|]. intros [?|(_ & _ & ? & ? & []%not_elem_of_nil & _)]; done.
    - rewrite IH. setoid_rewrite elem_of_cons.
      destruct (bool_decide (TrimSpace u1 = "") || _) eqn:E.
      + assert (Hb : TrimSpace u1 = "" ∨ TrimSpace d1 = "") by (apply orb_true_iff in E as [E|E]; bool_prop; auto).
        split; (intros [Ha|(Hu & Hd & u' & d' & Hin & Eu & Ed)]; [by left|right; split_and!; [done..|exists u', d'; split_and!; [|done..]]]).
        * by right.
        * destruct Hin as [[= -> ->]|Hin]; [|done]. rewrite Eu, Ed in Hb. by destruct Hb.
      + bool_prop. rewrite approved_in_mark. split.
        * intros [[[-> ->]|Ha]|(Hu & Hd & u' & d' & Hin & Eu & Ed)]; [right| by left | right];
            (split_and!; [done..|]); [by exists u1, d1; auto|exists u', d'; auto].
        * intros [Ha|(Hu & Hd & u' & d' & [[= -> ->]|Hin] & Eu & Ed)]; [by auto|by subst; auto|].
          right. split_and!; [done..|by exists u', d'].  }
  rewrite Hgen. unfold approved_in at 1. rewrite lookup_empty. split; [by intros [?|?]|by right].
Qed.

(** ** Every history of approvals, revocations and restarts *)
Inductive exit_op :=
| XApprove (userID deviceID : string) (out : db_outcome) (um : UserManager)
| XRevoke (userID deviceID : string) (out : db_outcome)
| XRestart.

Section ExitNodeInv.
Context (o : RangeOrder) (hasStore : bool).

Definition exit_exec (op : exit_op) (x : ExitNodes) : ExitNodes :=
  match op with
  | XApprove u d out um => (ApproveExitNode o hasStore u d out um x).1
  | XRevoke u d out => (RevokeExitNode hasStore u d out x).1
  | XRestart =>
      x <| exitNodeApproved := if hasStore then
             loadExitNodeApprovalStateFromPostgres (ListActiveExitNodeApprovals o (approvals x)) else ∅ |>
  end.

(** The driver reports the number of rows an [UPDATE] changed. *)
Definition counts_rows (op : exit_op) : Prop :=
  match op with XApprove _ _ _ _ | XRestart => True | XRevoke _ _ out => ∀ e, out ≠ CountFails e end.

Record exit_inv (x : ExitNodes) : Prop := {
  xi_agree : ∀ u d, approved_in (exitNodeApproved x) u d = true ↔ approvals x !! (u, d) = Some true;
  xi_trimmed : ∀ u d b, approvals x !! (u, d) = Some b → TrimSpace u = u ∧ u ≠ "" ∧ TrimSpace d = d ∧ d ≠ "";
  xi_store : hasStore = false → approvals x = ∅
}.

Lemma inv_Approve u d out um x : exit_inv x → exit_inv (ApproveExitNode o hasStore u d out um x).1.
Proof.
  intros Hx. pose proof Hx as [Ha Ht Hs]. unfold ApproveExitNode.
  case_bool_decide as Hu; [done|]. case_bool_decide as Hd; [done|].
  destruct (isAuthedDeviceForUser _ _ _ _); [|done]. destruct hasStore eqn:Est; [|done]. cbn [negb].
  assert (Hnew : exit_inv (x <| approvals := <[(TrimSpace u, TrimSpace d) := true]> (approvals x) |>
    <| exitNodeApproved := mark_approved (TrimSpace u) (TrimSpace d) (exitNodeApproved x) |>)).
  { split; simpl; unfold const; [| |congruence].
    - intros u' d'. rewrite approved_in_mark, Ha, lookup_insert_Some.
      destruct (decide ((TrimSpace u, TrimSpace d) = (u', d'))) as [[= -> ->]|]; naive_solver.
    - intros u' d' b [[[= <- <-] _]|[_ ?]]%lookup_insert_Some; [|by eapply Ht].
      by rewrite !TrimSpace_idem. }
  destruct out; simpl; [done|split; [done..|congruence]|done].
Qed.

Lemma inv_Revoke u d out x :
  (∀ e, out ≠ CountFails e) → exit_inv x → exit_inv (RevokeExitNode hasStore u d out x).1.
Proof.
  intros Hout Hx. pose proof Hx as [Ha Ht Hs]. unfold RevokeExitNode.
  case_bool_decide; [done|]. case_bool_decide; [done|]. destruct hasStore eqn:Est; [|done]. cbn [negb].
  set (u0 := TrimSpace u) in *. set (d0 := TrimSpace d) in *.
  set (ds := default ∅ (exitNodeApproved x !! u0)).
  destruct (default false (ds !! d0)) eqn:E; [|done]. cbn [negb].
  assert (Hrow : approvals x !! (u0, d0) = Some true).
  { apply Ha. unfold approved_in. subst ds. destruct (exitNodeApproved x !! u0); [done|].
    simpl in E. by rewrite lookup_empty in E. }
  unfold pgRevokeExitNode. rewrite (bool_decide_eq_true_2 _ Hrow).
  destruct out as [|e|e]; [|split; [done..|congruence]|by destruct (Hout e)]. split; simpl; unfold const; [| |congruence].
  - intros u' d'. rewrite lookup_insert_Some.
    assert (approved_in (if bool_decide (delete d0 ds = ∅) then delete u0 (exitNodeApproved x)
        else <[u0 := delete d0 ds]> (exitNodeApproved x)) u' d' = true
      ↔ (u', d') ≠ (u0, d0) ∧ approved_in (exitNodeApproved x) u' d' = true) as ->.
    { unfold approved_in. destruct (decide (u' = u0)) as [->|Hu].
      - assert (approved_in (exitNodeApproved x) u0 d' = default false (ds !! d')) as Eold.
        { unfold approved_in, ds. destruct (exitNodeApproved x !! u0); [done|]. simpl. by rewrite lookup_empty. }
        unfold approved_in in Eold. rewrite Eold. destruct (decide (d' = d0)) as [->|Hd].
        + case_bool_decide; [rewrite lookup_delete_eq|rewrite lookup_insert_eq; simpl; rewrite lookup_delete_eq];
            naive_solver.
        + case_bool_decide as Hemp.
          * rewrite lookup_delete_eq. assert (delete d0 ds !! d' = None) as Hn by (rewrite Hemp; apply lookup_empty).
            rewrite lookup_delete_ne in Hn by done. rewrite Hn. simpl. naive_solver.
          * rewrite lookup_insert_eq. simpl. rewrite lookup_delete_ne by done. naive_solver.
      - case_bool_decide; [rewrite lookup_delete_ne by done|rewrite lookup_insert_ne by done]; naive_solver. }
    rewrite Ha. destruct (decide ((u', d') = (u0, d0))) as [E'|]; naive_solver.
  - intros u' d' b [[[= <- <-] _]|[_ ?]]%lookup_insert_Some; [by eapply Ht|by eapply Ht].
Qed.

Lemma inv_Restart x : exit_inv x → exit_inv (exit_exec XRestart x).
Proof.
  intros [Ha Ht Hs]. split; simpl; unfold const; [|done..].
  intros u d. destruct hasStore eqn:Est.
  - rewrite approved_in_load. unfold ListActiveExitNodeApprovals. split.
    + intros (_ & _ & u' & d' & Hin & <- & <-). apply list_elem_of_omap in Hin as ([k b] & Hr%elem_of_range & E).
      destruct b; [|done]. injection E as ->. destruct (Ht _ _ _ Hr) as (-> & _ & -> & _). done.
    + intros Hr. destruct (Ht _ _ _ Hr) as (Hu & Hu' & Hd & Hd'). split_and!; [done..|].
      exists u, d. split; [|done]. apply list_elem_of_omap. exists ((u, d), true). by rewrite elem_of_range.
  - rewrite (Hs eq_refl). unfold approved_in. rewrite !lookup_empty. done.
Qed.


(** ** Device lists *)
Lemma approved_in_snapshot x u d :
  approved_in (exitNodeApprovedSnapshot x) u d = approved_in (exitNodeApproved x) u d.
Proof.
  unfold approved_in, exitNodeApprovedSnapshot. rewrite lookup_fmap.
  destruct (exitNodeApproved x !! u) as [ds|]; [|done]. simpl.
  destruct (ds !! d) as [b|] eqn:E.
  - destruct b; [by rewrite (map_lookup_filter_Some_2 _ _ _ true)|].
    rewrite map_lookup_filter_None_2; [done|]. right. naive_solver.
  - rewrite map_lookup_filter_None_2; [done|]. by left.
Qed.

End ExitNodeInv.

(** C31 (safety). The device list sent to a client names exactly the other clients
    of the same network scope, each once; a peer is offered as a usable exit node
    exactly when it is approved for its user, online, advertising itself and ready. *)
Theorem device_list_spec (o : RangeOrder) (clients : gmap Z ClientInfo) (selfIP : Z) (self : ClientInfo) (x : ExitNodes) :
  clients !! selfIP = Some self →
  let l := enrichDeviceInfoListExitNodesFromClients (buildDeviceInfoList o clients selfIP) clients x in
  NoDup (di_virtual_ip <$> l)
  ∧ (∀ ip, ip ∈ di_virtual_ip <$> l ↔ ip ≠ selfIP ∧ ∃ c, clients !! ip = Some c
       ∧ clientNetworkScope c "" = clientNetworkScope self "")
  ∧ (∀ item, item ∈ l → ∃ c, clients !! di_virtual_ip item = Some c ∧ di_device_id item = DeviceId c
       ∧ di_device_pub_key item = DevicePubKey c
       ∧ (di_exit_node_usable item = true ↔ approved_in (exitNodeApproved x) (UserID c) (DeviceId c) = true
            ∧ ControlOnline c = true ∧ clientExitNodeAdvertised c = true ∧ clientExitNodeLocalReady c = true)).
Proof.
  intros Hself. unfold enrichDeviceInfoListExitNodesFromClients, buildDeviceInfoList. rewrite Hself. cbv zeta.
  match goal with |- context [omap ?f (range o clients)] => set (pick := f) end.
  set (l := enrich_item _ _ <$> _).
  assert (Hip : ∀ item, di_virtual_ip (enrich_item (exitNodeApprovedSnapshot x) clients item) = di_virtual_ip item).
  { intros item. unfold enrich_item. by destruct (clients !! di_virtual_ip item). }
  assert (Hips : di_virtual_ip <$> l = omap (λ e, di_virtual_ip <$> pick e) (range o clients)).
  { subst l. induction (range o clients) as [|e r IH]; [done|]. csimpl. destruct (pick e) as [i|]; csimpl; [|done].
    by rewrite Hip, IH. }
  assert (Hpick : ∀ e i, pick e = Some i → i = device_info e.1 e.2 ∧ e.1 ≠ selfIP
    ∧ clientNetworkScope e.2 "" = clientNetworkScope self "").
  { intros [ip c] i. unfold pick. case_bool_decide; [done|]. case_bool_decide; [done|]. intros [= <-].
    by split_and!. }
  split_and!.
  - rewrite Hips. pose proof (range_NoDup_fst o clients) as Hnd. clear -Hnd Hpick.
    induction (range o clients) as [|e r IH]; [constructor|]. simpl in *. apply NoDup_cons in Hnd as [Hni Hnd].
    destruct (pick e) as [i|] eqn:E; simpl; [|by apply IH]. constructor; [|by apply IH].
    apply Hpick in E as (-> & _). simpl. intros (e' & He' & Hi)%list_elem_of_omap. apply Hni.
    destruct (pick e') as [i'|] eqn:E'; [|done]. apply Hpick in E' as (-> & _). simpl in Hi. injection Hi as Hi.
    apply list_elem_of_fmap. by exists e'.
  - intros ip. rewrite Hips, list_elem_of_omap. split.
    + intros ([ip' c] & Hin%elem_of_range & Hi). destruct (pick (ip', c)) as [i|] eqn:E; [|done].
      apply Hpick in E as (-> & Hne & Hsc). simpl in *. injection Hi as <-. split; [done|]. by exists c.
    + intros (Hne & c & Hc & Hsc). exists (ip, c). rewrite elem_of_range. split; [done|]. unfold pick.
      rewrite bool_decide_eq_false_2, bool_decide_eq_false_2; [done| |done]. by intros ?.
  - intros item (i & -> & Hi)%list_elem_of_fmap. apply list_elem_of_omap in Hi as ([ip c] & Hin%elem_of_range & E).
    apply Hpick in E as (-> & _). exists c. rewrite Hip. simpl in *. split; [done|].
    unfold enrich_item. simpl. rewrite Hin. simpl. unfold const. split_and!; [done..|].
    rewrite approved_in_snapshot. unfold clientExitNodeUsable.
    rewrite !andb_true_iff. tauto.
Qed.

(** ** Samples *)
Module SampleExit.
Definition ops : list exit_op :=
  [XApprove "alice" "laptop" (ExecFails "timeout") SampleUsers.m1; XApprove " alice" "laptop" Runs SampleUsers.m1;
   XRestart; XRevoke "alice" "laptop" (ExecFails "timeout"); XApprove "alice" "phone" Runs SampleUsers.m1].
Definition status : ClientStatusInfo :=
  {| P2PList := []; PublicUDPEndpoints := []; LocalUDPEndpoints := []; UpStream := 0; DownStream := 0; IsCone := true;
     PunchTriggerReason := ""; RecoveryPunchTarget := 0; UpdateTime := 0; ExitNodeAdvertised := true;
     ExitNodeLocalReady := true |}.
Definition client (dev scope : string) : ClientInfo :=
  zeroClientInfo <| DeviceId := dev |> <| UserID := "alice" |> <| NetworkScope := scope |> <| ControlOnline := true |>
                 <| ClientStatus := Some status |>.
Definition clients : gmap Z ClientInfo :=
  <[1 := client "phone" "group:g"]> (<[2 := client "laptop" "group:g"]> {[3 := client "other" "group:h"]}).
Definition x : ExitNodes := foldl (λ x op, exit_exec ascending true op x) (mkExitNodes ∅ ∅) ops.
End SampleExit.


Lemma device_list_spec_witness :
  NoDup (di_virtual_ip <$> enrichDeviceInfoListExitNodesFromClients
           (buildDeviceInfoList ascending SampleExit.clients 1) SampleExit.clients SampleExit.x)
  ∧ (di_virtual_ip <$> enrichDeviceInfoListExitNodesFromClients
       (buildDeviceInfoList ascending SampleExit.clients 1) SampleExit.clients SampleExit.x) = [2].
Proof.
  split; [|by vm_compute].
  by destruct (device_list_spec ascending SampleExit.clients 1 (SampleExit.client "phone" "group:g") SampleExit.x
    ltac:(by vm_compute)) as (H & _).
Defined.
