(* ===== verification/DeviceList.v ===== *)
(** * The administrator's list of a user's devices: [control/device_list.go]. *)
From S2P Require Import Prelude GoString GoText NetIP NetParse Proto ExpireMap Network UserManager ExitNode.

Record DeviceAdminView := mkDeviceAdminView {
  dv_UserID : string; dv_Group : string; dv_Name : string; dv_DeviceID : string; dv_VirtualIP : string;
  dv_ControlOnline : bool; dv_DataPlaneReachable : bool; dv_AuthedAtUnix : Z; dv_AuthExpireAtUnix : Z;
  dv_AuthExpired : bool; dv_UpdatedAtUnix : Z
}.

Definition device_key (group deviceID : string) : string := group +:+ nul +:+ deviceID.

(** The view of an authorisation record on its own. *)
Definition record_device (now : Z) (record : UMAuthDevice) : DeviceAdminView :=
  let name := TrimSpace (a_DisplayName record) in
  {| dv_UserID := a_UserID record; dv_Group := a_GroupName record;
     dv_Name := if bool_decide (name = "") then a_DeviceID record else name;
     dv_DeviceID := a_DeviceID record; dv_VirtualIP := ""; dv_ControlOnline := false; dv_DataPlaneReachable := false;
     dv_AuthedAtUnix := unix (a_AuthedAt record); dv_AuthExpireAtUnix := unix (a_AuthExpireAt record);
     dv_AuthExpired := negb (time_IsZero (a_AuthExpireAt record)) && (a_AuthExpireAt record <? now);
     dv_UpdatedAtUnix := unix (a_AuthedAt record) |}.

(** The same with what the client table of a network says. *)
Definition with_client (authGroup : string) (ip : Z) (client : ClientInfo) (device : DeviceAdminView) : DeviceAdminView :=
  let updatedAt := updated_at client in
  {| dv_UserID := dv_UserID device; dv_Group := authGroup;
     dv_Name := if bool_decide (TrimSpace (Name client) ≠ "") then Name client else dv_Name device;
     dv_DeviceID := dv_DeviceID device; dv_VirtualIP := IP_String (Uint32ToIP ip);
     dv_ControlOnline := ControlOnline client; dv_DataPlaneReachable := DataPlaneReachable client;
     dv_AuthedAtUnix := dv_AuthedAtUnix device; dv_AuthExpireAtUnix := dv_AuthExpireAtUnix device;
     dv_AuthExpired := dv_AuthExpired device; dv_UpdatedAtUnix := Z.max (dv_UpdatedAtUnix device) updatedAt |}.

Definition merge_device (network : NetworkInfo) (devices : gmap string DeviceAdminView) (entry : Z * ClientInfo)
    : gmap string DeviceAdminView :=
  let '(ip, client) := entry in
  let authGroup := clientAuthGroup client (Group network) in
  let key := device_key authGroup (DeviceId client) in
  match devices !! key with
  | None => devices
  | Some device => <[key := with_client authGroup ip client device]> devices
  end.

Definition device_view_le (a b : DeviceAdminView) : Prop :=
  if bool_decide (dv_Group a ≠ dv_Group b) then string_le (dv_Group a) (dv_Group b)
  else if bool_decide (dv_UserID a ≠ dv_UserID b) then string_le (dv_UserID a) (dv_UserID b)
  else if bool_decide (dv_Name a ≠ dv_Name b) then string_le (dv_Name a) (dv_Name b)
  else if bool_decide (dv_VirtualIP a ≠ dv_VirtualIP b) then string_le (dv_VirtualIP a) (dv_VirtualIP b)
  else string_le (dv_DeviceID a) (dv_DeviceID b).
#[export] Instance device_view_le_dec a b : Decision (device_view_le a b).
Proof. unfold device_view_le. repeat case_match; apply _. Defined.

Definition ListDevices (o : RangeOrder) (now : Z) (userID : string) (um : UserManager) (nc : NetworkControl)
    : list DeviceAdminView :=
  let userID := TrimSpace userID in
  if bool_decide (userID = "") then [] else
  let records := ListAuthedDevicesByUser o userID um in
  if bool_decide (records = []) then [] else
  let devices := foldl (λ devices record,
      <[device_key (a_GroupName record) (a_DeviceID record) := record_device now record]> devices) ∅ records in
  let devices := forEachVirtualNetworkRead o nc "" (λ _ network devices,
      (foldl (merge_device network) devices (range o (Clients network)), true)) devices in
  merge_sort device_view_le (range o devices).*2.
