(* ===== verification/DebugStore.v ===== *)
(** * Debug snapshots on disk: [control/debug_store.go].

    The file system is a finite map from cleaned paths to directories and files.
    [fails] decides which system calls fail, and with what text; a failing call is
    without effect.  The mutex of the store makes each operation one step. *)
From S2P Require Import Prelude GoString GoText NetIP NetParse.

(** ** [path/filepath] on Unix *)
Fixpoint split_on (c : ascii) (l : list ascii) : list (list ascii) :=
  match l with
  | [] => [[]]
  | a :: l' =>
      if bool_decide (a = c) then [] :: split_on c l'
      else match split_on c l' with
           | [] => [[a]]
           | w :: ws => (a :: w) :: ws
           end
  end.

Definition slash : ascii := "/"%char.

(** One element of a path, on the reversed list of the elements before it. *)
Definition clean_step (rooted : bool) (stack : list string) (elem : string) : list string :=
  if bool_decide (elem = "") || bool_decide (elem = ".") then stack
  else if bool_decide (elem = "..") then
    match stack with
    | [] => if rooted then [] else [".."]
    | top :: below => if bool_decide (top = "..") then ".." :: stack else below
    end
  else elem :: stack.

Definition path_elems (path : string) : list string :=
  reverse (foldl (clean_step (HasPrefix path "/")) [] (str <$> split_on slash (chars path))).

Fixpoint join_slash (elems : list string) : string :=
  match elems with
  | [] => ""
  | [e] => e
  | e :: elems' => e +:+ "/" +:+ join_slash elems'
  end.

Definition Clean (path : string) : string :=
  let elems := join_slash (path_elems path) in
  if HasPrefix path "/" then "/" +:+ elems else if bool_decide (elems = "") then "." else elems.

Definition Join (elems : list string) : string :=
  match filter (λ e, e ≠ "") elems with
  | [] => ""
  | elems => Clean (join_slash elems)
  end.

(** ** The file system *)
Inductive node := Dir | File (content : string).
#[export] Instance node_eq_dec : EqDecision node.
Proof. solve_decision. Defined.
Abbreviation FS := (gmap string node).

Definition is_file (n : option node) : bool := match n with Some (File _) => true | _ => false end.

Inductive fs_call := CMkdirAll | CWriteFile | CRename | CReadDir | CRemove | CRemoveAll | COpen | CWrite.

(** The name of [path] inside [dir]. *)
Definition child (dir path : string) : option string :=
  if HasPrefix path (dir +:+ "/") then
    let name := TrimPrefix path (dir +:+ "/") in
    if bool_decide (name = "") || bool_decide (slash ∈ chars name) then None else Some name
  else None.

Definition below (dir path : string) : bool := bool_decide (path = dir) || HasPrefix path (dir +:+ "/").

(** The directory of a path, which must exist when a file is created. *)
Definition dir_of (path : string) : string :=
  match last_index_byte slash (chars path) with Some i => str (take i (chars path)) | None => "" end.

(** The directories [os.MkdirAll] creates: the path and everything above it. *)
Definition ancestors (path : string) : list string :=
  omap (λ i, if bool_decide (chars path !! i = Some slash) && negb (bool_decide (i = 0%nat))
             then Some (str (take i (chars path))) else None) (seq 0 (String.length path)) ++ [path].

(** ** Names *)
Definition allowed_rune (r : Z) : bool :=
  ((97 <=? r) && (r <=? 122)) || ((65 <=? r) && (r <=? 90)) || ((48 <=? r) && (r <=? 57))
  || (r =? 46) || (r =? 45) || (r =? 95).

Definition punctuation (c : ascii) : bool :=
  bool_decide (c = "."%char) || bool_decide (c = "_"%char) || bool_decide (c = "-"%char).

Fixpoint drop_while (f : ascii → bool) (l : list ascii) : list ascii :=
  match l with [] => [] | c :: l' => if f c then drop_while f l' else l end.

(** [strings.Trim(value, "._-")]. *)
Definition trim_punctuation (l : list ascii) : list ascii :=
  reverse (drop_while punctuation (reverse (drop_while punctuation l))).

Definition sanitizeDebugPathPart (value fallback : string) : string :=
  let value := TrimSpace value in
  if bool_decide (value = "") then fallback else
  let value := (λ r, if allowed_rune r then ascii_of_Z r else "_"%char) <$> string_runes value in
  let value := str (trim_punctuation value) in
  if bool_decide (value = "") then fallback else value.

Definition firstNonEmptyDebug (values : list string) : string :=
  default "" (list_find (λ v, TrimSpace v ≠ "") values ≫= λ r, Some r.2).

(** ** The store *)
Record DebugSnapshotStore := mkDebugStore { baseDir : string; keepPerDevice : Z }.

Definition NewDebugSnapshotStore (dir : string) (keep : Z) : DebugSnapshotStore :=
  mkDebugStore dir (if keep <=? 0 then 20 else keep).

(** [newDebugSnapshotStore] of [controller.go]: the two environment variables, then
    the configuration, then the defaults. *)
Definition newDebugSnapshotStore (envDir envKeep cfgDir : string) (cfgKeep : Z) : DebugSnapshotStore :=
  let path := TrimSpace envDir in
  let path := if bool_decide (path = "") then TrimSpace cfgDir else path in
  let path := if bool_decide (path = "") then "./data/debug-collect" else path in
  let keep := if 0 <? cfgKeep then cfgKeep else 20 in
  let keep :=
    if bool_decide (TrimSpace envKeep ≠ "") then
      match Atoi (TrimSpace envKeep) with Some parsed => if 0 <? parsed then parsed else keep | None => keep end
    else keep in
  NewDebugSnapshotStore path keep.

Record DebugCollectResult := mkDebugCollectResult {
  cr_RequestID : Z; cr_UserID : string; cr_Group : string; cr_Name : string; cr_DeviceID : string;
  cr_VirtualIP : string; cr_CollectedAtUnixMs : Z; cr_SnapshotJSON : string; cr_SavedPath : string
}.

Record DebugWatchSession := mkDebugWatchSession {
  ws_WatchID : Z; ws_UserID : string; ws_Group : string; ws_Name : string; ws_DeviceID : string;
  ws_VirtualIP : string; ws_StartedAtUnixMs : Z; ws_ExpireAtUnixMs : Z; ws_SessionDir : string; ws_EventsPath : string
}.

Section DebugStore.
Context (fails : fs_call → string → option string).

Definition MkdirAll (path : string) (fs : FS) : FS * option string :=
  match fails CMkdirAll path with
  | Some e => (fs, Some e)
  | None =>
      match list_find (λ p, is_file (fs !! p) = true) (ancestors path) with
      | Some (_, p) => (fs, Some ("mkdir " +:+ p +:+ ": not a directory"))
      | None => (foldl (λ fs p, <[p := Dir]> fs) fs (ancestors path), None)
      end
  end.

Definition writeAtomicFile (path data : string) (fs : FS) : FS * option string :=
  let tmp := path +:+ ".tmp" in
  match fails CWriteFile tmp with
  | Some e => (fs, Some ("write debug snapshot temp file: " +:+ e))
  | None =>
      if bool_decide (fs !! tmp = Some Dir)
      then (fs, Some ("write debug snapshot temp file: open " +:+ tmp +:+ ": is a directory")) else
      if bool_decide (fs !! dir_of tmp ≠ Some Dir)
      then (fs, Some ("write debug snapshot temp file: open " +:+ tmp +:+ ": no such file or directory")) else
      let fs := <[tmp := File data]> fs in
      match fails CRename path with
      | Some e => (fs, Some ("rename debug snapshot temp file: " +:+ e))
      | None =>
          if bool_decide (fs !! path = Some Dir)
          then (fs, Some ("rename debug snapshot temp file: rename " +:+ tmp +:+ " " +:+ path +:+ ": file exists"))
          else (<[path := File data]> (delete tmp fs), None)
      end
  end.

(** [os.ReadDir]: the names in a directory and what they are. *)
Definition ReadDir (dir : string) (fs : FS) : result (list (string * node)) :=
  match fails CReadDir dir with
  | Some e => Err e
  | None =>
      if bool_decide (fs !! dir = Some Dir)
      then Ok (omap (λ '(path, n), name ← child dir path; Some (name, n)) (map_to_list fs))
      else Err ("open " +:+ dir +:+ ": no such file or directory")
  end.

(** The removal loop: [names] are sorted, the first ones go while there are more
    than [keep]. *)
Fixpoint remove_oldest (call : fs_call) (what : string) (remove : string → FS → FS) (dir : string) (names : list string)
    (fs : FS) : FS * option string :=
  match names with
  | [] => (fs, None)
  | name :: names' =>
      let path := Join [dir; name] in
      match fails call path with
      | Some e => (fs, Some ("remove old debug " +:+ what +:+ " " +:+ name +:+ ": " +:+ e))
      | None => remove_oldest call what remove dir names' (remove path fs)
      end
  end.

Definition excess (keep : Z) (names : list string) : list string :=
  take (length names - Z.to_nat keep) names.

Definition snapshot_names (entries : list (string * node)) : list string :=
  sort_Strings (omap (λ '(name, n),
    if bool_decide (n = Dir) || bool_decide (name = "latest.json") || negb (HasSuffix name ".json") then None else Some name)
    entries).

Definition pruneDeviceDir (s : DebugSnapshotStore) (dir : string) (fs : FS) : FS * option string :=
  match ReadDir dir fs with
  | Err e => (fs, Some ("read debug snapshot dir: " +:+ e))
  | Ok entries => remove_oldest CRemove "snapshot" delete dir (excess (keepPerDevice s) (snapshot_names entries)) fs
  end.

Definition watch_names (entries : list (string * node)) : list string :=
  sort_Strings (omap (λ '(name, n), if bool_decide (n = Dir) && HasPrefix name "watch-" then Some name else None) entries).

Definition RemoveAll (path : string) (fs : FS) : FS := filter (λ kv, below path kv.1 = false) fs.

Definition pruneWatchDeviceDir (s : DebugSnapshotStore) (dir : string) (fs : FS) : FS * option string :=
  match ReadDir dir fs with
  | Err e => (fs, Some ("read debug watch dir: " +:+ e))
  | Ok entries => remove_oldest CRemoveAll "watch" RemoveAll dir (excess (keepPerDevice s) (watch_names entries)) fs
  end.

Definition device_dir_name (name deviceID virtualIP : string) : string :=
  sanitizeDebugPathPart name "unknown-name" +:+ "__" +:+
  sanitizeDebugPathPart (firstNonEmptyDebug [deviceID; virtualIP]) "unknown-device".

Definition snapshot_dir (s : DebugSnapshotStore) (r : DebugCollectResult) : string :=
  Join [baseDir s; sanitizeDebugPathPart (cr_Group r) "unknown-group";
        device_dir_name (cr_Name r) (cr_DeviceID r) (cr_VirtualIP r)].

Definition snapshot_name (now_ms : Z) (r : DebugCollectResult) : string :=
  dec (if cr_CollectedAtUnixMs r <=? 0 then now_ms else cr_CollectedAtUnixMs r) +:+ "__" +:+
  sanitizeDebugPathPart (cr_VirtualIP r) "unknown-ip" +:+ ".json".

Definition Save (now_ms : Z) (s : DebugSnapshotStore) (r : DebugCollectResult) (fs : FS) : FS * result string :=
  if bool_decide (TrimSpace (baseDir s) = "") then (fs, Ok "") else
  let deviceDir := snapshot_dir s r in
  match MkdirAll deviceDir fs with
  | (fs, Some e) => (fs, Err ("mkdir debug snapshot dir: " +:+ e))
  | (fs, None) =>
      let filePath := Join [deviceDir; snapshot_name now_ms r] in
      match writeAtomicFile filePath (cr_SnapshotJSON r) fs with
      | (fs, Some e) => (fs, Err e)
      | (fs, None) =>
          match writeAtomicFile (Join [deviceDir; "latest.json"]) (cr_SnapshotJSON r) fs with
          | (fs, Some e) => (fs, Err e)
          | (fs, None) =>
              match pruneDeviceDir s deviceDir fs with
              | (fs, Some e) => (fs, Err e)
              | (fs, None) => (fs, Ok filePath)
              end
          end
      end
  end.

Definition watch_dir (s : DebugSnapshotStore) (w : DebugWatchSession) : string :=
  Join [baseDir s; "watch"; sanitizeDebugPathPart (ws_Group w) "unknown-group";
        device_dir_name (ws_Name w) (ws_DeviceID w) (ws_VirtualIP w)].

Definition field (name value : string) : string := dquote +:+ name +:+ dquote +:+ ":" +:+ value.

Definition watch_metadata (w : DebugWatchSession) : string :=
  "{" +:+ field "watch_id" (dec (ws_WatchID w)) +:+ "," +:+ field "user_id" (Quote (ws_UserID w)) +:+ ","
  +:+ field "group" (Quote (ws_Group w)) +:+ "," +:+ field "name" (Quote (ws_Name w)) +:+ ","
  +:+ field "device_id" (Quote (ws_DeviceID w)) +:+ "," +:+ field "virtual_ip" (Quote (ws_VirtualIP w)) +:+ ","
  +:+ field "started_at_unix_ms" (dec (ws_StartedAtUnixMs w)) +:+ ","
  +:+ field "expire_at_unix_ms" (dec (ws_ExpireAtUnixMs w)) +:+ "}" +:+ String (ascii_of_nat 10) "".

(** The session, with its directory once it exists, and the error. *)
Definition StartWatch (s : DebugSnapshotStore) (w : DebugWatchSession) (fs : FS)
    : FS * (DebugWatchSession * option string) :=
  if bool_decide (TrimSpace (baseDir s) = "") then (fs, (w, None)) else
  let deviceDir := watch_dir s w in
  let sessionDir := Join [deviceDir; "watch-" +:+ dec (ws_WatchID w)] in
  match MkdirAll sessionDir fs with
  | (fs, Some e) => (fs, (w, Some ("mkdir debug watch dir: " +:+ e)))
  | (fs, None) =>
      let w := w <| ws_SessionDir := sessionDir |> <| ws_EventsPath := Join [sessionDir; "events.jsonl"] |> in
      match writeAtomicFile (Join [sessionDir; "metadata.json"]) (watch_metadata w) fs with
      | (fs, Some e) => (fs, (w, Some e))
      | (fs, None) =>
          match writeAtomicFile (Join [sessionDir; "latest-watch.json"]) (watch_metadata w) fs with
          | (fs, Some e) => (fs, (w, Some e))
          | (fs, None) => let '(fs, e) := pruneWatchDeviceDir s deviceDir fs in (fs, (w, e))
          end
      end
  end.

Definition AppendWatchEvent (w : DebugWatchSession) (line : string) (fs : FS) : FS * option string :=
  if bool_decide (ws_EventsPath w = "") then (fs, None) else
  let open_err e := Some ("open debug watch events: " +:+ e) in
  match fails COpen (ws_EventsPath w) with
  | Some e => (fs, open_err e)
  | None =>
      if bool_decide (fs !! dir_of (ws_EventsPath w) ≠ Some Dir)
      then (fs, open_err ("open " +:+ ws_EventsPath w +:+ ": no such file or directory")) else
      match default (File "") (fs !! ws_EventsPath w) with
      | Dir => (fs, open_err ("open " +:+ ws_EventsPath w +:+ ": is a directory"))
      | File content =>
          match fails CWrite (ws_EventsPath w) with
          | Some e => (<[ws_EventsPath w := File content]> fs, Some ("append debug watch event: " +:+ e))
          | None => (<[ws_EventsPath w := File (content +:+ line)]> fs, None)
          end
      end
  end.

Definition FinishWatch (w : DebugWatchSession) (stoppedAtUnixMs : Z) (fs : FS) : FS * option string :=
  if bool_decide (ws_SessionDir w = "") then (fs, None) else
  writeAtomicFile (Join [ws_SessionDir w; "stopped.json"])
    ("{" +:+ field "watch_id" (dec (ws_WatchID w)) +:+ "," +:+ field "stopped_at_unix_ms" (dec stoppedAtUnixMs)
     +:+ "}" +:+ String (ascii_of_nat 10) "") fs.

End DebugStore.
