(* ===== verification/DebugStoreInv.v ===== *)
(** * The snapshot store stays inside its directory and keeps it small. *)
From S2P Require Import Prelude GoString GoText NetIP NetParse DebugStore.

(** ** Safe names *)
Definition safe_char (c : ascii) : Prop := allowed_rune (z_of_ascii c) = true.
Record path_safe (s : string) : Prop := {
  ps_chars : Forall safe_char (chars s);
  ps_nonempty : s ≠ "";
  ps_dot : s ≠ ".";
  ps_dotdot : s ≠ ".."
}.
#[export] Instance path_safe_dec s : Decision (path_safe s).
Proof.
  refine (cast_if (decide (Forall safe_char (chars s) ∧ s ≠ "" ∧ s ≠ "." ∧ s ≠ ".."))).
  - abstract (destruct a as (? & ? & ? & ?); by split).
  - abstract (intros [? ? ? ?]; by destruct n).
Defined.

Lemma elem_of_drop_while f l c : c ∈ drop_while f l → c ∈ l.
Proof. induction l as [|a l IH]; simpl; [done|]. destruct (f a); [|done]. intros ?%IH. by right. Qed.

Lemma drop_while_head f l c k : drop_while f l = c :: k → f c = false.
Proof. induction l as [|a l IH]; simpl; [done|]. destruct (f a) eqn:E; [done|]. by intros [= <- _]. Qed.

Lemma trim_punctuation_spec l c k : reverse (trim_punctuation l) = c :: k → punctuation c = false.
Proof. unfold trim_punctuation. rewrite reverse_involutive. apply drop_while_head. Qed.

Lemma elem_of_trim_punctuation l c : c ∈ trim_punctuation l → c ∈ l.
Proof.
  unfold trim_punctuation. intros Hc%elem_of_reverse%elem_of_drop_while%elem_of_reverse%elem_of_drop_while. done.
Qed.

Lemma allowed_rune_ascii r : allowed_rune r = true → z_of_ascii (ascii_of_Z r) = r.
Proof.
  intros Ha. assert (0 ≤ r < 256) by (unfold allowed_rune in Ha; repeat (apply orb_true_iff in Ha as [Ha|Ha]); bool_prop; lia).
  unfold z_of_ascii, ascii_of_Z. rewrite N_ascii_embedding; lia.
Qed.

Lemma sanitize_safe value fallback : path_safe fallback → path_safe (sanitizeDebugPathPart value fallback).
Proof.
  intros Hf. unfold sanitizeDebugPathPart. case_bool_decide; [done|]. case_bool_decide as Hne; [done|].
  set (l := _ <$> string_runes _) in *.
  assert (Hlast : ∀ c k, reverse (chars (str (trim_punctuation l))) = c :: k → punctuation c = false).
  { intros c k. rewrite chars_of_list. apply trim_punctuation_spec. }
  split; [|done|intros E; rewrite E in Hlast; by specialize (Hlast _ _ eq_refl)..].
  rewrite chars_of_list. apply Forall_forall. intros c Hc%elem_of_trim_punctuation.
  apply list_elem_of_fmap in Hc as (r & -> & _). unfold safe_char.
  destruct (allowed_rune r) eqn:E; [by rewrite allowed_rune_ascii|done].
Qed.

Lemma safe_no_slash s : path_safe s → slash ∉ chars s.
Proof. intros Hs Hin. pose proof (proj1 (Forall_forall _ _) (ps_chars _ Hs) _ Hin) as Hc. by vm_compute in Hc. Qed.

Lemma safe_app a b c : path_safe a → Forall safe_char (chars b) → path_safe c → (0 < String.length b)%nat →
  path_safe (a +:+ b +:+ c).
Proof.
  intros Ha Hb Hc Hlen. assert (Hl : (3 ≤ length (chars (a +:+ b +:+ c)))%nat).
  { rewrite !chars_app, !length_app, !length_chars. destruct Ha as [_ Ha _ _], Hc as [_ Hc _ _].
    assert (String.length a ≠ 0)%nat by (by destruct a). assert (String.length c ≠ 0)%nat by (by destruct c). lia. }
  split; [|intros E; rewrite E in Hl; simpl in Hl; lia..].
  rewrite !chars_app. destruct Ha, Hc. by rewrite !Forall_app.
Qed.

Lemma dec_safe z : 0 ≤ z → path_safe (dec z).
Proof.
  intros Hz. pose proof (dec_digits z Hz) as Hd. pose proof (dec_nonempty z) as Hn.
  assert (Forall safe_char (chars (dec z))).
  { eapply Forall_impl; [done|]. intros c Hc. unfold is_digit, safe_char, allowed_rune in *.
    assert ((48 <=? z_of_ascii c) && (z_of_ascii c <=? 57) = true) as -> by (apply andb_true_iff; lia).
    by rewrite !orb_true_r. }
  split; [done|intros E; rewrite E in *..]; [done| |].
  all: apply Forall_inv in Hd; vm_compute in Hd; destruct Hd; congruence.
Qed.

Ltac safe_chars := match goal with |- Forall safe_char ?l => apply (bool_decide_eq_true_1 (Forall safe_char l)); vm_compute; reflexivity end.
Ltac safe := match goal with |- path_safe ?s => apply (bool_decide_eq_true_1 (path_safe s)); vm_compute; reflexivity end.

Lemma device_dir_safe name deviceID virtualIP : path_safe (device_dir_name name deviceID virtualIP).
Proof. apply safe_app; [apply sanitize_safe; safe|safe_chars|apply sanitize_safe; safe|simpl; lia]. Qed.

Lemma snapshot_name_safe now_ms r : 0 ≤ now_ms → path_safe (snapshot_name now_ms r).
Proof.
  intros Hn. unfold snapshot_name. apply safe_app; [|safe_chars| |simpl; lia].
  - apply dec_safe. destruct (_ <=? _) eqn:E; bool_prop; lia.
  - assert (Hs : path_safe (sanitizeDebugPathPart (cr_VirtualIP r) "unknown-ip")) by (apply sanitize_safe; safe).
    split; [rewrite chars_app, Forall_app; split; [apply Hs|safe_chars]|..];
      intros E; apply (f_equal String.length) in E; rewrite <-length_chars, chars_app, length_app in E; simpl in E; lia.
Qed.

(** ** Paths *)
Lemma split_on_no c l : c ∉ l → split_on c l = [l].
Proof.
  induction l as [|a l IH]; simpl; [done|]. intros Hn. apply not_elem_of_cons in Hn as [Hne Hn].
  rewrite bool_decide_eq_false_2 by congruence. by rewrite IH.
Qed.

Lemma split_on_app c l k : split_on c (l ++ c :: k) = split_on c l ++ split_on c k.
Proof.
  induction l as [|a l IH]; simpl; [by rewrite bool_decide_eq_true_2|]. case_bool_decide; [by rewrite IH|].
  rewrite IH. destruct (split_on c l) eqn:E; [|done]. exfalso. clear IH. destruct l; simpl in E; [done|].
  case_bool_decide; [done|]. by destruct (split_on c l).
Qed.

Lemma elem_of_split_on c l w : w ∈ split_on c l → c ∉ w.
Proof.
  revert w. induction l as [|a l IH]; intros w; simpl; [by intros ->%list_elem_of_singleton Hc%not_elem_of_nil|].
  case_bool_decide; [intros [->|Hw]%elem_of_cons; [by intros ?%not_elem_of_nil|by apply IH]|].
  destruct (split_on c l) as [|v vs]; [by intros ->%list_elem_of_singleton; rewrite list_elem_of_singleton|].
  intros [->|Hw]%elem_of_cons; [|apply IH; by right].
  rewrite not_elem_of_cons. split; [congruence|]. apply IH. by left.
Qed.

Lemma chars_slash : chars "/" = [slash].
Proof. done. Qed.

Lemma split_join elems : elems ≠ [] → Forall (λ e, slash ∉ chars e) elems →
  str <$> split_on slash (chars (join_slash elems)) = elems.
Proof.
  intros Hne Hall. induction Hall as [|e elems He Hall IH]; [done|]. destruct elems as [|e' elems].
  - simpl. rewrite split_on_no by done. simpl. unfold chars. by rewrite String.string_of_list_ascii_of_string.
  - cbn [join_slash] in *. rewrite chars_app, (chars_app "/"), chars_slash. cbn [app].
    rewrite split_on_app, fmap_app, IH by done. rewrite split_on_no by done. simpl. unfold chars.
    by rewrite String.string_of_list_ascii_of_string.
Qed.

(** Stacks that [clean_step] builds. *)
Inductive built (rooted : bool) : list string → Prop :=
| built_nil : built rooted []
| built_push stack e : built rooted stack → slash ∉ chars e → e ≠ "" → clean_step rooted stack e = e :: stack →
    built rooted (e :: stack).

Lemma built_step rooted stack e : built rooted stack → slash ∉ chars e → built rooted (clean_step rooted stack e).
Proof.
  intros Hb He. unfold clean_step. destruct (bool_decide (e = "") || bool_decide (e = ".")) eqn:E1; [done|]. bool_prop.
  case_bool_decide as E2.
  - subst e. destruct Hb as [|stack top Hb Ht Hn Hp].
    + destruct rooted; [apply built_nil|]. by apply built_push; [apply built_nil|..].
    + case_bool_decide; [|done]. apply built_push; [by apply built_push|done..|].
      unfold clean_step. simpl. by rewrite bool_decide_eq_true_2.
  - apply built_push; [done..|]. unfold clean_step. by rewrite !bool_decide_eq_false_2.
Qed.

Lemma built_path path : built (HasPrefix path "/") (reverse (path_elems path)).
Proof.
  unfold path_elems. rewrite reverse_involutive. generalize (HasPrefix path "/"). intros rooted.
  assert (Hns : ∀ e, e ∈ str <$> split_on slash (chars path) → slash ∉ chars e).
  { intros e (w & -> & Hw)%list_elem_of_fmap. rewrite chars_of_list. by apply elem_of_split_on in Hw. }
  revert Hns. generalize (str <$> split_on slash (chars path)). intros l. generalize (built_nil rooted). generalize (@nil string).
  induction l as [|e l IH]; intros stack Hb Hns; simpl; [done|].
  apply IH; [apply built_step; [done|apply Hns; by left]|]. intros e' He'. apply Hns. by right.
Qed.

Lemma built_again rooted stack : built rooted stack → foldl (clean_step rooted) [] (reverse stack) = stack.
Proof.
  induction 1 as [|stack e Hb IH He Hne Hs]; [done|]. by rewrite reverse_cons, foldl_app, IH.
Qed.

Lemma built_elems rooted stack : built rooted stack → Forall (λ e, (slash ∉ chars e) ∧ e ≠ "") stack.
Proof. induction 1; by constructor. Qed.

Definition rooted (path : string) : bool := HasPrefix path "/".

Definition render (root : bool) (elems : list string) : string := (if root then "/" else "") +:+ join_slash elems.

Lemma path_elems_ok path : Forall (λ e, (slash ∉ chars e) ∧ e ≠ "") (path_elems path).
Proof. pose proof (built_elems _ _ (built_path path)) as Hb. by apply Forall_reverse in Hb; rewrite reverse_involutive in Hb. Qed.

Lemma Clean_render path : path_elems path ≠ [] → Clean path = render (rooted path) (path_elems path).
Proof.
  intros Hne. unfold Clean, render, rooted. destruct (HasPrefix path "/"); [done|].
  rewrite bool_decide_eq_false_2; [done|]. pose proof (path_elems_ok path) as Hok.
  destruct (path_elems path) as [|e [|e' es]]; [done|..]; apply Forall_inv in Hok as [_ Hok]; simpl.
  - done.
  - by destruct e.
Qed.

Lemma HasPrefix_slash s : HasPrefix s "/" = bool_decide (chars s !! 0%nat = Some slash).
Proof.
  destruct s as [|c s]; [done|].
  change (HasPrefix (String c s) "/") with (if ascii_dec "/"%char c then String.prefix "" s else false).
  change (chars (String c s) !! 0%nat) with (Some c).
  destruct (ascii_dec "/"%char c) as [<-|Hne]; [rewrite bool_decide_eq_true_2 by done; by destruct s|].
  rewrite bool_decide_eq_false_2; [done|]. by intros [= ->].
Qed.

Lemma join_slash_head e es : e ≠ "" → chars (join_slash (e :: es)) !! 0%nat = chars e !! 0%nat.
Proof. intros He. destruct es; [done|]. cbn [join_slash]. rewrite chars_app. by destruct e. Qed.

(** A cleaned path with at least one element is its own cleaned form. *)
Lemma path_elems_Clean path : path_elems path ≠ [] →
  path_elems (Clean path) = path_elems path ∧ rooted (Clean path) = rooted path.
Proof.
  intros Hne. rewrite Clean_render by done. pose proof (built_path path) as Hb. pose proof (path_elems_ok path) as Hok.
  unfold rooted in *. set (root := HasPrefix path "/") in *. set (E := path_elems path) in *. clearbody root E.
  assert (Hroot : HasPrefix (render root E) "/" = root).
  { rewrite HasPrefix_slash. unfold render. destruct root; [by apply bool_decide_eq_true_2|].
    apply bool_decide_eq_false_2. change ("" +:+ join_slash E) with (join_slash E).
    destruct E as [|e E]; [done|]. apply Forall_inv in Hok as [Hs He]. rewrite join_slash_head by done. intros Hh%list_elem_of_lookup_2. by apply Hs. }
  split; [|done]. unfold path_elems. rewrite Hroot. unfold render.
  assert (Hsplit : str <$> split_on slash (chars (join_slash E)) = E).
  { apply split_join; [done|]. eapply Forall_impl; [done|]. by intros ? [? _]. }
  rewrite <-(reverse_involutive E) at 2. f_equal.
  rewrite chars_app. destruct root.
  - rewrite chars_slash. cbn [app split_on]. rewrite bool_decide_eq_true_2 by done. cbn [fmap list_fmap].
    change (list_fmap _ _ str) with (fmap (M := list) str). rewrite Hsplit. simpl.
    rewrite <-(reverse_involutive E) at 1. by apply built_again.
  - simpl. rewrite Hsplit. rewrite <-(reverse_involutive E) at 1. by apply built_again.
Qed.

(** A name that can be an element of a path. *)
Record plain_name (s : string) : Prop := {
  pn_slash : slash ∉ chars s; pn_nonempty : s ≠ ""; pn_dot : s ≠ "."; pn_dotdot : s ≠ ".."
}.

Lemma safe_plain s : path_safe s → plain_name s.
Proof. intros Hs. split; [by apply safe_no_slash|by destruct Hs..]. Qed.

Lemma clean_step_plain root stack e : plain_name e → clean_step root stack e = e :: stack.
Proof. intros [_ ? ? ?]. unfold clean_step. by rewrite !bool_decide_eq_false_2. Qed.

Lemma foldl_clean_plain root comps stack : Forall plain_name comps →
  foldl (clean_step root) stack comps = reverse comps ++ stack.
Proof.
  intros Hall. revert stack. induction Hall as [|e comps He _ IH]; intros stack; simpl; [done|].
  rewrite IH, clean_step_plain by done. by rewrite reverse_cons, <-app_assoc.
Qed.

Lemma filter_all {A} (P : A → Prop) `{∀ x, Decision (P x)} (l : list A) : Forall P l → filter P l = l.
Proof. induction 1 as [|x l Hx _ IH]; [done|]. by rewrite filter_cons_True, IH. Qed.

(** Joining plain names to a path adds exactly these elements. *)
Lemma Join_plain base comps : base ≠ "" → comps ≠ [] → Forall plain_name comps →
  Join (base :: comps) = render (rooted base) (path_elems base ++ comps)
  ∧ path_elems (Join (base :: comps)) = path_elems base ++ comps ∧ rooted (Join (base :: comps)) = rooted base.
Proof.
  intros Hb Hc Hall. unfold Join.
  assert (Hf : filter (λ e, e ≠ "") (base :: comps) = base :: comps).
  { apply filter_all. constructor; [done|]. eapply Forall_impl; [done|]. by intros ? [_ ? _ _]. }
  rewrite Hf. destruct comps as [|c comps]; [done|].
  set (path := join_slash (base :: c :: comps)).
  assert (Hpath : chars path = chars base ++ slash :: chars (join_slash (c :: comps))).
  { unfold path. cbn [join_slash]. by rewrite chars_app, (chars_app "/"), chars_slash. }
  assert (Hroot : rooted path = rooted base).
  { unfold rooted. rewrite !HasPrefix_slash, Hpath. by destruct base. }
  assert (Helems : path_elems path = path_elems base ++ c :: comps).
  { unfold path_elems. fold (rooted path) (rooted base). rewrite Hroot, Hpath, split_on_app, fmap_app, foldl_app.
    rewrite split_join, foldl_clean_plain, reverse_app, reverse_involutive; [done|done|done|].
    eapply Forall_impl; [done|]. by intros ? []. }
  assert (Hne : path_elems path ≠ []) by (rewrite Helems; by destruct (path_elems base)).
  destruct (path_elems_Clean path Hne) as [-> ->]. rewrite Clean_render by done. by rewrite Helems, Hroot.
Qed.

Lemma Join_safe base comps : base ≠ "" → comps ≠ [] → Forall path_safe comps →
  Join (base :: comps) = render (rooted base) (path_elems base ++ comps)
  ∧ path_elems (Join (base :: comps)) = path_elems base ++ comps ∧ rooted (Join (base :: comps)) = rooted base.
Proof. intros ? ? Hall. apply Join_plain; [done..|]. eapply Forall_impl; [done|]. apply safe_plain. Qed.

Ltac all_safe :=
  repeat first [apply Forall_nil_2 | apply Forall_cons_2 | assumption | apply device_dir_safe
               | apply snapshot_name_safe; assumption | apply sanitize_safe; safe | safe].


(** ** Pruning *)
Lemma substring_app p t : String.substring (String.length p) (String.length t) (p +:+ t) = t.
Proof.
  induction p as [|c p IH]; [|done]. change ("" +:+ t) with t. change (String.length "") with 0%nat.
  induction t as [|c t IH]; simpl; [done|]. by rewrite IH.
Qed.

Lemma length_string_app p t : String.length (p +:+ t) = (String.length p + String.length t)%nat.
Proof. by rewrite <-!length_chars, chars_app, length_app. Qed.

Lemma TrimPrefix_app p t : TrimPrefix (p +:+ t) p = t.
Proof.
  unfold TrimPrefix. assert (HasPrefix (p +:+ t) p = true) as -> by (apply HasPrefix_spec; eauto).
  rewrite length_string_app, Nat.add_comm, Nat.add_sub. apply substring_app.
Qed.

Lemma child_spec dir path name : child dir path = Some name ↔
  path = dir +:+ "/" +:+ name ∧ name ≠ "" ∧ (slash ∉ chars name).
Proof.
  unfold child. destruct (HasPrefix path (dir +:+ "/")) eqn:E.
  - apply HasPrefix_spec in E as [t ->]. rewrite TrimPrefix_app, string_app_assoc.
    destruct (bool_decide (t = "") || bool_decide (slash ∈ chars t)) eqn:E.
    + split; [done|]. intros (Ht & Hn & Hs). exfalso.
      apply (f_equal chars) in Ht. rewrite !chars_app in Ht. apply app_inv_head, app_inv_head, chars_inj in Ht. subst t.
      apply orb_true_iff in E as [E|E]; bool_prop; done.
    + bool_prop. split; [by intros [= ->]|]. intros (Ht & _ & _).
      apply (f_equal chars) in Ht. rewrite !chars_app in Ht. apply app_inv_head, app_inv_head, chars_inj in Ht. by subst t.
  - split; [done|]. intros [-> _]. rewrite <-string_app_assoc in E.
    assert (HasPrefix ((dir +:+ "/") +:+ name) (dir +:+ "/") = true) by (apply HasPrefix_spec; eauto). congruence.
Qed.

Lemma NoDup_omap_inj {A B} (f : A → option B) l :
  (∀ x y b, x ∈ l → y ∈ l → f x = Some b → f y = Some b → x = y) → NoDup l → NoDup (omap f l).
Proof.
  intros Hinj Hnd. induction Hnd as [|x l Hx Hnd IH]; csimpl; [constructor|].
  assert (Hl : NoDup (omap f l)) by (apply IH; intros ? ? ? ? ?; apply Hinj; by right).
  destruct (f x) as [b|] eqn:E; [|done]. constructor; [|done].
  intros (y & Hy & Hb)%list_elem_of_omap. apply Hx. rewrite (Hinj x y b); [done|by left|by right|done|done].
Qed.

(** The snapshots of a directory. *)
Definition is_snapshot (fs : FS) (dir name : string) : Prop :=
  name ≠ "latest.json" ∧ HasSuffix name ".json" = true ∧ (slash ∉ chars name)
  ∧ ∃ content, fs !! (dir +:+ "/" +:+ name) = Some (File content).

Definition read_entries (fs : FS) (dir : string) : list (string * node) :=
  omap (λ '(path, n), name ← child dir path; Some (name, n)) (map_to_list fs).

Lemma elem_of_read_entries fs dir name n :
  (name, n) ∈ read_entries fs dir ↔ fs !! (dir +:+ "/" +:+ name) = Some n ∧ name ≠ "" ∧ (slash ∉ chars name).
Proof.
  unfold read_entries. rewrite list_elem_of_omap. split.
  - intros ([path n'] & Hin%elem_of_map_to_list & (name' & Hc%child_spec & [= -> ->])%bind_Some).
    by destruct Hc as (-> & ? & ?).
  - intros (Hl & ? & ?). exists (dir +:+ "/" +:+ name, n). split; [by apply elem_of_map_to_list|].
    assert (child dir (dir +:+ "/" +:+ name) = Some name) as -> by (by apply child_spec). done.
Qed.

Lemma elem_of_snapshot_names fs dir name : name ∈ snapshot_names (read_entries fs dir) ↔ is_snapshot fs dir name.
Proof.
  unfold snapshot_names. rewrite sort_Strings_perm, list_elem_of_omap. split.
  - intros ([name' n] & (Hl & Hn & Hs)%elem_of_read_entries & Hf).
    destruct (_ || _ || _) eqn:E in Hf; [done|]. injection Hf as ->. bool_prop.
    split_and!; [done..|]. destruct n; [done|eauto].
  - intros (Hne & Hsuf & Hs & content & Hl). exists (name, File content).
    rewrite elem_of_read_entries. split; [split_and!; [done| |done]; by intros ->|].
    by rewrite !bool_decide_eq_false_2, Hsuf.
Qed.

Lemma snapshot_names_NoDup fs dir : NoDup (snapshot_names (read_entries fs dir)).
Proof.
  unfold snapshot_names. rewrite sort_Strings_perm. apply NoDup_omap_inj.
  - intros [n1 x1] [n2 x2] b Hx%elem_of_read_entries Hy%elem_of_read_entries H1 H2.
    destruct (_ || _ || _) in H1; [done|]. destruct (_ || _ || _) in H2; [done|]. simplify_eq.
    destruct Hx as [Hx _], Hy as [Hy _]. rewrite Hx in Hy. by injection Hy as ->.
  - unfold read_entries. apply NoDup_omap_inj; [|apply NoDup_map_to_list].
    intros [p1 x1] [p2 x2] b _ _ (m1 & (-> & _)%child_spec & [= <-])%bind_Some (m2 & (-> & _)%child_spec & [= <- <-])%bind_Some.
    done.
Qed.

Lemma lookup_foldl_delete (l : list string) (f : string → string) (fs : FS) p :
  foldl (λ fs n, delete (f n) fs) fs l !! p = if decide (p ∈ f <$> l) then None else fs !! p.
Proof.
  revert fs. induction l as [|n l IH]; intros fs; simpl; [done|]. rewrite IH.
  destruct (decide (p ∈ f <$> l)) as [Hp|Hp]; [by rewrite decide_True by (by right)|].
  destruct (decide (p = f n)) as [->|Hne]; [rewrite decide_True by (by left); apply lookup_delete_eq|].
  rewrite lookup_delete_ne, decide_False by (done || by rewrite not_elem_of_cons). done.
Qed.

Lemma lookup_foldl_dirs (l : list string) (fs : FS) p :
  foldl (λ fs n, <[n := Dir]> fs) fs l !! p = if decide (p ∈ l) then Some Dir else fs !! p.
Proof.
  revert fs. induction l as [|n l IH]; intros fs; simpl; [done|]. rewrite IH.
  destruct (decide (p ∈ l)) as [Hp|Hp]; [by rewrite decide_True by (by right)|].
  destruct (decide (p = n)) as [->|Hne]; [rewrite decide_True by (by left); apply lookup_insert_eq|].
  rewrite lookup_insert_ne, decide_False by (done || by rewrite not_elem_of_cons). done.
Qed.

Section Save.
Context (fails : fs_call → string → option string).

Lemma MkdirAll_ok path fs fs' : MkdirAll fails path fs = (fs', None) →
  fs' !! path = Some Dir ∧ (∀ p, p ∉ ancestors path → fs' !! p = fs !! p)
  ∧ (∀ p c, fs !! p = Some (File c) → fs' !! p = Some (File c)).
Proof.
  unfold MkdirAll. destruct (fails _ _); [done|]. destruct (list_find _ _) as [[i p]|] eqn:E; [done|]. intros [= <-].
  split_and!.
  - rewrite lookup_foldl_dirs, decide_True; [done|]. unfold ancestors. apply elem_of_app. right. by left.
  - intros p Hp. by rewrite lookup_foldl_dirs, decide_False.
  - intros p c Hc. rewrite lookup_foldl_dirs. case_decide as Hp; [|done].
    apply list_find_None in E. pose proof (proj1 (Forall_forall _ _) E p Hp) as Hno. simpl in Hno. by rewrite Hc in Hno.
Qed.

Lemma writeAtomicFile_ok path data fs fs' : writeAtomicFile fails path data fs = (fs', None) →
  fs' = <[path := File data]> (delete (path +:+ ".tmp") (<[path +:+ ".tmp" := File data]> fs)).
Proof.
  unfold writeAtomicFile. destruct (fails _ _); [done|]. case_bool_decide; [done|]. case_bool_decide; [done|].
  destruct (fails _ _); [done|]. case_bool_decide; [done|]. by intros [= <-].
Qed.

Lemma remove_oldest_ok call what dir names fs fs' : remove_oldest fails call what delete dir names fs = (fs', None) →
  fs' = foldl (λ fs n, delete (Join [dir; n]) fs) fs names.
Proof.
  revert fs. induction names as [|n names IH]; intros fs; simpl; [by intros [= ->]|].
  destruct (fails _ _); [done|]. apply IH.
Qed.

(** A path in cleaned form. *)
Definition clean_path (dir : string) : Prop := dir = render (rooted dir) (path_elems dir) ∧ path_elems dir ≠ [].

Lemma join_slash_snoc E n : E ≠ [] → join_slash (E ++ [n]) = join_slash E +:+ "/" +:+ n.
Proof.
  induction E as [|e E IH]; [done|]. intros _. destruct E as [|e' E]; [done|]. cbn [join_slash app] in *.
  rewrite IH by done. by rewrite !string_app_assoc.
Qed.

Lemma Join_clean dir n : clean_path dir → plain_name n → Join [dir; n] = dir +:+ "/" +:+ n.
Proof.
  intros [Hd Hne] Hn. assert (dir ≠ "") by (by intros ->).
  destruct (Join_plain dir [n]) as (-> & _ & _); [done..|by repeat constructor; destruct Hn|].
  rewrite Hd at 3. unfold render. rewrite join_slash_snoc by done. by rewrite !string_app_assoc.
Qed.

Lemma snapshot_dir_clean s r : baseDir s ≠ "" → clean_path (snapshot_dir s r).
Proof.
  intros Hb. unfold snapshot_dir, clean_path.
  destruct (Join_safe (baseDir s) [sanitizeDebugPathPart (cr_Group r) "unknown-group";
    device_dir_name (cr_Name r) (cr_DeviceID r) (cr_VirtualIP r)]) as (Hj & He & Hr); [done..|all_safe|].
  rewrite He, Hr. split; [done|]. by destruct (path_elems (baseDir s)).
Qed.

Lemma json_plain n : HasSuffix n ".json" = true → (slash ∉ chars n) → plain_name n.
Proof. intros Hs Hn. by split; [done|intros ->..]. Qed.

Lemma below_child dir n : below dir (dir +:+ "/" +:+ n) = true.
Proof.
  unfold below. apply orb_true_iff. right. apply HasPrefix_spec. exists n. by rewrite string_app_assoc.
Qed.
End Save.

Lemma sorted_split (l : list string) k x y : Sorted string_le l → x ∈ take k l → y ∈ drop k l → string_le x y.
Proof.
  intros Hs Hx Hy. apply (Sorted_StronglySorted _) in Hs. rewrite <-(take_drop k l) in Hs.
  by eapply StronglySorted_app_1_elem_of.
Qed.

(** What a successful [writeAtomicFile] in [dir] does. *)
Definition write_file (dir data n : string) (fs : FS) : FS :=
  <[dir +:+ "/" +:+ n := File data]> (delete ((dir +:+ "/" +:+ n) +:+ ".tmp")
    (<[(dir +:+ "/" +:+ n) +:+ ".tmp" := File data]> fs)).

Lemma is_snapshot_write fs dir data n n' : is_snapshot fs dir n' → is_snapshot (write_file dir data n fs) dir n'.
Proof.
  unfold write_file. intros (Hl & Hsuf & Hs & c & Hc). split_and!; [done..|].
  destruct (decide (dir +:+ "/" +:+ n' = dir +:+ "/" +:+ n)) as [E|Hne]; [exists data; rewrite E; apply lookup_insert_eq|].
  exists c. rewrite lookup_insert_ne by done.
  assert (Ht : (dir +:+ "/" +:+ n) +:+ ".tmp" ≠ dir +:+ "/" +:+ n').
  { rewrite !string_app_assoc. intros E. apply (f_equal chars) in E. rewrite !chars_app in E.
    apply app_inv_head, app_inv_head in E. rewrite <-chars_app in E. apply chars_inj in E. subst n'.
    apply HasSuffix_spec in Hsuf as [p Hp].
    apply (f_equal (λ s, reverse (chars s))) in Hp. rewrite !chars_app, !reverse_app in Hp. by vm_compute in Hp. }
  by rewrite lookup_delete_ne, lookup_insert_ne.
Qed.

Lemma path_inj dir n n' : dir +:+ "/" +:+ n = dir +:+ "/" +:+ n' → n = n'.
Proof.
  intros E. apply (f_equal chars) in E. rewrite !chars_app in E. by apply app_inv_head, app_inv_head, chars_inj in E.
Qed.

(** A successful [Save], step by step. *)
Lemma Save_ok fails now_ms s r fs fs' path : TrimSpace (baseDir s) ≠ "" → 0 ≤ now_ms →
  Save fails now_ms s r fs = (fs', Ok path) →
  let dir := snapshot_dir s r in let name := snapshot_name now_ms r in
  ∃ fs1, MkdirAll fails dir fs = (fs1, None) ∧ path = dir +:+ "/" +:+ name ∧ clean_path dir ∧ plain_name name
  ∧ let fs3 := write_file dir (cr_SnapshotJSON r) "latest.json" (write_file dir (cr_SnapshotJSON r) name fs1) in
    fs' = foldl (λ fs n, delete (dir +:+ "/" +:+ n) fs) fs3
            (excess (keepPerDevice s) (snapshot_names (read_entries fs3 dir))).
Proof.
  intros Hb Hn HS dir name. unfold Save in HS. rewrite bool_decide_eq_false_2 in HS by done.
  assert (Hclean : clean_path dir) by (apply snapshot_dir_clean; by intros E; rewrite E in Hb).
  assert (Hname : plain_name name) by (by apply safe_plain, snapshot_name_safe).
  assert (Hlatest : plain_name "latest.json") by (by apply json_plain; [|vm_compute; set_solver]).
  fold dir name in HS. rewrite !Join_clean in HS by done.
  destruct (MkdirAll fails dir fs) as [fs1 [e|]]; [done|]. exists fs1.
  destruct (writeAtomicFile fails _ _ fs1) as [fs2 [e|]] eqn:E2; [done|]. apply writeAtomicFile_ok in E2.
  destruct (writeAtomicFile fails _ _ fs2) as [fs3 [e|]] eqn:E3; [done|]. apply writeAtomicFile_ok in E3.
  destruct (pruneDeviceDir fails s dir fs3) as [fs4 [e|]] eqn:E4; [done|]. injection HS as <- <-.
  split; [done|]. split; [done|]. split; [done|]. split; [done|]. intros fs3'.
  assert (fs3' = fs3) as -> by (unfold fs3', write_file; by rewrite E3, E2).
  unfold pruneDeviceDir, ReadDir in E4.
  destruct (fails CReadDir dir); [done|]. case_bool_decide; [|done]. apply remove_oldest_ok in E4. subst fs4.
  fold (read_entries fs3 dir). set (l := excess _ _).
  assert (Hl : ∀ n, n ∈ l → Join [dir; n] = dir +:+ "/" +:+ n).
  { intros n Hin. apply Join_clean; [done|]. unfold l, excess in Hin.
    apply elem_of_take in Hin as (i & Hi & _).
    apply list_elem_of_lookup_2, elem_of_snapshot_names in Hi as (_ & ? & ? & _). by apply json_plain. }
  clearbody l. clear -Hl. revert fs3. induction l as [|n l IH]; intros fs3; simpl; [done|].
  rewrite Hl by (by left). apply IH. intros n' Hn'. apply Hl. by right.
Qed.

(** A snapshot that is saved becomes the latest one of its device;
    the directory of the device then holds at most the configured number of
    snapshots, of which only the smallest names were removed; nothing outside that
    directory is touched, except that missing parent directories are created. *)
Theorem save_prunes_oldest fails (now_ms : Z) (s : DebugSnapshotStore) (r : DebugCollectResult) (fs fs' : FS) (path : string) :
  TrimSpace (baseDir s) ≠ "" → 0 ≤ now_ms → 0 < keepPerDevice s → Save fails now_ms s r fs = (fs', Ok path) →
  let dir := snapshot_dir s r in
  fs' !! (dir +:+ "/latest.json") = Some (File (cr_SnapshotJSON r))
  ∧ Z.of_nat (length (snapshot_names (read_entries fs' dir))) ≤ keepPerDevice s
  ∧ (∀ old kept, is_snapshot fs dir old → ¬ is_snapshot fs' dir old → is_snapshot fs' dir kept → string_le old kept)
  ∧ (∀ p, p ∉ ancestors dir → below dir p = false → fs' !! p = fs !! p).
Proof.
  intros Hb Hn Hk HS dir. destruct (Save_ok _ _ _ _ _ _ _ Hb Hn HS) as (fs1 & Hmk & _ & Hclean & Hname & Hfs').
  fold dir in Hmk, Hclean, Hfs'. destruct (MkdirAll_ok _ _ _ _ Hmk) as (_ & Hframe & Hkeep).
  set (name := snapshot_name now_ms r) in *.
  set (fs3 := write_file dir (cr_SnapshotJSON r) "latest.json" (write_file dir (cr_SnapshotJSON r) name fs1)) in *.
  set (names := snapshot_names (read_entries fs3 dir)) in *.
  assert (Hlatest : plain_name "latest.json") by (apply json_plain; [done|vm_compute; set_solver]).
  assert (Hsnap : ∀ n, is_snapshot fs' dir n ↔ is_snapshot fs3 dir n ∧ n ∉ excess (keepPerDevice s) names).
  { intros n. unfold is_snapshot. rewrite Hfs', lookup_foldl_delete. case_decide as Hd.
    - apply list_elem_of_fmap in Hd as (n' & E%path_inj & Hin). subst n'. naive_solver.
    - assert (n ∉ excess (keepPerDevice s) names) by (intros Hin; apply Hd, list_elem_of_fmap; by exists n). naive_solver. }
  assert (Hdrop : ∀ n, is_snapshot fs' dir n → n ∈ drop (length names - Z.to_nat (keepPerDevice s)) names).
  { intros n [Hs Hex]%Hsnap. apply elem_of_snapshot_names in Hs. fold names in Hs.
    rewrite <-(take_drop (length names - Z.to_nat (keepPerDevice s)) names) in Hs. by apply elem_of_app in Hs as [Hs|Hs]. }
  split_and!.
  - change (dir +:+ "/latest.json") with (dir +:+ "/" +:+ "latest.json"). rewrite Hfs', lookup_foldl_delete, decide_False.
    + apply lookup_insert_eq.
    + intros (n & E%path_inj & Hin)%list_elem_of_fmap. subst n. apply elem_of_take in Hin as (i & Hi & _).
      apply list_elem_of_lookup_2, elem_of_snapshot_names in Hi as [Hne _]. done.
  - assert (Hsub : snapshot_names (read_entries fs' dir) ⊆+ drop (length names - Z.to_nat (keepPerDevice s)) names).
    { apply NoDup_submseteq; [apply snapshot_names_NoDup|]. intros n Hin%elem_of_snapshot_names. by apply Hdrop. }
    apply submseteq_length in Hsub. rewrite length_drop in Hsub. lia.
  - intros old kept Ho Hno Hkept%Hdrop. assert (Ho3 : is_snapshot fs3 dir old).
    { do 2 apply is_snapshot_write.
      destruct Ho as (? & ? & ? & c & Hc). split_and!; [done..|]. exists c. by apply Hkeep. }
    assert (Hex : old ∈ excess (keepPerDevice s) names).
    { destruct (decide (old ∈ excess (keepPerDevice s) names)) as [|Hnot]; [done|]. exfalso. by apply Hno, Hsnap. }
    eapply sorted_split; [apply sort_Strings_sorted|exact Hex|exact Hkept].
  - intros p Hp Hbelow. rewrite Hfs', lookup_foldl_delete, decide_False.
    + assert (Hpn : ∀ n, p ≠ dir +:+ "/" +:+ n) by (intros n ->; by rewrite below_child in Hbelow).
      assert (Hpt : ∀ n, p ≠ (dir +:+ "/" +:+ n) +:+ ".tmp") by (intros n; rewrite !string_app_assoc; apply Hpn).
      unfold fs3, write_file. 
      repeat first [rewrite lookup_insert_ne by (apply not_eq_sym; first [apply Hpt|apply Hpn])
                   |rewrite lookup_delete_ne by (apply not_eq_sym; first [apply Hpt|apply Hpn])]. by apply Hframe.
    + intros (n & -> & _)%list_elem_of_fmap. by rewrite below_child in Hbelow.
Qed.

(** ** Examples *)
Module SampleStore.
Definition s : DebugSnapshotStore := mkDebugStore "/srv/../data" 1.
Definition result (at_ms : Z) : DebugCollectResult :=
  mkDebugCollectResult 1 "u" "../etc" "lap/top" "dev" "10.0.0.2" at_ms "{}" "".
Definition never (c : fs_call) (p : string) : option string := None.
Definition fs1 : FS := (Save never 0 s (result 100) ∅).1.
Definition watch (id : Z) : DebugWatchSession := mkDebugWatchSession id "u" "g" "laptop" "dev" "10.0.0.2" 0 0 "" "".
End SampleStore.

(** The names a device chooses do not lead out of the directory. *)
Example hostile_names : Join [snapshot_dir SampleStore.s (SampleStore.result 100); snapshot_name 0 (SampleStore.result 100)]
  = "/data/etc/lap_top__dev/100__10.0.0.2.json".
Proof. by vm_compute. Qed.


Lemma save_prunes_oldest_witness :
  let fs2 := (Save SampleStore.never 0 SampleStore.s (SampleStore.result 101) SampleStore.fs1).1 in
  Z.of_nat (length (snapshot_names (read_entries fs2 (snapshot_dir SampleStore.s (SampleStore.result 101))))) ≤ 1.
Proof.
  intros fs2.
  exact (proj1 (proj2 (save_prunes_oldest SampleStore.never 0 SampleStore.s (SampleStore.result 101) SampleStore.fs1 fs2
    "/data/etc/lap_top__dev/101__10.0.0.2.json" ltac:(vm_compute; discriminate) ltac:(vm_compute; discriminate) eq_refl
    ltac:(vm_compute; reflexivity)))).
Defined.

(** Watch directories are pruned in the order of their names as texts, so a watch
    that has just been started can be the one that is removed: its events can then
    not be written. *)
Example new_watch_pruned :
  let '(fs1, _) := StartWatch SampleStore.never SampleStore.s (SampleStore.watch 9) ∅ in
  let '(fs2, (w, e)) := StartWatch SampleStore.never SampleStore.s (SampleStore.watch 10) fs1 in
  e = None ∧ fs2 !! ws_SessionDir w = None ∧ is_Some (AppendWatchEvent SampleStore.never w "x" fs2).2.
Proof. vm_compute. split_and!; [done|done|by eexists]. Qed.
