(* ===== verification/Debug.v ===== *)
(** * Remote debugging: [control/debug_collect.go] and [control/debug_watch.go].

    An administrator asks an online device for a snapshot or for a stream of
    events ("watch"); the answer arrives later on the device's own session.  The two
    sides meet in a table of waiters: the request stores a channel of capacity one
    under its number, the answer removes the entry and sends the result.

    [DebugState] holds the fields of [Controller] guarded by [debugMu] and the
    file system of the store.  A channel is an index into [buffers]: [None] while it
    is empty.  The code that waits is split at the points where it can be
    interrupted ([await_lookup], then [await_receive] or a time-out). *)
From S2P Require Import Prelude GoString GoText NetIP NetParse Packet Proto ExpireMap Network UserManager Gateway ExitNode.
From S2P Require Import DeviceList DebugStore.

(** ** Waiters *)
Record Waiters (A : Type) := mkWaiters { pending : gmap Z nat; buffers : list (option A) }.
Arguments mkWaiters {A} pending buffers.
Arguments pending {A} w.
Arguments buffers {A} w.

Section Waiters.
Context {A : Type}.
Implicit Types (w : Waiters A).

(** [make(chan A, 1)], stored under the request. *)
Definition new_waiter (requestID : Z) w : Waiters A * nat :=
  let ch := length (buffers w) in
  (mkWaiters (<[requestID := ch]> (pending w)) (buffers w ++ [None]), ch).

Definition finish_waiter (requestID : Z) (ch : nat) w : Waiters A :=
  if bool_decide (pending w !! requestID = Some ch) then mkWaiters (delete requestID (pending w)) (buffers w) else w.

Definition cancel_waiter (requestID : Z) w : Waiters A := mkWaiters (delete requestID (pending w)) (buffers w).

(** Sending on a channel whose buffer is full would block the session. *)
Definition send_blocks (requestID : Z) w : Prop :=
  ∃ ch, pending w !! requestID = Some ch ∧ buffers w !! ch ≠ Some None.

Definition resolve_waiter (requestID : Z) (result : A) w : Waiters A :=
  match pending w !! requestID with
  | None => w
  | Some ch => mkWaiters (delete requestID (pending w)) (<[ch := Some result]> (buffers w))
  end.

Definition await_lookup (requestID : Z) w : option nat := pending w !! requestID.

(** The receiving branch of the [select]: possible once the buffer is filled. *)
Definition await_receive (ch : nat) w : Waiters A * option A :=
  match buffers w !! ch with
  | Some (Some result) => (mkWaiters (pending w) (<[ch := None]> (buffers w)), Some result)
  | _ => (w, None)
  end.
End Waiters.

(** ** State *)
Record DebugWatchStartResult := mkStartResult {
  sr_RequestID : Z; sr_WatchID : Z; sr_UserID : string; sr_Group : string; sr_Name : string; sr_DeviceID : string;
  sr_VirtualIP : string; sr_StartedAtUnixMs : Z; sr_ExpireAtUnixMs : Z; sr_SavedPath : string
}.

Record DebugWatchStopResult := mkStopResult {
  tr_RequestID : Z; tr_WatchID : Z; tr_UserID : string; tr_Group : string; tr_Name : string; tr_DeviceID : string;
  tr_VirtualIP : string; tr_StoppedAtUnixMs : Z; tr_SavedPath : string
}.

Record DebugState := mkDebugState {
  debugCollectSeq : Z;
  pendingDebugCollect : Waiters DebugCollectResult;
  latestDebugCollect : gmap string DebugCollectResult;
  debugWatchSeq : Z;
  pendingDebugWatchStart : Waiters DebugWatchStartResult;
  pendingDebugWatchStop : Waiters DebugWatchStopResult;
  activeDebugWatches : gmap Z DebugWatchSession;
  activeDebugWatchByDevice : gmap string Z;
  d_files : FS
}.

Definition NewDebugState : DebugState :=
  mkDebugState 0 (mkWaiters ∅ []) ∅ 0 (mkWaiters ∅ []) (mkWaiters ∅ []) ∅ ∅ ∅.

(** ** Looking devices up *)

(** The records are filed under [authedDeviceKey]; this key is another one. *)
Definition userIDForAuthedDevice (groupName deviceID : string) (um : UserManager) : option string :=
  record ← authedDevices um !! (groupName +:+ nul +:+ deviceID); Some (a_UserID record).

(** The user of a client: the one it registered with, else that of its record. *)
Definition client_user (authGroup : string) (client : ClientInfo) (um : UserManager) : string :=
  let userID := TrimSpace (UserID client) in
  if bool_decide (userID ≠ "") then userID else default "" (userIDForAuthedDevice authGroup (DeviceId client) um).

Record DebugIdentity := mkIdentity {
  id_UserID : string; id_Group : string; id_Name : string; id_DeviceID : string; id_VirtualIP : string
}.

Section Lookup.
Context `{UnicodeFold} (o : RangeOrder).

(** The client at the source address of a packet, in the first network that has
    one ([decorateDebugCollectResult], [decorateDebugWatchIdentity]). *)
Definition decorateDebugWatchIdentity (packet : Packet) (nc : NetworkControl) (um : UserManager) : DebugIdentity :=
  let ip := IpToUint32 (SrcIP packet) in
  forEachVirtualNetworkRead o nc "" (λ _ network s,
    match Clients network !! ip with
    | None => (s, true)
    | Some client =>
        let authGroup := clientAuthGroup client (Group network) in
        (mkIdentity (client_user authGroup client um) authGroup (Name client) (DeviceId client)
           (IP_String (Uint32ToIP ip)), false)
    end) (mkIdentity "" "" "" "" (IP_String (SrcIP packet))).

Record DebugMatch := mkMatch { m_view : DeviceAdminView; m_ip : Z; m_networkKey : string }.

(** One client of a network, if it matches. *)
Definition match_client (name userID group : string) (um : UserManager) (network : NetworkInfo) (entry : Z * ClientInfo)
    : option DebugMatch :=
  let '(ip, client) := entry in
  let authGroup := clientAuthGroup client (Group network) in
  if bool_decide (group ≠ "") && negb (EqualFold authGroup group) then None else
  if negb (ControlOnline client) || negb (EqualFold (TrimSpace (Name client)) name) then None else
  let recordUserID := client_user authGroup client um in
  if bool_decide (userID ≠ "") && negb (EqualFold recordUserID userID) then None else
  Some (mkMatch (mkDeviceAdminView recordUserID authGroup (Name client) (DeviceId client) (IP_String (Uint32ToIP ip))
                   (ControlOnline client) (DataPlaneReachable client) 0 0 false 0)
          ip (clientNetworkKey client (Group network))).

Definition match_le (a b : DebugMatch) : Prop :=
  if bool_decide (dv_Group (m_view a) ≠ dv_Group (m_view b)) then string_le (dv_Group (m_view a)) (dv_Group (m_view b))
  else if bool_decide (dv_UserID (m_view a) ≠ dv_UserID (m_view b))
  then string_le (dv_UserID (m_view a)) (dv_UserID (m_view b))
  else string_le (dv_DeviceID (m_view a)) (dv_DeviceID (m_view b)).
#[local] Instance match_le_dec a b : Decision (match_le a b).
Proof. unfold match_le. repeat case_match; apply _. Defined.

Fixpoint join_comma (items : list string) : string :=
  match items with
  | [] => ""
  | [i] => i
  | i :: items' => i +:+ ", " +:+ join_comma items'
  end.

Definition online_matches (name userID group : string) (um : UserManager) (nc : NetworkControl) : list DebugMatch :=
  forEachVirtualNetworkRead o nc "" (λ _ network acc,
    (acc ++ omap (match_client name userID group um network) (range o (Clients network)), true)) [].

Definition findOnlineDeviceByName (name userID group : string) (um : UserManager) (nc : NetworkControl) : result DebugMatch :=
  let name := TrimSpace name in
  if bool_decide (name = "") then Err "name required" else
  match online_matches name (TrimSpace userID) (TrimSpace group) um nc with
  | [] => Err ("no online device matched name " +:+ Quote name)
  | [m] => Ok m
  | matches =>
      let items := (λ m, dv_UserID (m_view m) +:+ "/" +:+ dv_Group (m_view m) +:+ "/" +:+ dv_DeviceID (m_view m))
                     <$> merge_sort match_le matches in
      Err ("name " +:+ Quote name +:+ " matched multiple online devices: " +:+ join_comma items)
  end.
End Lookup.

(** ** Requests *)
Definition normalizeDebugSections `{UnicodeLower} (sections : list string) : list string :=
  foldl (λ out section,
      let normalized := ToLower (TrimSpace section) in
      if bool_decide (normalized = "") || bool_decide (normalized ∈ out) then out else out ++ [normalized]) [] sections.

Definition debug_packet (appProto ip : Z) (networkKey : string) (payload : list byte) : Packet :=
  {| Ver := V3; Proto := ProtocolService; AppProto := appProto; SourceTTL := MAX_TTL; TTL := MAX_TTL;
     SrcIP := ParseIP "0.0.0.1"; DstIP := Uint32ToIP ip; Payload := payload; RouteNetworkKey := networkKey |}.

Section Debug.
Context `{UnicodeFold} `{UnicodeLower} `{ProtoMessage DebugCollectRequest} `{ProtoMessage DebugCollectResponse}
  `{ProtoMessage DebugWatchStartRequest} `{ProtoMessage DebugWatchStartResponse} `{ProtoMessage DebugWatchStopRequest}
  `{ProtoMessage DebugWatchStopResponse} `{ProtoMessage DebugWatchEvent}.
Context (o : RangeOrder) (store : option DebugSnapshotStore).

Definition newDebugCollectWaiter (d : DebugState) : DebugState * (Z * nat) :=
  let seq := u64 (debugCollectSeq d + 1) in
  let '(w, ch) := new_waiter seq (pendingDebugCollect d) in
  (d <| debugCollectSeq := seq |> <| pendingDebugCollect := w |>, (seq, ch)).

Definition newDebugWatchStartWaiter (d : DebugState) : DebugState * (Z * nat) :=
  let seq := u64 (debugWatchSeq d + 1) in
  let '(w, ch) := new_waiter seq (pendingDebugWatchStart d) in
  (d <| debugWatchSeq := seq |> <| pendingDebugWatchStart := w |>, (seq, ch)).

Definition newDebugWatchStopWaiter (d : DebugState) : DebugState * (Z * nat) :=
  let seq := u64 (debugWatchSeq d + 1) in
  let '(w, ch) := new_waiter seq (pendingDebugWatchStop d) in
  (d <| debugWatchSeq := seq |> <| pendingDebugWatchStop := w |>, (seq, ch)).

Definition CancelDebugCollect (requestID : Z) (d : DebugState) : DebugState :=
  d <| pendingDebugCollect := cancel_waiter requestID (pendingDebugCollect d) |>.
Definition CancelDebugWatchStart (requestID : Z) (d : DebugState) : DebugState :=
  d <| pendingDebugWatchStart := cancel_waiter requestID (pendingDebugWatchStart d) |>.
Definition CancelDebugWatchStop (requestID : Z) (d : DebugState) : DebugState :=
  d <| pendingDebugWatchStop := cancel_waiter requestID (pendingDebugWatchStop d) |>.

(** The packet to send, its address and the request number. *)
Definition PrepareDebugCollectByName (name userID group : string) (sections : list string) (um : UserManager)
    (nc : NetworkControl) (d : DebugState) : DebugState * result (Packet * Z * Z) :=
  match findOnlineDeviceByName o name userID group um nc with
  | Err e => (d, Err e)
  | Ok m =>
      let '(d, (requestID, waiter)) := newDebugCollectWaiter d in
      match proto_marshal {| dcq_request_id := requestID; dcq_sections := normalizeDebugSections sections;
                             dcq_reason := "admin collect_debug" |} with
      | Err e => (d <| pendingDebugCollect := finish_waiter requestID waiter (pendingDebugCollect d) |>, Err e)
      | Ok payload => (d, Ok (debug_packet AppProtoDebugCollectRequest (m_ip m) (m_networkKey m) payload, m_ip m, requestID))
      end
  end.

Definition PrepareDebugWatchStartByName (name userID group : string) (sections : list string) (duration : Z)
    (um : UserManager) (nc : NetworkControl) (d : DebugState) : DebugState * result (Packet * Z * Z) :=
  match findOnlineDeviceByName o name userID group um nc with
  | Err e => (d, Err e)
  | Ok m =>
      let '(d, (requestID, waiter)) := newDebugWatchStartWaiter d in
      let durationSec := u32 (Z.quot duration second) in
      match proto_marshal {| dsq_request_id := requestID; dsq_sections := normalizeDebugSections sections;
                             dsq_duration_sec := if durationSec =? 0 then 300 else durationSec;
                             dsq_reason := "admin start_debug_watch" |} with
      | Err e => (d <| pendingDebugWatchStart := finish_waiter requestID waiter (pendingDebugWatchStart d) |>, Err e)
      | Ok payload =>
          (d, Ok (debug_packet AppProtoDebugWatchStartRequest (m_ip m) (m_networkKey m) payload, m_ip m, requestID))
      end
  end.

Definition activeDebugWatchIDForDevice (deviceID : string) (d : DebugState) : Z :=
  default 0 (activeDebugWatchByDevice d !! TrimSpace deviceID).

Definition PrepareDebugWatchStopByName (name userID group : string) (um : UserManager) (nc : NetworkControl) (d : DebugState)
    : DebugState * result (Packet * Z * Z) :=
  match findOnlineDeviceByName o name userID group um nc with
  | Err e => (d, Err e)
  | Ok m =>
      let '(d, (requestID, waiter)) := newDebugWatchStopWaiter d in
      match proto_marshal {| dtq_request_id := requestID;
                             dtq_watch_id := activeDebugWatchIDForDevice (dv_DeviceID (m_view m)) d;
                             dtq_reason := "admin stop_debug_watch" |} with
      | Err e => (d <| pendingDebugWatchStop := finish_waiter requestID waiter (pendingDebugWatchStop d) |>, Err e)
      | Ok payload =>
          (d, Ok (debug_packet AppProtoDebugWatchStopRequest (m_ip m) (m_networkKey m) payload, m_ip m, requestID))
      end
  end.

(** ** Waiting

    [AwaitDebug...] once its channel is found: [timeout] tells which branch of the
    [select] is taken; [None] means that it goes on waiting. *)
Definition AwaitDebugCollect (requestID : Z) (ch : nat) (timeout : bool) (d : DebugState)
    : DebugState * option (result DebugCollectResult) :=
  if timeout then (CancelDebugCollect requestID d, Some (Err "debug collection timed out")) else
  let '(w, r) := await_receive ch (pendingDebugCollect d) in
  (d <| pendingDebugCollect := w |>,
   result ← r; Some (if bool_decide (cr_SnapshotJSON result = "") then Err "debug collection returned empty snapshot"
                     else Ok result)).

Definition AwaitDebugWatchStart (requestID : Z) (ch : nat) (timeout : bool) (d : DebugState)
    : DebugState * option (result DebugWatchStartResult) :=
  if timeout then (CancelDebugWatchStart requestID d, Some (Err "debug watch start timed out")) else
  let '(w, r) := await_receive ch (pendingDebugWatchStart d) in
  (d <| pendingDebugWatchStart := w |>,
   result ← r; Some (if sr_WatchID result =? 0 then Err "debug watch returned empty watch id" else Ok result)).

Definition AwaitDebugWatchStop (requestID : Z) (ch : nat) (timeout : bool) (d : DebugState)
    : DebugState * option (result DebugWatchStopResult) :=
  if timeout then (CancelDebugWatchStop requestID d, Some (Err "debug watch stop timed out")) else
  let '(w, r) := await_receive ch (pendingDebugWatchStop d) in
  (d <| pendingDebugWatchStop := w |>, result ← r; Some (Ok result)).

(** ** Answers of the devices *)
Context (fails : fs_call → string → option string).

Definition resolveDebugCollect (now_ms : Z) (result : DebugCollectResult) (d : DebugState) : DebugState :=
  let '(fs, result) :=
    match store with
    | Some s =>
        if bool_decide (TrimSpace (cr_SnapshotJSON result) ≠ "") then
          match Save fails now_ms s result (d_files d) with
          | (fs, Ok savedPath) => (fs, result <| cr_SavedPath := savedPath |>)
          | (fs, Err _) => (fs, result)
          end
        else (d_files d, result)
    | None => (d_files d, result)
    end in
  d <| d_files := fs |>
    <| pendingDebugCollect := resolve_waiter (cr_RequestID result) result (pendingDebugCollect d) |>
    <| latestDebugCollect := if bool_decide (cr_DeviceID result ≠ "")
                             then <[cr_DeviceID result := result]> (latestDebugCollect d) else latestDebugCollect d |>.

(** The results of a response, with the identity of the device that sent it. *)
Definition decorateDebugCollectResult (packet : Packet) (resp : DebugCollectResponse) (nc : NetworkControl) (um : UserManager)
    : DebugCollectResult :=
  let id := decorateDebugWatchIdentity o packet nc um in
  {| cr_RequestID := dcr_request_id resp; cr_UserID := id_UserID id; cr_Group := id_Group id; cr_Name := id_Name id;
     cr_DeviceID := id_DeviceID id; cr_VirtualIP := id_VirtualIP id; cr_CollectedAtUnixMs := dcr_collected_at_unix_ms resp;
     cr_SnapshotJSON := dcr_snapshot_json resp; cr_SavedPath := "" |}.

Definition decorateDebugWatchStartResult (packet : Packet) (resp : DebugWatchStartResponse) (nc : NetworkControl) (um : UserManager)
    : DebugWatchStartResult :=
  let id := decorateDebugWatchIdentity o packet nc um in
  mkStartResult (dsr_request_id resp) (dsr_watch_id resp) (id_UserID id) (id_Group id) (id_Name id) (id_DeviceID id)
    (id_VirtualIP id) (dsr_started_at_unix_ms resp) (dsr_expire_at_unix_ms resp) "".

Definition decorateDebugWatchStopResult (packet : Packet) (resp : DebugWatchStopResponse) (nc : NetworkControl) (um : UserManager)
    : DebugWatchStopResult :=
  let id := decorateDebugWatchIdentity o packet nc um in
  mkStopResult (dtr_request_id resp) (dtr_watch_id resp) (id_UserID id) (id_Group id) (id_Name id) (id_DeviceID id)
    (id_VirtualIP id) (dtr_stopped_at_unix_ms resp) "".

Definition HandleDebugCollectResponse (now_ms : Z) (request : Packet) (um : UserManager) (nc : NetworkControl) (d : DebugState)
    : DebugState * option string :=
  match proto_unmarshal (Payload request) with
  | Err e => (d, Some e)
  | Ok resp =>
      let result := decorateDebugCollectResult request resp nc um in
      let snapshot :=
        if dcr_ok resp then cr_SnapshotJSON result
        else if bool_decide (TrimSpace (dcr_reason resp) ≠ "")
        then "{" +:+ field "error" (Quote (TrimSpace (dcr_reason resp))) +:+ "}"
        else "{" +:+ field "error" (Quote "debug collection rejected") +:+ "}" in
      (resolveDebugCollect now_ms (result <| cr_SnapshotJSON := snapshot |>) d,
       None)
  end.

Definition resolveDebugWatchStartFailure (result : DebugWatchStartResult) (d : DebugState) : DebugState :=
  d <| pendingDebugWatchStart := resolve_waiter (sr_RequestID result) result (pendingDebugWatchStart d) |>.

(** A watch is recorded as the active one of its device. *)
Definition activate_watch (session : DebugWatchSession) (d : DebugState) : DebugState :=
  let active := match activeDebugWatchByDevice d !! ws_DeviceID session with
    | Some previousWatchID => delete previousWatchID (activeDebugWatches d)
    | None => activeDebugWatches d
    end in
  d <| activeDebugWatches := <[ws_WatchID session := session]> active |>
    <| activeDebugWatchByDevice :=
         if bool_decide (ws_DeviceID session ≠ "")
         then <[ws_DeviceID session := ws_WatchID session]> (activeDebugWatchByDevice d)
         else activeDebugWatchByDevice d |>.

Definition HandleDebugWatchStartResponse (packet : Packet) (um : UserManager) (nc : NetworkControl) (d : DebugState)
    : DebugState * option string :=
  match proto_unmarshal (Payload packet) with
  | Err e => (d, Some e)
  | Ok resp =>
      let result := decorateDebugWatchStartResult packet resp nc um in
      if dsr_ok resp then
        let session := mkDebugWatchSession (sr_WatchID result) (sr_UserID result) (sr_Group result) (sr_Name result)
                         (sr_DeviceID result) (sr_VirtualIP result) (sr_StartedAtUnixMs result)
                         (sr_ExpireAtUnixMs result) "" "" in
        let '(fs, session, result) :=
          match store with
          | Some s =>
              match StartWatch fails s session (d_files d) with
              | (fs, (stored, None)) => (fs, stored, result <| sr_SavedPath := ws_SessionDir stored |>)
              | (fs, (_, Some _)) => (fs, session, result)
              end
          | None => (d_files d, session, result)
          end in
        let d := activate_watch session (d <| d_files := fs |>) in
        (d <| pendingDebugWatchStart := resolve_waiter (sr_RequestID result) result (pendingDebugWatchStart d) |>, None)
      else (resolveDebugWatchStartFailure result d, None)
  end.

Definition HandleDebugWatchStopResponse (packet : Packet) (um : UserManager) (nc : NetworkControl) (d : DebugState)
    : DebugState * option string :=
  match proto_unmarshal (Payload packet) with
  | Err e => (d, Some e)
  | Ok resp =>
      let result := decorateDebugWatchStopResult packet resp nc um in
      let '(d, result) :=
        match activeDebugWatches d !! tr_WatchID result with
        | None => (d, result)
        | Some session =>
            let d := d <| activeDebugWatches := delete (tr_WatchID result) (activeDebugWatches d) |>
                       <| activeDebugWatchByDevice :=
                            if bool_decide (ws_DeviceID session ≠ "")
                            then delete (ws_DeviceID session) (activeDebugWatchByDevice d)
                            else activeDebugWatchByDevice d |> in
            match store with
            | Some _ =>
                (d <| d_files := (FinishWatch fails session (tr_StoppedAtUnixMs result) (d_files d)).1 |>,
                 result <| tr_SavedPath := ws_SessionDir session |>)
            | None => (d, result)
            end
        end in
      (d <| pendingDebugWatchStop := resolve_waiter (tr_RequestID result) result (pendingDebugWatchStop d) |>, None)
  end.

(** [encoding/json] as far as events need it: [json_Valid] decides whether a text
    is JSON, [json_Marshal] encodes an object given by its members. *)
Inductive json_value := JNum (z : Z) | JStr (s : string) | JRaw (s : string).
Context (json_Valid : string → bool) (json_Marshal : list (string * json_value) → result string).

Definition event_line (event : DebugWatchEvent) : result string :=
  let payload := dwe_payload_json event in
  let? encoded := json_Marshal
    [("watch_id", JNum (dwe_watch_id event)); ("event_unix_ms", JNum (dwe_event_unix_ms event));
     ("section", JStr (dwe_section event)); ("event_type", JStr (dwe_event_type event));
     if json_Valid payload then ("payload", JRaw payload) else ("payload_raw", JStr payload)] in
  Ok (encoded +:+ String (ascii_of_nat 10) "").

Definition HandleDebugWatchEvent (packet : Packet) (d : DebugState) : DebugState * option string :=
  match proto_unmarshal (Payload packet) with
  | Err e => (d, Some e)
  | Ok event =>
      match activeDebugWatches d !! dwe_watch_id event with
      | None => (d, None)
      | Some session =>
          match event_line event with
          | Err e => (d, Some e)
          | Ok line =>
              match store with
              | None => (d, None)
              | Some _ =>
                  let '(fs, e) := AppendWatchEvent fails session line (d_files d) in (d <| d_files := fs |>, e)
              end
          end
      end
  end.

End Debug.
