(* ===== verification/DebugInv.v ===== *)
(** * Correctness of remote debugging: waiters, watches and the snapshot store. *)
From S2P Require Import Prelude GoString GoText NetIP NetParse Packet Proto ExpireMap Network NetworkInv UserManager.
From S2P Require Import Gateway ExitNode DeviceList DebugStore Debug.

(** ** Waiters *)
Record waiters_ok {A} (w : Waiters A) : Prop := {
  wo_empty : ∀ r ch, pending w !! r = Some ch → buffers w !! ch = Some None;
  wo_inj : ∀ r r' ch, pending w !! r = Some ch → pending w !! r' = Some ch → r = r'
}.

Section Waiters.
Context {A : Type}.
Implicit Types (w : Waiters A).

Lemma waiters_ok_send w r : waiters_ok w → ¬ send_blocks r w.
Proof. intros Hw (ch & Hp & Hb). by apply Hb, (wo_empty _ Hw r). Qed.

Lemma waiters_ok_delete w r : waiters_ok w → waiters_ok (cancel_waiter r w).
Proof.
  intros [He Hi]. split; simpl.
  - intros r1 ch [_ ?]%lookup_delete_Some. eauto.
  - intros r1 r2 ch [_ ?]%lookup_delete_Some [_ ?]%lookup_delete_Some. eauto.
Qed.

Lemma waiters_ok_finish w r ch : waiters_ok w → waiters_ok (finish_waiter r ch w).
Proof. intros Hw. unfold finish_waiter. case_bool_decide; [by apply waiters_ok_delete|done]. Qed.

Lemma waiters_ok_new w r : waiters_ok w → waiters_ok (new_waiter r w).1.
Proof.
  intros [He Hi]. assert (Hlt : ∀ r' ch, pending w !! r' = Some ch → (ch < length (buffers w))%nat).
  { intros r' ch Hp. by apply lookup_lt_is_Some, (mk_is_Some _ _ (He _ _ Hp)). }
  split; simpl.
  - intros r1 ch [[<- <-]|[_ Hp]]%lookup_insert_Some.
    + by rewrite lookup_app_r, Nat.sub_diag by done.
    + rewrite lookup_app_l by eauto. eauto.
  - intros r1 r2 ch [[<- <-]|[_ Hp]]%lookup_insert_Some [[<- Hc]|[_ Hp']]%lookup_insert_Some; [done| | |by eauto].
    + apply Hlt in Hp'. lia.
    + apply Hlt in Hp. lia.
Qed.

Lemma waiters_ok_resolve w r a : waiters_ok w → waiters_ok (resolve_waiter r a w).
Proof.
  intros [He Hi]. unfold resolve_waiter. destruct (pending w !! r) as [ch|] eqn:E; [|done]. split; simpl.
  - intros r1 ch1 [Hr Hp]%lookup_delete_Some. rewrite list_lookup_insert_ne; [by eauto|].
    intros ->. by apply Hr, (Hi _ _ ch1).
  - intros r1 r2 ch1 [_ ?]%lookup_delete_Some [_ ?]%lookup_delete_Some. eauto.
Qed.

Lemma waiters_ok_receive w ch : waiters_ok w → waiters_ok (await_receive ch w).1.
Proof.
  intros [He Hi]. unfold await_receive. destruct (buffers w !! ch) as [[a|]|] eqn:E; [|done..]. split; simpl; [|done].
  intros r ch' Hp. rewrite list_lookup_insert_ne; [by eauto|]. intros <-. apply He in Hp. congruence.
Qed.
End Waiters.

#[export] Hint Resolve waiters_ok_delete waiters_ok_finish waiters_ok_new waiters_ok_resolve waiters_ok_receive : sdl.

(** ** The state *)

(** Every active watch is filed under its number, and a device with an active
    watch is registered with exactly that watch. *)
Record debug_ok (d : DebugState) : Prop := {
  do_collect : waiters_ok (pendingDebugCollect d);
  do_start : waiters_ok (pendingDebugWatchStart d);
  do_stop : waiters_ok (pendingDebugWatchStop d);
  do_watch : ∀ id s, activeDebugWatches d !! id = Some s →
    ws_WatchID s = id ∧ (ws_DeviceID s ≠ "" → activeDebugWatchByDevice d !! ws_DeviceID s = Some id)
}.

Lemma waiters_ok_init {A} : waiters_ok (@mkWaiters A ∅ []).
Proof. split; simpl; [intros *; by rewrite lookup_empty|intros *; by rewrite lookup_empty]. Qed.

Lemma debug_ok_init : debug_ok NewDebugState.
Proof. split; [apply waiters_ok_init..|]. simpl. intros *. by rewrite lookup_empty. Qed.

Lemma debug_ok_activate session d : debug_ok d → debug_ok (activate_watch session d).
Proof.
  intros [? ? ? Hw]. split; [done..|]. unfold activate_watch. simpl. unfold const. intros id s Hs.
  apply lookup_insert_Some in Hs as [[<- <-]|[Hne Hs]].
  - split; [done|]. intros Hd. by rewrite bool_decide_eq_true_2, lookup_insert_eq.
  - assert (Hact : activeDebugWatches d !! id = Some s
        ∧ activeDebugWatchByDevice d !! ws_DeviceID session ≠ Some id).
    { destruct (activeDebugWatchByDevice d !! ws_DeviceID session) as [prev|]; [|done].
      apply lookup_delete_Some in Hs as [? ?]. split; [done|congruence]. }
    destruct Hact as [Hact Hprev]. destruct (Hw _ _ Hact) as [Hid Hdev]. split; [done|]. intros Hd.
    specialize (Hdev Hd). case_bool_decide; [|done].
    rewrite lookup_insert_ne; [done|]. intros E. rewrite E in Hprev. congruence.
Qed.

Lemma debug_ok_deactivate id s d d' : debug_ok d → activeDebugWatches d !! id = Some s →
  pendingDebugCollect d' = pendingDebugCollect d → pendingDebugWatchStart d' = pendingDebugWatchStart d →
  pendingDebugWatchStop d' = pendingDebugWatchStop d →
  activeDebugWatches d' = delete id (activeDebugWatches d) →
  activeDebugWatchByDevice d' = (if bool_decide (ws_DeviceID s ≠ "")
    then delete (ws_DeviceID s) (activeDebugWatchByDevice d) else activeDebugWatchByDevice d) →
  debug_ok d'.
Proof.
  intros [? ? ? Hw] Hs E1 E2 E3 E4 E5. split; [by rewrite ?E1, ?E2, ?E3..|]. rewrite E4, E5.
  intros id' s' [Hne Hs']%lookup_delete_Some. destruct (Hw _ _ Hs') as [? Hdev]. split; [done|]. intros Hd.
  specialize (Hdev Hd). case_bool_decide; [|done]. rewrite lookup_delete_ne; [done|].
  intros E. destruct (Hw _ _ Hs) as [_ Hdev']. specialize (Hdev' ltac:(done)). congruence.
Qed.

Lemma StartWatch_session fails store w fs :
  ws_WatchID (StartWatch fails store w fs).2.1 = ws_WatchID w ∧ ws_DeviceID (StartWatch fails store w fs).2.1 = ws_DeviceID w.
Proof.
  unfold StartWatch. case_bool_decide; [done|].
  destruct (MkdirAll _ _ _) as [fs1 [e|]]; [done|].
  destruct (writeAtomicFile _ _ _ fs1) as [fs2 [e|]]; [done|].
  destruct (writeAtomicFile _ _ _ fs2) as [fs3 [e|]]; [done|].
  by destruct (pruneWatchDeviceDir _ _ _ _).
Qed.

(** ** Histories *)
Inductive debug_op :=
| DPrepareCollect (name userID group : string) (sections : list string) (um : UserManager) (nc : NetworkControl)
| DPrepareStart (name userID group : string) (sections : list string) (duration : Z) (um : UserManager) (nc : NetworkControl)
| DPrepareStop (name userID group : string) (um : UserManager) (nc : NetworkControl)
| DAwaitCollect (requestID : Z) (ch : nat) (timeout : bool)
| DAwaitStart (requestID : Z) (ch : nat) (timeout : bool)
| DAwaitStop (requestID : Z) (ch : nat) (timeout : bool)
| DCancelCollect (requestID : Z) | DCancelStart (requestID : Z) | DCancelStop (requestID : Z)
| DCollectResponse (now_ms : Z) (packet : Packet) (um : UserManager) (nc : NetworkControl)
| DStartResponse (packet : Packet) (um : UserManager) (nc : NetworkControl)
| DStopResponse (packet : Packet) (um : UserManager) (nc : NetworkControl)
| DEvent (packet : Packet).

Section DebugInv.
Context `{UnicodeFold} `{UnicodeLower} `{ProtoMessage DebugCollectRequest} `{ProtoMessage DebugCollectResponse}
  `{ProtoMessage DebugWatchStartRequest} `{ProtoMessage DebugWatchStartResponse} `{ProtoMessage DebugWatchStopRequest}
  `{ProtoMessage DebugWatchStopResponse} `{ProtoMessage DebugWatchEvent}.
Context (o : RangeOrder) (store : option DebugSnapshotStore) (fails : fs_call → string → option string).
Context (json_Valid : string → bool) (json_Marshal : list (string * json_value) → result string).

Definition debug_exec (op : debug_op) (d : DebugState) : DebugState :=
  match op with
  | DPrepareCollect name userID group sections um nc => (PrepareDebugCollectByName o name userID group sections um nc d).1
  | DPrepareStart name userID group sections duration um nc =>
      (PrepareDebugWatchStartByName o name userID group sections duration um nc d).1
  | DPrepareStop name userID group um nc => (PrepareDebugWatchStopByName o name userID group um nc d).1
  | DAwaitCollect r ch timeout => (AwaitDebugCollect r ch timeout d).1
  | DAwaitStart r ch timeout => (AwaitDebugWatchStart r ch timeout d).1
  | DAwaitStop r ch timeout => (AwaitDebugWatchStop r ch timeout d).1
  | DCancelCollect r => CancelDebugCollect r d
  | DCancelStart r => CancelDebugWatchStart r d
  | DCancelStop r => CancelDebugWatchStop r d
  | DCollectResponse now_ms packet um nc => (HandleDebugCollectResponse o store fails now_ms packet um nc d).1
  | DStartResponse packet um nc => (HandleDebugWatchStartResponse o store fails packet um nc d).1
  | DStopResponse packet um nc => (HandleDebugWatchStopResponse o store fails packet um nc d).1
  | DEvent packet => (HandleDebugWatchEvent store fails json_Valid json_Marshal packet d).1
  end.

Definition debug_run (ops : list debug_op) (d : DebugState) : DebugState := foldl (λ d op, debug_exec op d) d ops.

(** Changing the waiters, the counters, the latest snapshots or the files only. *)
Lemma debug_ok_waiters d d' : debug_ok d →
  waiters_ok (pendingDebugCollect d') → waiters_ok (pendingDebugWatchStart d') → waiters_ok (pendingDebugWatchStop d') →
  activeDebugWatches d' = activeDebugWatches d → activeDebugWatchByDevice d' = activeDebugWatchByDevice d → debug_ok d'.
Proof. intros [? ? ? Hw] ? ? ? E1 E2. split; [done..|]. by rewrite E1, E2. Qed.

Lemma debug_ok_resolveCollect now_ms result d : debug_ok d → debug_ok (resolveDebugCollect store fails now_ms result d).
Proof.
  intros Hd. unfold resolveDebugCollect. destruct (match store with Some _ => _ | None => _ end) as [fs res].
  apply (debug_ok_waiters d); simpl; [done|apply waiters_ok_resolve|..]; by destruct Hd.
Qed.

Ltac waiters :=
  match goal with Hd : debug_ok ?d |- debug_ok _ =>
    apply (debug_ok_waiters d); simpl; unfold const; try done; destruct Hd; solve [auto with sdl]
  end.

Lemma debug_ok_stop packet um nc d : debug_ok d →
  debug_ok (HandleDebugWatchStopResponse o store fails packet um nc d).1.
Proof.
  intros Hd. unfold HandleDebugWatchStopResponse. destruct (proto_unmarshal _) as [resp|e]; [|done].
  unfold decorateDebugWatchStopResult. set (id := decorateDebugWatchIdentity _ _ _ _). clearbody id. cbv zeta.
  assert (Hmid : ∀ d1 (result : DebugWatchStopResult), debug_ok d1 → debug_ok (d1 <| pendingDebugWatchStop :=
      resolve_waiter (tr_RequestID result) result (pendingDebugWatchStop d1) |>)) by (intros; waiters).
  simpl tr_WatchID. destruct (activeDebugWatches d !! dtr_watch_id resp) as [s|] eqn:Hs; [|by apply Hmid].
  destruct store as [st|]; apply Hmid; by apply (debug_ok_deactivate _ _ _ _ Hd Hs).
Qed.

Lemma debug_ok_start packet um nc d : debug_ok d →
  debug_ok (HandleDebugWatchStartResponse o store fails packet um nc d).1.
Proof.
  intros Hd. unfold HandleDebugWatchStartResponse. destruct (proto_unmarshal _) as [resp|e]; [|done].
  unfold decorateDebugWatchStartResult. set (id := decorateDebugWatchIdentity _ _ _ _). clearbody id. cbv zeta.
  destruct (dsr_ok resp); simpl; [|unfold resolveDebugWatchStartFailure; waiters].
  destruct (match store with Some _ => _ | None => _ end) as [[fs session] result]. simpl.
  assert (Hd' : debug_ok (d <| d_files := fs |>)) by waiters.
  apply (debug_ok_activate session) in Hd'. waiters.
Qed.

Lemma debug_ok_event packet d : debug_ok d → debug_ok (HandleDebugWatchEvent store fails json_Valid json_Marshal packet d).1.
Proof.
  intros Hd. unfold HandleDebugWatchEvent. destruct (proto_unmarshal _) as [ev|e]; [|done].
  destruct (activeDebugWatches d !! _) as [s|]; [|done]. destruct (event_line _ _ _) as [line|e]; [|done].
  destruct store as [st|]; [|done]. destruct (AppendWatchEvent _ _ _ _) as [fs e]. waiters.
Qed.

(** The waiters an operation creates or receives from. *)
Ltac waiter_step :=
  match goal with Hd : debug_ok _ |- context [let '(_, _) := ?f in _] =>
    let w := fresh "w" in let x := fresh "x" in let E := fresh "E" in
    destruct f as [w x] eqn:E;
    assert (waiters_ok w) by (change w with (w, x).1; rewrite <-E; destruct Hd; auto with sdl); simpl
  end.

Lemma debug_exec_ok op d : debug_ok d → debug_ok (debug_exec op d).
Proof.
  intros Hd. destruct op; simpl; try (unfold CancelDebugCollect, CancelDebugWatchStart, CancelDebugWatchStop; waiters).
  - unfold PrepareDebugCollectByName, newDebugCollectWaiter. destruct (findOnlineDeviceByName _ _ _ _ _ _); [|done].
    waiter_step. destruct (proto_marshal _); simpl; waiters.
  - unfold PrepareDebugWatchStartByName, newDebugWatchStartWaiter. destruct (findOnlineDeviceByName _ _ _ _ _ _); [|done].
    waiter_step. destruct (proto_marshal _); simpl; waiters.
  - unfold PrepareDebugWatchStopByName, newDebugWatchStopWaiter. destruct (findOnlineDeviceByName _ _ _ _ _ _); [|done].
    waiter_step. destruct (proto_marshal _); simpl; waiters.
  - unfold AwaitDebugCollect. destruct timeout; [unfold CancelDebugCollect|waiter_step]; waiters.
  - unfold AwaitDebugWatchStart. destruct timeout; [unfold CancelDebugWatchStart|waiter_step]; waiters.
  - unfold AwaitDebugWatchStop. destruct timeout; [unfold CancelDebugWatchStop|waiter_step]; waiters.
  - unfold HandleDebugCollectResponse. destruct (proto_unmarshal _) as [resp|e]; [|done].
    by apply debug_ok_resolveCollect.
  - by apply debug_ok_start.
  - by apply debug_ok_stop.
  - by apply debug_ok_event.
Qed.

Lemma debug_run_ok ops d : debug_ok d → debug_ok (debug_run ops d).
Proof. revert d. induction ops as [|op ops IH]; intros d Hd; simpl; [done|]. by apply IH, debug_exec_ok. Qed.

(** After any sequence of requests, answers, events, time-outs and
    cancellations, in any interleaving, no answer can block the session that
    delivers it, and a device has at most one active watch, the one that a request
    to stop its watch names. *)
Theorem debug_reachable_ok (ops : list debug_op) :
  let d := debug_run ops NewDebugState in
  (∀ r, ¬ send_blocks r (pendingDebugCollect d) ∧ ¬ send_blocks r (pendingDebugWatchStart d)
        ∧ ¬ send_blocks r (pendingDebugWatchStop d))
  ∧ (∀ id s, activeDebugWatches d !! id = Some s → ws_WatchID s = id
       ∧ (ws_DeviceID s ≠ "" → activeDebugWatchByDevice d !! ws_DeviceID s = Some id
            ∧ ∀ id' s', activeDebugWatches d !! id' = Some s' → ws_DeviceID s' = ws_DeviceID s → id' = id)).
Proof.
  intros d. pose proof (debug_run_ok ops _ debug_ok_init) as [Hc Hs Ht Hw]. fold d in Hc, Hs, Ht, Hw.
  split; [intros r; split_and!; by apply waiters_ok_send|].
  intros id s Hid. destruct (Hw _ _ Hid) as [? Hdev]. split; [done|]. intros Hd. specialize (Hdev Hd). split; [done|].
  intros id' s' Hid' E. destruct (Hw _ _ Hid') as [_ Hdev']. rewrite E in Hdev'. specialize (Hdev' Hd). congruence.
Qed.

(** ** An answer reaches the request it belongs to *)
Lemma resolveCollect_pending now_ms result d : ∃ res,
  pendingDebugCollect (resolveDebugCollect store fails now_ms result d)
    = resolve_waiter (cr_RequestID result) res (pendingDebugCollect d)
  ∧ debugCollectSeq (resolveDebugCollect store fails now_ms result d) = debugCollectSeq d
  ∧ cr_RequestID res = cr_RequestID result ∧ cr_SnapshotJSON res = cr_SnapshotJSON result
  ∧ cr_DeviceID res = cr_DeviceID result.
Proof.
  unfold resolveDebugCollect. destruct (match store with Some _ => _ | None => _ end) as [fs res] eqn:E. simpl. unfold const.
  exists res.
  assert (cr_RequestID res = cr_RequestID result ∧ cr_SnapshotJSON res = cr_SnapshotJSON result
    ∧ cr_DeviceID res = cr_DeviceID result) as (-> & ? & ?); [|done].
  destruct store as [st|]; [|by injection E as _ <-]. case_bool_decide; [|by injection E as _ <-].
  destruct (Save _ _ _ _ _) as [fs' [path|e]]; by injection E as _ <-.
Qed.

Ltac resolved :=
  match goal with |- context [resolveDebugCollect _ _ ?t ?result ?d] =>
    destruct (resolveCollect_pending t result d) as (res & Hpend & Hseq' & Hrid & Hjs & Hdev);
    rewrite ?Hpend, ?Hseq'; simpl in Hrid, Hjs, Hdev |- *
  end.

(** An operation that does not concern request [r] and its channel. *)
Definition quiet (r : Z) (ch : nat) (op : debug_op) : Prop :=
  match op with
  | DAwaitCollect r' ch' timeout => ch' ≠ ch ∧ (timeout = true → r' ≠ r)
  | DCancelCollect r' => r' ≠ r
  | DCollectResponse _ p _ _ => ∀ resp, proto_unmarshal (Payload p) = Ok resp → dcr_request_id resp ≠ r
  | _ => True
  end.

(** What such an operation does to the waiters for snapshots. *)
Inductive quiet_step (r : Z) (ch : nat) (seq : Z) (w : Waiters DebugCollectResult) : Z → Waiters DebugCollectResult → Prop :=
| QSame : quiet_step r ch seq w seq w
| QNew : quiet_step r ch seq w (u64 (seq + 1)) (new_waiter (u64 (seq + 1)) w).1
| QFinish : quiet_step r ch seq w (u64 (seq + 1))
    (finish_waiter (u64 (seq + 1)) (length (buffers w)) (new_waiter (u64 (seq + 1)) w).1)
| QCancel r' : r' ≠ r → quiet_step r ch seq w seq (cancel_waiter r' w)
| QResolve r' a : r' ≠ r → quiet_step r ch seq w seq (resolve_waiter r' a w)
| QReceive ch' : ch' ≠ ch → quiet_step r ch seq w seq (await_receive ch' w).1.

Lemma debug_exec_quiet r ch op d : quiet r ch op →
  quiet_step r ch (debugCollectSeq d) (pendingDebugCollect d)
    (debugCollectSeq (debug_exec op d)) (pendingDebugCollect (debug_exec op d)).
Proof.
  intros Hq. destruct op; simpl in *; try apply QSame.
  - unfold PrepareDebugCollectByName, newDebugCollectWaiter. destruct (findOnlineDeviceByName _ _ _ _ _ _); [|apply QSame].
    simpl. destruct (proto_marshal _); simpl; unfold const; [apply QNew|apply QFinish].
  - unfold PrepareDebugWatchStartByName, newDebugWatchStartWaiter.
    destruct (findOnlineDeviceByName _ _ _ _ _ _); [|apply QSame].
    simpl. destruct (proto_marshal _); simpl; apply QSame.
  - unfold PrepareDebugWatchStopByName, newDebugWatchStopWaiter.
    destruct (findOnlineDeviceByName _ _ _ _ _ _); [|apply QSame].
    simpl. destruct (proto_marshal _); simpl; apply QSame.
  - unfold AwaitDebugCollect. destruct timeout; simpl; unfold const; [apply QCancel; by apply Hq|].
    destruct (await_receive _ _) as [w x] eqn:E. simpl. unfold const. change w with (w, x).1. rewrite <-E.
    by apply QReceive, Hq.
  - unfold AwaitDebugWatchStart. destruct timeout; [apply QSame|]. destruct (await_receive _ _). apply QSame.
  - unfold AwaitDebugWatchStop. destruct timeout; [apply QSame|]. destruct (await_receive _ _). apply QSame.
  - by apply QCancel.
  - unfold HandleDebugCollectResponse. destruct (proto_unmarshal _) as [resp|e]; [|apply QSame]. simpl.
    resolved.
    by apply QResolve, Hq.
  - unfold HandleDebugWatchStartResponse. destruct (proto_unmarshal _) as [resp|e]; [|apply QSame].
    destruct (dsr_ok resp); [|apply QSame]. simpl.
    destruct (match store with Some _ => _ | None => _ end) as [[fs session] result]. apply QSame.
  - unfold HandleDebugWatchStopResponse. destruct (proto_unmarshal _) as [resp|e]; [|apply QSame]. simpl.
    destruct (activeDebugWatches d !! _) as [s|]; [|apply QSame]. destruct store; apply QSame.
  - unfold HandleDebugWatchEvent. destruct (proto_unmarshal _) as [ev|e]; [|apply QSame].
    destruct (activeDebugWatches d !! _) as [s|]; [|apply QSame]. destruct (event_line _ _ _) as [line|e]; [|apply QSame].
    destruct store as [st|]; [|apply QSame]. destruct (AppendWatchEvent _ _ _ _) as [fs e]. apply QSame.
Qed.

(** The request is pending under its number, and the counter is not far ahead. *)
Definition waiting (r : Z) (ch : nat) (n : Z) (seq : Z) (w : Waiters DebugCollectResult) : Prop :=
  pending w !! r = Some ch ∧ ∃ k, 0 ≤ k ≤ n ∧ seq = u64 (r + k).

Lemma waiting_step r ch n seq w seq' w' : 0 ≤ r < 2 ^ 64 → 0 ≤ n < 2 ^ 64 - 1 → quiet_step r ch seq w seq' w' →
  waiting r ch n seq w → waiting r ch (n + 1) seq' w'.
Proof.
  intros Hr Hn Hq [Hp (k & Hk & Hseq)].
  assert (Hfresh : u64 (seq + 1) ≠ r ∧ u64 (seq + 1) = u64 (r + (k + 1))).
  { subst seq. unfold u64. rewrite Zplus_mod_idemp_l. split; [|f_equal; lia].
    intros E. rewrite <-(Z.mod_small r (2 ^ 64)) in E at 2 by lia.
    apply (f_equal (λ z, (z - r) mod 2 ^ 64)) in E. rewrite Zminus_mod_idemp_l, Zminus_mod_idemp_l in E.
    replace (r + k + 1 - r) with (k + 1) in E by lia. rewrite Z.sub_diag, Zmod_0_l, Z.mod_small in E; lia. }
  destruct Hfresh as [Hne Hnext]. split.
  - inversion Hq; subst; simpl; try done.
    + by rewrite lookup_insert_ne.
    + unfold finish_waiter. case_bool_decide; simpl; [rewrite lookup_delete_ne by done|]; by rewrite lookup_insert_ne.
    + by rewrite lookup_delete_ne.
    + unfold resolve_waiter. destruct (pending w !! r'); simpl; [|done]. by rewrite lookup_delete_ne.
    + unfold await_receive. by destruct (buffers w !! ch') as [[]|].
  - inversion Hq; subst seq' w'; first [exists k; split; [lia|done] | exists (k + 1); split; [lia|done]].
Qed.

(** The answer sits in the channel until it is received. *)
Lemma answered_step r ch seq w seq' w' a : waiters_ok w → quiet_step r ch seq w seq' w' →
  buffers w !! ch = Some (Some a) → buffers w' !! ch = Some (Some a).
Proof.
  intros Hw Hq Hb. inversion Hq; subst; simpl; try done.
  - by apply lookup_app_l_Some.
  - unfold finish_waiter. case_bool_decide; simpl; by apply lookup_app_l_Some.
  - unfold resolve_waiter. destruct (pending w !! r') as [ch'|] eqn:E; simpl; [|done].
    rewrite list_lookup_insert_ne; [done|]. intros ->. apply (wo_empty _ Hw) in E. congruence.
  - unfold await_receive. destruct (buffers w !! ch') as [[]|]; simpl; [|done..]. by rewrite list_lookup_insert_ne.
Qed.

Lemma waiting_run r ch ops d n : 0 ≤ r < 2 ^ 64 → 0 ≤ n → n + Z.of_nat (length ops) < 2 ^ 64 → Forall (quiet r ch) ops →
  waiting r ch n (debugCollectSeq d) (pendingDebugCollect d) →
  waiting r ch (n + Z.of_nat (length ops)) (debugCollectSeq (debug_run ops d)) (pendingDebugCollect (debug_run ops d)).
Proof.
  intros Hr Hn0 Hn Hall. revert d n Hn0 Hn. induction Hall as [|op ops Hq _ IH]; intros d n Hn0 Hn Hw; simpl in *.
  - by rewrite Z.add_0_r.
  - replace (n + Z.of_nat (S (length ops))) with (n + 1 + Z.of_nat (length ops)) by lia.
    apply IH; [lia..|]. eapply waiting_step; [done| |by apply debug_exec_quiet|done]. lia.
Qed.

Lemma answered_run r ch ops d a : debug_ok d → Forall (quiet r ch) ops →
  buffers (pendingDebugCollect d) !! ch = Some (Some a) →
  buffers (pendingDebugCollect (debug_run ops d)) !! ch = Some (Some a).
Proof.
  intros Hd Hall. revert d Hd. induction Hall as [|op ops Hq _ IH]; intros d Hd Hb; simpl; [done|].
  apply IH; [by apply debug_exec_ok|]. eapply answered_step; [apply Hd|by apply debug_exec_quiet|done].
Qed.


(** An answer that is handled before the administrator's request has looked its
    channel up removes the entry: the request then fails as unknown. *)
Lemma early_answer_lost (r : Z) (now_ms : Z) (answer : Packet) (resp : DebugCollectResponse) um nc (d : DebugState) :
  proto_unmarshal (Payload answer) = Ok resp → dcr_request_id resp = r →
  await_lookup r (pendingDebugCollect (debug_exec (DCollectResponse now_ms answer um nc) d)) = None.
Proof.
  intros Hdec Hr. simpl. unfold HandleDebugCollectResponse. rewrite Hdec. simpl.
  resolved. rewrite Hr.
  unfold await_lookup, resolve_waiter. destruct (pending (pendingDebugCollect d) !! r) eqn:Hp; simpl; [apply lookup_delete_eq|done].
Qed.

(** A watch is ended by any client that names its number: neither the device nor
    the outcome reported in the answer is looked at. *)
Lemma foreign_stop_ends_watch (packet : Packet) (resp : DebugWatchStopResponse) um nc (d : DebugState) :
  proto_unmarshal (Payload packet) = Ok resp →
  activeDebugWatches (debug_exec (DStopResponse packet um nc) d) !! dtr_watch_id resp = None.
Proof.
  intros Hdec. simpl. unfold HandleDebugWatchStopResponse. rewrite Hdec. simpl.
  destruct (activeDebugWatches d !! dtr_watch_id resp) as [s|] eqn:E; [|done].
  destruct store; simpl; unfold const; apply lookup_delete_eq.
Qed.

(** ** The device a request is sent to *)
Lemma omap_singleton {A B} (f : A → option B) (l : list A) (b : B) : NoDup l →
  omap f l = [b] ↔ ∃ x, x ∈ l ∧ f x = Some b ∧ ∀ y, y ∈ l → is_Some (f y) → y = x.
Proof.
  induction 1 as [|x l Hx Hnd IH]; simpl; [split; [done|by intros (? & ?%not_elem_of_nil & _)]|].
  destruct (f x) as [b'|] eqn:E.
  - split.
    + intros [= -> Hnil]. change (omap f l = []) in Hnil. exists x. split_and!; [by left|done|]. intros y [->|Hy]%elem_of_cons [c Hc]; [done|].
      assert (c ∈ omap f l) as Hin by (apply list_elem_of_omap; eauto). rewrite Hnil in Hin. by apply not_elem_of_nil in Hin.
    + intros (z & Hz & Hb & Hu). assert (z = x) as -> by (symmetry; apply Hu; [by left|by eexists]).
      rewrite E in Hb. injection Hb as ->. f_equal. apply elem_of_nil_inv. intros c (y & Hy & Hc)%list_elem_of_omap.
      apply Hx. rewrite <-(Hu y); [done|by right|by eexists].
  - rewrite IH. split; intros (z & Hz & Hb & Hu); exists z.
    + split_and!; [by right|done|]. intros y [->|Hy]%elem_of_cons Hs; [by rewrite E in Hs; destruct Hs|by apply Hu].
    + apply elem_of_cons in Hz as [->|Hz]; [congruence|]. split_and!; [done..|]. intros y Hy. apply Hu. by right.
Qed.

(** Every client with the network it is in. *)
Definition all_clients (nc : NetworkControl) : list (NetworkInfo * (Z * ClientInfo)) :=
  '(_, network) ← range o (networks nc); (λ entry, (network, entry)) <$> range o (Clients network).

Lemma online_matches_all name user group um nc :
  online_matches o name user group um nc = omap (λ x, match_client name user group um x.1 x.2) (all_clients nc).
Proof.
  unfold online_matches, forEachVirtualNetworkRead, all_clients.
  set (f := λ network : NetworkInfo, omap (match_client name user group um network) (range o (Clients network))).
  assert (Hgen : ∀ l acc, visit_until (λ '((key, network) : string * NetworkInfo) s,
      if bool_decide (TrimSpace "" ≠ "") && bool_decide (key ≠ TrimSpace "") then (s, true) else (s ++ f network, true)) l acc
    = acc ++ omap (λ x, match_client name user group um x.1 x.2)
        ('(_, network) ← l; (λ entry, (network, entry)) <$> range o (Clients network))).
  { induction l as [|[key network] l IH]; intros acc; simpl; [by rewrite app_nil_r|].
    rewrite IH, <-app_assoc, omap_app. do 2 f_equal. unfold f. clear.
    induction (range o (Clients network)) as [|[ip c] l IH]; csimpl; [done|]. by rewrite IH. }
  by rewrite Hgen.
Qed.

Lemma elem_of_all_clients nc n ip cl :
  (n, (ip, cl)) ∈ all_clients nc ↔ ∃ key, networks nc !! key = Some n ∧ Clients n !! ip = Some cl.
Proof.
  unfold all_clients. rewrite list_elem_of_bind. split.
  - intros ([key n'] & ([ip' cl'] & [= -> -> ->] & Hc)%list_elem_of_fmap & Hn).
    exists key. split; [by apply (elem_of_range o)|by apply (elem_of_range o)].
  - intros (key & Hn & Hc). exists (key, n). split; [|by apply elem_of_range].
    apply list_elem_of_fmap. exists (ip, cl). split; [done|by apply elem_of_range].
Qed.

(** A debug request is addressed to a device only if it is the only
    online client, over all networks, that has the requested name and the requested
    user and group; the packet is routed to its address in its network. *)
Theorem debug_request_addressee (name userID group : string) um nc (m : DebugMatch) :
  findOnlineDeviceByName o name userID group um nc = Ok m →
  ∃ key n ip cl, networks nc !! key = Some n ∧ Clients n !! ip = Some cl ∧ ControlOnline cl = true
    ∧ EqualFold (TrimSpace (Name cl)) (TrimSpace name) = true
    ∧ m_ip m = ip ∧ m_networkKey m = clientNetworkKey cl (Group n) ∧ dv_DeviceID (m_view m) = DeviceId cl
    ∧ ∀ key' n' ip' cl' m', networks nc !! key' = Some n' → Clients n' !! ip' = Some cl' →
        match_client (TrimSpace name) (TrimSpace userID) (TrimSpace group) um n' (ip', cl') = Some m' → m' = m.
Proof.
  unfold findOnlineDeviceByName. case_bool_decide; [done|]. intros Hf.
  assert (Hone : online_matches o (TrimSpace name) (TrimSpace userID) (TrimSpace group) um nc = [m]).
  { destruct (online_matches _ _ _ _ _ _) as [|m1 [|m2 ms]]; [done| |done]. by injection Hf as ->. }
  clear Hf. rewrite online_matches_all in Hone.
  assert (Hin : m ∈ omap (λ x, match_client (TrimSpace name) (TrimSpace userID) (TrimSpace group) um x.1 x.2)
      (all_clients nc)) by (rewrite Hone; by left).
  apply list_elem_of_omap in Hin as ([n [ip cl]] & Hin & Hm). apply elem_of_all_clients in Hin as (key & Hn & Hc).
  exists key, n, ip, cl. simpl in Hm.
  assert (Hu : ∀ key' n' ip' cl' m', networks nc !! key' = Some n' → Clients n' !! ip' = Some cl' →
      match_client (TrimSpace name) (TrimSpace userID) (TrimSpace group) um n' (ip', cl') = Some m' → m' = m).
  { intros key' n' ip' cl' m' Hn' Hc' Hm'. apply list_elem_of_singleton. rewrite <-Hone. apply list_elem_of_omap.
    exists (n', (ip', cl')). split; [apply elem_of_all_clients; eauto|done]. }
  unfold match_client in Hm. destruct (_ && negb (EqualFold _ (TrimSpace group))); [done|].
  destruct (negb (ControlOnline cl) || _) eqn:E; [done|]. bool_prop.
  destruct (_ && negb (EqualFold _ (TrimSpace userID))); [done|]. injection Hm as <-. by split_and!.
Qed.

End DebugInv.

(** ** Examples *)
Module SampleDebug.
(** A codec with one message. *)
Definition answer : DebugCollectResponse :=
  {| dcr_request_id := 1; dcr_ok := true; dcr_reason := ""; dcr_collected_at_unix_ms := 7; dcr_snapshot_json := "{}" |}.
Definition collect_request_codec : ProtoMessage DebugCollectRequest :=
  {| proto_marshal := λ _, Ok []; proto_unmarshal := λ _, Err "none" |}.
Definition collect_codec : ProtoMessage DebugCollectResponse :=
  {| proto_marshal := λ _, Ok []; proto_unmarshal := λ _, Ok answer |}.
Definition none {M} : ProtoMessage M := {| proto_marshal := λ _, Err "none"; proto_unmarshal := λ _, Err "none" |}.
Definition nc : NetworkControl := Sample.nc true.
Definition named : NetworkControl :=
  set_network "g" (UpsertClient 167772162 ((Sample.client "a" true) <| Name := "laptop" |>) (Sample.net true)) nc.
Definition packet : Packet := debug_packet AppProtoDebugCollectResponse 167772162 "g" [].
Definition no_json (l : list (string * json_value)) : result string := Err "none".
End SampleDebug.

Lemma debug_request_addressee_witness :
  ∃ m, @findOnlineDeviceByName AsciiFold ascending "Laptop " "" "" NewUserManager SampleDebug.named = Ok m
    ∧ m_ip m = 167772162
    ∧ ∃ key n cl, networks SampleDebug.named !! key = Some n ∧ Clients n !! 167772162 = Some cl ∧ ControlOnline cl = true
        ∧ dv_DeviceID (m_view m) = DeviceId cl.
Proof.
  set (r := @findOnlineDeviceByName AsciiFold ascending "Laptop " "" "" NewUserManager SampleDebug.named).
  assert (Hip : match r with Ok m => m_ip m | Err _ => 0 end = 167772162) by (by vm_compute).
  assert (E : @findOnlineDeviceByName AsciiFold ascending "Laptop " "" "" NewUserManager SampleDebug.named = r) by done.
  clearbody r. destruct r as [m|e]; [|discriminate Hip].
  exists m. split; [reflexivity|]. split; [exact Hip|].
  destruct (@debug_request_addressee AsciiFold ascending _ _ _ _ _ _ E)
    as (key & n & ip & cl & Hn & Hc & Hon & _ & Hm & _ & Hd & _).
  rewrite Hip in Hm. subst ip. exists key, n, cl. exact (conj Hn (conj Hc (conj Hon Hd))).
Defined.

