(* ===== verification/UmStore.v ===== *)
(** * The stores of the user manager and of the gateways:
    [control/user_store_postgres.go], [control/user_store.go] and
    [control/gateway_store.go].

    [UMTables] are the tables the database store works on.  A call to the database
    fails when [fails] says so; the statements of one [Save] run in a transaction,
    that is on a copy of the tables which the commit installs.  [stored_time] is
    what a column of type [TIMESTAMPTZ] gives back for a time: its resolution is
    coarser than that of the program.  The file stores use the file system of
    [DebugStore]. *)
From S2P Require Import Prelude GoString GoText NetIP NetParse Proto ExpireMap Network UserManager DebugStore.

(** ** The database *)
Inductive db_call :=
| DBBegin
| DBUpsert (table : string) (key : list string)
| DBSelect (table : string)
| DBScan (table : string) (key : list string)
| DBRows (table : string)
| DBDelete (table : string) (key : list string)
| DBSequence (name : string).

(** A commit that reports an error may have been applied or not. *)
Inductive commit_outcome := Commits | CommitFails (msg : string) (applied : bool).

(** A row of [um_devices], which has fewer columns than [UMDevice] has fields. *)
Record device_row := mkDeviceRow {
  dr_pub_key_hex : string; dr_user_id : string; dr_device_id : string; dr_display_name : string; dr_created_at : Z
}.

Record UMTables := mkUMTables {
  um_users : gmap string UMUser;
  um_policies : gmap string UMPolicy;
  um_enrollments : gmap string UMEnrollment;
  um_devices : gmap string device_row;
  um_certified_devices : gmap (string * string) UMAuthDevice;
  um_device_tickets : gmap string UMDeviceTicket;
  um_sequences : gmap string Z
}.

(** The tables as the migrations leave them. *)
Definition migratedTables : UMTables :=
  mkUMTables ∅ ∅ ∅ ∅ ∅ ∅ (<["user_seq" := 0]> (<["enrollment_seq" := 0]> ∅)).

Section Tables.
Context (o : RangeOrder) (fails : db_call → option string).
Context `{Countable K} {V R : Type}.
Implicit Types (t : gmap K R) (label : K → list string).

(** [INSERT ... ON CONFLICT ... DO UPDATE] for every value. *)
Fixpoint upsert_rows (table what : string) label (key : V → K) (row : V → R) (vs : list V) t : result (gmap K R) :=
  match vs with
  | [] => Ok t
  | v :: vs' =>
      match fails (DBUpsert table (label (key v))) with
      | Some e => Err ("insert " +:+ what +:+ ": " +:+ e)
      | None => upsert_rows table what label key row vs' (<[key v := row v]> t)
      end
  end.

Fixpoint delete_rows (table : string) label (missing : list K) t : result (gmap K R) :=
  match missing with
  | [] => Ok t
  | k :: missing' =>
      match fails (DBDelete table (label k)) with
      | Some e => Err e
      | None => delete_rows table label missing' (delete k t)
      end
  end.

(** The first row that cannot be scanned. *)
Definition scan_error (table : string) label (keys : list K) : option string :=
  head (omap (λ k, fails (DBScan table (label k))) keys).

(** [deleteMissingStringKeys] and [deleteMissingCertifiedDevices]: [keep] is the
    membership test of each. *)
Definition delete_missing (table : string) label (keep : K → bool) t : result (gmap K R) :=
  match fails (DBSelect table) with
  | Some e => Err e
  | None =>
      let keys := (range o t).*1 in
      match scan_error table label keys with
      | Some e => Err e
      | None =>
          match fails (DBRows table) with
          | Some e => Err e
          | None => delete_rows table label (filter (λ k, keep k = false) keys) t
          end
      end
  end.

(** One table of [Save]. *)
Definition save_table (table what : string) label (key : V → K) (row : V → R) (keep : K → bool) (vs : gmap string V) t
    : result (gmap K R) :=
  let? t := upsert_rows table what label key row (range o vs).*2 t in
  match delete_missing table label keep t with
  | Err e => Err ("delete stale " +:+ table +:+ ": " +:+ e)
  | Ok t => Ok t
  end.

(** One table of [Load]. *)
Definition load_table (table what : string) label (value : R → V) (skey : V → string) t : result (gmap string V) :=
  match fails (DBSelect table) with
  | Some e => Err ("load " +:+ table +:+ ": " +:+ e)
  | None =>
      match scan_error table label (range o t).*1 with
      | Some e => Err ("scan " +:+ what +:+ ": " +:+ e)
      | None =>
          match fails (DBRows table) with
          | Some e => Err e
          | None => Ok (foldl (λ m r, <[skey (value r) := value r]> m) ∅ (range o t).*2)
          end
      end
  end.
End Tables.

(** ** [PostgresUMStore] *)
Definition name_label (k : string) : list string := [k].
Definition pair_label (k : string * string) : list string := [k.1; k.2].

Definition certified_key (c : UMAuthDevice) : string * string := (a_GroupName c, a_DeviceID c).

(** What [Scan] makes of a row of [um_devices]: the other fields stay zero. *)
Definition device_of_row (r : device_row) : UMDevice :=
  mkUMDevice (dr_user_id r) (dr_device_id r) (dr_display_name r) "" (dr_pub_key_hex r) (dr_created_at r) zero_time.

Section Postgres.
Context (stored_time : Z → Z).

Definition user_row (u : UMUser) : UMUser := u <| u_CreatedAt := stored_time (u_CreatedAt u) |>.
Definition policy_row (p : UMPolicy) : UMPolicy :=
  p <| p_CreatedAt := stored_time (p_CreatedAt p) |> <| p_UpdatedAt := stored_time (p_UpdatedAt p) |>.
Definition enrollment_row (e : UMEnrollment) : UMEnrollment :=
  e <| e_ExpireAt := stored_time (e_ExpireAt e) |> <| e_CreatedAt := stored_time (e_CreatedAt e) |>.
Definition row_of_device (d : UMDevice) : device_row :=
  mkDeviceRow (d_PubKeyHex d) (d_UserID d) (d_DeviceID d) (d_DisplayName d) (stored_time (d_CreatedAt d)).
Definition certified_row (c : UMAuthDevice) : UMAuthDevice :=
  c <| a_AuthedAt := stored_time (a_AuthedAt c) |> <| a_AuthExpireAt := stored_time (a_AuthExpireAt c) |>.
Definition ticket_row (t : UMDeviceTicket) : UMDeviceTicket :=
  t <| t_ExpireAt := stored_time (t_ExpireAt t) |> <| t_CreatedAt := stored_time (t_CreatedAt t) |>.

Context (o : RangeOrder) (fails : db_call → option string).

(** [keep[key]] of [deleteMissingStringKeys] with [snapshotStringKeys]. *)
Definition in_snapshot {V} (vs : gmap string V) (k : string) : bool := bool_decide (is_Some (vs !! k)).

Definition set_sequence (name : string) (val : Z) (seqs : gmap string Z) : result (gmap string Z) :=
  match fails (DBSequence name) with
  | Some e => Err ("update " +:+ name +:+ ": " +:+ e)
  | None => Ok (<[name := val]> seqs)
  end.

(** The statements of [Save] between the start of the transaction and the commit. *)
Definition save_statements (snap : UMSnapshot) (t : UMTables) : result UMTables :=
  let? users := save_table o fails "um_users" "um_user" name_label u_UserID user_row
                  (in_snapshot (s_Users snap)) (s_Users snap) (um_users t) in
  let? enrollments := save_table o fails "um_enrollments" "um_enrollment" name_label e_Code enrollment_row
                  (in_snapshot (s_Enrollments snap)) (s_Enrollments snap) (um_enrollments t) in
  let? devices := save_table o fails "um_devices" "um_device" name_label d_PubKeyHex row_of_device
                  (in_snapshot (s_DeviceByPubKey snap)) (s_DeviceByPubKey snap) (um_devices t) in
  let? certified := save_table o fails "um_certified_devices" "um_certified_device" pair_label certified_key certified_row
                  (λ k, in_snapshot (s_CertifiedDevices snap) (authedDeviceKey k.1 k.2)) (s_CertifiedDevices snap)
                  (um_certified_devices t) in
  let? policies := save_table o fails "um_policies" "um_policy" name_label p_UserID policy_row
                  (in_snapshot (s_Policies snap)) (s_Policies snap) (um_policies t) in
  let? tickets := save_table o fails "um_device_tickets" "um_device_ticket" name_label t_Ticket ticket_row
                  (in_snapshot (s_DeviceTickets snap)) (s_DeviceTickets snap) (um_device_tickets t) in
  let? seqs := set_sequence "user_seq" (s_UserSeq snap) (um_sequences t) in
  let? seqs := set_sequence "enrollment_seq" (s_EnrollmentSeq snap) seqs in
  Ok (mkUMTables users policies enrollments devices certified tickets seqs).

Definition pgSave (commit : commit_outcome) (snap : UMSnapshot) (t : UMTables) : UMTables * option string :=
  match fails DBBegin with
  | Some e => (t, Some ("save um begin tx: " +:+ e))
  | None =>
      match save_statements snap t with
      | Err e => (t, Some e)
      | Ok t' =>
          match commit with
          | Commits => (t', None)
          | CommitFails e applied => (if applied then t' else t, Some e)
          end
      end
  end.

(** The error of reading a sequence is ignored, and its value stays zero. *)
Definition load_sequence (name : string) (t : UMTables) : Z :=
  match fails (DBSequence name) with
  | Some _ => 0
  | None => default 0 (um_sequences t !! name)
  end.

Definition pgLoad (t : UMTables) : result UMSnapshot :=
  let? users := load_table o fails "um_users" "um_user" name_label (λ u, u) u_UserID (um_users t) in
  let? policies := load_table o fails "um_policies" "um_policy" name_label (λ p, p) p_UserID (um_policies t) in
  let? enrollments := load_table o fails "um_enrollments" "um_enrollment" name_label (λ e, e) e_Code (um_enrollments t) in
  let? devices := load_table o fails "um_devices" "um_device" name_label device_of_row d_PubKeyHex (um_devices t) in
  let? certified := load_table o fails "um_certified_devices" "um_certified_device" pair_label (λ c, c)
                      (λ c, authedDeviceKey (a_GroupName c) (a_DeviceID c)) (um_certified_devices t) in
  let? tickets := load_table o fails "um_device_tickets" "um_device_ticket" name_label (λ t, t) t_Ticket
                    (um_device_tickets t) in
  Ok (mkUMSnapshot (load_sequence "user_seq" t) (load_sequence "enrollment_seq" t) users policies enrollments devices
        certified tickets).
End Postgres.

(** ** [JSONUMStore] and [JSONGatewayStore]

    The two differ in the type they store and in the name in their messages.
    [encode] and [decode] are [json.MarshalIndent] and [json.Unmarshal]; [zero] is
    the empty snapshot. *)
Section JsonStore.
Context {S : Type} (what : string) (encode : S → result string) (decode : string → result S) (zero : S).
Context (fails : fs_call → string → option string).

(** [filepath.Dir] *)
Definition path_dir (path : string) : string := Clean (dir_of path).

Definition jsonLoad (path : string) (fs : FS) : result S :=
  match fails COpen path with
  | Some e => Err ("read " +:+ what +:+ " json: " +:+ e)
  | None =>
      match fs !! path with
      | None => Ok zero
      | Some Dir => Err ("read " +:+ what +:+ " json: read " +:+ path +:+ ": is a directory")
      | Some (File data) =>
          match decode data with
          | Err e => Err ("unmarshal " +:+ what +:+ " json: " +:+ e)
          | Ok snapshot => Ok snapshot
          end
      end
  end.

Definition jsonSave (path : string) (snapshot : S) (fs : FS) : FS * option string :=
  match MkdirAll fails (path_dir path) fs with
  | (fs, Some e) => (fs, Some ("mkdir " +:+ what +:+ " json dir: " +:+ e))
  | (fs, None) =>
      match encode snapshot with
      | Err e => (fs, Some ("marshal " +:+ what +:+ " json: " +:+ e))
      | Ok data =>
          let tmp := path +:+ ".tmp" in
          match fails CWriteFile tmp with
          | Some e => (fs, Some ("write " +:+ what +:+ " json temp file: " +:+ e))
          | None =>
              if bool_decide (fs !! tmp = Some Dir)
              then (fs, Some ("write " +:+ what +:+ " json temp file: open " +:+ tmp +:+ ": is a directory")) else
              let fs := <[tmp := File data]> fs in
              match fails CRename path with
              | Some e => (fs, Some ("rename " +:+ what +:+ " json temp file: " +:+ e))
              | None =>
                  if bool_decide (fs !! path = Some Dir)
                  then (fs, Some ("rename " +:+ what +:+ " json temp file: rename " +:+ tmp +:+ " " +:+ path +:+ ": file exists"))
                  else (<[path := File data]> (delete tmp fs), None)
              end
          end
      end
  end.
End JsonStore.
