(* ===== verification/UmStoreInv.v ===== *)
(** * The stores keep the last snapshot.

    For the database store: a table that was saved holds one row per entry of the
    snapshot ([represents]), and loading such a table gives the entries back.  Over
    any sequence of saves the store therefore behaves like a single variable that
    holds the last snapshot whose commit was applied.  For the file stores: a save
    replaces the file as a whole or not at all. *)
From S2P Require Import Prelude GoString GoText NetIP NetParse Proto ExpireMap Network UserManager UserInv DebugStore.
From S2P Require Import DebugStoreInv UmStore.

(** ** Inserting a list of values *)
Section Inserts.
Context `{Countable K} {A B : Type} (f : B → K) (g : B → A).

(** Values with the same key are the same. *)
Definition functional (l : list B) : Prop := ∀ x y, x ∈ l → y ∈ l → f x = f y → g x = g y.

Lemma lookup_inserts l (t : gmap K A) k a : functional l →
  foldl (λ m x, <[f x := g x]> m) t l !! k = Some a ↔
  (∃ x, x ∈ l ∧ f x = k ∧ g x = a) ∨ (t !! k = Some a ∧ ∀ x, x ∈ l → f x ≠ k).
Proof.
  induction l as [|x l IH] using rev_ind; intros Hf.
  { simpl. split; [intros ?; right; split; [done|by intros ? ?%not_elem_of_nil]|].
    intros [(x & ?%not_elem_of_nil & _)|[? _]]; done. }
  assert (Hl : functional l) by (intros y z ? ?; apply Hf; apply elem_of_app; by left).
  assert (Hx : x ∈ l ++ [x]) by (apply elem_of_app; right; by apply list_elem_of_singleton).
  rewrite foldl_app. cbn [foldl]. destruct (decide (f x = k)) as [<-|Hne].
  - rewrite lookup_insert_eq. split.
    + intros [= <-]. left. by exists x.
    + intros [(y & Hy & E & <-)|[_ Hn]]; [f_equal; by apply Hf|]. by destruct (Hn x Hx).
  - rewrite lookup_insert_ne by done. rewrite IH by done. setoid_rewrite elem_of_app. setoid_rewrite list_elem_of_singleton.
    split.
    + intros [(y & ? & ? & ?)|[? Hn]]; [left; exists y; auto|]. right. split; [done|]. intros y [?| ->]; auto.
    + intros [(y & [?| ->] & ? & ?)|[? Hn]]; [left; by exists y|done|]. right. auto.
Qed.
End Inserts.

(** ** One table *)
Section Table.
Context `{Countable K} {V R : Type}.
Context (key : V → K) (row : V → R) (skey : K → string).

(** The snapshot files each value under the name of its row. *)
Definition keyed (vs : gmap string V) : Prop := ∀ s v, vs !! s = Some v → s = skey (key v).

Definition represents (vs : gmap string V) (t : gmap K R) : Prop :=
  ∀ k r, t !! k = Some r ↔ ∃ s v, vs !! s = Some v ∧ key v = k ∧ row v = r.

(** No row of the table shares the name of a value without sharing its key. *)
Definition unambiguous (vs : gmap string V) (t : gmap K R) : Prop :=
  ∀ k s v, is_Some (t !! k) → vs !! s = Some v → skey k = s → k = key v.

Lemma represents_empty : represents ∅ ∅.
Proof. intros k r. rewrite lookup_empty. split; [done|]. intros (s & v & E & _). by rewrite lookup_empty in E. Qed.

Lemma upsert_rows_Ok fails table what label vs (t t' : gmap K R) :
  upsert_rows fails table what label key row vs t = Ok t' → t' = foldl (λ m v, <[key v := row v]> m) t vs.
Proof.
  revert t. induction vs as [|v vs IH]; intros t; simpl; [by intros [= ->]|]. destruct (fails _); [done|]. apply IH.
Qed.

Lemma delete_rows_Ok fails table (label : K → list string) missing (t t' : gmap K R) :
  delete_rows fails table label missing t = Ok t' →
  ∀ k, t' !! k = if decide (k ∈ missing) then None else t !! k.
Proof.
  revert t. induction missing as [|m missing IH]; intros t; cbn [delete_rows].
  { intros [= ->] k. rewrite decide_False; [done|]. apply not_elem_of_nil. }
  destruct (fails _); [done|]. intros E k. rewrite (IH _ E). destruct (decide (k = m)) as [->|Hne].
  - rewrite (decide_True (P := m ∈ m :: missing)) by (by left). rewrite lookup_delete_eq. by destruct (decide _).
  - rewrite lookup_delete_ne by done. assert (k ∈ m :: missing ↔ k ∈ missing) by (rewrite elem_of_cons; naive_solver).
    by destruct (decide (k ∈ missing)), (decide (k ∈ m :: missing)); try tauto.
Qed.

Lemma delete_missing_Ok o fails table (label : K → list string) keep (t t' : gmap K R) :
  delete_missing o fails table label keep t = Ok t' → ∀ k, t' !! k = if keep k then t !! k else None.
Proof.
  unfold delete_missing. destruct (fails _); [done|]. cbv zeta. destruct (scan_error _ _ _ _); [done|]. destruct (fails _); [done|].
  intros E k. rewrite (delete_rows_Ok _ _ _ _ _ _ E). destruct (decide _) as [[Hk _]%list_elem_of_filter|Hn].
  - by rewrite Hk.
  - destruct (keep k) eqn:Hk; [done|]. destruct (t !! k) as [r|] eqn:Ht; [|done]. destruct Hn. apply list_elem_of_filter.
    split; [done|]. apply list_elem_of_fmap. exists (k, r). split; [done|]. by apply elem_of_range.
Qed.

Lemma keyed_functional o vs : keyed vs → functional key row (range o vs).*2.
Proof.
  intros Hk x y Hx Hy E. apply list_elem_of_fmap in Hx as ([s ?] & -> & Hs%elem_of_range),
    Hy as ([s' ?] & -> & Hs'%elem_of_range). simpl in *. pose proof (Hk _ _ Hs). pose proof (Hk _ _ Hs'). congruence.
Qed.

Lemma save_table_represents o fails table what label vs (t t' : gmap K R) : keyed vs → unambiguous vs t →
  save_table o fails table what label key row (λ k, in_snapshot vs (skey k)) vs t = Ok t' → represents vs t'.
Proof.
  intros Hk Hu. unfold save_table. destruct (upsert_rows _ _ _ _ _ _ _ _) as [t1|e] eqn:E; [|done]. cbn [rbind].
  apply upsert_rows_Ok in E as ->. destruct (delete_missing _ _ _ _ _ _) as [t2|] eqn:E; [|done]. intros [= <-] k r.
  rewrite (delete_missing_Ok _ _ _ _ _ _ _ E). clear E t2. unfold in_snapshot.
  pose proof (lookup_inserts key row (range o vs).*2 t k r (keyed_functional o vs Hk)) as Hl.
  assert (Hin : ∀ v, v ∈ (range o vs).*2 ↔ ∃ s, vs !! s = Some v).
  { intros v. rewrite list_elem_of_fmap. split; [intros ([s ?] & -> & ?%elem_of_range); by exists s|].
    intros [s ?]. exists (s, v). by rewrite elem_of_range. }
  split.
  - case_bool_decide as Hs; [|done]. rewrite Hl. intros [(v & [s Hv]%Hin & E & <-)|[Ht Hn]]; [by exists s, v|].
    destruct Hs as [v Hv]. destruct (Hn v); [by apply Hin; eexists|]. symmetry. by eapply Hu.
  - intros (s & v & Hv & <- & <-). rewrite bool_decide_eq_true_2 by (rewrite <-(Hk _ _ Hv); by eexists).
    apply Hl. left. exists v. split; [apply Hin; by eexists|done].
Qed.

Lemma load_table_represents o fails table what label (value : R → V) (name : V → string) vs (t : gmap K R) :
  (∀ call, fails call = None) → keyed vs → (∀ v, name (value (row v)) = skey (key v)) → represents vs t →
  load_table o fails table what label value name t = Ok ((λ v, value (row v)) <$> vs).
Proof.
  intros Hok Hk Hn Hr. unfold load_table, scan_error. rewrite !Hok.
  assert (omap (λ k, fails (DBScan table (label k))) (range o t).*1 = []) as ->.
  { induction (range o t).*1 as [|k l IH]; [done|]. simpl. by rewrite Hok. }
  cbn [head]. f_equal. apply map_eq. intros s. apply option_eq. intros v.
  assert (Hin : ∀ r, r ∈ (range o t).*2 → ∃ s v, vs !! s = Some v ∧ row v = r ∧ name (value r) = s).
  { intros r ([k ?] & -> & Ht%elem_of_range)%list_elem_of_fmap. apply Hr in Ht as (s' & v' & Hv & _ & <-).
    exists s', v'. simpl. rewrite Hn. by rewrite <-(Hk _ _ Hv). }
  rewrite (lookup_inserts (λ r, name (value r)) value), lookup_fmap, lookup_empty.
  2: { intros x y (s1 & v1 & Hv1 & <- & E1)%Hin (s2 & v2 & Hv2 & <- & E2)%Hin E. simpl in *. congruence. }
  split.
  - intros [(r & (s1 & v1 & Hv & <- & E)%Hin & <- & <-)|[? _]]; [|done]. rewrite E, Hv. done.
  - destruct (vs !! s) as [v1|] eqn:Hv; [|done]. intros [= <-]. left. exists (row v1). split; [|split; [|done]].
    + apply list_elem_of_fmap. exists (key v1, row v1). split; [done|]. apply elem_of_range, Hr. by exists s, v1.
    + rewrite Hn. by rewrite <-(Hk _ _ Hv).
Qed.
End Table.

(** ** The database store *)
Definition bar_free (s : string) : Prop := "|"%char ∉ chars s.
#[export] Instance bar_free_dec s : Decision (bar_free s).
Proof. unfold bar_free. apply _. Defined.

(** Without a bar in the group the name of a record determines the record. *)
Lemma authedDeviceKey_inj g d g' d' : bar_free g → bar_free g' → authedDeviceKey g d = authedDeviceKey g' d' → (g, d) = (g', d').
Proof.
  intros Hg Hg' E. by apply sep_inj_first in E as [-> ->].
Qed.

Abbreviation cert_name := (λ k : string * string, authedDeviceKey k.1 k.2).
Abbreviation self := (λ k : string, k).

Record snapshot_ok (s : UMSnapshot) : Prop := {
  so_users : keyed u_UserID self (s_Users s);
  so_policies : keyed p_UserID self (s_Policies s);
  so_enrollments : keyed e_Code self (s_Enrollments s);
  so_devices : keyed d_PubKeyHex self (s_DeviceByPubKey s);
  so_certified : keyed certified_key cert_name (s_CertifiedDevices s);
  so_tickets : keyed t_Ticket self (s_DeviceTickets s);
  so_groups : ∀ k r, s_CertifiedDevices s !! k = Some r → bar_free (a_GroupName r)
}.

Definition emptySnapshot : UMSnapshot := mkUMSnapshot 0 0 ∅ ∅ ∅ ∅ ∅ ∅.

Lemma keyed_empty {K V} (key : V → K) skey : keyed key skey ∅.
Proof. intros s v. by rewrite lookup_empty. Qed.

Lemma emptySnapshot_ok : snapshot_ok emptySnapshot.
Proof. split; try apply keyed_empty. intros k r. cbn [s_CertifiedDevices emptySnapshot]. by rewrite lookup_empty. Qed.

Section Store.
Context (stored_time : Z → Z).

(** What a snapshot looks like once it has been through the database. *)
Definition stored (s : UMSnapshot) : UMSnapshot :=
  mkUMSnapshot (s_UserSeq s) (s_EnrollmentSeq s) (user_row stored_time <$> s_Users s)
    (policy_row stored_time <$> s_Policies s) (enrollment_row stored_time <$> s_Enrollments s)
    ((λ d, device_of_row (row_of_device stored_time d)) <$> s_DeviceByPubKey s)
    (certified_row stored_time <$> s_CertifiedDevices s) (ticket_row stored_time <$> s_DeviceTickets s).

(** The tables hold a snapshot. *)
Record holds (s : UMSnapshot) (t : UMTables) : Prop := {
  ho_users : represents u_UserID (user_row stored_time) (s_Users s) (um_users t);
  ho_policies : represents p_UserID (policy_row stored_time) (s_Policies s) (um_policies t);
  ho_enrollments : represents e_Code (enrollment_row stored_time) (s_Enrollments s) (um_enrollments t);
  ho_devices : represents d_PubKeyHex (row_of_device stored_time) (s_DeviceByPubKey s) (um_devices t);
  ho_certified : represents certified_key (certified_row stored_time) (s_CertifiedDevices s) (um_certified_devices t);
  ho_tickets : represents t_Ticket (ticket_row stored_time) (s_DeviceTickets s) (um_device_tickets t);
  ho_user_seq : um_sequences t !! "user_seq" = Some (s_UserSeq s);
  ho_enrollment_seq : um_sequences t !! "enrollment_seq" = Some (s_EnrollmentSeq s)
}.

Lemma migrated_holds : holds emptySnapshot migratedTables.
Proof. split; [apply represents_empty..|reflexivity|reflexivity]. Qed.

Lemma self_unambiguous {V R} (key : V → string) (vs : gmap string V) (t : gmap string R) :
  keyed key self vs → unambiguous key self vs t.
Proof. intros Hk k s v _ Hv <-. by apply Hk. Qed.

Lemma certified_unambiguous s0 s (t : UMTables) : snapshot_ok s0 → holds s0 t → snapshot_ok s →
  unambiguous certified_key cert_name (s_CertifiedDevices s) (um_certified_devices t).
Proof.
  intros H0 Ht Hs [g d] k v [r Hr] Hv E. simpl in E. apply (ho_certified _ _ Ht) in Hr as (k0 & v0 & Hv0 & [= <- <-] & _).
  subst k. pose proof (so_certified _ Hs _ _ Hv) as Hk. simpl in Hk.
  apply authedDeviceKey_inj in Hk; [done|by eapply (so_groups s0)|by eapply (so_groups s)].
Qed.

Lemma save_statements_hold o fails s0 s (t t' : UMTables) : snapshot_ok s0 → holds s0 t → snapshot_ok s →
  save_statements stored_time o fails s t = Ok t' → holds s t'.
Proof.
  intros H0 Ht Hs. unfold save_statements, set_sequence.
  repeat match goal with
  | |- rbind ?r _ = Ok _ → _ => destruct r as [?|?] eqn:?; [cbn [rbind]|done]
  end.
  intros [= <-]. repeat match goal with H : match ?x with Some _ => _ | None => _ end = Ok _ |- _ => destruct x; [done|]; injection H as <- end.
  split; cbn; try done.
  1-4,6: eapply save_table_represents; [apply Hs|apply self_unambiguous, Hs|eassumption].
  eapply save_table_represents; [apply Hs|by apply (certified_unambiguous s0)|eassumption].
  all: by simplify_map_eq.
Qed.

Lemma pgLoad_holds o fails s t : (∀ call, fails call = None) → snapshot_ok s → holds s t → pgLoad o fails t = Ok (stored s).
Proof.
  intros Hok Hs Ht. unfold pgLoad, load_sequence. rewrite !Hok, (ho_user_seq _ _ Ht), (ho_enrollment_seq _ _ Ht).
  erewrite (load_table_represents u_UserID (user_row stored_time) self) by (done || apply Hs || apply Ht). cbn [rbind].
  erewrite (load_table_represents p_UserID (policy_row stored_time) self) by (done || apply Hs || apply Ht). cbn [rbind].
  erewrite (load_table_represents e_Code (enrollment_row stored_time) self) by (done || apply Hs || apply Ht). cbn [rbind].
  erewrite (load_table_represents d_PubKeyHex (row_of_device stored_time) self) by (done || apply Hs || apply Ht). cbn [rbind].
  erewrite (load_table_represents certified_key (certified_row stored_time) cert_name) by (done || apply Hs || apply Ht).
  cbn [rbind].
  by erewrite (load_table_represents t_Ticket (ticket_row stored_time) self) by (done || apply Hs || apply Ht).
Qed.

(** A sequence of saves, each with its own failures and its own commit. *)
Definition store_step (o : RangeOrder) (t : UMTables) (save : (db_call → option string) * commit_outcome * UMSnapshot) : UMTables :=
  let '(fails, commit, s) := save in (pgSave stored_time o fails commit s t).1.

Lemma pgSave_cases o fails commit s t :
  match pgSave stored_time o fails commit s t with
  | (t', None) => save_statements stored_time o fails s t = Ok t'
  | (t', Some _) => t' = t ∨ ((∃ e, commit = CommitFails e true) ∧ save_statements stored_time o fails s t = Ok t')
  end.
Proof.
  unfold pgSave. destruct (fails DBBegin); [by left|]. destruct (save_statements _ _ _ _ _); [|by left].
  destruct commit as [|e []]; [done|right; split; [by exists e|done]|by left].
Qed.

Lemma store_run_holds o saves : Forall (λ x, snapshot_ok x.2) saves →
  ∃ s, snapshot_ok s ∧ holds s (foldl (store_step o) migratedTables saves).
Proof.
  induction saves as [|[[fails commit] s] saves IH] using rev_ind; intros Hall.
  { exists emptySnapshot. split; [apply emptySnapshot_ok|apply migrated_holds]. }
  apply Forall_app in Hall as [Hall Hs%Forall_inv]. simpl in Hs. destruct (IH Hall) as (s0 & Hs0 & Ht). rewrite foldl_app.
  set (t := foldl _ _ saves) in *. cbn [foldl store_step]. pose proof (pgSave_cases o fails commit s t) as Hc.
  destruct (pgSave _ _ _ _ _ _) as [t' [e|]]; simpl in *.
  - destruct Hc as [->|[_ E]]; [by exists s0|]. exists s. split; [done|]. by eapply (save_statements_hold _ _ s0).
  - exists s. split; [done|]. by eapply (save_statements_hold _ _ s0).
Qed.

End Store.

(** ** Restarting the server *)
Definition policies_keyed (m : UserManager) : Prop := ∀ id p, policies m !! id = Some p → p_UserID p = id.

Record saveable (m : UserManager) : Prop := {
  sa_wf : wf_um m;
  sa_policies : policies_keyed m;
  sa_trimmed : trimmed_devices m;
  sa_groups : ∀ k r, authedDevices m !! k = Some r → bar_free (a_GroupName r)
}.

Lemma snapshot_saveable o m : saveable m → snapshot_ok (snapshotLocked o m).
Proof.
  intros [Hwf Hp Ht Hg]. unfold snapshotLocked. rewrite cloneAuthedDevices_id by done. split; cbn.
  - intros s v Hv. by destruct (wf_users m Hwf _ _ Hv).
  - intros s v Hv. symmetry. by apply Hp.
  - intros s v Hv. by destruct (wf_enrollments m Hwf _ _ Hv).
  - intros s v Hv. by destruct (wf_bound m Hwf _ _ Hv).
  - intros s v Hv. by destruct (wf_authed m Hwf _ _ Hv).
  - intros s v Hv. by destruct (wf_tickets m Hwf _ _ Hv).
  - exact Hg.
Qed.

Section Restart.
Context (stored_time : Z → Z).

(** A manager as it comes back from the database. *)
Definition stored_manager (m : UserManager) : UserManager :=
  mkUserManager (userSeq m) (enrollmentSeq m) (user_row stored_time <$> users m) (policy_row stored_time <$> policies m)
    (enrollment_row stored_time <$> enrollments m)
    ((λ d, device_of_row (row_of_device stored_time d)) <$> deviceByPubKey m)
    (certified_row stored_time <$> authedDevices m) (ticket_row stored_time <$> deviceTickets m).

Lemma stored_manager_wf m : wf_um m → wf_um (stored_manager m).
Proof.
  intros [Hu He Hb Ht Ha].
  assert (Hown : ∀ id g, owned m id g → owned (stored_manager m) id g).
  { intros id g (u & E & Hd). exists (user_row stored_time u). cbn. by rewrite lookup_fmap, E. }
  split; cbn; intros k v; rewrite lookup_fmap; intros (w & Hw & ->)%fmap_Some; cbn; rewrite ?lookup_fmap, ?fmap_is_Some;
    [by apply Hu|by apply He|by apply Hb| |]; [apply Ht in Hw as [? ?]|apply Ha in Hw as [? ?]]; auto.
Qed.

Lemma stored_manager_trimmed m : trimmed_devices m → trimmed_devices (stored_manager m).
Proof. intros Ht k r. cbn. rewrite lookup_fmap. intros (w & Hw & ->)%fmap_Some. by apply (Ht _ _ Hw). Qed.

Lemma restore_stored o o' now m : saveable m → restore o' now (stored stored_time (snapshotLocked o m)) = stored_manager m.
Proof.
  intros [Hwf Hp Ht Hg]. rewrite <-(restore_snapshot o o' now (stored_manager m))
    by (by apply stored_manager_wf || by apply stored_manager_trimmed).
  f_equal. unfold snapshotLocked, stored. cbn.
  rewrite (cloneAuthedDevices_id _ m), (cloneAuthedDevices_id _ (stored_manager m)); [done|..];
    by (apply stored_manager_wf || apply stored_manager_trimmed || done).
Qed.

End Restart.

(** ** The file stores *)
Section Json.
Context {S : Type} (what : string) (encode : S → result string) (decode : string → result S) (zero : S).

(** A file store keeps the last snapshot too.  A save that
    reports success makes loading return what decoding makes of the encoded
    snapshot; one that reports an error leaves what loading returns unchanged,
    because the file is only ever replaced by renaming a complete one. *)
Theorem json_store_keeps_last fails calm path snapshot fs :
  path ∉ ancestors (path_dir path) → calm COpen path = None →
  let '(fs', err) := jsonSave what encode fails path snapshot fs in
  match err with
  | None => ∃ data, encode snapshot = Ok data ∧ fs' !! path = Some (File data)
      ∧ ∀ s, decode data = Ok s → jsonLoad what decode zero calm path fs' = Ok s
  | Some _ => jsonLoad what decode zero calm path fs' = jsonLoad what decode zero calm path fs
  end.
Proof.
  intros Hpath Hcalm. assert (Hsame : ∀ fs', fs' !! path = fs !! path →
    jsonLoad what decode zero calm path fs' = jsonLoad what decode zero calm path fs) by (intros fs' E; unfold jsonLoad; by rewrite E).
  assert (Htmp : path +:+ ".tmp" ≠ path).
  { intros E%(f_equal chars)%(f_equal length). rewrite chars_app, length_app in E. simpl in E. lia. }
  unfold jsonSave. destruct (MkdirAll fails (path_dir path) fs) as [fs1 e] eqn:E.
  assert (H1 : fs1 !! path = fs !! path).
  { revert E. unfold MkdirAll. destruct (fails CMkdirAll _); [by intros [= <- <-]|]. destruct (list_find _ _) as [[]|]; intros [= <- <-]; [done|].
    by rewrite lookup_foldl_dirs, decide_False. }
  destruct e; [by apply Hsame|]. destruct (encode snapshot) as [data|]; [|by apply Hsame]. cbv zeta.
  destruct (fails CWriteFile _); [by apply Hsame|]. case_bool_decide; [by apply Hsame|].
  destruct (fails CRename _); [by apply Hsame; rewrite lookup_insert_ne|].
  case_bool_decide; [by apply Hsame; rewrite lookup_insert_ne|].
  exists data. rewrite lookup_insert_eq. split; [done|]. split; [done|]. intros s Hs. unfold jsonLoad.
  by rewrite Hcalm, lookup_insert_eq, Hs.
Qed.
End Json.

(** ** Reachable managers file policies under their user *)
Lemma policies_keyed_insert m id p : policies_keyed m → p_UserID p = id →
  ∀ k q, <[id := p]> (policies m) !! k = Some q → p_UserID q = k.
Proof. intros Hm Hp k q [[<- <-]|[_ Hq]]%lookup_insert_Some; [done|by apply Hm]. Qed.

Lemma um_exec_policies_keyed `{UnicodeFold} o sha256 save now op m : policies_keyed m →
  policies_keyed (um_exec o sha256 save now op m).1.
Proof.
  intros Hm. assert (Hfin : ∀ A (a : A) m', policies_keyed m' → policies_keyed (succeeds (finish o save a m')).1).
  { intros A a m' Hm'. unfold succeeds, finish. by destruct (saveLocked o save m'). }
  assert (Hset : ∀ g d n, policies_keyed (SetAuthedDeviceDisplayName o save g d n m).1).
  { intros. unfold SetAuthedDeviceDisplayName. cbv zeta. repeat case_match; exact Hm. }
  destruct op; cbn [um_exec]; try (pose proof (Hset groupName deviceID displayName); by destruct (SetAuthedDeviceDisplayName _ _ _ _ _ _));
    unfold CreateUser, CreateUserWithID, CreateEnrollment, BindDeviceByEnrollment, GenerateBasicPolicy,
    IssueDeviceTicket, AuthDevice, auth_device_commit, AssignAuthedDeviceDisplayName, ExtendAuthedDeviceExpiry,
    DeleteAuthedDevice, RenameAuthedDevice; cbv zeta;
    repeat match goal with
    | |- policies_keyed (succeeds (finish _ _ _ _)).1 => apply Hfin
    | |- policies_keyed (succeeds (m, _)).1 => exact Hm
    | |- context [match ?x with _ => _ end] => destruct x
    end; try exact Hm; intros k q; cbn; by eapply policies_keyed_insert.
Qed.

(** ** What the database does not keep *)

(** The algorithm of a bound key and the time of the last binding have no column. *)
Lemma device_fields_lost stored_time s k d : s_DeviceByPubKey s !! k = Some d →
  ∃ d', s_DeviceByPubKey (stored stored_time s) !! k = Some d' ∧ d_PubKeyAlg d' = "" ∧ d_LastBoundAt d' = zero_time.
Proof. intros E. eexists. cbn. by rewrite lookup_fmap, E. Qed.

Module SampleStore.
Definition calm : db_call → option string := λ _, None.
(** Microseconds. *)
Definition micros (t : Z) : Z := t / 1000 * 1000.

Definition record (group device : string) : UMAuthDevice := mkUMAuthDevice "alice" group device "laptop" "00" 0 0.
Definition one_record (r : UMAuthDevice) : UMSnapshot :=
  emptySnapshot <| s_CertifiedDevices := {[authedDeviceKey (a_GroupName r) (a_DeviceID r) := r]} |>.

(** The same name for two records. *)
Definition r1 : UMAuthDevice := record "x.ms.net|y.ms.net" "d".
Definition r2 : UMAuthDevice := record "x.ms.net" "y.ms.net|d".
Definition tables : UMTables := foldl (store_step micros ascending) migratedTables
  [(calm, Commits, one_record r1); (calm, Commits, one_record r2)].

Definition groups_loaded (o : RangeOrder) : list string :=
  match pgLoad o calm tables with Ok s => (λ e : string * UMAuthDevice, a_GroupName e.2) <$> map_to_list (s_CertifiedDevices s) | Err _ => [] end.

(** With bars in group names a record that was deleted stays in the table, and
    which of the two is loaded depends on the order of the rows. *)
Example stale_record_kept : size (um_certified_devices tables) = 2%nat
  ∧ groups_loaded ascending ≠ groups_loaded descending.
Proof. split; [by vm_compute|]. intros E. by vm_compute in E. Qed.

(** A failure to read the sequences is not reported: they restart from zero. *)
Example sequence_failure_ignored :
  let t := (pgSave micros ascending calm Commits (emptySnapshot <| s_UserSeq := 7 |>) migratedTables).1 in
  s_UserSeq <$> (match pgLoad ascending calm t with Ok s => Some s | Err _ => None end) = Some 7
  ∧ s_UserSeq <$> (match pgLoad ascending (λ call, match call with DBSequence _ => Some "timeout" | _ => None end) t with
                   | Ok s => Some s | Err _ => None end) = Some 0.
Proof. by vm_compute. Qed.

(** A manager, its operation and the tables before it. *)
Definition before : UMTables := foldl (store_step micros ascending) migratedTables
  [(calm, Commits, snapshotLocked ascending SampleUsers.m0)].
Definition op : um_op := OpAuthDevice "alice" "dev" "laptop" (SampleUsers.ticket x0a) SampleUsers.key.
Definition save (s : UMSnapshot) : option string := (pgSave micros ascending calm Commits s before).2.
Definition m1 : UserManager := (@um_exec AsciiFold ascending SampleUsers.sha save 5 op SampleUsers.m0).1.

Lemma concrete_saveable m : wf_um m → map_Forall (λ id p, p_UserID p = id) (policies m) →
  map_Forall (λ _ r, TrimSpace (a_GroupName r) = a_GroupName r ∧ TrimSpace (a_DeviceID r) = a_DeviceID r
                     ∧ bar_free (a_GroupName r)) (authedDevices m) → saveable m.
Proof.
  intros Hwf Hp Ha. split; [done|exact Hp| |].
  - intros k r Hr. by destruct (Ha _ _ Hr) as (? & ? & _).
  - intros k r Hr. by destruct (Ha _ _ Hr) as (_ & _ & ?).
Qed.

Lemma m0_saveable : saveable SampleUsers.m0.
Proof. apply concrete_saveable; [apply SampleUsers.m0_wf|..]; apply (bool_decide_unpack _); by vm_compute. Qed.

Lemma m1_saveable : saveable m1.
Proof.
  apply concrete_saveable; [|apply (bool_decide_unpack _); by vm_compute..].
  apply (@um_run_wf AsciiFold ascending SampleUsers.sha [(save, 5, op)] SampleUsers.m0); [apply SampleUsers.m0_wf|by vm_compute].
Qed.

Lemma history_ok : Forall (λ x : (db_call → option string) * commit_outcome * UMSnapshot, snapshot_ok x.2)
  [(calm, Commits, snapshotLocked ascending SampleUsers.m0)].
Proof. constructor; [|constructor]. apply snapshot_saveable, m0_saveable. Qed.
End SampleStore.



Lemma json_store_keeps_last_witness :
  let encode (s : string) := Ok ("<" +:+ s +:+ ">") in
  let decode (s : string) := Ok s in
  let '(fs', err) := jsonSave "um" encode (λ _ _, None) "data/um.json" "x" ∅ in
  err = None ∧ jsonLoad "um" decode "" (λ _ _, None) "data/um.json" fs' = Ok "<x>".
Proof.
  intros encode decode.
  pose proof (json_store_keeps_last "um" encode decode "" (λ _ _, None) (λ _ _, None) "data/um.json" "x" ∅) as H.
  destruct (jsonSave _ _ _ _ _ _) as [fs' [e|]] eqn:E.
  - apply (f_equal snd) in E. vm_compute in E. discriminate E.
  - split; [done|]. destruct H as (data & Hd & _ & Hl); [apply (bool_decide_unpack _); by vm_compute|done|].
    apply Hl. unfold decode. unfold encode in Hd. injection Hd as <-. done.
Defined.
