(* ===== verification/UmFile.v ===== *)
(** * The file of the user manager: the JSON of [UMSnapshot] in [control/user_store.go]
    and of the structs of [control/user.go], and what a restart makes of the file.

    Only the snapshot has struct tags; the others are written under the names of their
    fields.  The text of a time is [time.Time]'s own, given by [time_text], which fails
    for years past 9999, and [parse_time]. *)
From S2P Require Import Prelude GoString NetIP GoText NetParse GoJson GoJsonInv JsonCodec Network UserManager UserInv DebugStore UmStore UmStoreInv.

Section Codec.
Context `{UnicodeFold} (time_text : Z → option string) (parse_time : string → option Z).

Definition time_codec : codec Z :=
  mkCodec zero_time (λ _, false) (λ t, quote_json <$> time_text t)
    (λ j old, match j with JString lit => parse_time (unquoted lit) | JNull => Some old | _ => None end).

Local Abbreviation own name codec get := (mkField name false codec get (λ a r, r <| get := a |>)).

Definition um_user_fields : list (struct_field UMUser) :=
  [own "UserID" string_codec u_UserID; own "Name" string_codec u_Name; own "Domain" string_codec u_Domain;
   own "CreatedAt" time_codec u_CreatedAt].
Definition um_enrollment_fields : list (struct_field UMEnrollment) :=
  [own "Code" string_codec e_Code; own "UserID" string_codec e_UserID; own "ExpireAt" time_codec e_ExpireAt;
   own "Used" bool_codec e_Used; own "CreatedAt" time_codec e_CreatedAt].
Definition um_device_fields : list (struct_field UMDevice) :=
  [own "UserID" string_codec d_UserID; own "DeviceID" string_codec d_DeviceID; own "DisplayName" string_codec d_DisplayName;
   own "PubKeyAlg" string_codec d_PubKeyAlg; own "PubKeyHex" string_codec d_PubKeyHex; own "CreatedAt" time_codec d_CreatedAt;
   own "LastBoundAt" time_codec d_LastBoundAt].
Definition um_policy_fields : list (struct_field UMPolicy) :=
  [own "UserID" string_codec p_UserID; own "GroupName" string_codec p_GroupName; own "UserExpireAtUnixMs" int_codec p_UserExpireAtUnixMs;
   own "UserGracePeriodSeconds" int_codec p_UserGracePeriodSeconds; own "AllowP2P" bool_codec p_AllowP2P;
   own "AllowRelay" bool_codec p_AllowRelay; own "MaxDevices" int_codec p_MaxDevices;
   own "EnrollmentTTLSeconds" int_codec p_EnrollmentTTLSeconds; own "GatewayTicketTTLSeconds" int_codec p_GatewayTicketTTLSeconds;
   own "CreatedAt" time_codec p_CreatedAt; own "UpdatedAt" time_codec p_UpdatedAt].
Definition um_ticket_fields : list (struct_field UMDeviceTicket) :=
  [own "Ticket" string_codec t_Ticket; own "UserID" string_codec t_UserID; own "GroupName" string_codec t_GroupName;
   own "ExpireAt" time_codec t_ExpireAt; own "Used" bool_codec t_Used; own "CreatedAt" time_codec t_CreatedAt].
Definition um_auth_fields : list (struct_field UMAuthDevice) :=
  [own "UserID" string_codec a_UserID; own "GroupName" string_codec a_GroupName; own "DeviceID" string_codec a_DeviceID;
   own "DisplayName" string_codec a_DisplayName; own "PubKeyHex" string_codec a_PubKeyHex; own "AuthedAt" time_codec a_AuthedAt;
   own "AuthExpireAt" time_codec a_AuthExpireAt].

Definition user_json : codec UMUser := struct_codec (mkUMUser "" "" "" zero_time) um_user_fields.
Definition enrollment_json : codec UMEnrollment := struct_codec (mkUMEnrollment "" "" zero_time false zero_time) um_enrollment_fields.
Definition device_json : codec UMDevice := struct_codec (mkUMDevice "" "" "" "" "" zero_time zero_time) um_device_fields.
Definition policy_json : codec UMPolicy := struct_codec (mkUMPolicy "" "" 0 0 false false 0 0 0 zero_time zero_time) um_policy_fields.
Definition ticket_json : codec UMDeviceTicket := struct_codec zeroTicket um_ticket_fields.
Definition auth_json : codec UMAuthDevice := struct_codec (mkUMAuthDevice "" "" "" "" "" zero_time zero_time) um_auth_fields.

Definition zeroUMSnapshot : UMSnapshot := mkUMSnapshot 0 0 ∅ ∅ ∅ ∅ ∅ ∅.
Definition um_snapshot_fields : list (struct_field UMSnapshot) :=
  [own "user_seq" (uint_codec 64) s_UserSeq; own "enrollment_seq" (uint_codec 64) s_EnrollmentSeq;
   own "users" (map_codec user_json) s_Users; own "policies" (map_codec policy_json) s_Policies;
   own "enrollments" (map_codec enrollment_json) s_Enrollments; own "device_by_pub_key" (map_codec device_json) s_DeviceByPubKey;
   own "certified_devices" (map_codec auth_json) s_CertifiedDevices; own "device_tickets" (map_codec ticket_json) s_DeviceTickets].
Definition um_snapshot_codec : codec UMSnapshot := struct_codec zeroUMSnapshot um_snapshot_fields.

Context (json_error : string → string).
Definition encode_um (s : UMSnapshot) : result string :=
  match c_enc um_snapshot_codec s with Some j => Ok (str (json_indent j)) | None => Err (json_error "") end.
Definition decode_um (data : string) : result UMSnapshot :=
  match JsonUnmarshal um_snapshot_codec data zeroUMSnapshot with Some s => Ok s | None => Err (json_error data) end.

Definition JSONUMStore_Load (fails : fs_call → string → option string) (path : string) (fs : FS) : result UMSnapshot :=
  jsonLoad "um" decode_um zeroUMSnapshot fails path fs.
Definition JSONUMStore_Save (fails : fs_call → string → option string) (path : string) (s : UMSnapshot) (fs : FS) : FS * option string :=
  jsonSave "um" encode_um fails path s fs.

(** ** What can be written *)

(** Times that have a text from which they are read again. *)
Definition time_ok (t : Z) : Prop := ∃ text, time_text t = Some text ∧ valid_text text ∧ parse_time text = Some t.

Definition um_user_ok (u : UMUser) : Prop :=
  valid_text (u_UserID u) ∧ valid_text (u_Name u) ∧ valid_text (u_Domain u) ∧ time_ok (u_CreatedAt u).
Definition um_enrollment_ok (e : UMEnrollment) : Prop :=
  valid_text (e_Code e) ∧ valid_text (e_UserID e) ∧ time_ok (e_ExpireAt e) ∧ time_ok (e_CreatedAt e).
Definition um_device_ok (d : UMDevice) : Prop :=
  valid_text (d_UserID d) ∧ valid_text (d_DeviceID d) ∧ valid_text (d_DisplayName d) ∧ valid_text (d_PubKeyAlg d)
  ∧ valid_text (d_PubKeyHex d) ∧ time_ok (d_CreatedAt d) ∧ time_ok (d_LastBoundAt d).
Definition um_policy_ok (p : UMPolicy) : Prop :=
  valid_text (p_UserID p) ∧ valid_text (p_GroupName p) ∧ int64_range (p_UserExpireAtUnixMs p) ∧ int64_range (p_UserGracePeriodSeconds p)
  ∧ int64_range (p_MaxDevices p) ∧ int64_range (p_EnrollmentTTLSeconds p) ∧ int64_range (p_GatewayTicketTTLSeconds p)
  ∧ time_ok (p_CreatedAt p) ∧ time_ok (p_UpdatedAt p).
Definition um_ticket_ok (t : UMDeviceTicket) : Prop :=
  valid_text (t_Ticket t) ∧ valid_text (t_UserID t) ∧ valid_text (t_GroupName t) ∧ time_ok (t_ExpireAt t) ∧ time_ok (t_CreatedAt t).
Definition um_auth_ok (a : UMAuthDevice) : Prop :=
  valid_text (a_UserID a) ∧ valid_text (a_GroupName a) ∧ valid_text (a_DeviceID a) ∧ valid_text (a_DisplayName a)
  ∧ valid_text (a_PubKeyHex a) ∧ time_ok (a_AuthedAt a) ∧ time_ok (a_AuthExpireAt a).

Definition table_ok {A} (ok : A → Prop) (m : gmap string A) : Prop := map_Forall (λ k a, valid_text k ∧ ok a) m.
Definition um_snapshot_ok (s : UMSnapshot) : Prop :=
  0 ≤ s_UserSeq s < 2 ^ 64 ∧ 0 ≤ s_EnrollmentSeq s < 2 ^ 64 ∧ table_ok um_user_ok (s_Users s) ∧ table_ok um_policy_ok (s_Policies s)
  ∧ table_ok um_enrollment_ok (s_Enrollments s) ∧ table_ok um_device_ok (s_DeviceByPubKey s)
  ∧ table_ok um_auth_ok (s_CertifiedDevices s) ∧ table_ok um_ticket_ok (s_DeviceTickets s).

Lemma time_transfers : transfers time_codec time_codec 0 time_ok id.
Proof.
  split; [|done|done]. intros t (text & Et & Hv & Hp). eexists. split; [cbn; by rewrite Et|].
  split; [cbn; by rewrite unquoted_quote, Hv|]. intros. constructor. apply escape_literal.
Qed.

Ltac split_ok Hok := hnf in Hok; repeat match goal with H : _ ∧ _ |- _ => destruct H end.
Ltac struct_same := pose proof time_transfers; apply (transfers_struct _ _ _ _ 1); [lia|];
  let Hok := fresh in intros [] Hok; split_ok Hok; walk_by ltac:(transfer_same).

Lemma user_same : transfers user_json user_json 2 um_user_ok id.
Proof. struct_same. Qed.
Lemma enrollment_same : transfers enrollment_json enrollment_json 2 um_enrollment_ok id.
Proof. struct_same. Qed.
Lemma device_same : transfers device_json device_json 2 um_device_ok id.
Proof. struct_same. Qed.
Lemma policy_same : transfers policy_json policy_json 2 um_policy_ok id.
Proof. struct_same. Qed.
Lemma ticket_same : transfers ticket_json ticket_json 2 um_ticket_ok id.
Proof. struct_same. Qed.
Lemma auth_same : transfers auth_json auth_json 2 um_auth_ok id.
Proof. struct_same. Qed.

Lemma snapshot_same : transfers um_snapshot_codec um_snapshot_codec 4 um_snapshot_ok id.
Proof.
  pose proof user_same. pose proof enrollment_same. pose proof device_same. pose proof policy_same. pose proof ticket_same. pose proof auth_same.
  apply (transfers_struct _ _ _ _ 3); [lia|]. intros [] (? & ? & ? & ? & ? & ? & ? & ?). walk_by ltac:(transfer_same).
Qed.

(** What was written is read back. *)
Lemma um_decoded s : um_snapshot_ok s → ∃ data, encode_um s = Ok data ∧ decode_um data = Ok s.
Proof.
  intros Hs. destruct (tr_enc _ _ _ _ _ snapshot_same s Hs) as (j & Ej & Dj & Wj).
  unfold encode_um, decode_um, JsonUnmarshal. rewrite Ej. eexists. split; [done|].
  unfold str. rewrite chars_of_list, <-(app_nil_r (json_indent j)), parse_all_indent; [|apply Wj; done|apply Forall_nil_2].
  cbn [mbind option_bind]. change zeroUMSnapshot with (c_zero um_snapshot_codec). by rewrite Dj.
Qed.
End Codec.

(** C16 (roundtrip). With the file as its store, what an operation that reported success
    changed is exactly what a manager started on the file afterwards has, read from the
    text of the JSON; an operation whose save failed leaves what the next start reads
    from the file as it was. *)
Theorem um_file_restart `{UnicodeFold} time_text parse_time json_error sha256 fails calm path fs o o' now now' op m :
  let save s := (JSONUMStore_Save time_text parse_time json_error fails path s fs).2 in
  let m' := (um_exec o sha256 save now op m).1 in
  let fs' := (JSONUMStore_Save time_text parse_time json_error fails path (snapshotLocked o m') fs).1 in
  let start fs := NewUserManagerWithStore o' now' (JSONUMStore_Load time_text parse_time json_error calm path fs) in
  path ∉ ancestors (path_dir path) → calm COpen path = None → wf_um m' → trimmed_devices m' →
  um_snapshot_ok time_text parse_time (snapshotLocked o m') →
  ((um_exec o sha256 save now op m).2 = true → m' ≠ m → start fs' = Ok m')
  ∧ (save (snapshotLocked o m') ≠ None → start fs' = start fs).
Proof.
  intros save m' fs' start Hp Hc Hwf Ht Hs.
  pose proof (json_store_keeps_last "um" (encode_um time_text parse_time json_error) (decode_um time_text parse_time json_error) zeroUMSnapshot fails calm path
    (snapshotLocked o m') fs Hp Hc) as Hlast.
  assert (Hsaved : (um_exec o sha256 save now op m).2 = true → m' ≠ m → save (snapshotLocked o m') = None).
  { intros Hok Hne. by destruct (um_exec_durable _ _ _ _ _ _ Hok). }
  subst fs' start. unfold save in *. fold save in m', Hsaved. unfold JSONUMStore_Load, JSONUMStore_Save in *.
  destruct (jsonSave _ _ _ _ (snapshotLocked o m') fs) as [fs1 [e|]]; cbn [fst snd] in *.
  - split; [intros Hok Hne; by specialize (Hsaved Hok Hne)|]. intros _. by rewrite Hlast.
  - split; [|done]. intros _ _. destruct Hlast as (data & He & _ & Hd).
    destruct (um_decoded time_text parse_time json_error _ Hs) as (data' & He' & Hdec). rewrite He in He'. injection He' as <-.
    rewrite (Hd _ Hdec). unfold NewUserManagerWithStore. cbn [rbind]. by rewrite restore_snapshot.
Qed.

(** A user is created, with times written as numbers. *)
Module SampleUmFile.
#[local] Existing Instance AsciiFold.
Definition time_text (t : Z) : option string := Some (dec t).
Definition parse_time : string → option Z := Atoi.
Definition calm : fs_call → string → option string := λ _ _, None.
Definition save (s : UMSnapshot) : option string := (JSONUMStore_Save time_text parse_time id calm "data/um.json" s ∅).2.
Definition op : um_op := OpCreateUser "bob" [].
Definition m1 : UserManager := (um_exec ascending SampleUsers.sha save 9 op NewUserManager).1.
Definition fs1 : FS := (JSONUMStore_Save time_text parse_time id calm "data/um.json" (snapshotLocked ascending m1) ∅).1.

Lemma created_wf : wf_um m1.
Proof. apply (um_exec_wf ascending SampleUsers.sha save 9 op NewUserManager); [apply wf_NewUserManager|by vm_compute]. Qed.

Lemma time_fine z text : time_text z = Some text → valid_text text → parse_time text = Some z → time_ok time_text parse_time z.
Proof. by exists text. Qed.

Ltac table := match goal with |- table_ok ?ok ?m => let l := eval vm_compute in (map_to_list m) in
  let E := fresh in assert (E : map_to_list m = l) by (vm_compute; reflexivity);
  intros k v Hkv%elem_of_map_to_list; rewrite E in Hkv; clear E;
  repeat (apply elem_of_cons in Hkv as [[= -> ->]|Hkv]); [..|by apply not_elem_of_nil in Hkv] end.
Ltac fine := lazymatch goal with
  | |- time_ok _ _ _ => eapply time_fine; [reflexivity|vm_compute; reflexivity|vm_compute; reflexivity]
  | |- valid_text _ => vm_compute; reflexivity
  | |- _ => apply (bool_decide_unpack _); vm_compute; exact I
  end.
Lemma created_ok : um_snapshot_ok time_text parse_time (snapshotLocked ascending m1).
Proof.
  split_and!; [fine|fine|fine|fine|table..].
  - split; [fine|]. unfold um_user_ok. split_and!; fine.
  - split; [fine|]. unfold um_policy_ok, int64_range. split_and!; fine.
Qed.
End SampleUmFile.

Lemma um_file_restart_witness : SampleUmFile.m1 ≠ NewUserManager ∧ NewUserManagerWithStore ascending 7
    (@JSONUMStore_Load AsciiFold SampleUmFile.time_text SampleUmFile.parse_time id SampleUmFile.calm "data/um.json" SampleUmFile.fs1)
  = Ok SampleUmFile.m1.
Proof.
  assert (Hne : SampleUmFile.m1 ≠ NewUserManager) by (intros E%(f_equal (λ m, size (users m))); vm_compute in E; discriminate E).
  split; [exact Hne|].
  apply (@um_file_restart AsciiFold SampleUmFile.time_text SampleUmFile.parse_time id SampleUsers.sha SampleUmFile.calm SampleUmFile.calm
    "data/um.json" ∅ ascending ascending 9 7 SampleUmFile.op NewUserManager).
  - apply (bool_decide_unpack _). vm_compute. exact I.
  - reflexivity.
  - exact SampleUmFile.created_wf.
  - assert (E : authedDevices SampleUmFile.m1 = ∅) by (vm_compute; reflexivity). intros k r Hk.
    change (authedDevices SampleUmFile.m1 !! k = Some r) in Hk. rewrite E in Hk. discriminate Hk.
  - exact SampleUmFile.created_ok.
  - vm_compute. reflexivity.
  - exact Hne.
Defined.
