(* ===== verification/Migrations.v ===== *)
(** * Schema migrations: [control/store/migrations.go].

    The database is the table [schema_migrations] ([None] before it exists) and the
    rest, on which [exec] runs the text of a migration.  The statements of
    [ApplyMigrations] run in one transaction.  The embedded directory is a list of
    entries; [sha256] is [crypto/sha256]. *)
From S2P Require Import Prelude GoString GoText NetIP NetParse Proto ExpireMap Network UserManager DebugStore UmStore.

Record migration := mkMigration { mg_version : string; mg_fileName : string; mg_checksum : string; mg_sql : string }.

Record dir_entry := mkEntry { en_name : string; en_isDir : bool; en_content : result string }.

(** [path.Ext] of a name without a slash. *)
Definition path_Ext (name : string) : string :=
  match last_index_byte "."%char (chars name) with Some i => str (drop i (chars name)) | None => "" end.

Definition file_le (a b : migration) : Prop := string_le (mg_fileName a) (mg_fileName b).
#[export] Instance file_le_dec a b : Decision (file_le a b) := string_le_dec _ _.

Inductive mig_call := MBegin | MTable | MQuery | MScan (version : string) | MRows | MApply (version : string) | MRecord (version : string).

Section Migrations.
Context (sha256 : list byte → list byte).

Fixpoint read_migrations (entries : list dir_entry) : result (list migration) :=
  match entries with
  | [] => Ok []
  | e :: entries' =>
      if en_isDir e || bool_decide (path_Ext (en_name e) ≠ ".sql") then read_migrations entries' else
      match en_content e with
      | Err err => Err ("read embedded migration " +:+ en_name e +:+ ": " +:+ err)
      | Ok content =>
          let? rest := read_migrations entries' in
          Ok (mkMigration (TrimSuffix (en_name e) ".sql") (en_name e)
                (EncodeToString (sha256 (String.list_byte_of_string content))) content :: rest)
      end
  end.

Definition loadMigrations (entries : result (list dir_entry)) : result (list migration) :=
  match entries with
  | Err e => Err ("read embedded migrations: " +:+ e)
  | Ok entries => let? ms := read_migrations entries in Ok (merge_sort file_le ms)
  end.

Definition LatestMigrationVersion (entries : result (list dir_entry)) (scope : string) : result string :=
  let scope := TrimSpace scope in
  if bool_decide (scope = "") then Err "migration scope is empty" else
  let? ms := loadMigrations entries in
  match list_find (λ m, Contains (mg_version m) ("_" +:+ scope +:+ "_") = true) (reverse ms) with
  | Some (_, m) => Ok (mg_version m)
  | None => Err ("no schema migration found for scope " +:+ Quote scope)
  end.

Context {D : Type} (exec : string → D → result D).

Record Database := mkDatabase { schema_migrations : option (gmap string string); db_rest : D }.

Context (o : RangeOrder) (fails : mig_call → option string).

(** [loadAppliedMigrations] on the rows of the table. *)
Definition loadAppliedMigrations (rows : gmap string string) : result (gmap string string) :=
  match fails MQuery with
  | Some e => Err ("load applied schema migrations: " +:+ e)
  | None =>
      match head (omap (λ '(version, _), fails (MScan version)) (range o rows)) with
      | Some e => Err ("scan applied schema migration: " +:+ e)
      | None =>
          match fails MRows with
          | Some e => Err ("iterate applied schema migrations: " +:+ e)
          | None => Ok rows
          end
      end
  end.

(** The loop over the migrations: [applied] was read before it, [rows] is the table
    now; inserting a version that the table has violates its primary key. *)
Fixpoint apply_loop (applied : gmap string string) (ms : list migration) (rows : gmap string string) (d : D)
    : result (gmap string string * D) :=
  match ms with
  | [] => Ok (rows, d)
  | m :: ms' =>
      match applied !! mg_version m with
      | Some checksum =>
          if bool_decide (checksum ≠ mg_checksum m) then Err ("schema migration checksum mismatch for " +:+ mg_version m)
          else apply_loop applied ms' rows d
      | None =>
          match (match fails (MApply (mg_version m)) with Some e => Err e | None => exec (mg_sql m) d end) with
          | Err e => Err ("apply schema migration " +:+ mg_version m +:+ ": " +:+ e)
          | Ok d =>
              match fails (MRecord (mg_version m)) with
              | Some e => Err ("record schema migration " +:+ mg_version m +:+ ": " +:+ e)
              | None =>
                  if bool_decide (is_Some (rows !! mg_version m))
                  then Err ("record schema migration " +:+ mg_version m +:+ ": duplicate key value violates unique constraint")
                  else apply_loop applied ms' (<[mg_version m := mg_checksum m]> rows) d
              end
          end
      end
  end.

Definition ApplyMigrations (entries : result (list dir_entry)) (commit : commit_outcome) (db : Database)
    : Database * option string :=
  match loadMigrations entries with
  | Err e => (db, Some e)
  | Ok ms =>
      match fails MBegin with
      | Some e => (db, Some ("begin schema migration tx: " +:+ e))
      | None =>
          match fails MTable with
          | Some e => (db, Some ("ensure schema_migrations table: " +:+ e))
          | None =>
              let rows := default ∅ (schema_migrations db) in
              match (let? applied := loadAppliedMigrations rows in apply_loop applied ms rows (db_rest db)) with
              | Err e => (db, Some e)
              | Ok (rows, d) =>
                  let db' := mkDatabase (Some rows) d in
                  match commit with
                  | Commits => (db', None)
                  | CommitFails e installed => (if installed then db' else db, Some ("commit schema migrations: " +:+ e))
                  end
              end
          end
      end
  end.

Definition RequireMigration (version : string) (db : Database) : option string :=
  if bool_decide (TrimSpace version = "") then Some "required schema version is empty" else
  match fails MTable with
  | Some e => Some ("check schema_migrations table: " +:+ e)
  | None =>
      match schema_migrations db with
      | None => Some "database schema is not initialized; run `sdl-control migrate`"
      | Some rows =>
          match fails MQuery with
          | Some e => Some ("check required schema migration " +:+ version +:+ ": " +:+ e)
          | None =>
              if bool_decide (is_Some (rows !! version)) then None
              else Some ("database schema is missing required migration " +:+ version +:+ "; run `sdl-control migrate`")
          end
      end
  end.
End Migrations.
