(* ===== verification/MigrationsInv.v ===== *)
(** * Migrations run once, in the order of their files. *)
From S2P Require Import Prelude GoString GoText NetIP NetParse Proto ExpireMap Network UserManager DebugStore UmStore.
From S2P Require Import Migrations.

Section Run.
Context {D : Type} (exec : string → D → result D).

(** Running texts one after the other. *)
Fixpoint exec_all (sqls : list string) (d : D) : result D :=
  match sqls with
  | [] => Ok d
  | sql :: sqls' => let? d := exec sql d in exec_all sqls' d
  end.

(** The migrations that the table does not have. *)
Definition missing (rows : gmap string string) (ms : list migration) : list migration :=
  filter (λ m, rows !! mg_version m = None) ms.

Lemma apply_loop_Ok fails applied ms rows d rows' d' : apply_loop exec fails applied ms rows d = Ok (rows', d') →
  exec_all (mg_sql <$> missing applied ms) d = Ok d'
  ∧ rows ⊆ rows'
  ∧ Forall (λ m, match applied !! mg_version m with
                 | Some checksum => checksum = mg_checksum m
                 | None => rows' !! mg_version m = Some (mg_checksum m)
                 end) ms.
Proof.
  revert rows d. induction ms as [|m ms IH]; intros rows d; cbn [apply_loop].
  { intros [= <- <-]. by repeat constructor. }
  unfold missing. rewrite filter_cons. destruct (applied !! mg_version m) as [checksum|] eqn:Ha.
  - case_bool_decide as Hc; [done|]. intros (H1 & H2 & H3)%IH.
    rewrite decide_False by done. split; [done|]. split; [done|]. constructor; [by rewrite Ha|done].
  - rewrite decide_True by done. destruct (fails _); [done|]. destruct (exec _ d) as [d1|] eqn:Hd; [|done].
    destruct (fails _); [done|]. case_bool_decide as Hr; [done|]. intros (H1 & H2 & H3)%IH.
    rewrite fmap_cons. cbn [exec_all]. rewrite Hd. split; [done|].
    assert (Hn : rows !! mg_version m = None) by (by apply eq_None_not_Some).
    split; [etrans; [by apply (insert_subseteq rows (mg_version m) (mg_checksum m))|done]|]. constructor; [|done].
    rewrite Ha. eapply lookup_weaken; [apply lookup_insert_eq|done].
Qed.

(** With all checksums in place the loop has nothing to do. *)
Lemma apply_loop_idle fails applied ms rows d : Forall (λ m, applied !! mg_version m = Some (mg_checksum m)) ms →
  apply_loop exec fails applied ms rows d = Ok (rows, d).
Proof.
  induction 1 as [|m ms Hm _ IH]; [done|]. cbn [apply_loop]. rewrite Hm. by rewrite bool_decide_eq_false_2 by auto.
Qed.
End Run.

Section Apply.
Context (sha256 : list byte → list byte) {D : Type} (exec : string → D → result D) (o : RangeOrder).

Definition applied_in (db : Database (D := D)) (m : migration) : Prop :=
  ∃ rows, schema_migrations db = Some rows ∧ rows !! mg_version m = Some (mg_checksum m).

Lemma loadApplied_Ok fails rows r : loadAppliedMigrations o fails rows = Ok r → r = rows.
Proof.
  unfold loadAppliedMigrations. destruct (fails _); [done|]. destruct (head _); [done|]. destruct (fails _); [done|]. by intros [= ->].
Qed.

Lemma loadApplied_calm fails rows : (∀ call, fails call = None) → loadAppliedMigrations o fails rows = Ok rows.
Proof.
  intros Hc. unfold loadAppliedMigrations. rewrite !Hc.
  assert (omap (λ '(version, _), fails (MScan version)) (range o rows) = []) as ->.
  { induction (range o rows) as [|[] l IH]; [done|]. simpl. by rewrite Hc. }
  done.
Qed.

Lemma LatestMigration_listed entries ms scope v : loadMigrations sha256 entries = Ok ms →
  LatestMigrationVersion sha256 entries scope = Ok v → ∃ m, m ∈ ms ∧ mg_version m = v.
Proof.
  intros Hms. unfold LatestMigrationVersion. case_bool_decide; [done|]. rewrite Hms. cbn [rbind].
  destruct (list_find _ _) as [[i m]|] eqn:E; [|done]. intros [= <-]. exists m. split; [|done].
  apply list_find_Some in E as (Hi & _). apply list_elem_of_lookup_2 in Hi. by rewrite elem_of_reverse in Hi.
Qed.

(** A successful [migrate]. *)
Lemma ApplyMigrations_Ok fails entries commit db db' : ApplyMigrations sha256 exec o fails entries commit db = (db', None) →
  ∃ ms rows d, loadMigrations sha256 entries = Ok ms ∧ db' = mkDatabase (Some rows) d
    ∧ exec_all exec (mg_sql <$> missing (default ∅ (schema_migrations db)) ms) (db_rest db) = Ok d
    ∧ default ∅ (schema_migrations db) ⊆ rows ∧ Forall (λ m, rows !! mg_version m = Some (mg_checksum m)) ms.
Proof.
  unfold ApplyMigrations. destruct (loadMigrations sha256 entries) as [ms|] eqn:Hms; [|done].
  destruct (fails MBegin); [done|]. destruct (fails MTable); [done|]. cbv zeta.
  destruct (loadAppliedMigrations o fails _) as [applied|] eqn:Hl; [|done]. apply loadApplied_Ok in Hl as ->. cbn [rbind].
  destruct (apply_loop _ _ _ _ _ _) as [[rows d]|] eqn:E; [|done]. destruct commit; [|done]. intros [= <-].
  apply apply_loop_Ok in E as (He & Hsub & Hall). exists ms, rows, d. split_and!; [done..|].
  eapply Forall_impl; [exact Hall|]. intros m. cbv beta.
  destruct (default ∅ (schema_migrations db) !! mg_version m) as [c|] eqn:Hc; rewrite ?Hc; [|done].
  intros <-. by eapply lookup_weaken.
Qed.

Lemma migrated_idle calm entries ms rows d : (∀ call, calm call = None) → loadMigrations sha256 entries = Ok ms →
  Forall (λ m, rows !! mg_version m = Some (mg_checksum m)) ms →
  ApplyMigrations sha256 exec o calm entries Commits (mkDatabase (Some rows) d) = (mkDatabase (Some rows) d, None).
Proof.
  intros Hcalm Hms Hin. unfold ApplyMigrations. rewrite Hms, !Hcalm. cbn [schema_migrations default db_rest].
  rewrite loadApplied_calm by done. cbn [rbind]. by rewrite apply_loop_idle.
Qed.

Lemma migrated_accepted calm entries ms rows d scope v : (∀ call, calm call = None) → loadMigrations sha256 entries = Ok ms →
  Forall (λ m, rows !! mg_version m = Some (mg_checksum m)) ms →
  LatestMigrationVersion sha256 entries scope = Ok v → TrimSpace v ≠ "" → RequireMigration calm v (mkDatabase (D := D) (Some rows) d) = None.
Proof.
  intros Hcalm Hms Hin Hv Hne. eapply LatestMigration_listed in Hv as (m & Hm & <-); [|done]. unfold RequireMigration.
  rewrite bool_decide_eq_false_2 by done. rewrite !Hcalm. cbn [schema_migrations].
  rewrite bool_decide_eq_true_2; [done|]. eexists. by apply (proj1 (Forall_forall _ _) Hin).
Qed.

End Apply.

(** ** A database with one migration behind *)
Module SampleMigrations.
Definition sha (l : list byte) : list byte := take 2 l.
Definition run (sql : string) (d : list string) : result (list string) := Ok (d ++ [sql]).
Definition entries : result (list dir_entry) :=
  Ok [mkEntry "0006_control_b.sql" false (Ok "B"); mkEntry "README.md" false (Ok "text"); mkEntry "0001_control_a.sql" false (Ok "A")].
Definition db : Database := mkDatabase (Some {["0001_control_a" := "41"]}) ["A"].
Definition calm : mig_call → option string := λ _, None.
End SampleMigrations.

