(* ===== verification/Controller.v ===== *)
(** * The controller: [control/controller.go] (state and helpers) and
    [control/controller_user.go].

    [Controller] gathers the state of the components; what is fixed after start
    (configuration, codecs, digests) is a parameter.  Every handler below is one
    step at clock reading [now]; [save] is the outcome of saving the user
    manager during that step. *)
From S2P Require Import Prelude GoString GoText NetIP NetParse Packet Proto ExpireMap Network Config UserManager.
From S2P Require Import Gateway ExitNode DeviceList DebugStore Debug.

Record deviceAuthChallengeState := mkChallenge {
  ch_UserID : string;
  ch_GroupName : string;
  ch_DeviceID : string;
  ch_Ticket : string;
  ch_DevicePubKey : list byte;
  ch_Nonce : list byte;
  ch_ExpireAt : Z;
  ch_ReauthRequired : bool
}.

Record Controller := mkController {
  c_nc : NetworkControl;
  c_um : UserManager;
  c_gw : GatewayState;
  c_exits : ExitNodes;
  authChallenges : gmap string deviceAuthChallengeState;
  handshakeCaps : gmap string (list string);
  c_debug : DebugState
}.

Definition deviceAuthChallengeTTL : Z := 60 * second.

(** ** Start *)
Definition NewController (um : UserManager) (gw : GatewayState) (x : ExitNodes) : Controller :=
  mkController
    (mkNetworkControl (NewExpireMap (7 * 24 * hour)) (NewExpireMap (24 * hour)) (NewExpireMap (24 * hour))
       (NewExpireMap (10 * minute)) (NewExpireMap (20 * second)) (NewExpireMap (3 * second))
       (NewExpireMap (30 * minute)))
    um gw x ∅ ∅ NewDebugState.

Definition isEmptyUMSnapshot (s : UMSnapshot) : bool :=
  (s_UserSeq s =? 0) && (s_EnrollmentSeq s =? 0) && bool_decide (s_Users s = ∅) && bool_decide (s_Policies s = ∅)
  && bool_decide (s_Enrollments s = ∅) && bool_decide (s_DeviceByPubKey s = ∅)
  && bool_decide (s_CertifiedDevices s = ∅) && bool_decide (s_DeviceTickets s = ∅).

(** [load] and [save] are the database's outcomes; [migration] is the snapshot file
    named by the environment, [None] when it is not set.  The second component is
    the snapshot written to the database, if any. *)
Definition loadUMSnapshotForPostgresStore (load : result UMSnapshot) (save : UMSnapshot → option string)
    (migration : option (string * result UMSnapshot)) : result UMSnapshot * option UMSnapshot :=
  match load with
  | Err e => (Err ("load user manager from postgres: " +:+ e), None)
  | Ok snapshot =>
      if negb (isEmptyUMSnapshot snapshot) then (Ok snapshot, None) else
      match migration with
      | None => (Ok snapshot, None)
      | Some (path, Err e) => (Err ("load user manager migration snapshot (" +:+ path +:+ "): " +:+ e), None)
      | Some (path, Ok seed) =>
          if isEmptyUMSnapshot seed then (Ok snapshot, None) else
          match save seed with
          | Some e => (Err ("seed user manager from json (" +:+ path +:+ "): " +:+ e), None)
          | None => (Ok seed, Some seed)
          end
      end
  end.

(** [newGatewayApprovalStateFromStore] on the stored approvals. *)
Definition newGatewayApprovalStateFromStore (o : RangeOrder) (load : result (gmap string string)) : gmap string string :=
  match load with
  | Err _ => ∅
  | Ok approved => approval_snapshot o approved
  end.

(** ** Handshake capabilities *)
Definition capabilityUDPEndpointReportV1 : string := "udp_endpoint_report_v1".
Definition supportedHandshakeCapabilities : list string :=
  ["udp_endpoint_report_v1"; "punch_coord_v1"; "gateway_ticket_v1"].

Definition negotiateHandshakeCapabilities (requested : list string) : list string :=
  filter (λ c, c ∈ supportedHandshakeCapabilities) requested.

Definition hasCapability (capabilities : list string) (capability : string) : bool :=
  existsb (λ item, bool_decide (item = capability)) capabilities.

Definition setPendingHandshakeCapabilities (remoteAddr : Addr) (capabilities : list string) (c : Controller) : Controller :=
  match remoteAddr with
  | None => c
  | Some addr => c <| handshakeCaps := <[addr := capabilities]> (handshakeCaps c) |>
  end.

Definition pendingHandshakeCapabilities (remoteAddr : Addr) (c : Controller) : list string :=
  match remoteAddr with None => [] | Some addr => default [] (handshakeCaps c !! addr) end.

Definition clearPendingHandshakeCapabilities (remoteAddr : Addr) (c : Controller) : Controller :=
  match remoteAddr with
  | None => c
  | Some addr => c <| handshakeCaps := delete addr (handshakeCaps c) |>
  end.

(** ** Authentication challenges *)

(** [a] and [b] are the two outcomes of [rand.Read]: nonce and identifier. *)
Definition newDeviceAuthChallenge (now : Z) (a b : result (list byte)) (userID groupName deviceID ticket : string)
    (devicePubKey : list byte) (reauthRequired : bool) (c : Controller) : Controller * result DeviceAuthChallenge :=
  match a with
  | Err e => (c, Err e)
  | Ok nonce =>
      match b with
      | Err e => (c, Err e)
      | Ok challengeIDBytes =>
          let challengeID := EncodeToString challengeIDBytes in
          let challenge := mkChallenge userID groupName deviceID ticket devicePubKey nonce
                             (now + deviceAuthChallengeTTL) reauthRequired in
          let live := filter (λ kv, ¬ (ch_ExpireAt kv.2 < now)) (authChallenges c) in
          (c <| authChallenges := <[challengeID := challenge]> live |>,
           Ok {| dac_challenge_id := challengeID; dac_nonce := nonce;
                 dac_expire_unix_ms := unix_milli (ch_ExpireAt challenge);
                 dac_reauth_required := reauthRequired; dac_reason := "" |})
      end
  end.

Definition consumeDeviceAuthChallenge (challengeID : string) (c : Controller)
    : Controller * option deviceAuthChallengeState :=
  (c <| authChallenges := delete challengeID (authChallenges c) |>, authChallenges c !! challengeID).

(** A length as four big-endian bytes, then the data. *)
Definition appendLenPrefixed (buf data : list byte) : list byte :=
  buf ++ be_put 4 (Z.of_nat (length data)) ++ data.

Definition buildDeviceAuthSignedPayload (challengeID : string) (nonce : list byte) (deviceID : string)
    (devicePubKey : list byte) : list byte :=
  let buf := appendLenPrefixed [] (String.list_byte_of_string challengeID) in
  let buf := appendLenPrefixed buf nonce in
  let buf := appendLenPrefixed buf (String.list_byte_of_string deviceID) in
  appendLenPrefixed buf devicePubKey.

(** ** Runtime state of authenticated devices ([registration.go]) *)
Definition clearStaleClientStateByDeviceID (o : RangeOrder) (now : Z) (authGroup deviceID : string) (nc : NetworkControl)
    : NetworkControl :=
  sweep_networks o (λ _ client ip sessions network,
    if bool_decide (DeviceId client ≠ deviceID) || bool_decide (clientAuthGroup client (Group network) ≠ authGroup)
    then None
    else if negb (ControlOnline client) && bool_decide (ClientStatus client = None) && negb (DataPlaneReachable client)
    then None
    else Some (Set_ now (NewIpSessionKey (Group network) (Uint32ToIP ip)) (Address client) sessions,
               UpsertClient ip (offline_client now client) network)) nc.

Definition removeAuthedDeviceRuntimeState (o : RangeOrder) (records : list UMAuthDevice) (nc : NetworkControl)
    : NetworkControl :=
  if bool_decide (records = []) then nc else
  let remove := (λ record, authedDeviceKey (a_GroupName record) (a_DeviceID record)) <$> records in
  sweep_networks o (λ networkKey client ip sessions network,
    if bool_decide (authedDeviceKey (clientAuthGroup client (Group network)) (DeviceId client) ∉ remove) then None
    else Some (Delete (NewIpSessionKey networkKey (Uint32ToIP ip)) sessions, DeleteClient ip network)) nc.

Definition updateAuthedDeviceRuntimeName (o : RangeOrder) (record : UMAuthDevice) (nc : NetworkControl) : NetworkControl :=
  let displayName := TrimSpace (a_DisplayName record) in
  if bool_decide (displayName = "") then nc else
  sweep_networks o (λ _ client ip sessions network,
    if bool_decide (clientAuthGroup client (Group network) ≠ a_GroupName record)
       || bool_decide (DeviceId client ≠ a_DeviceID record) then None
    else if bool_decide (Name client = displayName) then None
    else Some (sessions, UpsertClient ip (client <| Name := displayName |>) network)) nc.

Section ControllerUser.
Context `{UnicodeFold} (o : RangeOrder) (sha256 : list byte → list byte) (cfg : Config).

(** ** [controller_user.go] *)

(** The domain chosen by the caller, else the default of the configuration. *)
Definition select_domain (selected : string) : string :=
  let selected := if bool_decide (selected = "") then TrimSpace (EffectiveDefaultDomain o cfg) else selected in
  if bool_decide (selected = "") then "ms.net" else selected.

Definition domain_configured (domain : string) : bool :=
  bool_decide (cfg_Domains cfg = ∅) || bool_decide (is_Some (cfg_Domains cfg !! domain)).

Definition UMCreateUser (save : UMSnapshot → option string) (now : Z) (name : string) (domain : list string) (c : Controller)
    : Controller * result UMUser :=
  let selectedDomain := select_domain (match domain with d :: _ => TrimSpace d | [] => "" end) in
  if negb (domain_configured selectedDomain) then (c, Err ("domain " +:+ selectedDomain +:+ " not configured")) else
  let '(um, r) := CreateUser o save now name [selectedDomain] (c_um c) in (c <| c_um := um |>, r).

(** The domain part of a group: a configured domain, or what follows the first dot. *)
Definition group_domain (group : string) : string :=
  let trimmedGroup := TrimSpace group in
  if negb (bool_decide (cfg_Domains cfg = ∅)) then
    match matchDomainAndGroup o trimmedGroup (cfg_Domains cfg) with Some (domainName, _) => domainName | None => "" end
  else
    match index_byte "."%char (chars trimmedGroup) with
    | Some idx =>
        if bool_decide (0 < idx)%nat && bool_decide (idx + 1 < length (chars trimmedGroup))%nat
        then TrimSpace (str (drop (idx + 1) (chars trimmedGroup))) else ""
    | None => ""
    end.

Definition UMCreateUserWithID (save : UMSnapshot → option string) (now : Z) (userID group : string) (domain : list string)
    (c : Controller) : Controller * result UMUser :=
  let selectedDomain := match domain with d :: _ => TrimSpace d | [] => "" end in
  let selectedDomain := if bool_decide (selectedDomain = "") then group_domain group else selectedDomain in
  let selectedDomain := select_domain selectedDomain in
  if negb (domain_configured selectedDomain) then (c, Err ("domain " +:+ selectedDomain +:+ " not configured")) else
  let '(um, r) := CreateUserWithID o save now userID selectedDomain group (c_um c) in (c <| c_um := um |>, r).

(** [Controller.DeleteAuthedDevice] and [Controller.RenameAuthedDevice]: the
    record, then the client tables. *)
Definition ControllerDeleteAuthedDevice (save : UMSnapshot → option string) (userID groupName deviceID : string) (c : Controller)
    : Controller * result (list UMAuthDevice) :=
  let '(um, r) := DeleteAuthedDevice o save userID groupName deviceID (c_um c) in
  match r with
  | Err e => (c <| c_um := um |>, Err e)
  | Ok records => (c <| c_um := um |> <| c_nc := removeAuthedDeviceRuntimeState o records (c_nc c) |>, Ok records)
  end.

Definition ControllerRenameAuthedDevice (save : UMSnapshot → option string) (userID groupName deviceID displayName : string)
    (c : Controller) : Controller * result UMAuthDevice :=
  let '(um, r) := RenameAuthedDevice o save userID groupName deviceID displayName (c_um c) in
  match r with
  | Err e => (c <| c_um := um |>, Err e)
  | Ok record => (c <| c_um := um |> <| c_nc := updateAuthedDeviceRuntimeName o record (c_nc c) |>, Ok record)
  end.

End ControllerUser.
