(* ===== verification/GatewayFile.v ===== *)
(** * The file of approved gateways: the struct tag of [GatewayStoreSnapshot] in
    [control/gateway_store.go], and what a restart makes of the file. *)
From S2P Require Import Prelude GoString NetIP GoText NetParse GoJson GoJsonInv JsonCodec Gateway GatewayInv DebugStore UmStore UmStoreInv Controller.

Section File.
Context `{UnicodeFold} (json_error : string → string).

(** [GatewayStoreSnapshot]; the map is its only field. *)
Definition gateway_snapshot_fields : list (struct_field (gmap string string)) :=
  [mkField "approved" false (map_codec string_codec) id (λ a _, a)].
Definition gateway_snapshot_codec : codec (gmap string string) := struct_codec ∅ gateway_snapshot_fields.

(** [json.MarshalIndent(snapshot, "", "  ")] and [json.Unmarshal]. *)
Definition encode_gateways (approved : gmap string string) : result string :=
  match c_enc gateway_snapshot_codec approved with Some j => Ok (str (json_indent j)) | None => Err (json_error "") end.
Definition decode_gateways (data : string) : result (gmap string string) :=
  match JsonUnmarshal gateway_snapshot_codec data ∅ with Some approved => Ok approved | None => Err (json_error data) end.

Definition texts_valid (approved : gmap string string) : Prop := map_Forall (λ k v, valid_text k ∧ valid_text v) approved.

Lemma gateway_file_transfers : transfers gateway_snapshot_codec gateway_snapshot_codec 2 texts_valid (fmap ToValidUTF8).
Proof.
  apply (transfers_struct _ _ _ _ 1); [lia|]. intros m Hm. eapply steps_known.
  - rewrite find_field_ascii; [reflexivity|apply (bool_decide_unpack _); vm_compute; exact I|apply (bool_decide_unpack _); vm_compute; exact I].
  - exact (transfers_map _ _ _ _ _ transfers_string).
  - intros _ k v Hk. split; [by apply (Hm k v)|done].
  - reflexivity.
  - reflexivity.
  - apply steps_nil.
Qed.

Lemma fmap_valid (m : gmap string string) : texts_valid m → ToValidUTF8 <$> m = m.
Proof.
  intros Hm. apply map_eq. intros k. rewrite lookup_fmap. destruct (m !! k) as [v|] eqn:Hk; [|done]. cbn. f_equal. by apply (Hm k v).
Qed.

(** What was written is read back. *)
Lemma gateways_decoded m : texts_valid m → ∃ data, encode_gateways m = Ok data ∧ decode_gateways data = Ok m.
Proof.
  intros Hm. destruct (tr_enc _ _ _ _ _ gateway_file_transfers m Hm) as (j & Ej & Dj & Wj).
  unfold encode_gateways, decode_gateways, JsonUnmarshal. rewrite Ej. eexists. split; [done|].
  unfold str. rewrite chars_of_list, <-(app_nil_r (json_indent j)), parse_all_indent; [|apply Wj; done|apply Forall_nil_2].
  cbn [mbind option_bind]. change (∅ : gmap string string) with (c_zero gateway_snapshot_codec). by rewrite Dj, fmap_valid.
Qed.
End File.

(** ** The approvals that are written *)
Definition trimmed (approved : gmap string string) : Prop :=
  map_Forall (λ k v, TrimSpace k = k ∧ TrimSpace v = v ∧ k ≠ "" ∧ v ≠ "") approved.

Lemma approval_snapshot_trimmed o allow : trimmed (approval_snapshot o allow).
Proof.
  unfold approval_snapshot. generalize (range o allow) as l. intros l. assert (H0 : trimmed ∅) by apply map_Forall_empty. revert H0.
  generalize (∅ : gmap string string) as m. induction l as [|[k v] l IH]; intros m Hm; [done|]. cbn [foldl]. apply IH.
  destruct (_ || _) eqn:E; [done|]. apply orb_false_iff in E as [Hk Hv]. bool_prop. apply map_Forall_insert_2; [|done].
  split_and!; [apply TrimSpace_idem|apply TrimSpace_idem|done|done].
Qed.

(** Entries that are trimmed already are kept as they are. *)
Lemma approvals_collected (l : list (string * string)) (m : gmap string string) :
  Forall (λ e, TrimSpace e.1 = e.1 ∧ TrimSpace e.2 = e.2 ∧ e.1 ≠ "" ∧ e.2 ≠ "") l → NoDup l.*1 →
  foldl (λ snapshot '(gatewayID, endpoint),
      if bool_decide (TrimSpace gatewayID = "") || bool_decide (TrimSpace endpoint = "") then snapshot
      else <[TrimSpace gatewayID := TrimSpace endpoint]> snapshot) m l = list_to_map l ∪ m.
Proof.
  intros Hl. revert m. induction Hl as [|[k v] l (Hk & Hv & Hk0 & Hv0) _ IH]; intros m Hnd; [symmetry; apply map_empty_union|].
  apply NoDup_cons in Hnd as [Hn Hnd]. cbn [fst snd] in Hk, Hv, Hk0, Hv0. cbn [foldl]. rewrite Hk, Hv, !bool_decide_eq_false_2 by done. cbn [orb].
  rewrite IH by done. cbn. rewrite <-insert_union_l, insert_union_r; [done|]. by apply not_elem_of_list_to_map_1.
Qed.

Lemma approval_snapshot_id o m : trimmed m → approval_snapshot o m = m.
Proof.
  intros Hm. unfold approval_snapshot. rewrite approvals_collected; [|apply Forall_forall; intros [k v] Hin%elem_of_range; by apply (Hm k v)|apply range_NoDup_fst].
  rewrite map_union_empty, (list_to_map_proper (range o m) (map_to_list m)).
  - apply list_to_map_to_list.
  - apply range_NoDup_fst.
  - unfold range. apply range_map_perm.
Qed.

(** ** [JSONGatewayStore] *)
Section Store.
Context `{UnicodeFold} (json_error : string → string).
Definition JSONGatewayStore_Load (fails : fs_call → string → option string) (path : string) (fs : FS) : result (gmap string string) :=
  jsonLoad "gateway" (decode_gateways json_error) ∅ fails path fs.
Definition JSONGatewayStore_Save (fails : fs_call → string → option string) (path : string) (approved : gmap string string) (fs : FS)
    : FS * option string :=
  jsonSave "gateway" (encode_gateways json_error) fails path approved fs.

(** C28 (roundtrip). The approvals of gateways survive a restart: after the file was
    written the next start reads exactly the approvals that were to be written, from the
    text of the JSON file; and when writing it failed, whatever the step, the next start
    reads what it would have read before. *)
Theorem gateway_approvals_survive o o' fails calm path allow fs :
  path ∉ ancestors (path_dir path) → calm COpen path = None → texts_valid (approval_snapshot o allow) →
  let '(fs', err) := JSONGatewayStore_Save fails path (approval_snapshot o allow) fs in
  newGatewayApprovalStateFromStore o' (JSONGatewayStore_Load calm path fs')
  = match err with
    | None => approval_snapshot o allow
    | Some _ => newGatewayApprovalStateFromStore o' (JSONGatewayStore_Load calm path fs)
    end.
Proof.
  intros Hpath Hcalm Hvalid. unfold JSONGatewayStore_Save, JSONGatewayStore_Load.
  pose proof (json_store_keeps_last "gateway" (encode_gateways json_error) (decode_gateways json_error) ∅ fails calm path
    (approval_snapshot o allow) fs Hpath Hcalm) as H'.
  destruct (jsonSave _ _ _ _ _ _) as [fs' [e|]]; [by rewrite H'|]. destruct H' as (data & He & _ & Hd).
  destruct (gateways_decoded json_error _ Hvalid) as (data' & He' & Hdec). rewrite He in He'. injection He' as <-.
  rewrite (Hd _ Hdec). cbn. apply approval_snapshot_id, approval_snapshot_trimmed.
Qed.
End Store.

Module SampleFile.
Definition allow : gmap string string := {[ " gw" := "udp://h:1 "; "x" := "" ]}.
Definition calm : fs_call → string → option string := λ _ _, None.
End SampleFile.

Lemma gateway_approvals_survive_witness :
  approval_snapshot ascending SampleFile.allow = {[ "gw" := "udp://h:1" ]}
  ∧ let '(fs', err) := @JSONGatewayStore_Save AsciiFold id SampleFile.calm "data/gw.json" (approval_snapshot ascending SampleFile.allow) ∅ in
    err = None ∧ newGatewayApprovalStateFromStore ascending (@JSONGatewayStore_Load AsciiFold id SampleFile.calm "data/gw.json" fs')
                 = {[ "gw" := "udp://h:1" ]}.
Proof.
  assert (E : approval_snapshot ascending SampleFile.allow = {[ "gw" := "udp://h:1" ]}) by (vm_compute; reflexivity).
  split; [exact E|].
  pose proof (@gateway_approvals_survive AsciiFold id ascending ascending SampleFile.calm SampleFile.calm "data/gw.json" SampleFile.allow ∅
    ltac:(apply (bool_decide_unpack _); vm_compute; exact I) eq_refl) as H.
  rewrite E in H. specialize (H ltac:(apply map_Forall_singleton; split; vm_compute; reflexivity)). rewrite E.
  destruct (JSONGatewayStore_Save _ _ _ _ _) as [fs' err] eqn:Es.
  assert (err = None) as ->; [|by split]. change err with (fs', err).2. rewrite <-Es. vm_compute. reflexivity.
Defined.
