(* ===== verification/DeviceAuth.v ===== *)
(** * Device authentication: [HandleDeviceAuthPacket] and
    [HandleDeviceAuthProofPacket] of [control/registration.go].

    A device presents a ticket and its public key and is given a challenge; it
    answers with a signature under that key.  Ed25519 is a parameter: [ed25519]
    is the verification equation, and [Verify] adds the documented panic of the
    library on a key that is not 32 bytes long. *)
From S2P Require Import Prelude GoString GoText NetIP NetParse Packet Proto ExpireMap Network Config UserManager.
From S2P Require Import Gateway ExitNode Controller.

(** A handler returns or the goroutine panics. *)
Inductive outcome (A : Type) := Ret (a : A) | Panic.
Arguments Ret {A} a.
Arguments Panic {A}.

Section DeviceAuth.
Context `{UnicodeFold} `{ProtoMessage DeviceAuthRequest} `{ProtoMessage DeviceAuthChallenge} `{ProtoMessage DeviceAuthProof}
  `{ProtoMessage DeviceAuthAck}.
Context (o : RangeOrder) (sha256 : list byte → list byte) (ed25519 : list byte → list byte → list byte → bool).

Definition Verify (pubKey message sig : list byte) : outcome bool :=
  if bool_decide (length pubKey = 32%nat) then Ret (ed25519 pubKey message sig) else Panic.

Definition buildServicePacket {M} `{ProtoMessage M} (request : Packet) (appProto : Z) (msg : M) : result Packet :=
  let? payload := proto_marshal msg in Ok (service_packet request appProto payload).

Definition zeroAck : DeviceAuthAck :=
  {| daa_ok := false; daa_reason := ""; daa_user_id := ""; daa_group := ""; daa_device_id := "";
     daa_auth_expire_unix_ms := 0; daa_reauth_required := false; daa_error_reason := 0 |}.

Definition HandleDeviceAuthPacket (now : Z) (a b : result (list byte)) (request : Packet) (c : Controller)
    : Controller * result Packet :=
  match proto_unmarshal (Payload request) with
  | Err e => (c, Err e)
  | Ok req =>
      let refuse reason :=
        buildServicePacket request AppProtoDeviceAuthAck
          (zeroAck <| daa_reason := reason |> <| daa_user_id := dar_user_id req |> <| daa_group := dar_group req |>
                   <| daa_device_id := dar_device_id req |>) in
      match ValidateDeviceAuth now (dar_user_id req) (dar_group req) (dar_device_id req) (dar_ticket req) (c_um c) with
      | Err e => (c, refuse e)
      | Ok groupName =>
          if bool_decide (dar_device_pub_key req = []) then (c, refuse "device public key is empty") else
          let reauthRequired := match GetAuthedDevice groupName (dar_device_id req) (c_um c) with
            | Some existing => bool_decide (a_PubKeyHex existing ≠ toPubKeyHex sha256 (dar_device_pub_key req) "ed25519")
            | None => false
            end in
          let '(c, challenge) :=
            newDeviceAuthChallenge now a b (dar_user_id req) groupName (dar_device_id req) (dar_ticket req)
              (dar_device_pub_key req) reauthRequired c in
          match challenge with
          | Err e => (c, Err e)
          | Ok challenge => (c, buildServicePacket request AppProtoDeviceAuthChallenge challenge)
          end
      end
  end.

Definition HandleDeviceAuthProofPacket (save : UMSnapshot → option string) (now : Z) (request : Packet) (c : Controller)
    : Controller * outcome (result Packet) :=
  match proto_unmarshal (Payload request) with
  | Err e => (c, Ret (Err e))
  | Ok req =>
      let reply (ack : DeviceAuthAck) := Ret (buildServicePacket request AppProtoDeviceAuthAck ack) in
      let '(c, challenge) := consumeDeviceAuthChallenge (dap_challenge_id req) c in
      let expired := (c, reply (zeroAck <| daa_reason := "challenge_expired" |> <| daa_device_id := dap_device_id req |>
                                        <| daa_error_reason := DEVICE_AUTH_ERROR_REASON_CHALLENGE_EXPIRED |>)) in
      match challenge with
      | None => expired
      | Some challenge =>
          if ch_ExpireAt challenge <? now then expired else
          let refuse reason code :=
            reply (zeroAck <| daa_reason := reason |> <| daa_device_id := dap_device_id req |>
                           <| daa_reauth_required := ch_ReauthRequired challenge |> <| daa_error_reason := code |>) in
          if bool_decide (ch_DeviceID challenge ≠ dap_device_id req)
             || bool_decide (ch_DevicePubKey challenge ≠ dap_device_pub_key req)
          then (c, refuse "device_key_mismatch" DEVICE_AUTH_ERROR_REASON_DEVICE_KEY_MISMATCH) else
          match Verify (dap_device_pub_key req)
                  (buildDeviceAuthSignedPayload (dap_challenge_id req) (ch_Nonce challenge) (dap_device_id req)
                     (dap_device_pub_key req)) (dap_signature req) with
          | Panic => (c, Panic)
          | Ret false => (c, refuse "invalid_signature" DEVICE_AUTH_ERROR_REASON_INVALID_SIGNATURE)
          | Ret true =>
              let '(um, r) := AuthDevice o save sha256 now (ch_UserID challenge) (ch_GroupName challenge)
                                (ch_DeviceID challenge) (ch_Ticket challenge) (ch_DevicePubKey challenge) (c_um c) in
              let c := c <| c_um := um |> in
              match r with
              | Err e =>
                  (c, reply {| daa_ok := false; daa_reason := e; daa_user_id := ch_UserID challenge;
                               daa_group := ch_GroupName challenge; daa_device_id := ch_DeviceID challenge;
                               daa_auth_expire_unix_ms := 0; daa_reauth_required := ch_ReauthRequired challenge;
                               daa_error_reason := DEVICE_AUTH_ERROR_REASON_AUTH_CHECK_FAILED |})
              | Ok record =>
                  (c, reply {| daa_ok := true; daa_reason := ""; daa_user_id := a_UserID record;
                               daa_group := a_GroupName record; daa_device_id := a_DeviceID record;
                               daa_auth_expire_unix_ms := unix_milli (a_AuthExpireAt record);
                               daa_reauth_required := ch_ReauthRequired challenge;
                               daa_error_reason := DEVICE_AUTH_ERROR_REASON_UNSPECIFIED |})
              end
          end
      end
  end.

End DeviceAuth.
