(* ===== verification/DeviceAuthInv.v ===== *)
(** * Correctness of device authentication. *)
From S2P Require Import Prelude GoString GoText NetIP NetParse Packet Proto ExpireMap Network Config UserManager.
From S2P Require Import UserInv Gateway GatewayInv ExitNode Controller DeviceAuth.

(** ** The signed text *)
Lemma list_byte_of_string_inj s t : String.list_byte_of_string s = String.list_byte_of_string t → s = t.
Proof.
  intros E. by rewrite <-(String.string_of_list_byte_of_string s), E, String.string_of_list_byte_of_string.
Qed.

(** A length-prefixed field can be read back, whatever follows it. *)
Lemma len_prefixed_inj (d d' rest rest' : list byte) :
  Z.of_nat (length d) < 2 ^ 32 → Z.of_nat (length d') < 2 ^ 32 →
  be_put 4 (Z.of_nat (length d)) ++ d ++ rest = be_put 4 (Z.of_nat (length d')) ++ d' ++ rest' → d = d' ∧ rest = rest'.
Proof.
  intros Hd Hd' E. apply app_inj_1 in E as [El E]; [|by rewrite !length_be_put].
  apply Uint32ToIP_inj in El; [|lia..]. apply app_inj_1 in E; [done|lia].
Qed.

(** The text a device signs determines the challenge identifier,
    the nonce, the device and the key it was built from: a signature made for one
    challenge cannot be presented for another. *)
Theorem signed_payload_inj (id id' dev dev' : string) (nonce nonce' key key' : list byte) :
  (∀ l, l ∈ [String.list_byte_of_string id; nonce; String.list_byte_of_string dev; key;
             String.list_byte_of_string id'; nonce'; String.list_byte_of_string dev'; key'] → Z.of_nat (length l) < 2 ^ 32) →
  buildDeviceAuthSignedPayload id nonce dev key = buildDeviceAuthSignedPayload id' nonce' dev' key' →
  id = id' ∧ nonce = nonce' ∧ dev = dev' ∧ key = key'.
Proof.
  intros Hlen. unfold buildDeviceAuthSignedPayload, appendLenPrefixed. rewrite !app_nil_l, <-!app_assoc. intros E.
  apply len_prefixed_inj in E as [E1%list_byte_of_string_inj E]; [|apply Hlen; set_solver..].
  apply len_prefixed_inj in E as [E2 E]; [|apply Hlen; set_solver..].
  apply len_prefixed_inj in E as [E3%list_byte_of_string_inj E]; [|apply Hlen; set_solver..].
  destruct (len_prefixed_inj key key' [] []) as [E4 _]; [apply Hlen; set_solver..|by rewrite !app_nil_r|done].
Qed.

Section DeviceAuthInv.
Context `{UnicodeFold} `{ProtoMessage DeviceAuthRequest} `{ProtoMessage DeviceAuthChallenge} `{!ProtoMessage DeviceAuthProof}
  `{ProtoMessage DeviceAuthAck}.
Context (o : RangeOrder) (sha256 : list byte → list byte) (ed25519 : list byte → list byte → list byte → bool).

Abbreviation proof_packet := (HandleDeviceAuthProofPacket o sha256 ed25519).
Abbreviation auth_packet := (HandleDeviceAuthPacket sha256).

(** What [AuthDevice] does when it does anything. *)
Lemma AuthDevice_effect save now userID group dev ticket pk m :
  let r := AuthDevice o save sha256 now userID group dev ticket pk m in
  r.1 = m ∧ (∃ e, r.2 = Err e) ∨
  ∃ g rec, ValidateDeviceAuth now userID group dev ticket m = Ok g
    ∧ authedDevices r.1 = <[authedDeviceKey g dev := rec]> (authedDevices m)
    ∧ a_UserID rec = userID ∧ a_GroupName rec = g ∧ a_DeviceID rec = dev ∧ a_PubKeyHex rec = toPubKeyHex sha256 pk "ed25519"
    ∧ (r.2 = Ok rec ∨ ∃ e, r.2 = Err e).
Proof.
  cbv zeta. unfold AuthDevice. case_bool_decide; [left; eauto|].
  destruct (ValidateDeviceAuth _ _ _ _ _ _) as [g|e]; [|left; eauto]. right.
  unfold auth_device_commit. cbv zeta. rewrite finish_fst. eexists g, _. split_and!; [done..|].
  unfold finish. destruct (saveLocked _ _ _); [by right; eauto|by left].
Qed.

(** Handling a proof takes its challenge away, whatever the answer. *)
Lemma proof_challenges save now request c :
  authChallenges (proof_packet save now request c).1 =
  match proto_unmarshal (Payload request) with
  | Ok req => delete (dap_challenge_id req) (authChallenges c)
  | Err _ => authChallenges c
  end.
Proof.
  unfold HandleDeviceAuthProofPacket, consumeDeviceAuthChallenge. destruct (proto_unmarshal _) as [req|]; [|done].
  destruct (authChallenges c !! dap_challenge_id req); [|done]. repeat case_match; done.
Qed.

(** C9 (safety). A proof changes the user manager only if it answers a pending,
    unexpired challenge for its own device and 32-byte key, with a signature under
    that key over exactly that challenge, and the ticket the challenge was issued
    for is still valid; it then authenticates exactly that device, key and user,
    and the challenge is gone. *)
Theorem proof_needs_signature save (now : Z) (request : Packet) (c c' : Controller) out :
  proof_packet save now request c = (c', out) → c_um c' ≠ c_um c →
  ∃ req ch g rec, proto_unmarshal (Payload request) = Ok req
    ∧ authChallenges c !! dap_challenge_id req = Some ch ∧ now ≤ ch_ExpireAt ch
    ∧ ch_DeviceID ch = dap_device_id req ∧ ch_DevicePubKey ch = dap_device_pub_key req
    ∧ length (dap_device_pub_key req) = 32%nat
    ∧ ed25519 (dap_device_pub_key req) (buildDeviceAuthSignedPayload (dap_challenge_id req) (ch_Nonce ch)
        (dap_device_id req) (dap_device_pub_key req)) (dap_signature req) = true
    ∧ ValidateDeviceAuth now (ch_UserID ch) (ch_GroupName ch) (ch_DeviceID ch) (ch_Ticket ch) (c_um c) = Ok g
    ∧ authedDevices (c_um c') = <[authedDeviceKey g (ch_DeviceID ch) := rec]> (authedDevices (c_um c))
    ∧ a_UserID rec = ch_UserID ch ∧ a_PubKeyHex rec = toPubKeyHex sha256 (dap_device_pub_key req) "ed25519"
    ∧ authChallenges c' = delete (dap_challenge_id req) (authChallenges c).
Proof.
  intros Hp Hne. unfold HandleDeviceAuthProofPacket, consumeDeviceAuthChallenge in Hp.
  destruct (proto_unmarshal (Payload request)) as [req|e]; [|by injection Hp as <- _].
  destruct (authChallenges c !! dap_challenge_id req) as [ch|] eqn:Hch; [|by injection Hp as <- _].
  destruct (ch_ExpireAt ch <? now) eqn:Hexp; [by injection Hp as <- _|].
  destruct (bool_decide _ || _) eqn:Hmm; [by injection Hp as <- _|]. bool_prop.
  unfold Verify in Hp. case_bool_decide as Hlen; [|by injection Hp as <- _].
  destruct (ed25519 _ _ _) eqn:Hsig; [|by injection Hp as <- _].
  destruct (AuthDevice_effect save now (ch_UserID ch) (ch_GroupName ch) (ch_DeviceID ch) (ch_Ticket ch)
    (ch_DevicePubKey ch) (c_um c)) as [[Hsame _]|(g & rec & Hv & Hd & Hu & _ & _ & Hk & _)].
  - exfalso. apply Hne. simpl in Hp. destruct (AuthDevice _ _ _ _ _ _ _ _ _ _) as [um [r|e]];
      injection Hp as <- _; done.
  - assert (Hkey : ch_DevicePubKey ch = dap_device_pub_key req) by (by apply dec_stable).
    exists req, ch, g, rec. split_and!; try done; [by apply dec_stable|..].
    + simpl in Hp. destruct (AuthDevice _ _ _ _ _ _ _ _ _ _) as [um [r|e]]; injection Hp as <- _; done.
    + by rewrite Hk, Hkey.
    + simpl in Hp. destruct (AuthDevice _ _ _ _ _ _ _ _ _ _) as [um [r|e]]; injection Hp as <- _; done.
Qed.

(** ** Challenges are answered once *)
Inductive auth_op :=
| AAuth (now : Z) (a b : result (list byte)) (request : Packet)
| AProof (save : UMSnapshot → option string) (now : Z) (request : Packet).

Definition auth_exec (op : auth_op) (c : Controller) : Controller :=
  match op with
  | AAuth now a b request => (auth_packet now a b request c).1
  | AProof save now request => (proof_packet save now request c).1
  end.

(** The operation does not draw this identifier. *)
Definition not_drawn (id : string) (op : auth_op) : Prop :=
  match op with AAuth _ _ (Ok b) _ => EncodeToString b ≠ id | _ => True end.

Lemma auth_keeps_absent id op c :
  not_drawn id op → authChallenges c !! id = None → authChallenges (auth_exec op c) !! id = None.
Proof.
  intros Hnd Hn. destruct op as [now a b request|save now request]; simpl.
  - unfold HandleDeviceAuthPacket. destruct (proto_unmarshal _); [|done].
    destruct (ValidateDeviceAuth _ _ _ _ _ _); [|done]. case_bool_decide; [done|].
    unfold newDeviceAuthChallenge. destruct a; [|done]. destruct b as [b|]; [|done]. simpl in *. unfold const.
    rewrite lookup_insert_ne by done. apply map_lookup_filter_None. by left.
  - rewrite proof_challenges. destruct (proto_unmarshal _) as [req|]; [|done].
    apply lookup_delete_None. by right.
Qed.

(** C22 (safety). Once a proof for a challenge has been handled, whatever the
    answer, and as long as the same random identifier is not drawn again, no later
    proof for that challenge authenticates anything. *)
Theorem challenge_single_use save save' (now now' : Z) (r1 r2 : Packet) (p1 p2 : DeviceAuthProof) (ops : list auth_op)
    (c : Controller) :
  proto_unmarshal (Payload r1) = Ok p1 → proto_unmarshal (Payload r2) = Ok p2 →
  dap_challenge_id p1 = dap_challenge_id p2 → Forall (not_drawn (dap_challenge_id p1)) ops →
  let c1 := (proof_packet save now r1 c).1 in
  let c2 := foldl (λ c op, auth_exec op c) c1 ops in
  c_um (proof_packet save' now' r2 c2).1 = c_um c2.
Proof.
  intros Hp1 Hp2 Hid Hops c1 c2.
  assert (Habs : authChallenges c2 !! dap_challenge_id p1 = None).
  { assert (authChallenges c1 !! dap_challenge_id p1 = None) as Hc1.
    { subst c1. rewrite proof_challenges, Hp1. apply lookup_delete_eq. }
    subst c2. clearbody c1. revert c1 Hc1. induction Hops as [|op ops Hop _ IH]; intros c1 Hc1; [done|].
    simpl. apply IH. by apply auth_keeps_absent. }
  unfold HandleDeviceAuthProofPacket, consumeDeviceAuthChallenge. by rewrite Hp2, <-Hid, Habs.
Qed.

(** C40 (error). A key whose length is not 32 passes [HandleDeviceAuthPacket], and
    the library panics on it in [HandleDeviceAuthProofPacket]: the holder of a
    valid ticket can stop the server. *)
Theorem short_key_panics save (now now' : Z) (nonce idb key sig : list byte) (r1 r2 : Packet) (req : DeviceAuthRequest)
    (g : string) (c : Controller) :
  proto_unmarshal (Payload r1) = Ok req →
  ValidateDeviceAuth now (dar_user_id req) (dar_group req) (dar_device_id req) (dar_ticket req) (c_um c) = Ok g →
  dar_device_pub_key req = key → key ≠ [] → length key ≠ 32%nat →
  proto_unmarshal (Payload r2) = Ok {| dap_challenge_id := EncodeToString idb; dap_device_id := dar_device_id req;
                                      dap_device_pub_key := key; dap_signature := sig |} →
  now' ≤ now + deviceAuthChallengeTTL →
  let c1 := (auth_packet now (Ok nonce) (Ok idb) r1 c).1 in
  (proof_packet save now' r2 c1).2 = Panic.
Proof.
  intros Hr1 Hv Hkey Hne Hlen Hr2 Hnow c1. unfold HandleDeviceAuthProofPacket, consumeDeviceAuthChallenge.
  assert (Hch : ∃ ch, authChallenges c1 !! EncodeToString idb = Some ch ∧ ch_DeviceID ch = dar_device_id req
    ∧ ch_DevicePubKey ch = key ∧ ch_ExpireAt ch = now + deviceAuthChallengeTTL).
  { subst c1. unfold HandleDeviceAuthPacket. rewrite Hr1, Hv, Hkey, bool_decide_eq_false_2 by done.
    simpl. unfold const. rewrite lookup_insert_eq. by eexists. }
  destruct Hch as (ch & Hch & Hdev & Hk & Hexp). rewrite Hr2. cbn [dap_challenge_id dap_device_id dap_device_pub_key].
  rewrite Hch, Hexp. destruct (_ <? now') eqn:E; bool_prop; [lia|]. rewrite Hdev, Hk.
  rewrite !bool_decide_eq_false_2 by tauto. simpl. unfold Verify. by rewrite bool_decide_eq_false_2.
Qed.

End DeviceAuthInv.

(** ** Samples: alice authenticates her laptop *)
Module SampleAuth.
Definition const_codec {M} (m : M) : ProtoMessage M := {| proto_marshal := λ _, Ok []; proto_unmarshal := λ _, Ok m |}.
Definition packet : Packet :=
  {| Ver := V3; Proto := ProtocolService; AppProto := AppProtoDeviceAuthRequest; SourceTTL := MAX_TTL; TTL := MAX_TTL;
     SrcIP := []; DstIP := []; Payload := []; RouteNetworkKey := "" |}.
Definition request (key : list byte) : DeviceAuthRequest :=
  {| dar_user_id := "alice"; dar_group := "dev"; dar_device_id := "laptop"; dar_ticket := SampleUsers.ticket x0a;
     dar_device_pub_key := key |}.
Definition proof (key : list byte) : DeviceAuthProof :=
  {| dap_challenge_id := "07"; dap_device_id := "laptop"; dap_device_pub_key := key; dap_signature := [] |}.
Definition key32 : list byte := replicate 32 x05.
Definition c0 : Controller :=
  NewController SampleUsers.m0 (mkGatewayState ∅ ∅ ∅ ∅ "" 0 ∅ ∅) (mkExitNodes ∅ ∅).
Definition yes (_ _ _ : list byte) : bool := true.
Definition auth (key : list byte) (c : Controller) : Controller :=
  (@HandleDeviceAuthPacket (const_codec (request key)) (const_codec {| dac_challenge_id := ""; dac_nonce := [];
     dac_expire_unix_ms := 0; dac_reauth_required := false; dac_reason := "" |}) (const_codec zeroAck)
     SampleUsers.sha 5 (Ok [x01]) (Ok [x07]) packet c).1.
Definition answer (key : list byte) (c : Controller) : Controller * outcome (result Packet) :=
  @HandleDeviceAuthProofPacket (const_codec (proof key)) (const_codec zeroAck) ascending SampleUsers.sha yes
    SampleUsers.ok 6 packet c.
End SampleAuth.

Lemma signed_payload_inj_witness :
  buildDeviceAuthSignedPayload "07" [x01] "laptop" SampleAuth.key32
    = buildDeviceAuthSignedPayload "07" [x01] "laptop" SampleAuth.key32
  ∧ "07" = "07".
Proof.
  split; [done|].
  destruct (signed_payload_inj "07" "07" "laptop" "laptop" [x01] [x01] SampleAuth.key32 SampleAuth.key32) as (H & _);
    [|done|exact H].
  intros l Hl. apply (bool_decide_unpack (Z.of_nat (length l) < 2 ^ 32)).
  repeat (apply elem_of_cons in Hl as [->|Hl]; [by vm_compute|]). by apply elem_of_nil in Hl.
Defined.

Lemma proof_needs_signature_witness :
  a_UserID <$> authedDevices (c_um (SampleAuth.answer SampleAuth.key32 (SampleAuth.auth SampleAuth.key32 SampleAuth.c0)).1)
      !! "dev.corp.net|laptop" = Some "alice"
  ∧ ∃ g, ValidateDeviceAuth 6 "alice" "dev.corp.net" "laptop" (SampleUsers.ticket x0a) SampleUsers.m0 = Ok g.
Proof.
  split; [by vm_compute|].
  destruct (@proof_needs_signature (SampleAuth.const_codec (SampleAuth.proof SampleAuth.key32))
    (SampleAuth.const_codec zeroAck) ascending SampleUsers.sha SampleAuth.yes SampleUsers.ok 6 SampleAuth.packet
    (SampleAuth.auth SampleAuth.key32 SampleAuth.c0)
    (SampleAuth.answer SampleAuth.key32 (SampleAuth.auth SampleAuth.key32 SampleAuth.c0)).1
    (SampleAuth.answer SampleAuth.key32 (SampleAuth.auth SampleAuth.key32 SampleAuth.c0)).2)
    as (req & ch & g & rec & Hreq & Hch & _ & _ & _ & _ & _ & Hv & _).
  - apply surjective_pairing.
  - intros E. apply (f_equal (λ m, bool_decide (authedDevices m !! "dev.corp.net|laptop" = None))) in E. by vm_compute in E.
  - injection Hreq as <-. vm_compute in Hch. injection Hch as <-. by exists g.
Defined.

Lemma challenge_single_use_witness :
  let c1 := (SampleAuth.answer SampleAuth.key32 (SampleAuth.auth SampleAuth.key32 SampleAuth.c0)).1 in
  c_um (SampleAuth.answer SampleAuth.key32 c1).1 = c_um c1.
Proof.
  apply (@challenge_single_use (SampleAuth.const_codec (SampleAuth.request [])) (SampleAuth.const_codec
    {| dac_challenge_id := ""; dac_nonce := []; dac_expire_unix_ms := 0; dac_reauth_required := false; dac_reason := "" |})
    (SampleAuth.const_codec (SampleAuth.proof SampleAuth.key32)) (SampleAuth.const_codec zeroAck)
    ascending SampleUsers.sha SampleAuth.yes SampleUsers.ok SampleUsers.ok 6 6 SampleAuth.packet SampleAuth.packet
    (SampleAuth.proof SampleAuth.key32) (SampleAuth.proof SampleAuth.key32) []); done.
Defined.

Lemma short_key_panics_witness :
  (SampleAuth.answer SampleUsers.key (SampleAuth.auth SampleUsers.key SampleAuth.c0)).2 = Panic.
Proof.
  by apply (@short_key_panics (SampleAuth.const_codec (SampleAuth.request SampleUsers.key)) (SampleAuth.const_codec
    {| dac_challenge_id := ""; dac_nonce := []; dac_expire_unix_ms := 0; dac_reauth_required := false; dac_reason := "" |})
    (SampleAuth.const_codec (SampleAuth.proof SampleUsers.key)) (SampleAuth.const_codec zeroAck)
    ascending SampleUsers.sha SampleAuth.yes SampleUsers.ok 5 6 [x01] [x07] SampleUsers.key [] SampleAuth.packet
    SampleAuth.packet (SampleAuth.request SampleUsers.key) "dev.corp.net" SampleAuth.c0); vm_compute.
Defined.
