(* ===== verification/Registration.v ===== *)
(** * Registration, device lists and grant refresh: [control/registration.go].

    The registration handler composes every component: the configuration resolves
    the group, the user manager checks the device and names it, the address
    allocator chooses the address, the client table records it, and the reply
    carries the peers and the gateway grants.  The handlers hold the mutex of the
    virtual networks while they touch them; [now] is the clock of the step and
    [rand] the randomness of the tickets it issues. *)
From S2P Require Import Prelude GoString GoText NetIP NetParse Packet Proto ExpireMap Network Config UserManager.
From S2P Require Import Gateway Punch Dns ExitNode Controller DeviceAuth.

Definition validateRegistrationRequest (reg : RegistrationRequest) : option string :=
  let bad s := bool_decide (s = "") || (128 <? Z.of_nat (String.length s)) in
  if bad (token reg) then Some "token length error" else
  if bad (reg_device_id reg) then Some "device_id length error" else
  if bad (reg_name reg) then Some "name length error" else
  if bool_decide (reg_device_pub_key reg = []) then Some "device_pub_key is empty" else
  if bool_decide (length (reg_online_kx_pub reg) ≠ 32%nat) then Some "online_kx_pub length error" else None.

(** The errors of a registration as codes; [None] is the nil error. *)
Definition classifyRegistrationError (err : option string) : Z * Z * string :=
  match err with
  | None => (1, REGISTRATION_ERROR_REASON_INTERNAL, "registration failed")
  | Some reason =>
      if Contains reason "expect <group>.<domain>" || Contains reason "not configured in domains"
      then (1001, REGISTRATION_ERROR_REASON_INVALID_GROUP_DOMAIN, reason)
      else if Contains reason "not authed" then (1002, REGISTRATION_ERROR_REASON_NOT_AUTHED, reason)
      else if Contains reason "unmarshal" || Contains reason "validate"
      then (1003, REGISTRATION_ERROR_REASON_INVALID_REQUEST, reason)
      else if Contains reason "missing required handshake capability"
      then (1004, REGISTRATION_ERROR_REASON_MISSING_HANDSHAKE_CAPABILITY, reason)
      else (1999, REGISTRATION_ERROR_REASON_INTERNAL, reason)
  end.

Definition zeroRegistrationResponse : RegistrationResponse :=
  {| virtual_ip := 0; virtual_gateway := 0; virtual_netmask := 0; epoch := 0; device_info_list := []; public_ip := 0;
     public_port := 0; public_ipv6 := []; gateway_access_grant := None; error_code := 0; error_message := "";
     dns_profile := None; gateway_access_grants := []; gateway_policy_rev := 0; error_reason := 0 |}.

(** The public endpoint of the connection: port, IPv4 and IPv6 address. *)
Definition public_endpoint (remoteAddr : string) : result (Z * Z * list byte) :=
  match SplitHostPort remoteAddr with
  | Err e => Err ("Failed to parse remote address: " +:+ e)
  | Ok (host, portStr) =>
      match Atoi portStr with
      | None => Err ("invalid remote port: " +:+ Quote portStr)
      | Some port =>
          if (port <? 0) || (65535 <? port) then Err ("invalid remote port: " +:+ Quote portStr) else
          let ip := ParseIP host in
          if bool_decide (ip = []) then Ok (port, 0, [])
          else if bool_decide (To4 ip ≠ []) then Ok (port, IpToUint32 (To4 ip), [])
          else Ok (port, 0, To16 ip)
      end
  end.

(** The client record written by a registration over what the table held. *)
Definition registered_client (now : Z) (reg : RegistrationRequest) (displayName userID : string)
    (identity : NetworkIdentity) (capabilities : list string) (virtualIP : Z) (remoteAddr : string) (old : ClientInfo)
    : ClientInfo :=
  {| DeviceId := reg_device_id reg; Name := displayName; UserID := userID; NetworkKey := Key identity;
     AuthGroup := token reg; NetworkScope := Scope identity; ControlOnline := true; ControlLastSeen := unix now;
     DataPlaneReachable := false; DataPlaneLastSeen := 0; Version := reg_version reg; Capabilities := capabilities;
     VirtualIp := virtualIP; Address := Some remoteAddr; DevicePubKey := reg_device_pub_key reg;
     OnlineKxPub := reg_online_kx_pub reg; LastJoin := unix now; ClientStatus := ClientStatus old;
     PreferredChannelMode := CHANNEL_MODE_AUTO |}.

(** The part of the handler under the lock of the virtual networks, up to the
    allocation: find or create the network and choose an address. *)
Definition join_network (now : Z) (identity : NetworkIdentity) (netmask : list byte) (gateway : IP)
    (reserved : gmap Z string) (reg : RegistrationRequest) (nc : NetworkControl)
    : NetworkControl * NetworkInfo * (Z * Z * option string) :=
  let netInfo := default (NewNetworkInfo (Key identity) netmask gateway reserved) (networks nc !! Key identity) in
  let '(sessions, netInfo, r) :=
    generateIP now (IPSessions nc) netInfo (reg_virtual_ip reg) (reg_device_id reg) (allow_ip_change reg) in
  (set_network (Key identity) netInfo (nc <| IPSessions := sessions |>), netInfo, r).

(** The rest of it: move the client to its address and advance the epoch. *)
Definition enter_network (now : Z) (identity : NetworkIdentity) (oldIP virtualIP : Z) (client : ClientInfo → ClientInfo)
    (remoteAddr : string) (netInfo : NetworkInfo) (nc : NetworkControl) : NetworkControl * NetworkInfo :=
  let session ip := NewIpSessionKey (Key identity) (Uint32ToIP ip) in
  let moved := negb (oldIP =? 0) && negb (oldIP =? virtualIP) in
  let netInfo := if moved then DeleteClient oldIP netInfo else netInfo in
  let nc := if moved then nc <| IPSessions := Delete (session oldIP) (IPSessions nc) |> else nc in
  let old := default zeroClientInfo (Clients netInfo !! virtualIP) in
  let netInfo := bump_epoch (UpsertClient virtualIP (client old) netInfo) in
  let nc := nc <| IPSessions := Delete (session virtualIP) (IPSessions nc) |> in
  (TouchCipherSession now (Some remoteAddr) (set_network (Key identity) netInfo nc), netInfo).

Section Registration.
Context `{UnicodeFold} `{UnicodeLower} `{UrlPackage}.
Context `{ProtoMessage HandshakeRequest} `{ProtoMessage HandshakeResponse} `{ProtoMessage RegistrationRequest}
  `{ProtoMessage RegistrationResponse} `{ProtoMessage DeviceRenameRequest} `{ProtoMessage DeviceRenameResponse}
  `{ProtoMessage DeviceList} `{ProtoMessage RefreshGatewayGrantRequest} `{ProtoMessage RefreshGatewayGrantResponse}
  `{ProtoMessage GatewayTicketClaims} `{ProtoMessage SignedGatewayTicket}.
Context (o : RangeOrder) (sha256 : list byte → list byte) (hmac : string → list byte → list byte) (cfg : Config).
Context (gatewayGrantHardTTL gatewayGrantSoftRefreshLead : Z).

Abbreviation grantsForClient := (buildGatewayAccessGrantsForExistingClient o hmac (cfg_GatewayTicketSecret cfg)
  (cfg_DefaultGatewayID cfg) gatewayGrantHardTTL gatewayGrantSoftRefreshLead).
Abbreviation grantsForRefresh := (buildGatewayAccessGrantsForRefresh o hmac (cfg_GatewayTicketSecret cfg)
  (cfg_DefaultGatewayID cfg) gatewayGrantHardTTL gatewayGrantSoftRefreshLead).

(** ** Handshake *)
Definition HandleHandshakePacket (request : Packet) (remoteAddr : Addr) (c : Controller) : Controller * result Packet :=
  match proto_unmarshal (Payload request) with
  | Err e => (c, Err e)
  | Ok req =>
      let negotiated := negotiateHandshakeCapabilities (HandshakeRequest_capabilities req) in
      (setPendingHandshakeCapabilities remoteAddr negotiated c,
       buildServicePacket request AppProtoHandshakeResponse
         {| HandshakeResponse_version := "goversion-1.0.0"; HandshakeResponse_public_key := [];
            HandshakeResponse_key_finger := ""; HandshakeResponse_capabilities := negotiated |})
  end.

(** ** Registration *)

(** The device may register: its record, named if it had no name yet. *)
Definition authorise (save : UMSnapshot → option string) (now : Z) (reg : RegistrationRequest) (c : Controller)
    : Controller * result UMAuthDevice :=
  let authGroup := token reg in
  match CheckAuthedDevice sha256 now authGroup (reg_device_id reg) (reg_device_pub_key reg) (c_um c) with
  | Some e =>
      (c <| c_nc := clearStaleClientStateByDeviceID o now authGroup (reg_device_id reg) (c_nc c) |>,
       Err ("device " +:+ reg_device_id reg +:+ " auth check failed for group " +:+ authGroup +:+ ": " +:+ e))
  | None =>
      match GetAuthedDevice authGroup (reg_device_id reg) (c_um c) with
      | None => (c, Err ("device " +:+ reg_device_id reg +:+ " auth record missing for group " +:+ authGroup))
      | Some authRecord =>
          if bool_decide (TrimSpace (a_DisplayName authRecord) = "") then
            let '(um, r) := AssignAuthedDeviceDisplayName o save authGroup (reg_device_id reg)
                              (TrimSpace (reg_name reg)) (c_um c) in
            (c <| c_um := um |>, r)
          else (c, Ok authRecord)
      end
  end.

Definition HandleRegistrationPacketWithVirtualIPAndCapabilities (save : UMSnapshot → option string) (now : Z)
    (rand : Z → result (list byte)) (request : Packet) (remoteAddr : string) (capabilities : list string) (c : Controller)
    : Controller * result (Packet * Z * NetworkIdentity) :=
  match proto_unmarshal (Payload request) with
  | Err e => (c, Err e)
  | Ok reg =>
  match validateRegistrationRequest reg with
  | Some e => (c, Err e)
  | None =>
  match resolveGroupNetworkConfig o cfg (token reg) with
  | Err e => (c, Err e)
  | Ok (gateway, netmask) =>
  match authorise save now reg c with
  | (c, Err e) => (c, Err e)
  | (c, Ok authRecord) =>
      let persisted := TrimSpace (a_DisplayName authRecord) in
      let displayName := if bool_decide (persisted ≠ "") then persisted else TrimSpace (reg_name reg) in
      let identity := NewNetworkIdentity (token reg) (a_UserID authRecord) in
      match public_endpoint remoteAddr with
      | Err e => (c, Err e)
      | Ok (pubPort, publicIp, publicIpv6) =>
          match join_network now identity netmask gateway (reservedServiceIPs o cfg (token reg)) reg (c_nc c) with
          | (nc, _, (_, _, Some e)) => (c <| c_nc := nc |>, Err e)
          | (nc, netInfo, (virtualIP, oldIP, None)) =>
              let '(nc, netInfo) :=
                enter_network now identity oldIP virtualIP
                  (registered_client now reg displayName (a_UserID authRecord) identity capabilities virtualIP remoteAddr)
                  remoteAddr netInfo nc in
              let '(gw, (grants, policyRev)) :=
                grantsForClient now rand (Key identity) virtualIP (reg_device_id reg) (c_gw c) in
              let c := c <| c_nc := nc |> <| c_gw := gw |> in
              let response :=
                {| virtual_ip := virtualIP; virtual_gateway := IpToUint32 gateway;
                   virtual_netmask := MaskToUint32 netmask; epoch := u32 (Epoch netInfo);
                   device_info_list := enrichDeviceInfoListExitNodesFromClients
                     (buildDeviceInfoList o (Clients netInfo) virtualIP) (Clients netInfo) (c_exits c);
                   public_ip := publicIp; public_port := pubPort; public_ipv6 := publicIpv6;
                   gateway_access_grant := selectPrimaryGatewayGrant grants; error_code := 0; error_message := "";
                   dns_profile := BuildClientDNSProfile o cfg (token reg); gateway_access_grants := grants;
                   gateway_policy_rev := policyRev; error_reason := 0 |} in
              match proto_marshal response with
              | Err e => (c, Err ("RegistrationResponse marshal error: " +:+ e))
              | Ok respBytes => (c, Ok (service_packet request AppProtoRegistrationResponse respBytes, virtualIP, identity))
              end
          end
      end
  end
  end
  end
  end.

Definition BuildRegistrationErrorPacket (request : Packet) (err : option string) : result Packet :=
  let '(code, errorReason, reason) := classifyRegistrationError err in
  match proto_marshal (zeroRegistrationResponse <| error_code := code |> <| error_message := reason |>
                         <| error_reason := errorReason |>) with
  | Err e => Err ("RegistrationResponse(error) marshal error: " +:+ e)
  | Ok payload => Ok (service_packet request AppProtoRegistrationResponse payload)
  end.

(** ** Renaming *)
Definition networkHasDuplicateDeviceNameLocked (network : NetworkInfo) (deviceID newName : string) : bool :=
  let newName := TrimSpace newName in
  if bool_decide (newName = "") then false else
  existsb (λ '(_, client),
      if bool_decide (DeviceId client = deviceID) then false else EqualFold (TrimSpace (Name client)) newName)
    (range o (Clients network)).

(** What the first network with a client at the source address says: the group
    of the device, or a reason to refuse. *)
Definition rename_lookup (request : Packet) (deviceID newName : string) (nc : NetworkControl) : string * string :=
  forEachVirtualNetworkRead o nc (RouteNetworkKey request) (λ _ network s,
    match Clients network !! IpToUint32 (SrcIP request) with
    | None => (s, true)
    | Some client =>
        if bool_decide (DeviceId client ≠ deviceID) then ((s.1, "device mismatch"), false)
        else if networkHasDuplicateDeviceNameLocked network deviceID newName
        then ((s.1, "device name already exists"), false)
        else ((clientAuthGroup client (Group network), s.2), false)
    end) ("", "").

Definition HandleDeviceRenamePacket (save : UMSnapshot → option string) (request : Packet) (c : Controller)
    : Controller * result Packet :=
  match proto_unmarshal (Payload request) with
  | Err e => (c, Err e)
  | Ok req =>
      let reply ok reason name :=
        buildServicePacket request AppProtoDeviceRenameResponse
          {| renr_request_id := ren_request_id req; renr_ok := ok; renr_reason := reason; renr_applied_name := name;
             renr_pending_approval := false |} in
      let deviceID := TrimSpace (ren_device_id req) in
      match normalizeRenameName (ren_new_name req) with
      | Err e => (c, reply false e "")
      | Ok newName =>
          if bool_decide (deviceID = "") then (c, reply false "device_id is empty" "") else
          let '(groupName, renameReason) := rename_lookup request deviceID newName (c_nc c) in
          if bool_decide (renameReason ≠ "") then (c, reply false renameReason "") else
          if bool_decide (groupName = "") then (c, reply false "device not registered" "") else
          match SetAuthedDeviceDisplayName o save groupName deviceID newName (c_um c) with
          | (um, Some e) => (c <| c_um := um |>, reply false e "")
          | (um, None) => (c <| c_um := um |>, reply true "restart required to apply rename" newName)
          end
      end
  end.

(** ** Device lists *)
Definition HandlePullDeviceListPacketInNetwork (now : Z) (rand : Z → result (list byte)) (request : Packet)
    (networkKey : string) (c : Controller) : Controller * result Packet :=
  let selfIP := IpToUint32 (SrcIP request) in
  match DeviceListByIPInNetwork o o (c_nc c) networkKey selfIP with
  | None => (c, Ok (buildDisconnectPacket request))
  | Some deviceList =>
      let '(c, deviceList) :=
        match FindClientByVirtualIPInNetwork o (c_nc c) networkKey selfIP with
        | None => (c, deviceList)
        | Some client =>
            let routeNetworkKey := if bool_decide (TrimSpace networkKey = "") then clientNetworkKey client ""
                                   else networkKey in
            let items := enrichDeviceInfoListExitNodes o routeNetworkKey (dl_device_info_list deviceList) (c_nc c) (c_exits c) in
            let '(gw, (grants, policyRev)) := grantsForClient now rand routeNetworkKey selfIP (DeviceId client) (c_gw c) in
            (c <| c_gw := gw |>,
             deviceList <| dl_device_info_list := items |> <| dl_gateway_access_grants := grants |>
                        <| dl_gateway_policy_rev := policyRev |>)
        end in
      match proto_marshal deviceList with
      | Err e => (c, Err ("DeviceList marshal error: " +:+ e))
      | Ok payload => (c, Ok (service_packet request AppProtoPushDeviceList payload))
      end
  end.

Definition HandlePullDeviceListPacket now rand request c :=
  HandlePullDeviceListPacketInNetwork now rand request (RouteNetworkKey request) c.

Definition buildPushDeviceListPacket (networkKey : string) (targetIP epoch : Z) (deviceInfoList : list DeviceInfo)
    (gatewayGrants : list GatewayAccessGrant) (gatewayPolicyRev : Z) : result Packet :=
  match proto_marshal {| dl_epoch := epoch; dl_device_info_list := deviceInfoList;
                         dl_gateway_access_grants := gatewayGrants; dl_gateway_policy_rev := gatewayPolicyRev |} with
  | Err e => Err ("DeviceList marshal error: " +:+ e)
  | Ok payload =>
      Ok {| Ver := V3; Proto := ProtocolService; AppProto := AppProtoPushDeviceList; SourceTTL := MAX_TTL; TTL := MAX_TTL;
            SrcIP := ParseIP "0.0.0.1"; DstIP := Uint32ToIP targetIP; Payload := payload; RouteNetworkKey := networkKey |}
  end.

(** The loop over the clients of a network: the packets for the wanted targets,
    or the first error; [rand ip] is the randomness of the grants for that target. *)
Fixpoint push_targets (now : Z) (rand : Z → Z → result (list byte)) (network : NetworkInfo) (x : ExitNodes)
    (wanted : Z → ClientInfo → bool) (targets : list (Z * ClientInfo)) (gw : GatewayState)
    : GatewayState * result (list Packet) :=
  match targets with
  | [] => (gw, Ok [])
  | (targetIP, targetClient) :: targets' =>
      if negb (wanted targetIP targetClient) then push_targets now rand network x wanted targets' gw else
      let targetNetworkKey := clientNetworkKey targetClient (Group network) in
      let '(gw, (grants, policyRev)) :=
        grantsForClient now (rand targetIP) targetNetworkKey targetIP (DeviceId targetClient) gw in
      let items := enrichDeviceInfoListExitNodesFromClients (buildDeviceInfoList o (Clients network) targetIP)
                     (Clients network) x in
      match buildPushDeviceListPacket targetNetworkKey targetIP (u32 (Epoch network)) items grants policyRev with
      | Err e => (gw, Err e)
      | Ok packet =>
          let '(gw, packets) := push_targets now rand network x wanted targets' gw in
          (gw, let? packets := packets in Ok (packet :: packets))
      end
  end.

Definition push_wanted (network : NetworkInfo) (changedIP : Z) (changed : ClientInfo) (targetIP : Z) (target : ClientInfo)
    : bool :=
  negb (targetIP =? changedIP) && ControlOnline target
  && bool_decide (clientNetworkScope target (Group network) = clientNetworkScope changed (Group network)).

Definition BuildPushDeviceListPacketsForPeerChangeInNetwork (now : Z) (rand : Z → Z → result (list byte))
    (networkKey : string) (changedIP : Z) (c : Controller) : Controller * result (list Packet) :=
  let '(gw, r) :=
    forEachVirtualNetworkRead o (c_nc c) networkKey (λ _ network s,
      match Clients network !! changedIP with
      | None => (s, true)
      | Some changed =>
          if negb (ControlOnline changed) then (s, false)
          else (push_targets now rand network (c_exits c) (push_wanted network changedIP changed)
                  (range o (Clients network)) s.1, false)
      end) (c_gw c, Ok []) in
  (c <| c_gw := gw |>, r).

Definition BuildPushDeviceListPacketsForPeerChange now rand changedIP c :=
  BuildPushDeviceListPacketsForPeerChangeInNetwork now rand "" changedIP c.

Definition BuildPushDeviceListPacketsForAuthedDeviceChange (now : Z) (rand : Z → Z → result (list byte))
    (userID deviceID : string) (c : Controller) : Controller * result (list Packet) :=
  let userID := TrimSpace userID in
  let deviceID := TrimSpace deviceID in
  if bool_decide (userID = "") || bool_decide (deviceID = "") then (c, Ok []) else
  let selectedIP := forEachVirtualNetworkRead o (c_nc c) "" (λ _ network s,
      match list_find (λ '(_, client), UserID client = userID ∧ DeviceId client = deviceID ∧ ControlOnline client = true)
              (range o (Clients network)) with
      | Some (_, (_, client)) => (VirtualIp client, false)
      | None => (s, true)
      end) 0 in
  if negb (selectedIP =? 0) then BuildPushDeviceListPacketsForPeerChange now rand selectedIP c else (c, Ok []).

Definition BuildPushDeviceListPacketsForGatewayChange (now : Z) (rand : Z → Z → result (list byte)) (c : Controller)
    : Controller * result (list Packet) :=
  let '(gw, r) :=
    forEachVirtualNetworkRead o (c_nc c) "" (λ _ network s,
      match s.2 with
      | Err _ => (s, false)
      | Ok packets =>
          let '(gw, r) := push_targets now rand network (c_exits c) (λ _ target, ControlOnline target)
                            (range o (Clients network)) s.1 in
          ((gw, let? more := r in Ok (packets ++ more)), match r with Ok _ => true | Err _ => false end)
      end) (c_gw c, Ok []) in
  (c <| c_gw := gw |>, r).

Definition BuildPushDeviceListPacketsForGatewayChangeIfNeeded (now : Z) (rand : Z → Z → result (list byte)) (c : Controller)
    : Controller * result (list Packet) :=
  let nodes := approvedAliveGatewayNodesLocked o (cfg_DefaultGatewayID cfg) now (c_gw c) in
  let '(gw, (_, changed)) := syncGatewayGrantPolicyLocked nodes (c_gw c) in
  let c := c <| c_gw := gw |> in
  if negb changed then (c, Ok []) else BuildPushDeviceListPacketsForGatewayChange now rand c.

(** ** Refreshing gateway grants *)

(** The answer for the grants computed by [grantsForRefresh]. *)
Definition refresh_response (req : RefreshGatewayGrantRequest) (grants : list GatewayAccessGrant) (policyRev : Z)
    (changed : bool) : RefreshGatewayGrantResponse :=
  if negb (bool_decide (grants = [])) then
    if negb (force_reissue req) && negb (last_session_id req =? 0) && (last_policy_rev req =? policyRev) && negb changed
    then {| has_update := false; resp_gateway_access_grant := None; resp_reason := "gateway grant unchanged";
            resp_gateway_access_grants := []; resp_gateway_policy_rev := policyRev;
            resp_result := REFRESH_GATEWAY_GRANT_RESULT_NO_CHANGE |}
    else {| has_update := true; resp_gateway_access_grant := selectPrimaryGatewayGrant grants; resp_reason := "refreshed";
            resp_gateway_access_grants := grants; resp_gateway_policy_rev := policyRev;
            resp_result := REFRESH_GATEWAY_GRANT_RESULT_UPDATED |}
  else if last_policy_rev req <? policyRev
  then {| has_update := true; resp_gateway_access_grant := None; resp_reason := "gateway policy cleared";
          resp_gateway_access_grants := []; resp_gateway_policy_rev := policyRev;
          resp_result := REFRESH_GATEWAY_GRANT_RESULT_REVOKED |}
  else {| has_update := false; resp_gateway_access_grant := None; resp_reason := "no gateway available";
          resp_gateway_access_grants := []; resp_gateway_policy_rev := policyRev;
          resp_result := REFRESH_GATEWAY_GRANT_RESULT_TEMPORARILY_UNAVAILABLE |}.

Definition HandleRefreshGatewayGrantPacketInNetwork (now : Z) (rand : Z → result (list byte)) (request : Packet)
    (networkKey : string) (c : Controller) : Controller * result Packet :=
  match proto_unmarshal (Payload request) with
  | Err e => (c, Err e)
  | Ok req =>
      if ref_virtual_ip req =? 0 then (c, Err "refresh gateway grant virtual_ip is empty") else
      if bool_decide (ref_device_id req = "") then (c, Err "refresh gateway grant device_id is empty") else
      if bool_decide (To4 (SrcIP request) = []) || negb (IpToUint32 (To4 (SrcIP request)) =? ref_virtual_ip req)
      then (c, Err "refresh gateway grant source mismatch") else
      if negb (clientOwnsVirtualIPInNetwork o (c_nc c) networkKey (ref_virtual_ip req) (ref_device_id req))
      then (c, Err "refresh gateway grant device mismatch") else
      let networkKey :=
        if bool_decide (TrimSpace networkKey = "") then
          match FindClientByVirtualIP o (c_nc c) (ref_virtual_ip req) with
          | Some client => clientNetworkKey client ""
          | None => networkKey
          end
        else networkKey in
      let '(gw, (grants, policyRev, changed)) :=
        grantsForRefresh now rand networkKey (ref_virtual_ip req) (ref_device_id req) (last_session_id req)
          (force_reissue req) (c_gw c) in
      (c <| c_gw := gw |>,
       buildServicePacket request AppProtoRefreshGatewayGrantResponse (refresh_response req grants policyRev changed))
  end.

Definition HandleRefreshGatewayGrantPacket now rand request c :=
  HandleRefreshGatewayGrantPacketInNetwork now rand request (RouteNetworkKey request) c.

End Registration.
