(* ===== verification/RegistrationInv.v ===== *)
(** * Correctness of registration, device lists and grant refresh. *)
From S2P Require Import Prelude GoString GoText NetIP NetParse Packet Proto ExpireMap Network NetworkInv Config.
From S2P Require Import ConfigInv UserManager UserInv Gateway GatewayInv Punch PunchInv Dns DnsInv ExitNode.
From S2P Require Import ExitNodeInv Controller DeviceAuth DeviceAuthInv Registration.

(** ** Visitors that stop at the first network they use *)
Lemma visit_until_first {A S} (visit : A → S → S * bool) l s0 :
  (∀ a, a ∈ l → visit a s0 = (s0, true) ∨ (visit a s0).2 = false) →
  (visit_until visit l s0 = s0 ∧ ∀ a, a ∈ l → visit a s0 = (s0, true))
  ∨ ∃ a, a ∈ l ∧ visit a s0 = (visit_until visit l s0, false).
Proof.
  induction l as [|a l IH]; intros Hv; [left; split; [done|]; intros ? []%not_elem_of_nil|].
  simpl. destruct (Hv a ltac:(by left)) as [E|E].
  - rewrite E. destruct IH as [[? ?]|(b & ? & ?)]; [intros; apply Hv; by right|left|right].
    + split; [done|]. intros b [->|?]%elem_of_cons; [done|auto].
    + exists b. split; [by right|done].
  - right. exists a. split; [by left|]. destruct (visit a s0) as [s' b]. simpl in E. by subst.
Qed.

(** Which networks a lookup by key may use. *)
Definition in_reach (nk key : string) : Prop := TrimSpace nk = "" ∨ key = TrimSpace nk.

Lemma forEachRead_first {S} o nc nk (visit : string → NetworkInfo → S → S * bool) s0 :
  (∀ key n, visit key n s0 = (s0, true) ∨ (visit key n s0).2 = false) →
  let r := forEachVirtualNetworkRead o nc nk visit s0 in
  (r = s0 ∧ ∀ key n, networks nc !! key = Some n → in_reach nk key → visit key n s0 = (s0, true))
  ∨ ∃ key n, networks nc !! key = Some n ∧ in_reach nk key ∧ visit key n s0 = (r, false).
Proof.
  intros Hv r. subst r. unfold forEachVirtualNetworkRead. cbv zeta.
  match goal with |- context [visit_until ?v ?l s0] => destruct (visit_until_first v l s0) as [[H1 H2]|([key n] & Hin & H)] end.
  - intros [key n] _. destruct (_ && _); [by left|apply Hv].
  - left. split; [done|]. intros key n Hn Hr. specialize (H2 (key, n) ltac:(by apply elem_of_range)). simpl in H2.
    destruct (bool_decide _ && _) eqn:E; [|done]. bool_prop. destruct Hr; congruence.
  - right. apply elem_of_range in Hin. destruct (bool_decide _ && _) eqn:E; [done|].
    exists key, n. split_and!; [done| |done]. apply andb_false_iff in E as [E|E]; bool_prop; [left|right]; by apply dec_stable.
Qed.

(** ** Entering a network *)

(** A device has no address but the one the index knows. *)
Lemma device_address n dev ip c :
  wf_network n → dev ≠ "" → Clients n !! ip = Some c → DeviceId c = dev → FindClientIPByDeviceID n dev = ip ∧ 0 < ip.
Proof.
  intros Hwf Hd Hc Hdev. split; [by eapply FindClientIP_zero|].
  eapply usable_positive; [done|]. by eapply wf_usable.
Qed.

Lemma enter_network_spec now identity old ip client remoteAddr m nc nc' n' dev :
  wf_network m → dev ≠ "" → (∀ c, DeviceId (client c) = dev) →
  usable m ip → (∀ c, Clients m !! ip = Some c → DeviceId c = dev) →
  (∀ ip' c, Clients m !! ip' = Some c → DeviceId c = dev → ip' = old) →
  (old ≠ 0 → ∀ c, Clients m !! old = Some c → DeviceId c = dev) →
  enter_network now identity old ip client remoteAddr m nc = (nc', n') →
  networks nc' = <[Key identity := n']> (networks nc)
  ∧ wf_network n' ∧ usable n' ip ∧ Epoch n' = u64 (Epoch m + 1) ∧ Group n' = Group m
  ∧ (∃ c, Clients n' !! ip = Some (client c))
  ∧ (∀ ip' c, Clients m !! ip' = Some c → DeviceId c ≠ dev → Clients n' !! ip' = Some c).
Proof.
  intros Hwf Hdev Hcl Hu Hat Hold Hown E. unfold enter_network in E. injection E as Hnc Hn'.
  set (moved := negb (old =? 0) && negb (old =? ip)) in *.
  set (m1 := if moved then DeleteClient old m else m) in *.
  assert (Hwf1 : wf_network m1) by (subst m1; destruct moved; [by apply wf_DeleteClient|done]).
  assert (Hu1 : usable m1 ip) by (subst m1; destruct moved; [by apply usable_Delete|done]).
  assert (Hep : Epoch m1 = Epoch m ∧ Group m1 = Group m).
  { subst m1; destruct moved; [|done]. by destruct (frame_Delete old m) as (_ & _ & ? & _ & ?). }
  assert (Hc1 : ∀ ip' c, Clients m1 !! ip' = Some c → Clients m !! ip' = Some c ∧ (moved = true → ip' ≠ old)).
  { intros ip' c. subst m1. destruct moved; [|done]. rewrite Clients_Delete.
    intros [? ?]%lookup_delete_Some. split; [done|]. congruence. }
  assert (Hwf2 : wf_network (UpsertClient ip (client (default zeroClientInfo (Clients m1 !! ip))) m1)).
  { apply wf_UpsertClient; [done..|]. rewrite Hcl. intros ip' Hi.
    destruct (wf_index m1 Hwf1 _ _ Hi) as (_ & c & Hc & Hd). apply Hc1 in Hc as [Hc Hne].
    pose proof (Hold _ _ Hc Hd) as ->. destruct (device_address m dev old c Hwf Hdev Hc Hd) as [_ Hpos].
    destruct (decide (old = ip)) as [|Hno]; [done|]. exfalso. apply Hne; [|done].
    subst moved. apply andb_true_iff. split; apply negb_true_iff, Z.eqb_neq; lia. }
  split_and!.
  - rewrite <-Hnc, <-Hn'. simpl. unfold const. by destruct moved.
  - rewrite <-Hn'. by apply wf_bump_epoch.
  - rewrite <-Hn'. exact Hu1.
  - rewrite <-Hn'. simpl. unfold const. by destruct Hep as [-> _].
  - rewrite <-Hn'. simpl. unfold const. by destruct Hep as [_ ->].
  - rewrite <-Hn'. simpl. unfold const. rewrite lookup_insert_eq. by eexists.
  - intros ip' c Hc Hne. rewrite <-Hn'. simpl. unfold const.
    rewrite lookup_insert_ne by (intros <-; by apply Hne, Hat).
    subst m1. destruct moved eqn:Em; [|done]. rewrite Clients_Delete, lookup_delete_ne; [done|].
    intros <-. subst moved. apply andb_true_iff in Em as [Em _]. bool_prop.
    by apply Hne, Hown.
Qed.

(** ** The registration handler *)
Section RegistrationInv.
Context `{UnicodeFold} `{UnicodeLower} `{UrlPackage}.
Context `{ProtoMessage HandshakeRequest} `{ProtoMessage HandshakeResponse} `{!ProtoMessage RegistrationRequest}
  `{ProtoMessage RegistrationResponse} `{ProtoMessage DeviceRenameRequest} `{ProtoMessage DeviceRenameResponse}
  `{ProtoMessage DeviceList} `{!ProtoMessage RefreshGatewayGrantRequest} `{ProtoMessage RefreshGatewayGrantResponse}
  `{ProtoMessage GatewayTicketClaims} `{ProtoMessage SignedGatewayTicket}.
Context (o : RangeOrder) (sha256 : list byte → list byte) (hmac : string → list byte → list byte) (cfg : Config).
Context (hardTTL softLead : Z).

Abbreviation register := (HandleRegistrationPacketWithVirtualIPAndCapabilities o sha256 hmac cfg hardTTL softLead).
Abbreviation authorise_ := (authorise o sha256).

(** A decoded [uint32] field is one. *)
Definition uint32_decoded : Prop :=
  ∀ (b : list byte) (reg : RegistrationRequest), proto_unmarshal b = Ok reg → 0 ≤ reg_virtual_ip reg < 2 ^ 32.

Lemma authorise_Ok save now reg c c1 rec :
  authorise_ save now reg c = (c1, Ok rec) →
  CheckAuthedDevice sha256 now (token reg) (reg_device_id reg) (reg_device_pub_key reg) (c_um c) = None
  ∧ (∃ rec0, GetAuthedDevice (token reg) (reg_device_id reg) (c_um c) = Some rec0 ∧ a_UserID rec = a_UserID rec0)
  ∧ ∃ um, c1 = c <| c_um := um |>.
Proof.
  unfold authorise. destruct (CheckAuthedDevice _ _ _ _ _ _) as [e|] eqn:Hck; [done|].
  destruct (GetAuthedDevice _ _ _) as [rec0|] eqn:Hget; [|done].
  case_bool_decide.
  - destruct (AssignAuthedDeviceDisplayName _ _ _ _ _ _) as [um r] eqn:Ea. intros [= <- ->].
    split_and!; [done| |by exists um]. exists rec0. split; [done|].
    unfold AssignAuthedDeviceDisplayName in Ea. destruct (normalizeRenameName _); [|done].
    unfold GetAuthedDevice in Hget. rewrite Hget in Ea. case_bool_decide; [by injection Ea as _ <-|].
    unfold finish in Ea. destruct (saveLocked _ _ _); [done|]. by injection Ea as _ <-.
  - intros [= <- <-]. split_and!; [done|by exists rec0|]. exists (c_um c). by destruct c.
Qed.

Lemma validate_device reg : validateRegistrationRequest reg = None → reg_device_id reg ≠ "".
Proof.
  unfold validateRegistrationRequest. destruct (_ || _); [done|].
  destruct (bool_decide (reg_device_id reg = "") || _) eqn:E; [done|]. by bool_prop.
Qed.

Lemma first_ip_sane gateway mask k : sane_subnet gateway (MaskToUint32 mask) k → 0 < first_ip gateway mask.
Proof. intros [Hk Hm _ _]. destruct (subnet_bounds gateway mask k Hk Hm) as (_ & _ & -> & _ & ? & _). lia. Qed.

(** What a successful registration leaves behind. *)
Lemma registration_facts save (now : Z) (rand : Z → result (list byte)) (request : Packet) (remoteAddr : string)
    (caps : list string) (c c' : Controller) (packet : Packet) (ip : Z) (identity : NetworkIdentity) :
  wf_networks (c_nc c) → checked_config cfg → uint32_decoded →
  register save now rand request remoteAddr caps c = (c', Ok (packet, ip, identity)) →
  ∃ reg rec n', proto_unmarshal (Payload request) = Ok reg
  ∧ CheckAuthedDevice sha256 now (token reg) (reg_device_id reg) (reg_device_pub_key reg) (c_um c) = None
  ∧ GetAuthedDevice (token reg) (reg_device_id reg) (c_um c) = Some rec
  ∧ identity = NewNetworkIdentity (token reg) (a_UserID rec)
  ∧ wf_networks (c_nc c') ∧ networks (c_nc c') = <[Key identity := n']> (networks (c_nc c)) ∧ usable n' ip
  ∧ (∃ cl, Clients n' !! ip = Some cl ∧ DeviceId cl = reg_device_id reg ∧ UserID cl = a_UserID rec
       ∧ DevicePubKey cl = reg_device_pub_key reg ∧ ControlOnline cl = true ∧ Address cl = Some remoteAddr
       ∧ NetworkScope cl = Scope identity)
  ∧ (∀ ip' cl, Clients n' !! ip' = Some cl → DeviceId cl = reg_device_id reg → ip' = ip)
  ∧ (∀ n, networks (c_nc c) !! Key identity = Some n → Epoch n' = u64 (Epoch n + 1)
       ∧ ∀ ip' cl, Clients n !! ip' = Some cl → DeviceId cl ≠ reg_device_id reg → ip' ≠ ip ∨ ControlOnline cl = true →
         Clients n' !! ip' = Some cl).
Proof.
  intros Hwf Hcfg Hu32 E. unfold HandleRegistrationPacketWithVirtualIPAndCapabilities in E.
  destruct (proto_unmarshal (Payload request)) as [reg|] eqn:Hreg; [|done].
  destruct (validateRegistrationRequest reg) eqn:Hval; [done|]. apply validate_device in Hval as Hdev.
  destruct (resolveGroupNetworkConfig o cfg (token reg)) as [[gateway netmask]|] eqn:Hres; [|done].
  destruct (authorise_ save now reg c) as [c1 [rec|]] eqn:Hauth; [|done].
  apply authorise_Ok in Hauth as (Hck & (rec0 & Hget & Huser) & um & ->).
  destruct (public_endpoint remoteAddr) as [[[port ip4] ip6]|]; [|done].
  set (id := NewNetworkIdentity (token reg) (a_UserID rec)) in *.
  destruct (join_network _ _ _ _ _ _ _) as [[nc m] [[vip old] [e|]]] eqn:Hjoin; [done|].
  destruct (enter_network _ _ _ _ _ _ _ _) as [nc2 n'] eqn:Henter.
  destruct (buildGatewayAccessGrantsForExistingClient _ _ _ _ _ _ _ _ _ _ _ _) as [gw [grants rev]].
  destruct (proto_marshal _) as [bytes|]; [|done].
  assert (Hc' := f_equal fst E). assert (Hr := f_equal snd E). cbn [fst snd] in Hc', Hr. injection Hr as _ <- <-. clear E.
  unfold join_network in Hjoin.
  set (n0 := default (NewNetworkInfo (Key id) netmask gateway (reservedServiceIPs o cfg (token reg)))
               (networks (c_nc (c <| c_um := um |>)) !! Key id)) in *.
  assert (Hwf0 : wf_network n0).
  { subst n0. destruct (networks _ !! Key id) as [n|] eqn:En; [by eapply Hwf|].
    simpl. apply wf_NewNetworkInfo. destruct (resolve_sane _ _ _ _ _ Hcfg Hres) as [k Hk]. by eapply first_ip_sane. }
  destruct (generateIP _ _ n0 _ _ _) as [[s' m'] [[vip' old'] e']] eqn:Hgen. injection Hjoin as Hnc <- <- <- ->.
  destruct (generateIP_facts _ _ _ _ _ _ _ _ _ _ Hwf0 (Hu32 _ _ Hreg) Hgen)
    as (Hu & Hwfm & -> & Hat & Hsub & Hkeep & Hgw & Hnm & _ & Hep).
  eapply (enter_network_spec _ _ _ _ _ _ _ _ _ _ (reg_device_id reg)) in Henter
    as (Hnets & Hwfn & Hun & Hepn & _ & (old & Hcl) & Hothers); [|done|done|done| |done|..].
  - exists reg, rec0, n'. rewrite <-Huser. fold id.
    assert (Hnets' : networks (c_nc c') = <[Key id := n']> (networks (c_nc c))).
    { rewrite <-Hc'. simpl. unfold const. rewrite Hnets, <-Hnc, networks_set_network. by rewrite insert_insert_eq. }
    split_and!; try done.
    + intros k n. rewrite Hnets'. intros [[_ <-]|[_ ?]]%lookup_insert_Some; [done|by eapply Hwf].
    + eexists. split_and!; [exact Hcl|done..].
    + intros ip' cl Hc Hd. destruct (device_address n' _ _ _ Hwfn Hdev Hc Hd) as [<- _].
      by destruct (device_address n' _ _ _ Hwfn Hdev Hcl eq_refl) as [<- _].
    + intros n Hn. assert (n0 = n) as ->.
      { subst n0. change (networks (c_nc (c <| c_um := um |>))) with (networks (c_nc c)). by rewrite Hn. }
      rewrite Hepn, Hep. split; [done|]. intros ip' cl Hc Hd Hor. apply Hothers; [|done]. by apply Hkeep.
  - unfold usable in *. by rewrite Hgw, Hnm.
  - intros ip' cl Hc%Hsub Hd. by destruct (device_address n0 _ _ _ Hwf0 Hdev Hc Hd) as [<- _].
  - intros Hne cl Hc%Hsub. destruct (FindClientIP_nonzero _ _ Hwf0 Hne) as (c0 & Hc0 & Hd0). congruence.
Qed.


(** ** Devices that lost their authorisation *)

(** The client is one of the device in the group, with some runtime state. *)
Definition is_device (group dev : string) (G : string) (cl : ClientInfo) : bool :=
  bool_decide (DeviceId cl = dev) && bool_decide (clientAuthGroup cl G = group).
Definition has_state (cl : ClientInfo) : bool :=
  ControlOnline cl || negb (bool_decide (ClientStatus cl = None)) || DataPlaneReachable cl.

Lemma clearStale_spec now group dev nc key :
  wf_networks nc →
  match networks nc !! key with
  | None => networks (clearStaleClientStateByDeviceID o now group dev nc) !! key = None
  | Some n => ∃ n', networks (clearStaleClientStateByDeviceID o now group dev nc) !! key = Some n' ∧ wf_network n'
      ∧ Group n' = Group n
      ∧ Clients n' = swept (λ cl, is_device group dev (Group n) cl && has_state cl) (offline_client now) <$> Clients n
  end.
Proof.
  intros Hwf. unfold clearStaleClientStateByDeviceID.
  match goal with |- context [sweep_networks o ?ch nc] =>
    pose proof (sweep_all o ch nc (λ G cl, is_device group dev G cl && has_state cl) (λ c, Some (offline_client now c))
      (λ _ n ip c s, Set_ now (NewIpSessionKey (Group n) (Uint32ToIP ip)) (Address c) s) key) as Hsw end.
  destruct (networks nc !! key) as [n|]; [destruct Hsw as (n' & ? & ? & ? & HC & ?)|apply Hsw].
  4:{ exists n'. by rewrite HC, omap_swept. }
  all: try done; try by intros c ? [= <-].
  all: intros k c ip s1 n1; cbv beta; unfold is_device, has_state; repeat case_bool_decide;
    destruct (ControlOnline c), (DataPlaneReachable c); simpl; done.
Qed.

(** C23 (safety). A registration whose device fails the authorisation check is
    refused with that reason, changes neither the user manager nor the gateways,
    and takes every client of that device and group offline, in every network;
    all other clients are untouched. *)
Theorem refused_device_goes_offline save (now : Z) (rand : Z → result (list byte)) (request : Packet)
    (remoteAddr : string) (caps : list string) (c : Controller) (reg : RegistrationRequest) (subnet : IP * list byte) e :
  wf_networks (c_nc c) → proto_unmarshal (Payload request) = Ok reg → validateRegistrationRequest reg = None →
  resolveGroupNetworkConfig o cfg (token reg) = Ok subnet →
  CheckAuthedDevice sha256 now (token reg) (reg_device_id reg) (reg_device_pub_key reg) (c_um c) = Some e →
  let r := register save now rand request remoteAddr caps c in
  r.2 = Err ("device " +:+ reg_device_id reg +:+ " auth check failed for group " +:+ token reg +:+ ": " +:+ e)
  ∧ c_um r.1 = c_um c ∧ c_gw r.1 = c_gw c ∧ wf_networks (c_nc r.1)
  ∧ ∀ key n ip cl, networks (c_nc c) !! key = Some n → Clients n !! ip = Some cl →
      ∃ n' cl', networks (c_nc r.1) !! key = Some n' ∧ Clients n' !! ip = Some cl'
        ∧ (is_device (token reg) (reg_device_id reg) (Group n) cl = true →
             ControlOnline cl' = false ∧ DataPlaneReachable cl' = false ∧ ClientStatus cl' = None)
        ∧ (is_device (token reg) (reg_device_id reg) (Group n) cl = false → cl' = cl).
Proof.
  intros Hwf Hreg Hval Hres Hck. unfold HandleRegistrationPacketWithVirtualIPAndCapabilities.
  rewrite Hreg, Hval, Hres. destruct subnet as [gateway netmask]. unfold authorise. rewrite Hck. cbv zeta. cbn [fst snd].
  split_and!; [done..| |].
  - intros key n' Hn'. pose proof (clearStale_spec now (token reg) (reg_device_id reg) (c_nc c) key Hwf) as Hs.
    change (networks (clearStaleClientStateByDeviceID o now (token reg) (reg_device_id reg) (c_nc c)) !! key = Some n') in Hn'.
    destruct (networks (c_nc c) !! key); [|congruence]. destruct Hs as (n1 & Hn1 & ? & _). congruence.
  - intros key n ip cl Hn Hc. pose proof (clearStale_spec now (token reg) (reg_device_id reg) (c_nc c) key Hwf) as Hs.
    rewrite Hn in Hs. destruct Hs as (n' & Hn' & _ & _ & HC).
    exists n', (swept (λ cl, is_device (token reg) (reg_device_id reg) (Group n) cl && has_state cl) (offline_client now) cl).
    split_and!; [done|by rewrite HC, lookup_fmap, Hc|..]; intros Hd; unfold swept; rewrite Hd; [|done].
    destruct (has_state cl) eqn:Hst; simpl; [done|]. unfold has_state in Hst. bool_prop. done.
Qed.

(** C24 (safety). After an administrator deletes a device, its record is gone from
    the user manager, so that the authorisation check refuses it, and no network
    has a client of that device and group any more; other clients are untouched. *)
Theorem deleted_device_gone save (now : Z) (userID group dev : string) (pk : list byte) (c c' : Controller)
    (records : list UMAuthDevice) (rec : UMAuthDevice) :
  wf_um (c_um c) → wf_networks (c_nc c) →
  ControllerDeleteAuthedDevice o save userID group dev c = (c', Ok records) → rec ∈ records →
  CheckAuthedDevice sha256 now (a_GroupName rec) (a_DeviceID rec) pk (c_um c') = Some "not_auth"
  ∧ wf_networks (c_nc c')
  ∧ (∀ key n ip cl, networks (c_nc c') !! key = Some n → Clients n !! ip = Some cl →
       is_device (a_GroupName rec) (a_DeviceID rec) (Group n) cl = false)
  ∧ (∀ key n ip cl, networks (c_nc c) !! key = Some n → Clients n !! ip = Some cl →
       authedDeviceKey (clientAuthGroup cl (Group n)) (DeviceId cl)
         ∉ (λ r, authedDeviceKey (a_GroupName r) (a_DeviceID r)) <$> records →
       ∃ n', networks (c_nc c') !! key = Some n' ∧ Clients n' !! ip = Some cl).
Proof.
  clear hmac cfg hardTTL softLead. intros Hum Hwf Hdel Hin. unfold ControllerDeleteAuthedDevice in Hdel.
  destruct (DeleteAuthedDevice _ _ _ _ _ _) as [um [recs|e]] eqn:E; [|done].
  assert (Hc' := f_equal fst Hdel). assert (Hr := f_equal snd Hdel). cbn [fst snd] in Hc', Hr. injection Hr as ->. clear Hdel.
  apply DeleteAuthedDevice_exact in E as (g & _ & _ & Hdel & Hrecs & _).
  apply Hrecs in Hin as Hk. destruct Hk as (k & Hk & Hrec). destruct (wf_authed _ Hum _ _ Hrec) as [-> _].
  set (keys := (λ r, authedDeviceKey (a_GroupName r) (a_DeviceID r)) <$> records).
  assert (Hne : records ≠ []) by (intros ->; by apply elem_of_nil in Hin).
  assert (Hsw : ∀ key, match networks (c_nc c) !! key with
    | None => networks (c_nc c') !! key = None
    | Some n => ∃ n', networks (c_nc c') !! key = Some n' ∧ wf_network n' ∧ Group n' = Group n
        ∧ Clients n' = omap (after_sweep (λ cl, bool_decide (authedDeviceKey (clientAuthGroup cl (Group n)) (DeviceId cl) ∈ keys))
                               (λ _, None)) (Clients n) end).
  { intros key. rewrite <-Hc'. unfold removeAuthedDeviceRuntimeState. rewrite bool_decide_eq_false_2 by done.
    cbv zeta. fold keys. simpl. unfold const.
    match goal with |- context [sweep_networks o ?ch ?nc] =>
      pose proof (sweep_all o ch nc (λ G cl, bool_decide (authedDeviceKey (clientAuthGroup cl G) (DeviceId cl) ∈ keys))
        (λ _, None) (λ k n ip c s, Delete (NewIpSessionKey k (Uint32ToIP ip)) s) key) as Hs end.
    destruct (networks (c_nc c) !! key) as [n|]; [destruct Hs as (n' & ? & ? & ? & HC & ?); [..|by exists n']|apply Hs].
    all: try done. all: intros k c0 ip s1 n1; cbv beta; do 2 case_bool_decide; tauto || done. }
  split_and!.
  - unfold CheckAuthedDevice. rewrite <-Hc'. simpl. unfold const. rewrite Hdel, bool_decide_eq_true_2; done.
  - intros key n' Hn'. specialize (Hsw key). destruct (networks (c_nc c) !! key); [|congruence].
    destruct Hsw as (n1 & Hn1 & ? & _). congruence.
  - intros key n' ip cl Hn' Hc. specialize (Hsw key). destruct (networks (c_nc c) !! key) as [n|]; [|congruence].
    destruct Hsw as (n1 & Hn1 & _ & HG & HC). assert (n1 = n') as -> by congruence. rewrite HC, lookup_omap in Hc.
    apply bind_Some in Hc as (cl0 & _ & Ha). unfold after_sweep in Ha. case_bool_decide as Hkeys; [done|].
    injection Ha as ->. unfold is_device. rewrite HG. do 2 case_bool_decide; [|done..]. exfalso. apply Hkeys.
    apply list_elem_of_fmap. exists rec. split; [congruence|done].
  - intros key n ip cl Hn Hc Hnot. specialize (Hsw key). rewrite Hn in Hsw. destruct Hsw as (n' & Hn' & _ & _ & HC).
    exists n'. split; [done|]. rewrite HC, lookup_omap, Hc. simpl. unfold after_sweep. by rewrite bool_decide_eq_false_2.
Qed.

(** ** Pushed device lists *)

(** The packet for the client [cl] at [ip] of network [n]: addressed to it, with
    the peers it may see and the current epoch. *)
Definition list_packet (n : NetworkInfo) (x : ExitNodes) (ip : Z) (cl : ClientInfo) (p : Packet) : Prop :=
  DstIP p = Uint32ToIP ip ∧ RouteNetworkKey p = clientNetworkKey cl (Group n) ∧ AppProto p = AppProtoPushDeviceList
  ∧ ∃ dl, proto_marshal dl = Ok (Payload p) ∧ dl_epoch dl = u32 (Epoch n)
    ∧ dl_device_info_list dl
      = enrichDeviceInfoListExitNodesFromClients (buildDeviceInfoList o (Clients n) ip) (Clients n) x.

Lemma push_targets_spec now rand n x wanted targets gw gw' packets :
  push_targets o hmac cfg hardTTL softLead now rand n x wanted targets gw = (gw', Ok packets) →
  Forall2 (λ t p, list_packet n x t.1 t.2 p) (filter (λ t, wanted t.1 t.2 = true) targets) packets.
Proof.
  revert gw gw' packets. induction targets as [|[ip cl] targets IH]; intros gw gw' packets E.
  { injection E as _ <-. constructor. }
  cbn [push_targets] in E. rewrite filter_cons. cbn [fst snd]. destruct (wanted ip cl) eqn:Hw; cbn [negb] in E.
  - rewrite decide_True by done. cbv zeta in E.
    destruct (buildGatewayAccessGrantsForExistingClient _ _ _ _ _ _ _ _ _ _ _ _) as [gw1 [grants rev]].
    destruct (buildPushDeviceListPacket _ _ _ _ _ _) as [p|] eqn:Hp; [|done].
    destruct (push_targets _ _ _ _ _ _ _ _ _ _ targets gw1) as [gw2 [ps|]] eqn:Hps; [|done].
    injection E as _ <-. constructor; [|by eapply IH].
    unfold buildPushDeviceListPacket in Hp. destruct (proto_marshal _) as [b|] eqn:Hb; [|done]. injection Hp as <-.
    split_and!; [done..|]. eexists. split_and!; [exact Hb|done..].
  - rewrite decide_False by congruence. by eapply IH.
Qed.

(** When a client changes, the new device list is pushed to exactly
    the other online clients of its network scope, once each; each list holds what
    that client may see and the epoch of the network.  Nothing is pushed for a
    client that is offline or unknown. *)
Theorem push_stays_in_scope (now : Z) (rand : Z → Z → result (list byte)) (networkKey : string) (changedIP : Z)
    (c c' : Controller) (packets : list Packet) :
  BuildPushDeviceListPacketsForPeerChangeInNetwork o hmac cfg hardTTL softLead now rand networkKey changedIP c
    = (c', Ok packets) →
  c_nc c' = c_nc c ∧ c_um c' = c_um c
  ∧ ((packets = [] ∧ c_gw c' = c_gw c)
     ∨ ∃ key n changed, networks (c_nc c) !! key = Some n ∧ in_reach networkKey key
         ∧ Clients n !! changedIP = Some changed ∧ ControlOnline changed = true
         ∧ Forall2 (λ t p, list_packet n (c_exits c) t.1 t.2 p)
             (filter (λ t, push_wanted n changedIP changed t.1 t.2 = true) (range o (Clients n))) packets).
Proof.
  unfold BuildPushDeviceListPacketsForPeerChangeInNetwork.
  match goal with |- context [forEachVirtualNetworkRead o (c_nc c) networkKey ?v ?s0] =>
    destruct (forEachRead_first o (c_nc c) networkKey v s0) as [[Hr0 _]|(key & n & Hn & Hreach & Hv)] end.
  - intros key n. destruct (Clients n !! changedIP); [|by left]. right. by destruct (negb _).
  - rewrite Hr0. intros E. assert (Hc := f_equal fst E). assert (Hr := f_equal snd E). cbn [fst snd] in Hc, Hr.
    injection Hr as <-. rewrite <-Hc. split_and!; [done..|]. by left.
  - destruct (forEachVirtualNetworkRead o (c_nc c) networkKey _ _) as [gw r]. intros E.
    assert (Hc := f_equal fst E). assert (Hr := f_equal snd E). cbn [fst snd] in Hc, Hr. subst r. rewrite <-Hc.
    split_and!; [done..|]. destruct (Clients n !! changedIP) as [changed|] eqn:Hch; [|done].
    destruct (ControlOnline changed) eqn:Hon; cbn [negb] in Hv.
    + right. exists key, n, changed. split_and!; [done..|]. injection Hv as Hv. by eapply push_targets_spec.
    + left. injection Hv as <- <-. done.
Qed.

(** ** Refreshing grants *)
Lemma owns_spec nc nk ip dev :
  clientOwnsVirtualIPInNetwork o nc nk ip dev = true →
  ∃ key n cl, networks nc !! key = Some n ∧ in_reach nk key ∧ Clients n !! ip = Some cl ∧ DeviceId cl = dev.
Proof.
  unfold clientOwnsVirtualIPInNetwork. intros Ht.
  match type of Ht with forEachVirtualNetworkRead _ _ _ ?v ?s0 = _ =>
    destruct (forEachRead_first o nc nk v s0) as [[Hr0 _]|(key & n & Hn & Hreach & Hv)] end.
  - intros key n. destruct (Clients n !! ip); [by right|by left].
  - congruence.
  - rewrite Ht in Hv. destruct (Clients n !! ip) as [cl|] eqn:Hc; [|done]. injection Hv as Hd. bool_prop.
    by exists key, n, cl.
Qed.

(** Gateway grants are refreshed only for a request that comes from
    the address it names and whose device is the client registered at that
    address; otherwise the request is refused and nothing changes. *)
Theorem refresh_needs_ownership (now : Z) (rand : Z → result (list byte)) (request : Packet) (networkKey : string)
    (c c' : Controller) (r : result Packet) :
  HandleRefreshGatewayGrantPacketInNetwork o hmac cfg hardTTL softLead now rand request networkKey c = (c', r) →
  (c' = c ∧ ∃ e, r = Err e)
  ∨ ∃ req key n cl, proto_unmarshal (Payload request) = Ok req
      ∧ To4 (SrcIP request) ≠ [] ∧ IpToUint32 (To4 (SrcIP request)) = ref_virtual_ip req
      ∧ networks (c_nc c) !! key = Some n ∧ in_reach networkKey key
      ∧ Clients n !! ref_virtual_ip req = Some cl ∧ DeviceId cl = ref_device_id req
      ∧ c_nc c' = c_nc c ∧ c_um c' = c_um c.
Proof.
  unfold HandleRefreshGatewayGrantPacketInNetwork. destruct (proto_unmarshal (Payload request)) as [req|] eqn:Hreq;
    [|intros [= <- <-]; left; eauto].
  destruct (_ =? 0); [intros [= <- <-]; left; eauto|]. case_bool_decide; [intros [= <- <-]; left; eauto|].
  destruct (bool_decide (To4 (SrcIP request) = []) || _) eqn:Hsrc; [intros [= <- <-]; left; eauto|]. bool_prop.
  destruct (clientOwnsVirtualIPInNetwork _ _ _ _ _) eqn:Hown; cbn [negb]; [|intros [= <- <-]; left; eauto].
  apply owns_spec in Hown as (key & n & cl & ? & ? & ? & ?). cbv zeta.
  destruct (buildGatewayAccessGrantsForRefresh _ _ _ _ _ _ _ _ _ _ _ _ _ _) as [gw [[grants rev] ch]].
  intros E. assert (Hc := f_equal fst E). cbn [fst] in Hc. right. exists req, key, n, cl. rewrite <-Hc. by split_and!.
Qed.

End RegistrationInv.

(** ** Samples: alice's laptop registers in dev.corp.net *)
Module SampleReg.
Import SampleAuth.
Definition group : GroupConfig := mkGroupConfig (ParseIP "10.26.0.1") "255.255.255.0" "" [] [].
Definition raw_cfg : Config :=
  mkConfig [] "" "" "" [] [] ∅ "corp.net" {[ "corp.net" := mkDomainConfig {[ "dev" := group ]} ]} "" "secret" "" "".
Definition cfg : Config := (Validate ascending raw_cfg).1.
Lemma cfg_checked : checked_config cfg.
Proof. apply (Validate_checked ascending raw_cfg). vm_compute. reflexivity. Qed.

Definition reg (key : list byte) : RegistrationRequest :=
  {| token := "dev.corp.net"; reg_device_id := "laptop"; reg_name := "Laptop"; is_fast := false; reg_version := "1";
     reg_virtual_ip := 0; allow_ip_change := false; reg_device_pub_key := key; reg_online_kx_pub := replicate 32 x00 |}.
Definition c0 : Controller :=
  NewController SampleUsers.m1 (mkGatewayState ∅ ∅ ∅ ∅ "" 0 ∅ ∅) (mkExitNodes ∅ ∅).
Definition no_rand (_ : Z) : result (list byte) := Err "no randomness".
Definition day : Z := 24 * hour.

Definition register (key : list byte) (c : Controller) : Controller * result (Packet * Z * NetworkIdentity) :=
  @HandleRegistrationPacketWithVirtualIPAndCapabilities AsciiFold AsciiLower SampleGateway.url (const_codec (reg key))
    (const_codec zeroRegistrationResponse) SampleGateway.codec SampleGateway.codec ascending SampleUsers.sha
    SampleGateway.mac cfg day minute SampleUsers.ok 7 no_rand packet "192.0.2.9:4000" [] c.
(** The network after the registration, and the same with a second client. *)
Definition c1 : Controller := (register SampleUsers.key c0).1.
Definition phone : ClientInfo :=
  zeroClientInfo <| DeviceId := "phone" |> <| AuthGroup := "dev.corp.net" |> <| NetworkScope := "group:dev.corp.net" |>
                 <| ControlOnline := true |>.
Definition c2 : Controller :=
  c1 <| c_nc := match networks (c_nc c1) !! "dev.corp.net" with
                | Some n => set_network "dev.corp.net" (UpsertClient 169476099 phone n) (c_nc c1)
                | None => c_nc c1
                end |>.
Definition refresh : RefreshGatewayGrantRequest :=
  {| ref_virtual_ip := 169476098; ref_device_id := "laptop"; last_session_id := 0; last_policy_rev := 0;
     force_reissue := false |}.

Lemma c0_wf : wf_networks (c_nc c0).
Proof. intros k n. simpl. unfold networks. simpl. by rewrite lookup_empty. Qed.

Lemma decoded key : @uint32_decoded (const_codec (reg key)).
Proof. intros b r Hb. assert (Ok (reg key) = Ok r) as [= <-] by exact Hb. split; by vm_compute. Qed.

Lemma registered : ∃ p ip id, register SampleUsers.key c0 = (c1, Ok (p, ip, id)).
Proof.
  unfold c1. destruct (register SampleUsers.key c0) as [c r] eqn:E. cbn [fst].
  destruct r as [[[p ip] id]|e]; [by exists p, ip, id|].
  exfalso. apply (f_equal (λ r, match r.2 with Ok _ => true | Err _ => false end)) in E. by vm_compute in E.
Qed.

Lemma c1_wf : wf_networks (c_nc c1).
Proof.
  destruct registered as (p & ip & id & Hr). unfold register in Hr.
  apply registration_facts in Hr as (? & ? & ? & _ & _ & _ & _ & Hwf & _);
    [done|apply c0_wf|apply cfg_checked|apply decoded].
Qed.
End SampleReg.


Lemma refused_device_goes_offline_witness :
  (SampleReg.register [x09] SampleReg.c1).2
    = Err "device laptop auth check failed for group dev.corp.net: device_key_mismatch".
Proof.
  destruct (@refused_device_goes_offline AsciiFold AsciiLower SampleGateway.url (SampleAuth.const_codec (SampleReg.reg [x09]))
    (SampleAuth.const_codec zeroRegistrationResponse) SampleGateway.codec SampleGateway.codec ascending SampleUsers.sha
    SampleGateway.mac SampleReg.cfg SampleReg.day minute SampleUsers.ok 7 SampleReg.no_rand SampleAuth.packet
    "192.0.2.9:4000" [] SampleReg.c1 (SampleReg.reg [x09]) (ParseIP "10.26.0.1", [xff; xff; xff; x00])
    "device_key_mismatch") as (Hr & _); [|by vm_compute..|exact Hr].
  apply SampleReg.c1_wf.
Defined.

Lemma deleted_device_gone_witness :
  CheckAuthedDevice SampleUsers.sha 8 "dev.corp.net" "laptop" SampleUsers.key
    (c_um (ControllerDeleteAuthedDevice ascending SampleUsers.ok "alice" "" "laptop" SampleReg.c0).1) = Some "not_auth".
Proof.
  assert (Hr : ∃ rec, (ControllerDeleteAuthedDevice ascending SampleUsers.ok "alice" "" "laptop" SampleReg.c0).2 = Ok [rec]
    ∧ a_GroupName rec = "dev.corp.net" ∧ a_DeviceID rec = "laptop").
  { eexists. split; [vm_compute; reflexivity|by vm_compute]. }
  destruct Hr as (rec & Hr & Hg & Hd).
  destruct (deleted_device_gone ascending SampleUsers.sha SampleUsers.ok 8 "alice" "" "laptop" SampleUsers.key SampleReg.c0
    (ControllerDeleteAuthedDevice ascending SampleUsers.ok "alice" "" "laptop" SampleReg.c0).1 [rec] rec) as (Hck & _).
  - apply SampleUsers.m1_wf.
  - apply SampleReg.c0_wf.
  - rewrite <-Hr. apply surjective_pairing.
  - by left.
  - by rewrite Hg, Hd in Hck.
Defined.

Lemma push_stays_in_scope_witness :
  let r := @BuildPushDeviceListPacketsForPeerChangeInNetwork SampleGateway.url (SampleAuth.const_codec
       {| dl_epoch := 0; dl_device_info_list := []; dl_gateway_access_grants := []; dl_gateway_policy_rev := 0 |})
     SampleGateway.codec SampleGateway.codec ascending SampleGateway.mac SampleReg.cfg SampleReg.day minute 8
     (λ _, SampleReg.no_rand) "dev.corp.net" 169476098 SampleReg.c2 in
  c_nc r.1 = c_nc SampleReg.c2
  ∧ match r.2 with Ok packets => DstIP <$> packets = [Uint32ToIP 169476099] | Err _ => False end.
Proof.
  cbv zeta. split; [|by vm_compute].
  destruct (BuildPushDeviceListPacketsForPeerChangeInNetwork _ _ _ _ _ _ _ _ _ _) as [c' [packets|e]] eqn:E.
  - apply push_stays_in_scope in E as (Hnc & _). exact Hnc.
  - apply (f_equal (λ r, match r.2 with Ok _ => true | Err _ => false end)) in E. by vm_compute in E.
Defined.

Lemma refresh_needs_ownership_witness :
  (let r := @HandleRefreshGatewayGrantPacketInNetwork SampleGateway.url (SampleAuth.const_codec SampleReg.refresh)
       SampleGateway.codec SampleGateway.codec SampleGateway.codec ascending SampleGateway.mac SampleReg.cfg SampleReg.day
       minute 8 SampleReg.no_rand (SampleAuth.packet <| SrcIP := Uint32ToIP 169476098 |>) "dev.corp.net" SampleReg.c1 in
   match r.2 with Ok _ => True | Err _ => False end)
  ∧ ∃ n cl, Clients n !! 169476098 = Some cl ∧ DeviceId cl = "laptop".
Proof.
  split; [by vm_compute|].
  destruct (@HandleRefreshGatewayGrantPacketInNetwork SampleGateway.url (SampleAuth.const_codec SampleReg.refresh)
       SampleGateway.codec SampleGateway.codec SampleGateway.codec ascending SampleGateway.mac SampleReg.cfg SampleReg.day
       minute 8 SampleReg.no_rand (SampleAuth.packet <| SrcIP := Uint32ToIP 169476098 |>) "dev.corp.net" SampleReg.c1)
    as [c' [p|e]] eqn:E.
  - apply refresh_needs_ownership in E as [[_ [e He]]|(req & key & n & cl & Hreq & _ & _ & _ & _ & Hc & Hd & _)]; [done|].
    assert (Ok SampleReg.refresh = Ok req) as [= <-] by exact Hreq. by exists n, cl.
  - apply (f_equal (λ r, match r.2 with Ok _ => true | Err _ => false end)) in E. by vm_compute in E.
Defined.
