(* ===== verification/ControllerInv.v ===== *)
(** * The controller as a whole: every handler keeps the state of every component
    well formed. *)
From S2P Require Import Prelude GoString GoText NetIP NetParse Packet Proto ExpireMap Network NetworkInv Config.
From S2P Require Import ConfigInv UserManager UserInv Gateway GatewayInv Punch PunchInv Dns DnsInv ExitNode.
From S2P Require Import ExitNodeInv DeviceList DebugStore Debug DebugInv Controller DeviceAuth DeviceAuthInv.
From S2P Require Import Registration RegistrationInv.

(** ** Virtual networks *)

(** Operations that leave the virtual networks alone. *)
Definition same_networks (nc nc' : NetworkControl) : Prop := VirtualNetwork nc' = VirtualNetwork nc.

Lemma same_networks_wf nc nc' : same_networks nc nc' → wf_networks nc → wf_networks nc'.
Proof. unfold same_networks, wf_networks, networks. by intros ->. Qed.

Lemma same_networks_trans nc1 nc2 nc3 : same_networks nc1 nc2 → same_networks nc2 nc3 → same_networks nc1 nc3.
Proof. unfold same_networks. congruence. Qed.

Lemma wf_sweep o change nc (p : string → ClientInfo → bool) (f : ClientInfo → option ClientInfo) g :
  (∀ key c ip s n, change key c ip s n = if p (Group n) c then Some (g key n ip c s, replace_client ip (f c) n) else None) →
  (∀ c c', f c = Some c' → DeviceId c' = DeviceId c) → wf_networks nc → wf_networks (sweep_networks o change nc).
Proof.
  intros Hch Hf Hwf key n Hn. pose proof (sweep_all o change nc p f g key Hch Hf Hwf) as Hs.
  destruct (networks nc !! key); [destruct Hs as (n' & Hn' & ? & _)|]; congruence.
Qed.

Lemma wf_update_first {R} networkKey (f : NetworkInfo → option (NetworkInfo * R)) o nc :
  (∀ n n' r, wf_network n → f n = Some (n', r) → wf_network n') → wf_networks nc →
  wf_networks (update_first networkKey f (range o (networks nc)) nc).1.
Proof.
  intros Hf Hwf. pose proof (update_first_spec networkKey f (range o (networks nc)) nc) as Hu.
  destruct (update_first _ _ _ _) as [nc' [r|]]; cbn [fst]; [|by destruct Hu as [-> _]].
  destruct Hu as (key & n & n' & Hin%elem_of_range & _ & Hfn & ->). intros k m.
  rewrite networks_set_network. intros [[<- <-]|[_ Hm]]%lookup_insert_Some; [|by eapply Hwf].
  eapply Hf; [|done]. by eapply Hwf.
Qed.

Lemma wf_Leave o now addr nc : wf_networks nc → wf_networks (LeaveByRemoteAddr o now addr nc).
Proof.
  intros Hwf. destruct addr as [addr|]; [|done]. unfold LeaveByRemoteAddr.
  apply (wf_sweep _ _ _ (λ _, leaves addr) (λ c, Some (offline_client now c))
    (λ _ n ip _ s, Set_ now (NewIpSessionKey (Group n) (Uint32ToIP ip)) (Some addr) s)); [|by intros c ? [= <-]|done].
  intros k c ip s n. cbv beta. unfold leaves.
  case_bool_decide; case_bool_decide; destruct (ControlOnline c); simpl; done.
Qed.

Lemma wf_clearStale o now group dev nc : wf_networks nc → wf_networks (clearStaleClientStateByDeviceID o now group dev nc).
Proof.
  intros Hwf key n Hn. pose proof (clearStale_spec o now group dev nc key Hwf) as Hs.
  destruct (networks nc !! key); [destruct Hs as (n' & Hn' & ? & _)|]; congruence.
Qed.

Lemma wf_removeState o records nc : wf_networks nc → wf_networks (removeAuthedDeviceRuntimeState o records nc).
Proof.
  intros Hwf. unfold removeAuthedDeviceRuntimeState. case_bool_decide; [done|]. cbv zeta.
  apply (wf_sweep _ _ _ (λ G c, bool_decide (authedDeviceKey (clientAuthGroup c G) (DeviceId c)
      ∈ (λ record, authedDeviceKey (a_GroupName record) (a_DeviceID record)) <$> records)) (λ _, None)
    (λ key _ ip _ s, Delete (NewIpSessionKey key (Uint32ToIP ip)) s)); [|done|done].
  intros k c ip s n. cbv beta. repeat case_bool_decide; tauto || done.
Qed.

Lemma wf_rename o record nc : wf_networks nc → wf_networks (updateAuthedDeviceRuntimeName o record nc).
Proof.
  intros Hwf. unfold updateAuthedDeviceRuntimeName. cbv zeta. case_bool_decide; [done|].
  apply (wf_sweep _ _ _ (λ G c, bool_decide (clientAuthGroup c G = a_GroupName record) && bool_decide (DeviceId c = a_DeviceID record)
      && negb (bool_decide (Name c = TrimSpace (a_DisplayName record))))
    (λ c, Some (c <| Name := TrimSpace (a_DisplayName record) |>)) (λ _ _ _ _ s, s)); [|by intros c ? [= <-]|done].
  intros k c ip s n. cbv beta. repeat case_bool_decide; simpl; tauto || done.
Qed.

Lemma wf_Touch o now key ip nc : wf_networks nc → wf_networks (TouchClientByIPInNetwork o now key ip nc).1.
Proof.
  intros Hwf. destruct (TouchClientByIPInNetwork o now key ip nc) as [nc' r] eqn:E. by apply TouchClient_spec in E as [? _].
Qed.

Lemma wf_control o now request addr key nc : wf_networks nc →
  wf_networks (HandleControlPacketInNetwork o now request addr key nc).1.
Proof.
  intros Hwf. unfold HandleControlPacketInNetwork. destruct (_ =? ControlPing).
  - destruct (ParsePingPayload _) as [[t e]|]; [|done].
    pose proof (wf_Touch o now key (SrcIP request) nc Hwf). destruct (TouchClientByIPInNetwork _ _ _ _ _) as [nc' r].
    by destruct (r =? 0).
  - destruct (_ =? ControlAddrRequest); [|done]. by destruct (BuildAddrPayloadByAddr _).
Qed.

Lemma wf_status `{ProtoMessage ClientStatusInfoMsg} o now request key nc : wf_networks nc →
  wf_networks (HandleClientStatusInfoPacketInNetwork o now request key nc).1.
Proof.
  intros Hwf. unfold HandleClientStatusInfoPacketInNetwork. destruct (proto_unmarshal _) as [status|]; [|done].
  cbv zeta. destruct (_ && _); [done|].
  match goal with |- context [update_first key ?f _ nc] => pose proof (wf_update_first key f o nc) as Hu;
    destruct (update_first key f (range o (networks nc)) nc) as [nc' [r|]] end.
  all: apply Hu; [|done]; intros n n' r' Hn; destruct (Clients n !! _) as [c|] eqn:Hc; [|done].
  all: cbn [mbind option_bind]; destruct (apply_status now status c) as [c' b] eqn:Ea; intros [= <- _].
  all: apply (wf_UpsertClient_same _ c); [done|done|]; unfold apply_status in Ea; by injection Ea as <- _.
Qed.

(** ** Punching leaves the networks alone *)
Lemma same_updateRetry now pk st nc : same_networks nc (updatePunchRetryState now pk st nc).
Proof. apply updateRetry_networks. Qed.

Lemma same_reconcile o now ms nc : same_networks nc (ReconcilePunchSessions o now ms nc).
Proof.
  unfold ReconcilePunchSessions. generalize (range o (data (PunchSessions nc))). intros l. revert nc.
  induction l as [|[key session] l IH]; intros nc; [done|]. cbn [foldl]. eapply same_networks_trans; [|apply IH].
  unfold reconcile_one. destruct (overdue ms session); [|done]. eapply same_networks_trans; [|apply same_updateRetry]. done.
Qed.

Lemma same_punch_ack `{ProtoMessage PunchAck} now request nc : same_networks nc (HandlePunchAckPacket now request nc).1.
Proof.
  unfold HandlePunchAckPacket. destruct (proto_unmarshal _) as [ack|]; [|done]. destruct (Get _ _ _) as [[session|] sessions]; [|done].
  destruct (negb _ && _); [done|]. destruct (negb (pack_accepted ack)); [|done].
  unfold same_networks. cbn [fst]. simpl. by rewrite updateRetry_networks.
Qed.

Lemma same_punch_result `{ProtoMessage PunchResult} now request nc : same_networks nc (HandlePunchResultPacket now request nc).1.
Proof.
  unfold HandlePunchResultPacket. destruct (proto_unmarshal _) as [res|]; [|done]. destruct (Get _ _ _) as [[session|] sessions]; [|done].
  destruct (negb _ && _); [done|]. unfold same_networks. cbn [fst]. simpl. by rewrite ?updateRetry_networks; repeat case_match.
Qed.

Lemma same_punch_request `{ProtoMessage PunchRequest} `{ProtoMessage PunchAck} o now request key nc :
  same_networks nc (HandlePunchRequestPacketInNetwork o now request key nc).1.
Proof.
  unfold HandlePunchRequestPacketInNetwork. destruct (check_punch_request request) as [[req src]|]; [|done].
  destruct (FindClientByVirtualIPInNetwork _ _ _ _); [|done]. cbv zeta. by destruct (proto_marshal _).
Qed.

Lemma same_punch_target `{ProtoMessage PunchStart} now sid request key trig rec src srcC tgt tgtC nc :
  same_networks nc (punch_target now sid request key trig rec src srcC tgt tgtC nc).1.
Proof.
  unfold punch_target. destruct (negb _); [done|]. cbv zeta.
  assert (Hcool : ∀ (b : bool), same_networks nc (if b then (false, nc) else
      let '(c, cooldown) := Get now (punchPairKey src tgt) (PunchPairCooldown nc) in
      (bool_decide (is_Some c), nc <| PunchPairCooldown := cooldown |>)).2).
  { intros []; [done|]. by destruct (Get _ _ _). }
  specialize (Hcool (trig =? PunchTriggerManualRequest)).
  destruct (if trig =? PunchTriggerManualRequest then _ else _) as [[] nc1]; [done|]. cbn [snd] in Hcool.
  assert (Hr : same_networks nc1 (pair_retry now (trig =? PunchTriggerManualRequest) (punchPairKey src tgt) nc1).1).
  { unfold pair_retry. destruct (Get _ _ _) as [r retries]. destruct (_ =? _); [done|]. destruct r; [|done].
    destruct (_ <=? _); [done|]. by destruct (_ <? _). }
  destruct (pair_retry _ _ _ _) as [nc2 [retry|]]; cbn [fst] in Hr; (eapply same_networks_trans; [exact Hcool|]); [|done].
  eapply same_networks_trans; [exact Hr|]. destruct (_ || _); [done|].
  assert (Hc : ∀ (b : bool), same_networks nc2 (if b then
      let '(ok, dedup) := TrySetIfAbsent now (punchPairKey src tgt) tt (ManualPunchPairDedup nc2) in
      (ok, nc2 <| ManualPunchPairDedup := dedup |>) else (true, nc2)).2).
  { intros []; [|done]. by destruct (TrySetIfAbsent _ _ _ _). }
  specialize (Hc (trig =? PunchTriggerManualRequest)).
  destruct (if trig =? PunchTriggerManualRequest then _ else _) as [claimed nc3]. cbn [snd] in Hc.
  eapply same_networks_trans; [exact Hc|]. destruct claimed; [|done]. cbn [negb].
  destruct (proto_marshal _); [|done]. by destruct (proto_marshal _).
Qed.

Lemma same_punch_starts `{ProtoMessage PunchStart} o o' now clock request key nc :
  same_networks nc (BuildPunchStartPacketsFromStatusInNetwork o o' now clock request key nc).1.
Proof.
  unfold BuildPunchStartPacketsFromStatusInNetwork.
  apply (forEachRead_inv o nc key _ (λ s, same_networks nc s.1)); [|done]. clear. intros k n [nc1 r] Hn H1. cbn [fst] in H1.
  destruct r as [packets|]; [|done]. destruct (Clients n !! _) as [c|]; [|done].
  destruct (ControlOnline c); [|done]. destruct (ClientStatus c) as [status|]; [|done].
  cbv zeta. generalize (range o' (Clients n)). intros l. revert packets nc1 H1.
  induction l as [|[ip cl] l IH]; intros packets nc1 H1; [done|]. cbn [punch_targets].
  pose proof (same_punch_target now (clock ip) request k (status_trigger status)
    (if status_trigger status =? PunchTriggerManualRequest then RecoveryPunchTarget status else 0)
    (IpToUint32 (SrcIP request)) c ip cl nc1) as Ht.
  destruct (punch_target _ _ _ _ _ _ _ _ _ _ _) as [nc2 [|s new|e]]; cbn [fst] in Ht;
    pose proof (same_networks_trans _ _ _ H1 Ht).
  - by apply IH.
  - destruct (_ || _); [done|by apply IH].
  - done.
Qed.

(** ** Every component at once *)
Record ctrl_ok (o : RangeOrder) (c : Controller) : Prop := {
  co_networks : wf_networks (c_nc c);
  co_users : wf_um (c_um c);
  co_gateways : wf_gateway o (c_gw c);
  co_debug : debug_ok (c_debug c)
}.

Section Controller.
Context `{UnicodeFold} `{UnicodeLower} `{UrlPackage}.
Context `{ProtoMessage HandshakeRequest} `{ProtoMessage HandshakeResponse} `{ProtoMessage RegistrationRequest}
  `{ProtoMessage RegistrationResponse} `{ProtoMessage DeviceRenameRequest} `{ProtoMessage DeviceRenameResponse}
  `{ProtoMessage DeviceList} `{ProtoMessage RefreshGatewayGrantRequest} `{ProtoMessage RefreshGatewayGrantResponse}
  `{ProtoMessage GatewayTicketClaims} `{ProtoMessage SignedGatewayTicket}.
Context (o : RangeOrder) (sha256 : list byte → list byte) (hmac : string → list byte → list byte) (cfg : Config).
Context (hardTTL softLead : Z).
(** A new grant outlives the half minute that a cached one must still be valid. *)
Hypothesis long_lived : 30 * second + 10 ^ 6 ≤ hardTTL.

Lemma ctrl_set_nc c nc : ctrl_ok o c → wf_networks nc → ctrl_ok o (c <| c_nc := nc |>).
Proof. intros [] ?. by split. Qed.
Lemma ctrl_set_um c um : ctrl_ok o c → wf_um um → ctrl_ok o (c <| c_um := um |>).
Proof. intros [] ?. by split. Qed.
Lemma ctrl_set_gw c gw : ctrl_ok o c → wf_gateway o gw → ctrl_ok o (c <| c_gw := gw |>).
Proof. intros [] ?. by split. Qed.
Lemma ctrl_set_debug c d : ctrl_ok o c → debug_ok d → ctrl_ok o (c <| c_debug := d |>).
Proof. intros [] ?. by split. Qed.

(** *** Grants and pushes *)
Abbreviation grantsForClient := (buildGatewayAccessGrantsForExistingClient o hmac (cfg_GatewayTicketSecret cfg)
  (cfg_DefaultGatewayID cfg) hardTTL softLead).

Lemma wf_build now rand nk vip dev opts g : wf_gateway o g →
  wf_gateway o (buildGatewayAccessGrantsLocked o hmac (cfg_GatewayTicketSecret cfg) (cfg_DefaultGatewayID cfg) hardTTL softLead
    now rand nk vip dev opts g).1.
Proof.
  intros Hwf. destruct (buildGatewayAccessGrantsLocked _ _ _ _ _ _ _ _ _ _ _ _ g) as [g' [[grants rev] ch]] eqn:E.
  by eapply build_spec in E as (? & _).
Qed.

Lemma wf_grants now rand nk vip dev g : wf_gateway o g → wf_gateway o (grantsForClient now rand nk vip dev g).1.
Proof.
  intros Hwf. unfold buildGatewayAccessGrantsForExistingClient.
  match goal with |- context [buildGatewayAccessGrantsLocked _ _ _ _ _ _ ?n ?r ?k ?v ?d ?op g] =>
    pose proof (wf_build n r k v d op g Hwf) as Hb end.
  destruct (buildGatewayAccessGrantsLocked _ _ _ _ _ _ _ _ _ _ _ _ g) as [g' [[grants rev] ch]]. done.
Qed.

Lemma wf_push_targets now rand n x wanted targets g : wf_gateway o g →
  wf_gateway o (push_targets o hmac cfg hardTTL softLead now rand n x wanted targets g).1.
Proof.
  revert g. induction targets as [|[ip cl] targets IH]; intros g Hwf; [done|]. cbn [push_targets].
  destruct (negb _); [by apply IH|]. cbv zeta.
  pose proof (wf_grants now (rand ip) (clientNetworkKey cl (Group n)) ip (DeviceId cl) g Hwf) as Hg.
  destruct (buildGatewayAccessGrantsForExistingClient _ _ _ _ _ _ _ _ _ _ _ g) as [g1 [grants rev]]. cbn [fst] in Hg.
  destruct (buildPushDeviceListPacket _ _ _ _ _ _); [|done]. specialize (IH g1 Hg).
  by destruct (push_targets _ _ _ _ _ _ _ _ _ _ targets g1).
Qed.

(** Building pushes changes nothing but the gateways. *)
Lemma push_only_gateways now rand c : 
  (∀ key ip, ∃ gw, (BuildPushDeviceListPacketsForPeerChangeInNetwork o hmac cfg hardTTL softLead now rand key ip c).1
     = c <| c_gw := gw |> ∧ (wf_gateway o (c_gw c) → wf_gateway o gw))
  ∧ (∃ gw, (BuildPushDeviceListPacketsForGatewayChange o hmac cfg hardTTL softLead now rand c).1
     = c <| c_gw := gw |> ∧ (wf_gateway o (c_gw c) → wf_gateway o gw)).
Proof.
  split.
  - intros key ip. unfold BuildPushDeviceListPacketsForPeerChangeInNetwork.
    match goal with |- context [forEachVirtualNetworkRead o (c_nc c) key ?v ?s0] =>
      pose proof (forEachRead_inv o (c_nc c) key v (λ s, wf_gateway o (c_gw c) → wf_gateway o s.1) s0) as Hi;
      destruct (forEachVirtualNetworkRead o (c_nc c) key v s0) as [gw r] end.
    exists gw. split; [done|]. apply Hi; [|done]. intros k n s Hn Hs Hwf. destruct (Clients n !! ip); [|by apply Hs].
    destruct (negb _); [by apply Hs|]. by apply wf_push_targets, Hs.
  - unfold BuildPushDeviceListPacketsForGatewayChange.
    match goal with |- context [forEachVirtualNetworkRead o (c_nc c) "" ?v ?s0] =>
      pose proof (forEachRead_inv o (c_nc c) "" v (λ s, wf_gateway o (c_gw c) → wf_gateway o s.1) s0) as Hi;
      destruct (forEachVirtualNetworkRead o (c_nc c) "" v s0) as [gw r] end.
    exists gw. split; [done|]. apply Hi; [|done]. intros k n s Hn Hs Hwf. destruct (s.2) as [packets|]; [|by apply Hs].
    pose proof (wf_push_targets now rand n (c_exits c) (λ _ target, ControlOnline target) (range o (Clients n)) s.1 (Hs Hwf)).
    by destruct (push_targets _ _ _ _ _ _ _ _ _ _ _ _).
Qed.

Lemma ok_push_peer now rand key ip c : ctrl_ok o c →
  ctrl_ok o (BuildPushDeviceListPacketsForPeerChangeInNetwork o hmac cfg hardTTL softLead now rand key ip c).1.
Proof.
  intros Hok. destruct (push_only_gateways now rand c) as [Hp _]. destruct (Hp key ip) as (gw & -> & Hwf).
  apply ctrl_set_gw; [done|]. by apply Hwf, Hok.
Qed.

Lemma ok_push_gateway now rand c : ctrl_ok o c →
  ctrl_ok o (BuildPushDeviceListPacketsForGatewayChange o hmac cfg hardTTL softLead now rand c).1.
Proof.
  intros Hok. destruct (push_only_gateways now rand c) as [_ (gw & -> & Hwf)].
  apply ctrl_set_gw; [done|]. by apply Hwf, Hok.
Qed.

Lemma wf_sync nodes g : wf_gateway o g → wf_gateway o (syncGatewayGrantPolicyLocked nodes g).1.
Proof.
  intros Hwf. destruct (syncGatewayGrantPolicyLocked nodes g) as [g' [rev ch]] eqn:E. apply sync_frame in E as [fp ->].
  by destruct Hwf.
Qed.

Lemma ok_push_gateway_if_needed now rand c : ctrl_ok o c →
  ctrl_ok o (BuildPushDeviceListPacketsForGatewayChangeIfNeeded o hmac cfg hardTTL softLead now rand c).1.
Proof.
  intros Hok. unfold BuildPushDeviceListPacketsForGatewayChangeIfNeeded. cbv zeta.
  match goal with |- context [syncGatewayGrantPolicyLocked ?n (c_gw c)] =>
    pose proof (wf_sync n (c_gw c) (co_gateways _ _ Hok)) as Hs;
    destruct (syncGatewayGrantPolicyLocked n (c_gw c)) as [g [rev ch]] end.
  pose proof (ctrl_set_gw c g Hok Hs) as Hok'. destruct ch; cbn [negb]; [by apply ok_push_gateway|done].
Qed.

Lemma ok_push_device now rand user dev c : ctrl_ok o c →
  ctrl_ok o (BuildPushDeviceListPacketsForAuthedDeviceChange o hmac cfg hardTTL softLead now rand user dev c).1.
Proof.
  intros Hok. unfold BuildPushDeviceListPacketsForAuthedDeviceChange. cbv zeta. destruct (_ || _); [done|].
  destruct (negb _); [by apply ok_push_peer|done].
Qed.

(** *** Registration *)
Lemma wf_um_assign save group dev name m : wf_um m → wf_um (AssignAuthedDeviceDisplayName o save group dev name m).1.
Proof. intros Hwf. by apply (um_exec_wf_gen o sha256 save 0 (OpAssignName group dev name) m). Qed.

Lemma wf_um_set save group dev name m : wf_um m → wf_um (SetAuthedDeviceDisplayName o save group dev name m).1.
Proof.
  intros Hwf. pose proof (um_exec_wf_gen o sha256 save 0 (OpSetName group dev name) m Hwf I) as Hx. simpl in Hx.
  by destruct (SetAuthedDeviceDisplayName o save group dev name m).
Qed.

Lemma ok_authorise save now reg c : ctrl_ok o c → ctrl_ok o (authorise o sha256 save now reg c).1.
Proof.
  intros Hok. unfold authorise. cbv zeta. destruct (CheckAuthedDevice _ _ _ _ _ _).
  { apply ctrl_set_nc; [done|]. apply wf_clearStale, Hok. }
  destruct (GetAuthedDevice _ _ _) as [rec|]; [|done]. case_bool_decide; [|done].
  pose proof (wf_um_assign save (token reg) (reg_device_id reg) (TrimSpace (reg_name reg)) (c_um c) (co_users _ _ Hok)) as Hu.
  destruct (AssignAuthedDeviceDisplayName _ _ _ _ _ _). by apply ctrl_set_um.
Qed.

(** The network is well formed after an allocation, and after the client entered it. *)
Lemma wf_join now identity netmask gateway reserved reg nc nc' m ip old e : wf_networks nc →
  0 < first_ip gateway netmask → 0 ≤ reg_virtual_ip reg < 2 ^ 32 →
  join_network now identity netmask gateway reserved reg nc = (nc', m, (ip, old, e)) →
  wf_networks nc' ∧ networks nc' = <[Key identity := m]> (networks nc) ∧ wf_network m
  ∧ (e = None → reg_device_id reg ≠ "" → usable m ip
       ∧ (∀ c, Clients m !! ip = Some c → DeviceId c = reg_device_id reg)
       ∧ (∀ ip' c, Clients m !! ip' = Some c → DeviceId c = reg_device_id reg → ip' = old)
       ∧ (old ≠ 0 → ∀ c, Clients m !! old = Some c → DeviceId c = reg_device_id reg)).
Proof.
  intros Hwf Hfirst Hreg. unfold join_network. set (n0 := default _ _).
  assert (Hwf0 : wf_network n0).
  { subst n0. destruct (networks nc !! Key identity) as [n|] eqn:En; [by eapply Hwf|]. by apply wf_NewNetworkInfo. }
  destruct (generateIP _ _ n0 _ _ _) as [[s m'] [[vip' old'] e']] eqn:Hgen. intros [= <- <- <- <- <-].
  assert (Hm : wf_network m').
  { destruct e' as [e'|]; [by apply generateIP_error in Hgen as ->|]. by apply generateIP_facts in Hgen as (_ & ? & _). }
  split_and!; [|done|done|].
  - intros k n. rewrite networks_set_network. intros [[_ <-]|[_ ?]]%lookup_insert_Some; [done|by eapply Hwf].
  - intros -> Hdev. destruct (generateIP_facts _ _ _ _ _ _ _ _ _ _ Hwf0 Hreg Hgen)
      as (Hu & _ & -> & Hat & Hsub & _ & Hgw & Hnm & _ & _). split_and!.
    + unfold usable in *. by rewrite Hgw, Hnm.
    + done.
    + intros ip' cl Hc%Hsub Hd. by destruct (device_address n0 _ _ _ Hwf0 Hdev Hc Hd) as [<- _].
    + intros Hne cl Hc%Hsub. destruct (FindClientIP_nonzero _ _ Hwf0 Hne) as (c0 & Hc0 & Hd0). congruence.
Qed.

Lemma ok_register save now rand request addr caps c : ctrl_ok o c → checked_config cfg → uint32_decoded →
  ctrl_ok o (HandleRegistrationPacketWithVirtualIPAndCapabilities o sha256 hmac cfg hardTTL softLead save now rand request addr
    caps c).1.
Proof.
  intros Hok Hcfg Hu32. unfold HandleRegistrationPacketWithVirtualIPAndCapabilities.
  destruct (proto_unmarshal (Payload request)) as [reg|] eqn:Hreg; [|done].
  destruct (validateRegistrationRequest reg) eqn:Hval; [done|]. apply validate_device in Hval as Hdev.
  destruct (resolveGroupNetworkConfig o cfg (token reg)) as [[gateway netmask]|] eqn:Hres; [|done].
  pose proof (ok_authorise save now reg c Hok) as Hok1. destruct (authorise _ _ _ _ _ c) as [c1 [rec|]]; [|done].
  cbn [fst] in Hok1. cbv zeta. destruct (public_endpoint addr) as [[[port ip4] ip6]|]; [|done].
  destruct (join_network _ _ _ _ _ _ _) as [[nc m] [[vip old] e]] eqn:Hjoin.
  apply wf_join in Hjoin as (Hnc & Hnets & Hm & Hfree); [|apply Hok1| |by eapply Hu32].
  2:{ destruct (resolve_sane _ _ _ _ _ Hcfg Hres) as [k Hk]. by eapply first_ip_sane. }
  destruct e as [e|]; [by apply ctrl_set_nc|]. destruct (Hfree eq_refl Hdev) as (Hu & Hat & Hold & Hown).
  destruct (enter_network _ _ _ _ _ _ _ _) as [nc2 n'] eqn:Henter.
  eapply (enter_network_spec _ _ _ _ _ _ _ _ _ _ (reg_device_id reg)) in Henter as (Hnets2 & Hwfn & _); [|done..].
  match goal with |- context [grantsForClient now rand ?k ?v ?d ?g] =>
    pose proof (wf_grants now rand k v d g (co_gateways _ _ Hok1)) as Hg;
    destruct (grantsForClient now rand k v d g) as [gw [grants rev]] end.
  assert (Hok2 : ctrl_ok o ((c1 <| c_nc := nc2 |>) <| c_gw := gw |>)).
  { apply ctrl_set_gw; [|done]. apply ctrl_set_nc; [done|]. intros k n. rewrite Hnets2.
    intros [[_ <-]|[_ ?]]%lookup_insert_Some; [done|by eapply Hnc]. }
  by destruct (proto_marshal _).
Qed.

(** *** The other handlers *)
Lemma ok_handshake request addr c : ctrl_ok o c → ctrl_ok o (HandleHandshakePacket request addr c).1.
Proof.
  intros Hok. unfold HandleHandshakePacket. destruct (proto_unmarshal _); [|done]. destruct addr; [|done]. by destruct Hok.
Qed.

Lemma ok_rename save request c : ctrl_ok o c → ctrl_ok o (HandleDeviceRenamePacket o save request c).1.
Proof.
  intros Hok. unfold HandleDeviceRenamePacket. destruct (proto_unmarshal _) as [req|]; [|done]. cbv zeta.
  destruct (normalizeRenameName _) as [newName|]; [|done]. case_bool_decide; [done|].
  destruct (rename_lookup _ _ _ _ _) as [group reason]. case_bool_decide; [done|]. case_bool_decide; [done|].
  pose proof (wf_um_set save group (TrimSpace (ren_device_id req)) newName (c_um c) (co_users _ _ Hok)) as Hu.
  destruct (SetAuthedDeviceDisplayName _ _ _ _ _ _) as [um [e|]]; by apply ctrl_set_um.
Qed.

Lemma ok_pull now rand request key c : ctrl_ok o c →
  ctrl_ok o (HandlePullDeviceListPacketInNetwork o hmac cfg hardTTL softLead now rand request key c).1.
Proof.
  intros Hok. unfold HandlePullDeviceListPacketInNetwork. cbv zeta. destruct (DeviceListByIPInNetwork _ _ _ _ _); [|done].
  destruct (FindClientByVirtualIPInNetwork _ _ _ _); [|by destruct (proto_marshal _)].
  match goal with |- context [grantsForClient now rand ?k ?v ?dv (c_gw c)] =>
    pose proof (wf_grants now rand k v dv (c_gw c) (co_gateways _ _ Hok)) as Hg;
    destruct (grantsForClient now rand k v dv (c_gw c)) as [gw [grants rev]] end.
  pose proof (ctrl_set_gw c gw Hok Hg). by destruct (proto_marshal _).
Qed.

Lemma ok_refresh now rand request key c : ctrl_ok o c →
  ctrl_ok o (HandleRefreshGatewayGrantPacketInNetwork o hmac cfg hardTTL softLead now rand request key c).1.
Proof.
  intros Hok. unfold HandleRefreshGatewayGrantPacketInNetwork. destruct (proto_unmarshal _) as [req|]; [|done].
  destruct (_ =? 0); [done|]. case_bool_decide; [done|]. destruct (_ || _); [done|]. destruct (negb _); [done|]. cbv zeta.
  unfold buildGatewayAccessGrantsForRefresh.
  match goal with |- context [buildGatewayAccessGrantsLocked _ _ _ _ _ _ ?n ?r ?k ?v ?dv ?op (c_gw c)] =>
    pose proof (wf_build n r k v dv op (c_gw c) (co_gateways _ _ Hok)) as Hb;
    destruct (buildGatewayAccessGrantsLocked _ _ _ _ _ _ n r k v dv op (c_gw c)) as [gw [[grants rev] ch]] end.
  by apply ctrl_set_gw.
Qed.
End Controller.

(** Authentication. *)
Lemma ok_auth_request `{ProtoMessage DeviceAuthRequest} `{ProtoMessage DeviceAuthChallenge} `{ProtoMessage DeviceAuthAck}
    o sha256 now a b request c : ctrl_ok o c → ctrl_ok o (HandleDeviceAuthPacket sha256 now a b request c).1.
Proof.
  intros Hok. unfold HandleDeviceAuthPacket. destruct (proto_unmarshal _) as [req|]; [|done]. cbv zeta.
  destruct (ValidateDeviceAuth _ _ _ _ _ _) as [g|]; [|done]. case_bool_decide; [done|].
  unfold newDeviceAuthChallenge. destruct a; [|done]. destruct b; [|done]. by destruct Hok.
Qed.

Lemma ok_auth_proof `{UnicodeFold} `{ProtoMessage DeviceAuthProof} `{ProtoMessage DeviceAuthAck} o sha256 ed25519 save now request c :
  ctrl_ok o c → ctrl_ok o (HandleDeviceAuthProofPacket o sha256 ed25519 save now request c).1.
Proof.
  intros Hok. unfold HandleDeviceAuthProofPacket. destruct (proto_unmarshal _) as [req|]; [|done].
  unfold consumeDeviceAuthChallenge. cbv zeta.
  set (c1 := c <| authChallenges := _ |>). assert (Hok1 : ctrl_ok o c1) by (by destruct Hok).
  change (c_um c1) with (c_um c).
  destruct (authChallenges c !! _) as [ch|]; [|done]. destruct (_ <? _); [done|]. destruct (_ || _); [done|].
  destruct (Verify _ _ _ _) as [[]|]; [|done..].
  pose proof (wf_AuthDevice o sha256 save now (ch_UserID ch) (ch_GroupName ch) (ch_DeviceID ch) (ch_Ticket ch)
    (ch_DevicePubKey ch) (c_um c) (co_users _ _ Hok)) as Hu.
  destruct (AuthDevice _ _ _ _ _ _ _ _ _ _) as [um [rec|]]; by apply ctrl_set_um.
Qed.

(** Administration. *)
Section Administration.
Context `{UnicodeFold} (o : RangeOrder) (cfg : Config) (save : UMSnapshot → option string).

(** Any digest will do: these operations do not use it. *)
Lemma wf_um_op now op m : wf_um m → id_available op m → wf_um (um_exec o (λ b, b) save now op m).1.
Proof. apply um_exec_wf_gen. Qed.

Lemma ok_create_user now userID group domain c : ctrl_ok o c → ctrl_ok o (UMCreateUserWithID o cfg save now userID group domain c).1.
Proof.
  intros Hok. unfold UMCreateUserWithID. cbv zeta. destruct (negb _); [done|].
  match goal with |- context [CreateUserWithID o save now ?u ?d ?g (c_um c)] =>
    pose proof (wf_um_op now (OpCreateUserWithID u d g) (c_um c) (co_users _ _ Hok) I) as Hu; cbn [um_exec succeeds fst] in Hu;
    destruct (CreateUserWithID o save now u d g (c_um c)) as [um r] end.
  by apply ctrl_set_um.
Qed.

Lemma ok_delete_device userID group dev c : ctrl_ok o c → ctrl_ok o (ControllerDeleteAuthedDevice o save userID group dev c).1.
Proof.
  intros Hok. unfold ControllerDeleteAuthedDevice.
  pose proof (wf_um_op 0 (OpDelete userID group dev) (c_um c) (co_users _ _ Hok) I) as Hu. cbn [um_exec succeeds fst] in Hu.
  destruct (DeleteAuthedDevice _ _ _ _ _ _) as [um [records|]]; cbn [fst] in Hu; pose proof (ctrl_set_um o c um Hok Hu) as Hok1; [|done].
  apply (ctrl_set_nc o (c <| c_um := um |>)); [done|]. apply wf_removeState, Hok.
Qed.

Lemma ok_rename_device userID group dev name c : ctrl_ok o c →
  ctrl_ok o (ControllerRenameAuthedDevice o save userID group dev name c).1.
Proof.
  intros Hok. unfold ControllerRenameAuthedDevice.
  pose proof (wf_um_op 0 (OpRename userID group dev name) (c_um c) (co_users _ _ Hok) I) as Hu. cbn [um_exec succeeds fst] in Hu.
  destruct (RenameAuthedDevice _ _ _ _ _ _ _) as [um [record|]]; cbn [fst] in Hu; pose proof (ctrl_set_um o c um Hok Hu) as Hok1; [|done].
  apply (ctrl_set_nc o (c <| c_um := um |>)); [done|]. apply wf_rename, Hok.
Qed.

Lemma wf_um_issue now rand userID group ttl m : wf_um m → wf_um (IssueDeviceTicket o save now rand userID group ttl m).1.
Proof. intros Hwf. by apply (wf_um_op now (OpIssueTicket rand userID group ttl)). Qed.

Lemma wf_um_extend now userID group dev ttl all m : wf_um m →
  wf_um (ExtendAuthedDeviceExpiry o save now userID group dev ttl all m).1.
Proof. intros Hwf. by apply (wf_um_op now (OpExtend userID group dev ttl all)). Qed.
End Administration.
