(* ===== verification/ControllerUser.v ===== *)
(** * The controller's calls into the user manager: the forwarding methods of
    [control/controller_user.go].

    Each runs one operation of the manager and keeps the rest of the controller, so
    that it preserves the invariant of the whole controller. *)
From S2P Require Import Prelude GoString NetIP NetParse Proto ExpireMap Network NetworkInv Config UserManager UserInv.
From S2P Require Import Gateway GatewayInv Punch ExitNode DeviceList DebugStore Debug DebugInv Controller ControllerInv.

(** Run an operation of the manager. *)
Definition lift_um {A} (f : UserManager → UserManager * A) (c : Controller) : Controller * A :=
  let '(um, r) := f (c_um c) in (c <| c_um := um |>, r).

Section Calls.
Context `{UnicodeFold} (o : RangeOrder) (sha256 : list byte → list byte) (save : UMSnapshot → option string) (now : Z).

Definition UMCreateEnrollment (userID : string) (ttl : Z) : Controller → Controller * result UMEnrollment :=
  lift_um (CreateEnrollment o save now userID ttl).
Definition UMBindDevice (code deviceID : string) (pubKey : list byte) (pubKeyAlg : string) : Controller → Controller * result UMDevice :=
  lift_um (BindDeviceByEnrollment o save sha256 now code deviceID pubKey pubKeyAlg).
Definition UMFindUserByDevicePubKey (pubKey : list byte) (pubKeyAlg : string) (c : Controller) : option UMUser :=
  FindUserByDevicePubKey sha256 pubKey pubKeyAlg (c_um c).
Definition UMGetPolicy (userID : string) (c : Controller) : option UMPolicy := GetPolicy userID (c_um c).
Definition UMGenerateBasicPolicy (userID : string) : Controller → Controller * result UMPolicy :=
  lift_um (GenerateBasicPolicy o save now userID).
Definition UMIssueDeviceTicket (rand : result (list byte)) (userID groupName : string) (ttl : Z)
    : Controller → Controller * result UMDeviceTicket :=
  lift_um (IssueDeviceTicket o save now rand userID groupName ttl).
Definition UMValidateDeviceAuth (userID groupName deviceID ticket : string) (c : Controller) : result string :=
  ValidateDeviceAuth now userID groupName deviceID ticket (c_um c).
Definition ControllerAuthDevice (userID groupName deviceID ticket : string) (pubKey : list byte)
    : Controller → Controller * result UMAuthDevice :=
  lift_um (AuthDevice o save sha256 now userID groupName deviceID ticket pubKey).
Definition UMAssignAuthedDeviceDisplayName (groupName deviceID displayName : string) : Controller → Controller * result UMAuthDevice :=
  lift_um (AssignAuthedDeviceDisplayName o save groupName deviceID displayName).
Definition UMIsAuthedDevice (groupName deviceID : string) (c : Controller) : bool := IsAuthedDevice groupName deviceID (c_um c).
Definition UMGetAuthedDevice (groupName deviceID : string) (c : Controller) : option UMAuthDevice :=
  GetAuthedDevice groupName deviceID (c_um c).
Definition UMCheckAuthedDevice (groupName deviceID : string) (pubKey : list byte) (c : Controller) : option string :=
  CheckAuthedDevice sha256 now groupName deviceID pubKey (c_um c).
Definition UMSetAuthedDeviceDisplayName (groupName deviceID displayName : string) : Controller → Controller * option string :=
  lift_um (SetAuthedDeviceDisplayName o save groupName deviceID displayName).
Definition UMRenameAuthedDevice (userID groupName deviceID displayName : string) : Controller → Controller * result UMAuthDevice :=
  lift_um (RenameAuthedDevice o save userID groupName deviceID displayName).
Definition UMExtendAuthedDeviceExpiry (userID groupName deviceID : string) (ttl : Z) (all : bool)
    : Controller → Controller * result (list UMAuthDevice) :=
  lift_um (ExtendAuthedDeviceExpiry o save now userID groupName deviceID ttl all).
Definition UMDeleteAuthedDevice (userID groupName deviceID : string) : Controller → Controller * result (list UMAuthDevice) :=
  lift_um (DeleteAuthedDevice o save userID groupName deviceID).
Definition UMRequireTicketAuthForGroup (groupName : string) (c : Controller) : bool :=
  RequireTicketAuthForGroup o now groupName (c_um c).

Lemma lift_um_ok {A} (f : UserManager → UserManager * A) c :
  (wf_um (c_um c) → wf_um (f (c_um c)).1) → ctrl_ok o c → ctrl_ok o (lift_um f c).1.
Proof.
  intros Hf [Hn Hu Hg Hd]. unfold lift_um. specialize (Hf Hu). destruct (f (c_um c)) as [um r]. by split.
Qed.

(** The calls that change the manager, by the operation they run. *)
Definition um_call (op : um_op) (c : Controller) : Controller :=
  match op with
  | OpCreateUser _ _ | OpCreateUserWithID _ _ _ => c
  | OpCreateEnrollment userID ttl => (UMCreateEnrollment userID ttl c).1
  | OpBindDevice code dev pk alg => (UMBindDevice code dev pk alg c).1
  | OpGenerateBasicPolicy userID => (UMGenerateBasicPolicy userID c).1
  | OpIssueTicket rand userID groupName ttl => (UMIssueDeviceTicket rand userID groupName ttl c).1
  | OpAuthDevice userID groupName dev ticket pk => (ControllerAuthDevice userID groupName dev ticket pk c).1
  | OpAssignName groupName dev name => (UMAssignAuthedDeviceDisplayName groupName dev name c).1
  | OpExtend userID groupName dev ttl all => (UMExtendAuthedDeviceExpiry userID groupName dev ttl all c).1
  | OpDelete userID groupName dev => (UMDeleteAuthedDevice userID groupName dev c).1
  | OpSetName groupName dev name => (UMSetAuthedDeviceDisplayName groupName dev name c).1
  | OpRename userID groupName dev name => (UMRenameAuthedDevice userID groupName dev name c).1
  end.

(** Every call keeps the controller's invariant. *)
Lemma um_call_ok op c : Z.of_nat (size (users (c_um c))) < 2 ^ 64 → ctrl_ok o c → ctrl_ok o (um_call op c).
Proof.
  intros Hsz Hok. pose proof (λ Hwf, um_exec_wf o sha256 save now op (c_um c) Hwf Hsz) as Hwf.
  destruct op; cbn [um_call]; try exact Hok; (apply lift_um_ok; [|exact Hok]); [exact Hwf..| |exact Hwf].
  intros Hm. specialize (Hwf Hm). cbn [um_exec] in Hwf. by destruct (SetAuthedDeviceDisplayName _ _ _ _ _ _) as [m [e|]].
Qed.
End Calls.
