(* ===== verification/Onboarding.v ===== *)
(** * From a ticket to an address: the enrolment of a device end to end.

    The operations of four components in the order in which a device meets them:
    the administrator issues a ticket ([UMIssueDeviceTicket]), the device presents
    it ([HandleDeviceAuthPacket]), signs the challenge it is sent
    ([HandleDeviceAuthProofPacket]) and registers
    ([HandleRegistrationPacketWithVirtualIPAndCapabilities]).  The other files show
    that each step refuses what it must; this one shows that an honest device is
    never refused: every step answers, and the last one gives it an address. *)
From S2P Require Import Prelude GoString GoText NetIP NetParse Packet Proto ExpireMap Network NetworkInv Config.
From S2P Require Import ConfigInv UserManager UserInv Gateway GatewayInv Punch Dns ExitNode Controller DeviceAuth DeviceAuthInv.
From S2P Require Import Registration RegistrationInv ControllerInv ControllerUser.

Lemma trim_front_length dir l : (length (trim_front dir l) ≤ length l)%nat.
Proof. destruct (trim_front_spec dir l) as (_ & p & E). rewrite E at 2. rewrite length_app. lia. Qed.

Lemma TrimSpace_length s : (String.length (TrimSpace s) ≤ String.length s)%nat.
Proof.
  rewrite <-!length_chars. unfold TrimSpace. rewrite chars_of_list, length_reverse.
  etrans; [apply trim_front_length|]. rewrite length_reverse. apply trim_front_length.
Qed.

(** ** The ticket *)
Lemma Contains_dot p s : Contains (p +:+ "." +:+ s) "." = true.
Proof.
  induction p as [|a p IH]; [by destruct s|].
  change (String.prefix "." (String a (p +:+ "." +:+ s)) || Contains (p +:+ "." +:+ s) "." = true).
  rewrite IH. apply orb_true_r.
Qed.

(** The full name of a group stands for itself. *)
Lemma normalizeGroup_idem group domain g :
  normalizeGroupForUser group domain = Ok g → normalizeGroupForUser g domain = Ok g.
Proof.
  unfold normalizeGroupForUser. cbv zeta. set (d := if bool_decide (TrimSpace domain = "") then _ else _).
  destruct (Contains group ".") eqn:Hd.
  - intros E. assert (g = group) as ->; [|by rewrite Hd].
    case_bool_decide; [by injection E|]. destruct (HasSuffix _ _); [by injection E|done].
  - intros [= <-]. rewrite Contains_dot. case_bool_decide; [done|].
    by rewrite (proj2 (HasSuffix_spec _ _)) by (by exists group).
Qed.

Lemma issued_ticket_valid `{UnicodeFold} o save now rand userID groupName ttl m m' t now' dev :
  IssueDeviceTicket o save now rand userID groupName ttl m = (m', Ok t) → dev ≠ "" → now' ≤ now + ttl →
  ValidateDeviceAuth now' userID (t_GroupName t) dev (t_Ticket t) m' = Ok (t_GroupName t) ∧ t_UserID t = userID.
Proof.
  unfold IssueDeviceTicket. case_bool_decide as Huser; [done|]. case_bool_decide; [done|]. destruct (ttl <=? 0); [done|].
  destruct (users m !! userID) as [u|] eqn:Hu; [|done].
  destruct (normalizeGroupForUser _ _) as [g|] eqn:Hg; [|done]. destruct rand as [buf|]; [|done]. cbn [newSecureTicketID].
  unfold finish. destruct (saveLocked _ _ _); [done|]. intros [= <- <-] Hdev Hnow. cbn [t_GroupName t_Ticket t_UserID]. split; [|done].
  assert (Hgne : g ≠ "").
  { unfold normalizeGroupForUser in Hg. intros ->. revert Hg. cbv zeta. case_match eqn:E; [|intros [= Hs]; by destruct (TrimSpace groupName)].
    case_bool_decide as Hd; [intros [= Hs]; by rewrite Hs in E|].
    destruct (HasSuffix _ _); [|done]. intros [= Hs]. by rewrite Hs in E. }
  unfold ValidateDeviceAuth. rewrite !bool_decide_eq_false_2 by done. cbn [orb].
  simpl. unfold const. rewrite lookup_insert_eq. cbn. rewrite (proj2 (Z.ltb_ge _ _)) by done.
  rewrite Hu, (normalizeGroup_idem _ _ _ Hg). cbn. by rewrite !bool_decide_eq_false_2 by (intros Hx; by apply Hx).
Qed.

Section Onboarding.
Context `{UnicodeFold} `{UnicodeLower} `{UrlPackage}.
Context `{!ProtoMessage DeviceAuthRequest} `{!ProtoMessage DeviceAuthChallenge} `{!ProtoMessage DeviceAuthProof}
  `{!ProtoMessage DeviceAuthAck} `{!ProtoMessage RegistrationRequest} `{!ProtoMessage RegistrationResponse}
  `{!ProtoMessage GatewayTicketClaims} `{!ProtoMessage SignedGatewayTicket}.
Context (o : RangeOrder) (sha256 : list byte → list byte) (hmac : string → list byte → list byte) (cfg : Config).
Context (ed25519 : list byte → list byte → list byte → bool) (hardTTL softLead : Z).
Context (save : UMSnapshot → option string).

(** The store can be written and the replies can be encoded. *)
Hypothesis save_ok : ∀ s, save s = None.
Hypothesis challenge_encodes : ∀ msg : DeviceAuthChallenge, ∃ b, proto_marshal msg = Ok b.
Hypothesis ack_encodes : ∀ msg : DeviceAuthAck, ∃ b, proto_marshal msg = Ok b.
Hypothesis response_encodes : ∀ msg : RegistrationResponse, ∃ b, proto_marshal msg = Ok b.

Abbreviation register := (HandleRegistrationPacketWithVirtualIPAndCapabilities o sha256 hmac cfg hardTTL softLead).

Lemma finish_saved {A} (a : A) m : finish o save a m = (m, Ok a).
Proof. unfold finish, saveLocked. by rewrite save_ok. Qed.

(** ** The challenge and its answer *)
Lemma challenge_sent now nonce idb request req g c :
  proto_unmarshal (Payload request) = Ok req → dar_device_pub_key req ≠ [] →
  ValidateDeviceAuth now (dar_user_id req) (dar_group req) (dar_device_id req) (dar_ticket req) (c_um c) = Ok g →
  ∃ c' p challenge reauth, HandleDeviceAuthPacket sha256 now (Ok nonce) (Ok idb) request c = (c', Ok p)
  ∧ AppProto p = AppProtoDeviceAuthChallenge ∧ proto_marshal challenge = Ok (Payload p)
  ∧ dac_challenge_id challenge = EncodeToString idb ∧ dac_nonce challenge = nonce
  ∧ authChallenges c' !! EncodeToString idb =
      Some (mkChallenge (dar_user_id req) g (dar_device_id req) (dar_ticket req) (dar_device_pub_key req) nonce
              (now + deviceAuthChallengeTTL) reauth)
  ∧ c_um c' = c_um c ∧ c_nc c' = c_nc c.
Proof.
  intros Hreq Hkey Hv. unfold HandleDeviceAuthPacket. rewrite Hreq, Hv, bool_decide_eq_false_2 by done.
  cbv zeta. unfold newDeviceAuthChallenge, buildServicePacket. cbv zeta. cbn [fst snd].
  match goal with |- context [proto_marshal ?msg] => destruct (challenge_encodes msg) as [b Hb]; set (ch := msg) in * end.
  rewrite Hb. cbn [rbind]. eexists _, _, ch, _. split; [reflexivity|]. split_and!; try done.
  simpl. unfold const. by rewrite lookup_insert_eq.
Qed.

Lemma proof_acknowledged now request req ch g c :
  proto_unmarshal (Payload request) = Ok req → authChallenges c !! dap_challenge_id req = Some ch →
  now ≤ ch_ExpireAt ch → ch_DeviceID ch = dap_device_id req → ch_DevicePubKey ch = dap_device_pub_key req →
  length (dap_device_pub_key req) = 32%nat →
  ed25519 (dap_device_pub_key req) (buildDeviceAuthSignedPayload (dap_challenge_id req) (ch_Nonce ch)
    (dap_device_id req) (dap_device_pub_key req)) (dap_signature req) = true →
  ValidateDeviceAuth now (ch_UserID ch) (ch_GroupName ch) (ch_DeviceID ch) (ch_Ticket ch) (c_um c) = Ok g →
  ∃ c' p ack rec, HandleDeviceAuthProofPacket o sha256 ed25519 save now request c = (c', Ret (Ok p))
  ∧ AppProto p = AppProtoDeviceAuthAck ∧ proto_marshal ack = Ok (Payload p)
  ∧ daa_ok ack = true ∧ daa_user_id ack = ch_UserID ch ∧ daa_group ack = g ∧ daa_device_id ack = ch_DeviceID ch
  ∧ GetAuthedDevice g (ch_DeviceID ch) (c_um c') = Some rec ∧ a_UserID rec = ch_UserID ch
  ∧ a_PubKeyHex rec = toPubKeyHex sha256 (ch_DevicePubKey ch) "ed25519"
  ∧ a_AuthExpireAt rec = now + defaultDeviceAuthTTL ∧ c_nc c' = c_nc c.
Proof.
  intros Hreq Hch Hexp Hdev Hkey Hlen Hsig Hv. unfold HandleDeviceAuthProofPacket, consumeDeviceAuthChallenge.
  rewrite Hreq, Hch, (proj2 (Z.ltb_ge _ _)) by done.
  set (c1 := c <| authChallenges := _ |>). change (c_um c1) with (c_um c).
  rewrite !bool_decide_eq_false_2 by (intros Hx; by apply Hx). cbn [orb].
  unfold Verify. rewrite bool_decide_eq_true_2, Hsig by done. unfold AuthDevice.
  rewrite bool_decide_eq_false_2 by (rewrite Hkey; by intros E; rewrite E in Hlen).
  rewrite Hv. unfold auth_device_commit. cbv zeta. rewrite finish_saved. unfold buildServicePacket.
  match goal with |- context [proto_marshal ?msg] => destruct (ack_encodes msg) as [b Hb]; set (ack := msg) in * end.
  rewrite Hb. cbn [rbind]. eexists _, _, ack, _. split; [reflexivity|]. do 6 (split; [done|]).
  split; [unfold GetAuthedDevice; simpl; unfold const; by rewrite lookup_insert_eq|done].
Qed.

(** ** The registration *)

(** The network the device will join has an address for it. *)
Definition has_room (now : Z) (identity : NetworkIdentity) (gateway : IP) (netmask : list byte) (reserved : gmap Z string)
    (dev : string) (nc : NetworkControl) : Prop :=
  let n := default (NewNetworkInfo (Key identity) netmask gateway reserved) (networks nc !! Key identity) in
  FindClientIPByDeviceID n dev ≠ 0 ∨ ∃ ip, usable n ip ∧ free now (IPSessions nc) n ip.

Lemma join_succeeds now identity netmask gateway reserved reg nc :
  reg_virtual_ip reg = 0 → has_room now identity gateway netmask reserved (reg_device_id reg) nc →
  ∃ nc' n ip old, join_network now identity netmask gateway reserved reg nc = (nc', n, (ip, old, None)).
Proof.
  intros Hvip Hroom. unfold join_network, has_room in *. cbv zeta in *.
  set (n := default _ _) in *. rewrite Hvip.
  pose proof (generateIP_generated now (IPSessions nc) n 0 (reg_device_id reg) (allow_ip_change reg)) as Hg.
  destruct (generateIP _ _ n _ _ _) as [[s' n'] [[ip old] [e|]]]; [|by eexists _, _, _, _].
  exfalso. inversion Hg as [| | | |s0 Hz Hno]; subst; [done|].
  destruct Hroom as [?|(ip & Hu & Hf)]; [done|by eapply Hno].
Qed.

Lemma authorise_succeeds now reg rec c :
  validateRegistrationRequest reg = None → TrimSpace (reg_name reg) ≠ "" →
  CheckAuthedDevice sha256 now (token reg) (reg_device_id reg) (reg_device_pub_key reg) (c_um c) = None →
  GetAuthedDevice (token reg) (reg_device_id reg) (c_um c) = Some rec →
  ∃ um rec', authorise o sha256 save now reg c = (c <| c_um := um |>, Ok rec').
Proof.
  intros Hval Hname Hck Hget. unfold authorise. rewrite Hck, Hget.
  case_bool_decide as Hd; [|exists (c_um c), rec; by destruct c].
  unfold AssignAuthedDeviceDisplayName, normalizeRenameName. cbv zeta. rewrite TrimSpace_idem.
  assert (Hlen : (String.length (reg_name reg) ≤ 128)%nat).
  { revert Hval. unfold validateRegistrationRequest. do 2 (case_match; [done|]).
    destruct (_ || (128 <? Z.of_nat (String.length (reg_name reg)))) eqn:E; [done|]. intros _. bool_prop. lia. }
  pose proof (TrimSpace_length (reg_name reg)). rewrite bool_decide_eq_false_2, (proj2 (Z.ltb_ge _ _)) by (done || lia).
  unfold GetAuthedDevice in Hget. rewrite Hget, bool_decide_eq_false_2, finish_saved by tauto. by eexists _, _.
Qed.

Lemma registration_succeeds now rand request remoteAddr caps reg gateway netmask rec endpoint c :
  let identity := NewNetworkIdentity (token reg) (a_UserID rec) in
  proto_unmarshal (Payload request) = Ok reg → validateRegistrationRequest reg = None → TrimSpace (reg_name reg) ≠ "" →
  resolveGroupNetworkConfig o cfg (token reg) = Ok (gateway, netmask) → public_endpoint remoteAddr = Ok endpoint →
  CheckAuthedDevice sha256 now (token reg) (reg_device_id reg) (reg_device_pub_key reg) (c_um c) = None →
  GetAuthedDevice (token reg) (reg_device_id reg) (c_um c) = Some rec → reg_virtual_ip reg = 0 →
  has_room now identity gateway netmask (reservedServiceIPs o cfg (token reg)) (reg_device_id reg) (c_nc c) →
  ∃ c' p ip, register save now rand request remoteAddr caps c = (c', Ok (p, ip, identity)).
Proof.
  intros identity Hreg Hval Hname Hres Hend Hck Hget Hvip Hroom.
  unfold HandleRegistrationPacketWithVirtualIPAndCapabilities. rewrite Hreg, Hval, Hres.
  destruct (authorise_succeeds now reg rec c) as (um & rec' & Ha); [done..|]. rewrite Ha.
  apply authorise_Ok in Ha as (_ & (rec0 & Hget0 & ->) & _). assert (rec0 = rec) as -> by congruence. fold identity.
  rewrite Hend. destruct endpoint as [[port ip4] ip6].
  destruct (join_succeeds _ _ _ _ _ _ _ Hvip Hroom) as (nc & n & ip & old & Hj).
  change (c_nc (c <| c_um := um |>)) with (c_nc c). cbv zeta. rewrite Hj.
  destruct (enter_network _ _ _ _ _ _ _ _) as [nc' n'].
  destruct (buildGatewayAccessGrantsForExistingClient _ _ _ _ _ _ _ _ _ _ _ _) as [gw [grants rev]].
  match goal with |- context [proto_marshal ?msg] => destruct (response_encodes msg) as [b Hb]; rewrite Hb end.
  by eexists _, _, _.
Qed.

(** ** The whole run *)

(** What an honest device sends: [t] is the ticket it was given, [key] its public
    key; the signature is over the challenge it received. *)
Record honest (t : UMDeviceTicket) (dev : string) (key idb nonce : list byte) (req : DeviceAuthRequest)
    (prf : DeviceAuthProof) (reg : RegistrationRequest) : Prop := {
  honest_device : dev ≠ "" ∧ length key = 32%nat;
  honest_request : req = {| dar_user_id := t_UserID t; dar_group := t_GroupName t; dar_device_id := dev;
                            dar_ticket := t_Ticket t; dar_device_pub_key := key |};
  honest_proof : dap_challenge_id prf = EncodeToString idb ∧ dap_device_id prf = dev ∧ dap_device_pub_key prf = key
    ∧ ed25519 key (buildDeviceAuthSignedPayload (EncodeToString idb) nonce dev key) (dap_signature prf) = true;
  honest_registration : token reg = t_GroupName t ∧ reg_device_id reg = dev ∧ reg_device_pub_key reg = key
    ∧ reg_virtual_ip reg = 0 ∧ TrimSpace (reg_name reg) ≠ "" ∧ validateRegistrationRequest reg = None
}.

(** C3 (liveness). An honest device is onboarded.  The controller issues a ticket
    for a group; within its lifetime the device presents it and is sent a challenge
    carrying the nonce drawn; within the lifetime of the challenge it answers with
    its signature and is acknowledged; until its authentication expires it
    registers, and succeeds if its group is configured and its network has an
    address left.  It is then the online client at that address of the network of
    the ticket's owner. *)
Theorem onboarding (t0 t1 t2 t3 ttl : Z) (rnd nonce idb key : list byte) (rand : Z → result (list byte))
    (userID groupName dev remoteAddr : string) (caps : list string) (r1 r2 r3 : Packet) (req : DeviceAuthRequest)
    (prf : DeviceAuthProof) (reg : RegistrationRequest) (t : UMDeviceTicket) (gateway : IP) (netmask : list byte)
    (endpoint : Z * Z * list byte) (c c0 : Controller) :
  0 ≤ t2 → t1 ≤ t0 + ttl → t2 ≤ t0 + ttl → t2 ≤ t1 + deviceAuthChallengeTTL → t3 ≤ t2 + defaultDeviceAuthTTL →
  UMIssueDeviceTicket o save t0 (Ok rnd) userID groupName ttl c = (c0, Ok t) →
  honest t dev key idb nonce req prf reg →
  proto_unmarshal (Payload r1) = Ok req → proto_unmarshal (Payload r2) = Ok prf → proto_unmarshal (Payload r3) = Ok reg →
  wf_networks (c_nc c) → checked_config cfg → uint32_decoded →
  resolveGroupNetworkConfig o cfg (t_GroupName t) = Ok (gateway, netmask) → public_endpoint remoteAddr = Ok endpoint →
  let identity := NewNetworkIdentity (t_GroupName t) userID in
  has_room t3 identity gateway netmask (reservedServiceIPs o cfg (t_GroupName t)) dev (c_nc c) →
  ∃ c1 p1 challenge c2 p2 ack c3 p3 ip n cl,
    HandleDeviceAuthPacket sha256 t1 (Ok nonce) (Ok idb) r1 c0 = (c1, Ok p1)
  ∧ proto_marshal challenge = Ok (Payload p1) ∧ dac_challenge_id challenge = EncodeToString idb ∧ dac_nonce challenge = nonce
  ∧ HandleDeviceAuthProofPacket o sha256 ed25519 save t2 r2 c1 = (c2, Ret (Ok p2))
  ∧ proto_marshal ack = Ok (Payload p2) ∧ daa_ok ack = true ∧ daa_user_id ack = userID ∧ daa_group ack = t_GroupName t
  ∧ register save t3 rand r3 remoteAddr caps c2 = (c3, Ok (p3, ip, identity))
  ∧ networks (c_nc c3) !! Key identity = Some n ∧ usable n ip ∧ Clients n !! ip = Some cl
  ∧ DeviceId cl = dev ∧ UserID cl = userID ∧ DevicePubKey cl = key ∧ ControlOnline cl = true.
Proof.
  intros H02 H10 H20 H21 H32 Hissue [[Hdev Hlen] -> (Hid & Hpd & Hpk & Hsig) (Htok & Hrd & Hrk & Hvip & Hname & Hval)]
    Hr1 Hr2 Hr3 Hwf Hcfg Hu32 Hres Hend identity Hroom.
  unfold UMIssueDeviceTicket, lift_um in Hissue.
  destruct (IssueDeviceTicket _ _ _ _ _ _ _ _) as [m [t'|]] eqn:Ht; [|done].
  assert (Hc0 : c0 = c <| c_um := m |>) by congruence. assert (t' = t) as -> by congruence. clear Hissue.
  assert (Hum : c_um c0 = m) by (by rewrite Hc0). assert (Hnc : c_nc c0 = c_nc c) by (by rewrite Hc0). clear Hc0.
  destruct (issued_ticket_valid _ _ _ _ _ _ _ _ _ _ t1 dev Ht Hdev H10) as [Hv1 Hu]. rewrite <-Hum in Hv1.
  destruct (issued_ticket_valid _ _ _ _ _ _ _ _ _ _ t2 dev Ht Hdev H20) as [Hv2 _]. rewrite <-Hum in Hv2.
  destruct (challenge_sent t1 nonce idb r1 _ (t_GroupName t) c0 Hr1) as
    (c1 & p1 & challenge & reauth & Hs1 & _ & Hm1 & Hci & Hcn & Hch & Hum1 & Hnc1);
    [cbn; by intros ->|cbn; by rewrite Hu|].
  rewrite <-Hid in Hch. rewrite <-Hum1 in Hv2.
  destruct (proof_acknowledged t2 r2 prf _ (t_GroupName t) c1 Hr2 Hch) as
    (c2 & p2 & ack & rec & Hs2 & _ & Hm2 & Hok & Hau & Hag & _ & Hget & Hru & Hrh & Hre & Hnc2); cbn; try done.
  { by rewrite Hpk. }
  { by rewrite Hpk, Hpd, Hid. }
  { by rewrite Hu. }
  cbn in Hau, Hget, Hru, Hrh. rewrite Hu in Hau, Hru. rewrite <-Htok, <-Hrd in Hget.
  assert (Hck : CheckAuthedDevice sha256 t3 (token reg) (reg_device_id reg) (reg_device_pub_key reg) (c_um c2) = None).
  { unfold CheckAuthedDevice. unfold GetAuthedDevice in Hget. rewrite Hget, Hre, (proj2 (Z.ltb_ge _ _)) by lia.
    rewrite andb_false_r, Hrk, Hrh, !bool_decide_eq_false_2; [done|tauto|]. by intros ->. }
  destruct (registration_succeeds t3 rand r3 remoteAddr caps reg gateway netmask rec endpoint c2) as
    (c3 & p3 & ip & Hs3); try done.
  { by rewrite Htok. }
  { by rewrite Htok, Hru, Hrd, Hnc2, Hnc1, Hnc. }
  rewrite Htok, Hru in Hs3. fold identity in Hs3.
  destruct (registration_facts o sha256 hmac cfg hardTTL softLead _ _ _ _ _ _ _ _ _ _ _ ltac:(by rewrite Hnc2, Hnc1, Hnc) Hcfg Hu32 Hs3)
    as (reg' & rec' & n & Hr3' & _ & Hget' & _ & _ & Hnets & Hus & (cl & Hcl & Hcd & Hcu & Hcp & Hon & _) & _).
  assert (reg' = reg) as -> by congruence. assert (rec' = rec) as -> by congruence.
  exists c1, p1, challenge, c2, p2, ack, c3, p3, ip, n, cl. split_and!; try done; try congruence.
  by rewrite Hnets, lookup_insert_eq.
Qed.
End Onboarding.

(** ** Samples: alice gets a ticket for her laptop and the laptop comes online *)
Module SampleOnboarding.
Import SampleAuth.
Definition ticket : UMDeviceTicket := mkUMDeviceTicket "dtk-0b" "alice" "dev.corp.net" 100 false 0.
Definition verify (_ message sig : list byte) : bool := bool_decide (sig = message).
Definition request : DeviceAuthRequest :=
  {| dar_user_id := "alice"; dar_group := "dev.corp.net"; dar_device_id := "laptop"; dar_ticket := "dtk-0b";
     dar_device_pub_key := key32 |}.
Definition answer : DeviceAuthProof :=
  {| dap_challenge_id := "07"; dap_device_id := "laptop"; dap_device_pub_key := key32;
     dap_signature := buildDeviceAuthSignedPayload "07" [x01] "laptop" key32 |}.
Definition challenge : DeviceAuthChallenge :=
  {| dac_challenge_id := ""; dac_nonce := []; dac_expire_unix_ms := 0; dac_reauth_required := false; dac_reason := "" |}.
Definition c0 : Controller := (UMIssueDeviceTicket ascending SampleUsers.ok 0 (Ok [x0b]) "alice" "dev" 100 SampleAuth.c0).1.

Lemma issued : UMIssueDeviceTicket ascending SampleUsers.ok 0 (Ok [x0b]) "alice" "dev" 100 SampleAuth.c0 = (c0, Ok ticket).
Proof. unfold c0. rewrite (surjective_pairing (UMIssueDeviceTicket _ _ _ _ _ _ _ _)). f_equal; try done; by vm_compute. Qed.

Lemma const_encodes {M} (m : M) : ∀ msg : M, ∃ b, @proto_marshal M (const_codec m) msg = Ok b.
Proof. intros msg. by exists []. Qed.

Lemma room : has_room 7 (NewNetworkIdentity "dev.corp.net" "alice") (ParseIP "10.26.0.1") [xff; xff; xff; x00]
  (@reservedServiceIPs AsciiLower ascending SampleReg.cfg "dev.corp.net") "laptop" (c_nc SampleAuth.c0).
Proof.
  right. exists 169476098. split; [split; [split|]; by vm_compute|]. apply freeb_spec. by vm_compute.
Qed.

Lemma laptop : honest verify ticket "laptop" key32 [x07] [x01] request answer (SampleReg.reg key32).
Proof. split; split_and?; by vm_compute. Qed.
End SampleOnboarding.

Lemma onboarding_witness :
  ∃ c2 c3 p3 ip n cl,
    networks (c_nc c3) !! "dev.corp.net" = Some n ∧ Clients n !! ip = Some cl ∧ DeviceId cl = "laptop" ∧ ControlOnline cl = true
  ∧ @HandleRegistrationPacketWithVirtualIPAndCapabilities AsciiFold AsciiLower SampleGateway.url
      (SampleAuth.const_codec (SampleReg.reg SampleAuth.key32)) (SampleAuth.const_codec zeroRegistrationResponse)
      SampleGateway.codec SampleGateway.codec ascending SampleUsers.sha SampleGateway.mac SampleReg.cfg SampleReg.day minute
      SampleUsers.ok 7 SampleReg.no_rand SampleAuth.packet "192.0.2.9:4000" [] c2
    = (c3, Ok (p3, ip, NewNetworkIdentity "dev.corp.net" "alice")).
Proof.
  destruct (@onboarding AsciiFold AsciiLower SampleGateway.url (SampleAuth.const_codec SampleOnboarding.request)
    (SampleAuth.const_codec SampleOnboarding.challenge) (SampleAuth.const_codec SampleOnboarding.answer)
    (SampleAuth.const_codec zeroAck) (SampleAuth.const_codec (SampleReg.reg SampleAuth.key32))
    (SampleAuth.const_codec zeroRegistrationResponse) SampleGateway.codec SampleGateway.codec ascending SampleUsers.sha
    SampleGateway.mac SampleReg.cfg SampleOnboarding.verify SampleReg.day minute SampleUsers.ok (λ _, eq_refl)
    (SampleOnboarding.const_encodes _) (SampleOnboarding.const_encodes _) (SampleOnboarding.const_encodes _)
    0 5 6 7 100 [x0b] [x01] [x07] SampleAuth.key32 SampleReg.no_rand "alice" "dev" "laptop" "192.0.2.9:4000" []
    SampleAuth.packet SampleAuth.packet SampleAuth.packet SampleOnboarding.request SampleOnboarding.answer
    (SampleReg.reg SampleAuth.key32) SampleOnboarding.ticket (ParseIP "10.26.0.1") [xff; xff; xff; x00]
    (4000, 3221225993, []) SampleAuth.c0 SampleOnboarding.c0)
    as (c1 & p1 & ch & c2 & p2 & ack & c3 & p3 & ip & n & cl & _ & _ & _ & _ & _ & _ & _ & _ & _ & Hs & Hn & _ & Hc & Hd & _ & _ & Ho).
  17:{ exists c2, c3, p3, ip, n, cl. by split_and!. }
  1-5: by vm_compute.
  - apply SampleOnboarding.issued.
  - apply SampleOnboarding.laptop.
  - done.
  - done.
  - done.
  - apply SampleReg.c0_wf.
  - apply SampleReg.cfg_checked.
  - apply SampleReg.decoded.
  - by vm_compute.
  - by vm_compute.
  - apply SampleOnboarding.room.
Defined.
