(* ===== verification/StreamHub.v ===== *)
(** * Session streams and the registry of routes: the first half of
    [handlers/quic.go].

    A control session is identified by a number standing for its [*sessionStream];
    [streams] holds what each has sent and whether it was closed.  The registry
    [streamHub] maps routes (network and virtual address) to sessions.  Its mutex
    makes every operation one step, except that a write looks the session up, writes
    without the lock, and takes it again when the write fails: [deliver] is that
    second part and may be interleaved with anything. *)
From S2P Require Import Prelude GoString NetIP NetParse.

(** ** Framing: a length of four bytes, then the packet *)
Definition frame (payload : list byte) : list byte := be_put 4 (Z.of_nat (length payload)) ++ payload.

Record sessionStream := mkSession {
  ss_remoteAddr : string;
  ss_sent : list byte;
  ss_closed : bool
}.

(** The transport takes a frame whole, or fails after some of its bytes. *)
Inductive write_outcome := Written | WriteFails (n : nat) (e : string).

Definition writeFramedWriter (io : write_outcome) (payload : list byte) (s : sessionStream) : sessionStream * option string :=
  match io with
  | Written => (s <| ss_sent := ss_sent s ++ frame payload |>, None)
  | WriteFails n e => (s <| ss_sent := ss_sent s ++ take n (frame payload) |>, Some e)
  end.

(** [sessionStream.close]: only the first call has an effect. *)
Definition close_stream (s : sessionStream) : sessionStream := s <| ss_closed := true |>.

(** ** Routes *)
Definition routeKey (networkKey : string) (virtualIP : Z) : string := TrimSpace networkKey +:+ "|" +:+ dec virtualIP.

(** [strconv.ParseUint(s, 10, 32)]. *)
Definition ParseUint32 (s : string) : option Z :=
  match chars s with
  | [] => None
  | l => v ← parse_digits 0 l; if v <? 2 ^ 32 then Some v else None
  end.

Definition routeIP (key : string) : option Z :=
  i ← index_byte "|"%char (chars key); ParseUint32 (str (drop (i + 1) (chars key))).

Record streamHub := mkHub {
  byIP : gmap Z Z;
  byRoute : gmap string Z;
  ipsByAddr : gmap string (gmap string Z)
}.

Definition newStreamHub : streamHub := mkHub ∅ ∅ ∅.

Record Sessions := mkSessions { hub : streamHub; streams : gmap Z sessionStream }.

Definition remote (w : Sessions) (target : Z) : string := from_option ss_remoteAddr "" (streams w !! target).

(** [delete(h.byIP, ip)] when the address of the route is mapped to the session. *)
Definition drop_ip (key : string) (target : Z) (h : streamHub) : streamHub :=
  match routeIP key with
  | None => h
  | Some ip => if bool_decide (byIP h !! ip = Some target) then h <| byIP := delete ip (byIP h) |> else h
  end.

Definition set_ips (addr : string) (ips : gmap string Z) (h : streamHub) : streamHub :=
  h <| ipsByAddr := if bool_decide (ips = ∅) then delete addr (ipsByAddr h) else <[addr := ips]> (ipsByAddr h) |>.

Definition unregisterLocked (addr key : string) (target : Z) (h : streamHub) : streamHub :=
  if bool_decide (byRoute h !! key ≠ Some target) then h else
  let h := drop_ip key target (h <| byRoute := delete key (byRoute h) |>) in
  match ipsByAddr h !! addr with
  | None => h
  | Some ips => set_ips addr (if bool_decide (ips !! key = Some target) then delete key ips else ips) h
  end.

Definition update_stream (target : Z) (f : sessionStream → sessionStream) (w : Sessions) : Sessions :=
  w <| streams := alter f target (streams w) |>.

Section Hub.
Context (o : RangeOrder).

Definition registerSession (remoteAddr : option string) (networkKey : string) (virtualIP : Z) (stream : Z) (w : Sessions)
    : Sessions :=
  match remoteAddr with
  | None => w
  | Some addr =>
      if virtualIP =? 0 then w else
      let key := routeKey networkKey virtualIP in
      let replaced := match byRoute (hub w) !! key with
        | Some previous => if bool_decide (previous ≠ stream) then Some previous else None
        | None => None
        end in
      let h := match replaced with
        | Some previous => unregisterLocked (remote w previous) key previous (hub w)
        | None => hub w
        end in
      let h := h <| byRoute := <[key := stream]> (byRoute h) |> in
      let h := if bool_decide (TrimSpace networkKey = "") then h <| byIP := <[virtualIP := stream]> (byIP h) |> else h in
      let h := h <| ipsByAddr := <[addr := <[key := stream]> (default ∅ (ipsByAddr h !! addr))]> (ipsByAddr h) |> in
      let w := w <| hub := h |> in
      match replaced with Some previous => update_stream previous close_stream w | None => w end
  end.

(** One route of the loop of [unregisterSession]. *)
Definition unregister_route (target : Z) (acc : streamHub * gmap string Z) (entry : string * Z)
    : streamHub * gmap string Z :=
  let '(h, ips) := acc in
  let '(key, current) := entry in
  if bool_decide (current ≠ target) then acc else
  let h := if bool_decide (byRoute h !! key = Some target) then h <| byRoute := delete key (byRoute h) |> else h in
  (drop_ip key target h, delete key ips).

Definition unregisterSession (target : Z) (w : Sessions) : Sessions :=
  let addr := remote w target in
  if bool_decide (addr = "") then w else
  match ipsByAddr (hub w) !! addr with
  | None => w
  | Some ips =>
      let '(h, ips) := foldl (unregister_route target) (hub w, ips) (range o ips) in
      w <| hub := set_ips addr ips h |>
  end.

Definition unregisterStaleRoute (networkKey : string) (virtualIP : Z) (target : Z) (w : Sessions) : Sessions :=
  if bool_decide (remote w target = "") then w
  else w <| hub := unregisterLocked (remote w target) (routeKey networkKey virtualIP) target (hub w) |>.

Definition unregisterStaleIP (virtualIP : Z) (target : Z) (w : Sessions) : Sessions :=
  unregisterStaleRoute "" virtualIP target w.

Definition errStreamUnavailable : string := "stream unavailable".

(** The write to the session that was looked up; a failing one is given up. *)
Definition deliver (io : write_outcome) (target : Z) (payload : list byte) (w : Sessions) : Sessions * option string :=
  match streams w !! target with
  | None => (w, None)
  | Some s =>
      let '(s, err) := writeFramedWriter io payload s in
      let w := w <| streams := <[target := s]> (streams w) |> in
      match err with
      | None => (w, None)
      | Some e =>
          (update_stream target close_stream (unregisterSession target w),
           Some ("write stream " +:+ ss_remoteAddr s +:+ ": " +:+ e))
      end
  end.

Definition writeToIP (io : write_outcome) (virtualIP : Z) (payload : list byte) (w : Sessions) : Sessions * option string :=
  match byIP (hub w) !! virtualIP with
  | None => (w, Some errStreamUnavailable)
  | Some target => deliver io target payload w
  end.

Definition writeToRoute (io : write_outcome) (networkKey : string) (virtualIP : Z) (payload : list byte) (w : Sessions)
    : Sessions * option string :=
  if bool_decide (TrimSpace networkKey = "") then writeToIP io virtualIP payload w else
  match byRoute (hub w) !! routeKey networkKey virtualIP with
  | None => (w, Some errStreamUnavailable)
  | Some target => deliver io target payload w
  end.

End Hub.
