(* ===== verification/StreamHubInv.v ===== *)
(** * The registry of routes: its three tables agree, and it behaves like one map
    from routes to sessions. *)
From S2P Require Import Prelude GoString NetIP NetParse StreamHub.

(** ** Route keys *)
Lemma routeIP_routeKey ip : 0 ≤ ip < 2 ^ 32 → routeIP (routeKey "" ip) = Some ip.
Proof.
  intros Hip. unfold routeIP, routeKey. change (TrimSpace "" +:+ "|" +:+ dec ip) with (String "|"%char (dec ip)).
  change (chars (String "|"%char (dec ip))) with ("|"%char :: chars (dec ip)). simpl.
  unfold ParseUint32. rewrite chars_of_list. pose proof (dec_nonempty ip) as Hn.
  change (drop 0 (chars (dec ip))) with (chars (dec ip)).
  destruct (chars (dec ip)) as [|c l] eqn:E; [done|]. rewrite <-E, parse_dec by lia. simpl.
  by rewrite (proj2 (Z.ltb_lt ip (2 ^ 32))) by lia.
Qed.

Lemma routeKey_inj net net' ip ip' : 0 ≤ ip → 0 ≤ ip' → routeKey net ip = routeKey net' ip' →
  TrimSpace net = TrimSpace net' ∧ ip = ip'.
Proof.
  intros Hip Hip' E. unfold routeKey in E. apply (sep_inj_last "|") in E as [? ?%dec_inj];
    [done|apply dec_no_char; [not_digit|done]..].
Qed.

(** ** The invariant *)
Definition by_addr (h : streamHub) (addr key : string) : option Z := ipsByAddr h !! addr ≫= λ ips, ips !! key.

Record hub_ok (w : Sessions) : Prop := {
  ho_route : ∀ key s, byRoute (hub w) !! key = Some s → is_Some (streams w !! s) ∧ by_addr (hub w) (remote w s) key = Some s;
  ho_addr : ∀ addr key s, by_addr (hub w) addr key = Some s → byRoute (hub w) !! key = Some s ∧ remote w s = addr;
  ho_ip : ∀ ip s, byIP (hub w) !! ip = Some s → byRoute (hub w) !! routeKey "" ip = Some s ∧ 0 ≤ ip < 2 ^ 32;
  ho_named : ∀ s st, streams w !! s = Some st → ss_remoteAddr st ≠ ""
}.

Lemma hub_ok_init : hub_ok (mkSessions newStreamHub ∅).
Proof. split; unfold by_addr; simpl; intros *; by rewrite lookup_empty. Qed.

(** What an operation may do to the tables without breaking them: drop routes
    together with their entries. *)
Lemma by_addr_set_ips addr ips h addr' key : by_addr (set_ips addr ips h) addr' key =
  if decide (addr' = addr) then ips !! key else by_addr h addr' key.
Proof.
  unfold by_addr, set_ips. simpl. unfold const. case_decide as Ha; [subst addr'|].
  - case_bool_decide as He; [by rewrite lookup_delete_eq, He, lookup_empty|by rewrite lookup_insert_eq].
  - case_bool_decide; [by rewrite lookup_delete_ne by congruence|by rewrite lookup_insert_ne by congruence].
Qed.

Lemma drop_ip_frame key target h : byRoute (drop_ip key target h) = byRoute h ∧ ipsByAddr (drop_ip key target h) = ipsByAddr h.
Proof. unfold drop_ip. destruct (routeIP key); [|done]. by case_bool_decide. Qed.

Lemma drop_ip_byIP key target h ip s : byIP (drop_ip key target h) !! ip = Some s →
  byIP h !! ip = Some s ∧ ¬ (s = target ∧ routeIP key = Some ip).
Proof.
  unfold drop_ip. destruct (routeIP key) as [ip'|]; [|by intros ?; split; [done|intros [_ ?]]].
  case_bool_decide as Hb; simpl; unfold const.
  - rewrite lookup_delete_Some. intros [? ?]. split; [done|]. by intros [_ [= ->]].
  - intros Hs. split; [done|]. by intros [-> [= ->]].
Qed.

(** The tables after the routes in [gone] of [target] are dropped. *)
Record dropped (w : Sessions) (target : Z) (gone : string → Prop) (h : streamHub) : Prop := {
  dr_route : ∀ key s, byRoute h !! key = Some s ↔ byRoute (hub w) !! key = Some s ∧ ¬ (s = target ∧ gone key);
  dr_addr : ∀ addr key s, by_addr h addr key = Some s ↔ by_addr (hub w) addr key = Some s ∧ ¬ (s = target ∧ gone key);
  dr_ip : ∀ ip s, byIP h !! ip = Some s →
    byIP (hub w) !! ip = Some s ∧ ¬ (s = target ∧ gone (routeKey "" ip))
}.

Lemma dropped_ok w target gone h w' : hub_ok w → dropped w target gone h →
  hub w' = h → (ss_remoteAddr <$> streams w') = (ss_remoteAddr <$> streams w) → hub_ok w'.
Proof.
  intros [Hr Ha Hi Hn] [Dr Da Di] Hh Hst.
  assert (Hrem : ∀ s, remote w' s = remote w s).
  { intros s. unfold remote. apply (f_equal (λ m, m !! s)) in Hst. rewrite !lookup_fmap in Hst.
    destruct (streams w' !! s), (streams w !! s); simpl in *; congruence. }
  assert (Hdom : ∀ s, is_Some (streams w !! s) → is_Some (streams w' !! s)).
  { intros s [x Hx]. apply (f_equal (λ m, m !! s)) in Hst. rewrite !lookup_fmap, Hx in Hst.
    destruct (streams w' !! s); [by eexists|done]. }
  split; rewrite ?Hh.
  - intros key s [Hk Hg]%Dr. destruct (Hr _ _ Hk) as [? ?]. split; [by apply Hdom|]. rewrite Hrem. by apply Da.
  - intros addr key s [Hk Hg]%Da. destruct (Ha _ _ _ Hk) as [? ?]. rewrite Hrem. split; [by apply Dr|done].
  - intros ip s [Hk Hg]%Di. destruct (Hi _ _ Hk) as [? ?]. split; [by apply Dr|done].
  - intros s st Hs. apply (f_equal (λ m, m !! s)) in Hst. rewrite !lookup_fmap, Hs in Hst.
    destruct (streams w !! s) as [st'|] eqn:E; [|done]. simpl in Hst. injection Hst as ->. by eapply Hn.
Qed.

Lemma dropped_locked w key target : hub_ok w → is_Some (streams w !! target) →
  dropped w target (λ k, k = key) (unregisterLocked (remote w target) key target (hub w)).
Proof.
  intros Hok Hs. unfold unregisterLocked. case_bool_decide as Hk.
  { assert (Hno : ∀ k s, byRoute (hub w) !! k = Some s → ¬ (s = target ∧ k = key)) by (by intros k s ? [-> ->]).
    split.
    - intros k s. split; [eauto|by intros [? _]].
    - intros addr k s. split; [|by intros [? _]]. intros Hb. split; [done|]. apply Hno. by apply (ho_addr _ Hok addr).
    - intros ip s Hip. split; [done|]. apply Hno. by apply (ho_ip _ Hok). }
  destruct (ho_route _ Hok _ _ Hk) as [_ Haddr].
  set (h1 := drop_ip _ _ _). destruct (drop_ip_frame key target ((hub w) <| byRoute := delete key (byRoute (hub w)) |>)) as [Hr1 Hi1].
  fold h1 in Hr1, Hi1. simpl in Hr1, Hi1. unfold const in Hr1.
  unfold by_addr in Haddr. rewrite Hi1. destruct (ipsByAddr (hub w) !! remote w target) as [ips|] eqn:Eips; [|done].
  simpl in Haddr. rewrite bool_decide_eq_true_2 by done. split.
  - intros k s. change (byRoute (set_ips (remote w target) (delete key ips) h1)) with (byRoute h1).
    rewrite Hr1, lookup_delete_Some. split; [intros [? ?]; split; [done|by intros [_ ->]]|].
    intros [Hb Hg]. split; [|done]. intros <-. apply Hg. split; [congruence|done].
  - intros addr k s. rewrite by_addr_set_ips. case_decide as Ha.
    + subst addr. unfold by_addr. rewrite Eips. simpl. rewrite lookup_delete_Some.
      split; [intros [? ?]; split; [done|by intros [_ ->]]|].
      intros [Hb Hg]. split; [|done]. intros <-. apply Hg. split; [congruence|done].
    + change (by_addr h1 addr k) with (ipsByAddr h1 !! addr ≫= λ ips, ips !! k). rewrite Hi1.
      change (ipsByAddr (hub w) !! addr ≫= λ ips, ips !! k) with (by_addr (hub w) addr k).
      split; [|by intros [? _]]. intros Hb. split; [done|]. intros [-> _]. apply Ha.
      by destruct (ho_addr _ Hok _ _ _ Hb) as [_ <-].
  - intros ip s Hip. change (byIP (set_ips (remote w target) (delete key ips) h1)) with (byIP h1) in Hip.
    apply drop_ip_byIP in Hip as [Hip Hg]. simpl in Hip. split; [done|]. intros [-> Hkey]. apply Hg. split; [done|].
    rewrite <-Hkey. apply routeIP_routeKey. by destruct (ho_ip _ Hok _ _ Hip).
Qed.

(** The loop of [unregisterSession]. *)
Lemma unregister_routes_fold target l h ips : NoDup l.*1 →
  let r := foldl (unregister_route target) (h, ips) l in
  (∀ k s, byRoute r.1 !! k = Some s ↔ byRoute h !! k = Some s ∧ ¬ (s = target ∧ (k, target) ∈ l))
  ∧ (∀ k s, r.2 !! k = Some s ↔ ips !! k = Some s ∧ (k, target) ∉ l)
  ∧ ipsByAddr r.1 = ipsByAddr h
  ∧ (∀ ip s, byIP r.1 !! ip = Some s →
       byIP h !! ip = Some s ∧ ¬ (s = target ∧ ∃ k, (k, target) ∈ l ∧ routeIP k = Some ip)).
Proof.
  revert h ips. induction l as [|[key current] l IH]; intros h ips Hnd; cbn [foldl].
  { split_and!; [|..|done|].
    - intros k s. split; [intros ?; split; [done|by intros [_ ?%not_elem_of_nil]]|by intros [? _]].
    - intros k s. split; [intros ?; split; [done|by intros ?%not_elem_of_nil]|by intros [? _]].
    - intros ip s ?. split; [done|]. by intros [_ (? & ?%not_elem_of_nil & _)]. }
  apply NoDup_cons in Hnd as [Hnew Hnd]. destruct (decide (current = target)) as [->|Hc]; cycle 1.
  { assert (unregister_route target (h, ips) (key, current) = (h, ips)) as ->
      by (unfold unregister_route; by rewrite bool_decide_eq_true_2).
    destruct (IH h ips Hnd) as (I1 & I2 & I3 & I4). split_and!; [..|done|].
    - intros k s. rewrite I1, elem_of_cons. naive_solver.
    - intros k s. rewrite I2, not_elem_of_cons. naive_solver.
    - intros ip s Hip%I4. setoid_rewrite elem_of_cons. naive_solver. }
  set (h1 := if bool_decide (byRoute h !! key = Some target) then h <| byRoute := delete key (byRoute h) |> else h).
  assert (H1 : (∀ k s, byRoute h1 !! k = Some s ↔ byRoute h !! k = Some s ∧ ¬ (s = target ∧ k = key))
      ∧ ipsByAddr h1 = ipsByAddr h ∧ byIP h1 = byIP h).
  { unfold h1. case_bool_decide as Hb; simpl; unfold const; (split_and!; [|done..]); intros k s.
    - rewrite lookup_delete_Some. split; [intros [? ?]; split; [done|by intros [_ ->]]|].
      intros [? Hg]. split; [|done]. intros <-. apply Hg. split; [congruence|done].
    - split; [|by intros [? _]]. intros ?. split; [done|]. by intros [-> ->]. }
  assert (unregister_route target (h, ips) (key, target) = (drop_ip key target h1, delete key ips)) as ->
    by (unfold unregister_route; by rewrite bool_decide_eq_false_2 by (by intros [])).
  destruct H1 as (H1 & H1i & H1p). destruct (drop_ip_frame key target h1) as [Hr Hi].
  destruct (IH (drop_ip key target h1) (delete key ips) Hnd) as (I1 & I2 & I3 & I4). split_and!.
  - intros k s. rewrite I1, Hr, H1, elem_of_cons. naive_solver.
  - intros k s. rewrite I2, lookup_delete_Some, not_elem_of_cons.
    split; [intros [[? ?] ?]; split_and!; [done|congruence|done]|].
    intros (? & Hne & ?). split_and!; [congruence|done|done].
  - by rewrite I3, Hi.
  - intros ip s Hip. apply I4 in Hip as [Hip Hg]. apply drop_ip_byIP in Hip as [Hip Hg']. rewrite H1p in Hip.
    split; [done|]. intros [-> (k & [[= ->]|Hin]%elem_of_cons & Hk)]; [by apply Hg'|]. apply Hg. eauto.
Qed.

Section Hub.
Context (o : RangeOrder).

Lemma dropped_session w target : hub_ok w → is_Some (streams w !! target) →
  dropped w target (λ _, True) (hub (unregisterSession o target w)).
Proof.
  intros Hok [st Hst]. unfold unregisterSession. assert (Hrem : remote w target = ss_remoteAddr st) by (unfold remote; by rewrite Hst).
  rewrite bool_decide_eq_false_2 by (rewrite Hrem; by eapply ho_named).
  assert (Hall : ∀ k, byRoute (hub w) !! k = Some target → by_addr (hub w) (remote w target) k = Some target).
  { intros k Hk. by apply (ho_route _ Hok). }
  destruct (ipsByAddr (hub w) !! remote w target) as [ips|] eqn:Eips; cycle 1.
  { assert (Hno : ∀ k, byRoute (hub w) !! k ≠ Some target).
    { intros k Hk%Hall. unfold by_addr in Hk. by rewrite Eips in Hk. }
    split.
    - intros k s. split; [|by intros [? _]]. intros Hk. split; [done|]. intros [-> _]. by apply (Hno k).
    - intros a k s. split; [|by intros [? _]]. intros Hk. split; [done|]. intros [-> _].
      by apply (Hno k), (ho_addr _ Hok a).
    - intros ip s Hip. split; [done|]. intros [-> _]. by apply (Hno (routeKey "" ip)), (ho_ip _ Hok). }
  destruct (unregister_routes_fold target (range o ips) (hub w) ips (range_NoDup_fst o ips)) as (I1 & I2 & I3 & I4).
  destruct (foldl _ _ _) as [h ips'] eqn:E. cbn [fst snd] in I1, I2, I3, I4. simpl. unfold const.
  assert (Hin : ∀ k, (k, target) ∈ range o ips ↔ by_addr (hub w) (remote w target) k = Some target).
  { intros k. rewrite elem_of_range. unfold by_addr. by rewrite Eips. }
  split.
  - intros k s. change (byRoute (set_ips (remote w target) ips' h)) with (byRoute h). rewrite I1, Hin.
    split; intros [Hk Hg]; (split; [done|]); intros [-> ?]; apply Hg; [by auto|done].
  - intros a k s. rewrite by_addr_set_ips. case_decide as Ha.
    + subst a. rewrite I2, Hin. unfold by_addr at 2. rewrite Eips. simpl.
      split; intros [Hk Hg]; (split; [done|]).
      * intros [-> _]. apply Hg. unfold by_addr. by rewrite Eips.
      * intros Hb. apply Hg. unfold by_addr in Hb. rewrite Eips in Hb. simpl in Hb. split; [congruence|done].
    + unfold by_addr at 1. rewrite I3. change (ipsByAddr (hub w) !! a ≫= _) with (by_addr (hub w) a k).
      split; [|by intros [? _]]. intros Hb. split; [done|]. intros [-> _]. apply Ha. by destruct (ho_addr _ Hok _ _ _ Hb) as [_ <-].
  - intros ip s Hip. change (byIP (set_ips (remote w target) ips' h)) with (byIP h) in Hip.
    apply I4 in Hip as [Hip Hg]. split; [done|]. intros [-> _]. apply Hg. split; [done|].
    destruct (ho_ip _ Hok _ _ Hip) as [Hr Hrange]. exists (routeKey "" ip). split; [by apply Hin, Hall|by apply routeIP_routeKey].
Qed.

(** A stream may send bytes or be closed without touching the tables. *)
Lemma hub_ok_streams w w' : hub_ok w → hub w' = hub w →
  (ss_remoteAddr <$> streams w') = (ss_remoteAddr <$> streams w) → hub_ok w'.
Proof.
  intros Hok Hh Hst. apply (dropped_ok w 0 (λ _, False) (hub w)); [done| |done|done].
  split; intros; [split; [by intros ?; split; [|intros []]|by intros []]..|split; [done|by intros []]].
Qed.

Lemma remotes_alter f target (m : gmap Z sessionStream) : (∀ s, ss_remoteAddr (f s) = ss_remoteAddr s) →
  ss_remoteAddr <$> alter f target m = ss_remoteAddr <$> m.
Proof.
  intros Hf. apply map_eq. intros s. rewrite !lookup_fmap. destruct (decide (s = target)) as [->|].
  - rewrite lookup_alter_eq. destruct (m !! target); simpl; [by rewrite Hf|done].
  - by rewrite lookup_alter_ne.
Qed.

Lemma hub_ok_unregister w target : hub_ok w → is_Some (streams w !! target) → hub_ok (unregisterSession o target w).
Proof.
  intros Hok Hs. apply (dropped_ok w target (λ _, True) _ _ Hok (dropped_session w target Hok Hs)); [done|].
  unfold unregisterSession. case_bool_decide; [done|]. destruct (ipsByAddr _ !! _); [|done]. by destruct (foldl _ _ _).
Qed.

Lemma streams_unregister w target : streams (unregisterSession o target w) = streams w.
Proof.
  unfold unregisterSession. case_bool_decide; [done|]. destruct (ipsByAddr _ !! _); [|done]. by destruct (foldl _ _ _).
Qed.

(** ** Registration *)
Definition add_route (addr net : string) (ip target : Z) (h : streamHub) : streamHub :=
  let key := routeKey net ip in
  let h := h <| byRoute := <[key := target]> (byRoute h) |> in
  let h := if bool_decide (TrimSpace net = "") then h <| byIP := <[ip := target]> (byIP h) |> else h in
  h <| ipsByAddr := <[addr := <[key := target]> (default ∅ (ipsByAddr h !! addr))]> (ipsByAddr h) |>.

Arguments add_route : simpl never.

Lemma add_route_byRoute addr net ip target h : byRoute (add_route addr net ip target h) = <[routeKey net ip := target]> (byRoute h).
Proof. unfold add_route. by case_bool_decide. Qed.

Lemma add_route_by_addr addr net ip target h addr' k : by_addr (add_route addr net ip target h) addr' k =
  if decide (addr' = addr ∧ k = routeKey net ip) then Some target else by_addr h addr' k.
Proof.
  assert (E : ipsByAddr (add_route addr net ip target h)
    = <[addr := <[routeKey net ip := target]> (default ∅ (ipsByAddr h !! addr))]> (ipsByAddr h))
    by (unfold add_route; by case_bool_decide).
  unfold by_addr. rewrite E. destruct (decide (addr' = addr)) as [->|Ha].
  - rewrite lookup_insert_eq. simpl. destruct (decide (k = routeKey net ip)) as [->|Hk].
    + by rewrite lookup_insert_eq, decide_True.
    + rewrite lookup_insert_ne by congruence. rewrite decide_False by (by intros [_ ?]).
      destruct (ipsByAddr h !! addr); simpl; [done|by rewrite lookup_empty].
  - rewrite lookup_insert_ne by congruence. by rewrite decide_False by (by intros [? _]).
Qed.

Lemma hub_ok_add w net ip target : hub_ok w → is_Some (streams w !! target) → 0 ≤ ip < 2 ^ 32 →
  (byRoute (hub w) !! routeKey net ip = None ∨ byRoute (hub w) !! routeKey net ip = Some target) →
  hub_ok (w <| hub := add_route (remote w target) net ip target (hub w) |>).
Proof.
  intros [Hr Ha Hi Hn] Hs Hip Hfree. set (key := routeKey net ip) in *.
  split; cbn [hub streams]; unfold set, const; cbn [hub streams]; [| | |done].
  - intros k s. change (remote _ s) with (remote w s). rewrite add_route_byRoute, add_route_by_addr, lookup_insert_Some.
    fold key. intros [[<- <-]|[Hk Hb]]; [by rewrite decide_True|]. destruct (Hr _ _ Hb) as [? ?]. split; [done|].
    by rewrite decide_False by (by intros [_ ->]).
  - intros addr k s. change (remote _ s) with (remote w s). rewrite add_route_byRoute, add_route_by_addr. fold key.
    case_decide as Hd; [destruct Hd as [-> ->]; intros [= ->]; by rewrite lookup_insert_eq|].
    intros Hb. destruct (Ha _ _ _ Hb) as [Hb' Hrem]. split; [|done]. rewrite lookup_insert_ne; [done|].
    intros <-. destruct Hfree as [Hf|Hf]; rewrite Hf in Hb'; [done|]. injection Hb' as <-. by apply Hd.
  - intros ip' s. rewrite add_route_byRoute. fold key.
    assert (Hold : byIP (hub w) !! ip' = Some s → TrimSpace net ≠ "" ∨ ip ≠ ip' →
        <[key := target]> (byRoute (hub w)) !! routeKey "" ip' = Some s ∧ 0 ≤ ip' < 2 ^ 32).
    { intros [Hb Hip']%Hi Hne. split; [|done]. rewrite lookup_insert_ne; [done|].
      intros [E ?]%routeKey_inj; [|lia..]. change (TrimSpace "") with "" in E. by destruct Hne. }
    unfold add_route. case_bool_decide as Hblank; simpl; unfold const; [|by auto].
    rewrite lookup_insert_Some. intros [[<- <-]|[Hne Hb]]; [|by auto]. split; [|done].
    assert (routeKey "" ip = key) as -> by (unfold key, routeKey; by rewrite Hblank). apply lookup_insert_eq.
Qed.

(** [registerSession] for an open session at its own address. *)
Lemma register_spec w net ip target st : hub_ok w → streams w !! target = Some st → 0 ≤ ip < 2 ^ 32 → ip ≠ 0 →
  let w' := registerSession (Some (ss_remoteAddr st)) net ip target w in
  hub_ok w' ∧ byRoute (hub w') = <[routeKey net ip := target]> (byRoute (hub w))
  ∧ (ss_remoteAddr <$> streams w') = (ss_remoteAddr <$> streams w).
Proof.
  intros Hok Hst Hip H0. assert (Hrem : remote w target = ss_remoteAddr st) by (unfold remote; by rewrite Hst).
  unfold registerSession. rewrite (proj2 (Z.eqb_neq ip 0)) by done.
  destruct (match byRoute (hub w) !! routeKey net ip with Some _ => _ | None => _ end) as [prev|] eqn:Eprev.
  - destruct (byRoute (hub w) !! routeKey net ip) as [p|] eqn:Ep; [|done]. case_bool_decide as Hpne; [|done].
    injection Eprev as ->. destruct (ho_route _ Hok _ _ Ep) as [Hps _].
    set (h1 := unregisterLocked (remote w prev) (routeKey net ip) prev (hub w)) in *.
    assert (Hd : dropped w prev (λ k, k = routeKey net ip) h1) by (by apply dropped_locked).
    assert (Hok1 : hub_ok (w <| hub := h1 |>)) by (by eapply dropped_ok).
    assert (Hnone : byRoute h1 !! routeKey net ip = None).
    { destruct (byRoute h1 !! routeKey net ip) as [s|] eqn:E; [|done]. apply (dr_route _ _ _ _ Hd) in E as [E Hg].
      exfalso. apply Hg. split; [congruence|done]. }
    pose proof (hub_ok_add (w <| hub := h1 |>) net ip target Hok1 ltac:(by eexists) Hip (or_introl Hnone)) as Hok2.
    change (remote (w <| hub := h1 |>) target) with (remote w target) in Hok2. rewrite Hrem in Hok2. simpl in Hok2.
    match goal with |- hub_ok ?x ∧ _ =>
      change x with (update_stream prev close_stream (w <| hub := add_route (ss_remoteAddr st) net ip target h1 |>)) end.
    split_and!.
    + eapply hub_ok_streams; [exact Hok2|done|]. by apply remotes_alter.
    + trans (byRoute (add_route (ss_remoteAddr st) net ip target h1)); [done|]. rewrite add_route_byRoute.
      apply map_eq. intros k. destruct (decide (k = routeKey net ip)) as [->|Hk]; [by rewrite !lookup_insert_eq|].
      rewrite !lookup_insert_ne by congruence. apply option_eq. intros s. rewrite (dr_route _ _ _ _ Hd).
      split; [by intros [? _]|]. intros ?. split; [done|]. by intros [_ ->].
    + by apply remotes_alter.
  - match goal with |- hub_ok ?x ∧ _ =>
      change x with (w <| hub := add_route (ss_remoteAddr st) net ip target (hub w) |>) end.
    rewrite <-Hrem. split_and!; [|apply add_route_byRoute|done]. apply hub_ok_add; [done|by eexists|done|].
    destruct (byRoute (hub w) !! routeKey net ip) as [p|]; [|by left]. right. case_bool_decide as Hp; [done|].
    f_equal. destruct (decide (p = target)); naive_solver.
Qed.

(** ** Runs of the registry, against one map from routes to sessions

    A run interleaves the operations of every session in any order.  [HDeliver] is
    the unlocked part of a write to a session looked up earlier, so its target is
    arbitrary; [HReply] is a session writing on its own stream. *)
Inductive hub_op :=
  | HOpen (s : Z) (addr : string)
  | HRegister (s : Z) (net : string) (ip : Z)
  | HClose (s : Z)
  | HStale (net : string) (ip s : Z)
  | HDeliver (io : write_outcome) (s : Z) (payload : list byte)
  | HReply (io : write_outcome) (s : Z) (payload : list byte).

(** A new session has a new identity and the address of its peer, which is not
    empty; a registered address is a [uint32]. *)
Definition hub_step (w : Sessions) (op : hub_op) : Sessions :=
  match op with
  | HOpen s addr => if bool_decide (is_Some (streams w !! s) ∨ addr = "") then w
                    else w <| streams := <[s := mkSession addr [] false]> (streams w) |>
  | HRegister s net ip => match streams w !! s with
      | Some st => registerSession (Some (ss_remoteAddr st)) net (u32 ip) s w
      | None => w
      end
  | HClose s => unregisterSession o s (update_stream s close_stream w)
  | HStale net ip s => unregisterStaleRoute net (u32 ip) s w
  | HDeliver io s payload => (deliver o io s payload w).1
  | HReply io s payload => update_stream s (λ st, (writeFramedWriter io payload st).1) w
  end.

Definition hub_run (ops : list hub_op) : Sessions := foldl hub_step (mkSessions newStreamHub ∅) ops.

Definition without (s : Z) (routes : gmap string Z) : gmap string Z := filter (λ e, e.2 ≠ s) routes.

(** The abstract registry: which sessions exist, and which one serves a route. *)
Definition spec_step (sp : gset Z * gmap string Z) (op : hub_op) : gset Z * gmap string Z :=
  let '(opened, routes) := sp in
  match op with
  | HOpen s addr => (if bool_decide (addr = "") then opened else {[s]} ∪ opened, routes)
  | HRegister s net ip =>
      (opened, if bool_decide (s ∈ opened) && negb (u32 ip =? 0) then <[routeKey net (u32 ip) := s]> routes else routes)
  | HClose s => (opened, without s routes)
  | HStale net ip s =>
      (opened, if bool_decide (routes !! routeKey net (u32 ip) = Some s) then delete (routeKey net (u32 ip)) routes else routes)
  | HDeliver (WriteFails _ _) s _ => (opened, without s routes)
  | HDeliver Written _ _ | HReply _ _ _ => sp
  end.

Definition spec_run (ops : list hub_op) : gset Z * gmap string Z := foldl spec_step (∅, ∅) ops.

Definition hub_rel (w : Sessions) (sp : gset Z * gmap string Z) : Prop :=
  hub_ok w ∧ dom (streams w) = sp.1 ∧ byRoute (hub w) = sp.2.

Lemma lookup_without s routes k s' : without s routes !! k = Some s' ↔ routes !! k = Some s' ∧ s' ≠ s.
Proof. unfold without. by rewrite map_lookup_filter_Some. Qed.

Lemma without_absent s routes : (∀ k, routes !! k ≠ Some s) → without s routes = routes.
Proof. intros Hn. apply map_eq. intros k. apply option_eq. intros s'. rewrite lookup_without. naive_solver. Qed.

Lemma dropped_all w target h : dropped w target (λ _, True) h → byRoute h = without target (byRoute (hub w)).
Proof.
  intros Hd. apply map_eq. intros k. apply option_eq. intros s. rewrite (dr_route _ _ _ _ Hd), lookup_without. naive_solver.
Qed.

Lemma remotes_dom (m m' : gmap Z sessionStream) : (ss_remoteAddr <$> m) = (ss_remoteAddr <$> m') → dom m = dom m'.
Proof. intros E. by rewrite <-(dom_fmap_L ss_remoteAddr m), E, dom_fmap_L. Qed.

Lemma route_opened w k s : hub_ok w → byRoute (hub w) !! k = Some s → is_Some (streams w !! s).
Proof. intros Hok Hk. by destruct (ho_route _ Hok _ _ Hk). Qed.

(** Dropping every route of a session, whose stream changes as well. *)
Lemma hub_rel_drop w sp target f : hub_rel w sp → (∀ st, ss_remoteAddr (f st) = ss_remoteAddr st) →
  hub_rel (unregisterSession o target (update_stream target f w)) (sp.1, without target sp.2).
Proof.
  intros (Hok & Hdom & Hr) Hf. set (w1 := update_stream target f w).
  assert (Hok1 : hub_ok w1) by (eapply hub_ok_streams; [exact Hok|done|by apply remotes_alter]).
  assert (Hdom1 : dom (streams w1) = sp.1) by (rewrite <-Hdom; apply remotes_dom; by apply remotes_alter).
  destruct (streams w1 !! target) as [st|] eqn:Est.
  - assert (Hs : is_Some (streams w1 !! target)) by (by eexists).
    split_and!; [by apply hub_ok_unregister|by rewrite streams_unregister|].
    rewrite (dropped_all _ _ _ (dropped_session w1 target Hok1 Hs)). simpl. by rewrite <-Hr.
  - assert (unregisterSession o target w1 = w1) as ->.
    { unfold unregisterSession, remote. by rewrite Est. }
    split_and!; [done|done|]. simpl. rewrite without_absent; [done|]. rewrite <-Hr. intros k Hk.
    destruct (route_opened _ _ _ Hok1 Hk) as [? ?]. congruence.
Qed.

(** [deliver] writes and, on failure, gives the session up. *)
Lemma deliver_eq io s payload w st : streams w !! s = Some st →
  (deliver o io s payload w).1 =
  let w1 := update_stream s (λ st, (writeFramedWriter io payload st).1) w in
  match io with Written => w1 | WriteFails _ _ => update_stream s close_stream (unregisterSession o s w1) end.
Proof.
  intros Hst. unfold deliver. rewrite Hst.
  assert (E : update_stream s (λ st, (writeFramedWriter io payload st).1) w
      = w <| streams := <[s := (writeFramedWriter io payload st).1]> (streams w) |>).
  { unfold update_stream. destruct w as [h m]. unfold set. simpl in *. f_equal. unfold const.
    apply map_eq. intros k. destruct (decide (k = s)) as [->|Hk].
    - by rewrite lookup_alter_eq, lookup_insert_eq, Hst.
    - by rewrite lookup_alter_ne, lookup_insert_ne by congruence. }
  rewrite E. by destruct io.
Qed.

Lemma hub_rel_streams w w' sp : hub_rel w sp → hub w' = hub w →
  (ss_remoteAddr <$> streams w') = (ss_remoteAddr <$> streams w) → hub_rel w' sp.
Proof.
  intros (Hok & Hdom & Hr) Hh Hst. split_and!; [by eapply hub_ok_streams|by rewrite (remotes_dom _ _ Hst)|by rewrite Hh].
Qed.

Lemma write_remote io payload st : ss_remoteAddr (writeFramedWriter io payload st).1 = ss_remoteAddr st.
Proof. by destruct io. Qed.

Lemma hub_rel_open w opened routes s addr : hub_rel w (opened, routes) →
  hub_rel (hub_step w (HOpen s addr)) (spec_step (opened, routes) (HOpen s addr)).
Proof.
  intros (Hok & Hdom & Hr). simpl in Hdom, Hr. simpl. destruct (decide (addr = "")) as [->|Ha].
  { by rewrite !bool_decide_eq_true_2 by auto. }
  rewrite (bool_decide_eq_false_2 (addr = "")) by done. case_bool_decide as Hs.
  { destruct Hs as [Hs|Hs]; [|done]. split_and!; [done| |done]. simpl. apply elem_of_dom in Hs. set_solver. }
  split_and!; [|simpl; unfold const; rewrite dom_insert_L; by rewrite Hdom|done].
  assert (Hnew : streams w !! s = None) by (apply eq_None_not_Some; tauto).
  assert (Hrem : ∀ k s', byRoute (hub w) !! k = Some s' → s' ≠ s ∧ is_Some (streams w !! s')).
  { intros k s' [? E]%(route_opened _ _ _ Hok). split; [|by eexists]. intros ->. congruence. }
  destruct Hok as [Hro Had Hip Hna]. split; simpl; unfold const, remote; simpl; unfold const.
  - intros k s' Hk. destruct (Hrem _ _ Hk) as [Hne ?]. rewrite lookup_insert_ne by congruence. split; [done|by apply Hro].
  - intros addr' k s' Hb. destruct (Had _ _ _ Hb) as [Hk Hra]. destruct (Hrem _ _ Hk) as [Hne ?].
    by rewrite lookup_insert_ne by congruence.
  - done.
  - intros s' st [[<- <-]|[_ Hs']]%lookup_insert_Some; [done|by eapply Hna].
Qed.

Lemma hub_rel_register w opened routes s net ip : hub_rel w (opened, routes) →
  hub_rel (hub_step w (HRegister s net ip)) (spec_step (opened, routes) (HRegister s net ip)).
Proof.
  intros Hrel. pose proof Hrel as (Hok & Hdom & Hr). simpl in Hdom, Hr. cbn [hub_step spec_step]. subst opened routes.
  destruct (streams w !! s) as [st|] eqn:Est; cycle 1.
  { rewrite bool_decide_eq_false_2; [done|]. by apply not_elem_of_dom. }
  rewrite (bool_decide_eq_true_2 (s ∈ _)) by (by apply elem_of_dom; eexists).
  destruct (Z.eqb_spec (u32 ip) 0) as [H0|H0]; cbn [andb negb].
  { unfold registerSession. by rewrite H0. }
  destruct (register_spec w net (u32 ip) s st Hok Est (u32_range ip) H0) as (Hok' & Hr' & Hst').
  split_and!; [done|by rewrite (remotes_dom _ _ Hst')|done].
Qed.

Lemma hub_rel_stale w opened routes net ip s : hub_rel w (opened, routes) →
  hub_rel (hub_step w (HStale net ip s)) (spec_step (opened, routes) (HStale net ip s)).
Proof.
  intros (Hok & Hdom & Hr). simpl in Hdom, Hr. simpl. subst opened routes. unfold unregisterStaleRoute.
  set (key := routeKey net (u32 ip)). case_bool_decide as Hrem.
  { rewrite bool_decide_eq_false_2; [done|]. intros Hk. destruct (route_opened _ _ _ Hok Hk) as [st Hst].
    unfold remote in Hrem. rewrite Hst in Hrem. by eapply ho_named. }
  assert (Hs : is_Some (streams w !! s)). { unfold remote in Hrem. destruct (streams w !! s); [by eexists|done]. }
  pose proof (dropped_locked w key s Hok Hs) as Hd.
  split_and!; [by eapply dropped_ok|done|]. simpl. unfold const.
  apply map_eq. intros k. apply option_eq. intros s'. rewrite (dr_route _ _ _ _ Hd).
  case_bool_decide as Hk; [rewrite lookup_delete_Some|]; naive_solver.
Qed.

Lemma hub_rel_deliver w sp io s payload : hub_rel w sp →
  hub_rel (hub_step w (HDeliver io s payload)) (spec_step sp (HDeliver io s payload)).
Proof.
  destruct sp as [opened routes]. intros Hrel. pose proof Hrel as (Hok & Hdom & Hr). simpl in Hdom, Hr. simpl.
  destruct (streams w !! s) as [st|] eqn:Est; cycle 1.
  { unfold deliver. rewrite Est. simpl. destruct io; [done|]. rewrite without_absent; [done|]. rewrite <-Hr. intros k Hk.
    destruct (route_opened _ _ _ Hok Hk) as [? ?]. congruence. }
  rewrite (deliver_eq _ _ _ _ _ Est). destruct io as [|n e]; cbv zeta.
  - apply (hub_rel_streams w); [done|done|]. apply remotes_alter. apply write_remote.
  - eapply hub_rel_streams; [apply (hub_rel_drop w (opened, routes)); [done|apply (write_remote (WriteFails n e))]|done|].
    by apply remotes_alter.
Qed.

Lemma hub_step_rel w sp op : hub_rel w sp → hub_rel (hub_step w op) (spec_step sp op).
Proof.
  destruct sp as [opened routes]. intros Hrel.
  destruct op as [s addr|s net ip|s|net ip s|io s payload|io s payload].
  - by apply hub_rel_open.
  - by apply hub_rel_register.
  - by apply (hub_rel_drop w (opened, routes)).
  - by apply hub_rel_stale.
  - by apply hub_rel_deliver.
  - apply (hub_rel_streams w); [done|done|]. apply remotes_alter. apply write_remote.
Qed.

Lemma hub_run_rel ops : hub_rel (hub_run ops) (spec_run ops).
Proof.
  unfold hub_run, spec_run. assert (H0 : hub_rel (mkSessions newStreamHub ∅) (∅, ∅)) by (split_and!; [apply hub_ok_init|done|done]).
  revert H0. generalize (mkSessions newStreamHub ∅), (∅ : gset Z, ∅ : gmap string Z).
  induction ops as [|op ops IH]; intros w sp Hrel; [done|]. apply IH. by apply hub_step_rel.
Qed.

(** Routes of the abstract registry come from registrations. *)
Lemma spec_run_registered ops k s : (spec_run ops).2 !! k = Some s →
  ∃ net ip, HRegister s net ip ∈ ops ∧ k = routeKey net (u32 ip).
Proof.
  unfold spec_run. revert k s. induction ops as [|op ops IH] using rev_ind; intros k s; [done|].
  rewrite foldl_snoc. setoid_rewrite elem_of_app. destruct (foldl spec_step (∅, ∅) ops) as [opened routes]. simpl in IH.
  assert (Hold : routes !! k = Some s →
    ∃ net ip, (HRegister s net ip ∈ ops ∨ HRegister s net ip ∈ [op]) ∧ k = routeKey net (u32 ip)) by naive_solver.
  destruct op as [s' addr|s' net ip|s'|net ip s'|io s' payload|io s' payload]; simpl.
  - done.
  - destruct (_ && _); [|done]. intros [[<- <-]|[_ ?]]%lookup_insert_Some; [|by auto].
    exists net, ip. split; [right; by apply list_elem_of_singleton|done].
  - rewrite lookup_without. naive_solver.
  - case_bool_decide; [rewrite lookup_delete_Some|]; naive_solver.
  - destruct io; simpl; [done|]. rewrite lookup_without. naive_solver.
  - done.
Qed.

(** What a write does, by the tables. *)
Definition route_target (net : string) (ip : Z) (h : streamHub) : option Z :=
  if bool_decide (TrimSpace net = "") then byIP h !! ip else byRoute h !! routeKey net ip.

Lemma writeToRoute_eq io net ip payload w : writeToRoute o io net ip payload w =
  match route_target net ip (hub w) with
  | None => (w, Some errStreamUnavailable)
  | Some target => deliver o io target payload w
  end.
Proof. unfold writeToRoute, route_target, writeToIP. by case_bool_decide. Qed.

Lemma route_target_route w net ip s : hub_ok w → route_target net ip (hub w) = Some s →
  byRoute (hub w) !! routeKey net ip = Some s.
Proof.
  intros Hok. unfold route_target. case_bool_decide as Hb; [|done]. intros [Hr _]%(ho_ip _ Hok).
  unfold routeKey in *. rewrite Hb. done.
Qed.


Lemma sent_update w s f s' : ss_sent <$> streams (update_stream s f w) !! s' =
  if decide (s' = s) then (ss_sent ∘ f) <$> streams w !! s else ss_sent <$> streams w !! s'.
Proof.
  simpl. unfold const. case_decide as Hs; [subst s'; rewrite lookup_alter_eq|by rewrite lookup_alter_ne by congruence].
  by destruct (streams w !! s).
Qed.

Lemma frame_reaches_registered ops io net ip payload s : 0 ≤ ip < 2 ^ 32 →
  let w := hub_run ops in
  let w' := (writeToRoute o io net ip payload w).1 in
  ss_sent <$> streams w' !! s ≠ ss_sent <$> streams w !! s →
  (∃ net' ip', HRegister s net' ip' ∈ ops ∧ TrimSpace net' = TrimSpace net ∧ u32 ip' = ip)
  ∧ ∃ n, ss_sent <$> streams w' !! s = (λ st, ss_sent st ++ take n (frame payload)) <$> streams w !! s.
Proof.
  intros Hip w w' Hne. destruct (hub_run_rel ops) as (Hok & _ & Hr). fold w in Hok, Hr.
  unfold w' in *. clear w'. rewrite writeToRoute_eq in *. destruct (route_target net ip (hub w)) as [t|] eqn:Et; [|done].
  apply (route_target_route _ _ _ _ Hok) in Et. destruct (route_opened _ _ _ Hok Et) as [st Hst].
  rewrite (deliver_eq _ _ _ _ _ Hst) in *.
  set (w1 := update_stream t _ w) in *.
  assert (E : ss_sent <$> streams (match io with Written => w1 | WriteFails _ _ => update_stream t close_stream (unregisterSession o t w1) end) !! s
      = ss_sent <$> streams w1 !! s).
  { destruct io; [done|]. rewrite sent_update, streams_unregister. case_decide as Hs; [subst s|done].
    by destruct (streams w1 !! t). }
  cbv zeta in Hne |- *. rewrite E in *. unfold w1 in *. rewrite sent_update in *. case_decide as Hs; [subst t|done].
  split.
  - rewrite Hr in Et. apply spec_run_registered in Et as (net' & ip' & Hin & Hk). exists net', ip'.
    apply routeKey_inj in Hk as [? ?]; [done|lia|apply u32_range].
  - rewrite Hst. simpl. destruct io as [|n e]; [|by exists n]. exists (length (frame payload)). simpl. by rewrite take_ge.
Qed.

(** Whatever happened before and however much of the frame the transport
    takes, a frame written for an address of a network adds bytes only to the stream
    of a session that registered that address in that same network, and what it adds
    there is a prefix of the frame. *)
Theorem frames_stay_in_network ops io net ip payload s : 0 ≤ ip < 2 ^ 32 →
  let w := hub_run ops in
  let w' := (writeToRoute o io net ip payload w).1 in
  ss_sent <$> streams w' !! s ≠ ss_sent <$> streams w !! s →
  (∃ net' ip', HRegister s net' ip' ∈ ops ∧ TrimSpace net' = TrimSpace net ∧ u32 ip' = ip)
  ∧ ∃ n, ss_sent <$> streams w' !! s = (λ st, ss_sent st ++ take n (frame payload)) <$> streams w !! s.
Proof. apply frame_reaches_registered. Qed.
End Hub.

(** Two sessions of one network and one of another, at the same virtual address. *)
Definition sample_ops : list hub_op :=
  [HOpen 1 "198.51.100.1:9"; HOpen 2 "198.51.100.2:9"; HOpen 3 "198.51.100.3:9";
   HRegister 1 "uA|lab" 7; HRegister 3 "uB|lab" 7; HRegister 2 " uA|lab " 7; HReply Written 3 [x01];
   HDeliver (WriteFails 2 "reset") 1 [x01; x02]].

Definition sample_w : Sessions := hub_run ascending sample_ops.


Lemma frames_stay_in_network_witness :
  (∃ net' ip', HRegister 2 net' ip' ∈ sample_ops ∧ TrimSpace net' = TrimSpace "uA|lab" ∧ u32 ip' = 7)
  ∧ ∃ n, ss_sent <$> streams (writeToRoute ascending (WriteFails 3 "reset") "uA|lab" 7 [x2a] sample_w).1 !! 2
    = (λ st, ss_sent st ++ take n (frame [x2a])) <$> streams sample_w !! 2.
Proof. apply (frames_stay_in_network ascending sample_ops (WriteFails 3 "reset") "uA|lab" 7 [x2a] 2); [lia|by vm_compute]. Defined.

(** The session of the other network is not disturbed, the replaced one is closed. *)
Example sample_w_state :
  (ss_sent <$> streams sample_w !! 3) = Some (frame [x01]) ∧ (ss_closed <$> streams sample_w !! 1) = Some true
  ∧ byRoute (hub sample_w) !! routeKey "uB|lab" 7 = Some 3.
Proof. by vm_compute. Qed.
