(* ===== verification/SessionWriter.v ===== *)
(** * Writing to a session from several goroutines: [sessionStream.Write] and
    [writeFramedWriter] of [handlers/quic.go], instruction by instruction.

    The answers of a session, the pushes of other sessions and the requests of the
    administration all end in [Write] on the same stream.  Each goroutine takes the
    mutex, writes the four bytes of the length and then the packet, in pieces of any
    size, and gives the mutex back when it returns, with an error or without.
    Everywhere else a write is one call of [writeFramedWriter]: the refinement below
    says that this is all that can be seen of the interleavings. *)
From S2P Require Import Prelude GoString NetIP NetParse StreamHub.

(** ** Goroutines in [Write] *)

(** Before [s.mu.Lock()], writing the header or the payload with what is left of it, or
    back with the error. *)
Inductive phase := Locking | Header (rest : list byte) | Payload (rest : list byte) | Returned (err : option string).
#[export] Instance phase_eq_dec : EqDecision phase.
Proof. solve_decision. Defined.
Record goroutine := mkGoroutine { go_payload : list byte; go_phase : phase }.

Record writing := mkWriting {
  mu : option nat;                (** who holds the mutex *)
  raw : sessionStream;
  goroutines : list goroutine
}.

Definition length_header (payload : list byte) : list byte := be_put 4 (Z.of_nat (length payload)).

Definition at_phase (w : writing) (i : nat) (payload : list byte) (p : phase) : Prop := goroutines w !! i = Some (mkGoroutine payload p).
Definition go_to (i : nat) (payload : list byte) (p : phase) (w : writing) : writing :=
  w <| goroutines := <[i := mkGoroutine payload p]> (goroutines w) |>.
Definition raw_write (bytes : list byte) (w : writing) : writing :=
  w <| raw := (raw w) <| ss_sent := ss_sent (raw w) ++ bytes |> |>.

Inductive write_step : writing → writing → Prop :=
| step_lock w i payload : at_phase w i payload Locking → mu w = None →
    write_step w (go_to i payload (Header (length_header payload)) w <| mu := Some i |>)
| step_header w i payload piece rest : at_phase w i payload (Header (piece ++ rest)) → piece ≠ [] →
    write_step w (raw_write piece (go_to i payload (Header rest) w))
| step_header_done w i payload : at_phase w i payload (Header []) →
    write_step w (go_to i payload (Payload payload) w)
| step_payload w i payload piece rest : at_phase w i payload (Payload (piece ++ rest)) → piece ≠ [] →
    write_step w (raw_write piece (go_to i payload (Payload rest) w))
| step_payload_done w i payload : at_phase w i payload (Payload []) →
    write_step w (go_to i payload (Returned None) w <| mu := None |>)
| step_header_fails w i payload rest e : at_phase w i payload (Header rest) →
    write_step w (go_to i payload (Returned (Some e)) w <| mu := None |>)
| step_payload_fails w i payload rest e : at_phase w i payload (Payload rest) →
    write_step w (go_to i payload (Returned (Some e)) w <| mu := None |>).

Definition calls (s : sessionStream) (payloads : list (list byte)) : writing :=
  mkWriting None s ((λ p, mkGoroutine p Locking) <$> payloads).

(** ** The same as calls one after the other *)

(** Who wrote, and how it went. *)
Definition history := list (nat * write_outcome).

Definition serial (payloads : list (list byte)) (h : history) (s : sessionStream) : sessionStream :=
  foldl (λ s entry, (writeFramedWriter entry.2 (default [] (payloads !! entry.1)) s).1) s h.

Definition outcome_error (io : write_outcome) : option string := match io with Written => None | WriteFails _ e => Some e end.

(** What is left to write of a frame by a goroutine in [Write]. *)
Definition unwritten (payload : list byte) (p : phase) : list byte :=
  match p with Locking => frame payload | Header rest => rest ++ payload | Payload rest => rest | Returned _ => [] end.

Definition inside (p : phase) : Prop := match p with Header _ | Payload _ => True | _ => False end.

(** The history of a state: the goroutines that have returned, the stream they left
    and what the holder of the mutex has added. *)
Record explains (s0 : sessionStream) (payloads : list (list byte)) (h : history) (w : writing) : Prop := {
  ex_payloads : go_payload <$> goroutines w = payloads;
  ex_once : NoDup h.*1;
  ex_returned : ∀ i g, goroutines w !! i = Some g →
    (∃ err, go_phase g = Returned err) ↔ i ∈ h.*1;
  ex_errors : ∀ i io, (i, io) ∈ h → ∃ g, goroutines w !! i = Some g ∧ go_phase g = Returned (outcome_error io);
  ex_inside : ∀ i g, goroutines w !! i = Some g → inside (go_phase g) → mu w = Some i;
  ex_stream : match mu w with
    | None => raw w = serial payloads h s0
    | Some i => ∃ g written, goroutines w !! i = Some g ∧ inside (go_phase g)
        ∧ frame (go_payload g) = written ++ unwritten (go_payload g) (go_phase g)
        ∧ raw w = (serial payloads h s0) <| ss_sent := ss_sent (serial payloads h s0) ++ written |>
    end
}.

Lemma calls_explained s payloads : explains s payloads [] (calls s payloads).
Proof.
  assert (Hlock : ∀ i g, goroutines (calls s payloads) !! i = Some g → go_phase g = Locking).
  { intros i g Hg. cbn in Hg. rewrite list_lookup_fmap in Hg. destruct (payloads !! i); by simplify_eq/=. }
  split.
  - cbn. rewrite <-list_fmap_compose. apply list_fmap_id.
  - constructor.
  - intros i g Hg. rewrite (Hlock i g Hg). split; [by intros [? ?]|by intros ?%not_elem_of_nil].
  - by intros ? ? ?%not_elem_of_nil.
  - intros i g Hg Hin. by rewrite (Hlock i g Hg) in Hin.
  - done.
Qed.

Section Moves.
Context (s0 : sessionStream) (payloads : list (list byte)) (h : history) (w : writing) (Hex : explains s0 payloads h w).
Context (i : nat) (payload : list byte) (p : phase) (Hat : at_phase w i payload p).

Lemma go_to_lookup q j g : goroutines (go_to i payload q w) !! j = Some g ↔
  (j = i ∧ g = mkGoroutine payload q) ∨ (j ≠ i ∧ goroutines w !! j = Some g).
Proof.
  change (goroutines (go_to i payload q w)) with (<[i := mkGoroutine payload q]> (goroutines w)).
  rewrite list_lookup_insert_Some. apply lookup_lt_Some in Hat. naive_solver.
Qed.

Lemma go_to_payloads q : go_payload <$> goroutines (go_to i payload q w) = payloads.
Proof.
  change (goroutines (go_to i payload q w)) with (<[i := mkGoroutine payload q]> (goroutines w)).
  rewrite list_fmap_insert, (ex_payloads _ _ _ _ Hex). apply list_insert_id.
  rewrite <-(ex_payloads _ _ _ _ Hex), list_lookup_fmap. unfold at_phase in Hat. by rewrite Hat.
Qed.

Lemma payload_known : payloads !! i = Some payload.
Proof. rewrite <-(ex_payloads _ _ _ _ Hex), list_lookup_fmap. unfold at_phase in Hat. by rewrite Hat. Qed.

(** A goroutine that has not returned is not in the history. *)
Lemma fresh : (∀ err, p ≠ Returned err) → i ∉ h.*1.
Proof. intros Hp Hin. by apply (ex_returned _ _ _ _ Hex i _ Hat) in Hin as [err Herr]; eapply Hp. Qed.

(** The holder of the mutex and what it has written. *)
Lemma holder : inside p → mu w = Some i ∧ ∃ written, frame payload = written ++ unwritten payload p
  ∧ raw w = (serial payloads h s0) <| ss_sent := ss_sent (serial payloads h s0) ++ written |>.
Proof.
  intros Hp. pose proof (ex_inside _ _ _ _ Hex i _ Hat Hp) as Hmu. split; [done|].
  pose proof (ex_stream _ _ _ _ Hex) as Hs. rewrite Hmu in Hs. destruct Hs as (g & written & Hg & _ & Hf & Hraw).
  unfold at_phase in Hat. rewrite Hat in Hg. injection Hg as <-. by exists written.
Qed.

(** What changes only this goroutine, which has not returned before or after. *)
Lemma history_kept q m r : (∀ err, p ≠ Returned err) → (∀ err, q ≠ Returned err) →
  let w' := go_to i payload q w <| mu := m |> <| raw := r |> in
  (∀ j g, goroutines w' !! j = Some g → (∃ err, go_phase g = Returned err) ↔ j ∈ h.*1)
  ∧ (∀ j io, (j, io) ∈ h → ∃ g, goroutines w' !! j = Some g ∧ go_phase g = Returned (outcome_error io)).
Proof.
  intros Hp Hq w'. pose proof (fresh Hp) as Hfresh. split.
  - intros j g [[-> ->]|[_ Hj]]%go_to_lookup; [|by apply (ex_returned _ _ _ _ Hex)].
    split; [intros [err Herr]; by destruct (Hq err)|done].
  - intros j io Hin. destruct (ex_errors _ _ _ _ Hex j io Hin) as (g & Hg & Herr). exists g. split; [|done].
    apply go_to_lookup. right. split; [|done]. intros ->. apply Hfresh. apply list_elem_of_fmap. by exists (i, io).
Qed.

Lemma explained_lock : p = Locking → mu w = None →
  explains s0 payloads h (go_to i payload (Header (length_header payload)) w <| mu := Some i |>).
Proof.
  intros Hp Hmu. destruct (history_kept (Header (length_header payload)) (Some i) (raw w)) as [Hr He]; [by rewrite Hp|done|]. split.
  - apply go_to_payloads.
  - apply Hex.
  - exact Hr.
  - exact He.
  - intros j g [[-> ->]|[_ Hj]]%go_to_lookup Hin; [done|]. pose proof (ex_inside _ _ _ _ Hex j g Hj Hin) as H'. by rewrite Hmu in H'.
  - eexists _, []. split; [apply go_to_lookup; by left|]. split; [done|]. split; [done|]. cbn.
    pose proof (ex_stream _ _ _ _ Hex) as Hs. rewrite Hmu in Hs. rewrite Hs, app_nil_r. by destruct (serial payloads h s0).
Qed.

Lemma explained_advance q piece : inside p → inside q → unwritten payload p = piece ++ unwritten payload q →
  explains s0 payloads h (raw_write piece (go_to i payload q w)).
Proof.
  intros Hp Hq Hun. destruct (holder Hp) as (Hmu & written & Hf & Hraw).
  destruct (history_kept q (mu w) ((raw w) <| ss_sent := ss_sent (raw w) ++ piece |>)) as [Hr He];
    [by intros ? ->|by intros ? ->|]. split.
  - apply go_to_payloads.
  - apply Hex.
  - exact Hr.
  - exact He.
  - intros j g [[-> ->]|[_ Hj]]%go_to_lookup Hin; [done|]. by apply (ex_inside _ _ _ _ Hex j g Hj).
  - cbn. rewrite Hmu. eexists _, (written ++ piece). split; [apply go_to_lookup; by left|]. split; [done|].
    split; [cbn [go_payload go_phase]; by rewrite <-app_assoc, <-Hun|]. rewrite Hraw. cbn. by rewrite app_assoc.
Qed.

Lemma explained_return io : inside p →
  (∀ written, frame payload = written ++ unwritten payload p →
     io = Written ∧ unwritten payload p = [] ∨ ∃ e, io = WriteFails (length written) e) →
  explains s0 payloads (h ++ [(i, io)]) (go_to i payload (Returned (outcome_error io)) w <| mu := None |>).
Proof.
  intros Hp Hio. destruct (holder Hp) as (Hmu & written & Hf & Hraw). assert (Hnr : ∀ err, p ≠ Returned err) by (by intros ? ->).
  pose proof (fresh Hnr) as Hfresh. split.
  - apply go_to_payloads.
  - rewrite fmap_app. apply NoDup_app. split_and!; [apply Hex| |apply NoDup_singleton]. intros j Hj ->%list_elem_of_singleton. done.
  - intros j g. rewrite fmap_app, elem_of_app. cbn [fmap list_fmap fst]. rewrite list_elem_of_singleton.
    intros [[-> ->]|[Hne Hj]]%go_to_lookup; [split; [by right|by eexists]|]. rewrite (ex_returned _ _ _ _ Hex j g Hj). cbn. naive_solver.
  - intros j o. rewrite elem_of_app, list_elem_of_singleton. intros [Hin|[= -> ->]]; [|eexists; split; [apply go_to_lookup; by left|done]].
    destruct (ex_errors _ _ _ _ Hex j o Hin) as (g & Hg & Herr). exists g. split; [|done]. apply go_to_lookup. right. split; [|done].
    intros ->. apply Hfresh. apply list_elem_of_fmap. by exists (i, o).
  - intros j g [[-> ->]|[Hne Hj]]%go_to_lookup Hin; [done|]. pose proof (ex_inside _ _ _ _ Hex j g Hj Hin) as H'. congruence.
  - change (raw w = serial payloads (h ++ [(i, io)]) s0). unfold serial. rewrite foldl_app. fold (serial payloads h s0). cbn [foldl fst snd]. rewrite payload_known, Hraw. change (default [] (Some payload)) with payload.
    destruct (Hio written Hf) as [[-> Hun]|[e ->]]; cbn [writeFramedWriter fst]; rewrite Hf; [by rewrite Hun, app_nil_r|by rewrite take_app_length].
Qed.
End Moves.

Lemma raw_write_nil w : raw_write [] w = w.
Proof. destruct w as [m [a b c] g]. unfold raw_write. cbn. by rewrite app_nil_r. Qed.

Lemma step_explained s0 payloads h w w' : explains s0 payloads h w → write_step w w' →
  ∃ h', explains s0 payloads (h ++ h') w'.
Proof.
  intros Hex Hstep. destruct Hstep as [w i payload Hat Hmu|w i payload piece rest Hat _|w i payload Hat|w i payload piece rest Hat _
    |w i payload Hat|w i payload rest e Hat|w i payload rest e Hat].
  - exists []. rewrite app_nil_r. by eapply explained_lock.
  - exists []. rewrite app_nil_r. eapply explained_advance; [done|done|done|done|]. cbn. by rewrite app_assoc.
  - exists []. rewrite app_nil_r. pose proof (explained_advance _ _ _ _ Hex _ _ _ Hat (Payload payload) [] I I eq_refl) as H.
    rewrite raw_write_nil in H. exact H.
  - exists []. rewrite app_nil_r. by eapply explained_advance.
  - exists [(i, Written)]. eapply (explained_return _ _ _ _ Hex _ _ _ Hat Written); [done|]. by left.
  - destruct (holder _ _ _ _ Hex _ _ _ Hat I) as (_ & written & Hf & _). exists [(i, WriteFails (length written) e)].
    eapply (explained_return _ _ _ _ Hex _ _ _ Hat (WriteFails (length written) e)); [done|]. intros written' Hf'. right.
    exists e. f_equal. rewrite Hf in Hf'. by apply app_inv_tail in Hf' as ->.
  - destruct (holder _ _ _ _ Hex _ _ _ Hat I) as (_ & written & Hf & _). exists [(i, WriteFails (length written) e)].
    eapply (explained_return _ _ _ _ Hex _ _ _ Hat (WriteFails (length written) e)); [done|]. intros written' Hf'. right.
    exists e. f_equal. rewrite Hf in Hf'. by apply app_inv_tail in Hf' as ->.
Qed.

Lemma run_explained s0 payloads w : rtc write_step (calls s0 payloads) w → ∃ h, explains s0 payloads h w.
Proof.
  revert w. apply rtc_ind_r; [exists []; apply calls_explained|].
  intros w w' _ Hstep [h Hex]. destruct (step_explained _ _ _ _ _ Hex Hstep) as [h' Hex']. by eexists.
Qed.

(** ** Every call returns *)

(** How many steps a goroutine can take at most. *)
Definition steps_left (g : goroutine) : nat :=
  match go_phase g with
  | Locking => length (frame (go_payload g)) + 3
  | Header rest => length rest + length (go_payload g) + 2
  | Payload rest => length rest + 1
  | Returned _ => 0
  end.
Definition total_left (w : writing) : nat := sum_list_with steps_left (goroutines w).

Lemma total_moved w i g g' : goroutines w !! i = Some g → (steps_left g' < steps_left g)%nat →
  (sum_list_with steps_left (<[i := g']> (goroutines w)) < total_left w)%nat.
Proof.
  unfold total_left. generalize (goroutines w) as l. intros l. revert i. induction l as [|x l IH]; intros [|i] Hi Hlt; simplify_eq/=; [lia|].
  specialize (IH i Hi Hlt). lia.
Qed.

Lemma step_decreases w w' : write_step w w' → (total_left w' < total_left w)%nat.
Proof.
  destruct 1 as [w i payload Hat _|w i payload piece rest Hat Hne|w i payload Hat|w i payload piece rest Hat Hne
    |w i payload Hat|w i payload rest e Hat|w i payload rest e Hat]; refine (total_moved w i _ _ Hat _); unfold steps_left; cbn [go_phase go_payload];
    rewrite ?length_app; try (destruct piece; [done|simpl]); try lia.
  unfold length_header, frame. rewrite length_app. lia.
Qed.

Lemma run_bounded k w w' : nsteps write_step k w w' → (k + total_left w' ≤ total_left w)%nat.
Proof. induction 1 as [w|k w w1 w' Hstep _ IH]; [lia|]. apply step_decreases in Hstep. lia. Qed.

Lemma holder_moves w i g : goroutines w !! i = Some g → inside (go_phase g) → ∃ w', write_step w w'.
Proof.
  intros Hg Hin. destruct g as [payload [|rest|rest|]]; try done; destruct rest as [|b rest]; eexists.
  - by eapply step_header_done.
  - eapply (step_header _ _ _ (b :: rest) []); [by rewrite app_nil_r|done].
  - by eapply step_payload_done.
  - eapply (step_payload _ _ _ (b :: rest) []); [by rewrite app_nil_r|done].
Qed.

Definition has_returned (g : goroutine) : Prop := ∃ err, go_phase g = Returned err.

Lemma progress s0 payloads h w : explains s0 payloads h w → (∃ w', write_step w w') ∨ (mu w = None ∧ Forall has_returned (goroutines w)).
Proof.
  intros Hex. destruct (mu w) as [i|] eqn:Hmu.
  - pose proof (ex_stream _ _ _ _ Hex) as Hs. rewrite Hmu in Hs. destruct Hs as (g & _ & Hg & Hin & _). left. by eapply holder_moves.
  - destruct (decide (Exists (λ g, go_phase g = Locking) (goroutines w))) as [HE|HE].
    + left. apply Exists_exists in HE as ([payload p] & [i Hi]%list_elem_of_lookup & Hp). simpl in Hp. subst p. eexists. by apply step_lock.
    + right. split; [done|]. apply Forall_forall. intros g [i Hi]%list_elem_of_lookup. destruct (go_phase g) as [|rest|rest|err] eqn:Hp.
      * destruct HE. apply Exists_exists. exists g. split; [by eapply list_elem_of_lookup_2|done].
      * pose proof (ex_inside _ _ _ _ Hex i g Hi) as H'. rewrite Hp in H'. by specialize (H' I); rewrite Hmu in H'.
      * pose proof (ex_inside _ _ _ _ Hex i g Hi) as H'. rewrite Hp in H'. by specialize (H' I); rewrite Hmu in H'.
      * by exists err.
Qed.

(** When all have returned, the history names each of them once. *)
Lemma history_complete s0 payloads h w : explains s0 payloads h w → Forall has_returned (goroutines w) → h.*1 ≡ₚ seq 0 (length payloads).
Proof.
  intros Hex Hall. assert (Hlen : length (goroutines w) = length payloads) by (by rewrite <-(ex_payloads _ _ _ _ Hex), length_fmap).
  apply NoDup_Permutation; [apply Hex|apply NoDup_seq|]. intros i. rewrite elem_of_seq. split.
  - intros ([? io] & -> & Hin)%list_elem_of_fmap. destruct (ex_errors _ _ _ _ Hex _ _ Hin) as (g & Hg%lookup_lt_Some & _). cbn. lia.
  - intros [_ Hi]. destruct (lookup_lt_is_Some_2 (goroutines w) i) as [g Hg]; [lia|]. apply (ex_returned _ _ _ _ Hex i g Hg).
    rewrite Forall_forall in Hall. by eapply Hall, list_elem_of_lookup_2.
Qed.

Lemma serial_frames payloads h s : Forall (λ e, e.2 = Written) h →
  ss_sent (serial payloads h s) = ss_sent s ++ concat ((λ i, frame (default [] (payloads !! i))) <$> h.*1).
Proof.
  intros Hw. revert s. induction Hw as [|[i io] h Hio _ IH]; intros s; [by rewrite app_nil_r|]. simpl in Hio. subst io.
  change (serial payloads ((i, Written) :: h) s) with (serial payloads h (writeFramedWriter Written (default [] (payloads !! i)) s).1).
  rewrite IH. cbn [writeFramedWriter fst fmap list_fmap concat].
  change (ss_sent (s <| ss_sent := ?x |>)) with x. by rewrite <-app_assoc.
Qed.

Lemma by_index (payloads : list (list byte)) : ((λ i, default [] (payloads !! i)) <$> seq 0 (length payloads)) = payloads.
Proof.
  apply list_eq. intros i. rewrite list_lookup_fmap. destruct (decide (i < length payloads)%nat) as [Hi|Hi].
  - rewrite lookup_seq_lt by done. cbn. by destruct (lookup_lt_is_Some_2 payloads i Hi) as [x ->].
  - rewrite lookup_seq_ge by lia. symmetry. apply lookup_ge_None. lia.
Qed.

(** C17 (refinement). Whatever goroutines write to one session and however their steps
    are interleaved: every call returns after a bounded number of steps, none waits for
    ever, and when all have returned the stream is the one that calls one after the
    other would have left, in some order, with the errors they returned.  If none
    failed, what was sent is the frames of all payloads, whole and one after the other. *)
Theorem writes_serialise s0 payloads w : rtc write_step (calls s0 payloads) w →
  (∀ k w', nsteps write_step k w w' → (k ≤ total_left w)%nat)
  ∧ ((∃ w', write_step w w')
     ∨ ∃ h, h.*1 ≡ₚ seq 0 (length payloads) ∧ raw w = serial payloads h s0
         ∧ (∀ i io, (i, io) ∈ h → at_phase w i (default [] (payloads !! i)) (Returned (outcome_error io)))
         ∧ (Forall (λ e, e.2 = Written) h → ∃ order, order ≡ₚ payloads ∧ ss_sent (raw w) = ss_sent s0 ++ concat (frame <$> order))).
Proof.
  intros Hrun. destruct (run_explained _ _ _ Hrun) as [h Hex]. split; [intros k w' Hk%run_bounded; lia|].
  destruct (progress _ _ _ _ Hex) as [?|[Hmu Hall]]; [by left|right]. pose proof (history_complete _ _ _ _ Hex Hall) as Hperm.
  pose proof (ex_stream _ _ _ _ Hex) as Hs. rewrite Hmu in Hs. exists h. split_and!; [done|done| |].
  - intros i io Hin. destruct (ex_errors _ _ _ _ Hex i io Hin) as ([payload p] & Hg & Hp). simpl in Hp. subst p.
    by rewrite (payload_known _ _ _ _ Hex i payload _ Hg).
  - intros Hw. exists ((λ i, default [] (payloads !! i)) <$> h.*1). split; [by rewrite Hperm, by_index|].
    rewrite Hs, serial_frames by done. do 2 f_equal. exact (list_fmap_compose (λ i, default [] (payloads !! i)) frame _).
Qed.

(** Two goroutines: the second waits for the mutex while the first is in its header. *)
Module SampleWriter.
Definition one : list byte := [x01; x02].
Definition two : list byte := [x03].
Definition stream : sessionStream := mkSession "a" [] false.
Definition begun : writing :=
  mkWriting (Some 0%nat) (stream <| ss_sent := [x00; x00] |>) [mkGoroutine one (Header [x00; x02]); mkGoroutine two Locking].
Lemma begins : rtc write_step (calls stream [one; two]) begun.
Proof.
  eapply rtc_l; [apply (step_lock (calls stream [one; two]) 0 one); reflexivity|]. apply rtc_once.
  exact (step_header (mkWriting (Some 0%nat) stream [mkGoroutine one (Header [x00; x00; x00; x02]); mkGoroutine two Locking])
    0 one [x00; x00] [x00; x02] eq_refl ltac:(done)).
Qed.
End SampleWriter.

Lemma writes_serialise_witness :
  rtc write_step (calls SampleWriter.stream [SampleWriter.one; SampleWriter.two]) SampleWriter.begun
  ∧ ∀ k w, nsteps write_step k SampleWriter.begun w → (k ≤ 14)%nat.
Proof.
  split; [exact SampleWriter.begins|].
  exact (proj1 (writes_serialise SampleWriter.stream [SampleWriter.one; SampleWriter.two] SampleWriter.begun SampleWriter.begins)).
Defined.
