(* ===== verification/Session.v ===== *)
(** * A control session: the rest of [handlers/quic.go].

    [serveControlSession] reads from the transport, cuts the bytes into frames and
    handles one packet per frame, calling the controller and the registry of
    streams.  [Server] is what the sessions share; [Conn] the local variables of one
    session.  Handling one packet is one step: the readings of clocks, the random
    numbers, the outcomes of saving and of writing during it are a [StepEnv], and a
    session takes the environments of its successive frames from a sequence. *)
From S2P Require Import Prelude GoString GoText NetIP NetParse Packet Proto ExpireMap Network Config UserManager.
From S2P Require Import Gateway Punch Dns ExitNode DeviceList DebugStore Debug Controller DeviceAuth Registration.
From S2P Require Import StreamHub.

(** The protobuf codecs of every message a session exchanges. *)
Class Codecs := {
  cd_handshake_request :: ProtoMessage HandshakeRequest;
  cd_handshake_response :: ProtoMessage HandshakeResponse;
  cd_registration_request :: ProtoMessage RegistrationRequest;
  cd_registration_response :: ProtoMessage RegistrationResponse;
  cd_rename_request :: ProtoMessage DeviceRenameRequest;
  cd_rename_response :: ProtoMessage DeviceRenameResponse;
  cd_device_list :: ProtoMessage DeviceList;
  cd_refresh_request :: ProtoMessage RefreshGatewayGrantRequest;
  cd_refresh_response :: ProtoMessage RefreshGatewayGrantResponse;
  cd_claims :: ProtoMessage GatewayTicketClaims;
  cd_ticket :: ProtoMessage SignedGatewayTicket;
  cd_report_request :: ProtoMessage GatewayReportRequest;
  cd_report_proof :: ProtoMessage GatewayReportProof;
  cd_report_ack :: ProtoMessage GatewayReportAck;
  cd_status :: ProtoMessage ClientStatusInfoMsg;
  cd_punch_start :: ProtoMessage PunchStart;
  cd_punch_request :: ProtoMessage PunchRequest;
  cd_punch_ack :: ProtoMessage PunchAck;
  cd_punch_result :: ProtoMessage PunchResult;
  cd_auth_request :: ProtoMessage DeviceAuthRequest;
  cd_auth_challenge :: ProtoMessage DeviceAuthChallenge;
  cd_auth_proof :: ProtoMessage DeviceAuthProof;
  cd_auth_ack :: ProtoMessage DeviceAuthAck;
  cd_dns_request :: ProtoMessage DnsQueryRequest;
  cd_dns_response :: ProtoMessage DnsQueryResponse;
  cd_collect_response :: ProtoMessage DebugCollectResponse;
  cd_watch_start :: ProtoMessage DebugWatchStartResponse;
  cd_watch_stop :: ProtoMessage DebugWatchStopResponse;
  cd_watch_event :: ProtoMessage DebugWatchEvent
}.

(** ** Reading frames *)
Definition maxFrame : Z := 2 ^ 20.

Inductive frame_read := NeedMore | BadLength | GotFrame (raw rest : list byte).

Definition next_frame (buf : list byte) : frame_read :=
  if Z.of_nat (length buf) <? 4 then NeedMore else
  let frameLen := be_get (take 4 buf) in
  if (frameLen <=? 0) || (maxFrame <? frameLen) then BadLength else
  if Z.of_nat (length buf) <? 4 + frameLen then NeedMore
  else GotFrame (take (Z.to_nat frameLen) (drop 4 buf)) (drop (Z.to_nat (4 + frameLen)) buf).

Record Server := mkServer { sv_c : Controller; sv_s : Sessions }.

Record Conn := mkConn {
  sessionCapabilities : list string;
  sessionNetworkKey : string;
  lastSweepMs : Z;
  frameBuf : list byte;
  frames : nat
}.

Definition newConn : Conn := mkConn [] "" 0 [] 0.

(** What the surroundings do while one frame is handled: [e_rand n t] is the
    randomness of the [n]-th group of grants, those for target [t]; [e_reply] the
    outcome of writing the answer, [e_push] and [e_start] those of the loops that
    push device lists and punch starts. *)
Record StepEnv := mkStepEnv {
  e_now : Z;
  e_save : UMSnapshot → option string;
  e_rand : nat → Z → Z → result (list byte);
  e_nonce : result (list byte);
  e_challenge : result (list byte);
  e_clock : Z → Z;
  e_fails : fs_call → string → option string;
  e_exchange : string → list byte → result (list byte);
  e_reply : write_outcome;
  e_push : nat → write_outcome;
  e_start : nat → write_outcome
}.

(** How the branch of the switch leaves it: on to the next frame, on to the
    answer with the deferred pushes, out of the session, or in a panic. *)
Inductive branch := Continue | Respond (resp : Packet) (deferred : list Packet) | Return | Panics.
Inductive verdict := Next | Ends | Crashes.

Definition ipToUint32 (ip : IP) : Z :=
  match To4 ip with
  | [a; b; c; d] => Z.lor (Z.lor (Z.lor (Z.shiftl (b2z a) 24) (Z.shiftl (b2z b) 16)) (Z.shiftl (b2z c) 8)) (b2z d)
  | _ => 0
  end.

(** [sessionWriter.writeFramed] *)
Definition reply (io : write_outcome) (id : Z) (p : Packet) (w : Sessions) : Sessions * option string :=
  (update_stream id (λ s, (writeFramedWriter io (Marshal p) s).1) w,
   match io with Written => None | WriteFails _ e => Some e end).

Section Session.
Context `{UnicodeFold} `{UnicodeLower} `{UrlPackage} `{Codecs}.
Context (o : RangeOrder) (sha256 : list byte → list byte) (hmac : string → list byte → list byte)
  (ed25519 : list byte → list byte → list byte → bool) (cfg : Config).
Context (gatewayGrantHardTTL gatewayGrantSoftRefreshLead : Z).
Context (store : option DebugSnapshotStore) (json_Valid : string → bool)
  (json_Marshal : list (string * json_value) → result string).

(** The loop that writes pushes to the streams of their targets; a failing write is
    logged. *)
Fixpoint dispatch (io : nat → write_outcome) (pushes : list Packet) (w : Sessions) : Sessions :=
  match pushes with
  | [] => w
  | push :: pushes' =>
      dispatch (λ n, io (S n)) pushes'
        (if bool_decide (DstIP push = []) then w
         else (writeToRoute o (io 0%nat) (RouteNetworkKey push) (ipToUint32 (DstIP push)) (Marshal push) w).1)
  end.

Definition on_c (f : Controller → Controller) (sv : Server) : Server := sv <| sv_c := f (sv_c sv) |>.
Definition with_c (c : Controller) (sv : Server) : Server := sv <| sv_c := c |>.
Definition with_nc (nc : NetworkControl) (sv : Server) : Server := on_c (λ c, c <| c_nc := nc |>) sv.
Definition with_debug (d : DebugState) (sv : Server) : Server := on_c (λ c, c <| c_debug := d |>) sv.
Definition with_s (w : Sessions) (sv : Server) : Server := sv <| sv_s := w |>.

Definition gateway_pushes (env : StepEnv) (n : nat) (sv : Server) : Server * list Packet :=
  let '(c, r) := BuildPushDeviceListPacketsForGatewayChangeIfNeeded o hmac cfg gatewayGrantHardTTL
                   gatewayGrantSoftRefreshLead (e_now env) (e_rand env n) (sv_c sv) in
  (with_c c sv, match r with Ok pushes => pushes | Err _ => [] end).

Definition peer_pushes (env : StepEnv) (networkKey : string) (virtualIP : Z) (sv : Server) : Server * list Packet :=
  let '(c, r) := BuildPushDeviceListPacketsForPeerChangeInNetwork o hmac cfg gatewayGrantHardTTL
                   gatewayGrantSoftRefreshLead (e_now env) (e_rand env 2%nat) networkKey virtualIP (sv_c sv) in
  (with_c c sv, match r with Ok pushes => pushes | Err _ => [] end).

(** An answer, or an error that is logged. *)
Definition answer (r : result Packet) (deferred : list Packet) : branch :=
  match r with Ok resp => Respond resp deferred | Err _ => Continue end.

(** [case protocol.AppProtoRegistrationRequest]: the pushes for the change replace
    the deferred ones. *)
Definition on_registration (env : StepEnv) (id : Z) (addr : string) (packet : Packet) (cn : Conn) (sv : Server)
    : Server * Conn * branch :=
  match HandleRegistrationPacketWithVirtualIPAndCapabilities o sha256 hmac cfg gatewayGrantHardTTL
          gatewayGrantSoftRefreshLead (e_save env) (e_now env) (e_rand env 1%nat 0) packet addr
          (sessionCapabilities cn) (sv_c sv) with
  | (c, Err e) =>
      let sv := with_c c sv in
      match BuildRegistrationErrorPacket packet (Some e) with
      | Err _ => (sv, cn, Continue)
      | Ok errPacket =>
          let '(w, writeErr) := reply (e_reply env) id errPacket (sv_s sv) in
          (with_s w sv, cn, match writeErr with None => Continue | Some _ => Return end)
      end
  | (c, Ok (resp, virtualIP, identity)) =>
      let cn := cn <| sessionNetworkKey := Key identity |> in
      let sv := with_s (registerSession (Some addr) (sessionNetworkKey cn) virtualIP id (sv_s sv)) (with_c c sv) in
      let '(sv, deferred) := peer_pushes env (sessionNetworkKey cn) virtualIP sv in
      (sv, cn, Respond resp deferred)
  end.

(** [case protocol.AppProtoClientStatusInfo] *)
Definition on_status (env : StepEnv) (packet : Packet) (cn : Conn) (sv : Server) : Server :=
  let '(nc, changed) := HandleClientStatusInfoPacketInNetwork o (e_now env) packet (sessionNetworkKey cn) (c_nc (sv_c sv)) in
  let sv := with_nc nc sv in
  let sv :=
    match changed with
    | Ok true =>
        let '(sv, pushes) := peer_pushes env (sessionNetworkKey cn) (ipToUint32 (SrcIP packet)) sv in
        with_s (dispatch (e_push env) pushes (sv_s sv)) sv
    | _ => sv
    end in
  match BuildPunchStartPacketsFromStatusInNetwork o o (e_now env) (e_clock env) packet (sessionNetworkKey cn) (c_nc (sv_c sv)) with
  | (nc, Err _) => with_nc nc sv
  | (nc, Ok starts) => with_s (dispatch (e_start env) starts (sv_s sv)) (with_nc nc sv)
  end.

(** [case protocol.AppProtoPunchRequest] *)
Definition on_punch_request (env : StepEnv) (packet : Packet) (deferred : list Packet) (cn : Conn) (sv : Server)
    : Server * branch :=
  match HandlePunchRequestPacketInNetwork o (e_now env) packet (sessionNetworkKey cn) (c_nc (sv_c sv)) with
  | (nc, Err _) => (with_nc nc sv, Continue)
  | (nc, Ok resp) =>
      let sv := with_nc nc sv in
      match BuildPunchStartPacketsInNetwork o packet (sessionNetworkKey cn) (c_nc (sv_c sv)) with
      | Err _ => (sv, Continue)
      | Ok starts => (with_s (dispatch (e_start env) starts (sv_s sv)) sv, Respond resp deferred)
      end
  end.

(** [case protocol.AppProtoHandshakeRequest] *)
Definition on_handshake (addr : string) (packet : Packet) (deferred : list Packet) (cn : Conn) (sv : Server)
    : Server * Conn * branch :=
  match HandleHandshakePacket packet (Some addr) (sv_c sv) with
  | (c, Err _) => (with_c c sv, cn, Continue)
  | (c, Ok resp) =>
      let capabilities :=
        match (proto_unmarshal (Payload resp) : result HandshakeResponse) with
        | Err _ => []
        | Ok handshakeResp => HandshakeResponse_capabilities handshakeResp
        end in
      (with_c c sv, cn <| sessionCapabilities := capabilities |>, Respond resp deferred)
  end.

(** The switch over the application protocol of a service packet. *)
Definition service_branch (env : StepEnv) (id : Z) (addr : string) (packet : Packet) (deferred : list Packet) (cn : Conn)
    (sv : Server) : Server * Conn * branch :=
  let c := sv_c sv in
  let key := sessionNetworkKey cn in
  let app := AppProto packet in
  if app =? AppProtoHandshakeRequest then on_handshake addr packet deferred cn sv
  else if app =? AppProtoRegistrationRequest then on_registration env id addr packet cn sv
  else if app =? AppProtoPullDeviceList then
    let '(c, r) := HandlePullDeviceListPacketInNetwork o hmac cfg gatewayGrantHardTTL gatewayGrantSoftRefreshLead
                     (e_now env) (e_rand env 1%nat 0) packet key c in
    (with_c c sv, cn, answer r deferred)
  else if app =? AppProtoDeviceAuthRequest then
    let '(c, r) := HandleDeviceAuthPacket sha256 (e_now env) (e_nonce env) (e_challenge env) packet c in
    (with_c c sv, cn, answer r deferred)
  else if app =? AppProtoDeviceAuthProof then
    match HandleDeviceAuthProofPacket o sha256 ed25519 (e_save env) (e_now env) packet c with
    | (c, Ret r) => (with_c c sv, cn, answer r deferred)
    | (c, Panic) => (with_c c sv, cn, Panics)
    end
  else if app =? AppProtoGatewayReportRequest then
    match HandleGatewayReportPacket o hmac (cfg_GatewayTicketSecret cfg) (cfg_DefaultGatewayID cfg) (e_now env) packet (c_gw c) with
    | (gw, Err _) => (on_c (λ c, c <| c_gw := gw |>) sv, cn, Continue)
    | (gw, Ok resp) =>
        let '(sv, more) := gateway_pushes env 3%nat (on_c (λ c, c <| c_gw := gw |>) sv) in
        (sv, cn, Respond resp (deferred ++ more))
    end
  else if app =? AppProtoRefreshGatewayGrantRequest then
    let '(c, r) := HandleRefreshGatewayGrantPacketInNetwork o hmac cfg gatewayGrantHardTTL gatewayGrantSoftRefreshLead
                     (e_now env) (e_rand env 1%nat 0) packet key c in
    (with_c c sv, cn, answer r deferred)
  else if app =? AppProtoDNSQueryRequest then (sv, cn, answer (HandleDNSQueryPacket (e_exchange env) cfg packet) deferred)
  else if app =? AppProtoDeviceRenameRequest then
    let '(c, r) := HandleDeviceRenamePacket o (e_save env) packet c in (with_c c sv, cn, answer r deferred)
  else if app =? AppProtoClientStatusInfo then (on_status env packet cn sv, cn, Continue)
  else if app =? AppProtoDebugCollectResponse then
    (with_debug (HandleDebugCollectResponse o store (e_fails env) (unix_milli (e_now env)) packet (c_um c) (c_nc c) (c_debug c)).1 sv,
     cn, Continue)
  else if app =? AppProtoDebugWatchStartResponse then
    (with_debug (HandleDebugWatchStartResponse o store (e_fails env) packet (c_um c) (c_nc c) (c_debug c)).1 sv, cn, Continue)
  else if app =? AppProtoDebugWatchStopResponse then
    (with_debug (HandleDebugWatchStopResponse o store (e_fails env) packet (c_um c) (c_nc c) (c_debug c)).1 sv, cn, Continue)
  else if app =? AppProtoDebugWatchEvent then
    (with_debug (HandleDebugWatchEvent store (e_fails env) json_Valid json_Marshal packet (c_debug c)).1 sv, cn, Continue)
  else if app =? AppProtoPunchRequest then
    let '(sv, b) := on_punch_request env packet deferred cn sv in (sv, cn, b)
  else if app =? AppProtoPunchAck then
    (with_nc (HandlePunchAckPacket (e_now env) packet (c_nc c)).1 sv, cn, Continue)
  else if app =? AppProtoPunchResult then
    (with_nc (HandlePunchResultPacket (e_now env) packet (c_nc c)).1 sv, cn, Continue)
  else (sv, cn, Continue).

Definition handle_service (env : StepEnv) (id : Z) (addr : string) (packet : Packet) (cn : Conn) (sv : Server)
    : Server * Conn * verdict :=
  let '(sv, deferred) := gateway_pushes env 0%nat sv in
  match service_branch env id addr packet deferred cn sv with
  | (sv, cn, Continue) => (sv, cn, Next)
  | (sv, cn, Return) => (sv, cn, Ends)
  | (sv, cn, Panics) => (sv, cn, Crashes)
  | (sv, cn, Respond resp deferred) =>
      match reply (e_reply env) id resp (sv_s sv) with
      | (w, Some _) => (with_s w sv, cn, Ends)
      | (w, None) => (with_s (dispatch (e_push env) deferred w) sv, cn, Next)
      end
  end.

Definition handle_control (env : StepEnv) (id : Z) (addr : string) (packet : Packet) (cn : Conn) (sv : Server)
    : Server * Conn * verdict :=
  match HandleControlPacketInNetwork o (e_now env) packet addr (sessionNetworkKey cn) (c_nc (sv_c sv)) with
  | (nc, Err _) => (with_nc nc sv, cn, Next)
  | (nc, Ok resp) =>
      let sv := with_nc nc sv in
      match reply (e_reply env) id resp (sv_s sv) with
      | (w, Some _) => (with_s w sv, cn, Ends)
      | (w, None) => (with_s w sv, cn, Next)
      end
  end.

(** One frame. *)
Definition handle_frame (env : StepEnv) (id : Z) (addr : string) (raw : list byte) (cn : Conn) (sv : Server)
    : Server * Conn * verdict :=
  match Unmarshal raw with
  | Err _ => (sv, cn, Next)
  | Ok packet =>
      let packet := packet <| RouteNetworkKey := sessionNetworkKey cn |> in
      let nowMs := unix_milli (e_now env) in
      let '(sv, cn) :=
        if 1000 <=? nowMs - lastSweepMs cn
        then (with_nc (ReconcilePunchSessions o (e_now env) nowMs (c_nc (sv_c sv))) sv, cn <| lastSweepMs := nowMs |>)
        else (sv, cn) in
      if Proto packet =? ProtocolService then handle_service env id addr packet cn sv
      else if Proto packet =? ProtocolControl then handle_control env id addr packet cn sv
      else (sv, cn, Next)
  end.

(** The inner loop: every whole frame of the buffer. *)
Fixpoint serve_frames (fuel : nat) (envs : nat → StepEnv) (id : Z) (addr : string) (cn : Conn) (sv : Server)
    : Server * Conn * verdict :=
  match fuel with
  | O => (sv, cn, Next)
  | S fuel =>
      match next_frame (frameBuf cn) with
      | NeedMore => (sv, cn, Next)
      | BadLength => (sv, cn, Ends)
      | GotFrame raw rest =>
          let cn := cn <| frameBuf := rest |> <| frames := S (frames cn) |> in
          match handle_frame (envs (Nat.pred (frames cn))) id addr raw cn sv with
          | (sv, cn, Next) => serve_frames fuel envs id addr cn sv
          | r => r
          end
      end
  end.

(** One [Read]: some bytes, bytes and the end of the stream, or an error. *)
Inductive read := Data (bytes : list byte) | DataEOF (bytes : list byte) | ReadError.

Definition serve_read (envs : nat → StepEnv) (id : Z) (addr : string) (r : read) (cn : Conn) (sv : Server)
    : Server * Conn * verdict :=
  match r with
  | ReadError => (sv, cn, Ends)
  | Data bytes | DataEOF bytes =>
      let cn := cn <| frameBuf := frameBuf cn ++ bytes |> in
      match serve_frames (S (length (frameBuf cn))) envs id addr cn sv with
      | (sv, cn, Next) => (sv, cn, match r with DataEOF _ => Ends | _ => Next end)
      | res => res
      end
  end.

Fixpoint serve_reads (envs : nat → StepEnv) (id : Z) (addr : string) (reads : list read) (cn : Conn) (sv : Server)
    : Server * Conn * verdict :=
  match reads with
  | [] => (sv, cn, Next)
  | r :: reads' =>
      match serve_read envs id addr r cn sv with
      | (sv, cn, Next) => serve_reads envs id addr reads' cn sv
      | res => res
      end
  end.

(** The start of a session, and what its deferred calls do at the end. *)
Definition open_session (now : Z) (id : Z) (addr : string) (sv : Server) : Server :=
  with_s ((sv_s sv) <| streams := <[id := mkSession addr [] false]> (streams (sv_s sv)) |>)
    (with_nc (TouchCipherSession now (Some addr) (c_nc (sv_c sv))) sv).

Definition ControllerLeaveByRemoteAddr (now : Z) (addr : string) (c : Controller) : Controller :=
  let c := clearPendingHandshakeCapabilities (Some addr) c in
  c <| c_nc := LeaveByRemoteAddr o now (Some addr) (c_nc c) |>.

Definition close_session (now : Z) (id : Z) (addr : string) (sv : Server) : Server :=
  let sv := with_s (update_stream id close_stream (sv_s sv)) sv in
  let sv := on_c (ControllerLeaveByRemoteAddr now addr) sv in
  with_s (unregisterSession o id (sv_s sv)) sv.

End Session.
