(* ===== verification/SessionInv.v ===== *)
(** * The control session: how bytes become frames, and what a session may do. *)
From S2P Require Import Prelude GoString GoText NetIP NetParse Packet Proto ExpireMap Network Config UserManager.
From S2P Require Import Gateway Punch Dns ExitNode DeviceList DebugStore Debug Controller DeviceAuth Registration.
From S2P Require Import NetworkInv GatewayInv PunchInv UserInv DeviceAuthInv RegistrationInv StreamHub StreamHubInv Session.

(** ** Addresses *)

(** Bits shifted past those of a smaller number add up with it. *)
Lemma lor_shiftl_add x y k : 0 ≤ k → 0 ≤ y < 2 ^ k → Z.lor (Z.shiftl x k) y = x * 2 ^ k + y.
Proof.
  intros Hk Hy.
  assert (Hd : Z.land (Z.shiftl x k) y = 0).
  { apply Z.bits_inj'. intros n Hn. rewrite Z.land_spec, Z.bits_0. destruct (Z.lt_ge_cases n k) as [Hlt|Hge].
    - by rewrite Z.shiftl_spec_low.
    - rewrite <-(Z.mod_small y (2 ^ k)), Z.mod_pow2_bits_high by lia. apply andb_false_r. }
  by rewrite <-Z.lxor_lor, <-Z.add_nocarry_lxor, Z.shiftl_mul_pow2.
Qed.

(** The conversion of the session code is that of [util]: the pushes of the
    administrative actions, which use the latter, share [dispatch]. *)
Lemma ipToUint32_util ip : ipToUint32 ip = IpToUint32 ip.
Proof.
  unfold ipToUint32, IpToUint32. destruct (To4_length ip) as [->|Hl]; [done|].
  destruct (To4 ip) as [|a [|b [|c [|d [|]]]]]; try discriminate Hl. rewrite bool_decide_eq_false_2 by done.
  pose proof (b2z_range a); pose proof (b2z_range b); pose proof (b2z_range c); pose proof (b2z_range d).
  rewrite <-!Z.lor_assoc, (lor_shiftl_add (b2z c) (b2z d) 8), (lor_shiftl_add (b2z b) _ 16), (lor_shiftl_add (b2z a) _ 24) by lia.
  unfold be_get. simpl. lia.
Qed.

(** ** One frame *)
#[export] Instance frame_read_eq_dec : EqDecision frame_read.
Proof. solve_decision. Defined.

Definition payload_ok (p : list byte) : Prop := 0 < Z.of_nat (length p) ≤ maxFrame.

Lemma length_frame p : length (frame p) = (4 + length p)%nat.
Proof. unfold frame. by rewrite length_app, length_be_put. Qed.

Lemma take_header p rest : payload_ok p → be_get (take 4 (frame p ++ rest)) = Z.of_nat (length p).
Proof.
  intros [H0 H1]. unfold frame, maxFrame in *. rewrite <-app_assoc. rewrite take_app_le by (by rewrite length_be_put).
  rewrite take_ge by (by rewrite length_be_put). rewrite be_get_put. apply Z.mod_small. lia.
Qed.

(** Reading what [writeFramedWriter] wrote gives the packet back. *)
Lemma next_frame_frame p rest : payload_ok p → next_frame (frame p ++ rest) = GotFrame p rest.
Proof.
  intros Hp. unfold next_frame. cbv zeta. rewrite take_header by done. rewrite length_app, length_frame. destruct Hp as [H0 H1].
  rewrite (proj2 (Z.ltb_ge _ 4)) by lia. rewrite (proj2 (Z.leb_gt _ 0)) by lia. rewrite (proj2 (Z.ltb_ge maxFrame _)) by lia.
  simpl orb. cbv iota. rewrite (proj2 (Z.ltb_ge _ (4 + _))) by lia. f_equal.
  - unfold frame. rewrite <-app_assoc, drop_app_ge by (by rewrite length_be_put). rewrite length_be_put.
    rewrite Nat2Z.id, Nat.sub_diag, drop_0. by rewrite take_app_length.
  - rewrite Z2Nat.inj_add, Nat2Z.id by lia. change (Z.to_nat 4) with 4%nat. rewrite <-(length_frame p). by rewrite drop_app_length.
Qed.

(** More bytes do not change a frame or a bad length that was already seen. *)
Lemma next_frame_more buf more :
  match next_frame buf with
  | NeedMore => True
  | BadLength => next_frame (buf ++ more) = BadLength
  | GotFrame raw rest => next_frame (buf ++ more) = GotFrame raw (rest ++ more)
  end.
Proof.
  unfold next_frame. cbv zeta. destruct (Z.ltb_spec (Z.of_nat (length buf)) 4) as [|H4]; [done|].
  assert (E : take 4 (buf ++ more) = take 4 buf) by (apply take_app_le; lia).
  rewrite E, length_app. rewrite (proj2 (Z.ltb_ge (Z.of_nat (length buf + length more)) 4)) by lia.
  set (n := be_get (take 4 buf)). destruct ((n <=? 0) || (maxFrame <? n)) eqn:En; [done|].
  apply orb_false_iff in En as [En _]. apply Z.leb_gt in En.
  destruct (Z.ltb_spec (Z.of_nat (length buf)) (4 + n)) as [|Hn]; [done|].
  rewrite (proj2 (Z.ltb_ge (Z.of_nat (length buf + length more)) (4 + n))) by lia. f_equal.
  - rewrite drop_app_le by lia. rewrite take_app_le; [done|]. rewrite length_drop. lia.
  - rewrite drop_app_le by lia. done.
Qed.

Lemma next_frame_shorter buf raw rest : next_frame buf = GotFrame raw rest → (length rest < length buf)%nat.
Proof.
  unfold next_frame. cbv zeta. destruct (Z.ltb_spec (Z.of_nat (length buf)) 4) as [|H4]; [done|].
  destruct ((be_get (take 4 buf) <=? 0) || _) eqn:E; [done|]. destruct (Z.ltb_spec (Z.of_nat (length buf)) (4 + be_get (take 4 buf))); [done|]. intros [= _ <-]. rewrite length_drop.
  apply orb_false_iff in E as [E _]. apply Z.leb_gt in E. lia.
Qed.

Lemma need_more_short buf : next_frame buf = NeedMore → Z.of_nat (length buf) < 4 + maxFrame.
Proof.
  unfold next_frame, maxFrame. cbv zeta. destruct (Z.ltb_spec (Z.of_nat (length buf)) 4) as [|H4]; [lia|].
  destruct ((be_get (take 4 buf) <=? 0) || _) eqn:E; [done|]. apply orb_false_iff in E as [_ E]. apply Z.ltb_ge in E.
  destruct (Z.ltb_spec (Z.of_nat (length buf)) (4 + be_get (take 4 buf))); [lia|done].
Qed.

Section Session.
Context `{UnicodeFold} `{UnicodeLower} `{UrlPackage} `{Codecs}.
Context (o : RangeOrder) (sha256 : list byte → list byte) (hmac : string → list byte → list byte)
  (ed25519 : list byte → list byte → list byte → bool) (cfg : Config).
Context (hardTTL softLead : Z).
Context (store : option DebugSnapshotStore) (json_Valid : string → bool)
  (json_Marshal : list (string * json_value) → result string).

Abbreviation handle := (handle_frame o sha256 hmac ed25519 cfg hardTTL softLead store json_Valid json_Marshal).
Abbreviation serve := (serve_frames o sha256 hmac ed25519 cfg hardTTL softLead store json_Valid json_Marshal).
Abbreviation reads := (serve_reads o sha256 hmac ed25519 cfg hardTTL softLead store json_Valid json_Marshal).

(** ** Frames do not depend on how the bytes arrive *)

(** Handling a frame neither reads nor moves the buffer. *)
Definition keeps_buffer {B} (f : Conn → Server * Conn * B) : Prop :=
  ∀ cn buf, frameBuf (f cn).1.2 = frameBuf cn ∧ frames (f cn).1.2 = frames cn
      ∧ f (cn <| frameBuf := buf |>) = ((f cn).1.1, (f cn).1.2 <| frameBuf := buf |>, (f cn).2).

Ltac step_pairs := repeat match goal with
  | |- context [match ?x with pair _ _ => _ end] => lazymatch x with pair _ _ => fail | _ => destruct x end
  | |- context [match ?x with Ok _ => _ | Err _ => _ end] => destruct x
  | |- context [match ?x with Ret _ => _ | Panic => _ end] => destruct x
  end.

Lemma registration_keeps env id addr packet sv :
  keeps_buffer (λ cn, on_registration o sha256 hmac cfg hardTTL softLead env id addr packet cn sv).
Proof.
  intros [a b c d e] buf. unfold on_registration, set, const, peer_pushes. cbn [sessionCapabilities sessionNetworkKey].
  cbn -[HandleRegistrationPacketWithVirtualIPAndCapabilities BuildRegistrationErrorPacket reply
    BuildPushDeviceListPacketsForPeerChangeInNetwork registerSession].
  unfold const. step_pairs; by split.
Qed.

Lemma handshake_keeps addr packet deferred sv : keeps_buffer (λ cn, on_handshake addr packet deferred cn sv).
Proof.
  intros [a b c d e] buf. unfold on_handshake, set, const. destruct (HandleHandshakePacket _ _ _) as [? [|]]; by split.
Qed.

Lemma branch_keeps env id addr packet deferred sv :
  keeps_buffer (λ cn, service_branch o sha256 hmac ed25519 cfg hardTTL softLead store json_Valid json_Marshal env id addr
                        packet deferred cn sv).
Proof.
  intros cn buf. unfold service_branch. destruct (_ =? AppProtoHandshakeRequest); [apply handshake_keeps|].
  destruct (_ =? AppProtoRegistrationRequest); [apply registration_keeps|].
  destruct cn as [a b c d e]. change ((mkConn a b c d e) <| frameBuf := buf |>) with (mkConn a b c buf e). cbn [sessionNetworkKey].
  repeat match goal with |- context [if AppProto packet =? ?x then _ else _] => destruct (AppProto packet =? x) end.
  all: try (by split).
  all: try change (on_punch_request o env packet deferred (mkConn a b c buf e) sv)
    with (on_punch_request o env packet deferred (mkConn a b c d e) sv).
  all: cbv zeta; step_pairs; by split.
Qed.

Lemma service_keeps env id addr packet sv :
  keeps_buffer (λ cn, handle_service o sha256 hmac ed25519 cfg hardTTL softLead store json_Valid json_Marshal env id addr
                        packet cn sv).
Proof.
  intros cn buf. unfold handle_service. destruct (gateway_pushes _ _ _ _ _ _ _ _) as [sv1 deferred].
  destruct (branch_keeps env id addr packet deferred sv1 cn buf) as (H3 & H4 & ->).
  destruct (service_branch _ _ _ _ _ _ _ _ _ _ _ _ _ _ _ cn _) as [[sv2 cn2] b]. cbn [fst snd] in *.
  destruct b; [done| |done..]. destruct (reply _ _ _ _) as [w [|]]; done.
Qed.

Lemma sweep_buffer cn buf t :
  (cn <| frameBuf := buf |>) <| lastSweepMs := t |> = (cn <| lastSweepMs := t |>) <| frameBuf := buf |>.
Proof. reflexivity. Qed.

Lemma handle_keeps env id addr raw sv : keeps_buffer (λ cn, handle env id addr raw cn sv).
Proof.
  intros cn buf. unfold handle_frame. destruct (Unmarshal raw) as [packet|]; [|done]. cbv zeta beta.
  change (sessionNetworkKey (cn <| frameBuf := buf |>)) with (sessionNetworkKey cn).
  change (lastSweepMs (cn <| frameBuf := buf |>)) with (lastSweepMs cn).
  set (p := packet <| RouteNetworkKey := _ |>). clearbody p.
  assert (Hrest : ∀ sv cn', frameBuf cn' = frameBuf cn ∧ frames cn' = frames cn →
    let f cn := if Proto p =? ProtocolService
      then handle_service o sha256 hmac ed25519 cfg hardTTL softLead store json_Valid json_Marshal env id addr p cn sv
      else if Proto p =? ProtocolControl then handle_control o env id addr p cn sv else (sv, cn, Next) in
    frameBuf (f cn').1.2 = frameBuf cn ∧ frames (f cn').1.2 = frames cn
    ∧ f (cn' <| frameBuf := buf |>) = ((f cn').1.1, (f cn').1.2 <| frameBuf := buf |>, (f cn').2)).
  { intros sv' cn' [<- <-]. cbv zeta. destruct (_ =? ProtocolService); [apply service_keeps|].
    destruct (_ =? ProtocolControl); [|done]. unfold handle_control.
    change (sessionNetworkKey (cn' <| frameBuf := buf |>)) with (sessionNetworkKey cn').
    destruct (HandleControlPacketInNetwork _ _ _ _ _ _) as [nc [resp|]]; [|done].
    destruct (reply _ _ _ _) as [w [|]]; done. }
  destruct (1000 <=? _).
  - rewrite sweep_buffer.
    apply (Hrest _ (cn <| lastSweepMs := unix_milli (e_now env) |>)). done.
  - exact (Hrest _ cn (conj eq_refl eq_refl)).
Qed.

(** The inner loop as its equation: the fuel is enough. *)
Lemma serve_fuel envs id addr n m cn sv : (length (frameBuf cn) < n)%nat → (length (frameBuf cn) < m)%nat →
  serve n envs id addr cn sv = serve m envs id addr cn sv.
Proof.
  revert m cn sv. induction n as [|n IH]; intros m cn sv Hn Hm; [lia|]. destruct m as [|m]; [lia|]. cbn [serve_frames].
  destruct (next_frame (frameBuf cn)) as [| |raw rest] eqn:E; [done|done|]. apply next_frame_shorter in E.
  set (cn1 := (cn <| frameBuf := rest |>) <| frames := S (frames cn) |>).
  destruct (handle_keeps (envs (Nat.pred (frames cn1))) id addr raw sv cn1 []) as (Hb & _ & _).
  destruct (handle _ id addr raw cn1 sv) as [[sv' cn'] []]; [|done|done]. cbn [fst snd] in Hb.
  apply IH; rewrite Hb; simpl; unfold const; lia.
Qed.

Definition drain (envs : nat → StepEnv) (id : Z) (addr : string) (cn : Conn) (sv : Server) : Server * Conn * verdict :=
  serve (S (length (frameBuf cn))) envs id addr cn sv.

Lemma drain_eq envs id addr cn sv : drain envs id addr cn sv =
  match next_frame (frameBuf cn) with
  | NeedMore => (sv, cn, Next)
  | BadLength => (sv, cn, Ends)
  | GotFrame raw rest =>
      match handle (envs (frames cn)) id addr raw ((cn <| frameBuf := rest |>) <| frames := S (frames cn) |>) sv with
      | (sv, cn, Next) => drain envs id addr cn sv
      | r => r
      end
  end.
Proof.
  unfold drain at 1. cbn [serve_frames]. destruct (next_frame (frameBuf cn)) as [| |raw rest] eqn:E; [done|done|].
  apply next_frame_shorter in E. set (cn1 := (cn <| frameBuf := rest |>) <| frames := S (frames cn) |>).
  change (Nat.pred (frames cn1)) with (frames cn).
  destruct (handle_keeps (envs (frames cn)) id addr raw sv cn1 []) as (Hb & _ & _).
  destruct (handle _ id addr raw cn1 sv) as [[sv' cn'] []]; [|done|done]. cbn [fst snd] in Hb.
  apply serve_fuel; [|lia]. rewrite Hb. simpl. unfold const. lia.
Qed.

Definition more (bytes : list byte) (cn : Conn) : Conn := cn <| frameBuf := frameBuf cn ++ bytes |>.

(** Bytes that come later are handled later. *)
Lemma drain_more envs id addr bytes cn sv :
  match drain envs id addr cn sv with
  | (sv', cn', Next) => next_frame (frameBuf cn') = NeedMore
      ∧ drain envs id addr (more bytes cn) sv = drain envs id addr (more bytes cn') sv'
  | (sv', cn', v) => drain envs id addr (more bytes cn) sv = (sv', more bytes cn', v)
  end.
Proof.
  remember (length (frameBuf cn)) as n eqn:Hn. revert cn sv Hn.
  induction (lt_wf n) as [n _ IH]. intros cn sv ->. rewrite (drain_eq _ _ _ cn sv), (drain_eq _ _ _ (more bytes cn) sv).
  pose proof (next_frame_more (frameBuf cn) bytes) as Hmore. change (frameBuf (more bytes cn)) with (frameBuf cn ++ bytes).
  destruct (next_frame (frameBuf cn)) as [| |raw rest] eqn:E.
  - split; [done|]. by rewrite (drain_eq _ _ _ (more bytes cn) sv).
  - by rewrite Hmore.
  - rewrite Hmore. change (frames (more bytes cn)) with (frames cn). apply next_frame_shorter in E.
    set (cn1 := (cn <| frameBuf := rest |>) <| frames := S (frames cn) |>).
    change (((more bytes cn) <| frameBuf := rest ++ bytes |>) <| frames := S (frames cn) |>)
      with (cn1 <| frameBuf := rest ++ bytes |>).
    destruct (handle_keeps (envs (frames cn)) id addr raw sv cn1 (rest ++ bytes)) as (Hb & _ & Eq).
    cbv beta in Eq, Hb. rewrite Eq. clear Eq.
    destruct (handle (envs (frames cn)) id addr raw cn1 sv) as [[sv' cn'] v]. cbn [fst snd] in *.
    change (frameBuf cn1) with rest in Hb. rewrite <-Hb. change (cn' <| frameBuf := frameBuf cn' ++ bytes |>) with (more bytes cn').
    destruct v; [|done..]. apply (IH (length (frameBuf cn'))); [by rewrite Hb|done].
Qed.

(** What a session has done, whatever is left in its buffer. *)
Definition observed (r : Server * Conn * verdict) : Server * Conn * verdict := (r.1.1, r.1.2 <| frameBuf := [] |>, r.2).

Lemma more_nil cn : more [] cn = cn.
Proof. destruct cn. unfold more, set, const. simpl. by rewrite app_nil_r. Qed.

Lemma more_more a b cn : more b (more a cn) = more (a ++ b) cn.
Proof. destruct cn. unfold more, set, const. simpl. by rewrite app_assoc. Qed.

Lemma reads_drain envs id addr chunks cn sv : next_frame (frameBuf cn) = NeedMore →
  observed (reads envs id addr (Data <$> chunks) cn sv) = observed (drain envs id addr (more (concat chunks) cn) sv).
Proof.
  revert cn sv. induction chunks as [|chunk chunks IH]; intros cn sv Hneed.
  { simpl. rewrite more_nil, drain_eq, Hneed. done. }
  cbn [fmap list_fmap serve_reads serve_read concat]. rewrite <-more_more.
  change (cn <| frameBuf := frameBuf cn ++ chunk |>) with (more chunk cn).
  change (serve (S (length (frameBuf (more chunk cn)))) envs id addr (more chunk cn) sv) with (drain envs id addr (more chunk cn) sv).
  pose proof (drain_more envs id addr (concat chunks) (more chunk cn) sv) as Hd.
  destruct (drain envs id addr (more chunk cn) sv) as [[sv' cn'] []].
  - destruct Hd as [Hneed' ->]. by apply IH.
  - by rewrite Hd.
  - by rewrite Hd.
Qed.

(** One packet after the other, each with the environment of its number. *)
Fixpoint handle_all (envs : nat → StepEnv) (id : Z) (addr : string) (packets : list (list byte)) (cn : Conn) (sv : Server)
    : Server * Conn * verdict :=
  match packets with
  | [] => (sv, cn, Next)
  | raw :: packets' =>
      match handle (envs (frames cn)) id addr raw (cn <| frames := S (frames cn) |>) sv with
      | (sv, cn, Next) => handle_all envs id addr packets' cn sv
      | r => r
      end
  end.

Lemma drain_frames envs id addr packets tail cn sv : Forall payload_ok packets →
  observed (drain envs id addr (cn <| frameBuf := concat (frame <$> packets) ++ tail |>) sv) =
  match handle_all envs id addr packets (cn <| frameBuf := [] |>) sv with
  | (sv', cn', Next) => observed (drain envs id addr (cn' <| frameBuf := tail |>) sv')
  | r => r
  end.
Proof.
  intros Hok. revert cn sv. induction Hok as [|raw packets Hraw Hok IH]; intros cn sv; [done|].
  rewrite drain_eq. cbn [fmap list_fmap concat handle_all].
  change (frameBuf (set frameBuf (const ?x) ?c)) with x. change (frames (set frameBuf (const ?x) ?c)) with (frames c).
  rewrite <-app_assoc, next_frame_frame by done. set (rest := concat (frame <$> packets) ++ tail).
  set (cn1 := (cn <| frameBuf := [] |>) <| frames := S (frames cn) |>).
  change (set frames _ (set frameBuf (const rest) _)) with (cn1 <| frameBuf := rest |>).
  destruct (handle_keeps (envs (frames cn)) id addr raw sv cn1 rest) as (Hb & _ & Eq). cbv beta in Eq, Hb. rewrite Eq.
  destruct (handle (envs (frames cn)) id addr raw cn1 sv) as [[sv' cn'] v]. cbn [fst snd] in *.
  assert (Hcn : cn' = cn' <| frameBuf := [] |>) by (destruct cn'; simpl in Hb; by subst).
  destruct v.
  - rewrite Hcn at 2. apply IH.
  - unfold observed. cbn [fst snd]. by rewrite Hcn at 2.
  - unfold observed. cbn [fst snd]. by rewrite Hcn at 2.
Qed.

Lemma handle_all_buffer envs id addr packets cn sv : frameBuf cn = [] →
  frameBuf (handle_all envs id addr packets cn sv).1.2 = [].
Proof.
  revert cn sv. induction packets as [|raw packets IH]; intros cn sv Hcn; [done|]. cbn [handle_all].
  destruct (handle_keeps (envs (frames cn)) id addr raw sv (cn <| frames := S (frames cn) |>) []) as (Hb & _ & _).
  change (frameBuf (cn <| frames := S (frames cn) |>)) with (frameBuf cn) in Hb.
  destruct (handle _ id addr raw _ sv) as [[sv' cn'] []]; cbn [fst snd] in Hb; [apply IH|..]; cbn [fst snd]; congruence.
Qed.

Lemma drain_partial envs id addr cn sv : (∀ raw rest, next_frame (frameBuf cn) ≠ GotFrame raw rest) →
  drain envs id addr cn sv = (sv, cn, if decide (next_frame (frameBuf cn) = BadLength) then Ends else Next).
Proof.
  intros Hno. rewrite drain_eq. destruct (next_frame (frameBuf cn)) as [| |raw rest] eqn:E.
  - by rewrite decide_False.
  - by rewrite decide_True.
  - by destruct (Hno raw rest).
Qed.

(** C11 (roundtrip). What a peer frames is what the server handles.  If the bytes of a
    session are the frames of some packets of at most 2^20 bytes each, followed by
    something that is no whole frame, then however the transport cuts them into
    reads, the session handles exactly these packets, each once and in order, until
    one of them ends it; what follows the packets ends the session if its length
    field is out of range, and otherwise leaves it waiting for more. *)
Theorem session_handles_frames envs id addr packets tail chunks sv : Forall payload_ok packets →
  (∀ raw rest, next_frame tail ≠ GotFrame raw rest) → concat chunks = concat (frame <$> packets) ++ tail →
  observed (reads envs id addr (Data <$> chunks) newConn sv) =
  match handle_all envs id addr packets newConn sv with
  | (sv', cn', Next) => (sv', cn', if decide (next_frame tail = BadLength) then Ends else Next)
  | r => r
  end.
Proof.
  intros Hok Htail Hbytes. rewrite reads_drain by done. rewrite Hbytes.
  change (more (concat (frame <$> packets) ++ tail) newConn) with (newConn <| frameBuf := concat (frame <$> packets) ++ tail |>).
  rewrite drain_frames by done. change (newConn <| frameBuf := [] |>) with newConn.
  pose proof (handle_all_buffer envs id addr packets newConn sv eq_refl) as Hb.
  destruct (handle_all envs id addr packets newConn sv) as [[sv' cn'] []]; [|done..]. cbn [fst snd] in Hb.
  rewrite drain_partial by exact Htail. unfold observed. cbn [fst snd]. f_equal. f_equal.
  destruct cn'. simpl in Hb. by subst.
Qed.

(** While a session goes on it holds back less than one frame of the
    greatest length, 2^20 + 4 bytes, whatever the peer sends. *)
Theorem session_buffer_bounded envs id addr rs cn sv : Z.of_nat (length (frameBuf cn)) < 4 + maxFrame →
  match reads envs id addr rs cn sv with
  | (_, cn', Next) => Z.of_nat (length (frameBuf cn')) < 4 + maxFrame
  | _ => True
  end.
Proof.
  revert cn sv. induction rs as [|r rs IH]; intros cn sv Hcn; [done|]. cbn [serve_reads].
  assert (Hread : match serve_read o sha256 hmac ed25519 cfg hardTTL softLead store json_Valid json_Marshal envs id addr r cn sv with
    | (_, cn', Next) => Z.of_nat (length (frameBuf cn')) < 4 + maxFrame | _ => True end).
  { unfold serve_read. destruct r as [bytes|bytes|]; [| |done].
    all: change (cn <| frameBuf := frameBuf cn ++ bytes |>) with (more bytes cn);
      change (serve (S (length (frameBuf (more bytes cn)))) envs id addr (more bytes cn) sv) with (drain envs id addr (more bytes cn) sv);
      pose proof (drain_more envs id addr [] (more bytes cn) sv) as Hd;
      destruct (drain envs id addr (more bytes cn) sv) as [[sv' cn'] []]; [|done..]; try done.
    destruct Hd as [Hneed _]. by apply need_more_short. }
  destruct (serve_read _ _ _ _ _ _ _ _ _ _ envs id addr r cn sv) as [[sv' cn'] []]; [by apply IH|done..].
Qed.

(** ** Changes of the gateways *)
Abbreviation gateway_synced := (synced o (cfg_DefaultGatewayID cfg)).

Lemma push_targets_synced now rand n x wanted targets g : gateway_synced now g →
  gateway_synced now (push_targets o hmac cfg hardTTL softLead now rand n x wanted targets g).1.
Proof.
  revert g. induction targets as [|[ip cl] targets IH]; intros g Hs; [done|]. cbn [push_targets].
  destruct (negb _); [by apply IH|]. cbv zeta. unfold buildGatewayAccessGrantsForExistingClient.
  match goal with |- context [buildGatewayAccessGrantsLocked _ _ _ _ _ _ ?a ?b ?c ?d ?e ?f g] =>
    pose proof (build_synced o hmac (cfg_GatewayTicketSecret cfg) (cfg_DefaultGatewayID cfg) hardTTL softLead a b c d e f g) as Hb;
    destruct (buildGatewayAccessGrantsLocked o hmac _ _ hardTTL softLead a b c d e f g) as [g1 [[grants rev] ch]] end.
  cbn [fst] in Hb. destruct (buildPushDeviceListPacket _ _ _ _ _ _); [|done]. specialize (IH g1 Hb).
  by destruct (push_targets _ _ _ _ _ _ _ _ _ _ targets g1).
Qed.

(** Looking for a change of the gateways records that it was seen. *)
Lemma gateway_pushes_synced env n sv :
  gateway_synced (e_now env) (c_gw (sv_c (gateway_pushes o hmac cfg hardTTL softLead env n sv).1))
  ∧ sv_s (gateway_pushes o hmac cfg hardTTL softLead env n sv).1 = sv_s sv.
Proof.
  unfold gateway_pushes, BuildPushDeviceListPacketsForGatewayChangeIfNeeded. cbv zeta.
  pose proof (sync_synced o (cfg_DefaultGatewayID cfg) (e_now env) (c_gw (sv_c sv))) as Hs.
  destruct (syncGatewayGrantPolicyLocked _ _) as [g [rev ch]]. cbn [fst] in Hs. destruct (negb ch); [done|].
  unfold BuildPushDeviceListPacketsForGatewayChange.
  match goal with |- context [forEachVirtualNetworkRead o ?nc "" ?v ?s0] =>
    pose proof (forEachRead_inv o nc "" v (λ s, gateway_synced (e_now env) s.1) s0) as Hi;
    destruct (forEachVirtualNetworkRead o nc "" v s0) as [gw r] end.
  split; [|done]. apply Hi; [|done]. intros k net [g' [packets|]] Hn Hg; [|done].
  pose proof (push_targets_synced (e_now env) (e_rand env n) net (c_exits ((sv_c sv) <| c_gw := g |>)) (λ _ target, ControlOnline target)
    (range o (Clients net)) g' Hg) as Hp. cbn [fst snd]. by destruct (push_targets _ _ _ _ _ _ _ _ _ _ _ _).
Qed.

Lemma gateway_pushes_none env n sv : gateway_synced (e_now env) (c_gw (sv_c sv)) →
  (gateway_pushes o hmac cfg hardTTL softLead env n sv).2 = [].
Proof.
  intros Hs. unfold gateway_pushes, BuildPushDeviceListPacketsForGatewayChangeIfNeeded. cbv zeta.
  pose proof (synced_unchanged o (cfg_DefaultGatewayID cfg) (e_now env) (c_gw (sv_c sv)) Hs) as Hu.
  destruct (syncGatewayGrantPolicyLocked _ _) as [g [rev ch]]. cbn [snd] in Hu. by subst ch.
Qed.

(** The messages that are not answered. *)
Definition unanswered : list Z :=
  [AppProtoPunchAck; AppProtoPunchResult; AppProtoDebugCollectResponse; AppProtoDebugWatchStartResponse;
   AppProtoDebugWatchStopResponse; AppProtoDebugWatchEvent].

(** A message without an answer swallows a change of the gateways:
    handling it looks for such a change and records that it was seen, but writes
    nothing to any stream, and the next message finds no change any more, so the
    device lists that announce it are never sent. *)
Theorem gateway_change_swallowed env env' id addr packet cn sv n : AppProto packet ∈ unanswered → e_now env' = e_now env →
  let sv' := (handle_service o sha256 hmac ed25519 cfg hardTTL softLead store json_Valid json_Marshal env id addr packet cn sv).1.1 in
  sv_s sv' = sv_s sv ∧ (gateway_pushes o hmac cfg hardTTL softLead env' n sv').2 = [].
Proof.
  intros Hin Hnow. unfold handle_service. destruct (gateway_pushes_synced env 0 sv) as [Hsync Hs].
  destruct (gateway_pushes _ _ _ _ _ _ 0 sv) as [sv1 deferred]. cbn [fst] in *.
  assert (Hbr : ∃ sv2, service_branch o sha256 hmac ed25519 cfg hardTTL softLead store json_Valid json_Marshal env id addr packet
      deferred cn sv1 = (sv2, cn, Continue) ∧ sv_s sv2 = sv_s sv1 ∧ c_gw (sv_c sv2) = c_gw (sv_c sv1)).
  { unfold service_branch. unfold unanswered in Hin.
    repeat (apply elem_of_cons in Hin as [->|Hin]; [eexists; split_and!; [reflexivity|done|done]|]). by apply not_elem_of_nil in Hin. }
  destruct Hbr as (sv2 & -> & Hs2 & Hg2). cbn [fst]. split; [congruence|].
  apply gateway_pushes_none. by rewrite Hnow, Hg2.
Qed.
End Session.

(** ** Samples: a ping in two reads, and an approved gateway nobody hears of *)
Module SampleSession.
Definition codecs : Codecs := ltac:(constructor; exact SampleGateway.codec).
Definition env (now : Z) : StepEnv :=
  mkStepEnv now SampleUsers.ok (λ _ _ _, Err "no randomness") (Ok []) (Ok []) (λ t, t) (λ _ _, None)
    (λ _ _, Err "no upstream") Written (λ _, Written) (λ _, Written).
Definition reads (rs : list read) (cn : Conn) (sv : Server) : Server * Conn * verdict :=
  @serve_reads AsciiFold AsciiLower SampleGateway.url codecs ascending SampleUsers.sha SampleGateway.mac SampleAuth.yes SampleReg.cfg
    SampleReg.day minute None (λ _, true) (λ _, Err "no encoder") (λ _, env 8) 1 "192.0.2.9:4000" rs cn sv.
Definition pushes (now : Z) (sv : Server) : Server * list Packet :=
  @gateway_pushes SampleGateway.url codecs ascending SampleGateway.mac SampleReg.cfg SampleReg.day minute (env now) 0 sv.

(** The laptop of the registration sample is connected as session 1. *)
Definition gw : GatewayState :=
  SampleGateway.exec (GRegister 7 "gw1" "198.51.100.7:443" ["relay"])
    (SampleGateway.exec (GApprove "gw1" "198.51.100.7:443") (initial ascending ∅)).
Definition sv : Server :=
  mkServer (SampleReg.c1 <| c_gw := gw |>) (hub_run ascending [HOpen 1 "192.0.2.9:4000"; HRegister 1 "dev.corp.net" 169476098]).
Definition ping : list byte :=
  Marshal {| Ver := V3; Proto := ProtocolControl; AppProto := ControlPing; SourceTTL := MAX_TTL; TTL := MAX_TTL;
             SrcIP := IPv4 x0a x1a x00 x02; DstIP := IPv4 x0a x1a x00 x01; Payload := [x00; x01; x00; x00];
             RouteNetworkKey := "" |}.
Definition ack : Packet :=
  {| Ver := V3; Proto := ProtocolService; AppProto := AppProtoPunchAck; SourceTTL := MAX_TTL; TTL := MAX_TTL;
     SrcIP := IPv4 x0a x1a x00 x02; DstIP := IPv4 x0a x1a x00 x01; Payload := []; RouteNetworkKey := "" |}.
End SampleSession.

Lemma session_handles_frames_witness :
  (observed (SampleSession.reads [Data [x00; x00]; Data (drop 2 (frame SampleSession.ping)); Data [x00; x00; x00; x00]]
     newConn SampleSession.sv)).2 = Ends.
Proof.
  unfold SampleSession.reads.
  rewrite (session_handles_frames _ _ _ _ _ _ _ _ _ _ _ _ _ [SampleSession.ping] [x00; x00; x00; x00]
    [[x00; x00]; drop 2 (frame SampleSession.ping); [x00; x00; x00; x00]]).
  - vm_compute. reflexivity.
  - constructor; [by vm_compute|constructor].
  - intros raw rest. by vm_compute.
  - by vm_compute.
Defined.

Lemma session_buffer_bounded_witness :
  Z.of_nat (length (frameBuf newConn)) < 4 + maxFrame
  ∧ match SampleSession.reads [Data (replicate 3 x00)] newConn SampleSession.sv with
    | (_, cn', Next) => Z.of_nat (length (frameBuf cn')) < 4 + maxFrame | _ => True end.
Proof.
  assert (Hb : Z.of_nat (length (frameBuf newConn)) < 4 + maxFrame) by (by vm_compute). split; [exact Hb|].
  apply session_buffer_bounded. exact Hb.
Defined.

Lemma gateway_change_swallowed_witness :
  length (SampleSession.pushes 8 SampleSession.sv).2 = 1%nat
  ∧ let sv' := (@handle_service AsciiFold AsciiLower SampleGateway.url SampleSession.codecs ascending SampleUsers.sha SampleGateway.mac
      SampleAuth.yes SampleReg.cfg SampleReg.day minute None (λ _, true) (λ _, Err "no encoder") (SampleSession.env 8) 1 "192.0.2.9:4000"
      SampleSession.ack newConn SampleSession.sv).1.1 in
    sv_s sv' = sv_s SampleSession.sv ∧ (SampleSession.pushes 8 sv').2 = [].
Proof.
  split; [by vm_compute|]. unfold SampleSession.pushes.
  apply (gateway_change_swallowed ascending SampleUsers.sha SampleGateway.mac SampleAuth.yes SampleReg.cfg SampleReg.day minute None
    (λ _, true) (λ _, Err "no encoder") (SampleSession.env 8) (SampleSession.env 8) 1 "192.0.2.9:4000" SampleSession.ack newConn
    SampleSession.sv 0); [left|reflexivity].
Defined.
