(* ===== verification/Admin.v ===== *)
(** * Administration: [handlers/admin_types.go], [handlers/admin_api.go], the request
    handling of [handlers/admin_http.go] and [handlers/admin_unix.go], and
    [UMListUsers] of [control/controller_user.go].

    A request runs as one step, except the three debug actions: they send a request
    to a device and then wait, so they end in [Waits] and go on with [resume] when an
    answer arrives or the time is up. *)
From S2P Require Import Prelude GoString GoText NetIP NetParse Packet Proto ExpireMap Network Config UserManager.
From S2P Require Import Gateway Punch Dns ExitNode DeviceList DebugStore Debug Controller DeviceAuth Registration.
From S2P Require Import StreamHub Session.

Record adminRequest := mkAdminRequest {
  rq_Action : string; rq_Name : string; rq_Domain : string; rq_GatewayID : string; rq_Endpoint : string;
  rq_Capabilities : list string; rq_Sections : list string; rq_UserID : string; rq_IDFilter : string;
  rq_NameFilter : string; rq_Group : string; rq_DeviceID : string; rq_All : bool; rq_TTLSeconds : Z;
  rq_TimeoutSec : Z; rq_DurationSec : Z
}.

Definition zeroAdminRequest : adminRequest := mkAdminRequest "" "" "" "" "" [] [] "" "" "" "" "" false 0 0 0.

Record adminResponse := mkAdminResponse {
  rs_OK : bool; rs_Version : string; rs_UserID : string; rs_SdlUserID : string; rs_Name : string; rs_Domain : string;
  rs_Group : string; rs_Domains : list string; rs_Ticket : string; rs_ExpireAtUnix : Z;
  rs_Gateways : list GatewayAdminView; rs_ExitNodes : list ExitNodeAdminView; rs_Users : list UMUserAdminView;
  rs_Devices : list DeviceAdminView; rs_UpdatedDevices : list DeviceAdminView; rs_DNSSnapshot : option DNSSnapshotView;
  rs_DebugResult : string; rs_DebugPath : string; rs_DebugWatchID : Z; rs_UpdatedCount : Z; rs_Error : string
}.

Definition zeroAdminResponse : adminResponse :=
  mkAdminResponse false "" "" "" "" "" "" [] "" 0 [] [] [] [] [] None "" "" 0 0 "".
Definition accepted : adminResponse := zeroAdminResponse <| rs_OK := true |>.
Definition refused (e : string) : adminResponse := zeroAdminResponse <| rs_Error := e |>.

(** A Go [int64] product wraps. *)
Definition i64 (z : Z) : Z := (z + 2 ^ 63) mod 2 ^ 64 - 2 ^ 63.
Definition seconds (n : Z) : Z := i64 (n * second).

(** ** Users *)
Record WebUserProfile := mkProfile { pf_SDLUserID : string; pf_Email : string; pf_DisplayName : string }.

Definition ContainsAny (s any : string) : bool := existsb (λ c, bool_decide (c ∈ chars any)) (chars s).

Definition userNameMatches `{UnicodeLower} (nameFilter name : string) : bool :=
  let nameFilter := ToLower (TrimSpace nameFilter) in
  let name := ToLower (TrimSpace name) in
  if bool_decide (nameFilter = "") then true
  else if ContainsAny nameFilter "*?" then wildcardMatch nameFilter name else Contains name nameFilter.

Definition with_profile (profiles : gmap string WebUserProfile) (user : UMUserAdminView) : UMUserAdminView :=
  match profiles !! v_UserID user with
  | None => user
  | Some profile =>
      let user := user <| v_Email := TrimSpace (pf_Email profile) |> in
      let name := TrimSpace (pf_DisplayName profile) in
      if bool_decide (name ≠ "") then user <| v_Name := name |> else user
  end.

(** [profiles] is the outcome of [ListWebUserProfiles], [None] without a database. *)
Definition UMListUsers `{UnicodeLower} (o : RangeOrder) (profiles : option (result (list WebUserProfile)))
    (idFilter nameFilter : string) (um : UserManager) : result (list UMUserAdminView) :=
  let users := ListUsers o idFilter um in
  let? users :=
    match profiles with
    | None => Ok users
    | Some (Err e) => Err e
    | Some (Ok profiles) =>
        let byUser := foldl (λ m profile, <[TrimSpace (pf_SDLUserID profile) := profile]> m) ∅ profiles in
        Ok (with_profile byUser <$> users)
    end in
  Ok (if bool_decide (TrimSpace nameFilter = "") then users
      else filter (λ user, userNameMatches nameFilter (v_Name user) = true) users).

(** ** Devices that an action changed *)
Definition selectUpdatedDeviceViews (now : Z) (updated : list UMAuthDevice) (devices : list DeviceAdminView)
    : list DeviceAdminView :=
  let deviceByKey : gmap string DeviceAdminView :=
    foldl (λ m device, <[device_key (dv_Group device) (dv_DeviceID device) := device]> m) ∅ devices in
  (λ record, default (record_device now record) (deviceByKey !! device_key (a_GroupName record) (a_DeviceID record)))
  <$> updated.

(** ** Requests *)

(** What the surroundings do during one request. *)
Record AdminEnv := mkAdminEnv {
  ae_now : Z;
  ae_save : UMSnapshot → option string;
  ae_rand : Z → Z → result (list byte);
  ae_ticket : result (list byte);
  ae_profiles : option (result (list WebUserProfile));
  ae_db : db_outcome;
  ae_push : nat → write_outcome;
  ae_write : write_outcome
}.

Inductive debug_wait := WaitCollect | WaitWatchStart | WaitWatchStop.

(** An answer, or a wait for request [id] on channel [ch]. *)
Inductive admin_outcome := Answers (resp : adminResponse) | Waits (kind : debug_wait) (id : Z) (ch : nat).

Section Admin.
Context `{UnicodeFold} `{UnicodeLower} `{UrlPackage} `{Codecs}.
Context `{ProtoMessage DebugCollectRequest} `{ProtoMessage DebugWatchStartRequest} `{ProtoMessage DebugWatchStopRequest}.
Context (o : RangeOrder) (sha256 : list byte → list byte) (hmac : string → list byte → list byte) (cfg : Config).
Context (gatewayGrantHardTTL gatewayGrantSoftRefreshLead : Z).
Context (hasStore : bool) (json_Valid : string → bool) (json_Marshal : list (string * json_value) → result string).
Context (version : string).

(** The pushes of a step, sent unless building them failed.  The loop of the code is
    [dispatch]; its [util.IpToUint32] equals [ipToUint32] ([SessionInv.ipToUint32_util]). *)
Definition push_all (env : AdminEnv) (r : Controller * result (list Packet)) (sv : Server) : Server :=
  let sv := with_c r.1 sv in
  match r.2 with
  | Ok pushes => with_s (dispatch o (ae_push env) pushes (sv_s sv)) sv
  | Err _ => sv
  end.

Definition push_gateway_change (env : AdminEnv) (sv : Server) : Server :=
  push_all env (BuildPushDeviceListPacketsForGatewayChangeIfNeeded o hmac cfg gatewayGrantHardTTL
                  gatewayGrantSoftRefreshLead (ae_now env) (ae_rand env) (sv_c sv)) sv.

Definition push_everyone (env : AdminEnv) (sv : Server) : Server :=
  push_all env (BuildPushDeviceListPacketsForGatewayChange o hmac cfg gatewayGrantHardTTL
                  gatewayGrantSoftRefreshLead (ae_now env) (ae_rand env) (sv_c sv)) sv.

Definition push_device_change (env : AdminEnv) (userID deviceID : string) (sv : Server) : Server :=
  push_all env (BuildPushDeviceListPacketsForAuthedDeviceChange o hmac cfg gatewayGrantHardTTL
                  gatewayGrantSoftRefreshLead (ae_now env) (ae_rand env) userID deviceID (sv_c sv)) sv.

Definition with_um (um : UserManager) (sv : Server) : Server := on_c (λ c, c <| c_um := um |>) sv.
Definition with_gw (gw : GatewayState) (sv : Server) : Server := on_c (λ c, c <| c_gw := gw |>) sv.
Definition with_exits (x : ExitNodes) (sv : Server) : Server := on_c (λ c, c <| c_exits := x |>) sv.

Definition exit_list (userID : string) (sv : Server) : adminResponse :=
  accepted <| rs_ExitNodes := ListExitNodes o userID (c_um (sv_c sv)) (c_nc (sv_c sv)) (c_exits (sv_c sv)) |>.

(** The answer of the actions that change devices of [userID]. *)
Definition changed_devices (env : AdminEnv) (userID : string) (updated : list UMAuthDevice) (sv : Server) : adminResponse :=
  let devices := ListDevices o (ae_now env) userID (c_um (sv_c sv)) (c_nc (sv_c sv)) in
  accepted <| rs_Devices := devices |> <| rs_UpdatedDevices := selectUpdatedDeviceViews (ae_now env) updated devices |>
           <| rs_UpdatedCount := Z.of_nat (length updated) |>.

(** Sending the request of a debug action and looking its channel up; [cancel] and
    [pending] are the action's own. *)
Definition send_debug (env : AdminEnv) (kind : debug_wait) (notFound : string)
    (prepared : DebugState * result (Packet * Z * Z)) (cancel : Z → DebugState → DebugState)
    (pending : DebugState → gmap Z nat) (sv : Server) : Server * admin_outcome :=
  let sv := with_debug prepared.1 sv in
  match prepared.2 with
  | Err e => (sv, Answers (refused e))
  | Ok (packet, targetIP, requestID) =>
      match writeToRoute o (ae_write env) (RouteNetworkKey packet) targetIP (Marshal packet) (sv_s sv) with
      | (w, Some e) =>
          (with_debug (cancel requestID (c_debug (sv_c sv))) (with_s w sv), Answers (refused e))
      | (w, None) =>
          let sv := with_s w sv in
          match pending (c_debug (sv_c sv)) !! requestID with
          | None => (sv, Answers (refused (notFound +:+ dec requestID +:+ " not found")))
          | Some ch => (sv, Waits kind requestID ch)
          end
      end
  end.

Definition positive_or (dflt n : Z) : Z := if n <=? 0 then dflt else n.

Definition executeAdminRequest (env : AdminEnv) (req : adminRequest) (sv : Server) : Server * admin_outcome :=
  let c := sv_c sv in
  let action := rq_Action req in
  let userID := TrimSpace (rq_UserID req) in
  let group := TrimSpace (rq_Group req) in
  let deviceID := TrimSpace (rq_DeviceID req) in
  let name := TrimSpace (rq_Name req) in
  let refuse e := (sv, Answers (refused e)) in
  if bool_decide (action = "version") then (sv, Answers (accepted <| rs_Version := TrimSpace version |>))
  else if bool_decide (action = "create_user") then
    match UMCreateUserWithID o cfg (ae_save env) (ae_now env) userID group [TrimSpace (rq_Domain req)] c with
    | (c, Err e) => (with_c c sv, Answers (refused e))
    | (c, Ok user) => (with_c c sv, Answers (accepted <| rs_UserID := u_UserID user |> <| rs_Name := u_Name user |>
                                               <| rs_Domain := u_Domain user |>))
    end
  else if bool_decide (action = "list_users") then
    match UMListUsers o (ae_profiles env) (TrimSpace (rq_IDFilter req)) (TrimSpace (rq_NameFilter req)) (c_um c) with
    | Err e => refuse e
    | Ok users => (sv, Answers (accepted <| rs_Users := users |>))
    end
  else if bool_decide (action ∈ ["issue_device_ticket"; "issue_auth_ticket"]) then
    let group := if bool_decide (group = "") then "default.ms.net" else group in
    match IssueDeviceTicket o (ae_save env) (ae_now env) (ae_ticket env) userID group
            (seconds (positive_or 300 (rq_TTLSeconds req))) (c_um c) with
    | (um, Err e) => (with_um um sv, Answers (refused e))
    | (um, Ok t) => (with_um um sv, Answers (accepted <| rs_Ticket := t_Ticket t |> <| rs_ExpireAtUnix := unix (t_ExpireAt t) |>))
    end
  else if bool_decide (action ∈ ["register_gateway"; "gateway_enlist"]) then
    let gatewayID := TrimSpace (rq_GatewayID req) in
    if bool_decide (gatewayID = "") then refuse "gateway_id required" else
    match ApproveGatewayNodeByID o (cfg_DefaultGatewayID cfg) gatewayID (c_gw c) with
    | (gw, Some e) => (with_gw gw sv, Answers (refused e))
    | (gw, None) => (push_gateway_change env (with_gw gw sv), Answers accepted)
    end
  else if bool_decide (action ∈ ["delist_gateway"; "gateway_delist"]) then
    let gatewayID := TrimSpace (rq_GatewayID req) in
    if bool_decide (gatewayID = "") then refuse "gateway_id required" else
    match DelistGatewayNodeByID o (cfg_DefaultGatewayID cfg) gatewayID (c_gw c) with
    | (gw, Some e) => (with_gw gw sv, Answers (refused e))
    | (gw, None) => (push_gateway_change env (with_gw gw sv), Answers accepted)
    end
  else if bool_decide (action ∈ ["list_gateway"; "gateway_list"]) then
    (sv, Answers (accepted <| rs_Gateways := ListGateways o (cfg_DefaultGatewayID cfg) (ae_now env) (c_gw c) |>))
  else if bool_decide (action = "exit_node_list") then (sv, Answers (exit_list userID sv))
  else if bool_decide (action = "exit_node_approve") then
    match ApproveExitNodeTarget o hasStore userID deviceID name (ae_db env) (c_um c) (c_exits c) with
    | (x, Err e) => (with_exits x sv, Answers (refused e))
    | (x, Ok (userID, deviceID)) =>
        let sv := push_device_change env userID deviceID (with_exits x sv) in (sv, Answers (exit_list userID sv))
    end
  else if bool_decide (action = "exit_node_revoke") then
    match RevokeExitNode hasStore userID deviceID (ae_db env) (c_exits c) with
    | (x, Some e) => (with_exits x sv, Answers (refused e))
    | (x, None) =>
        let sv := push_device_change env userID deviceID (with_exits x sv) in (sv, Answers (exit_list userID sv))
    end
  else if bool_decide (action ∈ ["list_device"; "list_devices"]) then
    if bool_decide (userID = "") then refuse "user_id required"
    else (sv, Answers (accepted <| rs_Devices := ListDevices o (ae_now env) userID (c_um c) (c_nc c) |>))
  else if bool_decide (action = "extend_device_expiry") then
    if bool_decide (userID = "") then refuse "user_id required" else
    match ExtendAuthedDeviceExpiry o (ae_save env) (ae_now env) userID group deviceID
            (seconds (positive_or 2592000 (rq_TTLSeconds req))) (rq_All req) (c_um c) with
    | (um, Err e) => (with_um um sv, Answers (refused e))
    | (um, Ok updated) => let sv := with_um um sv in (sv, Answers (changed_devices env userID updated sv))
    end
  else if bool_decide (action = "delete_device") then
    if bool_decide (userID = "") then refuse "user_id required" else
    match ControllerDeleteAuthedDevice o (ae_save env) userID group deviceID c with
    | (c, Err e) => (with_c c sv, Answers (refused e))
    | (c, Ok deleted) =>
        let sv := push_everyone env (with_c c sv) in (sv, Answers (changed_devices env userID deleted sv))
    end
  else if bool_decide (action = "rename_device") then
    if bool_decide (userID = "") then refuse "user_id required" else
    match ControllerRenameAuthedDevice o (ae_save env) userID group deviceID name c with
    | (c, Err e) => (with_c c sv, Answers (refused e))
    | (c, Ok renamed) =>
        let sv := push_everyone env (with_c c sv) in (sv, Answers (changed_devices env userID [renamed] sv))
    end
  else if bool_decide (action = "dns_domains") then (sv, Answers (accepted <| rs_Domains := ListDNSDomains o cfg |>))
  else if bool_decide (action = "dns_snapshot") then
    match BuildDNSSnapshot o sha256 (cfg_DefaultGatewayID cfg) (ae_now env) cfg (c_nc c) (c_gw c)
            (TrimSpace (rq_Domain req)) group with
    | Err e => refuse e
    | Ok snapshot => (sv, Answers (accepted <| rs_DNSSnapshot := Some snapshot |>))
    end
  else if bool_decide (action = "collect_debug") then
    send_debug env WaitCollect "debug request "
      (PrepareDebugCollectByName o name userID group (rq_Sections req) (c_um c) (c_nc c) (c_debug c))
      CancelDebugCollect (λ d, pending (pendingDebugCollect d)) sv
  else if bool_decide (action = "start_debug_watch") then
    send_debug env WaitWatchStart "debug watch start request "
      (PrepareDebugWatchStartByName o name userID group (rq_Sections req)
         (seconds (positive_or 300 (rq_DurationSec req))) (c_um c) (c_nc c) (c_debug c))
      CancelDebugWatchStart (λ d, pending (pendingDebugWatchStart d)) sv
  else if bool_decide (action = "stop_debug_watch") then
    send_debug env WaitWatchStop "debug watch stop request "
      (PrepareDebugWatchStopByName o name userID group (c_um c) (c_nc c) (c_debug c))
      CancelDebugWatchStop (λ d, pending (pendingDebugWatchStop d)) sv
  else refuse "unsupported action".

(** The end of a wait: [timeout] tells which branch of the [select] is taken;
    [None] means that it goes on. *)
Definition resume (kind : debug_wait) (id : Z) (ch : nat) (timeout : bool) (sv : Server) : Server * option adminResponse :=
  match kind with
  | WaitCollect =>
      let '(d, r) := AwaitDebugCollect id ch timeout (c_debug (sv_c sv)) in
      (with_debug d sv,
       result ← r; Some match result with
         | Err e => refused e
         | Ok result =>
             let answer raw := accepted <| rs_DebugResult := raw |> <| rs_DebugPath := cr_SavedPath result |> in
             if json_Valid (cr_SnapshotJSON result) then answer (cr_SnapshotJSON result)
             else match json_Marshal [("raw", JStr (cr_SnapshotJSON result))] with
               | Err e => refused e
               | Ok raw => answer raw
               end
         end)
  | WaitWatchStart =>
      let '(d, r) := AwaitDebugWatchStart id ch timeout (c_debug (sv_c sv)) in
      (with_debug d sv,
       result ← r; Some match result with
         | Err e => refused e
         | Ok result => accepted <| rs_DebugWatchID := sr_WatchID result |> <| rs_DebugPath := sr_SavedPath result |>
         end)
  | WaitWatchStop =>
      let '(d, r) := AwaitDebugWatchStop id ch timeout (c_debug (sv_c sv)) in
      (with_debug d sv,
       result ← r; Some match result with
         | Err e => refused e
         | Ok result => accepted <| rs_DebugWatchID := tr_WatchID result |> <| rs_DebugPath := tr_SavedPath result |>
         end)
  end.

(** ** HTTP and the unix socket *)
Record http_request := mkHttpRequest {
  hr_Method : string; hr_Path : string; hr_Authorization : string; hr_Query : string → string;
  hr_Body : option string
}.

(** [json.Decode] of a body over the request that holds the action of the path, and
    [json.Unmarshal] of a line of the socket. *)
Context (json_decode : adminRequest → string → result adminRequest) (json_Unmarshal : string → result adminRequest).

Definition adminReadActions : list string :=
  ["gateway_list"; "list_gateway"; "exit_node_list"; "list_device"; "list_devices"; "list_users"; "dns_domains";
   "dns_snapshot"; "version"].

(** [strings.Trim(s, "/")] *)
Fixpoint drop_slashes (l : list ascii) : list ascii :=
  match l with "/"%char :: l' => drop_slashes l' | _ => l end.
Definition trim_slashes (s : string) : string := str (reverse (drop_slashes (reverse (drop_slashes (chars s))))).

Definition admin_action (r : http_request) : string := trim_slashes (TrimPrefix (hr_Path r) "/admin/v1/").

Definition adminRequestFromHTTP (r : http_request) : result adminRequest :=
  let action := admin_action r in
  let req := zeroAdminRequest <| rq_Action := action |> in
  if bool_decide (hr_Method r = "GET") then
    let q := hr_Query r in
    Ok (req <| rq_UserID := q "user_id" |> <| rq_IDFilter := q "id" |> <| rq_NameFilter := q "name" |>
            <| rq_Group := q "group" |> <| rq_DeviceID := q "device_id" |> <| rq_Domain := q "domain" |>
            <| rq_Name := q "name" |>)
  else match hr_Body r with
    | None => Ok req
    | Some body =>
        match json_decode req body with
        | Err e => Err e
        | Ok req => Ok (if bool_decide (TrimSpace (rq_Action req) = "") then req <| rq_Action := action |> else req)
        end
    end.

(** The status and what is answered. *)
Definition adminHTTPHandler (env : AdminEnv) (r : http_request) (sv : Server) : Server * (Z * admin_outcome) :=
  if bool_decide (hr_Method r ≠ "POST") && bool_decide (hr_Method r ≠ "GET")
  then (sv, (405, Answers (refused "method not allowed"))) else
  if bool_decide (hr_Method r ≠ "POST") && negb (bool_decide (admin_action r ∈ adminReadActions))
  then (sv, (405, Answers (refused "this action requires POST"))) else
  match adminRequestFromHTTP r with
  | Err e => (sv, (400, Answers (refused e)))
  | Ok req => let '(sv, out) := executeAdminRequest env req sv in (sv, (200, out))
  end.

Definition adminHTTPAuth (token : string) (env : AdminEnv) (r : http_request) (sv : Server)
    : Server * (Z * admin_outcome) :=
  if bool_decide (TrimSpace (hr_Authorization r) ≠ "Bearer " +:+ TrimSpace token)
  then (sv, (401, Answers (refused "unauthorized"))) else adminHTTPHandler env r sv.

(** One connection of the unix socket; [line] is what was read up to the newline. *)
Definition handleAdminConn (env : AdminEnv) (line : option string) (sv : Server) : Server * admin_outcome :=
  match line with
  | None => (sv, Answers (refused "invalid request"))
  | Some "" => (sv, Answers (refused "invalid request"))
  | Some line =>
      match json_Unmarshal line with
      | Err _ => (sv, Answers (refused "invalid json"))
      | Ok req => executeAdminRequest env req sv
      end
  end.

End Admin.
