(* ===== verification/StoreQueries.v ===== *)
(** * Reading rows: [control/store/postgres.go].

    A query is given by its outcome: an error, or the rows the driver yields with what
    scanning each of them gives, and the error that ended the iteration.  A list is
    all or nothing: it has every row or there is an error. *)
From S2P Require Import Prelude GoString Network UserManager ExitNode Admin.

(** [sql.DB] after [Open]: the limits of its pool. *)
Record Store := mkStore { st_MaxOpenConns : Z; st_MaxIdleConns : Z; st_ConnMaxLifetime : Z }.

(** [opened] is the outcome of [sql.Open]. *)
Definition Open (opened : result unit) : result Store :=
  match opened with Err e => Err ("open database: " +:+ e) | Ok _ => Ok (mkStore 10 2 (5 * minute)) end.

(** [rows.Next] and [rows.Scan]. *)
Record cursor (A : Type) := mkCursor { cu_rows : list (result A); cu_Err : option string }.
Arguments mkCursor {A} _ _.
Arguments cu_rows {A} _.
Arguments cu_Err {A} _.

Fixpoint scan_rows {A} (what : string) (rows : list (result A)) (acc : list A) : result (list A) :=
  match rows with
  | [] => Ok acc
  | Err e :: _ => Err ("scan " +:+ what +:+ ": " +:+ e)
  | Ok a :: rows' => scan_rows what rows' (acc ++ [a])
  end.

Definition list_rows {A} (listing row rows : string) (query : result (cursor A)) : result (list A) :=
  match query with
  | Err e => Err (listing +:+ ": " +:+ e)
  | Ok c =>
      let? l := scan_rows row (cu_rows c) [] in
      match cu_Err c with Some e => Err ("iterate " +:+ rows +:+ ": " +:+ e) | None => Ok l end
  end.

Definition ListWebUserProfiles (query : result (cursor WebUserProfile)) : result (list WebUserProfile) :=
  list_rows "list web user profiles" "web user profile" "web user profiles" query.

(** The approvals as the driver yields them. *)
Definition QueryActiveExitNodeApprovals (query : result (cursor (string * string))) : result (list (string * string)) :=
  list_rows "list active exit-node approvals" "exit-node approval" "exit-node approvals" query.

(** ** All or nothing *)
Lemma scan_rows_ok {A} what (rows : list (result A)) acc l :
  scan_rows what rows acc = Ok l ↔ ∃ read, rows = Ok <$> read ∧ l = acc ++ read.
Proof.
  revert acc. induction rows as [|[a|e] rows IH]; intros acc; cbn [scan_rows].
  - split; [intros [= <-]; exists []; by rewrite app_nil_r|]. by intros ([|] & ? & ->); simplify_eq/=; rewrite app_nil_r.
  - rewrite IH. split; [intros (read & -> & ->); exists (a :: read); by rewrite <-app_assoc|].
    intros ([|b read] & E & ->); simplify_eq/=. exists read. by rewrite <-app_assoc.
  - split; [done|]. by intros ([|] & ? & _).
Qed.

Lemma list_rows_ok {A} listing row rows (query : result (cursor A)) l :
  list_rows listing row rows query = Ok l ↔ query = Ok (mkCursor (Ok <$> l) None).
Proof.
  unfold list_rows. destruct query as [[rs e]|e]; [|done]. cbn [cu_rows cu_Err].
  destruct (scan_rows row rs []) as [l'|e'] eqn:E; cbn.
  - apply scan_rows_ok in E as (read & -> & ->). destruct e as [e|]; [split; [done|by intros [= _]]|].
    split; [by intros [= <-]|]. intros [= Hr]. f_equal. cbn.
    assert (Inj (=) (=) (@Ok A)) by (by intros ? ? [= ->]). by apply (inj (fmap (M := list) (@Ok A))) in Hr.
  - split; [done|]. intros [= -> _]. assert (Hok : scan_rows row (Ok <$> l) [] = Ok l) by (apply scan_rows_ok; by exists l).
    congruence.
Qed.
