(* ===== verification/AdminInv.v ===== *)
(** * Administration: who may change the state, and what is listed. *)
From S2P Require Import Prelude GoString GoText NetIP NetParse Packet Proto ExpireMap Network NetworkInv Config.
From S2P Require Import UserManager UserInv Gateway GatewayInv Punch PunchInv Dns ExitNode DeviceList DebugStore Debug.
From S2P Require Import Controller DeviceAuth DeviceAuthInv Registration RegistrationInv StreamHub StreamHubInv Session.
From S2P Require Import SessionInv Admin.

(** ** Listing devices *)
Lemma merge_device_inv (P : DeviceAdminView → Prop) n devices entry :
  (∀ g ip cl v, P v → P (with_client g ip cl v)) → map_Forall (λ _ v, P v) devices →
  map_Forall (λ _ v, P v) (merge_device n devices entry) ∧ dom (merge_device n devices entry) = dom devices.
Proof.
  intros HP Hall. destruct entry as [ip cl]. unfold merge_device. cbv zeta.
  destruct (devices !! _) as [v|] eqn:Hv; [|done]. split.
  - intros k v' [[<- <-]|[_ ?]]%lookup_insert_Some; [|by eapply Hall]. apply HP. by eapply Hall.
  - rewrite dom_insert_L. apply elem_of_dom_2 in Hv. set_solver.
Qed.

Lemma merge_devices_inv (P : DeviceAdminView → Prop) n devices l :
  (∀ g ip cl v, P v → P (with_client g ip cl v)) → map_Forall (λ _ v, P v) devices →
  map_Forall (λ _ v, P v) (foldl (merge_device n) devices l) ∧ dom (foldl (merge_device n) devices l) = dom devices.
Proof.
  intros HP. revert devices. induction l as [|e l IH]; intros devices Hall; [done|]. cbn [foldl].
  destruct (merge_device_inv P n devices e HP Hall) as [Hall' <-]. by apply IH.
Qed.

Definition record_key (r : UMAuthDevice) : string := device_key (a_GroupName r) (a_DeviceID r).

Lemma record_devices now (records : list UMAuthDevice) (P : DeviceAdminView → Prop) (devices : gmap string DeviceAdminView) :
  (∀ r, r ∈ records → P (record_device now r)) → map_Forall (λ _ v, P v) devices →
  let m := foldl (λ (m : gmap string DeviceAdminView) r, <[record_key r := record_device now r]> m) devices records in
  map_Forall (λ _ v, P v) m ∧ dom m = dom devices ∪ list_to_set (record_key <$> records).
Proof.
  revert devices. induction records as [|r records IH]; intros devices HP Hall; [split; [done|set_solver]|].
  cbn [foldl]. destruct (IH (<[record_key r := record_device now r]> devices)) as [Hm Hd].
  - intros r' ?. apply HP. by right.
  - intros k v [[<- <-]|[_ ?]]%lookup_insert_Some; [apply HP; by left|by eapply Hall].
  - split; [done|]. etrans; [exact Hd|]. rewrite dom_insert_L. set_solver.
Qed.

(** The devices listed for a user are that user's: one view for each
    device the user has authorised, and every view carries that user, whatever other
    users' clients the networks hold. *)
Theorem ListDevices_of_user o now userID um nc :
  Forall (λ v, dv_UserID v = TrimSpace userID) (ListDevices o now userID um nc)
  ∧ length (ListDevices o now userID um nc)
    = if bool_decide (TrimSpace userID = "") then 0%nat
      else size (list_to_set (record_key <$> ListAuthedDevicesByUser o (TrimSpace userID) um) : gset string).
Proof.
  unfold ListDevices. cbv zeta. case_bool_decide as Hu; [done|]. set (user := TrimSpace userID) in *.
  set (records := ListAuthedDevicesByUser o user um). case_bool_decide as Hr; [by rewrite Hr|].
  set (P := λ v : DeviceAdminView, dv_UserID v = user).
  assert (Hrec : ∀ r, r ∈ records → P (record_device now r)).
  { intros r Hin. by apply list_elem_of_filter in Hin as [? _]. }
  destruct (record_devices now records P ∅ Hrec (map_Forall_empty _)) as [Hall Hdom].
  set (m0 := foldl _ ∅ records) in *. set (m := forEachVirtualNetworkRead _ _ _ _ _).
  assert (Hm : map_Forall (λ _ v, P v) m ∧ dom m = dom m0).
  { unfold m. apply (forEachRead_inv o nc "" _ (λ d : gmap string DeviceAdminView, map_Forall (λ _ v, P v) d ∧ dom d = dom m0)); [|done].
    intros key n d Hn [Hd Hdd]. cbn [fst]. rewrite <-Hdd. by apply merge_devices_inv. }
  destruct Hm as [Hm Hdm]. split.
  - rewrite merge_sort_Permutation. apply Forall_forall. intros v ([k v'] & -> & Hin%elem_of_range)%list_elem_of_fmap.
    by apply (Hm k).
  - rewrite merge_sort_Permutation, length_fmap. unfold range. rewrite range_map_perm, length_map_to_list, <-size_dom, Hdm, Hdom.
    f_equal. set_solver.
Qed.

(** ** Who may change the state *)
Section Admin.
Context `{UnicodeFold} `{UnicodeLower} `{UrlPackage} `{Codecs}.
Context `{ProtoMessage DebugCollectRequest} `{ProtoMessage DebugWatchStartRequest} `{ProtoMessage DebugWatchStopRequest}.
Context (o : RangeOrder) (sha256 : list byte → list byte) (hmac : string → list byte → list byte) (cfg : Config).
Context (hardTTL softLead : Z) (hasStore : bool) (version : string).
Context (json_decode : adminRequest → string → result adminRequest).

Abbreviation admin := (executeAdminRequest o sha256 hmac cfg hardTTL softLead hasStore version).
Abbreviation http := (adminHTTPAuth o sha256 hmac cfg hardTTL softLead hasStore version json_decode).

Lemma not_read action : bool_decide (action ∈ adminReadActions) = false → action ∈ adminReadActions → False.
Proof. by case_bool_decide. Qed.

(** The next test of the action: its branch is that of another action, or answers. *)
Ltac not_read_action E Hin := exfalso; first
  [ rewrite E in Hin; refine (not_read _ _ Hin); vm_compute; reflexivity
  | repeat (apply elem_of_cons in E as [E|E]; [rewrite E in Hin; refine (not_read _ _ Hin); vm_compute; reflexivity|]); by apply not_elem_of_nil in E ].
Ltac test_action Hin := match goal with |- ∃ _, (if @bool_decide ?P ?d then _ else _) = _ =>
    let E := fresh "E" in destruct (@bool_decide_reflect P d) as [E|E];
    [first [not_read_action E Hin|repeat case_match; eexists; reflexivity]|clear E] end.

(** A read action answers at once and changes nothing. *)
Lemma read_actions_answer env req sv : rq_Action req ∈ adminReadActions → ∃ resp, admin env req sv = (sv, Answers resp).
Proof.
  intros Hin. unfold executeAdminRequest. cbv zeta.
  repeat test_action Hin. by eexists.
Qed.

Lemma read_actions_read env req sv : rq_Action req ∈ adminReadActions → (admin env req sv).1 = sv.
Proof. intros Hin. by destruct (read_actions_answer env req sv Hin) as [resp ->]. Qed.

(** C10 (safety). Over HTTP the state changes only for a POST that carries the
    configured token, and only if one is configured: a blank token admits nobody, a
    wrong one is answered 401, and a GET can only read, whatever its path, query or
    body. *)
Theorem admin_change_needs_token_and_post token env r sv :
  (http token env r sv).1 = sv
  ∨ (hr_Method r = "POST" ∧ TrimSpace (hr_Authorization r) = "Bearer " +:+ TrimSpace token ∧ TrimSpace token ≠ "").
Proof.
  unfold adminHTTPAuth. case_bool_decide as Ha; [by left|].
  assert (Ht : TrimSpace token ≠ "").
  { intros Ht. rewrite Ht in Ha. pose proof (TrimSpace_idem (hr_Authorization r)) as Hi. rewrite Ha in Hi. by vm_compute in Hi. }
  unfold adminHTTPHandler. destruct (decide (hr_Method r = "POST")) as [Hp|Hp]; [by right|left].
  rewrite (bool_decide_eq_true_2 (hr_Method r ≠ "POST")) by done. cbn [andb]. case_bool_decide as Hg; [done|].
  case_bool_decide as Hread; cbn [negb]; [|done]. unfold adminRequestFromHTTP. rewrite bool_decide_eq_true_2 by done. cbv zeta.
  match goal with |- context [admin env ?q sv] => pose proof (read_actions_read env q sv Hread) as Hsv; destruct (admin env q sv) as [sv' out] end.
  done.
Qed.
End Admin.
