(* ===== verification/ServerInv.v ===== *)
(** * The server: sessions, administration and the registry of streams together.

    A [System] is the shared state and the local variables of the sessions that are
    being served.  Its steps are a session opening, handling one frame or ending, an
    administrative request, and the end of a wait of one; they interleave in any
    order.  A step that panics ends the process. *)
From S2P Require Import Prelude GoString GoText NetIP NetParse Packet Proto ExpireMap Network NetworkInv Config.
From S2P Require Import ConfigInv UserManager UserInv Gateway GatewayInv Punch PunchInv Dns ExitNode DeviceList.
From S2P Require Import DebugStore Debug DebugInv Controller ControllerInv DeviceAuth DeviceAuthInv Registration.
From S2P Require Import RegistrationInv.
From S2P Require Import StreamHub StreamHubInv Session SessionInv Admin.

(** ** What a step does to the registry *)
Section Paths.
Context (o : RangeOrder).

Definition hub_path (P : hub_op → Prop) (w w' : Sessions) : Prop := ∃ ops, Forall P ops ∧ w' = foldl (hub_step o) w ops.

Lemma path_refl P w : hub_path P w w.
Proof. by exists []. Qed.

Lemma path_one (P : hub_op → Prop) w op : P op → hub_path P w (hub_step o w op).
Proof. intros ?. exists [op]. split; [by constructor|done]. Qed.

Lemma path_trans P w1 w2 w3 : hub_path P w1 w2 → hub_path P w2 w3 → hub_path P w1 w3.
Proof. intros (l & Hl & ->) (l' & Hl' & ->). exists (l ++ l'). by rewrite Forall_app, foldl_app. Qed.

Lemma path_mono (P Q : hub_op → Prop) w w' : (∀ op, P op → Q op) → hub_path P w w' → hub_path Q w w'.
Proof. intros HPQ (l & Hl & ->). exists l. split; [by eapply Forall_impl|done]. Qed.

(** Writes: no session comes, goes or registers. *)
Definition writes (op : hub_op) : Prop := match op with HDeliver _ _ _ | HReply _ _ _ => True | _ => False end.

Lemma path_reply io id p w : hub_path writes w (reply io id p w).1.
Proof. by apply (path_one writes w (HReply io id (Marshal p))). Qed.

Lemma path_writeToRoute io net ip payload w : hub_path writes w (writeToRoute o io net ip payload w).1.
Proof.
  rewrite writeToRoute_eq. destruct (route_target net ip (hub w)) as [t|]; [|apply path_refl].
  by apply (path_one writes w (HDeliver io t payload)).
Qed.

Lemma path_dispatch io pushes w : hub_path writes w (dispatch o io pushes w).
Proof.
  revert io w. induction pushes as [|p pushes IH]; intros io w; [apply path_refl|]. cbn [dispatch].
  eapply path_trans; [|apply IH]. case_bool_decide; [apply path_refl|apply path_writeToRoute].
Qed.

(** A session keeps its address. *)
Definition keeps_remotes (w w' : Sessions) : Prop :=
  ∀ id st, streams w !! id = Some st → ∃ st', streams w' !! id = Some st' ∧ ss_remoteAddr st' = ss_remoteAddr st.

Lemma keeps_trans w1 w2 w3 : keeps_remotes w1 w2 → keeps_remotes w2 w3 → keeps_remotes w1 w3.
Proof. intros H1 H2 id st (st1 & Hs1 & E1)%H1. apply H2 in Hs1 as (st2 & ? & ?). exists st2. split; [done|congruence]. Qed.

Lemma keeps_update target f w : (∀ s, ss_remoteAddr (f s) = ss_remoteAddr s) → keeps_remotes w (update_stream target f w).
Proof.
  intros Hf id st Hst. simpl. unfold const. destruct (decide (id = target)) as [->|Hne].
  - rewrite lookup_alter_eq, Hst. simpl. exists (f st). by rewrite Hf.
  - rewrite lookup_alter_ne by done. by exists st.
Qed.

Lemma keeps_hub w w' : streams w' = streams w → keeps_remotes w w'.
Proof. intros E id st Hst. exists st. by rewrite E. Qed.

Lemma keeps_step w op : keeps_remotes w (hub_step o w op).
Proof.
  destruct op as [s addr|s net ip|s|net ip s|io s payload|io s payload]; cbn [hub_step].
  - case_bool_decide as Hn; [by apply keeps_hub|]. intros id st Hst. simpl. unfold const. exists st. split; [|done].
    rewrite lookup_insert_ne; [done|]. intros <-. apply Hn. left. by eexists.
  - destruct (streams w !! s) as [st|]; [|by apply keeps_hub]. unfold registerSession. destruct (_ =? 0); [by apply keeps_hub|].
    cbv zeta. destruct (match byRoute (hub w) !! _ with Some _ => _ | None => _ end) as [prev|]; [|by apply keeps_hub].
    eapply keeps_trans; [|by apply (keeps_update prev close_stream)]. by apply keeps_hub.
  - eapply keeps_trans; [by apply (keeps_update s close_stream)|]. apply keeps_hub, streams_unregister.
  - unfold unregisterStaleRoute. by case_bool_decide; apply keeps_hub.
  - destruct (streams w !! s) as [st|] eqn:Hst; [|unfold deliver; rewrite Hst; by apply keeps_hub].
    rewrite (deliver_eq _ _ _ _ _ _ Hst). cbv zeta. eapply keeps_trans;
      [apply (keeps_update s (λ st, (writeFramedWriter io payload st).1)), write_remote|].
    destruct io; [by apply keeps_hub|]. eapply keeps_trans; [|by apply (keeps_update s close_stream)]. apply keeps_hub, streams_unregister.
  - apply keeps_update, write_remote.
Qed.

Lemma path_keeps P w w' : hub_path P w w' → keeps_remotes w w'.
Proof.
  intros (ops & _ & ->). revert w. induction ops as [|op ops IH]; intros w; [by apply keeps_hub|]. cbn [foldl].
  eapply keeps_trans; [apply keeps_step|apply IH].
Qed.

Lemma path_ok P w w' : hub_path P w w' → hub_ok w → hub_ok w'.
Proof.
  intros (ops & _ & ->) Hok. assert (Hrel : hub_rel w (dom (streams w), byRoute (hub w))) by done.
  revert Hrel. generalize (dom (streams w), byRoute (hub w)). clear Hok. revert w.
  induction ops as [|op ops IH]; intros w sp Hrel; [by destruct Hrel|]. cbn [foldl]. by eapply IH, hub_step_rel.
Qed.
End Paths.

(** ** One frame *)
Section Frame.
Context `{UnicodeFold} `{UnicodeLower} `{UrlPackage} `{Codecs}.
Context (o : RangeOrder) (sha256 : list byte → list byte) (hmac : string → list byte → list byte)
  (ed25519 : list byte → list byte → list byte → bool) (cfg : Config).
Context (hardTTL softLead : Z).
Context (store : option DebugSnapshotStore) (json_Valid : string → bool)
  (json_Marshal : list (string * json_value) → result string).
Hypothesis long_lived : 30 * second + 10 ^ 6 ≤ hardTTL.
Hypothesis config_ok : checked_config cfg.
Hypothesis decoded_ok : uint32_decoded.

Abbreviation register := (HandleRegistrationPacketWithVirtualIPAndCapabilities o sha256 hmac cfg hardTTL softLead).

(** A registration request of session [id] that was accepted against the users [um]. *)
Definition registered (env : StepEnv) (addr : string) (raw : list byte) (um : UserManager) (net : string) (ip : Z) : Prop :=
  ∃ packet key caps c c' resp identity, Unmarshal raw = Ok packet ∧ AppProto packet = AppProtoRegistrationRequest
    ∧ c_um c = um ∧ wf_networks (c_nc c)
    ∧ register (e_save env) (e_now env) (e_rand env 1%nat 0) (packet <| RouteNetworkKey := key |>) addr caps c
      = (c', Ok (resp, ip, identity)) ∧ net = Key identity.

(** What one step does: the controller stays well formed, and the registry moves
    along the steps that [P] allows. *)
Definition step_ok (P : hub_op → Prop) (sv sv' : Server) : Prop :=
  (ctrl_ok o (sv_c sv) → ctrl_ok o (sv_c sv')) ∧ hub_path o P (sv_s sv) (sv_s sv').

Lemma step_refl P sv : step_ok P sv sv.
Proof. split; [done|apply path_refl]. Qed.

Lemma step_trans P sv1 sv2 sv3 : step_ok P sv1 sv2 → step_ok P sv2 sv3 → step_ok P sv1 sv3.
Proof. intros [Ha Hb] [Hc Hd]. split; [auto|by eapply path_trans]. Qed.

Lemma step_mono (P Q : hub_op → Prop) sv sv' : (∀ op, P op → Q op) → step_ok P sv sv' → step_ok Q sv sv'.
Proof. intros HPQ [? ?]. split; [done|by eapply path_mono]. Qed.

Lemma step_c P sv c : (ctrl_ok o (sv_c sv) → ctrl_ok o c) → step_ok P sv (with_c c sv).
Proof. intros Hc. split; [done|apply path_refl]. Qed.

Lemma step_nc P sv nc : (wf_networks (c_nc (sv_c sv)) → wf_networks nc) → step_ok P sv (with_nc nc sv).
Proof. intros Hc. split; [|apply path_refl]. intros Hok. apply ctrl_set_nc; [done|]. by apply Hc, Hok. Qed.

Lemma step_debug P sv d : (debug_ok (c_debug (sv_c sv)) → debug_ok d) → step_ok P sv (with_debug d sv).
Proof. intros Hc. split; [|apply path_refl]. intros Hok. apply ctrl_set_debug; [done|]. by apply Hc, Hok. Qed.

Lemma step_s (P : hub_op → Prop) sv w : hub_path o P (sv_s sv) w → step_ok P sv (with_s w sv).
Proof. intros Hp. by split. Qed.

(** The outcome of a handler that is one call of the controller. *)
Lemma step_call P {A} (f : Controller → Controller * A) sv : (∀ c, ctrl_ok o c → ctrl_ok o (f c).1) →
  step_ok P sv (with_c (f (sv_c sv)).1 sv).
Proof. intros Hf. apply step_c, Hf. Qed.

Lemma gateway_pushes_ok P env n sv : step_ok P sv (gateway_pushes o hmac cfg hardTTL softLead env n sv).1.
Proof.
  unfold gateway_pushes.
  pose proof (ok_push_gateway_if_needed o hmac cfg hardTTL softLead long_lived (e_now env) (e_rand env n) (sv_c sv)) as Hok.
  destruct (BuildPushDeviceListPacketsForGatewayChangeIfNeeded _ _ _ _ _ _ _ _) as [c r]. by apply step_c.
Qed.

Lemma peer_pushes_ok P env key ip sv : step_ok P sv (peer_pushes o hmac cfg hardTTL softLead env key ip sv).1.
Proof.
  unfold peer_pushes.
  pose proof (ok_push_peer o hmac cfg hardTTL softLead long_lived (e_now env) (e_rand env 2%nat) key ip (sv_c sv)) as Hok.
  destruct (BuildPushDeviceListPacketsForPeerChangeInNetwork _ _ _ _ _ _ _ _ _ _) as [c r]. by apply step_c.
Qed.

(** The steps of the registry that handling [raw] may cause. *)
Definition frame_steps (env : StepEnv) (id : Z) (addr : string) (raw : list byte) (um : UserManager) (op : hub_op) : Prop :=
  writes op ∨ ∃ net ip, op = HRegister id net ip ∧ registered env addr raw um net ip.

Lemma usable_u32 n ip : usable n ip → u32 ip = ip.
Proof.
  intros [Hr _]. unfold first_ip, last_ip in Hr. apply u32_small.
  pose proof (u32_range (network_ip (Gateway n) (Netmask n) + 1)). pose proof (u32_range (broadcast_ip (Gateway n) (Netmask n) - 1)). lia.
Qed.

Lemma dispatch_ok (P : hub_op → Prop) io pushes sv : (∀ op, writes op → P op) →
  step_ok P sv (with_s (dispatch o io pushes (sv_s sv)) sv).
Proof. intros HP. apply step_s. eapply path_mono; [exact HP|]. apply path_dispatch. Qed.

Lemma reply_ok (P : hub_op → Prop) io id p sv : (∀ op, writes op → P op) → step_ok P sv (with_s (reply io id p (sv_s sv)).1 sv).
Proof. intros HP. apply step_s. eapply path_mono; [exact HP|]. apply path_reply. Qed.

Section Branches.
Context (env : StepEnv) (id : Z) (addr : string) (raw : list byte) (packet0 : Packet) (key : string) (st : sessionStream).
Hypothesis raw_packet : Unmarshal raw = Ok packet0.
Hypothesis at_addr : ss_remoteAddr st = addr.
Let packet : Packet := packet0 <| RouteNetworkKey := key |>.

Abbreviation allowed := (frame_steps env id addr raw).

Lemma writes_allowed um op : writes op → allowed um op.
Proof. by left. Qed.
Hint Resolve writes_allowed : sdl.

Lemma registration_ok cn sv : AppProto packet0 = AppProtoRegistrationRequest → ctrl_ok o (sv_c sv) →
  streams (sv_s sv) !! id = Some st →
  step_ok (allowed (c_um (sv_c sv))) sv (on_registration o sha256 hmac cfg hardTTL softLead env id addr packet cn sv).1.1.
Proof.
  intros Happ Hok Hst. unfold on_registration.
  pose proof (ok_register o sha256 hmac cfg hardTTL softLead long_lived (e_save env) (e_now env) (e_rand env 1%nat 0) packet addr
    (sessionCapabilities cn) (sv_c sv) Hok config_ok decoded_ok) as Hok'.
  destruct (register _ _ _ packet addr _ (sv_c sv)) as [c [[[resp ip] identity]|e]] eqn:Ereg; cbn [fst] in Hok'.
  - cbv zeta. change (sessionNetworkKey (cn <| sessionNetworkKey := Key identity |>)) with (Key identity).
    set (sv1 := with_s _ (with_c c sv)).
    assert (Hsv1 : step_ok (allowed (c_um (sv_c sv))) sv sv1).
    { split; [done|]. destruct (registration_facts o sha256 hmac cfg hardTTL softLead _ _ _ _ _ _ _ _ _ _ _
        (co_networks _ _ Hok) config_ok decoded_ok Ereg) as (reg & rec & n' & _ & _ & _ & _ & _ & _ & Hu & _).
      assert (E : sv_s sv1 = hub_step o (sv_s sv) (HRegister id (Key identity) ip)).
      { unfold sv1. cbn [hub_step]. rewrite Hst, at_addr, (usable_u32 _ _ Hu). done. }
      rewrite E. apply path_one. right. exists (Key identity), ip. split; [done|].
      exists packet0, key, (sessionCapabilities cn), (sv_c sv), c, resp, identity. split_and!; try done. apply Hok. }
    pose proof (peer_pushes_ok (allowed (c_um (sv_c sv))) env (Key identity) ip sv1) as Hp.
    destruct (peer_pushes _ _ _ _ _ _ _ _ sv1) as [sv2 deferred]. by eapply step_trans.
  - cbv zeta. destruct (BuildRegistrationErrorPacket _ _) as [errPacket|]; [|by apply step_c].
    eapply step_trans; [apply (step_c _ sv c); done|].
    pose proof (reply_ok (allowed (c_um (sv_c sv))) (e_reply env) id errPacket (with_c c sv)) as Hr.
    destruct (reply _ _ _ _) as [w err]. apply Hr. auto with sdl.
Qed.

Lemma status_ok um cn sv : step_ok (allowed um) sv (on_status o hmac cfg hardTTL softLead env packet cn sv).
Proof.
  unfold on_status.
  pose proof (wf_status o (e_now env) packet (sessionNetworkKey cn) (c_nc (sv_c sv))) as Hst.
  destruct (HandleClientStatusInfoPacketInNetwork _ _ _ _ _) as [nc changed]. cbn [fst] in Hst.
  set (sv1 := with_nc nc sv). assert (Hsv1 : step_ok (allowed um) sv sv1) by (by apply step_nc).
  set (sv2 := match changed with Ok true => _ | _ => _ end).
  assert (Hsv2 : step_ok (allowed um) sv sv2).
  { eapply step_trans; [exact Hsv1|]. unfold sv2. destruct changed as [[]|]; [|apply step_refl..].
    pose proof (peer_pushes_ok (allowed um) env (sessionNetworkKey cn) (ipToUint32 (SrcIP packet)) sv1) as Hp.
    destruct (peer_pushes _ _ _ _ _ _ _ _ sv1) as [sv3 pushes]. eapply step_trans; [exact Hp|].
    apply dispatch_ok. auto with sdl. }
  clearbody sv2. eapply step_trans; [exact Hsv2|].
  pose proof (same_punch_starts o o (e_now env) (e_clock env) packet (sessionNetworkKey cn) (c_nc (sv_c sv2))) as Hs.
  destruct (BuildPunchStartPacketsFromStatusInNetwork _ _ _ _ _ _ _) as [nc2 [starts|]]; cbn [fst] in Hs.
  - eapply step_trans; [apply (step_nc _ sv2 nc2); by apply same_networks_wf|]. apply (dispatch_ok _ _ _ (with_nc nc2 sv2)). auto with sdl.
  - apply step_nc. by apply same_networks_wf.
Qed.

Lemma punch_request_ok um deferred cn sv : step_ok (allowed um) sv (on_punch_request o env packet deferred cn sv).1.
Proof.
  unfold on_punch_request.
  pose proof (same_punch_request o (e_now env) packet (sessionNetworkKey cn) (c_nc (sv_c sv))) as Hs.
  destruct (HandlePunchRequestPacketInNetwork _ _ _ _ _) as [nc [resp|]]; cbn [fst] in Hs; cbv zeta.
  - assert (Hsv1 : step_ok (allowed um) sv (with_nc nc sv)) by (apply step_nc; by apply same_networks_wf).
    destruct (BuildPunchStartPacketsInNetwork _ _ _ _) as [starts|]; [|done].
    eapply step_trans; [exact Hsv1|]. apply (dispatch_ok _ _ _ (with_nc nc sv)). auto with sdl.
  - apply step_nc. by apply same_networks_wf.
Qed.

Lemma branch_ok deferred cn sv : ctrl_ok o (sv_c sv) → streams (sv_s sv) !! id = Some st →
  step_ok (allowed (c_um (sv_c sv))) sv
    (service_branch o sha256 hmac ed25519 cfg hardTTL softLead store json_Valid json_Marshal env id addr packet deferred cn sv).1.1.
Proof.
  intros Hok Hst. unfold service_branch. cbv zeta. change (AppProto packet) with (AppProto packet0).
  destruct (Z.eqb_spec (AppProto packet0) AppProtoHandshakeRequest).
  { unfold on_handshake. pose proof (ok_handshake o packet (Some addr) (sv_c sv)) as Hc.
    destruct (HandleHandshakePacket _ _ _) as [c [resp|]]; by apply step_c. }
  destruct (Z.eqb_spec (AppProto packet0) AppProtoRegistrationRequest); [by apply registration_ok|].
  destruct (_ =? AppProtoPullDeviceList).
  { pose proof (ok_pull o hmac cfg hardTTL softLead long_lived (e_now env) (e_rand env 1%nat 0) packet (sessionNetworkKey cn) (sv_c sv)) as Hc.
    destruct (HandlePullDeviceListPacketInNetwork _ _ _ _ _ _ _ _ _ _) as [c r]. by apply step_c. }
  destruct (_ =? AppProtoDeviceAuthRequest).
  { pose proof (ok_auth_request o sha256 (e_now env) (e_nonce env) (e_challenge env) packet (sv_c sv)) as Hc.
    destruct (HandleDeviceAuthPacket _ _ _ _ _ _) as [c r]. by apply step_c. }
  destruct (_ =? AppProtoDeviceAuthProof).
  { pose proof (ok_auth_proof o sha256 ed25519 (e_save env) (e_now env) packet (sv_c sv)) as Hc.
    destruct (HandleDeviceAuthProofPacket _ _ _ _ _ _ _) as [c [r|]]; by apply step_c. }
  destruct (_ =? AppProtoGatewayReportRequest).
  { pose proof (wf_Report o hmac (cfg_GatewayTicketSecret cfg) (cfg_DefaultGatewayID cfg) (e_now env) packet (c_gw (sv_c sv))) as Hg.
    destruct (HandleGatewayReportPacket _ _ _ _ _ _ _) as [gw [resp|]]; cbn [fst] in Hg;
      assert (Hsv1 : step_ok (allowed (c_um (sv_c sv))) sv (on_c (λ c, c <| c_gw := gw |>) sv))
        by (apply (step_c _ sv ((sv_c sv) <| c_gw := gw |>)); intros ?; apply ctrl_set_gw; [done|apply Hg, Hok]); [|done].
    pose proof (gateway_pushes_ok (allowed (c_um (sv_c sv))) env 3%nat (on_c (λ c, c <| c_gw := gw |>) sv)) as Hp.
    destruct (gateway_pushes _ _ _ _ _ _ _ _) as [sv2 more]. by eapply step_trans. }
  destruct (_ =? AppProtoRefreshGatewayGrantRequest).
  { pose proof (ok_refresh o hmac cfg hardTTL softLead long_lived (e_now env) (e_rand env 1%nat 0) packet (sessionNetworkKey cn) (sv_c sv)) as Hc.
    destruct (HandleRefreshGatewayGrantPacketInNetwork _ _ _ _ _ _ _ _ _ _) as [c r]. by apply step_c. }
  destruct (_ =? AppProtoDNSQueryRequest); [apply step_refl|].
  destruct (_ =? AppProtoDeviceRenameRequest).
  { pose proof (ok_rename o sha256 (e_save env) packet (sv_c sv)) as Hc.
    destruct (HandleDeviceRenamePacket _ _ _ _) as [c r]. by apply step_c. }
  destruct (_ =? AppProtoClientStatusInfo); [apply status_ok|].
  destruct (_ =? AppProtoDebugCollectResponse); [apply step_debug; intros Hd|].
  { unfold HandleDebugCollectResponse. destruct (proto_unmarshal _) as [resp|]; [|done]. by apply debug_ok_resolveCollect. }
  destruct (_ =? AppProtoDebugWatchStartResponse); [apply step_debug; by apply debug_ok_start|].
  destruct (_ =? AppProtoDebugWatchStopResponse); [apply step_debug; by apply debug_ok_stop|].
  destruct (_ =? AppProtoDebugWatchEvent); [apply step_debug; by apply debug_ok_event|].
  destruct (_ =? AppProtoPunchRequest).
  { pose proof (punch_request_ok (c_um (sv_c sv)) deferred cn sv) as Hp. by destruct (on_punch_request _ _ _ _ _ _) as [sv1 b]. }
  destruct (_ =? AppProtoPunchAck); [apply step_nc; apply same_networks_wf, same_punch_ack|].
  destruct (_ =? AppProtoPunchResult); [apply step_nc; apply same_networks_wf, same_punch_result|].
  apply step_refl.
Qed.

Lemma gateway_pushes_users n sv : c_um (sv_c (gateway_pushes o hmac cfg hardTTL softLead env n sv).1) = c_um (sv_c sv)
  ∧ sv_s (gateway_pushes o hmac cfg hardTTL softLead env n sv).1 = sv_s sv.
Proof.
  unfold gateway_pushes, BuildPushDeviceListPacketsForGatewayChangeIfNeeded. cbv zeta.
  destruct (syncGatewayGrantPolicyLocked _ _) as [g [rev ch]]. destruct (negb ch); [done|].
  destruct (push_only_gateways o hmac cfg hardTTL softLead long_lived (e_now env) (e_rand env n) ((sv_c sv) <| c_gw := g |>))
    as [_ (gw & E & _)].
  destruct (BuildPushDeviceListPacketsForGatewayChange _ _ _ _ _ _ _ _) as [c r]. cbn [fst] in E. by subst c.
Qed.

Lemma service_ok cn sv : ctrl_ok o (sv_c sv) → streams (sv_s sv) !! id = Some st →
  step_ok (allowed (c_um (sv_c sv))) sv
    (handle_service o sha256 hmac ed25519 cfg hardTTL softLead store json_Valid json_Marshal env id addr packet cn sv).1.1.
Proof.
  intros Hok Hst. unfold handle_service.
  pose proof (gateway_pushes_ok (allowed (c_um (sv_c sv))) env 0%nat sv) as Hg.
  destruct (gateway_pushes_users 0%nat sv) as [Hum Hs].
  destruct (gateway_pushes _ _ _ _ _ _ _ sv) as [sv1 deferred]. cbn [fst] in *.
  pose proof (branch_ok deferred cn sv1 (proj1 Hg Hok) ltac:(by rewrite Hs)) as Hb. rewrite Hum in Hb.
  destruct (service_branch _ _ _ _ _ _ _ _ _ _ _ _ _ _ _ _ sv1) as [[sv2 cn2] b]. cbn [fst] in Hb.
  pose proof (step_trans _ _ _ _ Hg Hb) as H12. destruct b as [|resp pushes| |]; [done| |done|done].
  pose proof (reply_ok (allowed (c_um (sv_c sv))) (e_reply env) id resp sv2 ltac:(auto with sdl)) as Hr.
  destruct (reply _ _ _ _) as [w [e|]]; cbn [fst] in Hr; [by eapply step_trans|].
  eapply step_trans; [exact H12|]. eapply step_trans; [exact Hr|]. apply (dispatch_ok _ _ _ (with_s w sv2)). auto with sdl.
Qed.
End Branches.

Lemma frame_ok env id addr raw cn sv st : ctrl_ok o (sv_c sv) → streams (sv_s sv) !! id = Some st → ss_remoteAddr st = addr →
  step_ok (frame_steps env id addr raw (c_um (sv_c sv))) sv
    (handle_frame o sha256 hmac ed25519 cfg hardTTL softLead store json_Valid json_Marshal env id addr raw cn sv).1.1.
Proof.
  intros Hok Hst Haddr. unfold handle_frame. destruct (Unmarshal raw) as [packet|] eqn:Eraw; [|apply step_refl]. cbv zeta.
  assert (Hrest : ∀ sv1 cn1, step_ok (frame_steps env id addr raw (c_um (sv_c sv))) sv sv1 →
      c_um (sv_c sv1) = c_um (sv_c sv) → sv_s sv1 = sv_s sv →
      step_ok (frame_steps env id addr raw (c_um (sv_c sv))) sv
        (if Proto packet =? ProtocolService
         then handle_service o sha256 hmac ed25519 cfg hardTTL softLead store json_Valid json_Marshal env id addr
                (packet <| RouteNetworkKey := sessionNetworkKey cn |>) cn1 sv1
         else if Proto packet =? ProtocolControl
         then handle_control o env id addr (packet <| RouteNetworkKey := sessionNetworkKey cn |>) cn1 sv1
         else (sv1, cn1, Next)).1.1).
  { intros sv1 cn1 Hsv1 Hum Hs. destruct (_ =? ProtocolService).
    - eapply step_trans; [exact Hsv1|]. rewrite <-Hum. eapply service_ok; [done|done|by apply Hsv1|by rewrite Hs].
    - destruct (_ =? ProtocolControl); [|done]. eapply step_trans; [exact Hsv1|]. unfold handle_control.
      pose proof (wf_control o (e_now env) (packet <| RouteNetworkKey := sessionNetworkKey cn |>) addr (sessionNetworkKey cn1)
        (c_nc (sv_c sv1))) as Hc.
      destruct (HandleControlPacketInNetwork _ _ _ _ _ _) as [nc [resp|]]; cbn [fst] in Hc; [|by apply step_nc].
      pose proof (reply_ok (frame_steps env id addr raw (c_um (sv_c sv))) (e_reply env) id resp (with_nc nc sv1) ltac:(by left)) as Hr.
      cbv zeta. destruct (reply _ _ _ _) as [w [e|]]; cbn [fst] in Hr; (eapply step_trans; [by apply (step_nc _ sv1 nc)|done]). }
  destruct (1000 <=? _).
  - apply Hrest; [|done|done]. apply step_nc. apply same_networks_wf, same_reconcile.
  - apply Hrest; [apply step_refl|done|done].
Qed.

(** ** Administration *)
Context `{ProtoMessage DebugCollectRequest} `{ProtoMessage DebugWatchStartRequest} `{ProtoMessage DebugWatchStopRequest}.
Context (hasStore : bool) (version : string).

Abbreviation admin := (executeAdminRequest o sha256 hmac cfg hardTTL softLead hasStore version).

Lemma push_all_ok env r sv : (ctrl_ok o (sv_c sv) → ctrl_ok o r.1) → step_ok writes sv (push_all o env r sv).
Proof.
  intros Hr. unfold push_all. assert (Hc : step_ok writes sv (with_c r.1 sv)) by (by apply step_c).
  destruct r.2 as [pushes|]; [|done]. eapply step_trans; [exact Hc|]. by apply (dispatch_ok _ _ _ (with_c r.1 sv)).
Qed.

Lemma step_um P sv um : (wf_um (c_um (sv_c sv)) → wf_um um) → step_ok P sv (with_um um sv).
Proof. intros Hc. split; [|apply path_refl]. intros Hok. apply ctrl_set_um; [done|]. by apply Hc, Hok. Qed.

Lemma step_gw P sv gw : (wf_gateway o (c_gw (sv_c sv)) → wf_gateway o gw) → step_ok P sv (with_gw gw sv).
Proof. intros Hc. split; [|apply path_refl]. intros Hok. apply ctrl_set_gw; [done|]. by apply Hc, Hok. Qed.

Lemma step_exits P sv x : step_ok P sv (with_exits x sv).
Proof. split; [|apply path_refl]. by intros []. Qed.

Lemma send_debug_ok env kind msg prepared cancel pend sv :
  (debug_ok (c_debug (sv_c sv)) → debug_ok prepared.1) → (∀ id d, debug_ok d → debug_ok (cancel id d)) →
  step_ok writes sv (send_debug o env kind msg prepared cancel pend sv).1.
Proof.
  intros Hp Hc. unfold send_debug. cbv zeta.
  assert (Hsv1 : step_ok writes sv (with_debug prepared.1 sv)) by (by apply step_debug).
  destruct prepared.2 as [[[packet ip] rid]|]; [|done].
  pose proof (path_writeToRoute o (ae_write env) (RouteNetworkKey packet) ip (Marshal packet) (sv_s (with_debug prepared.1 sv))) as Hw.
  destruct (writeToRoute _ _ _ _ _ _) as [w [e|]]; cbn [fst] in Hw.
  - eapply step_trans; [exact Hsv1|]. eapply step_trans; [by apply (step_s _ (with_debug prepared.1 sv) w)|].
    apply (step_debug _ (with_s w (with_debug prepared.1 sv))). by apply Hc.
  - eapply step_trans; [exact Hsv1|].
    assert (Hsv2 : step_ok writes (with_debug prepared.1 sv) (with_s w (with_debug prepared.1 sv))) by (by apply step_s).
    by destruct (pend _ !! rid).
Qed.

(** Changes that are followed by pushes. *)
Lemma gw_change_ok env sv (r : GatewayState * option string) :
  (wf_gateway o (c_gw (sv_c sv)) → wf_gateway o r.1) →
  step_ok writes sv match r with
    | (gw, Some e) => (with_gw gw sv, Answers (refused e))
    | (gw, None) => (push_gateway_change o hmac cfg hardTTL softLead env (with_gw gw sv), Answers accepted)
    end.1.
Proof.
  destruct r as [gw [e|]]; cbn [fst]; intros Hg; [by apply step_gw|].
  eapply step_trans; [by apply (step_gw _ sv gw)|]. apply push_all_ok. by apply ok_push_gateway_if_needed.
Qed.

Lemma device_push_ok env userID deviceID sv sv' : step_ok writes sv sv' →
  step_ok writes sv (push_device_change o hmac cfg hardTTL softLead env userID deviceID sv').
Proof. intros Hs. eapply step_trans; [exact Hs|]. apply push_all_ok. by apply ok_push_device. Qed.

Lemma device_change_ok {A} env userID (devices : A → list UMAuthDevice) sv (r : Controller * result A) :
  (ctrl_ok o (sv_c sv) → ctrl_ok o r.1) →
  step_ok writes sv match r with
    | (c, Err e) => (with_c c sv, Answers (refused e))
    | (c, Ok a) =>
        let sv := push_everyone o hmac cfg hardTTL softLead env (with_c c sv) in
        (sv, Answers (changed_devices o env userID (devices a) sv))
    end.1.
Proof.
  destruct r as [c [a|]]; cbn [fst]; intros Hc; [|by apply step_c].
  eapply step_trans; [by apply (step_c _ sv c)|]. apply push_all_ok. by apply ok_push_gateway.
Qed.

Lemma admin_ok env req sv : step_ok writes sv (admin env req sv).1.
Proof.
  unfold executeAdminRequest. cbv zeta.
  case_bool_decide; [apply step_refl|]. case_bool_decide.
  { match goal with |- context [UMCreateUserWithID o cfg ?a ?b ?c ?d ?e (sv_c sv)] =>
      pose proof (ok_create_user o cfg a b c d e (sv_c sv)) as Hc;
      destruct (UMCreateUserWithID o cfg a b c d e (sv_c sv)) as [c' [user|]] end; by apply step_c. }
  case_bool_decide; [destruct (UMListUsers _ _ _ _ _); apply step_refl|]. case_bool_decide.
  { match goal with |- context [IssueDeviceTicket o ?a ?b ?c ?d ?e ?f (c_um (sv_c sv))] =>
      pose proof (wf_um_issue o a b c d e f (c_um (sv_c sv))) as Hu;
      destruct (IssueDeviceTicket o a b c d e f (c_um (sv_c sv))) as [um [t|]] end; by apply step_um. }
  case_bool_decide.
  { case_bool_decide; [apply step_refl|]. apply gw_change_ok, wf_ApproveByID. }
  case_bool_decide.
  { case_bool_decide; [apply step_refl|]. apply gw_change_ok, wf_Delist. }
  case_bool_decide; [apply step_refl|]. case_bool_decide; [apply step_refl|]. case_bool_decide.
  { destruct (ApproveExitNodeTarget _ _ _ _ _ _ _ _) as [x [[u d]|]]; [|apply step_exits].
    apply device_push_ok, step_exits. }
  case_bool_decide.
  { destruct (RevokeExitNode _ _ _ _ _) as [x [e|]]; [apply step_exits|].
    apply device_push_ok, step_exits. }
  case_bool_decide; [case_bool_decide; apply step_refl|]. case_bool_decide.
  { case_bool_decide; [apply step_refl|].
    match goal with |- context [ExtendAuthedDeviceExpiry o ?a ?b ?c ?d ?e ?f ?g (c_um (sv_c sv))] =>
      pose proof (wf_um_extend o a b c d e f g (c_um (sv_c sv))) as Hu;
      destruct (ExtendAuthedDeviceExpiry o a b c d e f g (c_um (sv_c sv))) as [um [t|]] end; by apply step_um. }
  case_bool_decide.
  { case_bool_decide; [apply step_refl|].
    apply (device_change_ok env _ (λ deleted, deleted)), ok_delete_device. }
  case_bool_decide.
  { case_bool_decide; [apply step_refl|].
    apply (device_change_ok env _ (λ renamed, [renamed])), ok_rename_device. }
  case_bool_decide; [apply step_refl|]. case_bool_decide; [destruct (BuildDNSSnapshot _ _ _ _ _ _ _ _ _); apply step_refl|].
  pose proof (λ op, debug_exec_ok o store (λ _ _, None) json_Valid json_Marshal op (c_debug (sv_c sv))) as Hd.
  case_bool_decide; [apply send_debug_ok; [by apply (Hd (DPrepareCollect _ _ _ _ _ _))|]|].
  { intros rid d. by apply (debug_exec_ok o store (λ _ _, None) json_Valid json_Marshal (DCancelCollect rid)). }
  case_bool_decide; [apply send_debug_ok; [by apply (Hd (DPrepareStart _ _ _ _ _ _ _))|]|].
  { intros rid d. by apply (debug_exec_ok o store (λ _ _, None) json_Valid json_Marshal (DCancelStart rid)). }
  case_bool_decide; [apply send_debug_ok; [by apply (Hd (DPrepareStop _ _ _ _ _))|]|apply step_refl].
  intros rid d. by apply (debug_exec_ok o store (λ _ _, None) json_Valid json_Marshal (DCancelStop rid)).
Qed.

Lemma resume_ok kind rid ch timeout sv : step_ok writes sv (resume json_Valid json_Marshal kind rid ch timeout sv).1.
Proof.
  pose proof (λ op, debug_exec_ok o store (λ _ _, None) json_Valid json_Marshal op (c_debug (sv_c sv))) as Hd.
  destruct kind; simpl.
  - specialize (Hd (DAwaitCollect rid ch timeout)). simpl in Hd. destruct (AwaitDebugCollect _ _ _ _). by apply step_debug.
  - specialize (Hd (DAwaitStart rid ch timeout)). simpl in Hd. destruct (AwaitDebugWatchStart _ _ _ _). by apply step_debug.
  - specialize (Hd (DAwaitStop rid ch timeout)). simpl in Hd. destruct (AwaitDebugWatchStop _ _ _ _). by apply step_debug.
Qed.

(** ** The whole system *)
Record System := mkSystem { y_server : Server; y_conns : gmap Z (string * Conn) }.

Inductive server_op :=
  | SOpen (now id : Z) (addr : string)
  | SFrame (env : StepEnv) (id : Z) (raw : list byte)
  | SEnd (now id : Z)
  | SAdmin (env : AdminEnv) (req : adminRequest)
  | SResume (kind : debug_wait) (rid : Z) (ch : nat) (timeout : bool).

Definition finish_session (now id : Z) (addr : string) (sv : Server) (conns : gmap Z (string * Conn)) : System :=
  mkSystem (close_session o now id addr sv) (delete id conns).

(** [None]: the process panicked. *)
Definition sys_exec (op : server_op) (y : System) : option System :=
  let sv := y_server y in
  match op with
  | SOpen now id addr =>
      if bool_decide (is_Some (streams (sv_s sv) !! id) ∨ addr = "") then Some y
      else Some (mkSystem (open_session now id addr sv) (<[id := (addr, newConn)]> (y_conns y)))
  | SFrame env id raw =>
      match y_conns y !! id with
      | None => Some y
      | Some (addr, cn) =>
          match handle_frame o sha256 hmac ed25519 cfg hardTTL softLead store json_Valid json_Marshal env id addr raw cn sv with
          | (sv, cn, Next) => Some (mkSystem sv (<[id := (addr, cn)]> (y_conns y)))
          | (sv, _, Ends) => Some (finish_session (e_now env) id addr sv (y_conns y))
          | (_, _, Crashes) => None
          end
      end
  | SEnd now id =>
      match y_conns y !! id with
      | None => Some y
      | Some (addr, _) => Some (finish_session now id addr sv (y_conns y))
      end
  | SAdmin env req => Some (mkSystem (admin env req sv).1 (y_conns y))
  | SResume kind rid ch timeout => Some (mkSystem (resume json_Valid json_Marshal kind rid ch timeout sv).1 (y_conns y))
  end.

Fixpoint sys_run (ops : list server_op) (y : System) : option System :=
  match ops with
  | [] => Some y
  | op :: ops' => match sys_exec op y with Some y' => sys_run ops' y' | None => None end
  end.

(** The server after its start: the stored users and approvals, nobody connected. *)
Definition booted (um : UserManager) (gw : GatewayState) (x : ExitNodes) : System :=
  mkSystem (mkServer (NewController um gw x) (mkSessions newStreamHub ∅)) ∅.

Record sys_ok (y : System) : Prop := {
  so_ctrl : ctrl_ok o (sv_c (y_server y));
  so_hub : hub_ok (sv_s (y_server y));
  so_conns : ∀ id addr cn, y_conns y !! id = Some (addr, cn) →
    ∃ st, streams (sv_s (y_server y)) !! id = Some st ∧ ss_remoteAddr st = addr
}.

(** The steps of the registry that a step of the system may cause. *)
Definition sys_steps (y : System) (op : server_op) (h : hub_op) : Prop :=
  match h with
  | HRegister s net ip => ∃ env raw addr cn, op = SFrame env s raw ∧ y_conns y !! s = Some (addr, cn)
      ∧ registered env addr raw (c_um (sv_c (y_server y))) net ip
  | _ => True
  end.

Lemma writes_steps y op h : writes h → sys_steps y op h.
Proof. by destruct h. Qed.

Lemma answered_ok (P : hub_op → Prop) now id addr sv conns : P (HClose id) →
  step_ok P sv (y_server (finish_session now id addr sv conns)).
Proof.
  intros HP. split; [|by apply (path_one o P (sv_s sv) (HClose id))]. intros Hok.
  apply (ctrl_set_nc o (clearPendingHandshakeCapabilities (Some addr) (sv_c sv))); [by destruct Hok|]. apply wf_Leave, Hok.
Qed.

Lemma conns_kept y sv' (conns' : gmap Z (string * Conn)) : sys_ok y → keeps_remotes (sv_s (y_server y)) (sv_s sv') →
  (∀ id addr cn, conns' !! id = Some (addr, cn) → ∃ cn', y_conns y !! id = Some (addr, cn')) →
  ∀ id addr cn, conns' !! id = Some (addr, cn) → ∃ st, streams (sv_s sv') !! id = Some st ∧ ss_remoteAddr st = addr.
Proof.
  intros Hok Hk Hc id addr cn (cn' & Hcn)%Hc. destruct (so_conns _ Hok _ _ _ Hcn) as (st & Hst & <-).
  apply Hk in Hst as (st' & ? & ?). by exists st'.
Qed.

(** One step of the system. *)
Lemma sys_exec_ok op y y' : sys_ok y → sys_exec op y = Some y' →
  sys_ok y' ∧ hub_path o (sys_steps y op) (sv_s (y_server y)) (sv_s (y_server y')).
Proof.
  intros Hok E.
  assert (Hgen : ∀ P sv' (conns' : gmap Z (string * Conn)), step_ok P (y_server y) sv' → (∀ h, P h → sys_steps y op h) →
      (∀ id addr cn, conns' !! id = Some (addr, cn) → ∃ cn', y_conns y !! id = Some (addr, cn')) →
      sys_ok (mkSystem sv' conns') ∧ hub_path o (sys_steps y op) (sv_s (y_server y)) (sv_s sv')).
  { intros P sv' conns' [Hc Hp] HP Hconns. split; [|by eapply path_mono]. split.
    - by apply Hc, Hok.
    - by eapply path_ok, Hok.
    - eapply conns_kept; [done|by eapply path_keeps|done]. }
  destruct op as [now id addr|env id raw|now id|env req|kind rid ch timeout]; simpl in E.
  - case_bool_decide as Hn; injection E as <-; [split; [done|apply path_refl]|]. 
    assert (Hpath : hub_path o (sys_steps y (SOpen now id addr)) (sv_s (y_server y)) (sv_s (open_session now id addr (y_server y)))).
    { assert (Eop : sv_s (open_session now id addr (y_server y)) = hub_step o (sv_s (y_server y)) (HOpen id addr)).
      { cbn [hub_step]. by rewrite bool_decide_eq_false_2. }
      rewrite Eop. by apply path_one. }
    split; [|done]. split.
    + apply (ctrl_set_nc o (sv_c (y_server y))); [apply Hok|]. apply (same_networks_wf (c_nc (sv_c (y_server y)))); [done|apply Hok].
    + eapply path_ok; [exact Hpath|apply Hok].
    + intros id' addr' cn'. cbn [y_conns]. intros [[<- [= <- <-]]|[Hne Hc]]%lookup_insert_Some.
      * simpl. unfold const. rewrite lookup_insert_eq. by eexists.
      * destruct (so_conns _ Hok _ _ _ Hc) as (st & Hst & <-). by apply (path_keeps _ _ _ _ Hpath) in Hst.
  - destruct (y_conns y !! id) as [[addr cn]|] eqn:Hcn; [|injection E as <-; split; [done|apply path_refl]].
    destruct (so_conns _ Hok _ _ _ Hcn) as (st & Hst & Haddr).
    pose proof (frame_ok env id addr raw cn (y_server y) st (so_ctrl _ Hok) Hst Haddr) as Hf.
    assert (Hsteps : ∀ h, frame_steps env id addr raw (c_um (sv_c (y_server y))) h → sys_steps y (SFrame env id raw) h).
    { intros h [?|(net & ip & -> & Hreg)]; [by apply writes_steps|]. simpl. by exists env, raw, addr, cn. }
    destruct (handle_frame _ _ _ _ _ _ _ _ _ _ env id addr raw cn (y_server y)) as [[sv' cn'] []]; cbn [fst] in Hf; [| |done].
    + injection E as <-. eapply Hgen; [exact Hf|exact Hsteps|]. intros id' addr' cn''.
      intros [[<- [= <- <-]]|[_ ?]]%lookup_insert_Some; [by exists cn|by exists cn''].
    + injection E as <-. eapply (Hgen (sys_steps y (SFrame env id raw))); [|done|].
      * eapply step_trans; [eapply step_mono; [exact Hsteps|exact Hf]|]. by apply (answered_ok _ _ _ _ _ (y_conns y)).
      * intros id' addr' cn'' [_ ?]%lookup_delete_Some. by exists cn''.
  - destruct (y_conns y !! id) as [[addr cn]|] eqn:Hcn; injection E as <-; [|split; [done|apply path_refl]].
    eapply (Hgen (sys_steps y (SEnd now id))); [by apply (answered_ok _ _ _ _ _ (y_conns y))|done|].
    intros id' addr' cn'' [_ ?]%lookup_delete_Some. by exists cn''.
  - injection E as <-. eapply Hgen; [apply admin_ok|apply writes_steps|by eauto].
  - injection E as <-. eapply Hgen; [apply resume_ok|apply writes_steps|by eauto].
Qed.

Lemma sys_run_snoc ops op y : sys_run (ops ++ [op]) y = match sys_run ops y with Some y' => sys_exec op y' | None => None end.
Proof.
  revert y. induction ops as [|op' ops IH]; intros y; simpl; [by destruct (sys_exec op y)|].
  destruct (sys_exec op' y); [apply IH|done].
Qed.

Section Runs.
Context (um : UserManager) (gw : GatewayState) (x : ExitNodes).
Hypothesis users_ok : wf_um um.
Hypothesis gateways_ok : wf_gateway o gw.

Lemma booted_ok : sys_ok (booted um gw x).
Proof.
  split; [split; [|done|done|apply debug_ok_init]|apply hub_ok_init|].
  - intros key n Hn. change (networks _) with (∅ : gmap string NetworkInfo) in Hn. by rewrite lookup_empty in Hn.
  - intros id addr cn Hn. change (y_conns _) with (∅ : gmap Z (string * Conn)) in Hn. by rewrite lookup_empty in Hn.
Qed.

(** Where a registration in the registry comes from. *)
Definition origin (ops : list server_op) (s : Z) (net : string) (ip : Z) : Prop :=
  ∃ ops1 op ops2 y1, ops = ops1 ++ op :: ops2 ∧ sys_run ops1 (booted um gw x) = Some y1 ∧ sys_ok y1
    ∧ sys_steps y1 op (HRegister s net ip).

Lemma sys_run_ok ops y : sys_run ops (booted um gw x) = Some y →
  sys_ok y ∧ ∃ hops, sv_s (y_server y) = hub_run o hops ∧ ∀ s net ip, HRegister s net ip ∈ hops → origin ops s net ip.
Proof.
  revert y. induction ops as [|op ops IH] using rev_ind; intros y.
  { intros [= <-]. split; [apply booted_ok|]. exists []. split; [done|]. by intros s net ip ?%not_elem_of_nil. }
  rewrite sys_run_snoc. destruct (sys_run ops (booted um gw x)) as [y1|] eqn:Ey1; [|done]. intros E.
  destruct (IH y1 eq_refl) as (Hok1 & hops & Hh & Horigin).
  destruct (sys_exec_ok op y1 y Hok1 E) as (Hok & hops' & Hall & Hh'). split; [done|].
  exists (hops ++ hops'). split; [rewrite Hh', Hh; unfold hub_run; by rewrite foldl_app|].
  intros s net ip [Hin|Hin]%elem_of_app.
  - destruct (Horigin _ _ _ Hin) as (ops1 & op1 & ops2 & y2 & -> & ?). exists ops1, op1, (ops2 ++ [op]), y2.
    by rewrite <-app_assoc.
  - rewrite Forall_forall in Hall. apply Hall in Hin. exists ops, op, [], y1. done.
Qed.

(** C4 (invariant). However sessions, their frames and administrative requests
    interleave, from a start with well-formed users and gateways the server keeps
    every part of its state well formed: the client tables of all networks (each
    device at most one address, each address inside the subnet), users, tickets and
    authorisations, gateways and cached grants, debug requests and watches, and the
    three tables of the registry of streams; every session being served has its
    stream, at its own address. *)
Theorem server_reachable_ok ops y : sys_run ops (booted um gw x) = Some y → sys_ok y.
Proof. intros E. by apply sys_run_ok in E as [? _]. Qed.

End Runs.
End Frame.

(** ** Samples: alice's laptop connects and registers in dev.corp.net *)
Module SampleServer.
Import SampleAuth SampleReg.

(** Registration requests decode to the laptop's; other messages carry nothing. *)
Definition codecs : Codecs :=
  Build_Codecs SampleGateway.codec SampleGateway.codec (const_codec (reg SampleUsers.key)) SampleGateway.codec
    SampleGateway.codec SampleGateway.codec SampleGateway.codec SampleGateway.codec SampleGateway.codec SampleGateway.codec
    SampleGateway.codec SampleGateway.codec SampleGateway.codec SampleGateway.codec SampleGateway.codec SampleGateway.codec
    SampleGateway.codec SampleGateway.codec SampleGateway.codec SampleGateway.codec SampleGateway.codec SampleGateway.codec
    SampleGateway.codec SampleGateway.codec SampleGateway.codec SampleGateway.codec SampleGateway.codec SampleGateway.codec
    SampleGateway.codec.

Definition env : StepEnv :=
  mkStepEnv 7 SampleUsers.ok (λ _ _ _, Err "no randomness") (Ok []) (Ok []) (λ t, t) (λ _ _, None)
    (λ _ _, Err "no upstream") Written (λ _, Written) (λ _, Written).
Definition request_packet : Packet :=
  {| Ver := V3; Proto := ProtocolService; AppProto := AppProtoRegistrationRequest; SourceTTL := MAX_TTL; TTL := MAX_TTL;
     SrcIP := IPv4 x00 x00 x00 x00; DstIP := IPv4 x00 x00 x00 x01; Payload := []; RouteNetworkKey := "" |}.

Definition gw0 : GatewayState := initial ascending ∅.
Definition boot : System := booted SampleUsers.m1 gw0 (mkExitNodes ∅ ∅).
Definition run (ops : list server_op) (y : System) : option System :=
  @sys_run AsciiFold AsciiLower SampleGateway.url codecs ascending SampleUsers.sha SampleGateway.mac yes cfg day minute None
    (λ _, true) (λ _, Err "no encoder") SampleGateway.codec SampleGateway.codec SampleGateway.codec false "1.0" ops y.
Definition ops : list server_op := [SOpen 6 1 "192.0.2.9:4000"; SFrame env 1 (Marshal request_packet)].

Lemma runs : ∃ y, run ops boot = Some y.
Proof. destruct (run ops boot) as [y|] eqn:E; [by exists y|]. apply (f_equal (λ r, bool_decide (is_Some r))) in E. by vm_compute in E. Qed.

Lemma gw0_wf : wf_gateway ascending gw0.
Proof. apply wf_initial. Qed.
End SampleServer.

Lemma server_reachable_ok_witness : ∃ y, SampleServer.run SampleServer.ops SampleServer.boot = Some y ∧ sys_ok ascending y.
Proof.
  destruct SampleServer.runs as [y Hy]. exists y. split; [exact Hy|]. unfold SampleServer.run in Hy.
  apply server_reachable_ok in Hy; [exact Hy|by vm_compute|apply SampleReg.cfg_checked|apply SampleReg.decoded
    |apply SampleUsers.m1_wf|apply SampleServer.gw0_wf].
Defined.

