(* ===== verification/AdminWire.v ===== *)
(** * Administration on the wire: the struct tags of [handlers/admin_types.go] and of
    the copies of these structs in [cmd/sdl-admin/main.go].

    The two sides share no type.  The request has the same fields on both; the answer
    of the server has two that the tool does not know ([sdl_user_id] and [group]), and
    the tool reads the DNS snapshot as any JSON value.  The rows of the lists have the
    same fields on both sides, so that one Rocq record stands for both structs, each
    side with its own tags. *)
From S2P Require Import Prelude GoString NetIP GoText NetParse GoJson GoJsonInv JsonCodec Network UserManager Gateway ExitNode.
From S2P Require Import Dns DeviceList DebugStore Admin.

(** A field with its tag, and one that is left out when it is empty. *)
Local Abbreviation tag name codec get := (mkField name false codec get (λ a r, r <| get := a |>)).
Local Abbreviation tag_omit name codec get := (mkField name true codec get (λ a r, r <| get := a |>)).

Section Wire.
Context `{UnicodeFold}.

(** ** Requests *)
Definition request_fields : list (struct_field adminRequest) :=
  [tag "action" string_codec rq_Action; tag_omit "name" string_codec rq_Name; tag_omit "domain" string_codec rq_Domain;
   tag_omit "gateway_id" string_codec rq_GatewayID; tag_omit "endpoint" string_codec rq_Endpoint;
   tag_omit "capabilities" (slice_codec string_codec) rq_Capabilities; tag_omit "sections" (slice_codec string_codec) rq_Sections;
   tag_omit "user_id" string_codec rq_UserID; tag_omit "id_filter" string_codec rq_IDFilter;
   tag_omit "name_filter" string_codec rq_NameFilter; tag_omit "group" string_codec rq_Group;
   tag_omit "device_id" string_codec rq_DeviceID; tag_omit "all" bool_codec rq_All; tag_omit "ttl_seconds" int_codec rq_TTLSeconds;
   tag_omit "timeout_sec" int_codec rq_TimeoutSec; tag_omit "duration_sec" int_codec rq_DurationSec].
Definition request_codec : codec adminRequest := struct_codec zeroAdminRequest request_fields.

(** The request of the tool. *)
Definition tool_request_fields : list (struct_field adminRequest) :=
  [tag "action" string_codec rq_Action; tag_omit "name" string_codec rq_Name; tag_omit "domain" string_codec rq_Domain;
   tag_omit "gateway_id" string_codec rq_GatewayID; tag_omit "endpoint" string_codec rq_Endpoint;
   tag_omit "capabilities" (slice_codec string_codec) rq_Capabilities; tag_omit "sections" (slice_codec string_codec) rq_Sections;
   tag_omit "user_id" string_codec rq_UserID; tag_omit "id_filter" string_codec rq_IDFilter;
   tag_omit "name_filter" string_codec rq_NameFilter; tag_omit "group" string_codec rq_Group;
   tag_omit "device_id" string_codec rq_DeviceID; tag_omit "all" bool_codec rq_All; tag_omit "ttl_seconds" int_codec rq_TTLSeconds;
   tag_omit "timeout_sec" int_codec rq_TimeoutSec; tag_omit "duration_sec" int_codec rq_DurationSec].
Definition tool_request_codec : codec adminRequest := struct_codec zeroAdminRequest tool_request_fields.

(** ** Rows *)
Definition zeroGateway : GatewayAdminView := zeroGatewayAdminView.
Definition gateway_fields : list (struct_field GatewayAdminView) :=
  [tag "gateway_id" string_codec gv_GatewayID; tag "endpoint" string_codec gv_Endpoint; tag "approved" bool_codec gv_Approved;
   tag "default" bool_codec gv_Default; tag "reported" bool_codec gv_Reported; tag "alive" bool_codec gv_Alive;
   tag_omit "capabilities" (slice_codec string_codec) gv_Capabilities; tag_omit "updated_at_unix" int_codec gv_UpdatedAtUnix].
Definition tool_gateway_fields : list (struct_field GatewayAdminView) :=
  [tag "gateway_id" string_codec gv_GatewayID; tag "endpoint" string_codec gv_Endpoint; tag "approved" bool_codec gv_Approved;
   tag "default" bool_codec gv_Default; tag "reported" bool_codec gv_Reported; tag "alive" bool_codec gv_Alive;
   tag_omit "capabilities" (slice_codec string_codec) gv_Capabilities; tag_omit "updated_at_unix" int_codec gv_UpdatedAtUnix].

Definition zeroUser : UMUserAdminView := mkUMUserAdminView "" "" "" "" "" 0.
Definition user_fields : list (struct_field UMUserAdminView) :=
  [tag "user_id" string_codec v_UserID; tag_omit "name" string_codec v_Name; tag_omit "email" string_codec v_Email;
   tag "group" string_codec v_Group; tag "domain" string_codec v_Domain; tag_omit "created_at_unix" int_codec v_CreatedAtUnix].
Definition tool_user_fields : list (struct_field UMUserAdminView) :=
  [tag "user_id" string_codec v_UserID; tag_omit "name" string_codec v_Name; tag_omit "email" string_codec v_Email;
   tag "group" string_codec v_Group; tag "domain" string_codec v_Domain; tag_omit "created_at_unix" int_codec v_CreatedAtUnix].

Definition zeroDevice : DeviceAdminView := mkDeviceAdminView "" "" "" "" "" false false 0 0 false 0.
Definition device_fields : list (struct_field DeviceAdminView) :=
  [tag "user_id" string_codec dv_UserID; tag "group" string_codec dv_Group; tag "name" string_codec dv_Name;
   tag "device_id" string_codec dv_DeviceID; tag "virtual_ip" string_codec dv_VirtualIP;
   tag "control_online" bool_codec dv_ControlOnline; tag "data_plane_reachable" bool_codec dv_DataPlaneReachable;
   tag_omit "authed_at_unix" int_codec dv_AuthedAtUnix; tag_omit "auth_expire_at_unix" int_codec dv_AuthExpireAtUnix;
   tag_omit "auth_expired" bool_codec dv_AuthExpired; tag_omit "updated_at_unix" int_codec dv_UpdatedAtUnix].
Definition tool_device_fields : list (struct_field DeviceAdminView) :=
  [tag "user_id" string_codec dv_UserID; tag "group" string_codec dv_Group; tag "name" string_codec dv_Name;
   tag "device_id" string_codec dv_DeviceID; tag "virtual_ip" string_codec dv_VirtualIP;
   tag "control_online" bool_codec dv_ControlOnline; tag "data_plane_reachable" bool_codec dv_DataPlaneReachable;
   tag_omit "authed_at_unix" int_codec dv_AuthedAtUnix; tag_omit "auth_expire_at_unix" int_codec dv_AuthExpireAtUnix;
   tag_omit "auth_expired" bool_codec dv_AuthExpired; tag_omit "updated_at_unix" int_codec dv_UpdatedAtUnix].

Definition zeroExitNode : ExitNodeAdminView := zeroExitNodeView "" "" false.
Definition exit_node_fields : list (struct_field ExitNodeAdminView) :=
  [tag "user_id" string_codec xv_UserID; tag_omit "group" string_codec xv_Group; tag_omit "name" string_codec xv_Name;
   tag "device_id" string_codec xv_DeviceID; tag_omit "virtual_ip" string_codec xv_VirtualIP; tag "approved" bool_codec xv_Approved;
   tag "advertised" bool_codec xv_Advertised; tag "local_ready" bool_codec xv_LocalReady; tag "usable" bool_codec xv_Usable;
   tag "control_online" bool_codec xv_ControlOnline; tag "data_plane_reachable" bool_codec xv_DataPlaneReachable;
   tag_omit "updated_at_unix" int_codec xv_UpdatedAtUnix].
Definition tool_exit_node_fields : list (struct_field ExitNodeAdminView) :=
  [tag "user_id" string_codec xv_UserID; tag_omit "group" string_codec xv_Group; tag_omit "name" string_codec xv_Name;
   tag "device_id" string_codec xv_DeviceID; tag_omit "virtual_ip" string_codec xv_VirtualIP; tag "approved" bool_codec xv_Approved;
   tag "advertised" bool_codec xv_Advertised; tag "local_ready" bool_codec xv_LocalReady; tag "usable" bool_codec xv_Usable;
   tag "control_online" bool_codec xv_ControlOnline; tag "data_plane_reachable" bool_codec xv_DataPlaneReachable;
   tag_omit "updated_at_unix" int_codec xv_UpdatedAtUnix].

(** ** The DNS snapshot, which only the server has as a struct *)
Definition dns_network_fields : list (struct_field DNSNetworkView) :=
  [tag "group" string_codec nv_Group; tag "gateway_ip" string_codec nv_GatewayIP; tag "netmask" string_codec nv_Netmask].
Definition dns_record_fields : list (struct_field DNSRecordView) :=
  [tag "fqdn" string_codec rv_FQDN; tag "short_name" string_codec rv_ShortName; tag "device_id" string_codec rv_DeviceID;
   tag "group" string_codec rv_Group; tag "virtual_ip" string_codec rv_VirtualIP; tag "control_online" bool_codec rv_ControlOnline;
   tag "data_plane_reachable" bool_codec rv_DataPlaneReachable; tag "updated_at_unix" int_codec rv_UpdatedAtUnix].
Definition dns_gateway_fields : list (struct_field DNSGatewayView) :=
  [tag "gateway_id" string_codec dgv_GatewayID; tag "endpoint" string_codec dgv_Endpoint; tag "default" bool_codec dgv_Default;
   tag "alive" bool_codec dgv_Alive].
(** [DNSSOAView]: its two fields are those of the snapshot itself. *)
Definition soa_fields : list (struct_field (string * string)) :=
  [mkField "primary_ns" false string_codec fst (λ a r, (a, r.2)); mkField "admin_mailbox" false string_codec snd (λ a r, (r.1, a))].
Definition zeroSnapshot : DNSSnapshotView := mkDNSSnapshotView "" "" 0 0 0 "" "" [] [] [].
Definition snapshot_fields : list (struct_field DNSSnapshotView) :=
  [tag "domain" string_codec sv_Domain; tag_omit "group_filter" string_codec sv_GroupFilter; tag "epoch" (uint_codec 64) sv_Epoch;
   tag "default_ttl_seconds" (uint_codec 32) sv_DefaultTTLSeconds; tag "refresh_after_sec" (uint_codec 32) sv_RefreshAfterSec;
   mkField "soa" false (struct_codec ("", "") soa_fields) (λ s, (sv_PrimaryNS s, sv_AdminMailbox s))
     (λ a s, s <| sv_PrimaryNS := a.1 |> <| sv_AdminMailbox := a.2 |>);
   tag_omit "networks" (slice_codec (struct_codec {| nv_Group := ""; nv_GatewayIP := ""; nv_Netmask := "" |} dns_network_fields)) sv_Networks;
   tag_omit "records" (slice_codec (struct_codec {| rv_FQDN := ""; rv_ShortName := ""; rv_DeviceID := ""; rv_Group := "";
     rv_VirtualIP := ""; rv_ControlOnline := false; rv_DataPlaneReachable := false; rv_UpdatedAtUnix := 0 |} dns_record_fields)) sv_Records;
   tag_omit "gateways" (slice_codec (struct_codec {| dgv_GatewayID := ""; dgv_Endpoint := ""; dgv_Default := false;
     dgv_Alive := false |} dns_gateway_fields)) sv_Gateways].
Definition snapshot_codec : codec DNSSnapshotView := struct_codec zeroSnapshot snapshot_fields.

(** ** Answers *)
Definition response_fields : list (struct_field adminResponse) :=
  [tag "ok" bool_codec rs_OK; tag_omit "version" string_codec rs_Version; tag_omit "user_id" string_codec rs_UserID;
   tag_omit "sdl_user_id" string_codec rs_SdlUserID; tag_omit "name" string_codec rs_Name; tag_omit "domain" string_codec rs_Domain;
   tag_omit "group" string_codec rs_Group; tag_omit "domains" (slice_codec string_codec) rs_Domains;
   tag_omit "ticket" string_codec rs_Ticket; tag_omit "expire_at_unix" int_codec rs_ExpireAtUnix;
   tag_omit "gateways" (slice_codec (struct_codec zeroGateway gateway_fields)) rs_Gateways;
   tag_omit "exit_nodes" (slice_codec (struct_codec zeroExitNode exit_node_fields)) rs_ExitNodes;
   tag_omit "users" (slice_codec (struct_codec zeroUser user_fields)) rs_Users;
   tag_omit "devices" (slice_codec (struct_codec zeroDevice device_fields)) rs_Devices;
   tag_omit "updated_devices" (slice_codec (struct_codec zeroDevice device_fields)) rs_UpdatedDevices;
   tag_omit "dns_snapshot" (pointer_codec snapshot_codec) rs_DNSSnapshot; tag_omit "debug_result" raw_codec rs_DebugResult;
   tag_omit "debug_path" string_codec rs_DebugPath; tag_omit "debug_watch_id" (uint_codec 64) rs_DebugWatchID;
   tag_omit "updated_count" int_codec rs_UpdatedCount; tag_omit "error" string_codec rs_Error].
Definition response_codec : codec adminResponse := struct_codec zeroAdminResponse response_fields.

(** The answer as the tool declares it. *)
Record toolResponse := mkToolResponse {
  ts_OK : bool; ts_Version : string; ts_UserID : string; ts_Name : string; ts_Domain : string; ts_Ticket : string;
  ts_ExpireAtUnix : Z; ts_Gateways : list GatewayAdminView; ts_ExitNodes : list ExitNodeAdminView;
  ts_Users : list UMUserAdminView; ts_Devices : list DeviceAdminView; ts_UpdatedDevices : list DeviceAdminView;
  ts_Domains : list string; ts_DNSSnapshot : option json; ts_DebugResult : string; ts_DebugPath : string;
  ts_DebugWatchID : Z; ts_UpdatedCount : Z; ts_Error : string
}.
Definition zeroToolResponse : toolResponse := mkToolResponse false "" "" "" "" "" 0 [] [] [] [] [] [] None "" "" 0 0 "".
Definition tool_response_fields : list (struct_field toolResponse) :=
  [tag "ok" bool_codec ts_OK; tag_omit "version" string_codec ts_Version; tag_omit "user_id" string_codec ts_UserID;
   tag_omit "name" string_codec ts_Name; tag_omit "domain" string_codec ts_Domain; tag_omit "ticket" string_codec ts_Ticket;
   tag_omit "expire_at_unix" int_codec ts_ExpireAtUnix;
   tag_omit "gateways" (slice_codec (struct_codec zeroGateway tool_gateway_fields)) ts_Gateways;
   tag_omit "exit_nodes" (slice_codec (struct_codec zeroExitNode tool_exit_node_fields)) ts_ExitNodes;
   tag_omit "users" (slice_codec (struct_codec zeroUser tool_user_fields)) ts_Users;
   tag_omit "devices" (slice_codec (struct_codec zeroDevice tool_device_fields)) ts_Devices;
   tag_omit "updated_devices" (slice_codec (struct_codec zeroDevice tool_device_fields)) ts_UpdatedDevices;
   tag_omit "domains" (slice_codec string_codec) ts_Domains; tag_omit "dns_snapshot" any_codec ts_DNSSnapshot;
   tag_omit "debug_result" raw_codec ts_DebugResult; tag_omit "debug_path" string_codec ts_DebugPath;
   tag_omit "debug_watch_id" (uint_codec 64) ts_DebugWatchID; tag_omit "updated_count" int_codec ts_UpdatedCount;
   tag_omit "error" string_codec ts_Error].
Definition tool_response_codec : codec toolResponse := struct_codec zeroToolResponse tool_response_fields.

(** ** Reading and writing *)

(** What the server reads from a line of the socket, and from the body of a POST over
    the request that holds the action of the path; [json_error] is the text of an error
    of the decoder, which is not modelled. *)
Context (json_error : string → string).
Definition server_unmarshal (line : string) : result adminRequest :=
  match JsonUnmarshal request_codec line zeroAdminRequest with Some r => Ok r | None => Err (json_error line) end.
Definition server_decode (req : adminRequest) (body : string) : result adminRequest :=
  match JsonDecode request_codec body req with Some r => Ok r | None => Err (json_error body) end.

(** [json.NewEncoder(conn).Encode], whose error is ignored: then nothing is sent. *)
Definition server_sends (resp : adminResponse) : string :=
  match JsonMarshal response_codec resp with Some text => text +:+ String (ascii_of_nat 10) "" | None => "" end.

(** [json.Marshal] of the tool, whose error is ignored. *)
Definition tool_marshal (req : adminRequest) : string := default "" (JsonMarshal tool_request_codec req).
Definition tool_unmarshal (line : string) : result toolResponse :=
  match JsonUnmarshal tool_response_codec line zeroToolResponse with Some r => Ok r | None => Err (json_error line) end.
End Wire.
