(* ===== verification/AdminWireInv.v ===== *)
(** * The two sides of the administration socket understand each other. *)
From S2P Require Import Prelude GoString NetIP GoText NetParse GoJson GoJsonInv JsonCodec Network UserManager Gateway ExitNode.
From S2P Require Import Dns DeviceList DebugStore Admin AdminWire.

(** ** What arrives *)
Definition request_arrives (r : adminRequest) : adminRequest :=
  let t := ToValidUTF8 in
  mkAdminRequest (t (rq_Action r)) (t (rq_Name r)) (t (rq_Domain r)) (t (rq_GatewayID r)) (t (rq_Endpoint r))
    (map t (rq_Capabilities r)) (map t (rq_Sections r)) (t (rq_UserID r)) (t (rq_IDFilter r)) (t (rq_NameFilter r))
    (t (rq_Group r)) (t (rq_DeviceID r)) (rq_All r) (rq_TTLSeconds r) (rq_TimeoutSec r) (rq_DurationSec r).
Definition request_ok (r : adminRequest) : Prop :=
  int64_range (rq_TTLSeconds r) ∧ int64_range (rq_TimeoutSec r) ∧ int64_range (rq_DurationSec r).

Definition gateway_arrives (g : GatewayAdminView) : GatewayAdminView :=
  {| gv_GatewayID := ToValidUTF8 (gv_GatewayID g); gv_Endpoint := ToValidUTF8 (gv_Endpoint g); gv_Approved := gv_Approved g;
     gv_Default := gv_Default g; gv_Reported := gv_Reported g; gv_Alive := gv_Alive g;
     gv_Capabilities := map ToValidUTF8 (gv_Capabilities g); gv_UpdatedAtUnix := gv_UpdatedAtUnix g |}.
Definition user_arrives (u : UMUserAdminView) : UMUserAdminView :=
  mkUMUserAdminView (ToValidUTF8 (v_UserID u)) (ToValidUTF8 (v_Name u)) (ToValidUTF8 (v_Email u)) (ToValidUTF8 (v_Group u))
    (ToValidUTF8 (v_Domain u)) (v_CreatedAtUnix u).
Definition device_arrives (d : DeviceAdminView) : DeviceAdminView :=
  mkDeviceAdminView (ToValidUTF8 (dv_UserID d)) (ToValidUTF8 (dv_Group d)) (ToValidUTF8 (dv_Name d)) (ToValidUTF8 (dv_DeviceID d))
    (ToValidUTF8 (dv_VirtualIP d)) (dv_ControlOnline d) (dv_DataPlaneReachable d) (dv_AuthedAtUnix d) (dv_AuthExpireAtUnix d)
    (dv_AuthExpired d) (dv_UpdatedAtUnix d).
Definition exit_node_arrives (x : ExitNodeAdminView) : ExitNodeAdminView :=
  {| xv_UserID := ToValidUTF8 (xv_UserID x); xv_Group := ToValidUTF8 (xv_Group x); xv_Name := ToValidUTF8 (xv_Name x);
     xv_DeviceID := ToValidUTF8 (xv_DeviceID x); xv_VirtualIP := ToValidUTF8 (xv_VirtualIP x); xv_Approved := xv_Approved x;
     xv_Advertised := xv_Advertised x; xv_LocalReady := xv_LocalReady x; xv_Usable := xv_Usable x;
     xv_ControlOnline := xv_ControlOnline x; xv_DataPlaneReachable := xv_DataPlaneReachable x;
     xv_UpdatedAtUnix := xv_UpdatedAtUnix x |}.

Definition dns_network_arrives (n : DNSNetworkView) : DNSNetworkView :=
  {| nv_Group := ToValidUTF8 (nv_Group n); nv_GatewayIP := ToValidUTF8 (nv_GatewayIP n); nv_Netmask := ToValidUTF8 (nv_Netmask n) |}.
Definition dns_record_arrives (r : DNSRecordView) : DNSRecordView :=
  {| rv_FQDN := ToValidUTF8 (rv_FQDN r); rv_ShortName := ToValidUTF8 (rv_ShortName r); rv_DeviceID := ToValidUTF8 (rv_DeviceID r);
     rv_Group := ToValidUTF8 (rv_Group r); rv_VirtualIP := ToValidUTF8 (rv_VirtualIP r); rv_ControlOnline := rv_ControlOnline r;
     rv_DataPlaneReachable := rv_DataPlaneReachable r; rv_UpdatedAtUnix := rv_UpdatedAtUnix r |}.
Definition dns_gateway_arrives (g : DNSGatewayView) : DNSGatewayView :=
  {| dgv_GatewayID := ToValidUTF8 (dgv_GatewayID g); dgv_Endpoint := ToValidUTF8 (dgv_Endpoint g); dgv_Default := dgv_Default g;
     dgv_Alive := dgv_Alive g |}.
Definition snapshot_arrives (s : DNSSnapshotView) : DNSSnapshotView :=
  mkDNSSnapshotView (ToValidUTF8 (sv_Domain s)) (ToValidUTF8 (sv_GroupFilter s)) (sv_Epoch s) (sv_DefaultTTLSeconds s)
    (sv_RefreshAfterSec s) (ToValidUTF8 (sv_PrimaryNS s)) (ToValidUTF8 (sv_AdminMailbox s)) (map dns_network_arrives (sv_Networks s))
    (map dns_record_arrives (sv_Records s)) (map dns_gateway_arrives (sv_Gateways s)).

Definition device_ok (d : DeviceAdminView) : Prop :=
  int64_range (dv_AuthedAtUnix d) ∧ int64_range (dv_AuthExpireAtUnix d) ∧ int64_range (dv_UpdatedAtUnix d).
Definition unsigned (bits z : Z) : Prop := 0 ≤ z < 2 ^ bits.
Definition snapshot_ok (s : DNSSnapshotView) : Prop :=
  unsigned 64 (sv_Epoch s) ∧ unsigned 32 (sv_DefaultTTLSeconds s) ∧ unsigned 32 (sv_RefreshAfterSec s)
  ∧ Forall (λ r, int64_range (rv_UpdatedAtUnix r)) (sv_Records s).

(** The numbers of an answer are those of its Go types, and its debugging result is a
    JSON value that is not nested to the limit. *)
Definition response_ok (r : adminResponse) : Prop :=
  int64_range (rs_ExpireAtUnix r) ∧ Forall (λ g, int64_range (gv_UpdatedAtUnix g)) (rs_Gateways r)
  ∧ Forall (λ x, int64_range (xv_UpdatedAtUnix x)) (rs_ExitNodes r) ∧ Forall (λ u, int64_range (v_CreatedAtUnix u)) (rs_Users r)
  ∧ Forall device_ok (rs_Devices r) ∧ Forall device_ok (rs_UpdatedDevices r)
  ∧ match rs_DNSSnapshot r with Some s => snapshot_ok s | None => True end
  ∧ (rs_DebugResult r = "" ∨ raw_ok 9999 (rs_DebugResult r)) ∧ unsigned 64 (rs_DebugWatchID r) ∧ int64_range (rs_UpdatedCount r).

(** The same for the answer as the tool has it. *)
Definition tool_ok (r : toolResponse) : Prop :=
  int64_range (ts_ExpireAtUnix r) ∧ Forall (λ g, int64_range (gv_UpdatedAtUnix g)) (ts_Gateways r)
  ∧ Forall (λ x, int64_range (xv_UpdatedAtUnix x)) (ts_ExitNodes r) ∧ Forall (λ u, int64_range (v_CreatedAtUnix u)) (ts_Users r)
  ∧ Forall device_ok (ts_Devices r) ∧ Forall device_ok (ts_UpdatedDevices r) ∧ any_ok 9999 (ts_DNSSnapshot r)
  ∧ (ts_DebugResult r = "" ∨ raw_ok 9999 (ts_DebugResult r)) ∧ unsigned 64 (ts_DebugWatchID r) ∧ int64_range (ts_UpdatedCount r).

(** The answer as it is printed by the tool and read again. *)
Definition as_printed (r : toolResponse) : toolResponse :=
  let t := ToValidUTF8 in
  mkToolResponse (ts_OK r) (t (ts_Version r)) (t (ts_UserID r)) (t (ts_Name r)) (t (ts_Domain r)) (t (ts_Ticket r))
    (ts_ExpireAtUnix r) (map gateway_arrives (ts_Gateways r)) (map exit_node_arrives (ts_ExitNodes r))
    (map user_arrives (ts_Users r)) (map device_arrives (ts_Devices r)) (map device_arrives (ts_UpdatedDevices r))
    (map t (ts_Domains r)) (ts_DNSSnapshot r) (raw_text (ts_DebugResult r)) (t (ts_DebugPath r))
    (ts_DebugWatchID r) (ts_UpdatedCount r) (t (ts_Error r)).

Section WireInv.
Context `{UnicodeFold}.

(** The snapshot as the JSON value that is sent. *)
Definition snapshot_json (s : DNSSnapshotView) : option json := c_enc snapshot_codec s.

(** The answer as the tool sees it. *)
Definition response_arrives (r : adminResponse) : toolResponse :=
  let t := ToValidUTF8 in
  mkToolResponse (rs_OK r) (t (rs_Version r)) (t (rs_UserID r)) (t (rs_Name r)) (t (rs_Domain r)) (t (rs_Ticket r))
    (rs_ExpireAtUnix r) (map gateway_arrives (rs_Gateways r)) (map exit_node_arrives (rs_ExitNodes r))
    (map user_arrives (rs_Users r)) (map device_arrives (rs_Devices r)) (map device_arrives (rs_UpdatedDevices r))
    (map t (rs_Domains r)) (rs_DNSSnapshot r ≫= snapshot_json) (raw_text (rs_DebugResult r)) (t (rs_DebugPath r))
    (rs_DebugWatchID r) (rs_UpdatedCount r) (t (rs_Error r)).

(** The two fields the tool does not declare are lost. *)
Lemma group_not_printed r group sdlUserID :
  response_arrives (r <| rs_Group := group |> <| rs_SdlUserID := sdlUserID |>) = response_arrives r.
Proof. done. Qed.

(** ** Field by field *)
#[local] Arguments ToValidUTF8 : simpl never.
#[local] Arguments snapshot_json : simpl never.
#[local] Arguments raw_text : simpl never.
Lemma request_transfers : transfers tool_request_codec request_codec 2 request_ok request_arrives.
Proof. apply (transfers_struct _ _ _ _ 1); [lia|]. intros r (H1 & H2 & H3). walk_by ltac:(transfer). Qed.

Lemma gateway_transfers : transfers (struct_codec zeroGateway gateway_fields) (struct_codec zeroGateway tool_gateway_fields) 2
  (λ g, int64_range (gv_UpdatedAtUnix g)) gateway_arrives.
Proof. apply (transfers_struct _ _ _ _ 1); [lia|]. intros r Hr. walk_by ltac:(transfer). Qed.

Lemma user_transfers : transfers (struct_codec zeroUser user_fields) (struct_codec zeroUser tool_user_fields) 2
  (λ u, int64_range (v_CreatedAtUnix u)) user_arrives.
Proof. apply (transfers_struct _ _ _ _ 1); [lia|]. intros r Hr. walk_by ltac:(transfer). Qed.

Lemma device_transfers : transfers (struct_codec zeroDevice device_fields) (struct_codec zeroDevice tool_device_fields) 2
  device_ok device_arrives.
Proof. apply (transfers_struct _ _ _ _ 1); [lia|]. intros r (H1 & H2 & H3). walk_by ltac:(transfer). Qed.

Lemma exit_node_transfers :
  transfers (struct_codec zeroExitNode exit_node_fields) (struct_codec zeroExitNode tool_exit_node_fields) 2
    (λ x, int64_range (xv_UpdatedAtUnix x)) exit_node_arrives.
Proof. apply (transfers_struct _ _ _ _ 1); [lia|]. intros r Hr. walk_by ltac:(transfer). Qed.

(** The snapshot as a struct. *)
Lemma soa_transfers : transfers (struct_codec ("", "") soa_fields) (struct_codec ("", "") soa_fields) 2 always
  (λ s, (ToValidUTF8 s.1, ToValidUTF8 s.2)).
Proof. apply (transfers_struct _ _ _ _ 1); [lia|]. intros [a b] _. walk_by ltac:(transfer). Qed.
Lemma dns_network_transfers zero : zero = {| nv_Group := ""; nv_GatewayIP := ""; nv_Netmask := "" |} →
  transfers (struct_codec zero dns_network_fields) (struct_codec zero dns_network_fields) 2 always dns_network_arrives.
Proof. intros ->. apply (transfers_struct _ _ _ _ 1); [lia|]. intros n _. walk_by ltac:(transfer). Qed.
Lemma dns_record_transfers zero : zero = {| rv_FQDN := ""; rv_ShortName := ""; rv_DeviceID := ""; rv_Group := "";
     rv_VirtualIP := ""; rv_ControlOnline := false; rv_DataPlaneReachable := false; rv_UpdatedAtUnix := 0 |} →
  transfers (struct_codec zero dns_record_fields) (struct_codec zero dns_record_fields) 2
    (λ r, int64_range (rv_UpdatedAtUnix r)) dns_record_arrives.
Proof. intros ->. apply (transfers_struct _ _ _ _ 1); [lia|]. intros n Hn. walk_by ltac:(transfer). Qed.
Lemma dns_gateway_transfers zero : zero = {| dgv_GatewayID := ""; dgv_Endpoint := ""; dgv_Default := false; dgv_Alive := false |} →
  transfers (struct_codec zero dns_gateway_fields) (struct_codec zero dns_gateway_fields) 2 always dns_gateway_arrives.
Proof. intros ->. apply (transfers_struct _ _ _ _ 1); [lia|]. intros n _. walk_by ltac:(transfer). Qed.

Lemma snapshot_transfers : transfers snapshot_codec snapshot_codec 4 snapshot_ok snapshot_arrives.
Proof.
  apply (transfers_struct _ _ _ _ 3); [lia|]. intros s (H1 & H2 & H3 & H4).
  pose proof soa_transfers. pose proof (dns_network_transfers _ eq_refl). pose proof (dns_record_transfers _ eq_refl).
  pose proof (dns_gateway_transfers _ eq_refl). walk_by ltac:(transfer).
Qed.

Lemma snapshot_any : transfers (pointer_codec snapshot_codec) any_codec 4
  (λ p, match p with Some s => snapshot_ok s | None => True end) (λ p, p ≫= snapshot_json).
Proof.
  apply (transfers_any _ snapshot_codec _ _ snapshot_arrives); [exact snapshot_transfers|].
  intros s. cbn [c_enc snapshot_codec struct_codec]. by destruct (encode_fields _ s).
Qed.

Lemma response_transfers : transfers response_codec tool_response_codec 10000 response_ok response_arrives.
Proof.
  apply (transfers_struct _ _ _ _ 9999); [lia|]. intros r (H1 & H2 & H3 & H4 & H5 & H6 & H7 & H8 & H9 & H10).
  assert (Hraw : true && bool_decide (rs_DebugResult r = "") = false → raw_ok 9999 (rs_DebugResult r)).
  { cbn [andb]. intros Hne. bool_prop. by destruct H8. }
  pose proof gateway_transfers. pose proof exit_node_transfers. pose proof user_transfers. pose proof device_transfers.
  pose proof snapshot_any. walk_by ltac:(transfer).
Qed.

Lemma tool_response_transfers : transfers tool_response_codec tool_response_codec 10000 tool_ok as_printed.
Proof.
  apply (transfers_struct _ _ _ _ 9999); [lia|]. intros r (H1 & H2 & H3 & H4 & H5 & H6 & H7 & H8 & H9 & H10).
  assert (Hraw : true && bool_decide (ts_DebugResult r = "") = false → raw_ok 9999 (ts_DebugResult r)).
  { cbn [andb]. intros Hne. bool_prop. by destruct H8. }
  pose proof gateway_transfers as Hg. pose proof exit_node_transfers as Hx. pose proof user_transfers as Hu. pose proof device_transfers as Hd.
  pose proof (transfers_any_any 9999 ltac:(lia)) as Ha.
  change gateway_fields with tool_gateway_fields in Hg. change exit_node_fields with tool_exit_node_fields in Hx.
  change user_fields with tool_user_fields in Hu. change device_fields with tool_device_fields in Hd. walk_by ltac:(transfer).
Qed.

(** What the server sends within range is within range when it has arrived. *)
Lemma arrives_ok r : response_ok r → tool_ok (response_arrives r).
Proof.
  intros (H1 & H2 & H3 & H4 & H5 & H6 & H7 & H8 & H9 & H10). split_and!; cbn; try done; try by apply Forall_map.
  - destruct (rs_DNSSnapshot r) as [s|]; [|done]. destruct (tr_enc _ _ _ _ _ snapshot_transfers s H7) as (j & Ej & _ & Wj).
    unfold snapshot_json. cbn [mbind option_bind]. rewrite Ej. split; [|intros d Hd; apply Wj; lia].
    intros ->. cbn [c_enc snapshot_codec struct_codec] in Ej. by destruct (encode_fields _ s).
  - unfold raw_text. destruct H8 as [->|(j & Hj & Hd)]; [by left|]. right. rewrite Hj. exists (compact_json j).
    unfold str. rewrite chars_of_list, <-(app_nil_r (json_text _)). split; [|by rewrite compact_depth].
    apply parse_all_text; [|apply Forall_nil_2]. eapply compact_wf; [by eapply parse_all_wf|unfold maxNestingDepth; lia].
Qed.

(** ** Line by line *)
Definition newline : ascii := ascii_of_nat 10.
Definition nl_text : string := String newline "".

Lemma printable_one_line l : Forall printable l → newline ∉ l.
Proof. intros Hl Hin. rewrite Forall_forall in Hl. specialize (Hl _ Hin). by vm_compute in Hl. Qed.

Lemma nl_spaces : Forall (λ c, json_space c = true) (chars nl_text).
Proof. by repeat constructor. Qed.

Context (json_error : string → string).

Lemma request_line r : request_ok r → (newline ∉ chars (tool_marshal r)) ∧ tool_marshal r ≠ ""
  ∧ server_unmarshal json_error (tool_marshal r +:+ nl_text) = Ok (request_arrives r).
Proof.
  intros Hr. destruct (json_roundtrip _ _ _ _ _ r nl_text request_transfers ltac:(done) Hr nl_spaces) as (text & Ht & Hu & Hp).
  unfold tool_marshal, server_unmarshal. rewrite Ht. change (default "" (Some text)) with text. change (c_zero request_codec) with zeroAdminRequest in Hu.
  rewrite Hu. split_and!; [by apply printable_one_line| |done]. intros ->.
  assert (E : parse_all (chars ("" +:+ nl_text)) = None) by (vm_compute; reflexivity). unfold JsonUnmarshal in Hu. rewrite E in Hu. discriminate Hu.
Qed.

Lemma response_line resp : response_ok resp → ∃ line, server_sends resp = line +:+ nl_text ∧ (newline ∉ chars line)
  ∧ tool_unmarshal json_error (line +:+ nl_text) = Ok (response_arrives resp).
Proof.
  intros Hr. destruct (json_roundtrip _ _ _ _ _ resp nl_text response_transfers ltac:(done) Hr nl_spaces) as (text & Ht & Hu & Hp).
  exists text. unfold server_sends, tool_unmarshal. rewrite Ht. split; [done|]. change (c_zero tool_response_codec) with zeroToolResponse in Hu.
  rewrite Hu. split; [by apply printable_one_line|done].
Qed.

(** A request whose texts are valid arrives as it is. *)
Definition request_valid (r : adminRequest) : Prop :=
  valid_text (rq_Action r) ∧ valid_text (rq_Name r) ∧ valid_text (rq_Domain r) ∧ valid_text (rq_GatewayID r)
  ∧ valid_text (rq_Endpoint r) ∧ Forall valid_text (rq_Capabilities r) ∧ Forall valid_text (rq_Sections r)
  ∧ valid_text (rq_UserID r) ∧ valid_text (rq_IDFilter r) ∧ valid_text (rq_NameFilter r) ∧ valid_text (rq_Group r)
  ∧ valid_text (rq_DeviceID r).

Lemma map_valid l : Forall valid_text l → map ToValidUTF8 l = l.
Proof. induction 1 as [|s l Hs _ IH]; [done|]. cbn [map]. by rewrite Hs, IH. Qed.

Lemma request_arrives_valid r : request_valid r → request_arrives r = r.
Proof.
  intros (H1 & H2 & H3 & H4 & H5 & H6 & H7 & H8 & H9 & H10 & H11 & H12). unfold request_arrives. cbv zeta.
  rewrite H1, H2, H3, H4, H5, H8, H9, H10, H11, H12, !map_valid by done. by destruct r.
Qed.

(** The body of a POST is read over the action of its path, which the action of the
    request replaces. *)
Lemma request_over r action : request_ok r →
  server_decode json_error (zeroAdminRequest <| rq_Action := action |>) (tool_marshal r) = Ok (request_arrives r).
Proof.
  intros Hr. destruct (tr_enc _ _ _ _ _ request_transfers r Hr) as (j & Ej & Dj & Wj). unfold tool_marshal, JsonMarshal. rewrite Ej.
  unfold server_decode, JsonDecode, str. cbn [fmap option_fmap option_map default from_option id]. rewrite chars_of_list.
  assert (Hp : parse_first (json_text j) = Some j).
  { unfold parse_first, json_text. rewrite <-(app_nil_r (layout _ _ _ _)). rewrite parse_text; try apply Forall_nil_2; try done.
    - intros; apply Forall_nil_2.
    - apply Wj. done.
    - rewrite app_nil_r. lia. }
  rewrite Hp. cbn [mbind option_bind].
  assert (Hover : c_dec request_codec j (zeroAdminRequest <| rq_Action := action |>) = c_dec request_codec j zeroAdminRequest).
  { cbn [c_enc tool_request_codec struct_codec] in Ej. destruct (encode_fields (tail tool_request_fields) r) as [ms|] eqn:Ems;
      change (JObject <$> (ms ← encode_fields (tail tool_request_fields) r; Some ((escape 0 (chars "action"), quote_json (rq_Action r)) :: ms))
              = Some j) in Ej; rewrite Ems in Ej; [|discriminate Ej]. injection Ej as <-.
    cbn [c_dec request_codec struct_codec decode_members]. unfold decode_member. cbn [fst snd].
    rewrite find_field_ascii by ascii_names. reflexivity. }
  change zeroAdminRequest with (c_zero request_codec) in Hover at 2. by rewrite Hover, Dj.
Qed.

(** C18 (roundtrip). The two sides of the administration socket, which share no type,
    understand each other.  Every request of the tool is one line, and the server reads
    from it the same request, with invalid UTF-8 replaced; with valid texts it is the
    request itself.  As the body of a POST it asks for the same, whatever the path says.  Every answer of the server is one line too, from which the tool
    reads everything but the two fields it does not declare. *)
Theorem admin_wire_agrees :
  (∀ r, request_ok r → (newline ∉ chars (tool_marshal r))
     ∧ server_unmarshal json_error (tool_marshal r +:+ nl_text) = Ok (request_arrives r)
     ∧ (request_valid r → request_arrives r = r)
     ∧ ∀ q, hr_Method q = "POST" → hr_Body q = Some (tool_marshal r) → TrimSpace (rq_Action (request_arrives r)) ≠ "" →
         adminRequestFromHTTP (server_decode json_error) q = Ok (request_arrives r))
  ∧ (∀ resp, response_ok resp → ∃ line, server_sends resp = line +:+ nl_text ∧ (newline ∉ chars line)
     ∧ tool_unmarshal json_error (line +:+ nl_text) = Ok (response_arrives resp)).
Proof.
  split; [|exact response_line]. intros r Hr. destruct (request_line r Hr) as (? & _ & ?).
  split_and!; [done|done|apply request_arrives_valid|]. intros q Hm Hb Ha. unfold adminRequestFromHTTP.
  rewrite Hm, Hb, bool_decide_eq_false_2 by done. cbv zeta. rewrite (request_over r _ Hr). by rewrite bool_decide_eq_false_2.
Qed.
End WireInv.

(** A request with a text that is not valid UTF-8, and an answer with a debugging result. *)
Module SampleWire.
Definition err : string → string := λ _, "bad".
Definition rename : adminRequest := zeroAdminRequest <| rq_Action := "rename_device" |> <| rq_UserID := "u" |> <| rq_DeviceID := "d" |>
  <| rq_Name := String (ascii_of_nat 255) "n" |>.
Definition user : UMUserAdminView := mkUMUserAdminView "u" "" "" "g" "d" 5.
Definition answer : adminResponse :=
  zeroAdminResponse <| rs_OK := true |> <| rs_Group := "g" |> <| rs_Users := [user] |> <| rs_DebugWatchID := 7 |>.
End SampleWire.

Lemma admin_wire_agrees_witness :
  @server_unmarshal AsciiFold SampleWire.err (@tool_marshal AsciiFold SampleWire.rename +:+ nl_text)
  = Ok (SampleWire.rename <| rq_Name := String.string_of_list_ascii (map ascii_of_nat [239; 191; 189; 110]%nat) |>)
  ∧ @tool_unmarshal AsciiFold SampleWire.err (@server_sends AsciiFold SampleWire.answer)
    = Ok (zeroToolResponse <| ts_OK := true |> <| ts_Users := [SampleWire.user] |> <| ts_DebugWatchID := 7 |>).
Proof.
  destruct (@admin_wire_agrees AsciiFold SampleWire.err) as [Hr Ha]. split.
  - destruct (Hr SampleWire.rename) as (_ & E & _ & _); [split_and!; unfold int64_range; cbn; lia|]. rewrite E. vm_compute. reflexivity.
  - destruct (Ha SampleWire.answer) as (line & E & _ & Hu).
    + unfold response_ok, int64_range, unsigned. cbn. split_and!; first [lia|by left|by repeat first [apply Forall_nil_2|apply Forall_cons_2; [cbn; lia|]]].
    + rewrite E, Hu. vm_compute. reflexivity.
Defined.
