(* ===== verification/AdminCli.v ===== *)
(** * The administration tool, commands: the first half of [cmd/sdl-admin/main.go].

    Every command parses its own flags and makes one request.  [None] is
    [fatalUsage]: the tool prints its usage and exits with status 2.  The request
    of the tool has the fields of the server's, so it is that of [Admin]; [AdminWire]
    says how it is sent. *)
From S2P Require Import Prelude GoString GoText NetIP NetParse GoFlag.
From S2P Require Import DebugStore Admin.

Definition blank (s : string) : bool := bool_decide (TrimSpace s = "").

(** The subcommand named by the first argument parses the others. *)
Definition subcommand (table : list (string * (list string → option adminRequest))) (args : list string) : option adminRequest :=
  match args with
  | [] => None
  | cmd :: args => r ← list_find (λ e, e.1 = cmd) table; r.2.2 args
  end.

(** ** Usage *)
Definition command_line (rest : string) : string := "  sdl-admin [--socket /tmp/sdl-control-admin.sock] [--json] " +:+ rest.

Definition usage_lines : list string :=
  "usage:" :: (command_line <$>
    ["version";
     "user create --id/-u user1 [--group/-g sales.ms.net]";
     "user list [--id/-u 'user-*'] [--name/-n huang]";
     "device list --id/-u u-1";
     "device issue-auth-ticket --id/-u u-1 [--group/-g default.ms.net] [--ttl-seconds/-t 300]";
     "device extend-expiry --id/-u u-1 (--device-id/-d dev-1 | --all) [--group/-g sales.ms.net] [--ttl-seconds/-t 2592000]";
     "device rename --id/-u u-1 --device-id/-d dev-1 --name/-n node-1 [--group/-g sales.ms.net]";
     "device delete --id/-u u-1 --device-id/-d dev-1 [--group/-g sales.ms.net]";
     "gateway --list";
     "gateway --enlist gw-1";
     "gateway --delist gw-1";
     "exit-node list [--id/-u u-1]";
     "exit-node approve [--id/-u u-1] <device-id>";
     "exit-node approve --id/-u u-1 --name/-n node-1";
     "exit-node revoke --id/-u u-1 --device-id/-d dev-1";
     "dnsDomains";
     "dnsSnapshot --domain/-d ms.net [--group/-g default]";
     "collectDebug --name/-n win10-node [--group/-g default.ms.net] [--userId/-u u-1] [--sections/-s runtime,gateway,peers,routes,nat,traffic] [--timeoutSec/-t 10]";
     "startDebugWatch --name/-n win10-node [--group/-g default.ms.net] [--userId/-u u-1] [--sections/-s all,gateway,icmp,punch,route,runtime] [--durationSec/-d 300] [--timeoutSec/-t 10]";
     "stopDebugWatch --name/-n win10-node [--group/-g default.ms.net] [--userId/-u u-1] [--timeoutSec/-t 10]"]).

Definition splitCSV (v : string) : list string :=
  filter (λ s, s ≠ "") ((λ item, TrimSpace (str item)) <$> split_on ","%char (chars v)).

Definition defaultSocketPath (env : string → string) : string :=
  if blank (env "SDL_ADMIN_SOCKET") then "/tmp/sdl-control-admin.sock" else env "SDL_ADMIN_SOCKET".

(** ** Users *)

(** The flags of [parseUserCreate]. *)
Definition userCreate_flags : FlagSet :=
  [StringVar "userID" "id" ""; StringVar "userID" "u" ""; StringVar "group" "group" "default";
   StringVar "group" "g" "default"].

Definition parseUserCreate (args : list string) : option adminRequest :=
  '(v, rest) ← Parse userCreate_flags (declare userCreate_flags) args;
  if negb (bool_decide (rest = [])) || blank (var_string v "userID") then None else
  Some (zeroAdminRequest <| rq_Action := "create_user" |>
        <| rq_UserID := TrimSpace (var_string v "userID") |>
        <| rq_Group := TrimSpace (var_string v "group") |>).

(** The flags of [parseUserList]. *)
Definition userList_flags : FlagSet :=
  [StringVar "idFilter" "id" ""; StringVar "idFilter" "u" ""; StringVar "nameFilter" "name" "";
   StringVar "nameFilter" "n" ""].

Definition parseUserList (args : list string) : option adminRequest :=
  '(v, rest) ← Parse userList_flags (declare userList_flags) args;
  if negb (bool_decide (rest = [])) then None else
  Some (zeroAdminRequest <| rq_Action := "list_users" |>
        <| rq_IDFilter := TrimSpace (var_string v "idFilter") |>
        <| rq_NameFilter := TrimSpace (var_string v "nameFilter") |>).

Definition parseUser : list string → option adminRequest :=
  subcommand [("create", parseUserCreate); ("list", parseUserList)].

(** ** Devices *)

(** The flags of [parseDeviceDelete]. *)
Definition deviceDelete_flags : FlagSet :=
  [StringVar "userID" "id" ""; StringVar "userID" "u" ""; StringVar "group" "group" ""; StringVar "group" "g" "";
   StringVar "deviceID" "device-id" ""; StringVar "deviceID" "d" ""].

Definition parseDeviceDelete (args : list string) : option adminRequest :=
  '(v, rest) ← Parse deviceDelete_flags (declare deviceDelete_flags) args;
  if blank (var_string v "userID") || blank (var_string v "deviceID") || negb (bool_decide (rest = [])) then None else
  Some (zeroAdminRequest <| rq_Action := "delete_device" |>
        <| rq_UserID := TrimSpace (var_string v "userID") |>
        <| rq_Group := TrimSpace (var_string v "group") |>
        <| rq_DeviceID := TrimSpace (var_string v "deviceID") |>).

(** The flags of [parseDeviceRename]. *)
Definition deviceRename_flags : FlagSet :=
  [StringVar "userID" "id" ""; StringVar "userID" "u" ""; StringVar "group" "group" ""; StringVar "group" "g" "";
   StringVar "deviceID" "device-id" ""; StringVar "deviceID" "d" ""; StringVar "name" "name" "";
   StringVar "name" "n" ""].

Definition parseDeviceRename (args : list string) : option adminRequest :=
  '(v, rest) ← Parse deviceRename_flags (declare deviceRename_flags) args;
  if blank (var_string v "userID") || blank (var_string v "deviceID") || blank (var_string v "name") || negb (bool_decide (rest = [])) then None else
  Some (zeroAdminRequest <| rq_Action := "rename_device" |>
        <| rq_UserID := TrimSpace (var_string v "userID") |>
        <| rq_Group := TrimSpace (var_string v "group") |>
        <| rq_DeviceID := TrimSpace (var_string v "deviceID") |>
        <| rq_Name := TrimSpace (var_string v "name") |>).

(** The flags of [parseDeviceIssueAuthTicket]. *)
Definition deviceIssueAuthTicket_flags : FlagSet :=
  [StringVar "userID" "id" ""; StringVar "userID" "u" ""; StringVar "group" "group" "default.ms.net";
   StringVar "group" "g" "default.ms.net"; Int64Var "ttlSeconds" "ttl-seconds" 300; Int64Var "ttlSeconds" "t" 300].

Definition parseDeviceIssueAuthTicket (args : list string) : option adminRequest :=
  '(v, rest) ← Parse deviceIssueAuthTicket_flags (declare deviceIssueAuthTicket_flags) args;
  if blank (var_string v "userID") || negb (bool_decide (rest = [])) then None else
  Some (zeroAdminRequest <| rq_Action := "issue_device_ticket" |>
        <| rq_UserID := TrimSpace (var_string v "userID") |>
        <| rq_Group := TrimSpace (var_string v "group") |>
        <| rq_TTLSeconds := var_int v "ttlSeconds" |>).

(** The flags of [parseDeviceList]. *)
Definition deviceList_flags : FlagSet :=
  [StringVar "userID" "id" ""; StringVar "userID" "u" ""].

Definition parseDeviceList (args : list string) : option adminRequest :=
  '(v, rest) ← Parse deviceList_flags (declare deviceList_flags) args;
  if blank (var_string v "userID") || negb (bool_decide (rest = [])) then None else
  Some (zeroAdminRequest <| rq_Action := "list_device" |>
        <| rq_UserID := TrimSpace (var_string v "userID") |>).

(** The flags of [parseDeviceExtendExpiry]. *)
Definition deviceExtendExpiry_flags : FlagSet :=
  [StringVar "userID" "id" ""; StringVar "userID" "u" ""; StringVar "group" "group" ""; StringVar "group" "g" "";
   StringVar "deviceID" "device-id" ""; StringVar "deviceID" "d" ""; BoolVar "all" "all" false;
   Int64Var "ttlSeconds" "ttl-seconds" 2592000; Int64Var "ttlSeconds" "t" 2592000].

Definition parseDeviceExtendExpiry (args : list string) : option adminRequest :=
  '(v, rest) ← Parse deviceExtendExpiry_flags (declare deviceExtendExpiry_flags) args;
  if blank (var_string v "userID") || negb (bool_decide (rest = [])) || bool_decide (var_bool v "all" = negb (blank (var_string v "deviceID"))) then None else
  Some (zeroAdminRequest <| rq_Action := "extend_device_expiry" |>
        <| rq_UserID := TrimSpace (var_string v "userID") |>
        <| rq_Group := TrimSpace (var_string v "group") |>
        <| rq_DeviceID := TrimSpace (var_string v "deviceID") |> <| rq_All := var_bool v "all" |>
        <| rq_TTLSeconds := var_int v "ttlSeconds" |>).

Definition parseDevice : list string → option adminRequest :=
  subcommand [("list", parseDeviceList); ("issue-auth-ticket", parseDeviceIssueAuthTicket);
              ("extend-expiry", parseDeviceExtendExpiry); ("delete", parseDeviceDelete); ("rename", parseDeviceRename)].

(** ** Gateways *)

(** The flags of [parseGateway]. *)
Definition gateway_flags : FlagSet :=
  [BoolVar "list" "list" false; StringVar "gatewayID" "enlist" ""; StringVar "delistGatewayID" "delist" ""].

(** How many of the three operations are asked for. *)
Definition gateway_ops (v : Vars) : nat :=
  (if var_bool v "list" then 1 else 0) + (if blank (var_string v "gatewayID") then 0 else 1)
  + (if blank (var_string v "delistGatewayID") then 0 else 1).

Definition parseGateway (args : list string) : option adminRequest :=
  '(v, rest) ← Parse gateway_flags (declare gateway_flags) args;
  if negb (bool_decide (rest = [])) || negb (bool_decide (gateway_ops v = 1%nat)) then None else
  Some (if var_bool v "list" then zeroAdminRequest <| rq_Action := "gateway_list" |>
        else if negb (blank (var_string v "gatewayID"))
        then zeroAdminRequest <| rq_Action := "gateway_enlist" |> <| rq_GatewayID := TrimSpace (var_string v "gatewayID") |>
        else zeroAdminRequest <| rq_Action := "gateway_delist" |> <| rq_GatewayID := TrimSpace (var_string v "delistGatewayID") |>).

(** ** Exit nodes *)

(** The flags of [parseExitNodeList]. *)
Definition exitNodeList_flags : FlagSet :=
  [StringVar "userID" "id" ""; StringVar "userID" "u" ""].

Definition parseExitNodeList (args : list string) : option adminRequest :=
  '(v, rest) ← Parse exitNodeList_flags (declare exitNodeList_flags) args;
  if negb (bool_decide (rest = [])) then None else
  Some (zeroAdminRequest <| rq_Action := "exit_node_list" |>
        <| rq_UserID := TrimSpace (var_string v "userID") |>).

(** The flags of [parseExitNodeApprove]. *)
Definition exitNodeApprove_flags : FlagSet :=
  [StringVar "userID" "id" ""; StringVar "userID" "u" ""; StringVar "name" "name" ""; StringVar "name" "n" ""].

(** By name, which needs the user, or by the identifier given as the only operand. *)
Definition parseExitNodeApprove (args : list string) : option adminRequest :=
  '(v, rest) ← Parse exitNodeApprove_flags (declare exitNodeApprove_flags) args;
  let userID := TrimSpace (var_string v "userID") in
  let name := TrimSpace (var_string v "name") in
  let req := zeroAdminRequest <| rq_Action := "exit_node_approve" |> <| rq_UserID := userID |> in
  if bool_decide (name ≠ "") then
    if bool_decide (userID = "") || negb (bool_decide (rest = [])) then None else Some (req <| rq_Name := name |>)
  else match rest with
    | [deviceID] => Some (req <| rq_DeviceID := TrimSpace deviceID |>)
    | _ => None
    end.

(** The flags of [parseExitNodeApproval]. *)
Definition exitNodeApproval_flags : FlagSet :=
  [StringVar "userID" "id" ""; StringVar "userID" "u" ""; StringVar "deviceID" "device-id" "";
   StringVar "deviceID" "d" ""].

Definition parseExitNodeApproval (action : string) (args : list string) : option adminRequest :=
  '(v, rest) ← Parse exitNodeApproval_flags (declare exitNodeApproval_flags) args;
  if blank (var_string v "userID") || blank (var_string v "deviceID") || negb (bool_decide (rest = [])) then None else
  Some (zeroAdminRequest <| rq_Action := action |> <| rq_UserID := TrimSpace (var_string v "userID") |>
        <| rq_DeviceID := TrimSpace (var_string v "deviceID") |>).

Definition parseExitNode : list string → option adminRequest :=
  subcommand [("list", parseExitNodeList); ("approve", parseExitNodeApprove);
              ("revoke", parseExitNodeApproval "exit_node_revoke")].

(** ** Name service *)

(** The flags of [parseDNSSnapshot]. *)
Definition dnsSnapshot_flags : FlagSet :=
  [StringVar "domain" "domain" ""; StringVar "domain" "d" ""; StringVar "group" "group" ""; StringVar "group" "g" ""].

Definition parseDNSSnapshot (args : list string) : option adminRequest :=
  '(v, rest) ← Parse dnsSnapshot_flags (declare dnsSnapshot_flags) args;
  if blank (var_string v "domain") || negb (bool_decide (rest = [])) then None else
  Some (zeroAdminRequest <| rq_Action := "dns_snapshot" |>
        <| rq_Domain := TrimSpace (var_string v "domain") |>
        <| rq_Group := TrimSpace (var_string v "group") |>).

(** The flags of [parseDNSDomains]. *)
Definition dnsDomains_flags : FlagSet :=
  [].

Definition parseDNSDomains (args : list string) : option adminRequest :=
  '(v, rest) ← Parse dnsDomains_flags (declare dnsDomains_flags) args;
  if negb (bool_decide (rest = [])) then None else
  Some (zeroAdminRequest <| rq_Action := "dns_domains" |>).

(** ** Debugging *)

(** The flags of [parseCollectDebug]. *)
Definition collectDebug_flags : FlagSet :=
  [StringVar "name" "name" ""; StringVar "name" "n" ""; StringVar "userID" "userId" ""; StringVar "userID" "u" "";
   StringVar "group" "group" ""; StringVar "group" "g" ""; StringVar "sections" "sections" "";
   StringVar "sections" "s" ""; Int64Var "timeoutSec" "timeoutSec" 10; Int64Var "timeoutSec" "t" 10].

Definition parseCollectDebug (args : list string) : option adminRequest :=
  '(v, rest) ← Parse collectDebug_flags (declare collectDebug_flags) args;
  if blank (var_string v "name") || negb (bool_decide (rest = [])) then None else
  Some (zeroAdminRequest <| rq_Action := "collect_debug" |> <| rq_Name := TrimSpace (var_string v "name") |>
        <| rq_UserID := TrimSpace (var_string v "userID") |>
        <| rq_Group := TrimSpace (var_string v "group") |>
        <| rq_Sections := splitCSV (var_string v "sections") |>
        <| rq_TimeoutSec := var_int v "timeoutSec" |>).

(** The flags of [parseStartDebugWatch]. *)
Definition startDebugWatch_flags : FlagSet :=
  [StringVar "name" "name" ""; StringVar "name" "n" ""; StringVar "userID" "userId" ""; StringVar "userID" "u" "";
   StringVar "group" "group" ""; StringVar "group" "g" ""; StringVar "sections" "sections" "";
   StringVar "sections" "s" ""; Int64Var "timeoutSec" "timeoutSec" 10; Int64Var "timeoutSec" "t" 10;
   Int64Var "durationSec" "durationSec" 300; Int64Var "durationSec" "d" 300].

Definition parseStartDebugWatch (args : list string) : option adminRequest :=
  '(v, rest) ← Parse startDebugWatch_flags (declare startDebugWatch_flags) args;
  if blank (var_string v "name") || negb (bool_decide (rest = [])) then None else
  Some (zeroAdminRequest <| rq_Action := "start_debug_watch" |>
        <| rq_Name := TrimSpace (var_string v "name") |>
        <| rq_UserID := TrimSpace (var_string v "userID") |>
        <| rq_Group := TrimSpace (var_string v "group") |>
        <| rq_Sections := splitCSV (var_string v "sections") |>
        <| rq_TimeoutSec := var_int v "timeoutSec" |>
        <| rq_DurationSec := var_int v "durationSec" |>).

(** The flags of [parseStopDebugWatch]. *)
Definition stopDebugWatch_flags : FlagSet :=
  [StringVar "name" "name" ""; StringVar "name" "n" ""; StringVar "userID" "userId" ""; StringVar "userID" "u" "";
   StringVar "group" "group" ""; StringVar "group" "g" ""; Int64Var "timeoutSec" "timeoutSec" 10;
   Int64Var "timeoutSec" "t" 10].

Definition parseStopDebugWatch (args : list string) : option adminRequest :=
  '(v, rest) ← Parse stopDebugWatch_flags (declare stopDebugWatch_flags) args;
  if blank (var_string v "name") || negb (bool_decide (rest = [])) then None else
  Some (zeroAdminRequest <| rq_Action := "stop_debug_watch" |>
        <| rq_Name := TrimSpace (var_string v "name") |>
        <| rq_UserID := TrimSpace (var_string v "userID") |>
        <| rq_Group := TrimSpace (var_string v "group") |>
        <| rq_TimeoutSec := var_int v "timeoutSec" |>).

(** ** The command line *)
Definition parseVersion (args : list string) : option adminRequest :=
  if bool_decide (args = []) then Some (zeroAdminRequest <| rq_Action := "version" |>) else None.

Definition parseCommand : list string → option adminRequest :=
  subcommand
    [("version", parseVersion); ("user", parseUser); ("device", parseDevice); ("gateway", parseGateway);
     ("exit-node", parseExitNode); ("exit_node", parseExitNode); ("dnsDomains", parseDNSDomains);
     ("dns_domains", parseDNSDomains); ("dnsSnapshot", parseDNSSnapshot); ("dns_snapshot", parseDNSSnapshot);
     ("collectDebug", parseCollectDebug); ("collect_debug", parseCollectDebug);
     ("startDebugWatch", parseStartDebugWatch); ("start_debug_watch", parseStartDebugWatch);
     ("stopDebugWatch", parseStopDebugWatch); ("stop_debug_watch", parseStopDebugWatch)].

Definition global_flags (env : string → string) : FlagSet :=
  [StringVar "socket" "socket" (defaultSocketPath env); BoolVar "json" "json" false].

(** The socket, whether to print JSON, and the request. *)
Definition parseArgs (env : string → string) (args : list string) : option (string * bool * adminRequest) :=
  '(v, rest) ← Parse (global_flags env) (declare (global_flags env)) args;
  req ← parseCommand rest;
  Some (var_string v "socket", var_bool v "json", req).

Example parse_args_ex :
  parseArgs (λ _, "") ["--json"; "device"; "extend-expiry"; "-u"; " u-1 "; "--all"; "-t=0x10"]
  = Some ("/tmp/sdl-control-admin.sock", true,
          zeroAdminRequest <| rq_Action := "extend_device_expiry" |> <| rq_UserID := "u-1" |> <| rq_All := true |>
                           <| rq_TTLSeconds := 16 |>)
  ∧ rq_Sections <$> parseCommand ["collect_debug"; "-n"; "a"; "-s"; " nat,, peers ,"] = Some ["nat"; "peers"].
Proof. vm_compute. repeat split. Qed.
