(* ===== verification/CliOutput.v ===== *)
(** * The administration tool, output: the second half of [cmd/sdl-admin/main.go].

    Text is written to two streams; whether one of them shows colours is decided by
    [isColorTerminal].  [local_time] is [time.Unix(v, 0).Local().Format(RFC3339)],
    which depends on the time zone, and the [json_...] parameters are the JSON encoder
    with indentation, for values that hold an [any].  [transport] is the socket. *)
From S2P Require Import Prelude GoString GoText NetIP NetParse GoFlag Network UserManager Gateway ExitNode.
From S2P Require Import Dns DeviceList DebugStore Admin GoJson JsonCodec AdminWire AdminCli.

(** ** Styles *)
Definition esc : ascii := ascii_of_nat 27.
Definition nl : string := String (ascii_of_nat 10) "".
Definition ansi (code : string) : string := String esc ("[" +:+ code +:+ "m").

Definition ansiReset : string := ansi "0".
Definition ansiBold : string := ansi "1".
Definition ansiRed : string := ansi "31".
Definition ansiGreen : string := ansi "32".
Definition ansiYellow : string := ansi "33".
Definition ansiBlue : string := ansi "34".
Definition ansiCyan : string := ansi "36".
Definition ansiGray : string := ansi "90".

(** [is_device] is whether the writer is a file that is a character device. *)
Definition isColorTerminal (env : string → string) (is_device : bool) : bool :=
  if bool_decide (env "NO_COLOR" ≠ "") then false
  else if bool_decide (env "CLICOLOR_FORCE" ≠ "") && bool_decide (env "CLICOLOR_FORCE" ≠ "0") then true
  else if bool_decide (env "TERM" = "dumb") then false else is_device.

(** The styles: [enabled] is the field of [outputStyle]. *)
Definition wrap (enabled : bool) (text code : string) : string :=
  if negb enabled || bool_decide (text = "") then text else code +:+ text +:+ ansiReset.

Definition style_title (enabled : bool) (text : string) : string := wrap enabled text (ansiBold +:+ ansiCyan).
Definition style_label (enabled : bool) (text : string) : string := wrap enabled text ansiBold.
Definition style_accent (enabled : bool) (text : string) : string := wrap enabled text ansiCyan.
Definition style_muted (enabled : bool) (text : string) : string := wrap enabled text ansiGray.
Definition style_tableHeader (enabled : bool) (text : string) : string := wrap enabled text (ansiBold +:+ ansiBlue).

Record tableCell := mkCell { raw : string; rendered : string }.

Definition plainCell (text : string) : tableCell := mkCell text text.
Definition boolCell (enabled : bool) (v : bool) : tableCell :=
  if v then mkCell "yes" (wrap enabled "yes" ansiGreen) else mkCell "no" (wrap enabled "no" ansiRed).
Definition authCell (enabled : bool) (v : string) : tableCell :=
  mkCell v (wrap enabled v (if bool_decide (v = "valid") then ansiGreen else if bool_decide (v = "expired") then ansiRed
                            else if bool_decide (v = "-") then ansiGray else ansiYellow)).
Definition timeCell (enabled : bool) (v : string) : tableCell :=
  mkCell v (wrap enabled v (if bool_decide (v = "-") then ansiGray else ansiBlue)).

(** ** Tables *)
Definition RuneCount (s : string) : nat := length (string_runes s).

(** [strings.Repeat] of a space. *)
Fixpoint spaces (n : nat) : string := match n with O => "" | S n => String " " (spaces n) end.

Definition padding (text : string) (width : nat) (last : bool) : string :=
  spaces (width - RuneCount text) +:+ (if last then "" else "  ").

Definition padCell (text : string) (width : nat) (last : bool) : string := text +:+ padding text width last.
Definition padRenderedCell (cell : tableCell) (width : nat) (last : bool) : string :=
  rendered cell +:+ padding (raw cell) width last.

(** A row makes its columns as wide as its cells. *)
Fixpoint widen (widths : list nat) (row : list tableCell) : list nat :=
  match widths, row with
  | w :: widths', cell :: row' => Nat.max w (RuneCount (raw cell)) :: widen widths' row'
  | _, _ => widths
  end.

Definition column_widths (headers : list string) (rows : list (list tableCell)) : list nat :=
  foldl widen (RuneCount <$> headers) rows.

Definition is_last {A} (rest : list A) : bool := bool_decide (length rest = 0%nat).

(** The cells of a row; those beyond the last column are not printed. *)
Fixpoint render_cells {A} (pad : A → nat → bool → string) (widths : list nat) (cells : list A) : string :=
  match widths, cells with
  | w :: widths', cell :: cells' => pad cell w (is_last widths') +:+ render_cells pad widths' cells'
  | _, _ => ""
  end.

Definition renderTable (enabled : bool) (headers : list string) (rows : list (list tableCell)) : string :=
  if bool_decide (headers = []) then "" else
  let widths := column_widths headers rows in
  render_cells (λ h w last, style_tableHeader enabled (padCell h w last)) widths headers +:+ nl
  +:+ foldr (λ row acc, render_cells padRenderedCell widths row +:+ nl +:+ acc) "" rows.

(** ** Values *)
Definition valueOrDash (v : string) : string := if blank v then "-" else v.
Fixpoint join_with (sep : string) (l : list string) : string :=
  match l with [] => "" | [x] => x | x :: l' => x +:+ sep +:+ join_with sep l' end.
Definition formatCSV (values : list string) : string := if bool_decide (values = []) then "-" else join_with "," values.
Definition formatInt64 (v : Z) : string := if v =? 0 then "0" else dec v.
Definition formatUint64 (v : Z) : string := if v =? 0 then "0" else dec v.
Definition formatAuthState (device : DeviceAdminView) : string :=
  if dv_AuthExpired device then "expired" else if 0 <? dv_AuthExpireAtUnix device then "valid" else "-".

(** [%-12s] *)
Definition pad_to (n : nat) (s : string) : string := s +:+ spaces (n - RuneCount s).

Definition writeKeyValueBlock (enabled : bool) (title : string) (pairs : list (string * string)) : string :=
  style_title enabled title +:+ nl
  +:+ foldr (λ '(key, value) acc, "  " +:+ pad_to 12 (style_label enabled (key +:+ ":")) +:+ " " +:+ value +:+ nl +:+ acc) "" pairs.

(** A title and either a table or the mark of an empty one. *)
Definition titled_table (enabled : bool) (title : string) (headers : list string) (rows : list (list tableCell)) : string :=
  style_title enabled title +:+ nl
  +:+ (if bool_decide (length rows = 0%nat) then style_muted enabled "  (none)" +:+ nl else renderTable enabled headers rows).

Definition counted (title : string) {A} (l : list A) : string := title +:+ " (" +:+ dec (Z.of_nat (length l)) +:+ ")".

Section Output.
Context (local_time : Z → string).

Definition formatUnix (v : Z) : string := if v <=? 0 then "-" else local_time v.

Definition gateway_row (enabled : bool) (gw : GatewayAdminView) : list tableCell :=
  [plainCell (valueOrDash (gv_GatewayID gw)); plainCell (valueOrDash (gv_Endpoint gw)); boolCell enabled (gv_Default gw);
   boolCell enabled (gv_Approved gw); boolCell enabled (gv_Reported gw); boolCell enabled (gv_Alive gw);
   plainCell (formatCSV (gv_Capabilities gw)); timeCell enabled (formatUnix (gv_UpdatedAtUnix gw))].
Definition writeGatewayTable (enabled : bool) (gateways : list GatewayAdminView) : string :=
  titled_table enabled (counted "Gateways" gateways)
    ["ID"; "ENDPOINT"; "DEFAULT"; "APPROVED"; "REPORTED"; "ALIVE"; "CAPABILITIES"; "UPDATED AT"]
    (gateway_row enabled <$> gateways).

Definition user_cells (enabled : bool) (user : UMUserAdminView) : list tableCell :=
  [plainCell (valueOrDash (v_UserID user)); plainCell (valueOrDash (v_Name user)); plainCell (valueOrDash (v_Email user));
   plainCell (valueOrDash (v_Group user)); plainCell (valueOrDash (v_Domain user));
   timeCell enabled (formatUnix (v_CreatedAtUnix user))].
Definition writeUserTable (enabled : bool) (users : list UMUserAdminView) : string :=
  titled_table enabled (counted "Users" users) ["USER ID"; "NAME"; "EMAIL"; "GROUP"; "DOMAIN"; "CREATED AT"]
    (user_cells enabled <$> users).

Definition device_cells (enabled : bool) (device : DeviceAdminView) : list tableCell :=
  [plainCell (valueOrDash (dv_UserID device)); plainCell (valueOrDash (dv_Group device));
   plainCell (valueOrDash (dv_Name device)); plainCell (valueOrDash (dv_DeviceID device));
   plainCell (valueOrDash (dv_VirtualIP device)); boolCell enabled (dv_ControlOnline device);
   boolCell enabled (dv_DataPlaneReachable device); authCell enabled (formatAuthState device);
   timeCell enabled (formatUnix (dv_AuthExpireAtUnix device)); timeCell enabled (formatUnix (dv_UpdatedAtUnix device))].
Definition writeDeviceTable (enabled : bool) (title : string) (devices : list DeviceAdminView) : string :=
  titled_table enabled title
    ["USER ID"; "GROUP"; "NAME"; "DEVICE ID"; "VIRTUAL IP"; "CONTROL"; "DATA"; "AUTH"; "AUTH EXPIRES"; "UPDATED AT"]
    (device_cells enabled <$> devices).

Definition exit_node_cells (enabled : bool) (node : ExitNodeAdminView) : list tableCell :=
  [plainCell (valueOrDash (xv_UserID node)); plainCell (valueOrDash (xv_Name node)); plainCell (valueOrDash (xv_DeviceID node));
   plainCell (valueOrDash (xv_VirtualIP node)); boolCell enabled (xv_Approved node);
   boolCell enabled (xv_Advertised node && xv_LocalReady node); boolCell enabled (xv_Usable node);
   timeCell enabled (formatUnix (xv_UpdatedAtUnix node))].
Definition writeExitNodeTable (enabled : bool) (nodes : list ExitNodeAdminView) : string :=
  titled_table enabled (counted "Exit nodes" nodes)
    ["USER ID"; "NAME"; "DEVICE ID"; "VIRTUAL IP"; "APPROVED"; "READY"; "USABLE"; "UPDATED AT"]
    (exit_node_cells enabled <$> nodes).

Definition writeDomains (enabled : bool) (domains : list string) : string :=
  style_title enabled (counted "DNS domains" domains) +:+ nl
  +:+ (if bool_decide (domains = []) then style_muted enabled "  (none)" +:+ nl
       else foldr (λ domain acc, "  " +:+ style_accent enabled "-" +:+ " " +:+ domain +:+ nl +:+ acc) "" domains).

(** How a number of type [float64] is written, and the error of encoding a raw value
    that is not JSON. *)
Context `{UnicodeFold} (json_float : list ascii → list ascii) (encode_error : string).

Definition writeJSON {A} (c : codec A) (v : A) : result string :=
  match JsonEncodeIndent c v with Some text => Ok text | None => Err encode_error end.

(** The snapshot has type [any]: what is written is the value read. *)
Definition snapshot_again (resp : toolResponse) : toolResponse :=
  resp <| ts_DNSSnapshot := any_again json_float <$> ts_DNSSnapshot resp |>.

(** The devices an action changed and those there are now. *)
Definition changed_tables (enabled : bool) (title changed : string) (resp : toolResponse) : string :=
  writeKeyValueBlock enabled title [("Updated Count", dec (ts_UpdatedCount resp))]
  +:+ (if bool_decide (length (ts_UpdatedDevices resp) = 0%nat) then "" else nl +:+ writeDeviceTable enabled changed (ts_UpdatedDevices resp))
  +:+ (if bool_decide (length (ts_Devices resp) = 0%nat) then "" else nl +:+ writeDeviceTable enabled "Current devices" (ts_Devices resp)).

(** [writeResponse]: what goes to standard output and to standard error, and the
    error; [out] and [err] tell whether these show colours. *)
Definition writeResponse (out err : bool) (action : string) (resp : toolResponse) : string * string * option string :=
  let block title pairs := (writeKeyValueBlock out title pairs, "", None) in
  if bool_decide (action = "version") then (valueOrDash (ts_Version resp) +:+ nl, "", None)
  else if bool_decide (action = "create_user") then
    block "Created user" [("User ID", valueOrDash (ts_UserID resp)); ("Name", valueOrDash (ts_Name resp));
                          ("Domain", valueOrDash (ts_Domain resp))]
  else if bool_decide (action = "list_users") then (writeUserTable out (ts_Users resp), "", None)
  else if bool_decide (action = "issue_device_ticket") then
    block "Issued device ticket" [("Ticket", valueOrDash (ts_Ticket resp)); ("Expires At", formatUnix (ts_ExpireAtUnix resp));
                                  ("Expire Unix", formatInt64 (ts_ExpireAtUnix resp))]
  else if bool_decide (action = "gateway_enlist") then block "Gateway enlisted" []
  else if bool_decide (action = "gateway_delist") then block "Gateway delisted" []
  else if bool_decide (action = "gateway_list") then (writeGatewayTable out (ts_Gateways resp), "", None)
  else if bool_decide (action ∈ ["exit_node_list"; "exit_node_approve"; "exit_node_revoke"])
  then (writeExitNodeTable out (ts_ExitNodes resp), "", None)
  else if bool_decide (action = "list_device") then (writeDeviceTable out "Devices" (ts_Devices resp), "", None)
  else if bool_decide (action = "extend_device_expiry")
  then (changed_tables out "Extended device expiry" "Updated devices" resp, "", None)
  else if bool_decide (action = "delete_device") then (changed_tables out "Deleted device" "Deleted devices" resp, "", None)
  else if bool_decide (action = "rename_device") then (changed_tables out "Renamed device" "Renamed devices" resp, "", None)
  else if bool_decide (action = "dns_domains") then (writeDomains out (ts_Domains resp), "", None)
  else if bool_decide (action = "dns_snapshot") then
    match writeJSON any_codec (ts_DNSSnapshot (snapshot_again resp)) with
    | Ok text => (text, "", None)
    | Err e => ("", "", Some ("encode dns snapshot failed: " +:+ e))
    end
  else if bool_decide (action = "collect_debug") then
    let saved := if blank (ts_DebugPath resp) then "" else writeKeyValueBlock err "Saved debug snapshot" [("Path", ts_DebugPath resp)] in
    match writeJSON raw_codec (ts_DebugResult resp) with
    | Ok text => (text, saved, None)
    | Err e => ("", saved, Some ("encode debug result failed: " +:+ e))
    end
  else if bool_decide (action = "start_debug_watch") then
    block "Started debug watch" [("Watch ID", formatUint64 (ts_DebugWatchID resp)); ("Path", valueOrDash (ts_DebugPath resp))]
  else if bool_decide (action = "stop_debug_watch") then
    block "Stopped debug watch" [("Watch ID", formatUint64 (ts_DebugWatchID resp)); ("Path", valueOrDash (ts_DebugPath resp))]
  else ("", "", None).

(** ** The process *)
Record outcome := mkOutcome { out_status : Z; out_stdout : string; out_stderr : string }.

(** [fatalUsage]; what the flag package itself prints before is left out. *)
Definition usage : outcome := mkOutcome 2 "" (foldr (λ line acc, line +:+ nl +:+ acc) "" usage_lines).

(** The socket: connecting, sending a line and reading the answer. *)
Record transport := mkTransport {
  tr_dial : string → option string;
  tr_exchange : string → result (result string)
}.

Context (json_error : string → string).

(** [tr_exchange line] is an error of sending, or the result of reading the answer. *)
Definition call (tr : transport) (socket : string) (req : adminRequest) : result toolResponse :=
  match tr_dial tr socket with
  | Some e => Err ("connect admin socket failed: " +:+ e)
  | None =>
      match tr_exchange tr (tool_marshal req +:+ nl) with
      | Err e => Err ("send request failed: " +:+ e)
      | Ok (Err e) => Err ("read response failed: " +:+ e)
      | Ok (Ok line) =>
          match tool_unmarshal json_error line with
          | Err e => Err ("invalid response: " +:+ e)
          | Ok resp => Ok resp
          end
      end
  end.

(** What [main] does with the answer. *)
Definition report (out err json : bool) (action : string) (answer : result toolResponse) : outcome :=
  match answer with
  | Err e => mkOutcome 1 "" (e +:+ nl)
  | Ok resp =>
      if json then
        match writeJSON tool_response_codec (snapshot_again resp) with
        | Err e => mkOutcome 1 "" ("encode response failed: " +:+ e +:+ nl)
        | Ok text => mkOutcome (if ts_OK resp then 0 else 1) text ""
        end
      else if negb (ts_OK resp) then mkOutcome 1 "" ("admin error: " +:+ ts_Error resp +:+ nl)
      else
        let '(stdout, stderr, e) := writeResponse out err action resp in
        match e with
        | Some e => mkOutcome 1 stdout (stderr +:+ e +:+ nl)
        | None => mkOutcome 0 stdout stderr
        end
  end.

Definition cli_main (env : string → string) (out_device err_device : bool) (tr : transport) (args : list string) : outcome :=
  match parseArgs env args with
  | None => usage
  | Some (socket, json, req) =>
      report (isColorTerminal env out_device) (isColorTerminal env err_device) json (rq_Action req) (call tr socket req)
  end.
End Output.
