(* ===== verification/AdminCliInv.v ===== *)
(** * The administration tool: what it sends, what it prints, and what it does to the
    server.

    [well_typed] is the type of a request: an action, the fields it needs, those it may
    have, and the range of its numbers.  The parser yields exactly the well-typed
    requests, up to the sections' list.  The last section runs the tool against the
    server's side of the socket. *)
From S2P Require Import Prelude GoString GoText NetIP NetParse GoFlag Packet Proto ExpireMap Network Config.
From S2P Require Import UserManager Gateway ExitNode Dns DeviceList DebugStore DebugStoreInv Debug Controller.
From S2P Require Import UserInv GatewayInv DeviceAuthInv RegistrationInv StreamHub Session SessionInv Admin AdminInv.
From S2P Require Import GoJson GoJsonInv JsonCodec AdminWire AdminWireInv AdminCli CliOutput.

(** ** Numbers on the command line *)
Definition int64 (z : Z) : Prop := - 2 ^ 63 ≤ z < 2 ^ 63.

Lemma ParseInt64_range s z : ParseInt64 s = Some z → int64 z.
Proof.
  unfold ParseInt64. intros E. destruct (match chars s with "+"%char :: l => _ | _ => _ end) as [neg l].
  destruct (parse_magnitude l) as [v|]; [|done]. cbn [mbind option_bind] in E. cbv zeta in E.
  destruct ((_ <=? _) && _) eqn:H; [|done]. apply andb_true_iff in H as [?%Z.leb_le ?%Z.ltb_lt]. by simplify_eq.
Qed.

Lemma underscore_not_digit : ¬ is_digit "_"%char.
Proof. not_digit. Qed.

Lemma base_digits_dec l acc : Forall is_digit l → base_digits 10 acc l = parse_digits acc l.
Proof.
  intros Hl. revert acc. induction Hl as [|c l Hc _ IH]; intros acc; [done|]. cbn [base_digits parse_digits].
  rewrite bool_decide_eq_false_2 by (intros ->; by apply underscore_not_digit). unfold is_digit in Hc.
  unfold digit_any, decimal_digit, digit_val. cbv zeta.
  rewrite (proj2 (Z.leb_le 48 (z_of_ascii c))), (proj2 (Z.leb_le (z_of_ascii c) 57)) by lia. cbn [andb mbind option_bind].
  by rewrite (proj2 (Z.leb_gt 10 _)) by lia.
Qed.

Lemma base_prefix_decimal c l : c ≠ "0"%char → base_prefix (c :: l) = (10, c :: l).
Proof. intros Hc. destruct c as [[] [] [] [] [] [] [] []]; done. Qed.

Lemma parse_magnitude_dec z : 0 ≤ z → parse_magnitude (chars (dec z)) = Some z.
Proof.
  intros Hz. destruct (decide (z = 0)) as [->|Hn]; [done|]. pose proof (dec_digits z Hz) as Hd. pose proof (parse_dec z Hz) as Hp.
  destruct (dec_leading z) as (c & l & E & Hc); [lia|]. rewrite E in *. unfold parse_magnitude.
  rewrite base_prefix_decimal, base_digits_dec, Hp by done. simpl. rewrite bool_decide_eq_false_2; [done|].
  intros Hin. rewrite Forall_forall in Hd. by apply underscore_not_digit, Hd.
Qed.

Lemma ParseInt64_dec z : int64 z → ParseInt64 (dec z) = Some z.
Proof.
  intros [Hlo Hhi]. unfold ParseInt64.
  assert (Hrange : (- 2 ^ 63 <=? z) && (z <? 2 ^ 63) = true) by (apply andb_true_iff; split; [apply Z.leb_le|apply Z.ltb_lt]; lia).
  destruct (decide (0 ≤ z)) as [Hz|Hz].
  - pose proof (parse_magnitude_dec z Hz) as Hp. pose proof (dec_digits z Hz) as Hd.
    destruct (chars (dec z)) as [|c l] eqn:E; [by apply dec_nonempty in E|]. inversion_clear Hd as [|? ? Hc _].
    assert (Hs : (match c :: l with
      | "+"%char :: l => (false, l) | "-"%char :: l => (true, l) | l => (false, l) end) = (false, c :: l)).
    { unfold is_digit in Hc. destruct c as [[] [] [] [] [] [] [] []]; try done; by destruct Hc as [H1 H2]; (destruct H1 || destruct H2). }
    rewrite Hs, Hp. simpl. by rewrite Hrange.
  - destruct z as [|p|p]; [lia|lia|]. change (dec (Z.neg p)) with ("-" +:+ dec (Z.pos p)).
    change (chars ("-" +:+ dec (Z.pos p))) with ("-"%char :: chars (dec (Z.pos p))).
    cbv beta iota. rewrite parse_magnitude_dec by lia. cbn [mbind option_bind]. cbv zeta. change (- Z.pos p) with (Z.neg p). by rewrite Hrange.
Qed.

(** ** Flags *)

(** The variables hold values of their flags' kinds, and numbers in range. *)
Definition same_kind (v w : flag_value) : Prop :=
  match v, w with VString _, VString _ | VInt _, VInt _ | VBool _, VBool _ => True | _, _ => False end.
Definition value_ok (v : flag_value) : Prop := match v with VInt z => int64 z | _ => True end.
Definition flags_ok (fs : FlagSet) : Prop := Forall (λ f, value_ok (fl_default f)) fs.
Definition vars_ok (fs : FlagSet) (vars : Vars) : Prop := ∀ x v, vars !! x = Some v →
  value_ok v ∧ ∃ f, f ∈ fs ∧ fl_var f = x ∧ same_kind v (fl_default f).

Lemma same_kind_refl v : same_kind v v.
Proof. by destruct v. Qed.

Lemma formal_elem fs name f : formal fs name = Some f → f ∈ fs.
Proof.
  unfold formal. destruct (list_find _ fs) as [[i f']|] eqn:E; [|done]. intros [= <-].
  apply list_find_Some in E as [E _]. by eapply list_elem_of_lookup_2.
Qed.

Lemma set_value_ok fs f value vars vars' :
  f ∈ fs → vars_ok fs vars → set_value f value vars = Some vars' → vars_ok fs vars'.
Proof.
  intros Hf Hok E. unfold set_value in E.
  destruct (match fl_default f with VString _ => _ | _ => _ end) as [v|] eqn:Ev; [|done].
  cbn [mbind option_bind] in E. injection E as <-. intros x w. rewrite lookup_insert_Some. intros [[<- <-]|[_ Hx]]; [|by apply Hok].
  assert (Hv : value_ok v ∧ same_kind v (fl_default f)); [|naive_solver].
  destruct (fl_default f); simplify_eq; [done| |].
  - destruct (ParseInt64 value) eqn:Ez; simplify_eq/=. split; [by eapply ParseInt64_range|done].
  - destruct (ParseBool value) eqn:Ez; by simplify_eq/=.
Qed.

Lemma Parse_ok fs vars args vars' rest : vars_ok fs vars → Parse fs vars args = Some (vars', rest) → vars_ok fs vars'.
Proof.
  remember (length args) as n eqn:Hn. revert vars args Hn. induction (lt_wf n) as [n _ IH]. intros vars args -> Hok E.
  destruct args as [|s args]; cbn [Parse] in E; [by simplify_eq|].
  destruct (classify s) as [| | |body]; simplify_eq; [done..|]. destruct (name_value body) as [name value].
  destruct (formal fs name) as [f|] eqn:Ef; [|done]. cbn [mbind option_bind] in E. apply formal_elem in Ef.
  destruct (is_bool f); [|destruct value as [value|]; [|destruct args as [|value args]; [done|]]].
  all: destruct (set_value f _ vars) as [vars1|] eqn:Es; [|done]; cbn [mbind option_bind] in E;
    pose proof (set_value_ok _ _ _ _ _ Ef Hok Es); eapply IH; [| |done..]; [|done]; simpl; lia.
Qed.

Lemma declare_ok fs : flags_ok fs → vars_ok fs (declare fs).
Proof.
  intros Hfs. unfold flags_ok in Hfs. rewrite Forall_forall in Hfs.
  assert (Hgen : ∀ l vars, l ⊆ fs → vars_ok fs vars → vars_ok fs (foldl (λ vars f, <[fl_var f := fl_default f]> vars) vars l)).
  { intros l. induction l as [|f l IH]; intros vars Hsub Hok; [done|]. cbn [foldl].
    assert (Hf : f ∈ fs) by (apply Hsub; left). apply IH; [intros g Hg; apply Hsub; by right|].
    intros x v. rewrite lookup_insert_Some. intros [[<- <-]|[_ Hx]]; [|by apply Hok].
    split; [by apply Hfs|]. exists f. split; [done|]. split; [done|apply same_kind_refl]. }
  apply Hgen; [done|]. intros x v. by rewrite lookup_empty.
Qed.

Lemma var_int_ok fs args vars rest x : flags_ok fs → Parse fs (declare fs) args = Some (vars, rest) → int64 (var_int vars x).
Proof.
  intros Hfs E. apply Parse_ok in E; [|by apply declare_ok]. unfold var_int.
  destruct (vars !! x) as [[]|] eqn:Ex; [done|by apply E in Ex as [? _]|done..].
Qed.

(** A flag written with its value after an equals sign. *)
Definition flag_arg (name value : string) : string := "--" +:+ name +:+ "=" +:+ value.
Definition flag_name (name : string) : Prop :=
  match chars name with c :: l => c ≠ "-"%char ∧ c ≠ "="%char ∧ "="%char ∉ l | [] => False end.
#[export] Instance flag_name_dec name : Decision (flag_name name).
Proof. unfold flag_name. destruct (chars name); apply _. Defined.

Lemma index_byte_app c l k : c ∉ l → index_byte c (l ++ c :: k) = Some (length l).
Proof.
  induction l as [|a l IH]; simpl; [by rewrite bool_decide_eq_true_2|]. intros Hn. apply not_elem_of_cons in Hn as [Hne Hn].
  rewrite bool_decide_eq_false_2 by congruence. by rewrite IH.
Qed.

Lemma classify_body c l : c ≠ "-"%char → c ≠ "="%char → match c :: l with
  | [] => BadSyntax | "-"%char :: _ | "="%char :: _ => BadSyntax | _ => Flagged (c :: l) end = Flagged (c :: l).
Proof. intros H1 H2. destruct c as [[] [] [] [] [] [] [] []]; done. Qed.

Lemma Parse_flag fs vars name value f args : flag_name name → formal fs name = Some f →
  Parse fs vars (flag_arg name value :: args) = (vars ← set_value f value vars; Parse fs vars args).
Proof.
  unfold flag_name. intros Hname Hf. destruct (chars name) as [|c l] eqn:En; [done|]. destruct Hname as (H1 & H2 & H3).
  assert (Hc : chars (flag_arg name value) = "-"%char :: "-"%char :: c :: (l ++ "="%char :: chars value)).
  { unfold flag_arg. rewrite chars_app, chars_app, En, chars_app. done. }
  assert (Hclass : classify (flag_arg name value) = Flagged (c :: (l ++ "="%char :: chars value))).
  { unfold classify. rewrite Hc. rewrite bool_decide_eq_true_2 by done. cbv zeta.
    rewrite bool_decide_eq_false_2 by done. cbn [andb]. by apply classify_body. }
  assert (Hnv : name_value (c :: (l ++ "="%char :: chars value)) = (name, Some value)).
  { unfold name_value. rewrite index_byte_app by done. rewrite take_app_length, Nat.add_1_r.
    change (l ++ "="%char :: chars value) with (l ++ ["="%char] ++ chars value). rewrite app_assoc, drop_app_length'.
    - rewrite <-En. unfold chars. by rewrite !String.string_of_list_ascii_of_string.
    - rewrite length_app. simpl. lia. }
  cbn [Parse]. rewrite Hclass, Hnv, Hf. cbn [mbind option_bind from_option default]. by destruct (is_bool f).
Qed.

(** ** The type of a request *)
Inductive field := FName | FDomain | FGatewayID | FUserID | FIDFilter | FNameFilter | FGroup | FDeviceID.
Inductive number := NTTLSeconds | NTimeoutSec | NDurationSec.
#[export] Instance field_eq_dec : EqDecision field.
Proof. solve_decision. Defined.
#[export] Instance number_eq_dec : EqDecision number.
Proof. solve_decision. Defined.

Definition text_of (f : field) (r : adminRequest) : string :=
  match f with
  | FName => rq_Name r | FDomain => rq_Domain r | FGatewayID => rq_GatewayID r | FUserID => rq_UserID r
  | FIDFilter => rq_IDFilter r | FNameFilter => rq_NameFilter r | FGroup => rq_Group r | FDeviceID => rq_DeviceID r
  end.
Definition number_of (n : number) (r : adminRequest) : Z :=
  match n with NTTLSeconds => rq_TTLSeconds r | NTimeoutSec => rq_TimeoutSec r | NDurationSec => rq_DurationSec r end.

(** Where a flag's value comes from. *)
Inductive part := Text (f : field) | Number (n : number) | All | Sections.
#[export] Instance part_eq_dec : EqDecision part.
Proof. solve_decision. Defined.

(** An action: the words that name it, its flags and operand, the fields that cannot be
    empty and what else the request satisfies. *)
Record request_type := mkType {
  rt_words : list string; rt_flags : list (string * part); rt_operand : option field;
  rt_needs : list field; rt_check : adminRequest → Prop
}.

Definition any : adminRequest → Prop := λ _, True.
Definition one_target (r : adminRequest) : Prop := rq_All r = bool_decide (rq_DeviceID r = "").
Definition name_or_device (r : adminRequest) : Prop := rq_Name r = "" ∨ (rq_UserID r ≠ "" ∧ rq_DeviceID r = "").

Definition user_flag : string * part := ("id", Text FUserID).
Definition group_flag : string * part := ("group", Text FGroup).
Definition device_flag : string * part := ("device-id", Text FDeviceID).
Definition name_flag : string * part := ("name", Text FName).
Definition debug_flags : list (string * part) := [name_flag; ("userId", Text FUserID); group_flag; ("timeoutSec", Number NTimeoutSec)].

Definition request_types : list (string * request_type) :=
  [("version", mkType ["version"] [] None [] any);
   ("create_user", mkType ["user"; "create"] [user_flag; group_flag] None [FUserID] any);
   ("list_users", mkType ["user"; "list"] [("id", Text FIDFilter); ("name", Text FNameFilter)] None [] any);
   ("list_device", mkType ["device"; "list"] [user_flag] None [FUserID] any);
   ("issue_device_ticket", mkType ["device"; "issue-auth-ticket"] [user_flag; group_flag; ("ttl-seconds", Number NTTLSeconds)]
      None [FUserID] any);
   ("extend_device_expiry", mkType ["device"; "extend-expiry"]
      [user_flag; group_flag; device_flag; ("all", All); ("ttl-seconds", Number NTTLSeconds)] None [FUserID] one_target);
   ("delete_device", mkType ["device"; "delete"] [user_flag; group_flag; device_flag] None [FUserID; FDeviceID] any);
   ("rename_device", mkType ["device"; "rename"] [user_flag; group_flag; device_flag; name_flag] None
      [FUserID; FDeviceID; FName] any);
   ("gateway_list", mkType ["gateway"; "--list"] [] None [] any);
   ("gateway_enlist", mkType ["gateway"] [("enlist", Text FGatewayID)] None [FGatewayID] any);
   ("gateway_delist", mkType ["gateway"] [("delist", Text FGatewayID)] None [FGatewayID] any);
   ("exit_node_list", mkType ["exit-node"; "list"] [user_flag] None [] any);
   ("exit_node_approve", mkType ["exit-node"; "approve"] [user_flag; name_flag] (Some FDeviceID) [] name_or_device);
   ("exit_node_revoke", mkType ["exit-node"; "revoke"] [user_flag; device_flag] None [FUserID; FDeviceID] any);
   ("dns_domains", mkType ["dnsDomains"] [] None [] any);
   ("dns_snapshot", mkType ["dnsSnapshot"] [("domain", Text FDomain); group_flag] None [FDomain] any);
   ("collect_debug", mkType ["collectDebug"] (debug_flags ++ [("sections", Sections)]) None [FName] any);
   ("start_debug_watch", mkType ["startDebugWatch"]
      (debug_flags ++ [("sections", Sections); ("durationSec", Number NDurationSec)]) None [FName] any);
   ("stop_debug_watch", mkType ["stopDebugWatch"] debug_flags None [FName] any)].

Definition parts (t : request_type) : list part := (rt_flags t).*2 ++ (Text <$> option_list (rt_operand t)).

(** A section is trimmed, not empty and has no comma. *)
Definition section_ok (s : string) : Prop := TrimSpace s = s ∧ s ≠ "" ∧ ","%char ∉ chars s.

(** The request has type [t]: the texts are trimmed and the needed ones are there, the
    numbers fit 64 bits, and what the action has no flag for is empty. *)
Definition has_type (t : request_type) (r : adminRequest) : Prop :=
  (∀ f, TrimSpace (text_of f r) = text_of f r) ∧ (∀ f, f ∈ rt_needs t → text_of f r ≠ "")
  ∧ (∀ f, Text f ∉ parts t → text_of f r = "")
  ∧ (∀ n, int64 (number_of n r)) ∧ (∀ n, Number n ∉ parts t → number_of n r = 0)
  ∧ Forall section_ok (rq_Sections r) ∧ (Sections ∉ parts t → rq_Sections r = [])
  ∧ (All ∉ parts t → rq_All r = false) ∧ rq_Endpoint r = "" ∧ rq_Capabilities r = [] ∧ rt_check t r.

Definition well_typed (r : adminRequest) : Prop := ∃ t, (rq_Action r, t) ∈ request_types ∧ has_type t r.

Lemma trim_front_sub dir l c : c ∈ trim_front dir l → c ∈ l.
Proof. intros Hin. destruct (trim_front_spec dir l) as (_ & p & ->). apply elem_of_app. by right. Qed.

Lemma TrimSpace_sub s c : c ∈ chars (TrimSpace s) → c ∈ chars s.
Proof.
  unfold TrimSpace. rewrite chars_of_list, elem_of_reverse. intros Hin%trim_front_sub.
  rewrite elem_of_reverse in Hin. by apply trim_front_sub in Hin.
Qed.

Lemma splitCSV_ok v : Forall section_ok (splitCSV v).
Proof.
  unfold splitCSV. apply Forall_forall. intros s [Hs Hin]%list_elem_of_filter.
  apply list_elem_of_fmap in Hin as (item & -> & Hin). split; [apply TrimSpace_idem|]. split; [done|].
  apply elem_of_split_on in Hin. intros Hc. apply Hin. apply TrimSpace_sub in Hc. by rewrite chars_of_list in Hc.
Qed.

Lemma int64_zero : int64 0.
Proof. unfold int64. lia. Qed.

Lemma blank_false s : blank s = false → TrimSpace s ≠ "".
Proof. unfold blank. by case_bool_decide. Qed.

(** A membership in a closed list is decided. *)
Ltac closed_member := exfalso; match goal with H : _ ∉ _ |- _ => apply H; apply (bool_decide_unpack _); vm_compute; exact I end.

(** The request built at the end of a command has the [i]-th type of the table. *)
Ltac solve_typed i :=
  eexists; split; [apply (list_elem_of_lookup_2 _ i); reflexivity|];
  repeat match goal with H : _ || _ = false |- _ => apply orb_false_iff in H as [? ?] end;
  split_and!;
  [ intros []; (reflexivity || apply TrimSpace_idem)
  | apply Forall_forall; repeat (apply Forall_cons_2; [eapply blank_false; eassumption|]); apply Forall_nil_2
  | intros [] ?; cbn; (reflexivity || closed_member)
  | intros []; first [exact int64_zero|eapply var_int_ok; [|eassumption]; repeat constructor; by vm_compute]
  | intros [] ?; cbn; (reflexivity || closed_member)
  | first [apply Forall_nil_2|apply splitCSV_ok]
  | intros ?; cbn; (reflexivity || closed_member)
  | intros ?; cbn; (reflexivity || closed_member)
  | reflexivity | reflexivity | try exact I ].

(** A command whose only exit is its guard. *)
Ltac solve_command i :=
  intros E; match type of E with ?f _ = _ => unfold f in E | ?f _ _ = _ => unfold f in E end;
  destruct (Parse _ _ _) as [[v rest]|] eqn:Ep; [|done]; cbn [mbind option_bind] in E;
  match type of E with (if ?g then _ else _) = _ => destruct g eqn:Hg; [done|] end;
  injection E as <-; solve_typed i.

Lemma parseUserCreate_typed args r : parseUserCreate args = Some r → well_typed r.
Proof. solve_command 1%nat. Qed.
Lemma parseUserList_typed args r : parseUserList args = Some r → well_typed r.
Proof. solve_command 2%nat. Qed.
Lemma parseDeviceList_typed args r : parseDeviceList args = Some r → well_typed r.
Proof. solve_command 3%nat. Qed.
Lemma parseDeviceIssueAuthTicket_typed args r : parseDeviceIssueAuthTicket args = Some r → well_typed r.
Proof. solve_command 4%nat. Qed.
Lemma parseDeviceExtendExpiry_typed args r : parseDeviceExtendExpiry args = Some r → well_typed r.
Proof.
  solve_command 5%nat. change (var_bool v "all" = blank (var_string v "deviceID")).
  match goal with H : bool_decide (var_bool _ _ = _) = false |- _ => apply bool_decide_eq_false in H; revert H end.
  by destruct (var_bool v "all"), (blank (var_string v "deviceID")).
Qed.
Lemma parseDeviceDelete_typed args r : parseDeviceDelete args = Some r → well_typed r.
Proof. solve_command 6%nat. Qed.
Lemma parseDeviceRename_typed args r : parseDeviceRename args = Some r → well_typed r.
Proof. solve_command 7%nat. Qed.
Lemma parseExitNodeList_typed args r : parseExitNodeList args = Some r → well_typed r.
Proof. solve_command 11%nat. Qed.
Lemma parseExitNodeRevoke_typed args r : parseExitNodeApproval "exit_node_revoke" args = Some r → well_typed r.
Proof. solve_command 13%nat. Qed.
Lemma parseDNSDomains_typed args r : parseDNSDomains args = Some r → well_typed r.
Proof. solve_command 14%nat. Qed.
Lemma parseDNSSnapshot_typed args r : parseDNSSnapshot args = Some r → well_typed r.
Proof. solve_command 15%nat. Qed.
Lemma parseCollectDebug_typed args r : parseCollectDebug args = Some r → well_typed r.
Proof. solve_command 16%nat. Qed.
Lemma parseStartDebugWatch_typed args r : parseStartDebugWatch args = Some r → well_typed r.
Proof. solve_command 17%nat. Qed.
Lemma parseStopDebugWatch_typed args r : parseStopDebugWatch args = Some r → well_typed r.
Proof. solve_command 18%nat. Qed.

Lemma parseGateway_typed args r : parseGateway args = Some r → well_typed r.
Proof.
  intros E. unfold parseGateway in E. destruct (Parse _ _ _) as [[v rest]|] eqn:Ep; [|done]. cbn [mbind option_bind] in E.
  match type of E with (if ?g then _ else _) = _ => destruct g eqn:Hg; [done|] end. apply orb_false_iff in Hg as [_ Hops].
  apply negb_false_iff, bool_decide_eq_true in Hops. unfold gateway_ops in Hops. injection E as <-.
  destruct (var_bool v "list"); [solve_typed 8%nat|].
  destruct (blank (var_string v "gatewayID")) eqn:Hg; cbn [negb]; [|solve_typed 9%nat].
  destruct (blank (var_string v "delistGatewayID")) eqn:Hd; [done|solve_typed 10%nat].
Qed.

Lemma parseExitNodeApprove_typed args r : parseExitNodeApprove args = Some r → well_typed r.
Proof.
  intros E. unfold parseExitNodeApprove in E. destruct (Parse _ _ _) as [[v rest]|] eqn:Ep; [|done]. cbn [mbind option_bind] in E.
  cbv zeta in E. case_bool_decide as Hn.
  - case_bool_decide as Hu; [done|]. cbn [orb] in E. destruct (negb _); [done|]. injection E as <-. solve_typed 12%nat.
    by right.
  - destruct rest as [|d [|]]; [done| |done]. injection E as <-. solve_typed 12%nat. by left.
Qed.

(** A subcommand's request is one of its commands'. *)
Lemma subcommand_typed (P : adminRequest → Prop) table args r :
  Forall (λ e : string * (list string → option adminRequest), ∀ args r, e.2 args = Some r → P r) table →
  subcommand table args = Some r → P r.
Proof.
  intros Hall E. destruct args as [|cmd args]; [done|]. cbn [subcommand] in E.
  destruct (list_find _ table) as [[i [name f]]|] eqn:Ef; [|done]. apply list_find_Some in Ef as [Ei _].
  rewrite Forall_forall in Hall. apply (Hall _ (list_elem_of_lookup_2 _ _ _ Ei) args). done.
Qed.

#[local] Hint Resolve parseUserCreate_typed parseUserList_typed parseDeviceList_typed parseDeviceIssueAuthTicket_typed
  parseDeviceExtendExpiry_typed parseDeviceDelete_typed parseDeviceRename_typed parseExitNodeList_typed
  parseExitNodeRevoke_typed parseDNSDomains_typed parseDNSSnapshot_typed parseCollectDebug_typed
  parseStartDebugWatch_typed parseStopDebugWatch_typed parseGateway_typed parseExitNodeApprove_typed : core.

Lemma parseVersion_typed args r : parseVersion args = Some r → well_typed r.
Proof. unfold parseVersion. case_bool_decide; [|done]. intros [= <-]. solve_typed 0%nat. Qed.

Ltac solve_subcommand := apply subcommand_typed; repeat (apply Forall_cons_2; [cbn [snd]; eauto|]); apply Forall_nil_2.

Lemma parseUser_typed args r : parseUser args = Some r → well_typed r.
Proof. solve_subcommand. Qed.
Lemma parseDevice_typed args r : parseDevice args = Some r → well_typed r.
Proof. solve_subcommand. Qed.
Lemma parseExitNode_typed args r : parseExitNode args = Some r → well_typed r.
Proof. solve_subcommand. Qed.
#[local] Hint Resolve parseVersion_typed parseUser_typed parseDevice_typed parseExitNode_typed : core.

Lemma parseCommand_typed args r : parseCommand args = Some r → well_typed r.
Proof. solve_subcommand. Qed.

(** ** Writing a request as a command line *)
Definition part_text (p : part) (r : adminRequest) : string :=
  match p with
  | Text f => text_of f r
  | Number n => dec (number_of n r)
  | All => if rq_All r then "true" else "false"
  | Sections => join_with "," (rq_Sections r)
  end.

(** The operand stands after the terminator, so that it is never taken for a flag; a
    request that names its node has none. *)
Definition command_of (t : request_type) (r : adminRequest) : list string :=
  rt_words t ++ ((λ '(name, p), flag_arg name (part_text p r)) <$> rt_flags t)
  ++ match rt_operand t with Some f => if bool_decide (rq_Name r = "") then ["--"; text_of f r] else [] | None => [] end.

Lemma ParseBool_text (b : bool) : ParseBool (if b then "true" else "false") = Some b.
Proof. by destruct b. Qed.

Lemma splitCSV_join l : Forall section_ok l → splitCSV (join_with "," l) = l.
Proof.
  intros Hall. assert (Hm : (λ item, TrimSpace (str item)) <$> split_on ","%char (chars (join_with "," l)) = match l with [] => [""] | _ => l end).
  { induction Hall as [|s l (Ht & Hn & Hc) Hall IH]; [done|].
    assert (Hs : TrimSpace (str (chars s)) = s) by (unfold chars; by rewrite String.string_of_list_ascii_of_string).
    destruct l as [|s' l]; [cbn [join_with]; rewrite split_on_no by done; cbn; by rewrite Hs|].
    change (join_with "," (s :: s' :: l)) with (s +:+ "," +:+ join_with "," (s' :: l)).
    rewrite chars_app, (chars_app ","). change (chars "," ++ ?x) with (","%char :: x).
    rewrite split_on_app, fmap_app, IH, split_on_no by done. cbn. by rewrite Hs. }
  unfold splitCSV. rewrite Hm. destruct l; [done|]. apply filter_all.
  eapply Forall_impl; [exact Hall|]. by intros ? (_ & ? & _).
Qed.

(** Reading a variable back. *)
Lemma var_string_insert vars x s : var_string (<[x := VString s]> vars) x = s.
Proof. unfold var_string. by rewrite lookup_insert_eq. Qed.
Lemma var_int_insert vars x z : var_int (<[x := VInt z]> vars) x = z.
Proof. unfold var_int. by rewrite lookup_insert_eq. Qed.
Lemma var_bool_insert vars x b : var_bool (<[x := VBool b]> vars) x = b.
Proof. unfold var_bool. by rewrite lookup_insert_eq. Qed.
Lemma var_string_other vars x y v : y ≠ x → var_string (<[y := v]> vars) x = var_string vars x.
Proof. intros. unfold var_string. by rewrite lookup_insert_ne. Qed.
Lemma var_int_other vars x y v : y ≠ x → var_int (<[y := v]> vars) x = var_int vars x.
Proof. intros. unfold var_int. by rewrite lookup_insert_ne. Qed.
Lemma var_bool_other vars x y v : y ≠ x → var_bool (<[y := v]> vars) x = var_bool vars x.
Proof. intros. unfold var_bool. by rewrite lookup_insert_ne. Qed.

Ltac read_vars := repeat first
  [ rewrite var_string_insert | rewrite var_int_insert | rewrite var_bool_insert
  | rewrite var_string_other by done | rewrite var_int_other by done | rewrite var_bool_other by done ].

Lemma set_string f value vars d : fl_default f = VString d → set_value f value vars = Some (<[fl_var f := VString value]> vars).
Proof. intros E. unfold set_value. by rewrite E. Qed.
Lemma set_number f z vars d : fl_default f = VInt d → int64 z → set_value f (dec z) vars = Some (<[fl_var f := VInt z]> vars).
Proof. intros E Hz. unfold set_value. by rewrite E, ParseInt64_dec. Qed.
Lemma set_truth f (b : bool) vars d : fl_default f = VBool d →
  set_value f (if b then "true" else "false") vars = Some (<[fl_var f := VBool b]> vars).
Proof. intros E. unfold set_value. by rewrite E, ParseBool_text. Qed.

(** One flag of a rendered command. *)
Ltac parse_flag :=
  erewrite Parse_flag; [|apply (bool_decide_unpack _); vm_compute; exact I|reflexivity];
  first [erewrite set_truth by reflexivity|erewrite set_number; [|reflexivity|eassumption]|erewrite set_string by reflexivity];
  cbn [mbind option_bind fl_var].

(** The facts of a typed request; what its action has no flag for is replaced by its
    empty value. *)
Ltac closed_true := apply (bool_decide_unpack _); vm_compute; exact I.
Ltac fact H := let E := fresh "E" in pose proof H as E; cbn in E; subst.
Ltac no_part H f := try fact (H f ltac:(closed_true)).
Ltac needed H f := try (let E := fresh "Hneed" in pose proof (H f ltac:(closed_true)) as E; cbn in E).
Ltac open_type Ht :=
  destruct Ht as (Htrim & Hneed & Hzero & Hrange & Hzeron & Hsec & Hnosec & Hall & Hend & Hcap & Hcheck);
  cbn in Hsec, Hcheck; fact Hend; fact Hcap; try fact (Hnosec ltac:(closed_true)); try fact (Hall ltac:(closed_true));
  no_part Hzero FName; no_part Hzero FDomain; no_part Hzero FGatewayID; no_part Hzero FUserID; no_part Hzero FIDFilter;
  no_part Hzero FNameFilter; no_part Hzero FGroup; no_part Hzero FDeviceID;
  no_part Hzeron NTTLSeconds; no_part Hzeron NTimeoutSec; no_part Hzeron NDurationSec;
  needed Hneed FName; needed Hneed FDomain; needed Hneed FGatewayID; needed Hneed FUserID; needed Hneed FDeviceID;
  pose proof (Hrange NTTLSeconds) as Hn1; pose proof (Hrange NTimeoutSec) as Hn2; pose proof (Hrange NDurationSec) as Hn3;
  cbn [number_of rq_TTLSeconds rq_TimeoutSec rq_DurationSec] in Hn1, Hn2, Hn3;
  pose proof (Htrim FName) as Ht1; pose proof (Htrim FDomain) as Ht2; pose proof (Htrim FGatewayID) as Ht3;
  pose proof (Htrim FUserID) as Ht4; pose proof (Htrim FIDFilter) as Ht5; pose proof (Htrim FNameFilter) as Ht6;
  pose proof (Htrim FGroup) as Ht7; pose proof (Htrim FDeviceID) as Ht8;
  cbn [text_of rq_Name rq_Domain rq_GatewayID rq_UserID rq_IDFilter rq_NameFilter rq_Group rq_DeviceID]
    in Ht1, Ht2, Ht3, Ht4, Ht5, Ht6, Ht7, Ht8;
  clear Htrim Hneed Hzero Hrange Hzeron Hnosec Hall.

(** The words select the command [parse], which reads the flags back. *)
Ltac select_command parse := match goal with
  | |- parseCommand (_ :: ?args) = ?r => change (parse args = r)
  | |- parseCommand (_ :: _ :: ?args) = ?r => change (parse args = r)
  end.
Ltac normal_args := match goal with |- parseCommand ?args = _ => let l := eval cbn in args in change args with l end.
Ltac read_flags :=
  repeat parse_flag;
  try match goal with |- context [Parse ?fs ?v ["--"; ?d]] => change (Parse fs v ["--"; d]) with (Some (v, [d])) end;
  cbn [Parse mbind option_bind]; unfold gateway_ops; read_vars;
  repeat match goal with
  | |- context [var_string (declare ?fs) ?x] => change (var_string (declare fs) x) with ""
  | |- context [var_bool (declare ?fs) ?x] => change (var_bool (declare fs) x) with false
  end;
  unfold blank; repeat match goal with H : TrimSpace ?x = ?x |- context [TrimSpace ?x] => rewrite !H end;
  repeat match goal with H : ?x ≠ "" |- context [bool_decide (?x = "")] => rewrite (bool_decide_eq_false_2 (x = "") H) end;
  rewrite ?splitCSV_join by assumption.
Ltac read_back parse := normal_args; select_command parse; unfold parse; read_flags.
Ltac next_type Hin Ht := apply elem_of_cons in Hin as [[= -> ->]|Hin]; [open_type Ht|].

Lemma command_roundtrip t r : (rq_Action r, t) ∈ request_types → has_type t r → parseCommand (command_of t r) = Some r.
Proof.
  intros Hin Ht. destruct r as [action name domain gatewayID endpoint capabilities sections userID idFilter nameFilter group
    deviceID all ttl timeout duration]. cbn in Hin. unfold request_types in Hin.
  next_type Hin Ht; [done|]. next_type Hin Ht; [by read_back parseUserCreate|]. next_type Hin Ht; [by read_back parseUserList|].
  next_type Hin Ht; [by read_back parseDeviceList|]. next_type Hin Ht; [by read_back parseDeviceIssueAuthTicket|].
  next_type Hin Ht; [read_back parseDeviceExtendExpiry; unfold one_target in Hcheck; cbn in Hcheck; subst all;
    by destruct (bool_decide (deviceID = ""))|].
  next_type Hin Ht; [by read_back parseDeviceDelete|]. next_type Hin Ht; [by read_back parseDeviceRename|].
  next_type Hin Ht; [done|]. next_type Hin Ht; [by read_back parseGateway|]. next_type Hin Ht; [by read_back parseGateway|].
  next_type Hin Ht; [by read_back parseExitNodeList|].
  next_type Hin Ht; [|next_type Hin Ht; [normal_args; select_command (parseExitNodeApproval "exit_node_revoke"); by unfold parseExitNodeApproval; read_flags|]; next_type Hin Ht; [done|];
    next_type Hin Ht; [by read_back parseDNSSnapshot|]; next_type Hin Ht; [by read_back parseCollectDebug|];
    next_type Hin Ht; [by read_back parseStartDebugWatch|]; next_type Hin Ht; [by read_back parseStopDebugWatch|];
    by apply not_elem_of_nil in Hin].
  unfold command_of. cbn [rt_operand rq_Name]. unfold name_or_device in Hcheck. cbn in Hcheck.
  destruct Hcheck as [->|[Hu ->]].
  - rewrite bool_decide_eq_true_2 by done. by read_back parseExitNodeApprove.
  - case_bool_decide as Hname; [subst name; by read_back parseExitNodeApprove|].
    read_back parseExitNodeApprove. by rewrite (bool_decide_eq_true_2 (name ≠ "")).
Qed.

(** Every action's first word is an operand, where the tool's own flags end. *)
Lemma words_operand : Forall (λ e : string * request_type, match rt_words e.2 with w :: _ => classify w = Operand | [] => False end) request_types.
Proof. vm_compute. repeat (apply Forall_cons_2; [reflexivity|]). by apply Forall_nil_2. Qed.

Lemma command_operand t r a : (a, t) ∈ request_types → ∃ w ws, command_of t r = w :: ws ∧ classify w = Operand.
Proof.
  intros Hin. pose proof words_operand as Hall. rewrite Forall_forall in Hall. apply Hall in Hin. cbn [snd] in Hin.
  unfold command_of. destruct (rt_words t) as [|w ws]; [done|]. by eexists w, _.
Qed.

Lemma request_typed env args socket json r : parseArgs env args = Some (socket, json, r) → well_typed r.
Proof.
  unfold parseArgs. destruct (Parse _ _ args) as [[v rest]|]; [|done]. cbn [mbind option_bind].
  destruct (parseCommand rest) as [req|] eqn:E; [|done]. intros [= _ _ <-]. by apply parseCommand_typed in E.
Qed.


(** C20 (roundtrip). Every well-typed request can be asked for: written as flags, with its operand after
    the terminator, it parses back to itself, on the socket and in the format given,
    whatever characters its texts have. *)
Theorem cli_roundtrip env socket (json : bool) t r : (rq_Action r, t) ∈ request_types → has_type t r →
  parseArgs env (flag_arg "socket" socket :: flag_arg "json" (if json then "true" else "false") :: command_of t r)
  = Some (socket, json, r).
Proof.
  intros Hin Ht. pose proof (command_roundtrip t r Hin Ht) as Hc. destruct (command_operand t r _ Hin) as (w & ws & E & Hw).
  rewrite E in *. unfold parseArgs. repeat parse_flag. cbn [Parse]. rewrite Hw. cbn [mbind option_bind].
  rewrite Hc. cbn [mbind option_bind]. by read_vars.
Qed.

(** ** The tool and the server *)
(** [ReadBytes] up to the newline from all that the other side sends. *)
Definition ReadLine (sent : string) : option string :=
  i ← index_byte newline (chars sent); Some (str (take (i + 1) (chars sent))).

Lemma ReadLine_whole s : newline ∉ chars s → ReadLine (s +:+ nl) = Some (s +:+ nl).
Proof.
  intros Hn. unfold ReadLine. rewrite chars_app. change (chars nl) with [newline]. rewrite index_byte_app by done. cbn [mbind option_bind].
  rewrite firstn_all2 by (rewrite length_app; simpl; lia). change [newline] with (chars nl). rewrite <-chars_app.
  unfold chars. by rewrite String.string_of_list_ascii_of_string.
Qed.

Section Effect.
Context `{UnicodeFold} `{UnicodeLower} `{UrlPackage} `{Codecs}.
Context `{ProtoMessage DebugCollectRequest} `{ProtoMessage DebugWatchStartRequest} `{ProtoMessage DebugWatchStopRequest}.
Context (o : RangeOrder) (sha256 : list byte → list byte) (hmac : string → list byte → list byte) (cfg : Config).
Context (hardTTL softLead : Z) (hasStore : bool) (version : string) (json_error : string → string).
Context (local_time : Z → string) (json_float : list ascii → list ascii) (encode_error : string).
(** What a debugging request is answered after its wait. *)
Context (later : debug_wait → Z → nat → Server → Server * adminResponse).

Abbreviation execute := (executeAdminRequest o sha256 hmac cfg hardTTL softLead hasStore version).
Abbreviation conn := (handleAdminConn o sha256 hmac cfg hardTTL softLead hasStore version (server_unmarshal json_error)).
Abbreviation tool := (cli_main local_time json_float encode_error json_error).

Definition answered (r : Server * admin_outcome) : Server * adminResponse :=
  match r.2 with Answers resp => (r.1, resp) | Waits kind id ch => later kind id ch r.1 end.

(** What the server does with the bytes sent to its socket, and what it sends back. *)
Definition served (env : AdminEnv) (sent : string) (sv : Server) : Server * string :=
  let '(sv', resp) := answered (conn env (ReadLine sent) sv) in (sv', server_sends resp).

Definition socket_of (env : AdminEnv) (sv : Server) : transport :=
  mkTransport (λ _, None) (λ sent, match ReadLine (served env sent sv).2 with Some line => Ok (Ok line) | None => Ok (Err "EOF") end).

(** The server after the tool has run. *)
Definition server_after (env : AdminEnv) (getenv : string → string) (args : list string) (sv : Server) : Server :=
  match parseArgs getenv args with Some (_, _, r) => (served env (tool_marshal r +:+ nl) sv).1 | None => sv end.

Lemma served_request env r sv : request_ok r →
  served env (tool_marshal r +:+ nl) sv
  = ((answered (execute env (request_arrives r) sv)).1, server_sends (answered (execute env (request_arrives r) sv)).2).
Proof.
  intros Hr. destruct (request_line json_error r Hr) as (Hn & _ & Hu). unfold served. rewrite ReadLine_whole by done.
  unfold handleAdminConn.
  assert (E : ∃ c s, tool_marshal r +:+ nl = String c s) by (destruct (tool_marshal r); by eexists _, _). destruct E as (c & s & E).
  change nl_text with nl in Hu. rewrite E in *. rewrite Hu. by destruct (answered (execute env (request_arrives r) sv)).
Qed.

Lemma call_served env socket r sv : request_ok r → response_ok (answered (execute env (request_arrives r) sv)).2 →
  call json_error (socket_of env sv) socket r = Ok (response_arrives (answered (execute env (request_arrives r) sv)).2).
Proof.
  intros Hr Ha. unfold call, socket_of. cbn [tr_dial tr_exchange]. rewrite served_request by done. cbn [snd].
  destruct (response_line json_error _ Ha) as (line & Hs & Hn & Hd). rewrite Hs. change nl_text with nl in *.
  rewrite ReadLine_whole by done. by rewrite Hd.
Qed.

Lemma report_status out err json action resp :
  let run := report local_time json_float encode_error out err json action (Ok resp) in
  (out_status run = 0 ∨ out_status run = 1) ∧ (out_status run = 0 → ts_OK resp = true).
Proof.
  unfold report. destruct json; [destruct (writeJSON _ _ _); [|cbn; lia]|];
    destruct (ts_OK resp); cbn; try lia; [|by auto..]; auto.
  destruct (writeResponse _ _ _ _ _ _ _) as [[? ?] [?|]]; cbn; auto.
Qed.

Lemma typed_ok r : well_typed r → request_ok r.
Proof.
  intros (t & _ & _ & _ & _ & Hn & _). split_and!; [apply (Hn NTTLSeconds)|apply (Hn NTimeoutSec)|apply (Hn NDurationSec)].
Qed.

(** The actions are plain text. *)
Lemma action_valid action : action ∈ adminReadActions → valid_text action.
Proof.
  intros Hin. assert (Hall : Forall valid_text adminReadActions); [|rewrite Forall_forall in Hall; by apply Hall].
  unfold adminReadActions. repeat (apply Forall_cons_2; [vm_compute; reflexivity|]). apply Forall_nil_2.
Qed.

(** How [float64] is written is not known, but it is a JSON number. *)
Definition floats_ok : Prop := ∀ lit, GoJsonInv.number lit → GoJsonInv.number (json_float lit).

Lemma again_ok resp : floats_ok → tool_ok resp → tool_ok (snapshot_again json_float resp).
Proof.
  intros Hf (? & ? & ? & ? & ? & ? & Hsnap & Hrest). split_and!; try done; try by destruct Hrest as (? & ? & ?).
  cbn. destruct (ts_DNSSnapshot resp) as [j|]; [|done]. destruct Hsnap as [Hn Hw]. split; [by intros ?%any_again_null|].
  intros d Hd. by apply any_again_wf; [|apply Hw].
Qed.

(** What is printed with [--json] is the answer. *)
Lemma json_report out err action resp : floats_ok → tool_ok resp →
  JsonUnmarshal tool_response_codec (out_stdout (report local_time json_float encode_error out err true action (Ok resp))) zeroToolResponse
  = Some (as_printed (snapshot_again json_float resp)).
Proof.
  intros Hf Hr. destruct (indent_roundtrip _ _ _ _ _ _ tool_response_transfers ltac:(done) (again_ok resp Hf Hr)) as (text & Et & Hu).
  unfold report, writeJSON. rewrite Et. exact Hu.
Qed.

(** C21 (safety). A command line that does not parse never reaches the server: the outcome is the
    usage, whatever is at the socket.  One that parses has exactly the effect on the
    server of its request, as it arrives over the JSON of the socket, nothing if the
    request only reads; the exit status is zero or one, and zero only if the server
    accepted the request; and with [--json] what is printed reads back as the answer. *)
Theorem cli_effect env getenv out_device err_device args sv :
  (parseArgs getenv args = None → ∀ tr, tool getenv out_device err_device tr args = usage)
  ∧ (∀ socket json r, parseArgs getenv args = Some (socket, json, r) →
      let a := answered (execute env (request_arrives r) sv) in
      let run := tool getenv out_device err_device (socket_of env sv) args in
      server_after env getenv args sv = a.1 ∧ (rq_Action r ∈ adminReadActions → a.1 = sv)
      ∧ (response_ok a.2 → (out_status run = 0 ∨ out_status run = 1) ∧ (out_status run = 0 → rs_OK a.2 = true)
          ∧ (json = true → floats_ok → JsonUnmarshal tool_response_codec (out_stdout run) zeroToolResponse
                                       = Some (as_printed (snapshot_again json_float (response_arrives a.2)))))).
Proof.
  split; [intros E tr; unfold cli_main; by rewrite E|]. intros socket json r E. cbv zeta.
  assert (Hr : request_ok r) by (by eapply typed_ok, request_typed).
  unfold server_after, cli_main. rewrite E, (served_request env r sv Hr). split; [done|]. split.
  - intros Hread.
    assert (Hread' : rq_Action (request_arrives r) ∈ adminReadActions) by (cbn; by rewrite (action_valid _ Hread)).
    by destruct (read_actions_answer o sha256 hmac cfg hardTTL softLead hasStore version env _ sv Hread') as [resp ->].
  - intros Ha. rewrite (call_served env socket r sv Hr Ha).
    destruct (report_status (isColorTerminal getenv out_device) (isColorTerminal getenv err_device) json (rq_Action r)
      (response_arrives (answered (execute env (request_arrives r) sv)).2)) as [H01 Hok].
    split_and!; [exact H01|exact Hok|]. intros -> Hf. by apply json_report, arrives_ok.
Qed.
End Effect.

(** ** Samples *)
Module SampleCli.
Definition getenv : string → string := λ _, "".
Definition rename_args : list string := ["--json"; "device"; "rename"; "-u= u-1 "; "-d"; "d"; "--name"; "n"].
Definition rename : adminRequest :=
  zeroAdminRequest <| rq_Action := "rename_device" |> <| rq_UserID := "u-1" |> <| rq_DeviceID := "d" |> <| rq_Name := "n" |>.
Definition creation : adminRequest := zeroAdminRequest <| rq_Action := "create_user" |> <| rq_UserID := "-u=1" |>.
Definition create_type : request_type := mkType ["user"; "create"] [user_flag; group_flag] None [FUserID] any.
Lemma creation_typed : has_type create_type creation.
Proof.
  split_and!;
    [ intros []; reflexivity | apply Forall_forall, Forall_singleton; by vm_compute | intros [] ?; (reflexivity || closed_member)
    | intros []; by vm_compute | intros [] ?; reflexivity | apply Forall_nil_2 | done.. ].
Qed.
Definition listing : adminRequest := zeroAdminRequest <| rq_Action := "gateway_list" |>.

(** The tool lists the gateways of a server. *)
Definition env : AdminEnv := mkAdminEnv 9 SampleUsers.ok (λ _ _, Err "no randomness") (Ok []) None Runs (λ _, Written) Written.
Definition answer : adminResponse :=
  match (@executeAdminRequest AsciiFold AsciiLower SampleGateway.url SampleSession.codecs SampleGateway.codec SampleGateway.codec
    SampleGateway.codec ascending SampleUsers.sha SampleGateway.mac SampleReg.cfg SampleReg.day minute false "1.0" env listing
    SampleSession.sv).2 with Answers resp => resp | _ => zeroAdminResponse end.
Definition later (kind : debug_wait) (id : Z) (ch : nat) (sv : Server) : Server * adminResponse := (sv, zeroAdminResponse).
Definition err : string → string := λ _, "bad".
Definition socket : transport :=
  @socket_of AsciiFold AsciiLower SampleGateway.url SampleSession.codecs SampleGateway.codec SampleGateway.codec SampleGateway.codec
    ascending SampleUsers.sha SampleGateway.mac SampleReg.cfg SampleReg.day minute false "1.0" err later env SampleSession.sv.
Definition tool_run : outcome :=
  @cli_main (λ _, "now") AsciiFold id "bad" err getenv false false socket ["gateway"; "--list"].
Definition sv_after : Server :=
  @server_after AsciiFold AsciiLower SampleGateway.url SampleSession.codecs SampleGateway.codec SampleGateway.codec SampleGateway.codec
    ascending SampleUsers.sha SampleGateway.mac SampleReg.cfg SampleReg.day minute false "1.0" err later env getenv ["gateway"; "--list"]
    SampleSession.sv.
End SampleCli.


Lemma cli_roundtrip_witness :
  command_of SampleCli.create_type SampleCli.creation = ["user"; "create"; "--id=-u=1"; "--group="]
  ∧ parseArgs SampleCli.getenv (flag_arg "socket" "/s" :: flag_arg "json" "false" :: command_of SampleCli.create_type SampleCli.creation)
    = Some ("/s", false, SampleCli.creation).
Proof.
  split; [reflexivity|]. apply (cli_roundtrip SampleCli.getenv "/s" false SampleCli.create_type SampleCli.creation).
  - apply (list_elem_of_lookup_2 _ 1%nat). reflexivity.
  - apply SampleCli.creation_typed.
Defined.

Lemma cli_effect_witness :
  SampleCli.sv_after = SampleSession.sv ∧ out_status SampleCli.tool_run = 0 ∧ rs_OK SampleCli.answer = true.
Proof.
  destruct (@cli_effect AsciiFold AsciiLower SampleGateway.url SampleSession.codecs SampleGateway.codec SampleGateway.codec
    SampleGateway.codec ascending SampleUsers.sha SampleGateway.mac SampleReg.cfg SampleReg.day minute false "1.0" SampleCli.err
    (λ _, "now") id "bad" SampleCli.later
    SampleCli.env SampleCli.getenv false false ["gateway"; "--list"] SampleSession.sv) as [_ H].
  specialize (H "/tmp/sdl-control-admin.sock" false SampleCli.listing eq_refl). cbv zeta in H.
  destruct H as (Hafter & Hread & Hanswer). change (rq_Action SampleCli.listing) with "gateway_list" in Hread.
  assert (H0 : out_status SampleCli.tool_run = 0) by (vm_compute; reflexivity).
  split; [unfold SampleCli.sv_after; rewrite Hafter; apply Hread; apply (bool_decide_unpack _); vm_compute; exact I|].
  split; [exact H0|]. apply Hanswer; [|exact H0].
  match goal with |- response_ok ?a => let v := eval vm_compute in a in replace a with v by (vm_compute; reflexivity) end.
  unfold response_ok, int64_range, unsigned. cbn. split_and!; first [lia|by left|repeat constructor; cbn; lia].
Defined.
