(* ===== verification/CliOutputInv.v ===== *)
(** * What the administration tool prints: tables line up, and colours only decorate.

    A column's offset is counted in runes, as the code counts widths.  [shows s t]
    says that a terminal that obeys the colour codes in [s] displays [t]. *)
From S2P Require Import Prelude GoString GoText NetIP NetParse GoFlag Network UserManager Gateway ExitNode.
From S2P Require Import Dns DeviceList DebugStore Admin AdminCli CliOutput.

(** ** Widths *)
Lemma RuneCount_space t : RuneCount (String " " t) = S (RuneCount t).
Proof. done. Qed.

Lemma RuneCount_before_space s t : RuneCount (s +:+ String " " t) = (RuneCount s + S (RuneCount t))%nat.
Proof. unfold RuneCount. rewrite string_runes_app by done. by rewrite length_app. Qed.

Lemma RuneCount_pad s n t : RuneCount (s +:+ spaces n +:+ "  " +:+ t) = (RuneCount s + n + 2 + RuneCount t)%nat.
Proof.
  destruct n as [|n]; [change (spaces 0 +:+ "  " +:+ t) with (String " " (String " " t))
    |change (spaces (S n) +:+ "  " +:+ t) with (String " " (spaces n +:+ "  " +:+ t))].
  - rewrite RuneCount_before_space, RuneCount_space. lia.
  - rewrite RuneCount_before_space. assert (Hn : RuneCount (spaces n +:+ "  " +:+ t) = (n + 2 + RuneCount t)%nat); [|lia].
    induction n as [|n IH]; [done|]. change (spaces (S n) +:+ "  " +:+ t) with (String " " (spaces n +:+ "  " +:+ t)).
    rewrite RuneCount_space, IH. lia.
Qed.

Lemma length_widen widths row : length (widen widths row) = length widths.
Proof. revert row. induction widths as [|w widths IH]; intros [|c row]; cbn; auto. Qed.

Lemma widen_lookup widths row i w : widths !! i = Some w →
  ∃ w', widen widths row !! i = Some w' ∧ (w ≤ w')%nat ∧ ∀ c, row !! i = Some c → (RuneCount (raw c) ≤ w')%nat.
Proof.
  revert row i. induction widths as [|w0 widths IH]; intros [|c row] [|i] Hi; cbn in *; simplify_eq.
  - exists w. split_and!; [done|lia|done].
  - exists w. split_and!; [done|lia|done].
  - eexists. split_and!; [done|lia|]. intros ? [= <-]. lia.
  - by apply IH.
Qed.

Lemma widths_grow rows widths i w : widths !! i = Some w → ∃ w', foldl widen widths rows !! i = Some w' ∧ (w ≤ w')%nat.
Proof.
  revert widths w. induction rows as [|row rows IH]; intros widths w Hi; [by exists w|]. cbn [foldl].
  destruct (widen_lookup widths row i w Hi) as (w1 & H1 & Hle & _). destruct (IH _ _ H1) as (w2 & H2 & Hle2). exists w2. split; [done|lia].
Qed.

Lemma length_widened rows widths : length (foldl widen widths rows) = length widths.
Proof. revert widths. induction rows as [|row rows IH]; intros widths; [done|]. cbn [foldl]. by rewrite IH, length_widen. Qed.

Lemma length_column_widths headers rows : length (column_widths headers rows) = length headers.
Proof. unfold column_widths. by rewrite length_widened, length_fmap. Qed.

(** Every column is as wide as its header and as each of its cells. *)
Lemma column_wide headers rows i w : column_widths headers rows !! i = Some w →
  (∀ h, headers !! i = Some h → (RuneCount h ≤ w)%nat)
  ∧ (∀ row c, row ∈ rows → row !! i = Some c → (RuneCount (raw c) ≤ w)%nat).
Proof.
  unfold column_widths. intros Hw. split.
  - intros h Hh. destruct (widths_grow rows (RuneCount <$> headers) i (RuneCount h)) as (w' & Hw' & Hle);
      [by rewrite list_lookup_fmap, Hh|]. rewrite Hw in Hw'. by simplify_eq.
  - intros row c Hrow Hc. assert (Hgen : ∀ widths, foldl widen widths rows !! i = Some w → (RuneCount (raw c) ≤ w)%nat); [|by eapply Hgen].
    clear Hw. induction Hrow as [row rows|row row' rows Hrow IH]; intros widths Hw; cbn [foldl] in Hw; [|by eapply IH].
    assert (Hlen : is_Some (widths !! i)).
    { apply lookup_lt_is_Some. apply lookup_lt_Some in Hw. by rewrite length_widened, length_widen in Hw. }
    destruct Hlen as [w0 H0]. destruct (widen_lookup widths row i w0 H0) as (w1 & H1 & _ & Hcell).
    destruct (widths_grow rows _ i w1 H1) as (w2 & H2 & Hle). rewrite Hw in H2. simplify_eq. specialize (Hcell c Hc). lia.
Qed.

(** ** Columns *)
Fixpoint column_offset (widths : list nat) (i : nat) : nat :=
  match widths, i with w :: widths', S i' => w + 2 + column_offset widths' i' | _, _ => 0 end.

(** The [i]-th text of the line starts at the offset of column [i]. *)
Definition placed (line : string) (widths : list nat) (i : nat) (text : string) : Prop :=
  ∃ before after, line = before +:+ text +:+ after ∧ RuneCount before = column_offset widths i.

Lemma render_placed {A} (pad : A → nat → bool → string) (text : A → string) widths cells i a :
  (∀ c w last, c ∈ cells → pad c w last = text c +:+ padding (text c) w last) →
  (∀ j w c, widths !! j = Some w → cells !! j = Some c → (RuneCount (text c) ≤ w)%nat) →
  (i < length widths)%nat → cells !! i = Some a → placed (render_cells pad widths cells) widths i (text a).
Proof.
  revert cells i. induction widths as [|w widths IH]; intros cells i Hpad Hw Hi Ha; [cbn in Hi; lia|].
  destruct cells as [|c cells]; [done|]. destruct i as [|i]; cbn in Ha; simplify_eq.
  - cbn [render_cells]. rewrite Hpad by left. exists "", (padding (text a) w (is_last widths) +:+ render_cells pad widths cells).
    split; [by rewrite string_app_assoc|done].
  - cbn [length] in Hi. destruct (IH cells i) as (before & after & E & Hb); [intros; apply Hpad; by right|intros j; apply (Hw (S j))|lia|done|].
    destruct widths as [|w' widths']; [cbn in Hi; lia|]. assert (Hl : is_last (w' :: widths') = false) by done.
    cbn [render_cells] in *. rewrite Hpad by left. rewrite Hl, E. unfold padding. cbv iota.
    exists (text c +:+ spaces (w - RuneCount (text c)) +:+ "  " +:+ before), after. split; [by rewrite !string_app_assoc|].
    rewrite RuneCount_pad, Hb. cbn [column_offset]. pose proof (Hw 0%nat w c eq_refl eq_refl). lia.
Qed.

(** The lines of a table without colours: the header's, then the rows'. *)
Definition table_lines (headers : list string) (rows : list (list tableCell)) : list string :=
  let widths := column_widths headers rows in
  render_cells padCell widths headers :: (render_cells padRenderedCell widths <$> rows).

(** The texts of its cells. *)
Definition row_texts (row : list tableCell) : list string := raw <$> row.
Definition table_texts (headers : list string) (rows : list (list tableCell)) : list (list string) := headers :: (row_texts <$> rows).

Definition unlines (lines : list string) : string := foldr (λ line acc, line +:+ nl +:+ acc) "" lines.

Definition plain_row (row : list tableCell) : Prop := Forall (λ c, rendered c = raw c) row.

Lemma renderTable_lines headers rows : headers ≠ [] → renderTable false headers rows = unlines (table_lines headers rows).
Proof.
  intros Hh. unfold renderTable. rewrite bool_decide_eq_false_2 by done. cbv zeta. unfold table_lines, unlines. cbn [foldr].
  f_equal. f_equal. by rewrite foldr_fmap.
Qed.

(** Without colours every table is a header line and a line per row, and in all of them
    the text of column [i] starts at the same offset: two runes after the widest text
    of the column before it, header included. *)
Theorem columns_aligned headers rows : headers ≠ [] → Forall plain_row rows →
  renderTable false headers rows = unlines (table_lines headers rows)
  ∧ length (table_lines headers rows) = S (length rows)
  ∧ ∀ k line texts i text, table_lines headers rows !! k = Some line → table_texts headers rows !! k = Some texts →
      texts !! i = Some text → (i < length headers)%nat → placed line (column_widths headers rows) i text.
Proof.
  intros Hh Hplain. split; [by apply renderTable_lines|]. split; [cbn; by rewrite length_fmap|].
  intros k line texts i text Hline Htexts Htext Hi. rewrite <-(length_column_widths headers rows) in Hi.
  destruct k as [|k].
  - injection Hline as <-. injection Htexts as <-. apply (render_placed padCell (λ h, h)); [done| |done|done].
    intros j w h Hw Hj. by apply (proj1 (column_wide headers rows j w Hw)).
  - change ((render_cells padRenderedCell (column_widths headers rows) <$> rows) !! k = Some line) in Hline.
    change ((row_texts <$> rows) !! k = Some texts) in Htexts. rewrite list_lookup_fmap in Hline. rewrite list_lookup_fmap in Htexts. destruct (rows !! k) as [row|] eqn:Erow; [|done]. cbn in Hline, Htexts. simplify_eq.
    unfold row_texts in Htext. rewrite list_lookup_fmap in Htext. destruct (row !! i) as [c|] eqn:Ec; [|done]. cbn in Htext. simplify_eq.
    assert (Hr : plain_row row) by (by eapply Forall_lookup_1).
    unfold plain_row in Hr. rewrite Forall_forall in Hr. apply (render_placed padRenderedCell raw); [| |done|done].
    + intros c' w last Hc'. unfold padRenderedCell. by rewrite (Hr c' Hc').
    + intros j w c' Hw Hj. apply (proj2 (column_wide headers rows j w Hw) row); [by eapply list_elem_of_lookup_2|done].
Qed.

Module SampleTable.
Definition headers : list string := ["ID"; "NAME"].
Definition rows : list (list tableCell) := [[plainCell "u-1"; plainCell "Ann"]; [plainCell "u"; plainCell "-"]].
End SampleTable.

Lemma columns_aligned_witness : placed "u    -   " (column_widths SampleTable.headers SampleTable.rows) 1 "-"
  ∧ column_offset (column_widths SampleTable.headers SampleTable.rows) 1 = 5%nat.
Proof.
  split; [|reflexivity].
  eapply (proj2 (proj2 (columns_aligned SampleTable.headers SampleTable.rows ltac:(done) ltac:(repeat constructor))) 2%nat);
    [reflexivity|reflexivity|reflexivity|cbn; lia].
Defined.

(** ** Colours *)

(** What a terminal displays: the text outside the escape sequences, which end at an
    [m]; [inside] one nothing is displayed. *)
Fixpoint displayed (inside : bool) (l : list ascii) : list ascii :=
  match l with
  | [] => []
  | c :: l' =>
      if inside then displayed (negb (bool_decide (c = "m"%char))) l'
      else if bool_decide (c = esc) then displayed true l' else c :: displayed false l'
  end.

Definition shows (s t : string) : Prop := ∀ l, displayed false (chars s ++ l) = chars t ++ displayed false l.

Definition clean (s : string) : Prop := esc ∉ chars s.

Lemma shows_clean s : clean s → shows s s.
Proof.
  unfold clean, shows. intros Hs l. induction (chars s) as [|c cs IH]; [done|]. apply not_elem_of_cons in Hs as [Hc Hs].
  cbn [app displayed]. rewrite bool_decide_eq_false_2 by congruence. by rewrite IH.
Qed.

Lemma shows_app s s' t t' : shows s t → shows s' t' → shows (s +:+ s') (t +:+ t').
Proof. intros H1 H2 l. by rewrite !chars_app, <-!app_assoc, H1, H2. Qed.

(** *** Texts without escape sequences *)
Lemma clean_app s t : clean s → clean t → clean (s +:+ t).
Proof. unfold clean. intros. rewrite chars_app, elem_of_app. tauto. Qed.
Lemma clean_spaces n : clean (spaces n).
Proof. unfold clean. induction n as [|n IH]; cbn; [apply not_elem_of_nil|]. by apply not_elem_of_cons. Qed.
Lemma clean_dec z : 0 ≤ z → clean (dec z).
Proof. intros Hz. unfold clean. apply dec_no_char; [not_digit|done]. Qed.
Lemma clean_closed s : bool_decide (esc ∈ chars s) = false → clean s.
Proof. unfold clean. by case_bool_decide. Qed.
Lemma clean_pad s w last : clean s → clean (padCell s w last).
Proof.
  intros Hs. unfold padCell, padding. apply clean_app; [done|]. apply clean_app; [apply clean_spaces|].
  destruct last; by apply clean_closed.
Qed.
Lemma clean_dash s : clean s → clean (valueOrDash s).
Proof. intros Hs. unfold valueOrDash. destruct (blank s); [by apply clean_closed|done]. Qed.
Lemma clean_csv l : Forall clean l → clean (formatCSV l).
Proof.
  intros Hl. unfold formatCSV. case_bool_decide; [by apply clean_closed|]. clear -Hl. induction Hl as [|s l Hs Hl IH]; [by apply clean_closed|].
  destruct l as [|s' l]; [done|]. change (join_with "," (s :: s' :: l)) with (s +:+ "," +:+ join_with "," (s' :: l)).
  apply clean_app; [done|]. apply clean_app; [by apply clean_closed|done].
Qed.
Lemma clean_counted title {A} (l : list A) : clean title → clean (counted title l).
Proof.
  intros Ht. unfold counted. repeat apply clean_app; [done|by apply clean_closed|apply clean_dec; lia|by apply clean_closed].
Qed.
Lemma clean_auth d : clean (formatAuthState d).
Proof. unfold formatAuthState. repeat case_match; by apply clean_closed. Qed.

Create HintDb clean.
#[export] Hint Resolve clean_dash clean_csv clean_auth clean_pad clean_counted : clean.
#[export] Hint Extern 2 (clean (String _ _)) => (apply clean_closed; reflexivity) : clean.

(** *** Styled texts *)
Lemma shows_code code : bool_decide (code ∈ ["0"; "1"; "31"; "32"; "33"; "34"; "36"; "90"]) → shows (ansi code) "".
Proof.
  intros Hin%bool_decide_unpack l. repeat (apply elem_of_cons in Hin as [->|Hin]; [reflexivity|]). by apply not_elem_of_nil in Hin.
Qed.

Lemma shows_wrap enabled text code : shows code "" → clean text → shows (wrap enabled text code) text.
Proof.
  intros Hcode Ht. unfold wrap. destruct (negb enabled || _); [by apply shows_clean|].
  pose proof (shows_app _ _ _ _ Hcode (shows_app _ _ _ _ (shows_clean _ Ht) (shows_code "0" I))) as Hs.
  intros l. rewrite Hs. f_equal. rewrite (chars_app ""), (chars_app text). cbn. by rewrite app_nil_r.
Qed.

Lemma shows_code2 c1 c2 : shows c1 "" → shows c2 "" → shows (c1 +:+ c2) "".
Proof. apply shows_app. Qed.

(** The codes the tool uses. *)
Ltac code := first [apply shows_code2; apply shows_code; exact I|apply shows_code; exact I].

Definition cell_shows (c c' : tableCell) : Prop := raw c = raw c' ∧ clean (raw c) ∧ shows (rendered c) (rendered c').

Lemma shows_plainCell s : clean s → cell_shows (plainCell s) (plainCell s).
Proof. intros Hs. split; [done|]. split; [done|by apply shows_clean]. Qed.
Lemma shows_boolCell b : cell_shows (boolCell true b) (boolCell false b).
Proof. destruct b; (split; [done|]; split; [by apply clean_closed|]; cbn; apply shows_wrap; [code|by apply clean_closed]). Qed.
Lemma shows_authCell v : clean v → cell_shows (authCell true v) (authCell false v).
Proof. intros Hv. split; [done|]. split; [done|]. cbn. apply shows_wrap; [|done]. repeat case_bool_decide; code. Qed.
Lemma shows_timeCell v : clean v → cell_shows (timeCell true v) (timeCell false v).
Proof. intros Hv. split; [done|]. split; [done|]. cbn. apply shows_wrap; [|done]. repeat case_bool_decide; code. Qed.

(** *** Tables *)
Lemma widen_raw widths row row' : Forall2 cell_shows row row' → widen widths row = widen widths row'.
Proof.
  intros Hr. revert widths. induction Hr as [|c c' row row' [E _] Hr IH]; intros [|w widths]; cbn; [done..|]. by rewrite E, IH.
Qed.

Lemma column_widths_raw headers rows rows' : Forall2 (Forall2 cell_shows) rows rows' →
  column_widths headers rows = column_widths headers rows'.
Proof.
  unfold column_widths. intros Hr. generalize (RuneCount <$> headers).
  induction Hr as [|row row' rows rows' Hrow Hr IH]; intros widths; cbn; [done|]. by rewrite (widen_raw _ _ _ Hrow), IH.
Qed.

Lemma render_cells_shows widths row row' : Forall2 cell_shows row row' →
  shows (render_cells padRenderedCell widths row) (render_cells padRenderedCell widths row').
Proof.
  intros Hr. revert widths. induction Hr as [|c c' row row' (E & Hc & Hs) Hr IH]; intros [|w widths]; try (by apply shows_clean, clean_closed).
  cbn [render_cells]. apply shows_app; [|by apply IH]. unfold padRenderedCell. rewrite E. apply shows_app; [done|].
  apply shows_clean. unfold padding. apply clean_app; [apply clean_spaces|]. destruct (is_last widths); by apply clean_closed.
Qed.

Lemma render_headers_shows widths headers : Forall clean headers →
  shows (render_cells (λ h w last, style_tableHeader true (padCell h w last)) widths headers)
        (render_cells (λ h w last, style_tableHeader false (padCell h w last)) widths headers).
Proof.
  intros Hh. revert widths. induction Hh as [|h headers Hh _ IH]; intros [|w widths]; try (by apply shows_clean, clean_closed).
  cbn [render_cells]. apply shows_app; [|apply IH]. apply shows_wrap; [code|by apply clean_pad].
Qed.

Lemma shows_line s t : shows s t → shows (s +:+ nl) (t +:+ nl).
Proof. intros Hs. apply shows_app; [done|]. by apply shows_clean, clean_closed. Qed.

Lemma renderTable_shows headers rows rows' : Forall clean headers → Forall2 (Forall2 cell_shows) rows rows' →
  shows (renderTable true headers rows) (renderTable false headers rows').
Proof.
  intros Hh Hr. unfold renderTable. case_bool_decide; [by apply shows_clean, clean_closed|]. cbv zeta.
  rewrite (column_widths_raw headers rows rows' Hr). set (widths := column_widths headers rows').
  rewrite <-!string_app_assoc. apply shows_app; [by apply shows_line, render_headers_shows|].
  clearbody widths. induction Hr as [|row row' rows rows' Hrow Hr IH]; cbn [foldr]; [by apply shows_clean, clean_closed|].
  rewrite <-!string_app_assoc. apply shows_app; [by apply shows_line, render_cells_shows|done].
Qed.

Lemma titled_table_shows title headers rows rows' : clean title → Forall clean headers → Forall2 (Forall2 cell_shows) rows rows' →
  shows (titled_table true title headers rows) (titled_table false title headers rows').
Proof.
  intros Ht Hh Hr. unfold titled_table. rewrite <-!string_app_assoc. rewrite (Forall2_length _ _ _ Hr).
  apply shows_app; [apply shows_line, shows_wrap; [code|done]|].
  case_bool_decide; [|by apply renderTable_shows]. apply shows_line, shows_wrap; [code|by apply clean_closed].
Qed.

(** The rows of a table with and without colours. *)
Lemma rows_shows {A} (P : A → Prop) (cells : bool → A → list tableCell) l :
  (∀ x, P x → Forall2 cell_shows (cells true x) (cells false x)) → Forall P l →
  Forall2 (Forall2 cell_shows) (cells true <$> l) (cells false <$> l).
Proof. intros Hc. induction 1 as [|x l Hx _ IH]; [constructor|]. cbn. constructor; [by apply Hc|done]. Qed.

Section Tables.
Context (local_time : Z → string) (local_time_clean : ∀ v, clean (local_time v)).

Lemma clean_unix v : clean (formatUnix local_time v).
Proof. unfold formatUnix. destruct (v <=? 0); [by apply clean_closed|apply local_time_clean]. Qed.
#[local] Hint Resolve clean_unix : clean.

Definition clean_gateway (g : GatewayAdminView) : Prop :=
  clean (gv_GatewayID g) ∧ clean (gv_Endpoint g) ∧ Forall clean (gv_Capabilities g).
Definition clean_user (u : UMUserAdminView) : Prop :=
  clean (v_UserID u) ∧ clean (v_Name u) ∧ clean (v_Email u) ∧ clean (v_Group u) ∧ clean (v_Domain u).
Definition clean_device (d : DeviceAdminView) : Prop :=
  clean (dv_UserID d) ∧ clean (dv_Group d) ∧ clean (dv_Name d) ∧ clean (dv_DeviceID d) ∧ clean (dv_VirtualIP d).
Definition clean_exit_node (x : ExitNodeAdminView) : Prop :=
  clean (xv_UserID x) ∧ clean (xv_Name x) ∧ clean (xv_DeviceID x) ∧ clean (xv_VirtualIP x).

Ltac solve_cells := intros ? Hclean; red in Hclean; destruct_and? Hclean;
  repeat (apply Forall2_cons_2; [first [apply shows_boolCell|apply shows_plainCell|apply shows_timeCell|apply shows_authCell]; auto with clean|]);
  apply Forall2_nil_2.
Ltac solve_table := apply titled_table_shows; [auto with clean|repeat (apply Forall_cons_2; [auto with clean|]); apply Forall_nil_2|
  eapply rows_shows; [|eassumption]; solve_cells].

(** Colours change no text: a terminal shows the tables of gateways, users, devices and
    exit nodes exactly as they are written without colours, padding included, as long
    as no value holds an escape character. *)
Theorem colours_only_decorate title gateways users devices nodes :
  clean title → Forall clean_gateway gateways → Forall clean_user users → Forall clean_device devices →
  Forall clean_exit_node nodes →
  shows (writeGatewayTable local_time true gateways) (writeGatewayTable local_time false gateways)
  ∧ shows (writeUserTable local_time true users) (writeUserTable local_time false users)
  ∧ shows (writeDeviceTable local_time true title devices) (writeDeviceTable local_time false title devices)
  ∧ shows (writeExitNodeTable local_time true nodes) (writeExitNodeTable local_time false nodes).
Proof. intros Ht Hg Hu Hd Hx. split_and!; solve_table. Qed.
End Tables.

Lemma colours_only_decorate_witness :
  let gw := Build_GatewayAdminView "gw-1" "198.51.100.7:443" false true true true ["relay"] 7 in
  shows (writeGatewayTable (λ _, "now") true [gw]) (writeGatewayTable (λ _, "now") false [gw]).
Proof.
  apply (colours_only_decorate (λ _, "now") ltac:(intros; by apply clean_closed) "" [_] [] [] []);
    [by apply clean_closed| |by apply Forall_nil_2..]. apply Forall_singleton. split_and!; [by apply clean_closed..|].
  apply Forall_singleton. by apply clean_closed.
Defined.

(** The labels of a block of values are padded to twelve runes after they are styled,
    and the codes count: with colours a label of three letters or more is not padded,
    so the values do not line up. *)
Lemma coloured_label_unpadded key : (3 ≤ String.length key)%nat → Forall is_ascii7 (chars key) →
  pad_to 12 (style_label true (key +:+ ":")) = style_label true (key +:+ ":").
Proof.
  intros Hl Ha. unfold pad_to.
  assert (Hn : (12 ≤ RuneCount (style_label true (key +:+ ":")))%nat).
  { unfold style_label, wrap. cbn [negb orb]. rewrite bool_decide_eq_false_2 by (destruct key; [cbn in Hl; lia|done]).
    unfold RuneCount, string_runes. rewrite runes_ascii.
    - rewrite length_fmap. fold (chars (ansiBold +:+ (key +:+ ":") +:+ ansiReset)). rewrite !chars_app, !length_app, (length_chars key).
      change (length (chars ansiBold)) with 4%nat. change (length (chars ansiReset)) with 4%nat. change (length (chars ":")) with 1%nat. lia.
    - fold (chars (ansiBold +:+ (key +:+ ":") +:+ ansiReset)). rewrite !chars_app, !Forall_app. split; [repeat constructor|].
      split; [split; [done|repeat constructor]|repeat constructor]. }
  replace (12 - RuneCount _)%nat with 0%nat by lia. cbn. apply chars_inj. rewrite chars_app. apply app_nil_r.
Qed.
