(* ===== verification/Transport.v ===== *)
(** * Transports: [handlers/http3.go], the accept loop and the stream's closing of
    [handlers/quic.go], [handlers/ws.go], [handlers/status.go] and the loops that accept
    administration in [handlers/admin_unix.go] and [handlers/admin_http.go].

    What reaches a control session, and under which address.  The libraries' own work
    (routing after a path has been cleaned, the WebSocket handshake, QUIC) is given by
    its outcomes. *)
From S2P Require Import Prelude GoString NetIP GoText NetParse GoJson GoJsonInv JsonCodec Network UserManager Gateway ExitNode Dns.
From S2P Require Import DeviceList DebugStore Admin AdminWire.

(** ** HTTP/3 *)
Record http3_request := mkHttp3Request {
  h3_Method : string; h3_Path : string;
  h3_RemoteAddr : string;         (** [r.RemoteAddr] *)
  h3_context : option string      (** the address in the request's context *)
}.

(** [resolve] is [net.ResolveUDPAddr] and the address it prints. *)
Definition remoteAddrFromRequest (resolve : string → option string) (r : http3_request) : string :=
  match h3_context r with
  | Some addr => addr
  | None => match resolve (h3_RemoteAddr r) with Some addr => addr | None => h3_RemoteAddr r end
  end.

(** A response, or a session served at an address. *)
Inductive http3_outcome := Responds (code : Z) (body : string) | ServesSession (remoteAddr : string).

(** The handler of [/control]; [takeover] is whether the writer is an [HTTPStreamer]. *)
Definition control_handler (resolve : string → option string) (takeover : bool) (r : http3_request) : http3_outcome :=
  if bool_decide (h3_Method r ≠ "POST") then Responds 405 "method not allowed"
  else if negb takeover then Responds 500 "http3 stream takeover not supported"
  else ServesSession (remoteAddrFromRequest resolve r).

(** The mux of [StartHTTP3Server]; without a controller there is no [/control]. *)
Definition http3_mux (ctrl : bool) (resolve : string → option string) (takeover : bool) (r : http3_request) : http3_outcome :=
  if ctrl && bool_decide (h3_Path r = "/control") then control_handler resolve takeover r
  else if bool_decide (h3_Path r = "/healthz") then Responds 200 "ok"
  else Responds 404 "404 page not found".

(** [http3ControlSession.Close]: the calls in their order, and the error. *)
Inductive close_call := CancelRead | CloseReader | CloseStream.
Definition http3ControlSession_Close (cancels : bool) (readerErr streamErr : option string) : list close_call * option string :=
  ((if cancels then [CancelRead] else []) ++ [CloseReader; CloseStream],
   match readerErr with Some e => Some e | None => streamErr end).

(** ** The stream of a session *)

(** What [sync.Once] has done: [None] before the first call, then the stored error. *)
Record closing := mkClosing { cl_once : option (option string); cl_calls : list close_call }.

(** [sessionStream.close] with [closer] missing or what its [Close] does. *)
Definition sessionStream_close (closer : option (list close_call * option string)) (s : closing) : closing * option string :=
  match closer with
  | None => (s, None)
  | Some (calls, err) =>
      match cl_once s with
      | Some e => (s, e)
      | None => (mkClosing (Some err) (cl_calls s ++ calls), err)
      end
  end.

(** An error of reading: which sentinels it wraps and its text. *)
Inductive sentinel := EOF | NetClosed | ContextCanceled.
#[export] Instance sentinel_eq_dec : EqDecision sentinel.
Proof. solve_decision. Defined.
Record go_error := mkGoError { ge_is : list sentinel; ge_text : string }.

Definition isExpectedSessionReadClose (err : option go_error) : bool :=
  match err with
  | None => false
  | Some e =>
      if bool_decide (EOF ∈ ge_is e) || bool_decide (NetClosed ∈ ge_is e) || bool_decide (ContextCanceled ∈ ge_is e) then true
      else Contains (ge_text e) "NO_ERROR" || Contains (ge_text e) "Application error 0x0"
           || Contains (ge_text e) "closed network connection"
  end.

(** ** QUIC *)

(** A turn of the accept loop: the context is done, accepting fails, or a connection
    arrives whose first stream is accepted or not. *)
Inductive accept_turn := Done | AcceptFails (err : string) | Accepts (remoteAddr : string) (stream : bool).

(** [handleSession]: the session it serves. *)
Definition handleSession (remoteAddr : string) (stream : bool) : list string := if stream then [remoteAddr] else [].

(** [StartQuicServer]: the sessions served, and whether the loop has ended. *)
Fixpoint StartQuicServer (turns : list accept_turn) : list string * bool :=
  match turns with
  | [] => ([], false)
  | Done :: _ => ([], true)
  | AcceptFails _ :: turns' => StartQuicServer turns'
  | Accepts addr stream :: turns' => let '(rest, ended) := StartQuicServer turns' in (handleSession addr stream ++ rest, ended)
  end.

(** ** WebSocket *)
Inductive ws_read := WsMessage (mt : Z) (message : string) | WsReadFails (err : string).

Definition ws_reply (message : string) : string := "服务端已收到: " +:+ message.

(** The loop of [WSHandler]: [write_fails n] is the outcome of the [n]-th reply. *)
Fixpoint ws_loop (write_fails : nat → bool) (reads : list ws_read) : list (Z * string) :=
  match reads with
  | WsMessage mt message :: reads' =>
      if write_fails 0%nat then [] else (mt, ws_reply message) :: ws_loop (λ n, write_fails (S n)) reads'
  | _ => []
  end.
Definition WSHandler (upgrades : bool) (write_fails : nat → bool) (reads : list ws_read) : list (Z * string) :=
  if upgrades then ws_loop write_fails reads else [].

(** ** Status *)
Record Status := mkStatus { st_Service : string; st_Status : string }.
Section Json.
Context `{UnicodeFold}.
Definition status_fields : list (struct_field Status) :=
  [mkField "service" false string_codec st_Service (λ a r, r <| st_Service := a |>);
   mkField "status" false string_codec st_Status (λ a r, r <| st_Status := a |>)].
Definition status_codec : codec Status := struct_codec (mkStatus "" "") status_fields.

(** The type of the content and the body. *)
Definition StatusHandler : string * string :=
  ("application/json", default "" (JsonMarshal status_codec (mkStatus "sdl-control" "ok")) +:+ String (ascii_of_nat 10) "").

(** ** Administration over HTTP: the status, the type of the content and the body *)
Definition writeAdminHTTPJSON (status : Z) (resp : adminResponse) : Z * string * string :=
  (status, "application/json", server_sends resp).
End Json.

(** ** The administration socket *)

(** A turn of its accept loop: a connection, or an error, with whether it is temporary
    and whether the context is done by then. *)
Inductive admin_turn := AdminAccepts (conn : nat) | AdminAcceptFails (temporary done : bool).

(** The connections handed to [handleAdminConn], and whether the loop has ended. *)
Fixpoint admin_accept_loop (turns : list admin_turn) : list nat * bool :=
  match turns with
  | [] => ([], false)
  | AdminAccepts conn :: turns' => let '(conns, ended) := admin_accept_loop turns' in (conn :: conns, ended)
  | AdminAcceptFails temporary done :: turns' =>
      if done then ([], true) else if temporary then admin_accept_loop turns' else ([], true)
  end.

(** [closeListener], called when the context is done and when the loop ends. *)
Inductive listener_call := ListenerClose | RemoveSocket.
Record listener := mkListener { ln_once : bool; ln_calls : list listener_call }.
Definition closeListener (ln : listener) : listener :=
  if ln_once ln then ln else mkListener true (ln_calls ln ++ [ListenerClose; RemoveSocket]).

(** ** What the definitions promise *)

(** A session over HTTP/3 comes only from a POST to [/control] of a server with a
    controller, at the address of its connection. *)
Lemma http3_session_post ctrl resolve takeover r addr : http3_mux ctrl resolve takeover r = ServesSession addr ↔
  ctrl = true ∧ takeover = true ∧ h3_Path r = "/control" ∧ h3_Method r = "POST" ∧ addr = remoteAddrFromRequest resolve r.
Proof.
  unfold http3_mux, control_handler. destruct ctrl; cbn [andb]; [|repeat case_bool_decide; naive_solver].
  repeat case_bool_decide; destruct takeover; cbn [negb]; naive_solver.
Qed.

(** However often a session is closed, its stream is closed once, and every call
    returns the error of that time. *)
Lemma close_once closer s : let '(s1, e1) := sessionStream_close closer s in
  sessionStream_close closer s1 = (s1, e1).
Proof. unfold sessionStream_close. destruct closer as [[calls err]|]; [|done]. by destruct (cl_once s) as [e|] eqn:E; cbn; rewrite ?E. Qed.

(** Nothing is accepted after the context is done. *)
Lemma quic_stops turns rest : Done ∉ turns → StartQuicServer (turns ++ Done :: rest) = ((StartQuicServer turns).1, true).
Proof.
  induction turns as [|t turns IH]; [done|]. intros Hn. apply not_elem_of_cons in Hn as [Ht Hn].
  destruct t as [| |addr stream]; [done|by apply IH|]. cbn. rewrite (IH Hn). by destruct (StartQuicServer turns).
Qed.

(** The loop serves every connection up to the first error that ends it, which is one
    that is not temporary or comes when the context is done. *)
Definition ends_loop (t : admin_turn) : bool :=
  match t with AdminAccepts _ => false | AdminAcceptFails temporary done => done || negb temporary end.
Lemma admin_loop_spec turns rest : Forall (λ t, ends_loop t = false) turns →
  admin_accept_loop (turns ++ rest)
  = (omap (λ t, match t with AdminAccepts conn => Some conn | _ => None end) turns ++ (admin_accept_loop rest).1, (admin_accept_loop rest).2)
  ∧ (∀ t rest', rest = t :: rest' → ends_loop t = true → admin_accept_loop rest = ([], true)).
Proof.
  intros Hall. split.
  - induction Hall as [|t turns Ht _ IH]; [apply surjective_pairing|].
    destruct t as [conn|[] []]; try discriminate Ht; [|exact IH]. cbn [app admin_accept_loop]. by rewrite IH.
  - intros [conn|[] []] rest' -> Ht; done.
Qed.

(** However often and from wherever it is called, the socket is closed and removed once. *)
Lemma listener_closed_once n : ln_calls (Nat.iter (S n) closeListener (mkListener false [])) = [ListenerClose; RemoveSocket].
Proof.
  assert (H : Nat.iter (S n) closeListener (mkListener false []) = mkListener true [ListenerClose; RemoveSocket]); [|by rewrite H].
  induction n as [|n IH]; [done|]. change (closeListener (Nat.iter (S n) closeListener (mkListener false [])) = mkListener true [ListenerClose; RemoveSocket]).
  by rewrite IH.
Qed.

(** A monitor that reads the status as JSON finds the two fields. *)
Lemma status_reads_back `{UnicodeFold} : JsonUnmarshal status_codec StatusHandler.2 (mkStatus "" "") = Some (mkStatus "sdl-control" "ok").
Proof.
  unfold StatusHandler, JsonUnmarshal. cbn [snd].
  assert (E : parse_all (chars (default "" (JsonMarshal status_codec (mkStatus "sdl-control" "ok")) +:+ String (ascii_of_nat 10) ""))
    = Some (JObject [(chars "service", JString (chars "sdl-control")); (chars "status", JString (chars "ok"))])) by (vm_compute; reflexivity).
  rewrite E. cbn [mbind option_bind c_dec status_codec struct_codec decode_members]. unfold decode_member.
  rewrite !find_field_ascii by (apply (bool_decide_unpack _); vm_compute; exact I). vm_compute. reflexivity.
Qed.
