(* ===== verification/Startup.v ===== *)
(** * Start-up: [main.go], [config.LoadConfig] and the parts of [controller.go] that
    build the controller from the stores.

    [World] is what the process finds: its environment and arguments, files, the
    outcome of connecting, listening and reading certificates.  [boot] is [main] up to
    the moment the server listens; [log.Fatal] is the outcome [Fatal].  The log level,
    the signal handler and the certificate manager's own work are left out. *)
From S2P Require Import Prelude GoString GoText NetIP NetParse GoFlag Packet Proto ExpireMap Network Config ConfigFile UserManager.
From S2P Require Import Gateway GatewayInv Dns ExitNode DeviceList DebugStore Debug UmStore UmFile Migrations Controller GatewayFile Admin.

(** ** Small helpers *)
Fixpoint firstNonEmpty (values : list string) : string :=
  match values with
  | [] => ""
  | v :: values' => if bool_decide (TrimSpace v ≠ "") then v else firstNonEmpty values'
  end.

(** [info] is what [debug.ReadBuildInfo] returns: the module's version and the settings. *)
Definition buildVersion (Version : string) (info : option (string * list (string * string))) : string :=
  if bool_decide (TrimSpace Version ≠ "") && bool_decide (Version ≠ "dev") then Version else
  match info with
  | None => "dev"
  | Some (main, settings) =>
      let v := TrimSpace main in
      if bool_decide (v ≠ "") && bool_decide (v ≠ "(devel)") then v else
      match list_find (λ s : string * string, s.1 = "vcs.revision" ∧ TrimSpace s.2 ≠ "") settings with
      | None => "dev"
      | Some (_, setting) => "dev+" +:+ str (take 12 (chars (TrimSpace setting.2)))
      end
  end.

(** [value] is the environment variable; a number that is not positive counts as
    invalid, the product wraps. *)
Definition durationFromEnvSeconds (value : string) (fallback : Z) : Z :=
  let raw := TrimSpace value in
  if bool_decide (raw = "") then fallback else
  match Atoi raw with
  | Some n => if n <=? 0 then fallback else seconds n
  | None => fallback
  end.

(** ** The database *)

(** The outcome of one attempt: [store.Open], then [Ping]. *)
Inductive attempt := OpenFails (msg : string) | PingFails (msg : string) | Connects.

Definition attempt_error (a : attempt) : option string :=
  match a with
  | OpenFails e => Some ("open database: " +:+ e)
  | PingFails e => Some ("ping database: " +:+ e)
  | Connects => None
  end.

(** [openPostgresStore] after [i] of its attempts, [left] remain; [err] is the last error.
    The result is the number of the attempt that connected. *)
Fixpoint open_attempts (outcome : nat → attempt) (i left : nat) (err : string) : result nat :=
  match left with
  | O => Err err
  | S left' =>
      match attempt_error (outcome i) with
      | None => Ok i
      | Some e => open_attempts outcome (S i) left' e
      end
  end.
Definition openPostgresStore (outcome : nat → attempt) : result nat := open_attempts outcome 0 20 "".

(** The tables besides the migrations'. *)
Record Tables := mkTables { t_um : UMTables; t_exits : gmap (string * string) bool }.

(** ** Transport security *)
Definition VersionTLS13 : Z := 0x0304.

Inductive certificate := KeyPair (cert key : string) | AutoCert (domain httpAddr cacheDir email : string).
Inductive client_auth := NoClientCert | VerifyClientCertIfGiven | RequireAndVerifyClientCert.
#[export] Instance client_auth_eq_dec : EqDecision client_auth.
Proof. solve_decision. Defined.

Record tls_config := mkTls {
  tls_certificate : certificate; tls_MinVersion : Z; tls_ClientCAs : option string; tls_ClientAuth : client_auth
}.

(** ** The process *)
Record World := mkWorld {
  w_getenv : string → string;
  w_args : list string;
  w_exists : string → bool;
  w_read : string → result string;
  w_attempt : nat → attempt;
  w_migration_fails : mig_call → option string;
  w_db_fails : db_call → option string;
  w_commit : commit_outcome;
  w_exits_fails : option string;
  w_fs : FS;
  w_fs_fails : fs_call → string → option string;
  w_keypair : string → string → option string;
  w_pem : string → bool;
  w_listen_unix : string → option string;
  w_chmod : string → option string;
  w_listen_tcp : string → option string;
  w_now : Z;
  w_build : option (string * list (string * string))
}.

(** What the server serves: where it listens and with which state. *)
Record plan := mkPlan {
  p_config : FileConfig; p_ctrl : Controller; p_listen : string; p_tls : tls_config; p_adminSocket : string;
  p_adminHTTP : option (string * string); p_version : string; p_debug : DebugSnapshotStore
}.

Inductive boot_outcome := Fatal (msg : string) | Migrated (version : string) | Serving (p : plan).

Section Startup.
Context (o : RangeOrder) (sha256 : list byte → list byte).
Context (entries : result (list dir_entry)) (exec : string → Tables → result Tables) (Version : string).
Context `{UnicodeFold} (stored_time : Z → Z) (time_text : Z → option string)
  (parse_time : string → option Z) (json_error : string → string).

Abbreviation db_state := (Database (D := Tables)).

(** *** Configuration *)
Definition configPath (w : World) : string :=
  let cfgPath := w_getenv w "CONFIG_PATH" in
  let cfgPath := if bool_decide (cfgPath = "") then "config/config.json" else cfgPath in
  if w_exists w cfgPath then cfgPath else "config.json".

Definition load_config (w : World) : result FileConfig := LoadConfig json_error o (w_read w) (configPath w).

(** An environment variable goes before the configuration. *)
Definition setting (w : World) (name value : string) : string := firstNonEmpty [w_getenv w name; value].
Definition setting_or (w : World) (name value fallback : string) : string :=
  let v := setting w name value in if bool_decide (v = "") then fallback else v.

(** *** Certificates *)
Definition client_cert_required (w : World) (cfg : FileConfig) : result bool :=
  let v := w_getenv w "TLS_REQUIRE_CLIENT_CERT" in
  if bool_decide (v = "") then Ok (fc_RequireClientCert cfg) else
  match ParseBool v with
  | Some b => Ok b
  | None => Err ("invalid TLS_REQUIRE_CLIENT_CERT value: strconv.ParseBool: parsing " +:+ Quote v +:+ ": invalid syntax")
  end.

Definition server_certificate (w : World) (cfg : FileConfig) : result certificate :=
  let cert := setting w "TLS_CERT" (fc_TLSCertPath cfg) in
  let key := setting w "TLS_KEY" (fc_TLSKeyPath cfg) in
  if bool_decide (cert ≠ "") && bool_decide (key ≠ "") then
    match w_keypair w cert key with
    | Some e => Err ("Failed to load TLS cert/key: " +:+ e)
    | None => Ok (KeyPair cert key)
    end
  else
    let domain := firstNonEmpty [w_getenv w "AUTOCERT_DOMAIN"; fc_AutoCertDomain cfg; EffectiveDefaultDomain o (fc_base cfg)] in
    if bool_decide (domain = "") then Err "AUTOCERT_DOMAIN/domain is required when TLS cert/key are not provided" else
    Ok (AutoCert domain (setting_or w "AUTOCERT_HTTP_ADDR" (cfg_AutoCertHTTPAddr (fc_base cfg)) ":80")
          (setting_or w "CERT_CACHE_DIR" (fc_CertCacheDir cfg) "./cert-cache") (setting w "AUTOCERT_EMAIL" (fc_AutoCertEmail cfg))).

(** Client certificates are only looked at when a file of authorities is named. *)
Definition tls_plan (w : World) (cfg : FileConfig) : result tls_config :=
  let clientCAPath := setting w "TLS_CLIENT_CA" (fc_ClientCAPath cfg) in
  let? required := client_cert_required w cfg in
  let? certificate := server_certificate w cfg in
  if bool_decide (clientCAPath = "") then Ok (mkTls certificate VersionTLS13 None NoClientCert) else
  match w_read w clientCAPath with
  | Err e => Err ("failed to read client CA file: " +:+ e)
  | Ok pem =>
      if negb (w_pem w pem) then Err "failed to parse client CA PEM" else
      Ok (mkTls certificate VersionTLS13 (Some pem) (if required : bool then RequireAndVerifyClientCert else VerifyClientCertIfGiven))
  end.

(** *** The controller *)

Definition load_um (w : World) (path : string) : result UMSnapshot :=
  JSONUMStore_Load time_text parse_time json_error (w_fs_fails w) path (w_fs w).

(** The snapshot file that seeds an empty database, if one is named. *)
Definition seed_file (w : World) : option (string * result UMSnapshot) :=
  let path := w_getenv w "UM_STORE_MIGRATION_JSON_PATH" in
  if bool_decide (path = "") then None else
  Some (path, load_um w path).

Definition newUserManagerFromStore (w : World) (db : option UMTables) : option UMTables * result UserManager :=
  match db with
  | Some t =>
      let save s := pgSave stored_time o (w_db_fails w) (w_commit w) s t in
      let loaded := pgLoad o (w_db_fails w) t in
      let t' := match loaded, seed_file w with
        | Ok snapshot, Some (_, Ok seed) => if isEmptyUMSnapshot snapshot && negb (isEmptyUMSnapshot seed) then (save seed).1 else t
        | _, _ => t
        end in
      (Some t', let? snapshot := (loadUMSnapshotForPostgresStore loaded (λ s, (save s).2) (seed_file w)).1 in
                Ok (restore o (w_now w) snapshot))
  | None =>
      let path := w_getenv w "UM_STORE_JSON_PATH" in
      let path := if bool_decide (path = "") then "./data/um.json" else path in
      (None, Ok match NewUserManagerWithStore o (w_now w) (load_um w path) with Ok um => um | Err _ => NewUserManager end)
  end.

Definition stored_gateways (w : World) : gmap string string :=
  let path := w_getenv w "GATEWAY_STORE_JSON_PATH" in
  let path := if bool_decide (path = "") then "./data/gateways.json" else path in
  newGatewayApprovalStateFromStore o (JSONGatewayStore_Load json_error (w_fs_fails w) path (w_fs w)).

Definition newExitNodeApprovalStateFromStore (w : World) (db : option (gmap (string * string) bool)) : result ExitNodes :=
  match db with
  | None => Ok (mkExitNodes ∅ ∅)
  | Some rows =>
      match w_exits_fails w with
      | Some e => Err ("load exit-node approval store from postgres: " +:+ e)
      | None => Ok (mkExitNodes (loadExitNodeApprovalStateFromPostgres (ListActiveExitNodeApprovals o rows)) rows)
      end
  end.

(** [NewController]: the configuration is validated again; the tables may be seeded. *)
Definition new_controller (w : World) (cfg : Config) (db : option Tables) : option Tables * result (Config * Controller) :=
  match Validate o cfg with
  | (_, Some e) => (db, Err e)
  | (cfg, None) =>
      let '(t, um) := newUserManagerFromStore w (t_um <$> db) in
      let db := match db, t with Some d, Some t => Some (mkTables t (t_exits d)) | _, _ => db end in
      (db, let? um := um in
           let? exits := newExitNodeApprovalStateFromStore w (t_exits <$> db) in
           Ok (cfg, NewController um (initial o (stored_gateways w)) exits))
  end.

(** *** Administration *)

(** [StartAdminUnixServer] and [StartAdminHTTPServer], up to their listeners. *)
Definition StartAdminUnixServer (w : World) (socketPath : string) : option string :=
  if bool_decide (TrimSpace socketPath = "") then None else
  match w_listen_unix w socketPath with Some e => Some e | None => w_chmod w socketPath end.
Definition StartAdminHTTPServer (w : World) (addr : string) : option string :=
  match w_listen_tcp w addr with Some e => Some ("admin http listen " +:+ addr +:+ ": " +:+ e) | None => None end.

Definition admin_servers (w : World) (cfg : FileConfig) : result (string * option (string * string)) :=
  let adminSocket := setting w "ADMIN_SOCKET_PATH" "/tmp/sdl-control-admin.sock" in
  match StartAdminUnixServer w adminSocket with
  | Some e => Err ("start admin unix socket failed: " +:+ e)
  | None =>
      let addr := setting w "ADMIN_HTTP_ADDR" (fc_AdminHTTPAddr cfg) in
      let token := setting w "ADMIN_HTTP_TOKEN" (fc_AdminHTTPToken cfg) in
      if bool_decide (TrimSpace addr = "") then Ok (adminSocket, None)
      else if bool_decide (TrimSpace token = "") then Err "ADMIN_HTTP_TOKEN/admin_http_token is required when admin_http_addr is enabled"
      else match StartAdminHTTPServer w addr with
        | Some e => Err ("start admin http server failed: " +:+ e)
        | None => Ok (adminSocket, Some (addr, token))
        end
  end.

(** *** [main] *)

(** From the checked database on. *)
Definition serve (w : World) (cfg : FileConfig) (db : option Tables) : option Tables * boot_outcome :=
  let listenAddr := setting_or w "LISTEN_ADDR" (fc_ListenAddr cfg) ":443" in
  match tls_plan w cfg with
  | Err e => (db, Fatal e)
  | Ok tls =>
      let '(db, ctrl) := new_controller w (fc_base cfg) db in
      match ctrl with
      | Err e => (db, Fatal ("create controller failed: " +:+ e))
      | Ok (base, ctrl) =>
          match admin_servers w cfg with
          | Err e => (db, Fatal e)
          | Ok (socket, http) =>
              (db, Serving (mkPlan (cfg <| fc_base := base |>) ctrl listenAddr tls socket http (buildVersion Version (w_build w))
                     (newDebugSnapshotStore (w_getenv w "DEBUG_COLLECT_DIR") (w_getenv w "DEBUG_COLLECT_KEEP_PER_DEVICE")
                        (fc_DebugCollectDir cfg) (fc_DebugCollectKeepPerDevice cfg))))
          end
      end
  end.

Definition databaseURL (w : World) (cfg : FileConfig) : string := setting w "DATABASE_URL" (fc_DatabaseURL cfg).
Definition uses_database (w : World) (cfg : FileConfig) : bool := bool_decide (TrimSpace (databaseURL w cfg) ≠ "").

(** Whether there is a connection. *)
Definition connect (w : World) (cfg : FileConfig) : result bool :=
  if uses_database w cfg then let? _ := openPostgresStore (w_attempt w) in Ok true else Ok false.

(** [db] is the database at the configured address; it is not touched without one. *)
Definition boot (w : World) (db : db_state) : db_state * boot_outcome :=
  match load_config w with
  | Err e => (db, Fatal ("加载配置失败: " +:+ e))
  | Ok cfg =>
      match LatestMigrationVersion sha256 entries "control" with
      | Err e => (db, Fatal ("resolve required control schema version failed: " +:+ e))
      | Ok required =>
          match connect w cfg with
          | Err e => (db, Fatal ("database initialization failed: " +:+ e))
          | Ok has =>
              if bool_decide (head (w_args w) = Some "migrate") then
                if negb has then (db, Fatal "DATABASE_URL/database_url is required for `sdl-control migrate`") else
                match ApplyMigrations sha256 exec o (w_migration_fails w) entries (w_commit w) db with
                | (db, Some e) => (db, Fatal ("apply database schema migrations failed: " +:+ e))
                | (db, None) => (db, Migrated required)
                end
              else
                match (if has then RequireMigration (w_migration_fails w) required db else None) with
                | Some e => (db, Fatal ("database schema check failed: " +:+ e))
                | None =>
                    let '(rest, outcome) := serve w cfg (if has then Some (db_rest db) else None) in
                    (match rest with Some rest => mkDatabase (schema_migrations db) rest | None => db end, outcome)
                end
          end
      end
  end.
End Startup.
