(* ===== verification/StartupInv.v ===== *)
(** * Start-up: what has been checked when the server listens, and that the state it
    starts with satisfies the invariants of a running server. *)
From S2P Require Import Prelude GoString GoText NetIP NetParse GoFlag Packet Proto ExpireMap Network NetworkInv Config ConfigFile GoJson JsonCodec.
From S2P Require Import ConfigInv UserManager UserInv Gateway GatewayInv Punch PunchInv Dns ExitNode DeviceList DebugStore.
From S2P Require Import Debug DebugInv UmStore UmStoreInv Migrations MigrationsInv Controller ControllerInv DeviceAuth.
From S2P Require Import DeviceAuthInv Registration RegistrationInv StreamHub StreamHubInv Session SessionInv Admin ServerInv.
From S2P Require Import UmFile GatewayFile Startup.

(** ** Helpers *)
Lemma firstNonEmpty_spec values :
  (firstNonEmpty values = "" ∧ Forall (λ v, TrimSpace v = "") values) ∨
  (firstNonEmpty values ∈ values ∧ TrimSpace (firstNonEmpty values) ≠ "").
Proof.
  induction values as [|v values IH]; [left; split; [done|constructor]|]. cbn [firstNonEmpty]. case_bool_decide as Hv.
  - right. split; [left|done].
  - destruct IH as [[-> Hall]|[Hin Hne]]; [left; split; [done|by constructor]|right; split; [by right|done]].
Qed.

(** A setting is empty or not blank. *)
Lemma setting_blank w name value : TrimSpace (setting w name value) = "" ↔ setting w name value = "".
Proof.
  unfold setting. destruct (firstNonEmpty_spec [w_getenv w name; value]) as [[-> _]|[_ Hne]]; [done|].
  split; [done|]. intros E. rewrite E in Hne. done.
Qed.

Lemma open_attempts_spec outcome i left err n : open_attempts outcome i left err = Ok n →
  (i ≤ n < i + left)%nat ∧ outcome n = Connects ∧ ∀ j, (i ≤ j < n)%nat → outcome j ≠ Connects.
Proof.
  revert i err. induction left as [|left IH]; intros i err E; [done|]. cbn [open_attempts] in E.
  destruct (attempt_error (outcome i)) as [e|] eqn:Ea.
  - apply IH in E as (Hn & Hc & Hj). split; [lia|]. split; [done|]. intros j Hij.
    destruct (decide (j = i)) as [->|Hne]; [by destruct (outcome i)|]. apply Hj. lia.
  - injection E as <-. split; [lia|]. split; [by destruct (outcome i)|]. lia.
Qed.

Lemma open_attempts_total outcome i left err n : (i ≤ n < i + left)%nat → outcome n = Connects →
  is_Some (match open_attempts outcome i left err with Ok k => Some k | Err _ => None end).
Proof.
  revert i err. induction left as [|left IH]; intros i err Hn Hc; [lia|]. cbn [open_attempts].
  destruct (attempt_error (outcome i)) as [e|] eqn:Ea; [|done]. apply IH; [|done].
  destruct (decide (i = n)) as [->|Hne]; [by rewrite Hc in Ea|lia].
Qed.

(** ** Durations from the environment *)

(** The number of seconds of a setting that counts. *)
Definition env_seconds (value : string) (n : Z) : Prop := TrimSpace value ≠ "" ∧ Atoi (TrimSpace value) = Some n ∧ 0 < n.

Lemma seconds_exact n : 0 ≤ n ≤ 9223372036 → seconds n = n * second.
Proof.
  intros Hn. unfold seconds, i64. rewrite Z.mod_small; unfold second; lia.
Qed.

(** A duration from the environment is the fallback or the positive number of seconds
    given, exactly, up to 9223372036 seconds; above that the product wraps, and the
    first such value is a negative duration. *)
Theorem env_duration_bounds value fallback :
  (durationFromEnvSeconds value fallback = fallback
   ∨ ∃ n, env_seconds value n ∧ durationFromEnvSeconds value fallback = seconds n)
  ∧ (∀ n, env_seconds value n → n ≤ 9223372036 → durationFromEnvSeconds value fallback = n * second)
  ∧ durationFromEnvSeconds "9223372037" fallback < 0.
Proof.
  split_and!; [| |by vm_compute].
  - unfold durationFromEnvSeconds. cbv zeta. case_bool_decide as Hv; [by left|].
    destruct (Atoi (TrimSpace value)) as [n|] eqn:En; [|by left]. destruct (Z.leb_spec n 0); [by left|].
    right. exists n. by split.
  - intros n (Hv & Hn & Hpos) Hle. unfold durationFromEnvSeconds. cbv zeta. rewrite bool_decide_eq_false_2 by done.
    rewrite Hn. rewrite (proj2 (Z.leb_gt n 0)) by done. apply seconds_exact. lia.
Qed.

Section Boot.
Context (o : RangeOrder) (sha256 : list byte → list byte).
Context (entries : result (list dir_entry)) (exec : string → Tables → result Tables) (Version : string).
Context `{UnicodeFold} (stored_time : Z → Z) (time_text : Z → option string)
  (parse_time : string → option Z) (json_error : string → string).

Abbreviation db_state := (Database (D := Tables)).
Abbreviation main := (boot o sha256 entries exec Version stored_time time_text parse_time json_error).
Abbreviation controller := (new_controller o stored_time time_text parse_time json_error).
Abbreviation serving := (serve o Version stored_time time_text parse_time json_error).

(** ** The steps of a start that succeeds *)
Lemma serve_inv w cfg db rest p : serving w cfg db = (rest, Serving p) →
  tls_plan o w cfg = Ok (p_tls p) ∧ controller w (fc_base cfg) db = (rest, Ok (fc_base (p_config p), p_ctrl p))
  ∧ admin_servers w cfg = Ok (p_adminSocket p, p_adminHTTP p).
Proof.
  unfold serve. destruct (tls_plan o w cfg) as [tls|]; [|done].
  destruct (controller w (fc_base cfg) db) as [rest' [[base ctrl]|]] eqn:Ec; [|done].
  destruct (admin_servers w cfg) as [[socket http]|]; [|done]. intros [= <- <-]. done.
Qed.

Lemma boot_inv w db db' p : main w db = (db', Serving p) → ∃ cfg required has rest,
  load_config o json_error w = Ok cfg ∧ LatestMigrationVersion sha256 entries "control" = Ok required
  ∧ connect w cfg = Ok has ∧ (has = true → RequireMigration (w_migration_fails w) required db = None)
  ∧ serving w cfg (if has then Some (db_rest db) else None) = (rest, Serving p)
  ∧ db' = match rest with Some rest => mkDatabase (schema_migrations db) rest | None => db end.
Proof.
  unfold boot. destruct (load_config o json_error w) as [cfg|] eqn:Hc; [|done].
  destruct (LatestMigrationVersion sha256 entries "control") as [required|] eqn:Hr; [|done].
  destruct (connect w cfg) as [has|] eqn:Hh; [|done].
  case_bool_decide; [by repeat case_match|].
  destruct (if has then _ else None) as [e|] eqn:Hm; [done|].
  destruct (serving w cfg _) as [rest outcome] eqn:Es. intros [= <- ->]. exists cfg, required, has, rest.
  split_and!; try done. by intros ->.
Qed.

Lemma connect_true w cfg : connect w cfg = Ok true →
  uses_database w cfg = true ∧ ∃ n, (n < 20)%nat ∧ w_attempt w n = Connects ∧ ∀ j, (j < n)%nat → w_attempt w j ≠ Connects.
Proof.
  unfold connect. destruct (uses_database w cfg); [|done]. intros (n & Hn & _)%rbind_Ok. split; [done|]. exists n.
  apply open_attempts_spec in Hn as (Hn & Hc & Hj). split; [lia|]. split; [done|]. intros j Hjn. apply Hj. lia.
Qed.

Lemma connect_uses w cfg has : connect w cfg = Ok has → has = uses_database w cfg.
Proof. unfold connect. destruct (uses_database w cfg); [intros (n & _ & [= <-])%rbind_Ok; done|by intros [= <-]]. Qed.

Lemma load_config_checked w cfg : load_config o json_error w = Ok cfg → checked_config (fc_base cfg).
Proof.
  unfold load_config, LoadConfig. intros (data & _ & (c & _ & E)%rbind_Ok)%rbind_Ok.
  destruct (Validate o (fc_base c)) as [base [e|]] eqn:Ev; [done|]. injection E as <-. by eapply Validate_checked.
Qed.

Lemma controller_checked w base db rest base' ctrl : controller w base db = (rest, Ok (base', ctrl)) → checked_config base'.
Proof.
  unfold new_controller. destruct (Validate o base) as [c [e|]] eqn:Ev; [done|].
  destruct (newUserManagerFromStore _ _ _ _ _) as [t um]. intros [= _ E].
  apply rbind_Ok in E as (m & _ & (x & _ & [= <- _])%rbind_Ok). by eapply Validate_checked.
Qed.

Lemma tls_plan_inv w cfg tls : tls_plan o w cfg = Ok tls →
  let path := setting w "TLS_CLIENT_CA" (fc_ClientCAPath cfg) in
  tls_MinVersion tls = VersionTLS13
  ∧ ((path = "" ∧ tls_ClientAuth tls = NoClientCert)
     ∨ ∃ pem required, path ≠ "" ∧ w_read w path = Ok pem ∧ w_pem w pem = true ∧ tls_ClientCAs tls = Some pem
       ∧ client_cert_required w cfg = Ok required
       ∧ tls_ClientAuth tls = (if required then RequireAndVerifyClientCert else VerifyClientCertIfGiven)).
Proof.
  unfold tls_plan. intros (required & Hr & (cert & _ & E)%rbind_Ok)%rbind_Ok. case_bool_decide as Hp.
  - injection E as <-. split; [done|]. by left.
  - destruct (w_read w _) as [pem|] eqn:Hread; [|done]. destruct (w_pem w pem) eqn:Hpem; [|done]. injection E as <-.
    split; [done|]. right. by exists pem, required.
Qed.

Lemma admin_servers_inv w cfg socket addr token : admin_servers w cfg = Ok (socket, Some (addr, token)) →
  TrimSpace addr ≠ "" ∧ TrimSpace token ≠ "".
Proof.
  unfold admin_servers. destruct (StartAdminUnixServer _ _); [done|]. case_bool_decide; [done|]. case_bool_decide; [done|].
  destruct (StartAdminHTTPServer _ _); [done|]. by intros [= _ <- <-].
Qed.


(** Asking for client certificates without naming the authorities has no effect: no
    certificate is requested. *)
Theorem required_cert_ignored w cfg tls :
  fc_RequireClientCert cfg = true → TrimSpace (fc_ClientCAPath cfg) = "" → TrimSpace (w_getenv w "TLS_CLIENT_CA") = "" →
  tls_plan o w cfg = Ok tls → tls_ClientAuth tls = NoClientCert.
Proof.
  intros _ H1 H2 (_ & [[_ ?]|(pem & req & Hp & _)])%tls_plan_inv; [done|]. exfalso. apply Hp. unfold setting. cbn [firstNonEmpty].
  by rewrite !bool_decide_eq_false_2 by (by intros ?).
Qed.

(** ** Migrating before the start *)
Lemma Contains_char s sub c : Contains s sub = true → c ∈ chars sub → c ∈ chars s.
Proof.
  intros Hs Hc. induction s as [|a s IH]; cbn [Contains] in Hs.
  - destruct sub; [done|done].
  - apply orb_true_iff in Hs as [Hp|Hs]; [|right; by apply IH].
    assert (Hgen : ∀ t u, String.prefix t u = true → c ∈ chars t → c ∈ chars u); [|by eapply Hgen].
    clear. induction t as [|b t IH]; intros [|d u] Hp Hc; cbn in *; try done; [by apply not_elem_of_nil in Hc..|].
    destruct (ascii_dec b d) as [->|]; [|done]. apply elem_of_cons in Hc as [->|Hc]; [left|right; by apply IH].
Qed.

Lemma control_version_named v : LatestMigrationVersion sha256 entries "control" = Ok v → TrimSpace v ≠ "".
Proof.
  unfold LatestMigrationVersion. rewrite bool_decide_eq_false_2 by done. intros (ms & _ & E)%rbind_Ok.
  destruct (list_find _ _) as [[i m]|] eqn:Ef; [|done]. injection E as <-. apply list_find_Some in Ef as (_ & Hc & _).
  assert (Hu : "_"%char ∈ chars (TrimSpace (mg_version m))).
  { apply TrimSpace_keeps; [done|done|]. eapply Contains_char; [exact Hc|]. left. }
  intros E. rewrite E in Hu. by apply not_elem_of_nil in Hu.
Qed.

Lemma serve_not_migrated w cfg db v : (serving w cfg db).2 ≠ Migrated v.
Proof.
  unfold serve. destruct (tls_plan o w cfg); [|done]. destruct (controller w (fc_base cfg) db) as [rest' [[base ctrl]|]]; [|done].
  by destruct (admin_servers w cfg) as [[socket http]|].
Qed.

Lemma boot_migrated w db db1 v : main w db = (db1, Migrated v) → LatestMigrationVersion sha256 entries "control" = Ok v
  ∧ ApplyMigrations sha256 exec o (w_migration_fails w) entries (w_commit w) db = (db1, None).
Proof.
  unfold boot. destruct (load_config o json_error w) as [cfg|]; [|done].
  destruct (LatestMigrationVersion sha256 entries "control") as [required|]; [|done]. destruct (connect w cfg) as [has|]; [|done].
  case_bool_decide.
  - destruct has; [|done]. cbn [negb]. destruct (ApplyMigrations _ _ _ _ _ _ _) as [db2 [e|]]; [done|]. by intros [= <- <-].
  - destruct (if has then _ else None); [done|]. pose proof (serve_not_migrated w cfg (if has then Some (db_rest db) else None) v) as Hn.
    destruct (serving w cfg _) as [rest outcome]. intros [= _ ->]. by cbn in Hn.
Qed.

(** After a successful [migrate] the server starts on that database: the schema check
    of a start that loads its configuration and connects passes, so that what is left
    decides its outcome; and migrating again changes nothing. *)
Theorem migrate_then_boot w w' cfg db db1 v :
  main w db = (db1, Migrated v) → load_config o json_error w' = Ok cfg → connect w' cfg = Ok true →
  (∀ call, w_migration_fails w' call = None) → w_commit w' = Commits →
  (head (w_args w') ≠ Some "migrate" → (main w' db1).2 = (serving w' cfg (Some (db_rest db1))).2)
  ∧ (head (w_args w') = Some "migrate" → main w' db1 = (db1, Migrated v)).
Proof.
  intros E Hcfg Hcon Hcalm Hcommit.
  apply boot_migrated in E as (Hv & Ha). apply ApplyMigrations_Ok in Ha as (ms & rows & d & Hms & -> & _ & _ & Hin).
  pose proof (control_version_named v Hv) as Hne. unfold boot. rewrite Hcfg, Hv, Hcon. cbn [negb]. split; intros Hargs.
  - rewrite bool_decide_eq_false_2 by done.
    rewrite (migrated_accepted sha256 (w_migration_fails w') entries ms rows d "control" v) by done.
    by destruct (serving w' cfg _).
  - rewrite bool_decide_eq_true_2 by done. rewrite Hcommit. by rewrite (migrated_idle sha256 exec o _ entries ms).
Qed.

(** ** The state a start leaves *)

(** A snapshot that a manager wrote. *)
Definition written (s : UMSnapshot) : Prop := ∃ o m, saveable m ∧ s = snapshotLocked o m.

Lemma restore_written now s : written s → wf_um (restore o now s).
Proof. intros (o' & m & [Hwf _ Ht _] & ->). by rewrite restore_snapshot. Qed.

Lemma restore_table now o' m : saveable m → wf_um (restore o now (UmStoreInv.stored stored_time (snapshotLocked o' m))).
Proof. intros Hm. rewrite restore_stored by done. apply stored_manager_wf, Hm. Qed.

Lemma saveable_empty : saveable NewUserManager.
Proof.
  split; [apply wf_NewUserManager|intros ? ?|intros ? ?|intros ? ?]; cbn [policies authedDevices NewUserManager];
    by rewrite lookup_empty.
Qed.

Lemma written_empty : written emptySnapshot.
Proof.
  exists o, NewUserManager. split; [apply saveable_empty|]. unfold snapshotLocked.
  rewrite cloneAuthedDevices_id; [done|apply saveable_empty|apply saveable_empty].
Qed.

(** The stores hold what the server wrote: the tables a manager's snapshot, the files
    nothing or one. *)
Record stores_ok (w : World) (db : option Tables) : Prop := {
  sk_tables : ∀ t, db = Some t → ∃ o' m, saveable m ∧ holds stored_time (snapshotLocked o' m) (t_um t);
  sk_calm : is_Some db → ∀ call, w_db_fails w call = None;
  sk_files : ∀ path s, load_um time_text parse_time json_error w path = Ok s → written s
}.

Lemma users_start_ok w db t um : stores_ok w db → newUserManagerFromStore o stored_time time_text parse_time json_error w (t_um <$> db) = (t, Ok um) → wf_um um.
Proof.
  intros [Ht Hcalm Hf] E.
  unfold newUserManagerFromStore in E. destruct db as [tables|]; cbn [fmap option_fmap option_map] in E.
  - injection E as _ E. destruct (Ht _ eq_refl) as (o' & m & Hm & Hh).
    rewrite (pgLoad_holds stored_time o _ _ _ (Hcalm ltac:(done)) (snapshot_saveable o' m Hm) Hh) in E.
    apply rbind_Ok in E as (s & Hs & [= <-]). unfold loadUMSnapshotForPostgresStore in Hs.
    destruct (negb _); [injection Hs as <-; by apply restore_table|].
    unfold seed_file in Hs. case_bool_decide; [injection Hs as <-; by apply restore_table|].
    destruct (load_um _ _ _ _ _) as [seed|] eqn:El; [|done].
    destruct (isEmptyUMSnapshot seed); [injection Hs as <-; by apply restore_table|].
    destruct (pgSave _ _ _ _ _ _) as [? [|]]; [done|]. injection Hs as <-. by eapply restore_written, Hf.
  - injection E as _ <-. unfold NewUserManagerWithStore. destruct (load_um _ _ _ _ _) as [s|] eqn:El; cbn [rbind].
    + by eapply restore_written, Hf.
    + apply wf_NewUserManager.
Qed.

(** The server as it starts to listen. *)
Definition system_of (p : plan) : System := mkSystem (mkServer (p_ctrl p) (mkSessions newStreamHub ∅)) ∅.

Lemma controller_start_ok w base db rest base' ctrl : stores_ok w db → controller w base db = (rest, Ok (base', ctrl)) →
  ∃ um x, wf_um um ∧ ctrl = NewController um (initial o (stored_gateways o json_error w)) x.
Proof.
  intros Hst E. unfold new_controller in E. destruct (Validate o base) as [c [e|]]; [done|].
  destruct (newUserManagerFromStore _ _ _ _ _) as [t um] eqn:Eu. injection E as _ E.
  apply rbind_Ok in E as (m & -> & (x & _ & [= _ <-])%rbind_Ok). exists m, x. split; [|done]. by eapply users_start_ok.
Qed.

(** The lifetime of grants fits the server's margin. *)
Definition grant_ttl (w : World) : Z := durationFromEnvSeconds (w_getenv w "GATEWAY_GRANT_HARD_TTL_SECONDS") (24 * hour).
Definition refresh_lead (w : World) : Z := durationFromEnvSeconds (w_getenv w "GATEWAY_GRANT_SOFT_REFRESH_LEAD_SECONDS") (10 * minute).
Definition ttl_ok (w : World) : Prop := ∀ n, env_seconds (w_getenv w "GATEWAY_GRANT_HARD_TTL_SECONDS") n → 31 ≤ n ≤ 9223372036.

Lemma ttl_long w : ttl_ok w → 30 * second + 10 ^ 6 ≤ grant_ttl w.
Proof.
  intros Hok. unfold grant_ttl, durationFromEnvSeconds. cbv zeta. unfold hour, minute in *.
  case_bool_decide as Hv; [unfold second; lia|]. destruct (Atoi _) as [n|] eqn:En; [|unfold second; lia].
  destruct (Z.leb_spec n 0); [unfold second; lia|]. destruct (Hok n) as [? ?]; [done|]. rewrite seconds_exact by lia. unfold second. lia.
Qed.

(** C7 (invariant). From the stores to a running server.  If the stores hold what the server wrote
    before, then whatever sessions, frames and administrative requests come after a
    start that succeeds, with the configuration, the grant lifetime and the state that
    the start computed, the server keeps its invariants. *)
Theorem started_server_ok `{UnicodeLower} `{UrlPackage} `{Codecs} hmac ed25519 json_Valid json_Marshal
    `{ProtoMessage DebugCollectRequest} `{ProtoMessage DebugWatchStartRequest} `{ProtoMessage DebugWatchStopRequest}
    w db db' p cfg ops y :
  main w db = (db', Serving p) → load_config o json_error w = Ok cfg →
  stores_ok w (if uses_database w cfg then Some (db_rest db) else None) → ttl_ok w → uint32_decoded →
  sys_run o sha256 hmac ed25519 (fc_base (p_config p)) (grant_ttl w) (refresh_lead w) (Some (p_debug p)) json_Valid json_Marshal
    (uses_database w cfg) (p_version p) ops (system_of p) = Some y →
  sys_ok o y.
Proof.
  intros (cfg' & required & has & rest & Hcfg' & _ & Hcon & _ & Hs & _)%boot_inv Hcfg Hst Httl Hdec Hrun.
  rewrite Hcfg in Hcfg'. injection Hcfg' as <-. rewrite <-(connect_uses _ _ _ Hcon) in *.
  apply serve_inv in Hs as (_ & Hctrl & _). pose proof (controller_checked _ _ _ _ _ _ Hctrl) as Hchk.
  destruct (controller_start_ok _ _ _ _ _ _ Hst Hctrl) as (um & x & Hwf & Ec).
  unfold system_of in Hrun. rewrite Ec in Hrun. eapply sys_run_ok in Hrun as [Hok _]; [exact Hok|..].
  - by apply ttl_long.
  - exact Hchk.
  - exact Hdec.
  - exact Hwf.
  - apply wf_initial.
Qed.
End Boot.

(** ** Samples: a fresh database is migrated, then the server starts on it *)
Module SampleStartup.
#[export] Existing Instance AsciiFold.
Definition files : FileConfig :=
  mkFileConfig SampleReg.cfg "" "127.0.0.1:9000" "secret" "postgres://db" "" "" "" "/cert.pem" "/key.pem" "/ca.pem" true "" 0.
Definition env (name : string) : string := if bool_decide (name = "GATEWAY_GRANT_HARD_TTL_SECONDS") then "3600" else "".
(** The configuration file, and the database that answers at the third attempt. *)
Definition text : string := default "" (JsonMarshal config_codec files).
Definition w (args : list string) : World :=
  mkWorld env args (λ _, true) (λ _, Ok text) (λ n, if bool_decide (n = 2%nat) then Connects else PingFails "refused")
    (λ _, None) (λ _, None) Commits None ∅ (λ _ _, None) (λ _ _, None) (λ _, true) (λ _, None) (λ _, None) (λ _, None) 5 None.
Definition exec (sql : string) (t : Tables) : result Tables := Ok t.
Definition db : Database := mkDatabase None (mkTables migratedTables ∅).
Definition db1 : Database := mkDatabase (Some {["0001_control_a" := "41"; "0006_control_b" := "42"]}) (mkTables migratedTables ∅).
Abbreviation run args db :=
  (boot ascending SampleMigrations.sha SampleMigrations.entries exec "1.0" (λ t, t) (λ _, None) (λ _, None) id (w args) db).
Definition is_serving (r : boot_outcome) : bool := match r with Serving _ => true | _ => false end.

Lemma serves : ∃ db' p, run [] db1 = (db', Serving p).
Proof.
  destruct (run [] db1) as [db' out] eqn:E. assert (Hs : is_serving out = true).
  { change out with (db', out).2. rewrite <-E. vm_compute. reflexivity. }
  destruct out as [| |p]; [discriminate Hs|discriminate Hs|by exists db', p].
Qed.

Lemma migrates : run ["migrate"] db = (db1, Migrated "0006_control_b").
Proof. vm_compute. reflexivity. Qed.

Lemma loads args : load_config ascending id (w args) = Ok files.
Proof. vm_compute. reflexivity. Qed.
Lemma connects args : connect (w args) files = Ok true.
Proof. vm_compute. reflexivity. Qed.
Lemma uses args : uses_database (w args) files = true.
Proof. vm_compute. reflexivity. Qed.

(** The same configuration without a file of authorities. *)
Definition no_ca : FileConfig := files <| fc_ClientCAPath := " " |>.
Definition no_ca_tls : tls_config := mkTls (KeyPair "/cert.pem" "/key.pem") VersionTLS13 None NoClientCert.
Lemma no_ca_plan : tls_plan ascending (w []) no_ca = Ok no_ca_tls.
Proof. vm_compute. reflexivity. Qed.
Lemma no_ca_blank : TrimSpace (fc_ClientCAPath no_ca) = "".
Proof. vm_compute. reflexivity. Qed.

Lemma stores : stores_ok (λ t, t) (λ _, None) (λ _, None) id (w []) (Some (db_rest db1)).
Proof.
  split.
  - intros t [= <-]. exists ascending, NewUserManager. split; [apply saveable_empty|].
    assert (E : snapshotLocked ascending NewUserManager = emptySnapshot) by reflexivity. rewrite E. apply migrated_holds.
  - done.
  - intros path s. unfold load_um, JSONUMStore_Load, jsonLoad. cbn [w_fs_fails w_fs w]. rewrite lookup_empty. intros [= <-]. apply (written_empty ascending).
Qed.
End SampleStartup.
#[local] Existing Instance AsciiFold.


Lemma required_cert_ignored_witness :
  fc_RequireClientCert SampleStartup.no_ca = true ∧ tls_ClientAuth SampleStartup.no_ca_tls = NoClientCert.
Proof.
  split; [reflexivity|].
  apply (required_cert_ignored ascending (SampleStartup.w []) SampleStartup.no_ca SampleStartup.no_ca_tls eq_refl
    SampleStartup.no_ca_blank eq_refl SampleStartup.no_ca_plan).
Defined.

Lemma migrate_then_boot_witness : (SampleStartup.run [] SampleStartup.db1).2
    = (serve ascending "1.0" (λ t, t) (λ _, None) (λ _, None) id (SampleStartup.w []) SampleStartup.files
         (Some (db_rest SampleStartup.db1))).2.
Proof.
  apply (proj1 (migrate_then_boot ascending SampleMigrations.sha SampleMigrations.entries SampleStartup.exec
    "1.0" (λ t, t) (λ _, None) (λ _, None) id (SampleStartup.w ["migrate"]) (SampleStartup.w []) SampleStartup.files
    SampleStartup.db SampleStartup.db1 "0006_control_b" SampleStartup.migrates
    (SampleStartup.loads []) (SampleStartup.connects []) (λ _, eq_refl) eq_refl)).
  discriminate.
Defined.

Lemma started_server_ok_witness : ∃ db' p y, SampleStartup.run [] SampleStartup.db1 = (db', Serving p)
  ∧ y_server y = y_server (system_of p) ∧ sys_ok ascending y.
Proof.
  destruct SampleStartup.serves as (db' & p & E). exists db', p, (system_of p). split; [exact E|]. split; [reflexivity|].
  eapply (@started_server_ok ascending SampleMigrations.sha SampleMigrations.entries SampleStartup.exec
    "1.0" AsciiFold (λ t, t) (λ _, None) (λ _, None) id AsciiLower SampleGateway.url SampleServer.codecs SampleGateway.mac
    SampleAuth.yes (λ _, true) (λ _, Err "no encoder") SampleGateway.codec SampleGateway.codec SampleGateway.codec
    (SampleStartup.w []) SampleStartup.db1 db' p SampleStartup.files []).
  - exact E.
  - apply SampleStartup.loads.
  - rewrite SampleStartup.uses. exact SampleStartup.stores.
  - intros n (_ & Hn & _). vm_compute in Hn. injection Hn as <-. split; discriminate.
  - apply SampleReg.decoded.
  - reflexivity.
Defined.
